(* ===== verification/_CoqProject ===== *)
-Q . S2P
Prelude.v
Types.v
Platform.v
Linux.v
Zephyr.v
ZephyrSpec.v
Raw.v
Buffer.v
BufferSpec.v
Ops.v
Split.v
SplitSpec.v
LocalSpec.v
Bitmap.v
Inode.v
Block.v
FileData.v
Perm.v
Dirent.v
Path.v
File.v
Dir.v
Format.v
Core.v
Posix.v
Sync.v
LockSpec.v
SyncSpec.v
SerialSpec.v
Fuse.v
Vfs.v
Tools.v
Volume.v
BlockSpec.v
AllocSpec.v
FreeSpec.v
InodeSpec.v
VolInv.v
FileSpec.v
FileInv.v
PermSpec.v
RwSpec.v
WriteSpec.v
TruncSpec.v
DirSpec.v
PathSpec.v
EntrySpec.v
TreeSpec.v
NameSpec.v
StreamSpec.v
FsSpec.v
HandleSpec.v
RmdirSpec.v
MoveSpec.v
RenameSpec.v
MkdirSpec.v
FormatSpec.v
MountSpec.v
FuseSpec.v
Fsck.v
Ramdisk.v
Example.v
ExampleFile.v
ExampleTree.v
ZephyrProps.v
FuseProps.v
CacheProps.v
SplitProps.v
VolumeProps.v
FileProps.v
DataProps.v
InodeProps.v
TruncProps.v
DirProps.v
FsProps.v
RenameProps.v
HandleProps.v
MountProps.v
SyncProps.v
ToolsProps.v
