(* ===== verification/Prelude.v ===== *)
(** * MOFS: a verified model of the file system

    MOFS is a small file system in C99: a core (src/core) over a port
    interface (src/port) with a Linux and a Zephyr implementation (src/os), a
    POSIX-like interface (src/posix), a FUSE file system and an adapter to the
    Zephyr VFS.  This development translates all of these into Rocq and proves
    what makes them correct.

    ** The program and where its parts are modelled

    A volume is a row of blocks: superblock, inode bitmap, data bitmap, inode
    table, data blocks.  A file is an inode with the head of a singly linked
    list of list-node blocks, which hold the numbers of its data blocks; a
    directory is a file of 32-byte entries.  The core reaches the device
    through block calls that go to a write-back cache, the cache through raw
    block I/O, and that through the device calls of the port, which the Linux
    services make from system calls and the Zephyr services from sector I/O.

    - [Types]: records, byte layouts, constants and error codes (mofs_core.h,
      mofs_errno.h, mofs_dirent.h, mofs_stat.h, mofs_file.h, mofs_dir.h).
    - [Platform]: the port interface (src/port/include) as a class, the laws
      [PlatformSpec] of a port whose device works, the state [world] (port,
      caller, mount context [ctx], cache, handle tables, errno) and the error
      monad [M] over it.
    - [Linux]: src/os/linux/service over a class [LinuxOS] of system calls, as
      an instance of the port interface; with a device that works ([LinuxSpec])
      it keeps the laws.
    - [Zephyr]: src/os/zephyr/service over a class [ZephyrKernel] of kernel
      calls; [ZephyrSpec]: with a disk that works ([DiskSpec]) it keeps the
      laws of the port, so that all theorems about the core hold on it too.
    - [Raw]: the raw block I/O of mofs_block.c.
    - [Buffer]: mofs_buffer.c.  [Split]: mofs_buffer_split.c.
    - [Ops]: the interface between the core and its surroundings.  A core
      function is a program [prog A] whose steps are block calls, memory,
      clock, caller, handle tables and the core lock ([locked]: the inode
      functions take it again inside a call); the class [BlockDriver] holds the
      implementations of the block calls (unified cache, no cache; the split
      cache is in [SplitSpec]) and [interp] runs a program on a world.  [wp]
      is the meaning of a program on the abstract disk [Z -> list byte];
      [DriverSpec] is what a driver promises to make that meaning true.
    - [Bitmap], [Block]: bitmaps, block lists, allocation and release of data
      blocks with their rollbacks (mofs_block.c).  [Inode]: mofs_inode.c.
    - [FileData], [File]: mofs_file.c.  [Perm]: mofs_perm.c.  [Dirent], [Dir]:
      mofs_dir.c.  [Path]: mofs_path.c.  [Format]: mofs_format.c.  [Core]:
      mount and unmount (mofs_core.c).  [Posix]: posix.c.
    - [Sync]: threads that make POSIX calls, the core lock (os_sync.c of both
      systems) and the slots of errno (os_posix_errno.c); in the machine, a
      call is split into what it does before, inside and after the lock, and a
      schedule lets threads make one service call at a time.
    - [Fuse]: fuse_ops.c, with the request context and the filler of libfuse
      as arguments.  [Vfs]: mofs_vfs.c.  [Tools]: mkfs_mofs.c, fuse.c and
      mofs_vfs_main.c, with getopt, fuse_main and the Zephyr VFS as arguments.

    Every unsigned C expression that can wrap is written with the truncation
    of its type ([u32], [u64], ...).  Fallible functions return [Ok], [Err]
    with the C error code, or [Stuck]; memory that C leaves unspecified after
    malloc comes from the platform.

    ** Specifications

    - [Volume]: what a volume means: [vol_ok] (layout), [file_map] (the list
      nodes and data blocks of a file), [vol_files] (no block is shared or
      leaked, the bitmaps are exact).
    - [BufferSpec], [SplitSpec]: the cache invariants [cache_rep] and
      [split_rep], which relate a world to the logical disk it holds.
    - [BlockSpec], [AllocSpec], [FreeSpec], [InodeSpec], [VolInv], [FileSpec],
      [FileInv], [PermSpec], [RwSpec], [WriteSpec], [TruncSpec]: [wp] lemmas
      of the operations on blocks, inodes and files.
    - [DirSpec], [PathSpec], [EntrySpec], [TreeSpec], [StreamSpec]: what a
      directory means ([dir_entries], [dir_lookup]), the tree invariant
      [tree_ok], the walk along a path ([walk], [step]), adding and removing
      entries, directory streams.
    - [NameSpec]: the names of a tree as a graph: every inode in use has one
      proper name and is reached from the root, ["."] and [".."] lead where
      they should; what unlinking, linking and moving a name do to it.
    - [FsSpec]: the invariant [fs_ok] of the whole file system, which ties
      [vol_files], the inode bitmap, [tree_ok] and the names together; creating
      and removing files.  [RmdirSpec], [MkdirSpec]: the same for directories.
      [MoveSpec], [RenameSpec]: changes of names only, the climb along [..]
      that finds ancestors, and renaming.  [HandleSpec]: opening, closing, seeking and [stat].
    - [FormatSpec], [MountSpec]: what formatting leaves on the device, and the
      life of a block driver from mount to unmount ([DriverLife]).
    - [LocalSpec]: block drivers leave thread-local state and the handle pools
      alone ([LocalDriver]).  [LockSpec]: every program of the core releases
      the nested locks it takes, on every branch ([balanced]).
      [SyncSpec], [SerialSpec]: the invariant of the lock, and the simulation
      between interleaved calls and the same calls one after another.
    - [FuseSpec]: the POSIX calls and the directory loop of the FUSE readdir.
    - [Fsck]: executable checkers for the predicates; [Ramdisk], [Example],
      [ExampleFile], [ExampleTree]: an in-memory device and
      concrete volumes on which every theorem with hypotheses is instantiated.

    ** Theorems

    - [CacheProps], [SplitProps]: both caches behave like an array of blocks
      on every sequence of operations, a flush makes the device equal to it,
      and the two caches cannot be told apart.
    - [VolumeProps]: the record of an inode on disk, block lists, bitmap scan;
      allocation, release and their failures keep [vol_files].
    - [FileProps], [TruncProps]: read, write and truncate on whole files; on a
      file in use they keep [fs_ok].  A write is taken to begin not beyond the
      block in which the file ends; [far_write_exposes_old_bytes] shows what
      the code does otherwise.
    - [DirProps], [FsProps]: path lookup walks the tree; entries, emptiness
      and streams of directories; creating and removing a file or directory
      by its path changes exactly that name, that inode and that inode bit
      and keeps [fs_ok].  A new name is taken to fit into the blocks that the
      directory has ([has_room], [entry_room]); in a directory that has to
      grow the code loses it ([MountProps.full_directory_loses_names]).
    - [RenameProps]: renaming to a free name and over an existing one.
    - [HandleProps]: what opening a path gives, on every branch; closing
      undoes it; seeking stays inside 32 bits without a signed overflow (an
      overflow would be [Stuck]); [stat] reports the inode.
    - [MountProps]: a formatted device can be mounted and holds an empty root;
      unmounting and mounting again keeps every block.
    - [ZephyrProps]: device I/O through sectors is exact and ends, and the
      device table leaks no slots.  [FuseProps]: a FUSE readdir lists the
      directory from its cookie on.
    - [SyncProps]: mutual exclusion with the depth of the nested locks,
      linearizability, and the end of every schedule, for any number of
      threads, any driver and any recursive mutex (with another kind the first
      call that reads an inode stops, [plain_mutex_deadlocks]); the errno slots are a variable per thread while there is memory
      for them.
    - [ToolsProps]: the arguments of the FUSE program; mkfs and the Zephyr
      application with all its exercises run on devices in memory, through
      every layer.
    - [InodeProps], [DataProps]: inode allocation; errors, paths,
      permissions and the layout of a formatted volume.

    ** Bounds and fuel

    The walk along a block list is bounded by [chain_fuel], the number of data
    blocks plus one; on a volume with [vol_files] it is enough
    ([chain_fuel_enough]), and a program that exceeds it is [Stuck], which
    every theorem about a result excludes.  Volumes have at most [2^27 - 4]
    blocks, so that inode byte offsets fit the C types.  The LRU clocks are
    64-bit counters: theorems on whole programs ask that the accesses of the
    run ([run_cost]) do not exhaust them ([drv_left]).

    ** Not modelled

    Logging (os_log.c) and the mutex that the caches lock inside the core lock (but for its creation,
    which can fail).  Mounting and unmounting are not made while other threads
    run; [mount_device] takes from mofs_core_sync_init only that its mutex can
    fail to be made, the flag that it is ready already is in [Sync].  Unlocked
    reads of a handle are atomic in the model.  libfuse, the Zephyr VFS, the C
    and threads libraries and the kernels are parameters. *)

From Stdlib Require Import ZArith Lia.
From Stdlib Require Export Sorting.Sorted.
From stdpp Require Import base list list_numbers.
From coqutil Require Export Byte Word.LittleEndianList.

#[global] Open Scope Z_scope.

#[global] Arguments le_split : simpl never.
#[global] Arguments le_combine : simpl never.
#[global] Arguments byte.of_Z : simpl never.
#[global] Arguments byte.unsigned : simpl never.

(** [lia] also handles division and modulo by constants or variables. *)
Ltac Zify.zify_post_hook ::= Z.div_mod_to_equations.

(** ** Machine integers

    C's unsigned arithmetic is written as arithmetic on [Z] followed by an
    explicit truncation; [s32] and [s64] are the conversions of a value to a
    signed type (two's complement). *)

Definition u8 (x : Z) : Z := x mod 2 ^ 8.
Definition u16 (x : Z) : Z := x mod 2 ^ 16.
Definition u32 (x : Z) : Z := x mod 2 ^ 32.
Definition u64 (x : Z) : Z := x mod 2 ^ 64.
Definition s32 (x : Z) : Z := (x + 2 ^ 31) mod 2 ^ 32 - 2 ^ 31.
Definition s64 (x : Z) : Z := (x + 2 ^ 63) mod 2 ^ 64 - 2 ^ 63.

Lemma u32_small x : 0 <= x < 2 ^ 32 -> u32 x = x.
Proof. apply Z.mod_small. Qed.

Lemma u16_small x : 0 <= x < 2 ^ 16 -> u16 x = x.
Proof. apply Z.mod_small. Qed.

Lemma u64_small x : 0 <= x < 2 ^ 64 -> u64 x = x.
Proof. apply Z.mod_small. Qed.

Lemma u32_range x : 0 <= u32 x < 2 ^ 32.
Proof. by apply Z.mod_pos_bound. Qed.

Lemma s32_small x : - 2 ^ 31 <= x < 2 ^ 31 -> s32 x = x.
Proof. unfold s32. intros H. rewrite Z.mod_small; lia. Qed.

(** Integer division rounded up, the shape every block count of the code has. *)
Definition ceil_div (x d : Z) : Z := (x + d - 1) / d.

(** [ceil_div] is the least number of [d]-sized pieces that cover [x]. *)
Lemma ceil_div_spec x d : 0 < d -> d * (ceil_div x d - 1) < x <= d * ceil_div x d.
Proof. intros Hd. unfold ceil_div. pose proof (Z.div_mod (x + d - 1) d). pose proof (Z.mod_pos_bound (x + d - 1) d). lia. Qed.

Lemma ceil_div_lt x d i : 0 < d -> (i < ceil_div x d <-> d * i < x).
Proof. intros Hd. pose proof (ceil_div_spec x d Hd). split; nia. Qed.

Lemma ceil_div_unique x d k : 0 < d -> d * (k - 1) < x <= d * k -> ceil_div x d = k.
Proof. intros Hd Hk. pose proof (ceil_div_spec x d Hd). nia. Qed.

Lemma ceil_div_le x d k : 0 < d -> x <= k * d -> ceil_div x d <= k.
Proof. intros Hd Hk. pose proof (ceil_div_spec x d Hd). nia. Qed.

(** The blocks of a request that exist, in bytes. *)
Lemma clip_blocks_mul d req start c :
  0 < d -> 0 <= req -> start <= c -> Z.max 0 (Z.min req (c - start)) * d = Z.min (req * d) (c * d - start * d).
Proof. nia. Qed.

(** ** Results and the state monad of the lower layers

    A C function that returns an [int] status is modelled by [res]: [Ok] is
    status 0 together with the output parameters, [Err e] a positive
    [MOFS_E*] status.  [Stuck] is the outcome of a loop that does not end,
    and of a signed overflow. *)

Inductive res (A : Type) : Type :=
| Ok (a : A)
| Err (e : Z)
| Stuck.
Arguments Ok {A} a.
Arguments Err {A} e.
Arguments Stuck {A}.

Definition res_bind {A B} (r : res A) (k : A -> res B) : res B :=
  match r with Ok a => k a | Err e => Err e | Stuck => Stuck end.

Definition M (W A : Type) : Type := W -> W * res A.

#[global] Instance M_ret {W} : MRet (M W) := fun A x w => (w, Ok x).
#[global] Instance M_bind {W} : MBind (M W) := fun A B k m w =>
  match m w with
  | (w', Ok x) => k x w'
  | (w', Err e) => (w', Err e)
  | (w', Stuck) => (w', Stuck)
  end.

Definition fail {W A} (e : Z) : M W A := fun w => (w, Err e).
Definition gets {W A} (f : W -> A) : M W A := fun w => (w, Ok (f w)).
Definition modify {W} (f : W -> W) : M W unit := fun w => (f w, Ok tt).

(** Run [m] and hand its status to the caller instead of returning early. *)
Definition attempt {W A} (m : M W A) : M W (res A) := fun w =>
  match m w with
  | (w', Stuck) => (w', Stuck)
  | (w', r) => (w', Ok r)
  end.

Lemma M_bind_ok {W A B} (m : M W A) (k : A -> M W B) w w' x :
  m w = (w', Ok x) -> (m ≫= k) w = k x w'.
Proof. intros H. unfold mbind, M_bind. by rewrite H. Qed.

Lemma M_bind_err {W A B} (m : M W A) (k : A -> M W B) w w' e :
  m w = (w', Err e) -> (m ≫= k) w = (w', Err e).
Proof. intros H. unfold mbind, M_bind. by rewrite H. Qed.

Lemma attempt_ok {W A} (m : M W A) w w' x : m w = (w', Ok x) -> attempt m w = (w', Ok (Ok x)).
Proof. intros H. unfold attempt. by rewrite H. Qed.

(** ** Byte buffers

    Memory buffers are byte lists.  [bslice off len b] reads [len] bytes at
    [off]; [bsplice off src b] is [memcpy(b + off, src, |src|)]. *)

#[global] Instance byte_eq_dec : EqDecision byte := Byte.byte_eq_dec.

Definition bslice {A} (off len : Z) (b : list A) : list A :=
  take (Z.to_nat len) (drop (Z.to_nat off) b).

Definition bsplice {A} (off : Z) (src b : list A) : list A :=
  take (Z.to_nat off) b ++ src ++ drop (Z.to_nat off + length src) b.

(** [memset(b, 0, n)] on a fresh buffer. *)
Definition zeros (n : Z) : list byte := replicate (Z.to_nat n) (byte.of_Z 0).

Abbreviation blen b := (Z.of_nat (length b)).

Create Rewrite HintDb blen.
#[export] Hint Rewrite @length_app @length_take @length_drop @length_replicate
  @length_fmap @length_insert length_le_split @length_cons @length_nil : blen.

Lemma length_bslice {A} off len (b : list A) :
  0 <= off -> 0 <= len -> off + len <= blen b -> length (bslice off len b) = Z.to_nat len.
Proof. intros. unfold bslice. autorewrite with blen. lia. Qed.

Lemma length_bsplice {A} off (src b : list A) :
  0 <= off -> off + blen src <= blen b -> length (bsplice off src b) = length b.
Proof. intros. unfold bsplice. autorewrite with blen. lia. Qed.

Lemma length_zeros n : length (zeros n) = Z.to_nat n.
Proof. apply length_replicate. Qed.

Lemma bslice_all {A} n (b : list A) : n = blen b -> bslice 0 n b = b.
Proof. intros ->. unfold bslice. rewrite Nat2Z.id. simpl. by rewrite firstn_all. Qed.

(** Reading back what was just written. *)
Lemma bslice_bsplice_same {A} off n (src b : list A) :
  0 <= off -> n = blen src -> off + blen src <= blen b -> bslice off n (bsplice off src b) = src.
Proof.
  intros Ho -> Hb. unfold bslice, bsplice.
  rewrite drop_app_ge by (rewrite length_take; lia).
  rewrite length_take_le by lia. rewrite Nat.sub_diag, drop_0.
  rewrite Nat2Z.id. by rewrite take_app_length.
Qed.

(** ... also when the write went beyond the old end. *)
Lemma bslice_bsplice_ext {A} off n (src b : list A) :
  0 <= off <= blen b -> n = blen src -> bslice off n (bsplice off src b) = src.
Proof.
  intros Ho ->. unfold bslice, bsplice. rewrite drop_app_ge by (rewrite length_take; lia).
  rewrite length_take_le by lia. rewrite Nat.sub_diag, drop_0, Nat2Z.id. by rewrite take_app_length.
Qed.

(** A write leaves disjoint ranges alone. *)
Lemma bslice_bsplice_other {A} off o n (src b : list A) :
  0 <= off -> 0 <= o -> 0 <= n -> off + blen src <= blen b ->
  o + n <= off \/ off + blen src <= o ->
  bslice o n (bsplice off src b) = bslice o n b.
Proof.
  intros Ho Ho' Hn Hb Hd. unfold bslice, bsplice.
  apply list_eq. intros i.
  destruct (decide (i < Z.to_nat n)%nat) as [Hi|Hi].
  2: { rewrite !lookup_ge_None_2; [done| |]; rewrite length_take; lia. }
  rewrite !lookup_take_lt by lia. rewrite !lookup_drop.
  destruct Hd as [Hd|Hd].
  - rewrite lookup_app_l by (rewrite length_take; lia). by rewrite lookup_take_lt by lia.
  - rewrite lookup_app_r by (rewrite length_take; lia).
    rewrite lookup_app_r by (rewrite length_take; lia).
    rewrite lookup_drop, length_take. f_equal. lia.
Qed.

Lemma bsplice_0_all {A} (src b : list A) : length src = length b -> bsplice 0 src b = src.
Proof.
  intros H. unfold bsplice. simpl. rewrite drop_ge by lia. apply app_nil_r.
Qed.

Lemma bsplice_bslice_id {A} off n (b : list A) :
  0 <= off -> 0 <= n -> off + n <= blen b -> bsplice off (bslice off n b) b = b.
Proof.
  intros. unfold bsplice, bslice. rewrite length_take, length_drop.
  rewrite Nat.min_l by lia. rewrite <- drop_drop. rewrite (take_drop (Z.to_nat n)). apply take_drop.
Qed.

(** Nested slices compose. *)
Lemma bslice_bslice {A} o1 n1 o2 n2 (b : list A) :
  0 <= o1 -> 0 <= o2 -> 0 <= n2 -> o2 + n2 <= n1 ->
  bslice o2 n2 (bslice o1 n1 b) = bslice (o1 + o2) n2 b.
Proof.
  intros. unfold bslice. rewrite skipn_firstn_comm, take_take, drop_drop.
  rewrite Nat.min_l by lia. do 2 f_equal. lia.
Qed.

(** Reading inside what was just written. *)
Lemma bslice_bsplice_in {A} off o n (src b : list A) :
  0 <= off <= o -> 0 <= n -> o + n <= off + blen src -> off + blen src <= blen b ->
  bslice o n (bsplice off src b) = bslice (o - off) n src.
Proof.
  intros. replace o with (off + (o - off)) at 1 by lia.
  rewrite <- (bslice_bslice off (blen src)) by lia. by rewrite bslice_bsplice_same by lia.
Qed.

Lemma bslice_add {A} o n m (b : list A) :
  0 <= o -> 0 <= n -> 0 <= m -> bslice o (n + m) b = bslice o n b ++ bslice (o + n) m b.
Proof.
  intros. unfold bslice. rewrite Z2Nat.inj_add by lia.
  rewrite <- take_take_drop. f_equal. rewrite drop_drop. do 2 f_equal. lia.
Qed.

(** Writing two adjacent pieces is writing their concatenation. *)
Lemma bsplice_app {A} o (x y b : list A) :
  0 <= o -> o + blen x <= blen b ->
  bsplice (o + blen x) y (bsplice o x b) = bsplice o (x ++ y) b.
Proof.
  intros. unfold bsplice. rewrite Z2Nat.inj_add, Nat2Z.id by lia.
  rewrite length_app, <- !app_assoc.
  rewrite (app_assoc (take (Z.to_nat o) b) x).
  rewrite take_app_length' by (rewrite length_app, length_take; lia).
  rewrite drop_app_ge by (rewrite length_app, length_take; lia).
  rewrite drop_drop, length_app, length_take, <- !app_assoc. do 3 f_equal. f_equal. lia.
Qed.

Lemma bslice_zeros o n m : 0 <= o -> 0 <= n -> o + n <= m -> bslice o n (zeros m) = zeros n.
Proof. intros Ho Hn Hm. unfold bslice, zeros. rewrite drop_replicate, take_replicate. f_equal. lia. Qed.

Lemma bsplice_end {A} t (x data : list A) : blen data = t -> bsplice t x data = data ++ x.
Proof.
  intros Ht. unfold bsplice. rewrite firstn_all2 by lia. rewrite drop_ge by lia. by rewrite app_nil_r.
Qed.

Lemma bsplice_nil {A} o (b : list A) : bsplice o [] b = b.
Proof. unfold bsplice. simpl. rewrite Nat.add_0_r. apply take_drop. Qed.

Lemma bslice_0_len {A} o (b : list A) : bslice o 0 b = [].
Proof. reflexivity. Qed.

(** *** Byte positions *)

Lemma lookup_bsplice {A} off (src b : list A) (i : nat) : 0 <= off <= blen b ->
  bsplice off src b !! i = if decide (Z.of_nat i < off) then b !! i
                           else if decide (Z.of_nat i < off + blen src) then src !! (i - Z.to_nat off)%nat else b !! i.
Proof.
  intros Ho. unfold bsplice. case_decide as H1.
  - rewrite lookup_app_l by (rewrite length_take; lia). by rewrite lookup_take_lt by lia.
  - rewrite lookup_app_r by (rewrite length_take; lia). rewrite length_take_le by lia. case_decide as H2.
    + by rewrite lookup_app_l by lia.
    + rewrite lookup_app_r by lia. rewrite lookup_drop. f_equal. lia.
Qed.

Lemma lookup_bslice {A} o n (l : list A) (i : nat) : 0 <= o ->
  bslice o n l !! i = if decide (Z.of_nat i < n) then l !! (Z.to_nat o + i)%nat else None.
Proof.
  intros Ho. unfold bslice. case_decide.
  - by rewrite lookup_take_lt, lookup_drop by lia.
  - apply lookup_ge_None. rewrite length_take. lia.
Qed.

Lemma lookup_zeros n (i : nat) : zeros n !! i = if decide (Z.of_nat i < n) then Some (byte.of_Z 0) else None.
Proof.
  unfold zeros. case_decide; [apply lookup_replicate; split; [done|lia]|apply lookup_replicate_None; lia].
Qed.

Lemma lookup_app_dec {A} (l k : list A) (i : nat) :
  (l ++ k) !! i = if decide (Z.of_nat i < blen l) then l !! i else k !! (i - length l)%nat.
Proof. case_decide; [apply lookup_app_l|apply lookup_app_r]; lia. Qed.

Lemma lookup_take_dec {A} n (l : list A) (i : nat) :
  take (Z.to_nat n) l !! i = if decide (Z.of_nat i < n) then l !! i else None.
Proof. case_decide; [apply lookup_take_lt; lia|apply lookup_ge_None; rewrite length_take; lia]. Qed.

(** Little-endian fields of a buffer. *)
Definition get_le (n : Z) (off : Z) (b : list byte) : Z := le_combine (bslice off n b).
Definition put_le (n : Z) (off : Z) (v : Z) (b : list byte) : list byte :=
  bsplice off (le_split (Z.to_nat n) v) b.

(** A change inside a slice is a change of the list. *)
Lemma bsplice_nested {A} o n t (z l : list A) : 0 <= o -> 0 <= t -> 0 <= n -> o + n <= blen l -> t + blen z <= n ->
  bsplice o (bsplice t z (bslice o n l)) l = bsplice (o + t) z l.
Proof.
  intros Ho Ht Hn Hl Hz. assert (Hs : blen (bslice o n l) = n) by (rewrite length_bslice; lia).
  apply list_eq. intros i. rewrite !lookup_bsplice by (try rewrite length_bsplice; lia).
  rewrite (length_bsplice t z (bslice o n l)), Hs by lia.
  repeat case_decide; try lia; try done; rewrite ?lookup_bslice by lia; repeat case_decide; try lia; f_equal; lia.
Qed.

Lemma bslice_bsplice_over {A} o n (z x b : list A) : 0 <= o -> blen x = n -> o + blen z <= n -> n <= blen b ->
  bslice 0 n (bsplice o z (bsplice 0 x b)) = bsplice o z x.
Proof.
  intros Ho Hx Hz Hb. assert (Hl : blen (bsplice 0 x b) = blen b) by (rewrite length_bsplice; lia).
  apply list_eq. intros i. rewrite lookup_bslice, !lookup_bsplice by lia.
  repeat case_decide; try lia; try (f_equal; lia). symmetry. apply lookup_ge_None_2. lia.
Qed.

Lemma get_le_range n off b : 0 <= n -> 0 <= get_le n off b < 2 ^ (8 * n).
Proof.
  intros Hn. unfold get_le. pose proof (le_combine_bound (bslice off n b)) as H.
  split; [lia|]. eapply Z.lt_le_trans; [apply H|].
  apply Z.pow_le_mono_r; [lia|]. unfold bslice. rewrite length_take. lia.
Qed.

Lemma get_put_le_same n off v b :
  0 <= n -> 0 <= off -> off + n <= blen b -> 0 <= v < 2 ^ (8 * n) ->
  get_le n off (put_le n off v b) = v.
Proof.
  intros. unfold get_le, put_le.
  rewrite bslice_bsplice_same; rewrite ?length_le_split; try lia.
  rewrite le_combine_split. apply Z.mod_small.
  rewrite Z2Nat.id by lia. by rewrite Z.mul_comm.
Qed.

Lemma length_put_le n off v b : 0 <= n -> 0 <= off -> off + n <= blen b -> length (put_le n off v b) = length b.
Proof. intros. unfold put_le. apply length_bsplice; rewrite ?length_le_split; lia. Qed.

Lemma get_put_le_other n off v b n' o :
  0 <= n -> 0 <= off -> off + n <= blen b -> 0 <= n' -> 0 <= o ->
  o + n' <= off \/ off + n <= o ->
  get_le n' o (put_le n off v b) = get_le n' o b.
Proof.
  intros. unfold get_le, put_le. f_equal.
  apply bslice_bsplice_other; rewrite ?length_le_split; lia.
Qed.

(** ** Searching arrays

    [find_idx f l] is the index of the first element that satisfies [f]: the
    shape of every "scan the pool" loop of the code ([None] is its [-1]). *)
Fixpoint find_idx {A} (f : A -> bool) (l : list A) : option nat :=
  match l with
  | [] => None
  | x :: l' => if f x then Some 0%nat else S <$> find_idx f l'
  end.

Lemma find_idx_Some {A} (f : A -> bool) l i :
  find_idx f l = Some i <->
  (exists x, l !! i = Some x /\ f x = true) /\
  (forall j x, (j < i)%nat -> l !! j = Some x -> f x = false).
Proof.
  revert i. induction l as [|x l IH]; intros i; simpl.
  { split; [done|]. intros [(y & Hy & _) _]. done. }
  destruct (f x) eqn:Hf.
  - split.
    + intros [= <-]. split; [by exists x|]. intros j; lia.
    + intros [(y & Hy & Hfy) Hlt]. destruct i as [|i]; [done|].
      specialize (Hlt 0%nat x). simpl in Hlt. rewrite Hlt in Hf; [done|lia|done].
  - destruct i as [|i].
    + split; [by destruct (find_idx f l)|].
      intros [(y & Hy & Hfy) _]. simpl in Hy. congruence.
    + rewrite fmap_Some. split.
      * intros (k & Hk & [= ->]). apply IH in Hk as [Hex Hlt]. split; [done|].
        intros [|j] y Hj Hy; simpl in Hy; [congruence|]. eapply Hlt; [|done]; lia.
      * intros [Hex Hlt]. exists i. split; [|done]. apply IH. split; [done|].
        intros j y Hj Hy. apply (Hlt (S j)); [lia|done].
Qed.

Lemma find_idx_None {A} (f : A -> bool) l :
  find_idx f l = None <-> (forall i x, l !! i = Some x -> f x = false).
Proof.
  induction l as [|x l IH]; simpl; [done|].
  destruct (f x) eqn:Hf.
  - split; [done|]. intros H. specialize (H 0%nat x eq_refl). congruence.
  - rewrite fmap_None, IH. split.
    + intros H [|i] y Hy; simpl in Hy; [congruence|by eapply H].
    + intros H i y Hy. by apply (H (S i)).
Qed.

(** ** Proof automation of the development *)

(** Replace a boolean test by the fact it decides. *)
Ltac bool_hyps :=
  repeat match goal with
  | H : (_ && _) = true |- _ => apply andb_true_iff in H; destruct H
  | H : (_ || _) = false |- _ => apply orb_false_iff in H; destruct H
  | H : negb _ = true |- _ => apply negb_true_iff in H
  | H : negb _ = false |- _ => apply negb_false_iff in H
  | H : (_ <? _) = true |- _ => apply Z.ltb_lt in H
  | H : (_ <? _) = false |- _ => apply Z.ltb_ge in H
  | H : (_ <=? _) = true |- _ => apply Z.leb_le in H
  | H : (_ <=? _) = false |- _ => apply Z.leb_gt in H
  | H : (_ =? _) = true |- _ => apply Z.eqb_eq in H
  | H : (_ =? _) = false |- _ => apply Z.eqb_neq in H
  end.

(** Evaluate an [if] whose test is decided by linear arithmetic. *)
Ltac if_true := match goal with
  | |- context [if ?b then _ else _] => replace b with true by (symmetry; rewrite ?andb_true_iff, ?orb_true_iff, ?negb_true_iff, ?Z.ltb_lt, ?Z.leb_le, ?Z.eqb_eq; lia)
  end.
Ltac if_false := match goal with
  | |- context [if ?b then _ else _] => replace b with false by (symmetry; rewrite ?andb_false_iff, ?orb_false_iff, ?negb_false_iff, ?Z.ltb_ge, ?Z.leb_gt, ?Z.eqb_neq; lia)
  end.

(** Side conditions on buffer lengths. *)
Ltac blen := autorewrite with blen; try lia.

(** ** Sorted lists *)

Lemma StronglySorted_seqZ lo n : StronglySorted Z.lt (seqZ lo n).
Proof.
  destruct (Z.le_gt_cases n 0) as [Hn|Hn]; [rewrite seqZ_nil by lia; constructor|].
  rewrite <- (Z2Nat.id n) by lia. generalize (Z.to_nat n) as k. clear n Hn. intros k. revert lo.
  induction k as [|k IH]; intros lo; [rewrite seqZ_nil by lia; constructor|].
  rewrite seqZ_cons by lia. replace (Z.pred (Z.of_nat (S k))) with (Z.of_nat k) by lia. constructor; [apply IH|].
  apply Forall_forall. intros x Hx. apply elem_of_seqZ in Hx. lia.
Qed.

Lemma StronglySorted_filter {A} (R : A -> A -> Prop) (f : A -> bool) l :
  StronglySorted R l -> StronglySorted R (List.filter f l).
Proof.
  induction 1 as [|x l Hs IH Hall]; simpl; [constructor|]. destruct (f x); [|done]. constructor; [done|].
  apply Forall_forall. intros y Hy. apply list_elem_of_In, filter_In in Hy as [Hy _].
  rewrite Forall_forall in Hall. by apply Hall, list_elem_of_In.
Qed.

(** The first element of a sorted list is below every other. *)
Lemma StronglySorted_head x l y : StronglySorted Z.lt (x :: l) -> y ∈ x :: l -> x <= y.
Proof.
  intros Hs Hy. inversion Hs as [|? ? _ Hall]; subst. apply elem_of_cons in Hy as [->|Hy]; [lia|].
  rewrite Forall_forall in Hall. apply Z.lt_le_incl, (Hall _ Hy).
Qed.
