(* ===== verification/Types.v ===== *)
(** * On-disk and in-memory data of MOFS

    The constants and structs of [include/mofs_errno.h],
    [src/core/include/mofs_core.h], [include/posix/] and
    [src/core/include/mofs_{file,dir,inode,path}.h], with the byte encoding
    that the code obtains by copying the C structs to and from block buffers
    (little-endian, no padding: every field is naturally aligned), and the
    round trips of these encodings. *)

From Stdlib Require Import ZArith Lia.
From stdpp Require Import base list.
From S2P Require Import Prelude.

(** ** Error numbers (include/mofs_errno.h) *)
Definition MOFS_EPERM : Z := 1.
Definition MOFS_ENOENT : Z := 2.
Definition MOFS_EIO : Z := 5.
Definition MOFS_ENXIO : Z := 6.
Definition MOFS_EBADF : Z := 9.
Definition MOFS_ENOMEM : Z := 12.
Definition MOFS_EACCES : Z := 13.
Definition MOFS_EFAULT : Z := 14.
Definition MOFS_EBUSY : Z := 16.
Definition MOFS_EEXIST : Z := 17.
Definition MOFS_EXDEV : Z := 18.
Definition MOFS_ENODEV : Z := 19.
Definition MOFS_ENOTDIR : Z := 20.
Definition MOFS_EISDIR : Z := 21.
Definition MOFS_EINVAL : Z := 22.
Definition MOFS_ENFILE : Z := 23.
Definition MOFS_EMFILE : Z := 24.
Definition MOFS_EFBIG : Z := 27.
Definition MOFS_ENOSPC : Z := 28.
Definition MOFS_ESPIPE : Z := 29.
Definition MOFS_EROFS : Z := 30.
Definition MOFS_EMLINK : Z := 31.
Definition MOFS_ENAMETOOLONG : Z := 36.
Definition MOFS_ENOSYS : Z := 38.
Definition MOFS_ENOTEMPTY : Z := 39.
Definition MOFS_ELOOP : Z := 40.
Definition MOFS_ENOTSUP : Z := 95.

Definition MOFS_UINT32_MAX : Z := 2 ^ 32 - 1.
Definition MOFS_UINT64_MAX : Z := 2 ^ 64 - 1.

(** ** Constants of mofs_core.h and the POSIX headers *)
Definition MOFS_MAGIC_NUM : Z := 0x53464F4D.
Definition MOFS_BLK_SIZE_DEFAULT : Z := 4096.
Definition MOFS_BLK_SIZE_MIN : Z := 512.
Definition MOFS_BLK_SIZE_MAX : Z := 65536.
Definition MOFS_MAX_FILE_DATA_BLOCKS : Z := 1024.
Definition MOFS_FILENAME_LEN : Z := 28.
Definition MOFS_ROOT_INODE_NUM : Z := 2.

Definition MOFS_S_IRUSR : Z := 0x100.
Definition MOFS_S_IWUSR : Z := 0x080.
Definition MOFS_S_IXUSR : Z := 0x040.
Definition MOFS_S_IRGRP : Z := 0x020.
Definition MOFS_S_IWGRP : Z := 0x010.
Definition MOFS_S_IXGRP : Z := 0x008.
Definition MOFS_S_IROTH : Z := 0x004.
Definition MOFS_S_IWOTH : Z := 0x002.
Definition MOFS_S_IXOTH : Z := 0x001.

Definition MOFS_FTYPE_DIR : Z := 0x4000.
Definition MOFS_FTYPE_REG : Z := 0x8000.

Definition MOFS_OFLAG_RDONLY : Z := 0x0001.
Definition MOFS_OFLAG_WRONLY : Z := 0x0002.
Definition MOFS_OFLAG_RDWR : Z := Z.lor MOFS_OFLAG_RDONLY MOFS_OFLAG_WRONLY.
Definition MOFS_OFLAG_EXEC : Z := 0x0004.
Definition MOFS_OFLAG_SEARCH : Z := 0x0008.
Definition MOFS_OFLAG_ACCMODE : Z := Z.lor (Z.lor MOFS_OFLAG_RDWR MOFS_OFLAG_EXEC) MOFS_OFLAG_SEARCH.
Definition MOFS_OFLAG_CREAT : Z := 0x0010.
Definition MOFS_OFLAG_DIRECTORY : Z := 0x0020.
Definition MOFS_OFLAG_EXCL : Z := 0x0040.

Definition MOFS_INODE_TIME_ATIME : Z := 1.
Definition MOFS_INODE_TIME_MTIME : Z := 2.
Definition MOFS_INODE_TIME_CTIME : Z := 4.
Definition MOFS_INODE_TIME_ALL : Z :=
  Z.lor (Z.lor MOFS_INODE_TIME_ATIME MOFS_INODE_TIME_MTIME) MOFS_INODE_TIME_CTIME.

Definition MOFS_SEEK_SET : Z := 0.
Definition MOFS_SEEK_CUR : Z := 1.
Definition MOFS_SEEK_END : Z := 2.

(** [(x & m) != 0], the bit test of the code. *)
Definition has_flag (x m : Z) : bool := negb (Z.land x m =? 0).

(** ** Superblock (mofs_core.h: [mofs_superblock_t], 36 bytes) *)
Record mofs_superblock_t := mkSuper {
  magic : Z;
  hole_blk_num : Z;
  inode_num : Z;
  data_blk_num : Z;
  inode_bitmap_start : Z;
  data_bitmap_start : Z;
  inode_table_start : Z;
  data_region_start : Z;
  blk_size : Z
}.

Definition sizeof_superblock : Z := 36.

Definition encode_superblock (s : mofs_superblock_t) : list byte :=
  le_split 4 (magic s) ++ le_split 4 (hole_blk_num s) ++ le_split 4 (inode_num s) ++
  le_split 4 (data_blk_num s) ++ le_split 4 (inode_bitmap_start s) ++
  le_split 4 (data_bitmap_start s) ++ le_split 4 (inode_table_start s) ++
  le_split 4 (data_region_start s) ++ le_split 4 (blk_size s).

Definition decode_superblock (b : list byte) : mofs_superblock_t :=
  mkSuper (get_le 4 0 b) (get_le 4 4 b) (get_le 4 8 b) (get_le 4 12 b) (get_le 4 16 b)
          (get_le 4 20 b) (get_le 4 24 b) (get_le 4 28 b) (get_le 4 32 b).

(** Every field fits its 32-bit type. *)
Definition superblock_fits (s : mofs_superblock_t) : Prop :=
  Forall (fun x => 0 <= x < 2 ^ 32)
    [magic s; hole_blk_num s; inode_num s; data_blk_num s; inode_bitmap_start s;
     data_bitmap_start s; inode_table_start s; data_region_start s; blk_size s].

(** ** Inode (mofs_core.h: [mofs_inode_t], 64 bytes on disk) *)
Record mofs_inode_t := mkInode {
  i_size : Z;
  i_links : Z;
  i_mode : Z;
  i_uid : Z;
  i_gid : Z;
  i_data_head : Z;
  i_nr_blocks : Z;
  i_atime : Z;
  i_mtime : Z;
  i_ctime : Z;
  i_reserved : list byte
}.

Definition sizeof_inode : Z := 64.

(** [mofs_memset(&inode, 0, sizeof(inode))]. *)
Definition zero_inode : mofs_inode_t := mkInode 0 0 0 0 0 0 0 0 0 0 (zeros 16).

Definition set_i_size x i := mkInode x (i_links i) (i_mode i) (i_uid i) (i_gid i) (i_data_head i)
  (i_nr_blocks i) (i_atime i) (i_mtime i) (i_ctime i) (i_reserved i).
Definition set_i_links x i := mkInode (i_size i) x (i_mode i) (i_uid i) (i_gid i) (i_data_head i)
  (i_nr_blocks i) (i_atime i) (i_mtime i) (i_ctime i) (i_reserved i).
Definition set_i_owner u g i := mkInode (i_size i) (i_links i) (i_mode i) u g (i_data_head i)
  (i_nr_blocks i) (i_atime i) (i_mtime i) (i_ctime i) (i_reserved i).
Definition set_i_map head nr i := mkInode (i_size i) (i_links i) (i_mode i) (i_uid i) (i_gid i) head
  nr (i_atime i) (i_mtime i) (i_ctime i) (i_reserved i).
Definition set_i_times a m c i := mkInode (i_size i) (i_links i) (i_mode i) (i_uid i) (i_gid i) (i_data_head i)
  (i_nr_blocks i) a m c (i_reserved i).

Definition encode_inode (i : mofs_inode_t) : list byte :=
  le_split 4 (i_size i) ++ le_split 2 (i_links i) ++ le_split 2 (i_mode i) ++
  le_split 4 (i_uid i) ++ le_split 4 (i_gid i) ++ le_split 4 (i_data_head i) ++
  le_split 4 (i_nr_blocks i) ++ le_split 8 (i_atime i) ++ le_split 8 (i_mtime i) ++
  le_split 8 (i_ctime i) ++ i_reserved i.

Definition decode_inode (b : list byte) : mofs_inode_t :=
  mkInode (get_le 4 0 b) (get_le 2 4 b) (get_le 2 6 b) (get_le 4 8 b) (get_le 4 12 b)
          (get_le 4 16 b) (get_le 4 20 b) (get_le 8 24 b) (get_le 8 32 b) (get_le 8 40 b)
          (bslice 48 16 b).

(** Every field of an inode fits the type it has in [mofs_inode_t]. *)
Record inode_fits (i : mofs_inode_t) : Prop := {
  fits_size : 0 <= i_size i < 2 ^ 32;
  fits_links : 0 <= i_links i < 2 ^ 16;
  fits_mode : 0 <= i_mode i < 2 ^ 16;
  fits_uid : 0 <= i_uid i < 2 ^ 32;
  fits_gid : 0 <= i_gid i < 2 ^ 32;
  fits_head : 0 <= i_data_head i < 2 ^ 32;
  fits_nr : 0 <= i_nr_blocks i < 2 ^ 32;
  fits_atime : 0 <= i_atime i < 2 ^ 64;
  fits_mtime : 0 <= i_mtime i < 2 ^ 64;
  fits_ctime : 0 <= i_ctime i < 2 ^ 64;
  fits_reserved : length (i_reserved i) = 16%nat
}.

(** ** Directory entry (include/posix/mofs_dirent.h: [mofs_dirent_t], 32 bytes) *)
Record mofs_dirent_t := mkDirent {
  d_name : list byte;      (** the 28 bytes of [name] *)
  d_inode_num : Z
}.

Definition sizeof_dirent : Z := 32.

Definition zero_dirent : mofs_dirent_t := mkDirent (zeros 28) 0.

Definition encode_dirent (d : mofs_dirent_t) : list byte := d_name d ++ le_split 4 (d_inode_num d).
Definition decode_dirent (b : list byte) : mofs_dirent_t := mkDirent (bslice 0 28 b) (get_le 4 28 b).

(** [((mofs_dirent_t * )buf)[i]] and the assignment to it. *)
Definition dirent_at (i : Z) (b : list byte) : mofs_dirent_t := decode_dirent (bslice (i * 32) 32 b).
Definition put_dirent (i : Z) (d : mofs_dirent_t) (b : list byte) : list byte :=
  bsplice (i * 32) (encode_dirent d) b.

(** A C string is the list of its bytes without the terminating NUL; the
    string held by a character array ends at the first NUL. *)
Definition cstr : Type := list byte.

Definition is_nul (c : byte) : bool := bool_decide (c = byte.of_Z 0).

Fixpoint c_str (arr : list byte) : cstr :=
  match arr with
  | [] => []
  | c :: r => if is_nul c then [] else c :: c_str r
  end.

(** A byte sequence that can be a C string. *)
Definition no_nul (s : cstr) : bool := forallb (fun c => negb (is_nul c)) s.

(** [memset(name, 0, 28); strcpy(name, s)]. *)
Definition name_field (s : cstr) : list byte := s ++ zeros (28 - blen s).

(** [mofs_strcmp(a, b) == 0]. *)
Definition mofs_strcmp_eq (a b : cstr) : bool := bool_decide (a = b).

(** ** List node (mofs_core.h: [mofs_data_list_hdr_t] followed by pointers) *)
Definition hdr_next_abs (b : list byte) : Z := get_le 4 0 b.
Definition hdr_nr_ptrs (b : list byte) : Z := get_le 4 4 b.
Definition list_ptr (i : Z) (b : list byte) : Z := get_le 4 (8 + 4 * i) b.

(** [mofs_list_ptrs_per_node]. *)
Definition mofs_list_ptrs_per_node (blk_sz : Z) : Z :=
  if blk_sz <=? 8 then 0 else (blk_sz - 8) / 4.

(** [mofs_validate_logical_blk_size]: 0 or [MOFS_EINVAL]. *)
Definition mofs_validate_logical_blk_size (blk_sz : Z) : Z :=
  if (blk_sz <? MOFS_BLK_SIZE_MIN) || (MOFS_BLK_SIZE_MAX <? blk_sz) then MOFS_EINVAL
  else if negb (Z.land blk_sz (u32 (blk_sz - 1)) =? 0) then MOFS_EINVAL
  else 0.

(** ** Context and handle tables *)
Record mofs_ctx_t := mkCtx {
  ctx_init : bool;
  dev_path : option cstr;
  dev_fd : Z;
  sp_blk : mofs_superblock_t
}.

Record mofs_filehandle := mkFile {
  fh_used : bool;
  fh_inode_num : Z;
  file_offset : Z;
  open_flags : Z
}.

Definition zero_filehandle : mofs_filehandle := mkFile false 0 0 0.

Record mofs_dirhandle := mkDir {
  dh_used : bool;
  dh_inode_num : Z;
  dirent_offset : Z;
  dirent_buf : mofs_dirent_t
}.

Definition zero_dirhandle : mofs_dirhandle := mkDir false 0 0 zero_dirent.

Record mofs_stat_t := mkStat {
  st_ino : Z;
  st_mode : Z;
  st_nlink : Z;
  st_uid : Z;
  st_gid : Z;
  st_size : Z;
  st_atime_sec : Z;
  st_mtime_sec : Z;
  st_ctime_sec : Z;
  st_blocks : Z
}.

(** Credentials (src/port/include/mofs_port_user.h): [supp_groups] holds the
    first [supp_group_count] entries of the array. *)
Record mofs_user_ctx_t := mkUser {
  uid : Z;
  gid : Z;
  pid : Z;
  supp_groups : list Z;
  u_valid : bool
}.

Definition MOFS_SUPP_GROUP_MAX : nat := 64.

(** ** Round trips of the encodings *)

Lemma get_le_app_l n (off : Z) (p s : list byte) :
  0 <= n -> 0 <= off -> off + n <= blen p -> get_le n off (p ++ s) = get_le n off p.
Proof.
  intros. unfold get_le, bslice. f_equal.
  rewrite drop_app_le by lia. rewrite take_app_le; [done|]. rewrite length_drop; lia.
Qed.

Lemma get_le_app_r n (off : Z) (p s : list byte) :
  blen p <= off -> get_le n off (p ++ s) = get_le n (off - blen p) s.
Proof.
  intros. unfold get_le, bslice. f_equal. rewrite drop_app_ge by lia. do 2 f_equal. lia.
Qed.

Lemma get_le_split n (v : Z) : 0 <= v < 2 ^ (8 * n) -> 0 <= n -> get_le n 0 (le_split (Z.to_nat n) v) = v.
Proof.
  intros Hv Hn. unfold get_le. rewrite bslice_all by (rewrite length_le_split; lia).
  rewrite le_combine_split, Z2Nat.id by lia. apply Z.mod_small. by rewrite Z.mul_comm.
Qed.

(** Reads the field at offset [off] of a concatenation of encoded fields. *)
Ltac decode_field :=
  repeat (rewrite get_le_app_r by (rewrite ?length_le_split; simpl; lia));
  rewrite ?length_le_split;
  first [ rewrite get_le_app_l by (rewrite ?length_le_split; simpl; lia) | idtac ];
  match goal with
  | |- get_le ?n ?o (le_split _ ?v) = ?v =>
      replace o with 0 by (simpl; lia); apply (get_le_split n); simpl; lia
  end.

Lemma length_encode_inode i : length (i_reserved i) = 16%nat -> length (encode_inode i) = 64%nat.
Proof. intros H. unfold encode_inode. autorewrite with blen. lia. Qed.

Lemma decode_encode_inode i : inode_fits i -> decode_inode (encode_inode i) = i.
Proof.
  intros []. destruct i as [sz li mo ui gi he nr a m c rs]; simpl in *.
  unfold decode_inode, encode_inode;
    cbn [i_size i_links i_mode i_uid i_gid i_data_head i_nr_blocks i_atime i_mtime i_ctime i_reserved].
  f_equal; try decode_field.
  unfold bslice. rewrite !app_assoc.
  rewrite drop_app_length' by (autorewrite with blen; lia).
  apply take_ge. lia.
Qed.

Lemma decode_inode_fits b : 64 <= blen b -> inode_fits (decode_inode b).
Proof.
  intros Hb. constructor; simpl; try (apply get_le_range; lia).
  rewrite length_bslice; lia.
Qed.

Lemma length_encode_superblock s : length (encode_superblock s) = 36%nat.
Proof. reflexivity. Qed.

Lemma decode_encode_superblock s : superblock_fits s -> decode_superblock (encode_superblock s) = s.
Proof.
  intros H. unfold superblock_fits in H. rewrite !Forall_cons in H. destruct_and!.
  destruct s; simpl in *. unfold decode_superblock, encode_superblock;
    cbn [magic hole_blk_num inode_num data_blk_num inode_bitmap_start data_bitmap_start
         inode_table_start data_region_start blk_size].
  f_equal; decode_field.
Qed.

Lemma length_encode_dirent d : length (d_name d) = 28%nat -> length (encode_dirent d) = 32%nat.
Proof. intros H. unfold encode_dirent. autorewrite with blen. lia. Qed.

Lemma decode_encode_dirent d :
  length (d_name d) = 28%nat -> 0 <= d_inode_num d < 2 ^ 32 -> decode_dirent (encode_dirent d) = d.
Proof.
  intros Hn Hi. destruct d as [nm n]; simpl in *. unfold decode_dirent, encode_dirent; cbn [d_name d_inode_num]. f_equal.
  - unfold bslice. change (Z.to_nat 0) with 0%nat. rewrite drop_0. apply take_app_length'. lia.
  - decode_field.
Qed.

(** The name read back from a directory slot is the name that was stored. *)
Lemma c_str_name_field s : no_nul s = true -> blen s < 28 -> c_str (name_field s) = s.
Proof.
  unfold name_field. intros Hn Hl.
  assert (He : exists k, Z.to_nat (28 - blen s) = S k) by (exists (Z.to_nat (27 - blen s)); lia).
  destruct He as [k Hk]. unfold zeros. rewrite Hk. clear Hk Hl.
  induction s as [|c s IH]; simpl in *; [done|].
  apply andb_true_iff in Hn as [Hc Hn]. apply negb_true_iff in Hc. rewrite Hc. by rewrite IH.
Qed.

Lemma length_name_field s : blen s < 28 -> length (name_field s) = 28%nat.
Proof. intros. unfold name_field. rewrite length_app, length_zeros. lia. Qed.

(** All of them. *)
Definition mofs_errnos : list Z :=
  [MOFS_EPERM; MOFS_ENOENT; MOFS_EIO; MOFS_ENXIO; MOFS_EBADF; MOFS_ENOMEM; MOFS_EACCES;
   MOFS_EFAULT; MOFS_EBUSY; MOFS_EEXIST; MOFS_EXDEV; MOFS_ENODEV; MOFS_ENOTDIR; MOFS_EISDIR;
   MOFS_EINVAL; MOFS_ENFILE; MOFS_EMFILE; MOFS_EFBIG; MOFS_ENOSPC; MOFS_ESPIPE; MOFS_EROFS;
   MOFS_EMLINK; MOFS_ENAMETOOLONG; MOFS_ENOSYS; MOFS_ENOTEMPTY; MOFS_ELOOP; MOFS_ENOTSUP].
