(* ===== verification/Platform.v ===== *)
(** * The port layer and the state of the program

    The core reaches the operating system through the functions that
    [src/port/include/] declares and every port under [src/os/] implements:
    device I/O, memory, clock, mutexes, the caller's credentials.  The class
    [Platform] is that interface, [Linux] and [Zephyr] give its instances.
    This file also declares the program state [world], on which the port's
    functions act through [plat], and [PlatformSpec], what a port promises
    while no fault occurs. *)

From Stdlib Require Import ZArith Lia.
From stdpp Require Import base list.
From S2P Require Import Prelude Types.

(** The error number of a failing call of the operating system, which POSIX
    and Zephyr specify to be positive. *)
Definition errno_t : Type := positive.

(** ** The functions of a port *)

Definition MOFS_IO_OPEN_FLAG_RDONLY : Z := 1.
Definition MOFS_IO_OPEN_FLAG_WRONLY : Z := 2.
Definition MOFS_IO_OPEN_FLAG_RDWR : Z := 3.
Definition MOFS_IO_OPEN_FLAG_SYNC : Z := 4.
Definition MOFS_IO_OPEN_FLAG_DIRECT : Z := 8.
Definition known_open_flags : Z :=
  Z.lor (Z.lor MOFS_IO_OPEN_FLAG_RDWR MOFS_IO_OPEN_FLAG_SYNC) MOFS_IO_OPEN_FLAG_DIRECT.

(** [P] is what the port keeps and what it sees of the machine.  A function
    with an output parameter returns it on success; it fails with a MOFS
    error number. *)
Class Platform (P : Type) := {
  (** [dev_open(path, oflag, &fd)] *)
  port_open : option cstr -> Z -> M P Z;
  (** [dev_write(fd, buf, |buf|, &written)]: the number of bytes written *)
  port_write : Z -> list byte -> M P Z;
  (** [dev_read(fd, buf, count, &read_size)]: the bytes read, [read_size] of them *)
  port_read : Z -> Z -> M P (list byte);
  port_fsync : Z -> M P unit;
  port_close : Z -> M P unit;
  (** [dev_lseek(fd, offset, whence, &new_offset)] *)
  port_lseek : Z -> Z -> Z -> M P Z;
  port_get_size : Z -> M P Z;
  (** [mofs_malloc(n)], returning early with [get_errno()] on [NULL]: the shape
      of every call site; the (arbitrary) contents of the new buffer *)
  port_malloc : Z -> M P (list byte);
  port_now : M P Z;
  port_mutex_init : M P unit;
  (** the credentials [caller_user_ctx]: [mofs_get_caller_user],
      [mofs_set_caller_user] and [mofs_clear_caller_user] *)
  port_get_user : mofs_user_ctx_t -> M P mofs_user_ctx_t;
  port_set_user : Z -> Z -> Z -> mofs_user_ctx_t -> mofs_user_ctx_t;
  (** [mofs_set_caller_for_peer_process] *)
  port_set_peer : Z -> Z -> Z -> mofs_user_ctx_t -> M P mofs_user_ctx_t;
  port_clear_user : mofs_user_ctx_t -> mofs_user_ctx_t
}.

(** ** Program state *)

(** [P] is the platform, [C] the state of the block cache that was built in. *)
Record world (P C : Type) := mkWorld {
  w_plat : P;
  w_caller : mofs_user_ctx_t;
  w_ctx : mofs_ctx_t;
  w_cache : C;
  w_files : list mofs_filehandle;
  w_dirs : list mofs_dirhandle;
  w_errno : Z
}.
Arguments mkWorld {P C}.
Arguments w_plat {P C}.
Arguments w_caller {P C}.
Arguments w_ctx {P C}.
Arguments w_cache {P C}.
Arguments w_files {P C}.
Arguments w_dirs {P C}.
Arguments w_errno {P C}.

Section setters.
Context {P C : Type}.
Definition set_plat (p : P) (w : world P C) := mkWorld p (w_caller w) (w_ctx w) (w_cache w) (w_files w) (w_dirs w) (w_errno w).
Definition set_caller u (w : world P C) := mkWorld (w_plat w) u (w_ctx w) (w_cache w) (w_files w) (w_dirs w) (w_errno w).
Definition set_ctx c (w : world P C) := mkWorld (w_plat w) (w_caller w) c (w_cache w) (w_files w) (w_dirs w) (w_errno w).
Definition set_cache (c : C) (w : world P C) := mkWorld (w_plat w) (w_caller w) (w_ctx w) c (w_files w) (w_dirs w) (w_errno w).
Definition set_files f (w : world P C) := mkWorld (w_plat w) (w_caller w) (w_ctx w) (w_cache w) f (w_dirs w) (w_errno w).
Definition set_dirs d (w : world P C) := mkWorld (w_plat w) (w_caller w) (w_ctx w) (w_cache w) (w_files w) d (w_errno w).
Definition set_errno e (w : world P C) := mkWorld (w_plat w) (w_caller w) (w_ctx w) (w_cache w) (w_files w) (w_dirs w) e.
End setters.

Section port.
Context {P C : Type} `{!Platform P}.
Abbreviation W := (world P C).

(** Run a function of the port. *)
Definition plat {A} (f : M P A) : M W A := fun w =>
  let '(p, r) := f (w_plat w) in (set_plat p w, r).

Lemma plat_eq {A} (f : M P A) w p r : f (w_plat w) = (p, r) -> plat f w = (set_plat p w, r).
Proof. intros E. unfold plat. by rewrite E. Qed.

Definition dev_open (path : option cstr) (oflag : Z) : M W Z := plat (port_open path oflag).
Definition dev_write (fd : Z) (buf : list byte) : M W Z := plat (port_write fd buf).
Definition dev_read (fd count : Z) : M W (list byte) := plat (port_read fd count).
Definition dev_fsync (fd : Z) : M W unit := plat (port_fsync fd).
Definition dev_close (fd : Z) : M W unit := plat (port_close fd).
Definition dev_lseek (fd offset whence : Z) : M W Z := plat (port_lseek fd offset whence).
Definition dev_get_size (fd : Z) : M W Z := plat (port_get_size fd).
Definition mofs_malloc (n : Z) : M W (list byte) := plat (port_malloc n).
Definition mofs_now : M W Z := plat port_now.
Definition mofs_mutex_init : M W unit := plat port_mutex_init.

(** ** The caller *)

Definition mofs_set_caller_user (u g p : Z) : M W unit :=
  modify (fun w => set_caller (port_set_user u g p (w_caller w)) w).

Definition mofs_set_caller_for_peer_process (u g p : Z) : M W unit :=
  c ← gets w_caller; c ← plat (port_set_peer u g p c); modify (set_caller c).

Definition mofs_clear_caller_user : M W unit :=
  modify (fun w => set_caller (port_clear_user (w_caller w)) w).

Definition mofs_get_caller_user : M W mofs_user_ctx_t :=
  c ← gets w_caller; plat (port_get_user c).

(** Membership as [mofs_is_caller_in_group] computes it from the credentials. *)
Definition user_in_group (u : mofs_user_ctx_t) (g : Z) : bool :=
  (gid u =? g) || existsb (fun s => s =? g) (supp_groups u).

Definition mofs_is_caller_in_group (g : Z) : M W bool :=
  u ← mofs_get_caller_user; mret (user_in_group u g).

End port.

(** ** What a port promises while nothing fails *)

(** [p_ok] describes the states in which the backing device is open as the
    handle [p_fd], memory is available and no I/O fault is pending, [p_closed]
    those in which it can be opened under the name [p_path]; [p_dev] is the
    device contents and [p_pos] the handle's file offset. *)
Class PlatformSpec (P : Type) `{!Platform P} := {
  p_ok : P -> Prop;
  p_closed : P -> Prop;
  p_path : cstr;
  p_fd : Z;
  p_fd_nonneg : 0 <= p_fd;
  p_dev : P -> list byte;
  p_pos : P -> Z;
  (** the device is opened for reading and writing *)
  p_open : forall p flags, p_closed p -> Z.land flags 3 = MOFS_IO_OPEN_FLAG_RDWR ->
    Z.land flags (Z.lnot known_open_flags) = 0 -> exists p',
    port_open (Some p_path) flags p = (p', Ok p_fd) /\ p_ok p' /\ p_dev p' = p_dev p;
  p_malloc_closed : forall p n, p_closed p -> 0 <= n -> exists p' b,
    port_malloc n p = (p', Ok b) /\ p_closed p' /\ p_dev p' = p_dev p;
  p_close : forall p fd, p_ok p -> fd = p_fd -> exists p',
    port_close fd p = (p', Ok tt) /\ p_closed p' /\ p_dev p' = p_dev p;
  p_size : forall p fd, p_ok p -> fd = p_fd -> blen (p_dev p) < 2 ^ 64 -> exists p',
    port_get_size fd p = (p', Ok (blen (p_dev p))) /\ p_ok p' /\ p_dev p' = p_dev p;
  p_lseek_set : forall p fd off, p_ok p -> fd = p_fd -> 0 <= off <= blen (p_dev p) -> exists p',
    port_lseek fd off MOFS_SEEK_SET p = (p', Ok off) /\
    p_ok p' /\ p_dev p' = p_dev p /\ p_pos p' = off;
  (** a read stops at the end of the device *)
  p_read : forall p fd n, p_ok p -> fd = p_fd -> 0 <= n < 2 ^ 32 -> 0 <= p_pos p -> exists p',
    port_read fd n p = (p', Ok (bslice (p_pos p) n (p_dev p))) /\
    p_ok p' /\ p_dev p' = p_dev p /\
    p_pos p' = p_pos p + blen (bslice (p_pos p) n (p_dev p));
  p_write : forall p fd b, p_ok p -> fd = p_fd -> blen b < 2 ^ 32 ->
    0 <= p_pos p -> p_pos p + blen b <= blen (p_dev p) -> exists p',
    port_write fd b p = (p', Ok (blen b)) /\
    p_ok p' /\ p_dev p' = bsplice (p_pos p) b (p_dev p) /\ p_pos p' = p_pos p + blen b;
  p_fsync : forall p fd, p_ok p -> fd = p_fd -> exists p',
    port_fsync fd p = (p', Ok tt) /\ p_ok p' /\ p_dev p' = p_dev p /\ p_pos p' = p_pos p;
  p_malloc : forall p n, p_ok p -> 0 <= n -> exists p' b,
    port_malloc n p = (p', Ok b) /\ blen b = n /\ p_ok p' /\ p_dev p' = p_dev p /\ p_pos p' = p_pos p;
  p_time : forall p, p_ok p -> exists p' t,
    port_now p = (p', Ok t) /\ 0 <= t < 2 ^ 64 /\ p_ok p' /\ p_dev p' = p_dev p /\ p_pos p' = p_pos p;
  p_mutex_init : forall p, p_ok p -> exists p',
    port_mutex_init p = (p', Ok tt) /\ p_ok p' /\ p_dev p' = p_dev p /\ p_pos p' = p_pos p;
  (** credentials that were set are the ones reported *)
  p_user : forall u p, u_valid u = true -> port_get_user u p = (p, Ok u);
  (** the credentials of a peer are its own, whatever groups it has *)
  p_peer : forall u g pid c p, p_ok p -> exists p' c',
    port_set_peer u g pid c p = (p', Ok c') /\ u_valid c' = true /\ uid c' = u /\ gid c' = g /\
    p_ok p' /\ p_dev p' = p_dev p /\ p_pos p' = p_pos p
}.
