(* ===== verification/Linux.v ===== *)
(** * The Linux port (src/os/linux/service)

    The system calls and library functions the port uses are a parameter, the
    class [LinuxOS]; [LinuxSpec] states their documented behaviour while no
    fault occurs.  [Module Linux] translates [os_errno.c], [os_devio.c],
    [os_user.c], [os_time.c] and [os_mem.c] on top of them, and the instances
    at the end make it a [Platform] that keeps the promises of
    [PlatformSpec]. *)

From Stdlib Require Import ZArith Lia.
From stdpp Require Import base list.
From S2P Require Import Prelude Types Platform.

(** ** System calls *)

Inductive file_kind := KBlk | KReg | KOther.

Class LinuxOS (P : Type) := {
  sys_open : cstr -> Z -> P -> P * (errno_t + Z);
  sys_close : Z -> P -> P * option errno_t;
  sys_lseek : Z -> Z -> Z -> P -> P * (errno_t + Z);
  (** the bytes a successful [read] stored in the buffer *)
  sys_read : Z -> Z -> P -> P * (errno_t + list byte);
  (** the number of bytes a successful [write] took *)
  sys_write : Z -> list byte -> P -> P * (errno_t + Z);
  sys_fsync : Z -> P -> P * option errno_t;
  (** [fstat]: file kind and [st_size] *)
  sys_fstat : Z -> P -> P * (errno_t + (file_kind * Z));
  (** [ioctl(BLKGETSIZE64)] *)
  sys_blkgetsize64 : Z -> P -> P * (errno_t + Z);
  (** [malloc]: the (arbitrary) contents of the new buffer *)
  sys_malloc : Z -> P -> P * (errno_t + list byte);
  sys_mutex_init : P -> P * option errno_t;
  sys_time : P -> P * (errno_t + Z);
  sys_geteuid : P -> Z;
  sys_getegid : P -> Z;
  sys_getpid : P -> Z;
  (** [getgroups(size, list)]: the count and the entries stored *)
  sys_getgroups : Z -> P -> P * (errno_t + (Z * list Z));
  (** [fopen] and the lines that [getline] then delivers *)
  sys_read_lines : cstr -> P -> P * (errno_t + list cstr)
}.

Module Linux.

(** ** Error numbers (os_errno.c) *)

(** [os_to_mofs_errno]: the Linux values of the [E*] macros, which the MOFS
    numbers repeat; every unknown error becomes [MOFS_EIO]. *)
Definition os_to_mofs_errno (e : Z) : Z :=
  match e with
  | 0 => 0
  | 1 => MOFS_EPERM | 2 => MOFS_ENOENT | 5 => MOFS_EIO | 6 => MOFS_ENXIO
  | 9 => MOFS_EBADF | 12 => MOFS_ENOMEM | 13 => MOFS_EACCES | 14 => MOFS_EFAULT
  | 16 => MOFS_EBUSY | 17 => MOFS_EEXIST | 18 => MOFS_EXDEV | 19 => MOFS_ENODEV
  | 20 => MOFS_ENOTDIR | 21 => MOFS_EISDIR | 22 => MOFS_EINVAL | 23 => MOFS_ENFILE
  | 24 => MOFS_EMFILE | 27 => MOFS_EFBIG | 28 => MOFS_ENOSPC | 29 => MOFS_ESPIPE
  | 30 => MOFS_EROFS | 31 => MOFS_EMLINK | 36 => MOFS_ENAMETOOLONG | 38 => MOFS_ENOSYS
  | 39 => MOFS_ENOTEMPTY | 40 => MOFS_ELOOP | 95 => MOFS_ENOTSUP
  | _ => MOFS_EIO
  end.

(** [mofs_to_os_errno]. *)
Definition mofs_to_os_errno (e : Z) : Z :=
  match e with
  | 0 => 0
  | 1 => 1 | 2 => 2 | 5 => 5 | 6 => 6 | 9 => 9 | 12 => 12 | 13 => 13 | 14 => 14
  | 16 => 16 | 17 => 17 | 18 => 18 | 19 => 19 | 20 => 20 | 21 => 21 | 22 => 22
  | 23 => 23 | 24 => 24 | 27 => 27 | 28 => 28 | 29 => 29 | 30 => 30 | 31 => 31
  | 36 => 36 | 38 => 38 | 39 => 39 | 40 => 40 | 95 => 95
  | _ => 5
  end.

(** [get_errno()] right after a call that failed with [e]. *)
Definition get_errno (e : errno_t) : Z := os_to_mofs_errno (Zpos e).

Section linux.
Context {P : Type} `{!LinuxOS P}.

(** Make a system call and return early with [get_errno()] when it fails. *)
Definition run {A} (f : P -> P * A) : M P A := fun p => let '(p', a) := f p in (p', Ok a).

Definition sys {A} (f : P -> P * (errno_t + A)) : M P A :=
  r ← run f; match r with inl e => fail (get_errno e) | inr a => mret a end.

Definition sys_ret (f : P -> P * option errno_t) : M P unit :=
  r ← run f; match r with Some e => fail (get_errno e) | None => mret tt end.

(** ** Memory and time (os_mem.c, os_time.c) *)

(** [mofs_malloc(n)], returning early with [get_errno()] on [NULL]: the shape
    of every call site. *)
Definition mofs_malloc (n : Z) : M P (list byte) := sys (sys_malloc n).

(** [mofs_now]. *)
Definition mofs_now : M P Z := t ← sys sys_time; mret (u64 t).

(** ** Device I/O (os_devio.c) *)

(** Linux [O_*] values. *)
Definition O_RDONLY : Z := 0.
Definition O_WRONLY : Z := 1.
Definition O_RDWR : Z := 2.
Definition O_SYNC : Z := 0x101000.
Definition O_DIRECT : Z := 0x4000.

Definition dev_open (path : option cstr) (oflag : Z) : M P Z :=
  match path with
  | None => fail MOFS_EINVAL
  | Some p =>
      if negb (Z.land oflag (Z.lnot known_open_flags) =? 0) then fail MOFS_EINVAL else
      let access_mode := Z.land oflag MOFS_IO_OPEN_FLAG_RDWR in
      flag ← (if access_mode =? MOFS_IO_OPEN_FLAG_RDWR then mret O_RDWR
              else if access_mode =? MOFS_IO_OPEN_FLAG_RDONLY then mret O_RDONLY
              else if access_mode =? MOFS_IO_OPEN_FLAG_WRONLY then mret O_WRONLY
              else fail MOFS_EINVAL);
      let flag := if has_flag oflag MOFS_IO_OPEN_FLAG_SYNC then Z.lor flag O_SYNC else flag in
      let flag := if has_flag oflag MOFS_IO_OPEN_FLAG_DIRECT then Z.lor flag O_DIRECT else flag in
      sys (sys_open p flag)
  end.

(** [dev_write(fd, buf, |buf|, &written)]: the number of bytes written. *)
Definition dev_write (fd : Z) (buf : list byte) : M P Z := n ← sys (sys_write fd buf); mret (u32 n).

(** [dev_read(fd, buf, count, &read_size)]: the bytes read, [read_size] of them. *)
Definition dev_read (fd count : Z) : M P (list byte) := sys (sys_read fd count).

Definition dev_fsync (fd : Z) : M P unit := sys_ret (sys_fsync fd).

Definition dev_close (fd : Z) : M P unit := sys_ret (sys_close fd).

Definition dev_lseek (fd offset whence : Z) : M P Z :=
  if negb ((whence =? MOFS_SEEK_SET) || (whence =? MOFS_SEEK_CUR) || (whence =? MOFS_SEEK_END))
  then fail MOFS_EINVAL
  else sys (sys_lseek fd offset whence).

Definition dev_get_size (fd : Z) : M P Z :=
  '(kind, size) ← sys (sys_fstat fd);
  match kind with
  | KBlk => sys (sys_blkgetsize64 fd)
  | KReg => mret (u64 size)
  | KOther => fail MOFS_EINVAL
  end.

(** ** Caller credentials (os_user.c) *)

(** [caller_user_ctx] before the first [mofs_set_caller_user]. *)
Definition caller_user_unset : mofs_user_ctx_t := mkUser 0 0 0 [] false.

(** [read_supp_groups_from_os]. *)
Definition read_supp_groups_from_os : M P (list Z) :=
  '(group_count, _) ← sys (sys_getgroups 0);
  if group_count =? 0 then mret [] else
  r ← run (sys_malloc (u32 (4 * group_count)));
  match r with
  | inl _ => fail MOFS_ENOMEM
  | inr _ =>
      '(_, groups) ← sys (sys_getgroups group_count);
      mret (take MOFS_SUPP_GROUP_MAX groups)
  end.

Definition mofs_set_caller_user (u g p : Z) (c : mofs_user_ctx_t) : mofs_user_ctx_t := mkUser u g p [g] true.

(** [set_caller_supp_groups] (with a non-NULL array). *)
Definition set_caller_supp_groups (groups : list Z) (c : mofs_user_ctx_t) : mofs_user_ctx_t :=
  let gs := take MOFS_SUPP_GROUP_MAX groups in
  let gs := if bool_decide (gs = []) then [gid c] else gs in
  mkUser (uid c) (gid c) (pid c) gs (u_valid c).

(** *** The groups of a peer process, from [/proc/<pid>/status] *)

(** Split at the bytes of [sep], dropping empty tokens ([strtok_r]). *)
Fixpoint strtok_from (sep : byte -> bool) (cur s : cstr) : list cstr :=
  let flush rest := match cur with [] => rest | _ => reverse cur :: rest end in
  match s with
  | [] => flush []
  | b :: s' => if sep b then flush (strtok_from sep [] s') else strtok_from sep (b :: cur) s'
  end.

Definition is_char (c : Z) (b : byte) : bool := byte.unsigned b =? c.
Definition is_blank (b : byte) : bool := is_char 32 b || is_char 9 b.
Definition is_space (b : byte) : bool := is_blank b || is_char 10 b.
Definition digit_of (b : byte) : option Z :=
  let v := byte.unsigned b - 48 in if (0 <=? v) && (v <=? 9) then Some v else None.

(** The digits of [strtoul(s, NULL, 10)]: it stops at the first other byte
    and saturates at [ULONG_MAX]. *)
Fixpoint strtoul_digits (acc : Z) (s : cstr) : Z :=
  match s with
  | [] => Z.min acc (2 ^ 64 - 1)
  | b :: s' => match digit_of b with Some v => strtoul_digits (10 * acc + v) s' | None => Z.min acc (2 ^ 64 - 1) end
  end.

(** [strtoul(tok, NULL, 10)] on a token, which has no leading blanks; a value
    in range is negated after a minus sign. *)
Definition strtoul (s : cstr) : Z :=
  match s with
  | b :: s' => if is_char 43 b then strtoul_digits 0 s'
               else if is_char 45 b then
                 let v := strtoul_digits 0 s' in if v =? 2 ^ 64 - 1 then v else u64 (- v)
               else strtoul_digits 0 s
  | [] => 0
  end.

(** The decimal digits that [%d] prints for a positive number; [fuel] bounds
    their number. *)
Fixpoint decimal (fuel : nat) (n : Z) (acc : cstr) : cstr :=
  match fuel with
  | O => acc
  | S fuel' =>
      let acc := byte.of_Z (48 + n mod 10) :: acc in
      if n / 10 =? 0 then acc else decimal fuel' (n / 10) acc
  end.

Definition print_decimal (n : Z) : cstr := decimal 10 n [].

(** ["/proc/%d/status"]. *)
Definition proc_status_path (pid : Z) : cstr :=
  (byte.of_Z <$> [47; 112; 114; 111; 99; 47]) ++ print_decimal pid ++ (byte.of_Z <$> [47; 115; 116; 97; 116; 117; 115]).

Definition groups_tag : cstr := byte.of_Z <$> [71; 114; 111; 117; 112; 115; 58].

(** The [getline] loop: the tokens of the first line that starts with [Groups:]. *)
Fixpoint status_groups (lines : list cstr) : list Z :=
  match lines with
  | [] => []
  | line :: lines' =>
      let line := c_str line in
      if negb (bool_decide (take 7 line = groups_tag)) then status_groups lines' else
      (fun tok => u32 (strtoul tok)) <$> strtok_from is_space [] (drop 7 line)
  end.

Definition parse_proc_status_groups (pid : Z) (max_out : nat) : M P (list Z) :=
  if pid <=? 0 then fail MOFS_EINVAL else
  lines ← sys (sys_read_lines (proc_status_path pid));
  mret (take max_out (status_groups lines)).

Definition mofs_set_caller_for_peer_process (u g p : Z) (c : mofs_user_ctx_t) : M P mofs_user_ctx_t :=
  let c := mofs_set_caller_user u g p c in
  r ← attempt (parse_proc_status_groups p MOFS_SUPP_GROUP_MAX);
  match r with
  | Ok (g :: gs) => mret (set_caller_supp_groups (g :: gs) c)
  | _ => mret c
  end.

Definition mofs_clear_caller_user (c : mofs_user_ctx_t) : mofs_user_ctx_t := caller_user_unset.

Definition mofs_get_caller_user (c : mofs_user_ctx_t) : M P mofs_user_ctx_t :=
  if u_valid c then mret c else
  p ← gets id;
  gs ← read_supp_groups_from_os;
  mret (mkUser (u32 (sys_geteuid p)) (u32 (sys_getegid p)) (sys_getpid p) gs true).

(** [mofs_mutex_init]. *)
Definition mofs_mutex_init : M P unit := sys_ret sys_mutex_init.

End linux.
End Linux.

#[global] Instance linux_platform {P} `{!LinuxOS P} : Platform P := {
  port_open := Linux.dev_open;
  port_write := Linux.dev_write;
  port_read := Linux.dev_read;
  port_fsync := Linux.dev_fsync;
  port_close := Linux.dev_close;
  port_lseek := Linux.dev_lseek;
  port_get_size := Linux.dev_get_size;
  port_malloc := Linux.mofs_malloc;
  port_now := Linux.mofs_now;
  port_mutex_init := Linux.mofs_mutex_init;
  port_get_user := Linux.mofs_get_caller_user;
  port_set_user := Linux.mofs_set_caller_user;
  port_set_peer := Linux.mofs_set_caller_for_peer_process;
  port_clear_user := Linux.mofs_clear_caller_user
}.

(** A failing call never looks like a success: [get_errno] is positive. *)
Lemma get_errno_pos e : 0 < Linux.get_errno e.
Proof.
  unfold Linux.get_errno, Linux.os_to_mofs_errno.
  repeat match goal with |- context [match ?x with _ => _ end] => destruct x; try reflexivity end.
Qed.

(** Translating any MOFS error number to the platform and back is the identity. *)
Lemma errno_translation_id :
  Forall (fun e => Linux.os_to_mofs_errno (Linux.mofs_to_os_errno e) = e) mofs_errnos.
Proof. repeat constructor. Qed.

(** ** Documented behaviour of the system calls while nothing fails *)

(** [l_ok] describes the machine states in which the backing device is open
    as a handle, memory is available and no I/O fault is pending, [l_closed]
    those in which it can be opened under the name [l_path]; [l_dev] is
    the device contents and [l_pos] the handle's file offset.  The laws are
    the POSIX descriptions of the calls on a regular file (or block device)
    whose size does not change by the accesses the file system makes. *)
Class LinuxSpec (P : Type) `{!LinuxOS P} := {
  l_ok : P -> Prop;
  (** the device exists and is not open *)
  l_closed : P -> Prop;
  l_path : cstr;
  (** the handle it is opened as *)
  l_fd : Z;
  l_fd_nonneg : 0 <= l_fd;
  l_dev : P -> list byte;
  l_pos : P -> Z;
  l_open : forall p flags, l_closed p -> Z.land flags 3 = Linux.O_RDWR -> exists p' fd,
    sys_open l_path flags p = (p', inr fd) /\ fd = l_fd /\ l_ok p' /\ l_dev p' = l_dev p;
  l_malloc_closed : forall p n, l_closed p -> 0 <= n -> exists p' b,
    sys_malloc n p = (p', inr b) /\ l_closed p' /\ l_dev p' = l_dev p;
  l_close : forall p fd, l_ok p -> fd = l_fd -> exists p',
    sys_close fd p = (p', None) /\ l_closed p' /\ l_dev p' = l_dev p;
  (** the size of a regular file or of a block device *)
  l_size : forall p fd, l_ok p -> fd = l_fd -> exists p' p'' n,
    (sys_fstat fd p = (p'', inr (KReg, blen (l_dev p))) \/
     sys_fstat fd p = (p', inr (KBlk, n)) /\ sys_blkgetsize64 fd p' = (p'', inr (blen (l_dev p)))) /\
    l_ok p'' /\ l_dev p'' = l_dev p;
  l_lseek_set : forall p fd off, l_ok p -> fd = l_fd -> 0 <= off <= blen (l_dev p) -> exists p',
    sys_lseek fd off MOFS_SEEK_SET p = (p', inr off) /\
    l_ok p' /\ l_dev p' = l_dev p /\ l_pos p' = off;
  l_read : forall p fd n, l_ok p -> fd = l_fd -> 0 <= n -> 0 <= l_pos p -> exists p',
    sys_read fd n p = (p', inr (bslice (l_pos p) n (l_dev p))) /\
    l_ok p' /\ l_dev p' = l_dev p /\
    l_pos p' = l_pos p + blen (bslice (l_pos p) n (l_dev p));
  l_write : forall p fd b, l_ok p -> fd = l_fd -> 0 <= l_pos p -> l_pos p + blen b <= blen (l_dev p) -> exists p',
    sys_write fd b p = (p', inr (blen b)) /\
    l_ok p' /\ l_dev p' = bsplice (l_pos p) b (l_dev p) /\ l_pos p' = l_pos p + blen b;
  l_fsync : forall p fd, l_ok p -> fd = l_fd -> exists p',
    sys_fsync fd p = (p', None) /\ l_ok p' /\ l_dev p' = l_dev p /\ l_pos p' = l_pos p;
  l_malloc : forall p n, l_ok p -> 0 <= n -> exists p' b,
    sys_malloc n p = (p', inr b) /\ blen b = n /\ l_ok p' /\ l_dev p' = l_dev p /\ l_pos p' = l_pos p;
  l_time : forall p, l_ok p -> exists p' t,
    sys_time p = (p', inr t) /\ l_ok p' /\ l_dev p' = l_dev p /\ l_pos p' = l_pos p;
  l_mutex_init : forall p, l_ok p -> exists p',
    sys_mutex_init p = (p', None) /\ l_ok p' /\ l_dev p' = l_dev p /\ l_pos p' = l_pos p;
  (** reading another file leaves the device alone *)
  l_read_lines : forall p path, l_ok p -> exists p' r,
    sys_read_lines path p = (p', r) /\ l_ok p' /\ l_dev p' = l_dev p /\ l_pos p' = l_pos p
}.


(** Opening for reading and writing reaches [open] with [O_RDWR]. *)
Lemma dev_open_rdwr {P} `{!LinuxOS P} path flags :
  Z.land flags 3 = MOFS_IO_OPEN_FLAG_RDWR -> Z.land flags (Z.lnot known_open_flags) = 0 -> exists flag,
  Z.land flag 3 = Linux.O_RDWR /\ Linux.dev_open (Some path) flags = Linux.sys (sys_open path flag).
Proof.
  intros H3 Hk. assert (Hf : flags = Z.land flags 15).
  { apply Z.bits_inj'. intros n Hn. rewrite Z.land_spec. pose proof (f_equal (fun z => Z.testbit z n) Hk) as Hb. cbv beta in Hb.
    rewrite Z.land_spec, Z.lnot_spec, Z.bits_0 in Hb by done. change known_open_flags with 15 in Hb.
    by destruct (Z.testbit flags n), (Z.testbit 15 n). }
  assert (Hr : 0 <= flags < 16) by (rewrite Hf; change 15 with (Z.ones 4); rewrite Z.land_ones by lia; apply Z.mod_pos_bound; lia).
  assert (Hc : flags ∈ [0;1;2;3;4;5;6;7;8;9;10;11;12;13;14;15]) by (rewrite !elem_of_cons; lia). clear Hf Hr Hk.
  repeat (apply elem_of_cons in Hc as [->|Hc]; [first [discriminate H3|eexists; split; [|reflexivity]; reflexivity]|]).
  by apply elem_of_nil in Hc.
Qed.

(** Run a definition of the port on the calls it makes. *)
Ltac sys_simpl E := unfold Linux.sys, Linux.sys_ret, Linux.run, mbind, M_bind; rewrite E; cbn.

#[global] Instance linux_spec {P} `{!LinuxOS P} `{!LinuxSpec P} : PlatformSpec P.
Proof.
  refine {| p_ok := l_ok; p_closed := l_closed; p_path := l_path; p_fd := l_fd; p_fd_nonneg := l_fd_nonneg; p_dev := l_dev; p_pos := l_pos |}.
  - intros p flags Hc H3 Hk. destruct (dev_open_rdwr l_path flags H3 Hk) as (flag & Hf & E).
    destruct (l_open p flag Hc Hf) as (p' & fd & E' & -> & H). exists p'. split; [|done].
    etrans; [exact (f_equal (fun f => f p) E)|]. by sys_simpl E'.
  - intros p n Hc Hn. destruct (l_malloc_closed p n Hc Hn) as (p' & b & E & H). exists p', b. split; [|done]. cbn. unfold Linux.mofs_malloc. by sys_simpl E.
  - intros p fd Hok Hfd. destruct (l_close p fd Hok Hfd) as (p' & E & H). exists p'. split; [|done]. cbn. unfold Linux.dev_close. by sys_simpl E.
  - intros p fd Hok Hfd Hs. destruct (l_size p fd Hok Hfd) as (p' & p'' & n & Hc & H). exists p''. split; [|done].
    cbn. unfold Linux.dev_get_size. destruct Hc as [E|[E1 E2]]; [sys_simpl E; by rewrite u64_small by lia|]. sys_simpl E1. by rewrite E2.
  - intros p fd off Hok Hfd Ho. destruct (l_lseek_set p fd off Hok Hfd Ho) as (p' & E & H). exists p'. split; [|done]. cbn. unfold Linux.dev_lseek. cbn. by sys_simpl E.
  - intros p fd n Hok Hfd [Hn _] Hp. destruct (l_read p fd n Hok Hfd Hn Hp) as (p' & E & H). exists p'. split; [|done]. cbn. unfold Linux.dev_read. by sys_simpl E.
  - intros p fd b Hok Hfd Hb Hp Hd. destruct (l_write p fd b Hok Hfd Hp Hd) as (p' & E & H). exists p'. split; [|done].
    cbn. unfold Linux.dev_write. sys_simpl E. by rewrite u32_small by lia.
  - intros p fd Hok Hfd. destruct (l_fsync p fd Hok Hfd) as (p' & E & H). exists p'. split; [|done]. cbn. unfold Linux.dev_fsync. by sys_simpl E.
  - intros p n Hok Hn. destruct (l_malloc p n Hok Hn) as (p' & b & E & H). exists p', b. split; [|done]. cbn. unfold Linux.mofs_malloc. by sys_simpl E.
  - intros p Hok. destruct (l_time p Hok) as (p' & t & E & H). exists p', (u64 t). split; [|split; [apply Z.mod_pos_bound; lia|done]].
    cbn. unfold Linux.mofs_now. by sys_simpl E.
  - intros p Hok. destruct (l_mutex_init p Hok) as (p' & E & H). exists p'. split; [|done]. cbn. unfold Linux.mofs_mutex_init. by sys_simpl E.
  - intros u p Hu. cbn. unfold Linux.mofs_get_caller_user. by rewrite Hu.
  - intros u g pid c p Hok. cbn. unfold Linux.mofs_set_caller_for_peer_process, Linux.parse_proc_status_groups.
    destruct (pid <=? 0); [eexists p, _; by split|].
    destruct (l_read_lines p (Linux.proc_status_path pid) Hok) as (p' & r & E & H).
    unfold attempt, Linux.sys, Linux.run, mbind, M_bind. rewrite E.
    destruct r as [e|lines]; cbn; [eexists p', _; by split|].
    destruct (take _ _); cbn; (eexists p', _; by split).
Defined.
