(* ===== verification/Zephyr.v ===== *)
(** * The Zephyr port (src/os/zephyr/service)

    Devices are reached through Zephyr's disk_access API, whole sectors at a
    time; [os_devio.c] keeps a table of open devices and turns byte transfers
    into sector transfers.  The kernel's services are a parameter, the class
    [ZephyrKernel].  [Module Zephyr] translates [os_devio.c], [os_errno.c],
    [os_user.c], [os_time.c], [os_mem.c] and the mutexes of [os_sync.c]; the
    instance at the end makes it a [Platform]. *)

From Stdlib Require Import ZArith Lia.
From stdpp Require Import base list.
From S2P Require Import Prelude Types Platform.

(** ** The kernel's services *)

(** Error numbers by their names: their values belong to the C library. *)
Inductive host_errno :=
| EPERM | ENOENT | EIO | ENXIO | EBADF | ENOMEM | EACCES | EFAULT | EBUSY | EEXIST | EXDEV | ENODEV
| ENOTDIR | EISDIR | EINVAL | ENFILE | EMFILE | EFBIG | ENOSPC | ESPIPE | EROFS | EMLINK
| ENAMETOOLONG | ENOSYS | ENOTEMPTY | ELOOP | EOPNOTSUPP | ENOTSUP | EOther (e : errno_t).

(** The bits of [disk_access_status] that the port looks at. *)
Record disk_status := mkStatus { st_nomedia : bool; st_wr_protect : bool }.

Inductive disk_cmd := CTRL_INIT | CTRL_SYNC | CTRL_DEINIT | GET_SECTOR_SIZE | GET_SECTOR_COUNT.

Class ZephyrKernel (H : Type) := {
  disk_access_status : cstr -> H -> H * disk_status;
  (** [disk_access_ioctl]: the error of a result [-e], or the number stored *)
  disk_access_ioctl : cstr -> disk_cmd -> H -> H * (host_errno + Z);
  (** [disk_access_read(name, buf, sector, count)]: the bytes stored *)
  disk_access_read : cstr -> Z -> Z -> H -> H * (host_errno + list byte);
  disk_access_write : cstr -> list byte -> Z -> Z -> H -> H * option host_errno;
  k_malloc : Z -> H -> H * option (list byte);
  k_uptime_get : H -> H * Z;
  k_mutex_init : H -> H * bool;
  (** [errno], which is not set when it is [None] *)
  k_errno : H -> option host_errno
}.

Module Zephyr.

(** ** Error numbers (os_errno.c) *)

Definition os_to_mofs_errno (e : host_errno) : Z :=
  match e with
  | EPERM => MOFS_EPERM | ENOENT => MOFS_ENOENT | EIO => MOFS_EIO | ENXIO => MOFS_ENXIO
  | EBADF => MOFS_EBADF | ENOMEM => MOFS_ENOMEM | EACCES => MOFS_EACCES | EFAULT => MOFS_EFAULT
  | EBUSY => MOFS_EBUSY | EEXIST => MOFS_EEXIST | EXDEV => MOFS_EXDEV | ENODEV => MOFS_ENODEV
  | ENOTDIR => MOFS_ENOTDIR | EISDIR => MOFS_EISDIR | EINVAL => MOFS_EINVAL | ENFILE => MOFS_ENFILE
  | EMFILE => MOFS_EMFILE | EFBIG => MOFS_EFBIG | ENOSPC => MOFS_ENOSPC | ESPIPE => MOFS_ESPIPE
  | EROFS => MOFS_EROFS | EMLINK => MOFS_EMLINK | ENAMETOOLONG => MOFS_ENAMETOOLONG
  | ENOSYS => MOFS_ENOSYS | ENOTEMPTY => MOFS_ENOTEMPTY | ELOOP => MOFS_ELOOP
  | EOPNOTSUPP | ENOTSUP => MOFS_ENOTSUP
  | EOther _ => MOFS_EIO
  end.

(** [mofs_to_os_errno] of a number other than 0. *)
Definition mofs_to_os_errno (e : Z) : host_errno :=
  match e with
  | 1 => EPERM | 2 => ENOENT | 5 => EIO | 6 => ENXIO | 9 => EBADF | 12 => ENOMEM | 13 => EACCES
  | 14 => EFAULT | 16 => EBUSY | 17 => EEXIST | 18 => EXDEV | 19 => ENODEV | 20 => ENOTDIR
  | 21 => EISDIR | 22 => EINVAL | 23 => ENFILE | 24 => EMFILE | 27 => EFBIG | 28 => ENOSPC
  | 29 => ESPIPE | 30 => EROFS | 31 => EMLINK | 36 => ENAMETOOLONG | 38 => ENOSYS
  | 39 => ENOTEMPTY | 40 => ELOOP | 95 => ENOTSUP
  | _ => EIO
  end.

(** ** State *)

Definition MOFS_DEV_NAME_MAX : Z := 32.
Definition MOFS_DEV_SLOT_MAX : nat := 16.

Record dev_slot := mkSlot {
  used : bool;
  name : cstr;
  offset : Z;
  sector_size : Z;
  sector_count : Z;
  open_flags : Z
}.

Definition zero_slot : dev_slot := mkSlot false [] 0 0 0 0.

Record zstate (H : Type) := mkZ { z_hw : H; dev_slots : list dev_slot }.
Arguments mkZ {H}.
Arguments z_hw {H}.
Arguments dev_slots {H}.

Section zephyr.
Context {H : Type} `{!ZephyrKernel H}.
Abbreviation ZM := (M (zstate H)).

(** Run a service of the kernel. *)
Definition kern {A} (f : H -> H * A) : ZM A := fun z =>
  let '(h, a) := f (z_hw z) in (mkZ h (dev_slots z), Ok a).

(** [if (err != 0) return os_to_mofs_errno(-err)]. *)
Definition kern_res {A} (f : H -> H * (host_errno + A)) : ZM A :=
  r ← kern f; match r with inl e => fail (os_to_mofs_errno e) | inr a => mret a end.

Definition kern_opt (f : H -> H * option host_errno) : ZM unit :=
  r ← kern f; match r with Some e => fail (os_to_mofs_errno e) | None => mret tt end.

Definition upd_slot (i : nat) (f : dev_slot -> dev_slot) : ZM unit :=
  modify (fun z => mkZ (z_hw z) (alter f i (dev_slots z))).

(** ** Memory, time, mutexes (os_mem.c, os_time.c, os_sync.c) *)

(** [mofs_malloc] with the callers' [return get_errno()] on [NULL].  Zephyr's
    [k_malloc] does not promise to set [errno]: where it is unset, the caller
    returns the 0 of success without a result, which is outside the model. *)
Definition mofs_malloc (n : Z) : ZM (list byte) :=
  r ← kern (k_malloc n);
  match r with
  | Some b => mret b
  | None =>
      e ← gets (fun z => k_errno (z_hw z));
      match e with Some e => fail (os_to_mofs_errno e) | None => fun z => (z, Stuck) end
  end.

Definition mofs_now : ZM Z := t ← kern k_uptime_get; mret (u64 (Z.quot t 1000)).

(** [mofs_mutex_init]: an initialisation that failed without an [errno] counts
    as a success. *)
Definition mofs_mutex_init : ZM unit :=
  ok ← kern k_mutex_init;
  match ok with
  | true => mret tt
  | false =>
      e ← gets (fun z => k_errno (z_hw z));
      match e with Some e => fail (os_to_mofs_errno e) | None => mret tt end
  end.

(** ** Device slots (os_devio.c) *)

Definition set_used (s : dev_slot) : dev_slot :=
  mkSlot true (name s) (offset s) (sector_size s) (sector_count s) (open_flags s).

(** [dev_slot_alloc]: [None] is its -1. *)
Definition dev_slot_alloc : ZM (option nat) :=
  slots ← gets dev_slots;
  match find_idx (fun s => negb (used s)) slots with
  | Some i => upd_slot i set_used;; mret (Some i)
  | None => mret None
  end.

(** [dev_slot_free] of an index in range. *)
Definition dev_slot_free (slot : nat) : ZM unit := upd_slot slot (fun _ => zero_slot).

Definition dev_slot_get (fd : Z) : ZM (nat * dev_slot) :=
  slots ← gets dev_slots;
  if (fd <? 0) || (Z.of_nat MOFS_DEV_SLOT_MAX <=? fd) then fail MOFS_EBADF else
  match slots !! Z.to_nat fd with
  | Some s => if used s then mret (Z.to_nat fd, s) else fail MOFS_EBADF
  | None => fail MOFS_EBADF
  end.

Definition dev_slot_byte_size (s : dev_slot) : Z := s64 (u64 (sector_count s * sector_size s)).

(** ** Transfers *)

(** One iteration of the loop of [dev_transfer]: the number of bytes moved, the
    caller's buffer and the sector buffer.  A read starts from an empty buffer,
    of which it stores the first [transferred] bytes. *)
Definition transfer_chunk (slot : dev_slot) (is_write : bool) (cur remaining transferred : Z)
    (data : list byte) (sector_buf : option (list byte)) : ZM (Z * list byte * option (list byte)) :=
  let ss := sector_size slot in
  let sector_index := u32 (u64 cur / ss) in
  let sector_off := u32 (u64 cur mod ss) in
  let chunk := u32 (ss - sector_off) in
  let chunk := if remaining <? chunk then remaining else chunk in
  if (sector_off =? 0) && (chunk =? ss) then
    let nsectors := remaining / ss in
    let max_sectors := u32 (sector_count slot - sector_index) in
    let nsectors := if max_sectors <? nsectors then max_sectors else nsectors in
    if is_write then
      kern_opt (disk_access_write (name slot) (bslice transferred (nsectors * ss) data) sector_index nsectors);;
      mret (u32 (nsectors * ss), data, sector_buf)
    else
      bs ← kern_res (disk_access_read (name slot) sector_index nsectors);
      mret (u32 (nsectors * ss), bsplice transferred bs data, sector_buf)
  else
    (match sector_buf with
     | Some _ => mret tt
     | None => r ← kern (k_malloc ss); match r with Some _ => mret tt | None => fail MOFS_ENOMEM end
     end);;
    bs ← kern_res (disk_access_read (name slot) sector_index 1);
    if is_write then
      let bs := bsplice sector_off (bslice transferred chunk data) bs in
      kern_opt (disk_access_write (name slot) bs sector_index 1);;
      mret (chunk, data, Some bs)
    else mret (chunk, bsplice transferred (bslice sector_off chunk bs) data, Some bs).

(** The [while] loop; [fuel] iterations are more than [remaining] bytes need. *)
Fixpoint transfer_loop (fuel : nat) (slot : dev_slot) (is_write : bool) (cur remaining transferred : Z)
    (data : list byte) (sector_buf : option (list byte)) : ZM (Z * Z * list byte) :=
  if remaining <=? 0 then mret (cur, transferred, data) else
  match fuel with
  | O => fun z => (z, Stuck)
  | S fuel' =>
      '(chunk, data, sector_buf) ← transfer_chunk slot is_write cur remaining transferred data sector_buf;
      transfer_loop fuel' slot is_write (s64 (cur + chunk)) (u32 (remaining - chunk)) (u32 (transferred + chunk)) data sector_buf
  end.

Definition set_offset (off : Z) (s : dev_slot) : dev_slot :=
  mkSlot (used s) (name s) off (sector_size s) (sector_count s) (open_flags s).

(** [dev_transfer] on slot [i]: [xfer_out] and the buffer. *)
Definition dev_transfer (i : nat) (slot : dev_slot) (data : list byte) (count : Z) (is_write : bool) : ZM (Z * list byte) :=
  let dev_size := dev_slot_byte_size slot in
  let cur := offset slot in
  if sector_size slot =? 0 then fail MOFS_EIO else
  if (dev_size <=? cur) || (count =? 0) then mret (0, data) else
  let remaining := if s64 (dev_size - cur) <? count then u32 (dev_size - cur) else count in
  '(cur, transferred, data) ← transfer_loop (Z.to_nat remaining) slot is_write cur remaining 0 data None;
  upd_slot i (set_offset cur);;
  (if is_write && has_flag (open_flags slot) MOFS_IO_OPEN_FLAG_SYNC
   then kern_res (disk_access_ioctl (name slot) CTRL_SYNC);; mret tt else mret tt);;
  mret (transferred, data).

Definition set_sector_size (n : Z) (s : dev_slot) : dev_slot :=
  mkSlot (used s) (name s) (offset s) n (sector_count s) (open_flags s).
Definition set_sector_count (n : Z) (s : dev_slot) : dev_slot :=
  mkSlot (used s) (name s) (offset s) (sector_size s) n (open_flags s).

(** A part of [dev_open] after the slot was taken: its failure frees the slot. *)
Definition or_free {A} (slot : nat) (m : ZM A) : ZM A :=
  r ← attempt m;
  match r with
  | Ok a => mret a
  | Err e => dev_slot_free slot;; fail e
  | Stuck => fun z => (z, Stuck)
  end.

Definition dev_open (path : option cstr) (oflag : Z) : ZM Z :=
  match path with
  | None => fail MOFS_EINVAL
  | Some path =>
      if negb (Z.land oflag (Z.lnot known_open_flags) =? 0) || (Z.land oflag MOFS_IO_OPEN_FLAG_RDWR =? 0)
      then fail MOFS_EINVAL else
      slot ← dev_slot_alloc;
      match slot with
      | None => fail MOFS_EMFILE
      | Some slot =>
          or_free slot (
            status ← kern (disk_access_status path);
            if st_nomedia status then fail MOFS_ENOENT else
            kern_res (disk_access_ioctl path CTRL_INIT);;
            status ← kern (disk_access_status path);
            if st_nomedia status then fail MOFS_ENOENT else
            if st_wr_protect status && negb (Z.land oflag MOFS_IO_OPEN_FLAG_WRONLY =? 0) then fail MOFS_EROFS else
            size ← kern_res (disk_access_ioctl path GET_SECTOR_SIZE);
            upd_slot slot (set_sector_size (u32 size));;
            count ← kern_res (disk_access_ioctl path GET_SECTOR_COUNT);
            upd_slot slot (set_sector_count (u32 count)));;
          upd_slot slot (fun s => mkSlot (used s) (take (Z.to_nat (MOFS_DEV_NAME_MAX - 1)) path) 0
                                         (sector_size s) (sector_count s) oflag);;
          mret (Z.of_nat slot)
      end
  end.

(** [dev_write(fd, buf, |buf|, &written)]. *)
Definition dev_write (fd : Z) (buf : list byte) : ZM Z :=
  '(i, slot) ← dev_slot_get fd;
  if Z.land (open_flags slot) MOFS_IO_OPEN_FLAG_WRONLY =? 0 then fail MOFS_EBADF else
  '(written, _) ← dev_transfer i slot buf (blen buf) true;
  mret written.

(** [dev_read(fd, buf, count, &read_size)]: the bytes read. *)
Definition dev_read (fd count : Z) : ZM (list byte) :=
  '(i, slot) ← dev_slot_get fd;
  if Z.land (open_flags slot) MOFS_IO_OPEN_FLAG_RDONLY =? 0 then fail MOFS_EBADF else
  '(read_size, buf) ← dev_transfer i slot [] count false;
  mret (take (Z.to_nat read_size) buf).

Definition dev_fsync (fd : Z) : ZM unit :=
  '(_, slot) ← dev_slot_get fd;
  kern_res (disk_access_ioctl (name slot) CTRL_SYNC);; mret tt.

(** [dev_close]: the slot is released even when the disk reports an error. *)
Definition dev_close (fd : Z) : ZM unit :=
  '(i, slot) ← dev_slot_get fd;
  r ← kern (disk_access_ioctl (take (Z.to_nat (MOFS_DEV_NAME_MAX - 1)) (name slot)) CTRL_DEINIT);
  dev_slot_free i;;
  match r with inl e => fail (os_to_mofs_errno e) | inr _ => mret tt end.

Definition dev_lseek (fd off whence : Z) : ZM Z :=
  '(i, slot) ← dev_slot_get fd;
  let size := dev_slot_byte_size slot in
  new_offset ← (if whence =? MOFS_SEEK_SET then mret off
                else if whence =? MOFS_SEEK_CUR then mret (s64 (offset slot + off))
                else if whence =? MOFS_SEEK_END then mret (s64 (size + off))
                else fail MOFS_EINVAL);
  if (new_offset <? 0) || (size <? new_offset) then fail MOFS_EINVAL else
  upd_slot i (set_offset new_offset);;
  mret new_offset.

Definition dev_get_size (fd : Z) : ZM Z :=
  '(_, slot) ← dev_slot_get fd; mret (u64 (dev_slot_byte_size slot)).

(** ** Caller credentials (os_user.c) *)

(** The static [caller_user_ctx]. *)
Definition caller_user_init : mofs_user_ctx_t := mkUser 0 0 0 [] true.

(** [mofs_set_caller_user] does not touch the supplementary groups. *)
Definition mofs_set_caller_user (u g p : Z) (c : mofs_user_ctx_t) : mofs_user_ctx_t :=
  mkUser u g p (supp_groups c) true.

Definition mofs_set_caller_for_peer_process (u g p : Z) (c : mofs_user_ctx_t) : ZM mofs_user_ctx_t :=
  mret (mofs_set_caller_user u g p c).

Definition mofs_get_caller_user (c : mofs_user_ctx_t) : ZM mofs_user_ctx_t := mret c.

Definition mofs_clear_caller_user (c : mofs_user_ctx_t) : mofs_user_ctx_t :=
  mkUser (uid c) (gid c) (pid c) [] false.

End zephyr.
End Zephyr.

#[global] Instance zephyr_platform {H} `{!ZephyrKernel H} : Platform (Zephyr.zstate H) := {
  port_open := Zephyr.dev_open;
  port_write := Zephyr.dev_write;
  port_read := Zephyr.dev_read;
  port_fsync := Zephyr.dev_fsync;
  port_close := Zephyr.dev_close;
  port_lseek := Zephyr.dev_lseek;
  port_get_size := Zephyr.dev_get_size;
  port_malloc := Zephyr.mofs_malloc;
  port_now := Zephyr.mofs_now;
  port_mutex_init := Zephyr.mofs_mutex_init;
  port_get_user := Zephyr.mofs_get_caller_user;
  port_set_user := Zephyr.mofs_set_caller_user;
  port_set_peer := Zephyr.mofs_set_caller_for_peer_process;
  port_clear_user := Zephyr.mofs_clear_caller_user
}.
