(* ===== verification/ZephyrSpec.v ===== *)
(** * The Zephyr port on a disk that works

    [DiskSpec] states what the disk_access API promises of a disk without
    faults.  Under it a transfer of any length at any alignment reads or
    replaces exactly the bytes it names, and the port keeps the promises of
    [PlatformSpec]: everything proved of the core holds on Zephyr. *)

From Stdlib Require Import ZArith Lia.
From stdpp Require Import base list.
From S2P Require Import Prelude Types Platform Zephyr.
Import Zephyr.

(** [d_off]: the disk is present and not initialised; [d_ok]: initialised. *)
Class DiskSpec (H : Type) `{!ZephyrKernel H} := {
  d_off : H -> Prop;
  d_ok : H -> Prop;
  d_name : cstr;
  d_ss : Z;
  d_count : Z;
  d_image : H -> list byte;
  d_name_short : blen d_name < MOFS_DEV_NAME_MAX;
  d_ss_range : 0 < d_ss < 2 ^ 32;
  d_count_range : 0 <= d_count < 2 ^ 32;
  d_small : d_count * d_ss < 2 ^ 63;
  d_length : forall h, d_off h \/ d_ok h -> blen (d_image h) = d_count * d_ss;
  d_status_off : forall h, d_off h -> exists h',
    disk_access_status d_name h = (h', mkStatus false false) /\ d_off h' /\ d_image h' = d_image h;
  d_init : forall h, d_off h -> exists h' v,
    disk_access_ioctl d_name CTRL_INIT h = (h', inr v) /\ d_ok h' /\ d_image h' = d_image h;
  d_status : forall h, d_ok h -> exists h',
    disk_access_status d_name h = (h', mkStatus false false) /\ d_ok h' /\ d_image h' = d_image h;
  d_get_size : forall h, d_ok h -> exists h',
    disk_access_ioctl d_name GET_SECTOR_SIZE h = (h', inr d_ss) /\ d_ok h' /\ d_image h' = d_image h;
  d_get_count : forall h, d_ok h -> exists h',
    disk_access_ioctl d_name GET_SECTOR_COUNT h = (h', inr d_count) /\ d_ok h' /\ d_image h' = d_image h;
  d_sync : forall h, d_ok h -> exists h' v,
    disk_access_ioctl d_name CTRL_SYNC h = (h', inr v) /\ d_ok h' /\ d_image h' = d_image h;
  d_deinit : forall h, d_ok h -> exists h' v,
    disk_access_ioctl d_name CTRL_DEINIT h = (h', inr v) /\ d_off h' /\ d_image h' = d_image h;
  d_read : forall h s n, d_ok h -> 0 <= s -> 0 < n -> s + n <= d_count -> exists h',
    disk_access_read d_name s n h = (h', inr (bslice (s * d_ss) (n * d_ss) (d_image h))) /\
    d_ok h' /\ d_image h' = d_image h;
  d_write : forall h b s n, d_ok h -> 0 <= s -> 0 < n -> s + n <= d_count -> blen b = n * d_ss -> exists h',
    disk_access_write d_name b s n h = (h', None) /\ d_ok h' /\ d_image h' = bsplice (s * d_ss) b (d_image h);
  d_malloc_off : forall h n, d_off h -> 0 <= n -> exists h' b,
    k_malloc n h = (h', Some b) /\ d_off h' /\ d_image h' = d_image h;
  d_malloc : forall h n, d_ok h -> 0 <= n -> exists h' b,
    k_malloc n h = (h', Some b) /\ blen b = n /\ d_ok h' /\ d_image h' = d_image h;
  d_uptime : forall h, d_ok h -> exists h' t,
    k_uptime_get h = (h', t) /\ d_ok h' /\ d_image h' = d_image h;
  d_mutex_init : forall h, d_ok h -> exists h',
    k_mutex_init h = (h', true) /\ d_ok h' /\ d_image h' = d_image h
}.

Section zephyr.
Context {H : Type} `{!ZephyrKernel H}.
Abbreviation Z_ := (zstate H).

(** ** The arithmetic of a chunk *)

Lemma s64_small x : - 2 ^ 63 <= x < 2 ^ 63 -> s64 x = x.
Proof. intros. unfold s64. rewrite Z.mod_small; lia. Qed.

(** Sector and offset of a byte position inside a device. *)
Record in_sector (ss count cur : Z) (idx off : Z) := {
  is_cur : cur = idx * ss + off;
  is_off : 0 <= off < ss;
  is_idx : 0 <= idx < count
}.

Lemma sector_of ss count cur : 0 < ss < 2 ^ 32 -> 0 <= count < 2 ^ 32 -> 0 <= cur < count * ss -> count * ss < 2 ^ 63 ->
  in_sector ss count cur (u32 (u64 cur / ss)) (u32 (u64 cur mod ss)).
Proof.
  intros Hss Hc Hcur Hs. pose proof (Z.mod_pos_bound cur ss ltac:(lia)) as Hm. pose proof (Z.div_mod cur ss ltac:(lia)) as Hd.
  assert (Hi : 0 <= cur / ss < count) by (split; [apply Z.div_pos; lia|apply Z.div_lt_upper_bound; lia]).
  rewrite u64_small by lia. rewrite !u32_small by lia. split; lia.
Qed.

(** The number of whole sectors moved at once. *)
Lemma whole_sectors ss count cur idx remaining : 0 < ss < 2 ^ 32 -> 0 <= count < 2 ^ 32 -> in_sector ss count cur idx 0 ->
  ss <= remaining < 2 ^ 32 -> cur + remaining <= count * ss ->
  (if u32 (count - idx) <? remaining / ss then u32 (count - idx) else remaining / ss) = remaining / ss /\
  1 <= remaining / ss /\ idx + remaining / ss <= count /\ remaining / ss * ss <= remaining.
Proof.
  intros Hss Hc [Hcur _ Hidx] Hr Hend. rewrite u32_small by lia.
  assert (H1 : 1 <= remaining / ss) by (apply Z.div_le_lower_bound; lia).
  assert (H2 : remaining / ss * ss <= remaining) by (rewrite Z.mul_comm; apply Z.mul_div_le; lia).
  assert (H3 : remaining / ss <= count - idx).
  { apply Z.div_le_upper_bound; [lia|]. lia. }
  split; [|lia]. destruct (Z.ltb_spec (count - idx) (remaining / ss)); [lia|done].
Qed.

(** ** Termination, for any disk *)

(** What an open slot of a device of less than [2^63] bytes satisfies. *)
Record slot_ok (s : dev_slot) : Prop := {
  sl_ss : 0 < sector_size s < 2 ^ 32;
  sl_count : 0 <= sector_count s < 2 ^ 32;
  sl_size : sector_count s * sector_size s < 2 ^ 63;
  sl_offset : 0 <= offset s
}.

Lemma byte_size_ok s : slot_ok s -> dev_slot_byte_size s = sector_count s * sector_size s.
Proof.
  intros [Hss Hc Hs _]. assert (0 <= sector_count s * sector_size s) by (apply Z.mul_nonneg_nonneg; lia).
  unfold dev_slot_byte_size. rewrite u64_small by lia. by rewrite s64_small by lia.
Qed.

(** An operation that cannot get stuck, with results that satisfy [Q] and
    positive errors; only the hardware changes. *)
Definition ends {A} (m : M Z_ A) (Q : A -> Prop) : Prop := forall z, exists h,
  (exists x, m z = (mkZ h (dev_slots z), Ok x) /\ Q x) \/ (exists e, m z = (mkZ h (dev_slots z), Err e) /\ 0 < e).

Lemma ends_ret {A} (x : A) (Q : A -> Prop) : Q x -> ends (mret x) Q.
Proof. intros HQ z. exists (z_hw z). left. exists x. by destruct z. Qed.

Lemma ends_fail {A} e (Q : A -> Prop) : 0 < e -> ends (fail e) Q.
Proof. intros He z. exists (z_hw z). right. exists e. by destruct z. Qed.

Lemma ends_bind {A B} (m : M Z_ A) (k : A -> M Z_ B) R Q : ends m R -> (forall x, R x -> ends (k x) Q) -> ends (m ≫= k) Q.
Proof.
  intros Hm Hk z. destruct (Hm z) as (h & [(x & E & HR)|(e & E & He)]).
  - destruct (Hk x HR (mkZ h (dev_slots z))) as (h' & Hc). exists h'. rewrite (M_bind_ok _ _ _ _ _ E). exact Hc.
  - exists h. right. exists e. by rewrite (M_bind_err _ _ _ _ _ E).
Qed.

Lemma os_to_mofs_errno_pos e : 0 < os_to_mofs_errno e.
Proof. by destruct e. Qed.

Lemma ends_kern {A} (f : H -> H * A) : ends (kern f) (fun _ => True).
Proof. intros z. unfold kern. destruct (f (z_hw z)) as [h a]. exists h. left. by exists a. Qed.

Lemma ends_kern_res {A} (f : H -> H * (host_errno + A)) : ends (kern_res f) (fun _ => True).
Proof.
  apply (ends_bind _ _ (fun _ => True)); [apply ends_kern|]. intros [e|a] _; [apply ends_fail, os_to_mofs_errno_pos|by apply ends_ret].
Qed.

Lemma ends_kern_opt (f : H -> H * option host_errno) : ends (kern_opt f) (fun _ => True).
Proof.
  apply (ends_bind _ _ (fun _ => True)); [apply ends_kern|]. intros [e|] _; [apply ends_fail, os_to_mofs_errno_pos|by apply ends_ret].
Qed.

(** A chunk is not empty and no longer than what remains. *)
Lemma chunk_ends s w cur remaining transferred data sb : slot_ok s -> 0 <= cur ->
  0 < remaining < 2 ^ 32 -> cur + remaining <= sector_count s * sector_size s ->
  ends (transfer_chunk s w cur remaining transferred data sb) (fun r => 0 < r.1.1 <= remaining).
Proof.
  intros [Hss Hc Hs _] Hcur Hr Hend. unfold transfer_chunk.
  pose proof (sector_of (sector_size s) (sector_count s) cur Hss Hc ltac:(lia) Hs) as His. destruct His as [Hi Ho Hidx].
  set (idx := u32 (u64 cur / sector_size s)) in *. set (off := u32 (u64 cur mod sector_size s)) in *.
  rewrite (u32_small (sector_size s - off)) by lia. set (chunk := if remaining <? _ then _ else _).
  assert (Hch : 0 < chunk <= remaining) by (unfold chunk; destruct (Z.ltb_spec remaining (sector_size s - off)); lia).
  destruct ((off =? 0) && (chunk =? sector_size s)) eqn:Hfull; bool_hyps.
  - destruct (whole_sectors (sector_size s) (sector_count s) cur idx remaining) as (E & Hq1 & Hq2 & Hq3); try lia; [by split; lia|].
    rewrite E. assert (Hn : 0 < remaining / sector_size s * sector_size s) by (apply Z.mul_pos_pos; lia).
    rewrite (u32_small (_ * _)) by lia. destruct w.
    + apply (ends_bind _ _ (fun _ => True)); [apply ends_kern_opt|]. intros _ _. by apply ends_ret.
    + apply (ends_bind _ _ (fun _ => True)); [apply ends_kern_res|]. intros bs _. by apply ends_ret.
  - apply (ends_bind _ _ (fun _ => True)).
    { destruct sb; [by apply ends_ret|]. apply (ends_bind _ _ (fun _ => True)); [apply ends_kern|].
      intros [b|] _; [by apply ends_ret|by apply ends_fail]. }
    intros _ _. apply (ends_bind _ _ (fun _ => True)); [apply ends_kern_res|]. intros bs _. destruct w; [|by apply ends_ret].
    apply (ends_bind _ _ (fun _ => True)); [apply ends_kern_opt|]. intros _ _. by apply ends_ret.
Qed.

Lemma loop_ends s w fuel : forall cur remaining transferred data sb, slot_ok s -> 0 <= cur -> 0 <= transferred ->
  0 <= remaining <= Z.of_nat fuel -> transferred + remaining < 2 ^ 32 -> cur + remaining <= sector_count s * sector_size s ->
  ends (transfer_loop fuel s w cur remaining transferred data sb) (fun r => r.1 = (cur + remaining, transferred + remaining)).
Proof.
  induction fuel as [|fuel IH]; intros cur remaining transferred data sb Hs Hc Ht Hr H32 Hend; cbn [transfer_loop].
  { rewrite (proj2 (Z.leb_le remaining 0)) by lia. apply ends_ret. cbn. f_equal; lia. }
  destruct (Z.leb_spec remaining 0); [apply ends_ret; cbn; f_equal; lia|].
  eapply ends_bind; [apply chunk_ends; (done || lia)|]. intros [[chunk data'] sb'] Hch. cbn in Hch.
  pose proof (sl_size _ Hs). rewrite s64_small by lia. rewrite !u32_small by lia.
  replace (cur + remaining, transferred + remaining) with (cur + chunk + (remaining - chunk), transferred + chunk + (remaining - chunk)) by (f_equal; lia).
  apply IH; (done || lia).
Qed.

Lemma alter_same {A} (f : A -> A) (i : nat) (l : list A) x : l !! i = Some x -> f x = x -> alter f i l = l.
Proof.
  intros Hi Hf. apply list_eq. intros j. destruct (decide (i = j)) as [->|Hne].
  - rewrite list_lookup_alter_eq, Hi. cbn. by rewrite Hf.
  - by rewrite list_lookup_alter_ne.
Qed.

(** A whole transfer ends, whatever the disk does: it moves at most [count]
    bytes and advances the offset by as many, or reports an error. *)
Lemma transfer_ends i s w data count (z : Z_) : dev_slots z !! i = Some s -> slot_ok s -> 0 <= count < 2 ^ 32 -> exists h off,
  (exists k data', dev_transfer i s data count w z = (mkZ h (alter (set_offset off) i (dev_slots z)), Ok (k, data')) /\
     0 <= k <= count /\ off = offset s + k) \/
  (exists e slots, dev_transfer i s data count w z = (mkZ h slots, Err e) /\ 0 < e /\
     (slots = dev_slots z \/ slots = alter (set_offset off) i (dev_slots z))).
Proof.
  intros Hi Hs Hc. pose proof Hs as [Hss Hcr Hsz Ho]. unfold dev_transfer. rewrite (byte_size_ok s Hs).
  rewrite (proj2 (Z.eqb_neq (sector_size s) 0)) by lia. set (size := sector_count s * sector_size s) in *.
  destruct ((size <=? offset s) || (count =? 0)) eqn:Hz.
  { exists (z_hw z), (offset s). left. exists 0, data. split; [|lia].
    rewrite (alter_same _ i _ s Hi) by by destruct s. by destruct z. }
  bool_hyps. rewrite s64_small by lia. set (n := if size - offset s <? count then _ else _).
  assert (Hn : 0 < n <= count /\ offset s + n <= size).
  { unfold n. destruct (Z.ltb_spec (size - offset s) count); [rewrite u32_small by lia|]; lia. }
  destruct (loop_ends s w (Z.to_nat n) (offset s) n 0 data None Hs Ho (Z.le_refl 0) ltac:(lia) ltac:(lia) (proj2 Hn) z)
    as (h & [([[cur t] data'] & E & Hr)|(e & E & He)]).
  - cbn in Hr. injection Hr as -> ->. rewrite (M_bind_ok _ _ _ _ _ E). erewrite M_bind_ok by reflexivity. cbn [z_hw dev_slots].
    set (z1 := mkZ h _). set (sync := if w && _ then _ else _).
    assert (Hsync : ends sync (fun _ => True)).
    { unfold sync. destruct (w && _); [|by apply ends_ret]. eapply ends_bind; [apply ends_kern_res|]. intros _ _. by apply ends_ret. }
    destruct (Hsync z1) as (h' & [(x & E' & _)|(e & E' & He)]); exists h', (offset s + n).
    + left. exists (0 + n), data'. rewrite (M_bind_ok _ _ _ _ _ E'). split; [done|lia].
    + right. exists e, (dev_slots z1). rewrite (M_bind_err _ _ _ _ _ E'). split; [done|]. split; [done|by right].
  - exists h, 0. right. exists e, (dev_slots z). rewrite (M_bind_err _ _ _ _ _ E). split; [done|]. split; [done|by left].
Qed.

Lemma kern_res_ok {A} (f : H -> H * (host_errno + A)) z h a : f (z_hw z) = (h, inr a) -> kern_res f z = (mkZ h (dev_slots z), Ok a).
Proof. intros E. unfold kern_res. unfold kern, mbind, M_bind. by rewrite E. Qed.

Lemma kern_opt_ok (f : H -> H * option host_errno) z h : f (z_hw z) = (h, None) -> kern_opt f z = (mkZ h (dev_slots z), Ok tt).
Proof. intros E. unfold kern_opt. unfold kern, mbind, M_bind. by rewrite E. Qed.

Lemma kern_ok {A} (f : H -> H * A) z h a : f (z_hw z) = (h, a) -> kern f z = (mkZ h (dev_slots z), Ok a).
Proof. intros E. unfold kern. by rewrite E. Qed.

(** ** The table of open devices, for any disk *)

(** A free slot is zeroed. *)
Record table_ok (slots : list dev_slot) : Prop := {
  tb_length : length slots = MOFS_DEV_SLOT_MAX;
  tb_free : forall i s, slots !! i = Some s -> used s = false -> s = zero_slot
}.

(** Operations that leave every slot but [i] alone, and whether [i] is used. *)
Definition touches {A} (i : nat) (m : M Z_ A) : Prop := forall z, exists h f r,
  m z = (mkZ h (alter f i (dev_slots z)), r) /\ r <> Stuck /\ forall s, used (f s) = used s.

Lemma alter_alter {A} (f g : A -> A) (i : nat) (l : list A) : alter f i (alter g i l) = alter (f ∘ g) i l.
Proof.
  apply list_eq. intros j. destruct (decide (i = j)) as [->|Hne].
  - rewrite !list_lookup_alter_eq. by destruct (l !! j).
  - by rewrite !list_lookup_alter_ne.
Qed.

Lemma alter_insert {A} (f : A -> A) (i : nat) (l : list A) x : l !! i = Some x -> alter f i l = <[i := f x]> l.
Proof.
  intros Hi. apply list_eq. intros j. destruct (decide (i = j)) as [->|Hne].
  - rewrite list_lookup_alter_eq, Hi, list_lookup_insert_eq; [done|]. by eapply lookup_lt_Some.
  - by rewrite list_lookup_alter_ne, list_lookup_insert_ne.
Qed.

Lemma touches_ret {A} i (x : A) : touches i (mret x).
Proof. intros z. exists (z_hw z), id, (Ok x). split; [|done]. rewrite list_alter_id by done. by destruct z. Qed.

Lemma touches_fail {A} i e : touches i (@fail Z_ A e).
Proof. intros z. exists (z_hw z), id, (Err e). split; [|done]. rewrite list_alter_id by done. by destruct z. Qed.

Lemma touches_bind {A B} i (m : M Z_ A) (k : A -> M Z_ B) : touches i m -> (forall x, touches i (k x)) -> touches i (m ≫= k).
Proof.
  intros Hm Hk z. destruct (Hm z) as (h & f & r & E & Hr & Hf). destruct r as [x|e|]; [| |done].
  - destruct (Hk x (mkZ h (alter f i (dev_slots z)))) as (h' & f' & r' & E' & Hr' & Hf'). cbn [z_hw dev_slots] in E'.
    exists h', (f' ∘ f), r'. rewrite (M_bind_ok _ _ _ _ _ E), E'. rewrite alter_alter. split; [done|]. split; [done|].
    intros s. cbn. by rewrite Hf', Hf.
  - exists h, f, (Err e). by rewrite (M_bind_err _ _ _ _ _ E).
Qed.

Lemma touches_kern {A} i (f : H -> H * A) : touches i (kern f).
Proof.
  intros z. unfold kern. destruct (f (z_hw z)) as [h a]. exists h, id, (Ok a). by rewrite list_alter_id.
Qed.

Lemma touches_upd i f : (forall s, used (f s) = used s) -> touches i (upd_slot i f).
Proof. intros Hf z. by exists (z_hw z), f, (Ok tt). Qed.

Create HintDb touches.
#[local] Hint Resolve touches_ret touches_fail touches_kern touches_upd : touches.
Ltac touches_auto :=
  repeat match goal with
  | |- touches _ (_ ≫= _) => apply touches_bind; [|intros ?]
  | |- touches _ (match ?x with _ => _ end) => destruct x
  | |- _ => solve [auto with touches]
  end.

(** A failed open leaves no trace in the table; a successful one takes a slot
    that was free. *)
Lemma dev_open_table path flags (z : Z_) : table_ok (dev_slots z) -> exists h slots r,
  dev_open path flags z = (mkZ h slots, r) /\
  match r with
  | Ok fd => exists i s, fd = Z.of_nat i /\ (i < MOFS_DEV_SLOT_MAX)%nat /\ dev_slots z !! i = Some zero_slot /\
      used s = true /\ slots = <[i := s]> (dev_slots z)
  | Err e => slots = dev_slots z
  | Stuck => False
  end.
Proof.
  intros [Hl Hfree]. assert (Hz : z = mkZ (z_hw z) (dev_slots z)) by by destruct z.
  destruct path as [path|]; [|exists (z_hw z), (dev_slots z), (Err MOFS_EINVAL); by rewrite <- Hz].
  unfold dev_open. destruct (_ || _); [exists (z_hw z), (dev_slots z), (Err MOFS_EINVAL); by rewrite <- Hz|].
  assert (Ha : forall i s0, find_idx (fun s => negb (used s)) (dev_slots z) = Some i -> dev_slots z !! i = Some s0 ->
    s0 = zero_slot /\ (i < MOFS_DEV_SLOT_MAX)%nat /\ dev_slot_alloc z = (mkZ (z_hw z) (alter set_used i (dev_slots z)), Ok (Some i))).
  { intros i s0 Hf Hi. split; [|split].
    - apply find_idx_Some in Hf as [(s & Hs & Hu) _]. apply (Hfree i); [done|]. apply negb_true_iff in Hu. congruence.
    - rewrite <- Hl. by eapply lookup_lt_Some.
    - unfold dev_slot_alloc. erewrite M_bind_ok by reflexivity. by rewrite Hf. }
  destruct (find_idx (fun s => negb (used s)) (dev_slots z)) as [i|] eqn:Hf.
  2: { assert (En : dev_slot_alloc z = (z, Ok None)) by (unfold dev_slot_alloc; erewrite M_bind_ok by reflexivity; by rewrite Hf).
       rewrite (M_bind_ok _ _ _ _ _ En). exists (z_hw z), (dev_slots z), (Err MOFS_EMFILE). by rewrite <- Hz. }
  pose proof Hf as Hf'. apply find_idx_Some in Hf' as [(s0 & Hi & _) _]. destruct (Ha i s0 eq_refl Hi) as (-> & Hlt & E).
  rewrite (M_bind_ok _ _ _ _ _ E). cbv beta iota. set (z1 := mkZ (z_hw z) _). unfold or_free.
  set (body := kern (disk_access_status path) ≫= _).
  assert (Hb : touches i body) by (unfold body, kern_res; touches_auto).
  destruct (Hb z1) as (h & f & r & Eb & Hr & Hu). cbn [z1 dev_slots] in Eb. rewrite alter_alter in Eb. destruct r as [[]|e|]; [| |done].
  - set (fin := fun s => mkSlot (used s) (take (Z.to_nat (MOFS_DEV_NAME_MAX - 1)) path) 0 (sector_size s) (sector_count s) flags).
    exists h, (<[i := fin (f (set_used zero_slot))]> (dev_slots z)), (Ok (Z.of_nat i)). split.
    + set (m := attempt body ≫= _). assert (Em : m z1 = (mkZ h (alter (f ∘ set_used) i (dev_slots z)), Ok tt)).
      { unfold m. by rewrite (M_bind_ok _ _ _ _ _ (attempt_ok _ _ _ _ Eb)). }
      rewrite (M_bind_ok _ _ _ _ _ Em). erewrite M_bind_ok by reflexivity. cbn [z_hw dev_slots].
      rewrite alter_alter. by rewrite (alter_insert _ i _ zero_slot Hi).
    + eexists i, _. split; [done|]. split; [done|]. split; [done|]. split; [|done]. cbn. by rewrite Hu.
  - exists h, (dev_slots z), (Err e). split; [|done].
    set (m := attempt body ≫= _). assert (Em : m z1 = (mkZ h (dev_slots z), Err e)).
    { unfold m. assert (Ea : attempt body z1 = (mkZ h (alter (f ∘ set_used) i (dev_slots z)), Ok (Err e))) by (unfold attempt; by rewrite Eb).
      rewrite (M_bind_ok _ _ _ _ _ Ea). unfold dev_slot_free. erewrite M_bind_ok by reflexivity. cbn [z_hw dev_slots].
      rewrite alter_alter, (alter_insert _ i _ zero_slot Hi). cbn. by rewrite list_insert_id. }
    by rewrite (M_bind_err _ _ _ _ _ Em).
Qed.

Lemma slot_get_cases fd (z : Z_) :
  (exists s, 0 <= fd < Z.of_nat MOFS_DEV_SLOT_MAX /\ dev_slots z !! Z.to_nat fd = Some s /\ used s = true /\
     dev_slot_get fd z = (z, Ok (Z.to_nat fd, s))) \/
  dev_slot_get fd z = (z, Err MOFS_EBADF) /\
  forall s, dev_slots z !! Z.to_nat fd = Some s -> used s = true -> ~ (0 <= fd < Z.of_nat MOFS_DEV_SLOT_MAX).
Proof.
  unfold dev_slot_get. erewrite M_bind_ok by reflexivity.
  destruct ((fd <? 0) || (Z.of_nat MOFS_DEV_SLOT_MAX <=? fd)) eqn:Hr.
  { right. split; [done|]. intros s _ _. apply orb_true_iff in Hr as [Hr|Hr]; bool_hyps; lia. }
  bool_hyps. destruct (dev_slots z !! Z.to_nat fd) as [s|]; [|by right]. destruct (used s) eqn:Hu; [|right; split; [done|congruence]].
  left. exists s. split; [lia|]. done.
Qed.

(** Closing frees the slot whatever the disk answers, and only that slot. *)
Lemma dev_close_table fd (z : Z_) : exists h slots r,
  dev_close fd z = (mkZ h slots, r) /\ r <> Stuck /\
  ((exists s, dev_slots z !! Z.to_nat fd = Some s /\ used s = true /\ 0 <= fd < Z.of_nat MOFS_DEV_SLOT_MAX /\
      slots = <[Z.to_nat fd := zero_slot]> (dev_slots z)) \/
   (slots = dev_slots z /\ r = Err MOFS_EBADF /\
      forall s, dev_slots z !! Z.to_nat fd = Some s -> used s = true -> ~ (0 <= fd < Z.of_nat MOFS_DEV_SLOT_MAX))).
Proof.
  unfold dev_close. destruct (slot_get_cases fd z) as [(s & Hfd & Hs & Hu & E)|[E Hno]].
  2: { exists (z_hw z), (dev_slots z), (Err MOFS_EBADF). rewrite (M_bind_err _ _ _ _ _ E). destruct z. by split; [|split; [|right]]. }
  rewrite (M_bind_ok _ _ _ _ _ E). cbv beta iota zeta.
  set (f := disk_access_ioctl _ _). destruct (f (z_hw z)) as [h a] eqn:Ea. rewrite (M_bind_ok _ _ _ _ _ (kern_ok f z h a Ea)).
  unfold dev_slot_free. erewrite M_bind_ok by reflexivity. cbn [z_hw dev_slots]. rewrite (alter_insert _ _ _ s Hs).
  exists h, (<[Z.to_nat fd := zero_slot]> (dev_slots z)), (match a with inl e => Err (os_to_mofs_errno e) | inr _ => Ok tt end).
  split; [by destruct a|]. split; [by destruct a|]. left. by exists s.
Qed.


(** ** Transfers on a disk that works *)

Context `{!DiskSpec H}.

(** The slot belongs to the disk. *)
Record on_disk (s : dev_slot) : Prop := {
  od_name : name s = d_name;
  od_ss : sector_size s = d_ss;
  od_count : sector_count s = d_count;
  od_offset : 0 <= offset s
}.

Lemma on_disk_ok s : on_disk s -> slot_ok s.
Proof.
  intros [_ Hs Hc Ho]. pose proof d_ss_range. pose proof d_count_range. pose proof d_small. split; by rewrite ?Hs, ?Hc.
Qed.

(** The buffer and the disk after moving [n] bytes at the position [cur]. *)
Definition moved (w : bool) (cur t n : Z) (data img : list byte) : list byte * list byte :=
  if w then (data, bsplice cur (bslice t n data) img) else (data ++ bslice cur n img, img).

(** The buffer of a transfer that has moved [t] bytes and has [r] to go. *)
Definition buffer_ok (w : bool) (t r : Z) (data : list byte) : Prop :=
  if w then t + r <= blen data else blen data = t.

Lemma moved_add w cur t n m data img : 0 <= cur -> 0 <= t -> 0 <= n -> 0 <= m ->
  buffer_ok w t (n + m) data -> cur + n <= blen img ->
  moved w (cur + n) (t + n) m (moved w cur t n data img).1 (moved w cur t n data img).2 = moved w cur t (n + m) data img.
Proof.
  intros Hc Ht Hn Hm Hb Hi. destruct w; cbn in *.
  - f_equal. rewrite (bslice_add t n m) by lia. assert (Hl : blen (bslice t n data) = n) by (rewrite length_bslice; lia).
    rewrite <- bsplice_app by lia. by rewrite Hl.
  - rewrite <- app_assoc. f_equal. f_equal. by rewrite <- bslice_add by lia.
Qed.

Lemma buffer_moved w cur t n m data img : 0 <= cur -> 0 <= n -> buffer_ok w t (n + m) data -> cur + n <= blen img ->
  buffer_ok w (t + n) m (moved w cur t n data img).1.
Proof. intros Hc Hn Hb Hi. destruct w; cbn in *; [lia|]. rewrite length_app, Nat2Z.inj_add, length_bslice; lia. Qed.

Lemma length_moved w cur t n data img : 0 <= cur -> 0 <= t -> 0 <= n -> buffer_ok w t n data -> cur + n <= blen img ->
  blen (moved w cur t n data img).2 = blen img.
Proof. intros Hc Ht Hn Hb Hi. destruct w; cbn in *; [|done]. rewrite length_bsplice by (rewrite ?length_bslice; lia). done. Qed.

(** Appending to a buffer that is full up to [t]. *)
(** Whole sectors. *)
Lemma sectors_exact {B} s (w : bool) (idx n t c : Z) data (sb : B) (z : Z_) : on_disk s -> d_ok (z_hw z) -> 0 <= idx -> 0 < n -> idx + n <= d_count ->
  0 <= t -> buffer_ok w t (n * d_ss) data -> exists h,
  (if w then kern_opt (disk_access_write (name s) (bslice t (n * d_ss) data) idx n);; mret (c, data, sb)
   else bs ← kern_res (disk_access_read (name s) idx n); mret (c, bsplice t bs data, sb)) z =
  (mkZ h (dev_slots z), Ok (c, (moved w (idx * d_ss) t (n * d_ss) data (d_image (z_hw z))).1, sb)) /\
  d_ok h /\ d_image h = (moved w (idx * d_ss) t (n * d_ss) data (d_image (z_hw z))).2.
Proof.
  intros [Hn _ _ _] Hok Hi Hpos Hend Ht Hb. rewrite Hn. destruct w; cbn in Hb |- *.
  - assert (0 < n * d_ss) by (apply Z.mul_pos_pos; [lia|apply d_ss_range]).
    destruct (d_write (z_hw z) (bslice t (n * d_ss) data) idx n) as (h & E & Hh); try done; [rewrite length_bslice; lia|].
    exists h. split; [|done]. by rewrite (M_bind_ok _ _ _ _ _ (kern_opt_ok _ _ _ E)).
  - destruct (d_read (z_hw z) idx n) as (h & E & Hh); try done. exists h. split; [|done].
    rewrite (M_bind_ok _ _ _ _ _ (kern_res_ok _ _ _ _ E)). by rewrite bsplice_end.
Qed.

(** Part of a sector: read, and for a write modify and write back. *)
Lemma partial_exact s (w : bool) (idx off chunk t : Z) data (z : Z_) : on_disk s -> d_ok (z_hw z) -> 0 <= idx < d_count ->
  0 <= off -> 0 < chunk -> off + chunk <= d_ss -> 0 <= t -> buffer_ok w t chunk data -> exists h sb,
  (bs ← kern_res (disk_access_read (name s) idx 1);
   if w then
     let bs := bsplice off (bslice t chunk data) bs in
     kern_opt (disk_access_write (name s) bs idx 1);; mret (chunk, data, Some bs)
   else mret (chunk, bsplice t (bslice off chunk bs) data, Some bs)) z =
  (mkZ h (dev_slots z), Ok (chunk, (moved w (idx * d_ss + off) t chunk data (d_image (z_hw z))).1, sb)) /\
  d_ok h /\ d_image h = (moved w (idx * d_ss + off) t chunk data (d_image (z_hw z))).2.
Proof.
  intros [Hn _ _ _] Hok Hi Ho Hc Hend Ht Hb. rewrite Hn. set (img := d_image (z_hw z)).
  pose proof d_ss_range as Hss. assert (Hlen : blen img = d_count * d_ss) by (apply d_length; by right).
  assert (Hin : (idx + 1) * d_ss <= d_count * d_ss) by (apply Z.mul_le_mono_nonneg_r; lia).
  assert (Hi0 : 0 <= idx * d_ss) by (apply Z.mul_nonneg_nonneg; lia).
  destruct (d_read (z_hw z) idx 1) as (h & E & Hh & Himg); try done; try lia. rewrite Z.mul_1_l in E. fold img in E, Himg.
  rewrite (M_bind_ok _ _ _ _ _ (kern_res_ok _ _ _ _ E)). destruct w; cbn in Hb |- *.
  - destruct (d_write h (bsplice off (bslice t chunk data) (bslice (idx * d_ss) d_ss img)) idx 1) as (h' & E' & Hh' & Himg');
      try done; try lia; [rewrite length_bsplice; rewrite ?length_bslice; lia|].
    exists h'. eexists. split; [by rewrite (M_bind_ok _ _ (mkZ h (dev_slots z)) _ _ (kern_opt_ok _ _ _ E'))|]. split; [done|].
    rewrite Himg', Himg. apply bsplice_nested; try lia. rewrite length_bslice; lia.
  - exists h. eexists. split; [|done]. rewrite bsplice_end by done. do 5 f_equal. by rewrite bslice_bslice by lia.
Qed.

Lemma chunk_exact s w cur remaining t data sb (z : Z_) : on_disk s -> d_ok (z_hw z) -> 0 <= cur -> 0 <= t ->
  0 < remaining < 2 ^ 32 -> cur + remaining <= d_count * d_ss -> buffer_ok w t remaining data -> exists h c sb',
  let m := moved w cur t c data (d_image (z_hw z)) in
  transfer_chunk s w cur remaining t data sb z = (mkZ h (dev_slots z), Ok (c, m.1, sb')) /\
  0 < c <= remaining /\ d_ok h /\ d_image h = m.2.
Proof.
  intros Hs Hok Hcur Ht Hr Hend Hb. pose proof d_ss_range as Hss. pose proof d_count_range as Hcr. pose proof d_small as Hsm.
  unfold transfer_chunk. rewrite (od_ss _ Hs), (od_count _ Hs).
  pose proof (sector_of d_ss d_count cur Hss Hcr ltac:(lia) Hsm) as His. pose proof His as [Hi Ho Hidx].
  set (idx := u32 (u64 cur / d_ss)) in *. set (off := u32 (u64 cur mod d_ss)) in *.
  rewrite (u32_small (d_ss - off)) by lia. set (chunk := if remaining <? _ then _ else _).
  assert (Hch : 0 < chunk <= remaining /\ off + chunk <= d_ss) by (unfold chunk; destruct (Z.ltb_spec remaining (d_ss - off)); lia).
  destruct ((off =? 0) && (chunk =? d_ss)) eqn:Hfull; bool_hyps.
  - destruct (whole_sectors d_ss d_count cur idx remaining) as (E & Hq1 & Hq2 & Hq3); try lia; [by split; lia|].
    rewrite E. set (n := remaining / d_ss) in *. assert (Hn : 0 < n * d_ss) by (apply Z.mul_pos_pos; lia).
    rewrite (u32_small (n * d_ss)) by lia.
    destruct (sectors_exact s w idx n t (n * d_ss) data sb z) as (h & E' & Hh); try done; try lia; [destruct w; cbn in *; lia|].
    replace cur with (idx * d_ss) by lia. exists h, (n * d_ss), sb. split; [exact E'|split; [lia|done]].
  - set (alloc := match sb with Some _ => _ | None => _ end).
    assert (Ha : exists h1, alloc z = (mkZ h1 (dev_slots z), Ok tt) /\ d_ok h1 /\ d_image h1 = d_image (z_hw z)).
    { unfold alloc. destruct sb; [exists (z_hw z); by destruct z|].
      destruct (d_malloc (z_hw z) d_ss Hok ltac:(lia)) as (h1 & b & E1 & _ & H1). exists h1. split; [|done].
      by rewrite (M_bind_ok _ _ _ _ _ (kern_ok _ _ _ _ E1)). }
    destruct Ha as (h1 & E1 & Hok1 & Himg1). rewrite (M_bind_ok _ _ _ _ _ E1).
    destruct (partial_exact s w idx off chunk t data (mkZ h1 (dev_slots z))) as (h & sb' & E & Hh & Himg); try done; try lia.
    { destruct w; cbn in *; lia. }
    cbn [z_hw dev_slots] in *. rewrite <- Hi, Himg1 in E, Himg. exists h, chunk, sb'. split; [exact E|split; [lia|done]].
Qed.

Lemma loop_exact s w fuel : forall cur remaining t data sb (z : Z_), on_disk s -> d_ok (z_hw z) -> 0 <= cur -> 0 <= t ->
  0 <= remaining <= Z.of_nat fuel -> t + remaining < 2 ^ 32 -> cur + remaining <= d_count * d_ss -> buffer_ok w t remaining data -> exists h,
  let m := moved w cur t remaining data (d_image (z_hw z)) in
  transfer_loop fuel s w cur remaining t data sb z = (mkZ h (dev_slots z), Ok (cur + remaining, t + remaining, m.1)) /\
  d_ok h /\ d_image h = m.2.
Proof.
  induction fuel as [|fuel IH]; intros cur remaining t data sb z Hs Hok Hc Ht Hr H32 Hend Hb; cbn [transfer_loop].
  2: destruct (Z.leb_spec remaining 0).
  1,2: replace remaining with 0 by lia; rewrite ?Z.leb_refl, !Z.add_0_r; exists (z_hw z); destruct z; destruct w; cbn;
    rewrite ?bslice_0_len, ?bsplice_nil, ?app_nil_r; done.
  pose proof d_small. assert (Hlen : blen (d_image (z_hw z)) = d_count * d_ss) by (apply d_length; by right).
  destruct (chunk_exact s w cur remaining t data sb z Hs Hok Hc Ht ltac:(lia) Hend Hb) as (h & c & sb' & E & Hch & Hok' & Himg).
  rewrite (M_bind_ok _ _ _ _ _ E). rewrite s64_small by lia. rewrite !u32_small by lia.
  assert (Hb' : buffer_ok w t (c + (remaining - c)) data) by (by replace (c + (remaining - c)) with remaining by lia).
  destruct (IH (cur + c) (remaining - c) (t + c) (moved w cur t c data (d_image (z_hw z))).1 sb' (mkZ h (dev_slots z))) as (h' & E' & Hok'' & Himg');
    try done; try lia; [apply buffer_moved; (done || lia)|].
  cbn [z_hw dev_slots] in *. rewrite Himg, moved_add in E', Himg' by (done || lia).
  replace (c + (remaining - c)) with remaining in * by lia. exists h'. split; [|done]. rewrite E'. do 3 f_equal; [f_equal; lia].
Qed.

(** The number of bytes a request at [off] gets. *)
Definition available (off count : Z) : Z := Z.max 0 (Z.min count (d_count * d_ss - off)).

Lemma transfer_exact i s (w : bool) data count (z : Z_) : dev_slots z !! i = Some s -> on_disk s -> d_ok (z_hw z) ->
  0 <= count < 2 ^ 32 -> (if w then count <= blen data else data = []) -> exists h,
  let n := available (offset s) count in
  let m := moved w (offset s) 0 n data (d_image (z_hw z)) in
  dev_transfer i s data count w z = (mkZ h (alter (set_offset (offset s + n)) i (dev_slots z)), Ok (n, m.1)) /\
  d_ok h /\ d_image h = m.2.
Proof.
  intros Hi Hs Hok Hc Hb. pose proof d_ss_range as Hss. pose proof d_small as Hsm. pose proof d_count_range as Hcr.
  pose proof (byte_size_ok s (on_disk_ok s Hs)) as Hsz. pose proof (od_offset _ Hs) as Ho. unfold dev_transfer. rewrite Hsz, (od_ss _ Hs), (od_count _ Hs).
  rewrite (proj2 (Z.eqb_neq d_ss 0)) by lia. set (size := d_count * d_ss) in *. set (n := available (offset s) count).
  assert (Hsize : 0 <= size) by (apply Z.mul_nonneg_nonneg; lia).
  destruct ((size <=? offset s) || (count =? 0)) eqn:Hz.
  - assert (Hn : n = 0) by (unfold n, available; apply orb_true_iff in Hz as [Hz|Hz]; bool_hyps; fold size; lia).
    rewrite Hn, Z.add_0_r. exists (z_hw z). split; [|split; [done|destruct w; [cbn [moved snd]; by rewrite bslice_0_len, bsplice_nil|done]]].
    rewrite (alter_same _ i _ s Hi) by by destruct s. destruct z, w; cbn; by rewrite ?bslice_0_len, ?app_nil_r.
  - bool_hyps. rewrite s64_small by lia.
    assert (Hn : (if size - offset s <? count then u32 (size - offset s) else count) = n /\ 0 < n <= count /\ offset s + n <= size).
    { unfold n, available. fold size. destruct (Z.ltb_spec (size - offset s) count); [rewrite u32_small by lia|]; lia. }
    destruct Hn as (-> & Hn & Hend).
    destruct (loop_exact s w (Z.to_nat n) (offset s) n 0 data None z) as (h & E & Hok' & Himg); try done; try lia.
    { destruct w; cbn; [lia|by subst]. }
    rewrite (M_bind_ok _ _ _ _ _ E). erewrite M_bind_ok by reflexivity. rewrite Z.add_0_l. cbn [z_hw dev_slots].
    destruct (w && has_flag (open_flags s) MOFS_IO_OPEN_FLAG_SYNC); [|by exists h].
    destruct (d_sync h Hok') as (h' & v & E' & Hok'' & Himg'). rewrite (od_name _ Hs). exists h'. split; [|split; [done|by rewrite Himg']].
    set (z1 := mkZ h _). assert (E1 : (kern_res (disk_access_ioctl d_name CTRL_SYNC);; mret tt) z1 = (mkZ h' (dev_slots z1), Ok tt)).
    { by rewrite (M_bind_ok _ _ _ _ _ (kern_res_ok _ z1 _ _ E')). }
    by rewrite (M_bind_ok _ _ _ _ _ E1).
Qed.

(** ** The port on this disk *)

(** Slot 0 is open on the disk for reading and writing. *)
Record z_open (z : Z_) (s : dev_slot) : Prop := {
  zo_slot : dev_slots z !! 0%nat = Some s;
  zo_used : used s = true;
  zo_disk : on_disk s;
  zo_end : offset s <= d_count * d_ss;
  zo_flags : Z.land (open_flags s) 3 = 3;
  zo_ok : d_ok (z_hw z)
}.

Definition z_closed (z : Z_) : Prop := exists s, dev_slots z !! 0%nat = Some s /\ used s = false /\ d_off (z_hw z).

Definition z_pos (z : Z_) : Z := match dev_slots z !! 0%nat with Some s => offset s | None => 0 end.

Lemma z_open_pos z s : z_open z s -> z_pos z = offset s.
Proof. intros Ho. unfold z_pos. by rewrite (zo_slot _ _ Ho). Qed.

Lemma slot_get_ok z s : z_open z s -> dev_slot_get 0 z = (z, Ok (0%nat, s)).
Proof.
  intros [Hs Hu _ _ _ _]. unfold dev_slot_get. erewrite M_bind_ok by reflexivity. change (Z.to_nat 0) with 0%nat. by rewrite Hs, Hu.
Qed.

Lemma z_open_offset z s h off : z_open z s -> d_ok h -> 0 <= off <= d_count * d_ss ->
  z_open (mkZ h (alter (set_offset off) 0%nat (dev_slots z))) (set_offset off s).
Proof.
  intros [Hs Hu [] He Hf Hok] Hh Hoff. split; try done; [cbn [dev_slots]; by rewrite list_lookup_alter_eq, Hs|split; (done || (cbn; lia))|cbn; lia].
Qed.

Lemma z_open_hw z s h : z_open z s -> d_ok h -> z_open (mkZ h (dev_slots z)) s.
Proof. intros [] Hh. by split. Qed.

(** One of the two access bits of a slot open for reading and writing. *)
Lemma access_bit flags b : Z.land flags 3 = 3 -> 0 <= b < 2 -> Z.land flags (2 ^ b) <> 0.
Proof.
  intros Hf Hb H0. pose proof (f_equal (fun v => Z.testbit v b) H0) as H1. cbv beta in H1.
  pose proof (f_equal (fun v => Z.testbit v b) Hf) as H2. cbv beta in H2.
  rewrite Z.land_spec, Z.bits_0, Z.pow2_bits_true, andb_true_r in H1 by lia. rewrite Z.land_spec, H1 in H2.
  assert (Hc : b = 0 \/ b = 1) by lia. by destruct Hc as [-> | ->].
Qed.

Lemma z_read_ok z s n : z_open z s -> 0 <= n < 2 ^ 32 -> exists z' s',
  dev_read 0 n z = (z', Ok (bslice (offset s) n (d_image (z_hw z)))) /\ z_open z' s' /\
  d_image (z_hw z') = d_image (z_hw z) /\ offset s' = offset s + blen (bslice (offset s) n (d_image (z_hw z))).
Proof.
  intros Ho Hn. pose proof Ho as [Hs Hu Hd He Hf Hok]. pose proof (od_offset _ Hd) as H0.
  set (img := d_image (z_hw z)). assert (Hlen : blen img = d_count * d_ss) by (apply d_length; by right).
  destruct (transfer_exact 0 s false [] n z Hs Hd Hok Hn eq_refl) as (h & E & Hh & Himg). cbn [moved fst snd] in E, Himg. fold img in E, Himg.
  set (k := available (offset s) n) in *. assert (Hk : 0 <= k <= n /\ offset s + k <= d_count * d_ss) by (unfold k, available; lia).
  assert (Hb : bslice (offset s) k img = bslice (offset s) n img).
  { unfold bslice. apply list_eq. intros j. rewrite !lookup_take_dec. repeat case_decide; try done; [exfalso; lia|].
    symmetry. rewrite lookup_drop. apply lookup_ge_None_2. unfold k, available in *. lia. }
  assert (Hbl : blen (bslice (offset s) n img) = k) by (rewrite <- Hb, length_bslice; lia).
  exists (mkZ h (alter (set_offset (offset s + k)) 0%nat (dev_slots z))), (set_offset (offset s + k) s).
  split; [|split; [apply z_open_offset; [exact Ho|exact Hh|lia]|split; [exact Himg|cbn; by rewrite Hbl]]].
  unfold dev_read. rewrite (M_bind_ok _ _ _ _ _ (slot_get_ok z s Ho)). cbv beta iota zeta.
  rewrite (proj2 (Z.eqb_neq (Z.land (open_flags s) MOFS_IO_OPEN_FLAG_RDONLY) 0)) by (by apply (access_bit _ 0)).
  rewrite (M_bind_ok _ _ _ _ _ E). cbv beta iota zeta. rewrite app_nil_l, Hb, firstn_all2 by lia. reflexivity.
Qed.

(** A write stops at the end of the disk. *)
Lemma z_write_short z s b : z_open z s -> blen b < 2 ^ 32 -> exists z' s',
  let k := Z.min (blen b) (d_count * d_ss - offset s) in
  dev_write 0 b z = (z', Ok k) /\ z_open z' s' /\
  d_image (z_hw z') = bsplice (offset s) (bslice 0 k b) (d_image (z_hw z)) /\ offset s' = offset s + k.
Proof.
  intros Ho Hb. pose proof Ho as [Hs Hu Hd He Hf Hok]. pose proof (od_offset _ Hd) as H0.
  destruct (transfer_exact 0 s true b (blen b) z Hs Hd Hok ltac:(lia) (Z.le_refl _)) as (h & E & Hh & Himg). cbn [moved fst snd] in E, Himg.
  set (k := Z.min (blen b) (d_count * d_ss - offset s)).
  assert (Hk : available (offset s) (blen b) = k) by (unfold available, k; lia). rewrite Hk in E, Himg.
  exists (mkZ h (alter (set_offset (offset s + k)) 0%nat (dev_slots z))), (set_offset (offset s + k) s).
  split; [|split; [apply z_open_offset; [exact Ho|exact Hh|unfold k; lia]|done]].
  unfold dev_write. rewrite (M_bind_ok _ _ _ _ _ (slot_get_ok z s Ho)). cbv beta iota zeta.
  rewrite (proj2 (Z.eqb_neq (Z.land (open_flags s) MOFS_IO_OPEN_FLAG_WRONLY) 0)) by (by apply (access_bit _ 1)).
  by rewrite (M_bind_ok _ _ _ _ _ E).
Qed.

Lemma z_write_ok z s b : z_open z s -> blen b < 2 ^ 32 -> offset s + blen b <= d_count * d_ss -> exists z' s',
  dev_write 0 b z = (z', Ok (blen b)) /\ z_open z' s' /\
  d_image (z_hw z') = bsplice (offset s) b (d_image (z_hw z)) /\ offset s' = offset s + blen b.
Proof.
  intros Ho Hb Hend. destruct (z_write_short z s b Ho Hb) as (z' & s' & H1). exists z', s'. cbv zeta in H1.
  replace (Z.min (blen b) (d_count * d_ss - offset s)) with (blen b) in H1 by lia. by rewrite bslice_all in H1.
Qed.

Lemma z_open_ok z flags : z_closed z -> Z.land flags 3 = 3 -> Z.land flags (Z.lnot known_open_flags) = 0 -> exists z' s,
  dev_open (Some d_name) flags z = (z', Ok 0) /\ z_open z' s /\ d_image (z_hw z') = d_image (z_hw z).
Proof.
  intros (s0 & Hs0 & Hu0 & Hoff) H3 Hk. pose proof d_ss_range. pose proof d_count_range. pose proof d_name_short.
  destruct (d_status_off (z_hw z) Hoff) as (h1 & E1 & Ho1 & I1). destruct (d_init h1 Ho1) as (h2 & v2 & E2 & Ho2 & I2).
  destruct (d_status h2 Ho2) as (h3 & E3 & Ho3 & I3). destruct (d_get_size h3 Ho3) as (h4 & E4 & Ho4 & I4).
  destruct (d_get_count h4 Ho4) as (h5 & E5 & Ho5 & I5).
  set (l1 := alter set_used 0%nat (dev_slots z)). set (l2 := alter (set_sector_size d_ss) 0%nat l1).
  set (l3 := alter (set_sector_count d_count) 0%nat l2).
  assert (Hl3 : l3 !! 0%nat = Some (set_sector_count d_count (set_sector_size d_ss (set_used s0)))).
  { unfold l3, l2, l1. by rewrite !list_lookup_alter_eq, Hs0. }
  set (fin := fun s => mkSlot (used s) (take (Z.to_nat (MOFS_DEV_NAME_MAX - 1)) d_name) 0 (sector_size s) (sector_count s) flags).
  exists (mkZ h5 (alter fin 0%nat l3)). eexists. split; [|split; [|cbn; congruence]].
  - unfold dev_open. rewrite Hk. change (negb (0 =? 0)) with false. change MOFS_IO_OPEN_FLAG_RDWR with 3. rewrite H3.
    assert (Ea : dev_slot_alloc z = (mkZ (z_hw z) l1, Ok (Some 0%nat))).
    { unfold dev_slot_alloc. erewrite M_bind_ok by reflexivity. destruct (dev_slots z) as [|x l] eqn:El; [done|].
      injection Hs0 as ->. cbn [find_idx]. rewrite Hu0. unfold l1. rewrite <- ?El. reflexivity. }
    cbn [orb Z.eqb]. rewrite (M_bind_ok _ _ _ _ _ Ea). cbv beta iota.
    set (m := or_free 0 _). assert (Em : m (mkZ (z_hw z) l1) = (mkZ h5 l3, Ok tt)).
    { unfold m, or_free. set (body := kern (disk_access_status d_name) ≫= _).
      assert (Eb : body (mkZ (z_hw z) l1) = (mkZ h5 l3, Ok tt)); [unfold body|by rewrite (M_bind_ok _ _ _ _ _ (attempt_ok _ _ _ _ Eb))].
      rewrite (M_bind_ok _ _ _ _ _ (kern_ok _ (mkZ (z_hw z) l1) _ _ E1)). cbn [st_nomedia].
      rewrite (M_bind_ok _ _ _ _ _ (kern_res_ok _ (mkZ h1 l1) _ _ E2)).
      rewrite (M_bind_ok _ _ _ _ _ (kern_ok _ (mkZ h2 l1) _ _ E3)). cbn [st_nomedia st_wr_protect andb].
      rewrite (M_bind_ok _ _ _ _ _ (kern_res_ok _ (mkZ h3 l1) _ _ E4)). rewrite u32_small by lia. erewrite M_bind_ok by reflexivity.
      rewrite (M_bind_ok _ _ _ _ _ (kern_res_ok _ (mkZ h4 l2) _ _ E5)). rewrite u32_small by lia. reflexivity. }
    rewrite (M_bind_ok _ _ _ _ _ Em). reflexivity.
  - split; [cbn [dev_slots]; rewrite list_lookup_alter_eq, Hl3; reflexivity|done| |cbn|done|done].
    + split; try done. cbn. apply firstn_all2. unfold MOFS_DEV_NAME_MAX in *. lia.
    + apply Z.mul_nonneg_nonneg; lia.
Qed.

Lemma z_close_ok z s : z_open z s -> exists z',
  dev_close 0 z = (z', Ok tt) /\ z_closed z' /\ d_image (z_hw z') = d_image (z_hw z).
Proof.
  intros Ho. pose proof Ho as [Hs _ Hd _ _ Hok]. pose proof d_name_short. destruct (d_deinit (z_hw z) Hok) as (h & v & E & Hoff & I).
  exists (mkZ h (alter (fun _ => zero_slot) 0%nat (dev_slots z))). split; [|split; [|done]].
  - unfold dev_close. rewrite (M_bind_ok _ _ _ _ _ (slot_get_ok z s Ho)). cbv beta iota zeta. rewrite (od_name _ Hd).
    rewrite firstn_all2 by (unfold MOFS_DEV_NAME_MAX in *; lia). by rewrite (M_bind_ok _ _ _ _ _ (kern_ok _ _ _ _ E)).
  - exists zero_slot. cbn [dev_slots]. by rewrite list_lookup_alter_eq, Hs.
Qed.

Lemma z_lseek_ok z s off : z_open z s -> 0 <= off <= d_count * d_ss ->
  dev_lseek 0 off MOFS_SEEK_SET z = (mkZ (z_hw z) (alter (set_offset off) 0%nat (dev_slots z)), Ok off).
Proof.
  intros Ho Hoff. pose proof (zo_disk _ _ Ho) as Hd. unfold dev_lseek. rewrite (M_bind_ok _ _ _ _ _ (slot_get_ok z s Ho)). cbv beta iota zeta.
  erewrite M_bind_ok by reflexivity. rewrite (byte_size_ok s (on_disk_ok s Hd)), (od_ss _ Hd), (od_count _ Hd).
  rewrite (proj2 (Z.ltb_ge off 0)), (proj2 (Z.ltb_ge (d_count * d_ss) off)) by lia. reflexivity.
Qed.

Lemma z_sync_ok z s : z_open z s -> exists h,
  dev_fsync 0 z = (mkZ h (dev_slots z), Ok tt) /\ d_ok h /\ d_image h = d_image (z_hw z).
Proof.
  intros Ho. destruct (d_sync (z_hw z) (zo_ok _ _ Ho)) as (h & v & E & Hh). exists h. split; [|done].
  unfold dev_fsync. rewrite (M_bind_ok _ _ _ _ _ (slot_get_ok z s Ho)). cbv beta iota zeta. rewrite (od_name _ (zo_disk _ _ Ho)).
  by rewrite (M_bind_ok _ _ _ _ _ (kern_res_ok _ _ _ _ E)).
Qed.

Lemma z_size_ok z s : z_open z s -> dev_get_size 0 z = (z, Ok (blen (d_image (z_hw z)))).
Proof.
  intros Ho. pose proof (zo_disk _ _ Ho) as Hd. pose proof d_small. pose proof d_ss_range. pose proof d_count_range.
  unfold dev_get_size. rewrite (M_bind_ok _ _ _ _ _ (slot_get_ok z s Ho)). cbv beta iota zeta.
  rewrite (byte_size_ok s (on_disk_ok s Hd)), (od_ss _ Hd), (od_count _ Hd), d_length by (right; apply Ho).
  assert (0 <= d_count * d_ss) by (apply Z.mul_nonneg_nonneg; lia). by rewrite u64_small by lia.
Qed.

End zephyr.

(** Zephyr is a port the core can be built on. *)
#[global] Instance zephyr_spec {H} `{!ZephyrKernel H} `{!DiskSpec H} : PlatformSpec (zstate H).
Proof.
  refine {| p_ok := fun z => exists s, z_open z s; p_closed := z_closed; p_path := d_name; p_fd := 0;
            p_dev := fun z => d_image (z_hw z); p_pos := z_pos |}.
  - done.
  - intros z flags Hc H3 Hk. destruct (z_open_ok z flags Hc H3 Hk) as (z' & s & E & Ho & I). exists z'. split_and!; [done|by exists s|done].
  - intros z n (s & Hs & Hu & Hoff) Hn. destruct (d_malloc_off (z_hw z) n Hoff Hn) as (h & b & E & Hoff' & I).
    exists (mkZ h (dev_slots z)), b. split; [cbn; unfold mofs_malloc; by rewrite (M_bind_ok _ _ _ _ _ (kern_ok _ _ _ _ E))|]. split; [by exists s|done].
  - intros z fd [s Ho] ->. by apply (z_close_ok z s).
  - intros z fd [s Ho] -> _. exists z. split; [by apply (z_size_ok z s)|]. by split; [exists s|].
  - intros z fd off [s Ho] -> Hoff. rewrite d_length in Hoff by (right; apply Ho). eexists.
    split; [by apply (z_lseek_ok z s)|]. pose proof (z_open_offset z s (z_hw z) off Ho (zo_ok _ _ Ho) Hoff) as Ho'.
    split; [by eexists|]. split; [done|]. by rewrite (z_open_pos _ _ Ho').
  - intros z fd n [s Ho] -> Hn _. destruct (z_read_ok z s n Ho Hn) as (z' & s' & E & Ho' & I & Hp). rewrite (z_open_pos z s Ho).
    exists z'. split; [done|]. split; [by exists s'|]. split; [done|]. by rewrite (z_open_pos z' s' Ho').
  - intros z fd b [s Ho] -> Hb _ Hend. rewrite (z_open_pos z s Ho) in *. rewrite d_length in Hend by (right; apply Ho).
    destruct (z_write_ok z s b Ho Hb Hend) as (z' & s' & E & Ho' & I & Hp).
    exists z'. split; [done|]. split; [by exists s'|]. split; [done|]. by rewrite (z_open_pos z' s' Ho').
  - intros z fd [s Ho] ->. destruct (z_sync_ok z s Ho) as (h & E & Hh & I). pose proof (z_open_hw z s h Ho Hh) as Ho'.
    eexists. split; [exact E|]. split; [by exists s|]. by split.
  - intros z n [s Ho] Hn. destruct (d_malloc (z_hw z) n (zo_ok _ _ Ho) Hn) as (h & b & E & Hb & Hh & I).
    exists (mkZ h (dev_slots z)), b. split; [cbn; unfold mofs_malloc; by rewrite (M_bind_ok _ _ _ _ _ (kern_ok _ _ _ _ E))|].
    split; [done|]. split; [exists s; by apply z_open_hw|]. by split.
  - intros z [s Ho]. destruct (d_uptime (z_hw z) (zo_ok _ _ Ho)) as (h & t & E & Hh & I).
    exists (mkZ h (dev_slots z)), (u64 (Z.quot t 1000)). split; [cbn; unfold mofs_now; by rewrite (M_bind_ok _ _ _ _ _ (kern_ok _ _ _ _ E))|].
    split; [apply Z.mod_pos_bound; lia|]. split; [exists s; by apply z_open_hw|]. by split.
  - intros z [s Ho]. destruct (d_mutex_init (z_hw z) (zo_ok _ _ Ho)) as (h & E & Hh & I).
    exists (mkZ h (dev_slots z)). split; [cbn; unfold mofs_mutex_init; by rewrite (M_bind_ok _ _ _ _ _ (kern_ok _ _ _ _ E))|].
    split; [exists s; by apply z_open_hw|]. by split.
  - done.
  - intros u g pid c z Hok. by eexists z, _.
Defined.
