(* ===== verification/Raw.v ===== *)
(** * Raw block I/O (src/core/modules/mofs_block.c)

    [read_one_block], [write_one_block] and the cache-bypassing
    [read_continuous_blocks_raw] / [write_continuous_blocks_raw], with their
    behaviour on a fault-free device: they transfer exactly the requested
    blocks between the buffer and the device image. *)

From Stdlib Require Import ZArith Lia.
From stdpp Require Import base list.
From S2P Require Import Prelude Types Platform.

Section raw.
Context {P C : Type} `{!Platform P}.
Abbreviation W := (world P C).

(** [mofs_io_blk_sz()]. *)
Definition mofs_io_blk_sz (w : W) : Z := blk_size (sp_blk (w_ctx w)).

(** [read_one_block(fd, buf, &read_size)]: the bytes read, at most one block. *)
Definition read_one_block (fd : Z) : M W (list byte) :=
  nb ← gets mofs_io_blk_sz;
  if nb =? 0 then fail MOFS_EINVAL else dev_read fd nb.

(** The [for] loop of [read_continuous_blocks_raw]: [i] blocks are done,
    [n] remain; [buf] is advanced by one block per iteration. *)
Fixpoint read_blocks_loop (fd blk_bytes : Z) (n : nat) (i : Z) (buf : list byte) : M W (Z * Z * list byte) :=
  match n with
  | O => mret (i, 0, buf)
  | S n' =>
      bs ← read_one_block fd;
      let buf := bsplice (i * blk_bytes) bs buf in
      if negb (blen bs =? blk_bytes) then mret (i, blen bs, buf)
      else read_blocks_loop fd blk_bytes n' (i + 1) buf
  end.

(** [read_continuous_blocks_raw]: (read_blk_num, fraction, buf). *)
Definition read_continuous_blocks_raw (fd : Z) (buf : list byte) (req_blk_num start_blk_num : Z) : M W (Z * Z * list byte) :=
  blk_bytes ← gets mofs_io_blk_sz;
  if fd <? 0 then fail MOFS_EINVAL else
  if blk_bytes =? 0 then fail MOFS_EINVAL else
  let byte_off := u64 (start_blk_num * blk_bytes) in
  new_offset ← dev_lseek fd byte_off MOFS_SEEK_SET;
  if negb (u64 new_offset mod blk_bytes =? 0) then fail MOFS_EINVAL else
  read_blocks_loop fd blk_bytes (Z.to_nat req_blk_num) 0 buf.

(** [write_one_block(fd, buf, &written)] of the block [blk]. *)
Definition write_one_block (fd : Z) (blk : list byte) : M W Z :=
  nb ← gets mofs_io_blk_sz;
  if nb =? 0 then fail MOFS_EINVAL else dev_write fd blk.

(** The [for] loop of [write_continuous_blocks_raw]. *)
Fixpoint write_blocks_loop (fd blk_bytes : Z) (n : nat) (i : Z) (buf : list byte) : M W (Z * Z) :=
  match n with
  | O => mret (i, 0)
  | S n' =>
      written ← write_one_block fd (bslice (i * blk_bytes) blk_bytes buf);
      if negb (written =? blk_bytes) then mret (i, written)
      else write_blocks_loop fd blk_bytes n' (i + 1) buf
  end.

(** [write_continuous_blocks_raw]: (written_blk_num, fraction). *)
Definition write_continuous_blocks_raw (fd : Z) (buf : list byte) (req_blk_num start_blk_num : Z) : M W (Z * Z) :=
  blk_bytes ← gets mofs_io_blk_sz;
  if fd <? 0 then fail MOFS_EINVAL else
  if blk_bytes =? 0 then fail MOFS_EINVAL else
  let byte_off := u64 (start_blk_num * blk_bytes) in
  new_offset ← dev_lseek fd byte_off MOFS_SEEK_SET;
  if negb (u64 new_offset mod blk_bytes =? 0) then fail MOFS_EINVAL else
  write_blocks_loop fd blk_bytes (Z.to_nat req_blk_num) 0 buf.

(** ** Behaviour on a fault-free device *)

Context `{!PlatformSpec P}.

(** Block [b] of the device image of [w]. *)
Definition dev_block (w : W) (b : Z) : list byte :=
  bslice (b * mofs_io_blk_sz w) (mofs_io_blk_sz w) (p_dev (w_plat w)).

Lemma dev_lseek_ok (w : W) fd off :
  p_ok (w_plat w) -> fd = p_fd -> 0 <= off <= blen (p_dev (w_plat w)) -> exists p',
  dev_lseek fd off MOFS_SEEK_SET w = (set_plat p' w, Ok off) /\
  p_ok p' /\ p_dev p' = p_dev (w_plat w) /\ p_pos p' = off.
Proof.
  intros Hok Hfd Hoff. destruct (p_lseek_set (w_plat w) fd off Hok Hfd Hoff) as (p' & He & H).
  exists p'. split; [|done]. unfold dev_lseek. by apply plat_eq.
Qed.

Lemma read_one_block_ok (w : W) fd :
  let nb := mofs_io_blk_sz w in
  p_ok (w_plat w) -> fd = p_fd -> 0 < nb < 2 ^ 32 -> 0 <= p_pos (w_plat w) -> exists p',
  read_one_block fd w = (set_plat p' w, Ok (bslice (p_pos (w_plat w)) nb (p_dev (w_plat w)))) /\
  p_ok p' /\ p_dev p' = p_dev (w_plat w) /\
  p_pos p' = p_pos (w_plat w) + blen (bslice (p_pos (w_plat w)) nb (p_dev (w_plat w))).
Proof.
  intros nb Hok Hfd Hnb Hpos.
  destruct (p_read (w_plat w) fd nb Hok Hfd ltac:(lia) Hpos) as (p' & He & H).
  exists p'. split; [|done]. unfold read_one_block, dev_read, gets, mbind, M_bind; simpl.
  fold nb. rewrite (proj2 (Z.eqb_neq nb 0)) by lia. by apply plat_eq.
Qed.

Lemma read_blocks_loop_ok fd n : forall (w : W) i buf,
  let nb := mofs_io_blk_sz w in
  p_ok (w_plat w) -> fd = p_fd -> 0 < nb < 2 ^ 32 -> 0 <= i -> 0 <= p_pos (w_plat w) ->
  p_pos (w_plat w) + Z.of_nat n * nb <= blen (p_dev (w_plat w)) ->
  (i + Z.of_nat n) * nb <= blen buf -> exists p',
  read_blocks_loop fd nb n i buf w =
    (set_plat p' w, Ok (i + Z.of_nat n, 0, bsplice (i * nb) (bslice (p_pos (w_plat w)) (Z.of_nat n * nb) (p_dev (w_plat w))) buf)) /\
  p_ok p' /\ p_dev p' = p_dev (w_plat w).
Proof.
  induction n as [|n IH]; intros w i buf nb Hok Hfd Hnb Hi Hpos Hdev Hbuf.
  - exists (w_plat w). rewrite Z.mul_0_l, bslice_0_len, bsplice_nil, Z.add_0_r. destruct w; by simpl.
  - destruct (read_one_block_ok w fd Hok Hfd Hnb Hpos) as (p1 & He & Hok1 & Hd1 & Hp1). fold nb in He, Hp1.
    set (blk := bslice (p_pos (w_plat w)) nb (p_dev (w_plat w))) in *.
    assert (Hlb : blen blk = nb) by (unfold blk; rewrite length_bslice; nia).
    destruct (IH (set_plat p1 w) (i + 1) (bsplice (i * nb) blk buf)) as (p' & Hl & Hok' & Hd');
      unfold mofs_io_blk_sz; simpl; fold nb; try nia; try done.
    + fold (mofs_io_blk_sz w). fold nb. rewrite Hp1, Hd1, Hlb. nia.
    + fold (mofs_io_blk_sz w). fold nb. rewrite length_bsplice; nia.
    + exists p'. split; [|simpl in Hd'; split; congruence].
      cbn [read_blocks_loop]. rewrite (M_bind_ok _ _ _ _ _ He).
      rewrite Hlb, Z.eqb_refl. cbn [negb].
      unfold mofs_io_blk_sz in Hl; simpl in Hl. fold (mofs_io_blk_sz w) in Hl. fold nb in Hl.
      rewrite Hl, Hp1, Hd1, Hlb. destruct w; simpl in *. do 2 f_equal.
      f_equal; [f_equal; lia|].
      replace ((i + 1) * nb) with (i * nb + blen blk) by nia.
      rewrite bsplice_app by nia. f_equal.
      replace (Z.of_nat (S n) * nb) with (nb + Z.of_nat n * nb) by nia.
      by rewrite bslice_add by nia.
Qed.

Lemma raw_read_ok (w : W) fd buf req start :
  let nb := mofs_io_blk_sz w in
  p_ok (w_plat w) -> fd = p_fd -> 0 < nb < 2 ^ 32 -> 0 <= req -> 0 <= start ->
  (start + req) * nb <= blen (p_dev (w_plat w)) -> start * nb < 2 ^ 63 -> req * nb <= blen buf -> exists p',
  read_continuous_blocks_raw fd buf req start w =
    (set_plat p' w, Ok (req, 0, bsplice 0 (bslice (start * nb) (req * nb) (p_dev (w_plat w))) buf)) /\
  p_ok p' /\ p_dev p' = p_dev (w_plat w).
Proof.
  intros nb Hok Hfd Hnb Hreq Hst Hdev Hbig Hbuf. pose proof p_fd_nonneg as Hfd0.
  destruct (dev_lseek_ok w fd (start * nb) Hok Hfd ltac:(nia)) as (p1 & He & Hok1 & Hd1 & Hp1).
  destruct (read_blocks_loop_ok fd (Z.to_nat req) (set_plat p1 w) 0 buf) as (p' & Hl & Hok' & Hd');
    unfold mofs_io_blk_sz in *; simpl in *; try fold nb; try nia; try done.
  { rewrite Hp1, Hd1. subst nb. nia. }
  exists p'. split; [|split; congruence].
  unfold read_continuous_blocks_raw, gets. erewrite M_bind_ok by reflexivity.
  unfold mofs_io_blk_sz. fold nb.
  rewrite (proj2 (Z.ltb_ge fd 0)), (proj2 (Z.eqb_neq nb 0)) by lia.
  rewrite (u64_small (start * nb)) by nia. rewrite (M_bind_ok _ _ _ _ _ He).
  rewrite (u64_small (start * nb)) by nia.
  rewrite Z_mod_mult. cbn [Z.eqb negb]. fold nb in Hl. rewrite Hl. destruct w; simpl in *.
  rewrite Z2Nat.id by lia. rewrite Z.mul_0_l, Hp1, Hd1. done.
Qed.

Lemma write_one_block_ok (w : W) fd blk :
  let nb := mofs_io_blk_sz w in
  p_ok (w_plat w) -> fd = p_fd -> 0 < nb < 2 ^ 32 -> blen blk = nb -> 0 <= p_pos (w_plat w) ->
  p_pos (w_plat w) + nb <= blen (p_dev (w_plat w)) -> exists p',
  write_one_block fd blk w = (set_plat p' w, Ok nb) /\
  p_ok p' /\ p_dev p' = bsplice (p_pos (w_plat w)) blk (p_dev (w_plat w)) /\ p_pos p' = p_pos (w_plat w) + nb.
Proof.
  intros nb Hok Hfd Hnb Hb Hpos Hdev.
  destruct (p_write (w_plat w) fd blk Hok Hfd ltac:(lia) Hpos ltac:(lia)) as (p' & He & H).
  rewrite Hb in *. exists p'. split; [|done].
  unfold write_one_block, dev_write, gets, mbind, M_bind; simpl.
  fold nb. rewrite (proj2 (Z.eqb_neq nb 0)) by lia. by apply plat_eq.
Qed.

Lemma write_blocks_loop_ok fd n : forall (w : W) i buf,
  let nb := mofs_io_blk_sz w in
  p_ok (w_plat w) -> fd = p_fd -> 0 < nb < 2 ^ 32 -> 0 <= i -> 0 <= p_pos (w_plat w) ->
  p_pos (w_plat w) + Z.of_nat n * nb <= blen (p_dev (w_plat w)) ->
  (i + Z.of_nat n) * nb <= blen buf -> exists p',
  write_blocks_loop fd nb n i buf w = (set_plat p' w, Ok (i + Z.of_nat n, 0)) /\
  p_ok p' /\
  p_dev p' = bsplice (p_pos (w_plat w)) (bslice (i * nb) (Z.of_nat n * nb) buf) (p_dev (w_plat w)).
Proof.
  induction n as [|n IH]; intros w i buf nb Hok Hfd Hnb Hi Hpos Hdev Hbuf.
  - exists (w_plat w). rewrite Z.mul_0_l, bslice_0_len, bsplice_nil, Z.add_0_r. destruct w; by simpl.
  - set (blk := bslice (i * nb) nb buf).
    assert (Hlb : blen blk = nb) by (unfold blk; rewrite length_bslice; nia).
    destruct (write_one_block_ok w fd blk Hok Hfd Hnb Hlb Hpos) as (p1 & He & Hok1 & Hd1 & Hp1);
      [fold nb; nia|fold nb in He, Hp1].
    destruct (IH (set_plat p1 w) (i + 1) buf) as (p' & Hl & Hok' & Hd');
      unfold mofs_io_blk_sz; simpl; fold nb; try nia; try done.
    + fold (mofs_io_blk_sz w). fold nb. rewrite Hp1, Hd1, length_bsplice; nia.
    + fold (mofs_io_blk_sz w). fold nb. nia.
    + exists p'. cbn [write_blocks_loop]. fold blk. rewrite (M_bind_ok _ _ _ _ _ He).
      rewrite Z.eqb_refl. cbn [negb].
      unfold mofs_io_blk_sz in Hl, Hd'; simpl in Hl, Hd'.
      fold (mofs_io_blk_sz w) in Hl, Hd'. fold nb in Hl, Hd'.
      rewrite Hl. split; [destruct w; simpl; do 3 f_equal; lia|]. split; [done|].
      rewrite Hd', Hp1, Hd1. rewrite <- Hlb at 1. rewrite bsplice_app by nia. f_equal.
      replace (Z.of_nat (S n) * nb) with (nb + Z.of_nat n * nb) by nia.
      rewrite bslice_add by nia. unfold blk. do 2 f_equal. nia.
Qed.

Lemma raw_write_ok (w : W) fd buf req start :
  let nb := mofs_io_blk_sz w in
  p_ok (w_plat w) -> fd = p_fd -> 0 < nb < 2 ^ 32 -> 0 <= req -> 0 <= start ->
  (start + req) * nb <= blen (p_dev (w_plat w)) -> start * nb < 2 ^ 63 -> req * nb <= blen buf -> exists p',
  write_continuous_blocks_raw fd buf req start w = (set_plat p' w, Ok (req, 0)) /\
  p_ok p' /\ p_dev p' = bsplice (start * nb) (bslice 0 (req * nb) buf) (p_dev (w_plat w)).
Proof.
  intros nb Hok Hfd Hnb Hreq Hst Hdev Hbig Hbuf. pose proof p_fd_nonneg as Hfd0.
  destruct (dev_lseek_ok w fd (start * nb) Hok Hfd ltac:(nia)) as (p1 & He & Hok1 & Hd1 & Hp1).
  destruct (write_blocks_loop_ok fd (Z.to_nat req) (set_plat p1 w) 0 buf) as (p' & Hl & Hok' & Hd');
    unfold mofs_io_blk_sz in *; simpl in *; try fold nb; try nia; try done.
  { rewrite Hp1, Hd1. subst nb. nia. }
  exists p'. fold nb in Hl, Hd'. rewrite Z2Nat.id in * by lia.
  split; [|split; [done|rewrite Hd', Hp1, Hd1; done]].
  unfold write_continuous_blocks_raw, gets. erewrite M_bind_ok by reflexivity.
  unfold mofs_io_blk_sz. fold nb.
  rewrite (proj2 (Z.ltb_ge fd 0)), (proj2 (Z.eqb_neq nb 0)) by lia.
  rewrite (u64_small (start * nb)) by nia. rewrite (M_bind_ok _ _ _ _ _ He).
  rewrite (u64_small (start * nb)) by nia.
  rewrite Z_mod_mult. cbn [Z.eqb negb]. rewrite Hl. by destruct w.
Qed.

End raw.
