(* ===== verification/Buffer.v ===== *)
(** * The write-back block cache (src/core/modules/mofs_buffer.c)

    The pool of cached blocks with LRU replacement, as compiled with
    [MOFS_BUFFER_CACHE_ENABLE = 1].  The pool array is the list
    [bcache_pool] (its length is [MOFS_BUFFER_CACHE_NUM]); a NULL [data]
    pointer is the empty list, an allocated one a list of [blk_size] bytes.
    The mutex calls are not modelled beyond the existence of the mutex:
    every access happens under the core lock. *)

From Stdlib Require Import ZArith Lia.
From stdpp Require Import base list.
From S2P Require Import Prelude Types Platform Raw.

(** ** State *)

Record bcache_entry := mkEntry {
  valid : bool;
  dirty : bool;
  blk_num : Z;
  lru_tick : Z;
  data : list byte
}.

Definition zero_entry : bcache_entry := mkEntry false false 0 0 [].

Definition set_flags v d e := mkEntry v d (blk_num e) (lru_tick e) (data e).
Definition set_blk b e := mkEntry (valid e) (dirty e) b (lru_tick e) (data e).
Definition set_tick t e := mkEntry (valid e) (dirty e) (blk_num e) t (data e).
Definition set_data x e := mkEntry (valid e) (dirty e) (blk_num e) (lru_tick e) x.

Record bcache := mkCache {
  bcache_pool : list bcache_entry;
  bcache_ready : bool;
  bcache_tick : Z;
  bcache_mutex : bool        (** the mutex pointer is not NULL *)
}.

(** The static initial state of the module. *)
Definition bcache_start (num : nat) : bcache := mkCache (replicate num zero_entry) false 0 false.

Definition entry_at (pool : list bcache_entry) (i : nat) : bcache_entry := default zero_entry (pool !! i).

Section cache.
Context {P : Type} `{!Platform P}.
Abbreviation W := (world P bcache).

Definition get_pool : M W (list bcache_entry) := gets (fun w => bcache_pool (w_cache w)).

Definition put_pool (pool : list bcache_entry) : M W unit :=
  modify (fun w => let c := w_cache w in
    set_cache (mkCache pool (bcache_ready c) (bcache_tick c) (bcache_mutex c)) w).

(** Assign to fields of [bcache_pool[idx]]. *)
Definition upd_entry (idx : nat) (f : bcache_entry -> bcache_entry) : M W unit :=
  pool ← get_pool; put_pool (alter f idx pool).

(** ** Helpers *)

Definition bcache_touch (idx : nat) : M W unit :=
  modify (fun w => let c := w_cache w in
    let t := u64 (bcache_tick c + 1) in
    set_cache (mkCache (alter (set_tick t) idx (bcache_pool c)) (bcache_ready c) t (bcache_mutex c)) w).

(** [bcache_find]: [None] stands for -1. *)
Definition bcache_find (pool : list bcache_entry) (blk : Z) : option nat :=
  find_idx (fun e => valid e && (blk_num e =? blk)) pool.

Definition bcache_flush_entry (idx : nat) : M W unit :=
  pool ← get_pool;
  fd ← gets (fun w => dev_fd (w_ctx w));
  let e := entry_at pool idx in
  '(written_blk_num, fraction) ← write_continuous_blocks_raw fd (data e) 1 (blk_num e);
  if negb (written_blk_num =? 1) || negb (fraction =? 0) then fail MOFS_EIO else
  upd_entry idx (fun e => set_flags (valid e) false e).

(** The second loop of [bcache_get_victim]: [i] is the index of the head. *)
Fixpoint lru_scan (l : list bcache_entry) (i : nat) (best : Z) (idx : option nat) : option nat :=
  match l with
  | [] => idx
  | e :: r => if lru_tick e <? best then lru_scan r (S i) (lru_tick e) (Some i) else lru_scan r (S i) best idx
  end.

(** The slot [bcache_get_victim] selects. *)
Definition victim_slot (pool : list bcache_entry) : option nat :=
  match find_idx (fun e => negb (valid e)) pool with
  | Some i => Some i
  | None => lru_scan pool 0 MOFS_UINT64_MAX None
  end.

Definition bcache_get_victim : M W nat :=
  pool ← get_pool;
  match victim_slot pool with
  | None => fail MOFS_EIO
  | Some idx =>
      let e := entry_at pool idx in
      (if valid e && dirty e then bcache_flush_entry idx else mret tt);;
      upd_entry idx (set_flags false false);;
      mret idx
  end.

(** ** Operations *)

(** The allocation loop of [mofs_bcache_init]: one [mofs_malloc] per slot. *)
Fixpoint bcache_alloc_data (n : nat) (blk_sz : Z) : M W (list (list byte)) :=
  match n with
  | O => mret []
  | S n' => d ← mofs_malloc blk_sz; ds ← bcache_alloc_data n' blk_sz; mret (d :: ds)
  end.

Definition mofs_bcache_init : M W unit :=
  blk_sz ← gets mofs_io_blk_sz;
  if blk_sz =? 0 then fail MOFS_EINVAL else
  c ← gets w_cache;
  (if bcache_mutex c then mret tt else
     mofs_mutex_init;;
     modify (fun w => let c := w_cache w in
       set_cache (mkCache (bcache_pool c) (bcache_ready c) (bcache_tick c) true) w));;
  if bcache_ready c then mret tt else
  let num := length (bcache_pool c) in
  put_pool (replicate num zero_entry);;
  ds ← bcache_alloc_data num blk_sz;
  modify (fun w => set_cache (mkCache ((fun d => mkEntry false false 0 0 d) <$> ds) true 0 true) w).

Definition mofs_bcache_fini : M W unit :=
  c ← gets w_cache;
  if negb (bcache_mutex c) then mret tt else
  modify (set_cache (mkCache ((fun e => set_data [] (set_flags false false e)) <$> bcache_pool c)
                             false (bcache_tick c) false)).

(** The loop of [mofs_bcache_read_blocks] after [i] blocks, [n] to go. *)
Fixpoint bcache_read_loop (blk_bytes start_blk_num : Z) (n : nat) (i : Z) (buf : list byte) : M W (Z * Z * list byte) :=
  match n with
  | O => mret (i, 0, buf)
  | S n' =>
      let blk := u32 (start_blk_num + i) in
      pool ← get_pool;
      match bcache_find pool blk with
      | Some idx =>
          let buf := bsplice (i * blk_bytes) (bslice 0 blk_bytes (data (entry_at pool idx))) buf in
          bcache_touch idx;;
          bcache_read_loop blk_bytes start_blk_num n' (i + 1) buf
      | None =>
          idx ← bcache_get_victim;
          fd ← gets (fun w => dev_fd (w_ctx w));
          pool ← get_pool;
          '(read_one, frac, d) ← read_continuous_blocks_raw fd (data (entry_at pool idx)) 1 blk;
          upd_entry idx (set_data d);;
          if negb (frac =? 0) then mret (i, frac, bsplice (i * blk_bytes) (bslice 0 frac d) buf) else
          if negb (read_one =? 1) then fail MOFS_EIO else
          upd_entry idx (fun e => set_flags true false (set_blk blk e));;
          bcache_touch idx;;
          bcache_read_loop blk_bytes start_blk_num n' (i + 1)
            (bsplice (i * blk_bytes) (bslice 0 blk_bytes d) buf)
      end
  end.

(** [mofs_bcache_read_blocks]: (read_blk_num, fraction, buf). *)
Definition mofs_bcache_read_blocks (fd : Z) (buf : list byte) (req_blk_num start_blk_num : Z) : M W (Z * Z * list byte) :=
  blk_bytes ← gets mofs_io_blk_sz;
  if fd <? 0 then fail MOFS_EINVAL else
  if blk_bytes =? 0 then fail MOFS_EINVAL else
  ready ← gets (fun w => bcache_ready (w_cache w));
  if negb ready then read_continuous_blocks_raw fd buf req_blk_num start_blk_num else
  bcache_read_loop blk_bytes start_blk_num (Z.to_nat req_blk_num) 0 buf.

(** The loop of [mofs_bcache_write_blocks]. *)
Fixpoint bcache_write_loop (blk_bytes start_blk_num : Z) (n : nat) (i : Z) (buf : list byte) : M W (Z * Z) :=
  match n with
  | O => mret (i, 0)
  | S n' =>
      let blk := u32 (start_blk_num + i) in
      pool ← get_pool;
      idx ← match bcache_find pool blk with
            | Some idx => mret idx
            | None =>
                idx ← bcache_get_victim;
                upd_entry idx (fun e => set_flags true (dirty e) (set_blk blk e));;
                mret idx
            end;
      upd_entry idx (fun e => set_data (bsplice 0 (bslice (i * blk_bytes) blk_bytes buf) (data e)) e);;
      upd_entry idx (fun e => set_flags (valid e) true e);;
      bcache_touch idx;;
      bcache_write_loop blk_bytes start_blk_num n' (i + 1) buf
  end.

(** [mofs_bcache_write_blocks]: (written_blk_num, fraction). *)
Definition mofs_bcache_write_blocks (fd : Z) (buf : list byte) (req_blk_num start_blk_num : Z) : M W (Z * Z) :=
  blk_bytes ← gets mofs_io_blk_sz;
  if fd <? 0 then fail MOFS_EINVAL else
  if blk_bytes =? 0 then fail MOFS_EINVAL else
  ready ← gets (fun w => bcache_ready (w_cache w));
  if negb ready then write_continuous_blocks_raw fd buf req_blk_num start_blk_num else
  bcache_write_loop blk_bytes start_blk_num (Z.to_nat req_blk_num) 0 buf.

Definition mofs_bcache_modify_block (blk : Z) (byte_off : Z) (patch : list byte) : M W unit :=
  blk_bytes ← gets mofs_io_blk_sz;
  let patch_len := blen patch in
  if (patch_len =? 0) || (blk_bytes =? 0) then fail MOFS_EINVAL else
  ready ← gets (fun w => bcache_ready (w_cache w));
  if negb ready then fail MOFS_EINVAL else
  if (blk_bytes <? byte_off) || (blk_bytes <? patch_len) || (blk_bytes <? u32 (byte_off + patch_len))
  then fail MOFS_EINVAL else
  pool ← get_pool;
  idx ← match bcache_find pool blk with
        | Some idx => mret idx
        | None =>
            idx ← bcache_get_victim;
            fd ← gets (fun w => dev_fd (w_ctx w));
            pool ← get_pool;
            '(read_one, frac, d) ← read_continuous_blocks_raw fd (data (entry_at pool idx)) 1 blk;
            upd_entry idx (set_data d);;
            if negb (read_one =? 1) || negb (frac =? 0) then fail MOFS_EIO else
            upd_entry idx (fun e => set_flags true false (set_blk blk e));;
            mret idx
        end;
  upd_entry idx (fun e => set_data (bsplice byte_off patch (data e)) e);;
  upd_entry idx (fun e => set_flags (valid e) true e);;
  bcache_touch idx.

(** The loop of [mofs_bcache_flush] over slots [i], [i+1], ... *)
Fixpoint bcache_flush_loop (n i : nat) : M W unit :=
  match n with
  | O => mret tt
  | S n' =>
      pool ← get_pool;
      let e := entry_at pool i in
      (if valid e && dirty e then bcache_flush_entry i else mret tt);;
      bcache_flush_loop n' (S i)
  end.

Definition mofs_bcache_flush : M W unit :=
  ready ← gets (fun w => bcache_ready (w_cache w));
  if negb ready then mret tt else
  pool ← get_pool;
  bcache_flush_loop (length pool) 0;;
  fd ← gets (fun w => dev_fd (w_ctx w));
  dev_fsync fd.

Definition mofs_bcache_invalidate (blk : Z) : M W unit :=
  ready ← gets (fun w => bcache_ready (w_cache w));
  if negb ready then mret tt else
  pool ← get_pool;
  match bcache_find pool blk with
  | Some idx => upd_entry idx (set_flags false false)
  | None => mret tt
  end.

End cache.
