(* ===== verification/BufferSpec.v ===== *)
(** * Correctness of the write-back block cache

    [cache_rep cx nblk v w] relates a mounted world [w] to the logical disk
    [v] (block number to contents): a cached block holds its logical
    contents, an uncached one has them on the device, a clean cached block
    has them in both places.  Every operation of [mofs_buffer.c] implements
    the corresponding operation on [v]. *)

From Stdlib Require Import ZArith Lia.
From stdpp Require Import base list list_numbers.
From S2P Require Import Prelude Types Platform Raw Buffer.

(** ** The pool against a device and a logical disk *)

Definition uncached (pool : list bcache_entry) (b : Z) : Prop :=
  forall j f, pool !! j = Some f -> valid f = true -> blk_num f <> b.

Record pool_ok (nb nblk t : Z) (dev v : Z -> list byte) (pool : list bcache_entry) : Prop := {
  po_entry : forall i e, pool !! i = Some e -> blen (data e) = nb /\ 0 <= lru_tick e <= t;
  po_uniq : forall i j e f, pool !! i = Some e -> pool !! j = Some f ->
    valid e = true -> valid f = true -> blk_num e = blk_num f -> i = j;
  po_valid : forall i e, pool !! i = Some e -> valid e = true ->
    0 <= blk_num e < nblk /\ data e = v (blk_num e) /\
    (dirty e = false -> dev (blk_num e) = v (blk_num e));
  po_miss : forall b, 0 <= b < nblk -> uncached pool b -> dev b = v b
}.

(** Replacing one slot: the conditions under which the relation survives a
    simultaneous change of the device and of the logical disk. *)
Lemma pool_ok_update nb nblk t dev v pool i e f t' dev' v' :
  pool_ok nb nblk t dev v pool -> pool !! i = Some e ->
  let e' := f e in
  blen (data e') = nb -> 0 <= lru_tick e' <= t' -> t <= t' ->
  (valid e' = true -> 0 <= blk_num e' < nblk /\ data e' = v' (blk_num e') /\
     (dirty e' = false -> dev' (blk_num e') = v' (blk_num e'))) ->
  (valid e' = true -> forall j g, j <> i -> pool !! j = Some g -> valid g = true -> blk_num g <> blk_num e') ->
  (forall b, 0 <= b < nblk -> ~ (valid e = true /\ b = blk_num e) -> ~ (valid e' = true /\ b = blk_num e') ->
     dev' b = dev b /\ v' b = v b) ->
  (valid e = true -> ~ (valid e' = true /\ blk_num e' = blk_num e) -> dev' (blk_num e) = v' (blk_num e)) ->
  pool_ok nb nblk t' dev' v' (alter f i pool).
Proof.
  intros [Hent Huniq Hval Hmiss] Hi e' Hlen Htick Htt He' Hclash Hoth Hdrop.
  assert (Hii : alter f i pool !! i = Some e') by (rewrite list_lookup_alter_eq, Hi; done).
  assert (Hij : forall j, j <> i -> alter f i pool !! j = pool !! j) by (intros; by apply list_lookup_alter_ne).
  assert (Hfar : forall j g, j <> i -> pool !! j = Some g -> valid g = true ->
            dev' (blk_num g) = dev (blk_num g) /\ v' (blk_num g) = v (blk_num g)).
  { intros j g Hj Hg Hv. apply Hoth; [by apply (Hval j)| |].
    - intros [Hve Heq]. apply Hj. by apply (Huniq j i g e).
    - intros [Hve Heq]. by apply (Hclash Hve j g). }
  split.
  - intros j g Hg. destruct (decide (j = i)) as [->|Hj]; [rewrite Hii in Hg; simplify_eq; done|].
    rewrite Hij in Hg by done. apply Hent in Hg as [? ?]. lia.
  - intros j k g h Hg Hh Hvg Hvh Hbb.
    destruct (decide (j = i)) as [->|Hj], (decide (k = i)) as [->|Hk]; [done| | |].
    + rewrite Hii in Hg. rewrite Hij in Hh by done. simplify_eq. exfalso. by eapply (Hclash Hvg k h).
    + rewrite Hii in Hh. rewrite Hij in Hg by done. simplify_eq. exfalso. by eapply (Hclash Hvh j g).
    + rewrite Hij in Hg, Hh by done. eauto.
  - intros j g Hg Hv. destruct (decide (j = i)) as [->|Hj]; [rewrite Hii in Hg; simplify_eq; auto|].
    rewrite Hij in Hg by done. destruct (Hfar j g Hj Hg Hv) as [E1 E2]. rewrite E1, E2. eauto.
  - intros b Hb Hun.
    assert (Hne' : ~ (valid e' = true /\ b = blk_num e')).
    { intros [Hv ->]. by apply (Hun i e'). }
    destruct (decide (valid e = true /\ b = blk_num e)) as [[Hve ->]|Hne].
    + apply Hdrop; [done|]. intros [Hv Heq]. apply Hne'. done.
    + destruct (Hoth b Hb Hne Hne') as [E1 E2]. rewrite E1, E2. apply Hmiss; [done|].
      intros j g Hg Hv. destruct (decide (j = i)) as [->|Hj].
      * intros Hb2. rewrite Hi in Hg. simplify_eq. by apply Hne.
      * apply (Hun j g); [|done]. by rewrite Hij.
Qed.

Lemma bcache_find_Some pool b i :
  bcache_find pool b = Some i -> exists e, pool !! i = Some e /\ valid e = true /\ blk_num e = b.
Proof.
  intros H. apply find_idx_Some in H as [(e & He & Hf) _]. exists e. bool_hyps. done.
Qed.

Lemma bcache_find_None pool b : bcache_find pool b = None -> uncached pool b.
Proof.
  intros H j f Hj Hv. apply (proj1 (find_idx_None _ _) H) in Hj. rewrite Hv in Hj. simpl in Hj. by bool_hyps.
Qed.

(** ** Victim selection *)

Lemma lru_scan_spec l : forall i best idx,
  (lru_scan l i best idx = idx /\ (forall k e, l !! k = Some e -> best <= lru_tick e)) \/
  (exists k e, lru_scan l i best idx = Some (i + k)%nat /\ l !! k = Some e /\ lru_tick e < best /\
     (forall j f, l !! j = Some f -> lru_tick e <= lru_tick f)).
Proof.
  induction l as [|x l IH]; intros i best idx; simpl; [left; split; [done|]; intros; done|].
  destruct (Z.ltb_spec (lru_tick x) best) as [Hlt|Hge].
  - right. destruct (IH (S i) (lru_tick x) (Some i)) as [[-> Hle]|(k & e & -> & Hk & He & Hle)].
    + exists 0%nat, x. rewrite Nat.add_0_r. repeat split; auto.
      intros [|j] f Hf; simpl in Hf; [simplify_eq; lia|by eapply Hle].
    + exists (S k), e. split; [f_equal; lia|]. repeat split; auto; [lia|].
      intros [|j] f Hf; simpl in Hf; [simplify_eq; lia|by eapply Hle].
  - destruct (IH (S i) best idx) as [[-> Hle]|(k & e & -> & Hk & He & Hle)].
    + left. split; [done|]. intros [|j] f Hf; simpl in Hf; [simplify_eq; lia|by eapply Hle].
    + right. exists (S k), e. split; [f_equal; lia|]. repeat split; auto.
      intros [|j] f Hf; simpl in Hf; [simplify_eq; lia|by eapply Hle].
Qed.

(** What the slot chosen by [bcache_get_victim] is: the first empty slot, or,
    when every slot is in use, a slot with the least [lru_tick]. *)
Definition is_victim (pool : list bcache_entry) (i : nat) : Prop :=
  exists e, pool !! i = Some e /\
  ((valid e = false /\ forall j f, (j < i)%nat -> pool !! j = Some f -> valid f = true) \/
   ((forall j f, pool !! j = Some f -> valid f = true) /\
    (forall j f, pool !! j = Some f -> lru_tick e <= lru_tick f))).

Lemma victim_slot_spec pool :
  match victim_slot pool with
  | Some i => is_victim pool i
  | None => forall j f, pool !! j = Some f -> MOFS_UINT64_MAX <= lru_tick f
  end.
Proof.
  unfold victim_slot. destruct (find_idx (fun e => negb (valid e)) pool) as [i|] eqn:Hf.
  - apply find_idx_Some in Hf as [(e & He & Hv) Hlt]. bool_hyps. exists e. split; [done|]. left.
    split; [done|]. intros j f Hj Hf. specialize (Hlt j f Hj Hf). by bool_hyps.
  - rewrite find_idx_None in Hf.
    destruct (lru_scan_spec pool 0 MOFS_UINT64_MAX None) as [[-> Hle]|(k & e & -> & Hk & _ & Hle)].
    + intros j f Hj. by eapply Hle.
    + exists e. split; [done|]. right. split; [|done].
      intros j f Hj. specialize (Hf j f Hj). by bool_hyps.
Qed.

(** ** The mounted world against a logical disk *)

Definition blocks_at (v : Z -> list byte) (start : Z) (n : nat) : list byte :=
  concat (v <$> seqZ start (Z.of_nat n)).

Definition upd (v : Z -> list byte) (b : Z) (x : list byte) : Z -> list byte :=
  fun c => if c =? b then x else v c.

Lemma upd_eq v b x : upd v b x b = x.
Proof. unfold upd. by rewrite Z.eqb_refl. Qed.

Lemma upd_ne v b x c : c <> b -> upd v b x c = v c.
Proof. intros H. unfold upd. by rewrite (proj2 (Z.eqb_neq c b)). Qed.

Lemma blocks_at_S v s n : blocks_at v s (S n) = v s ++ blocks_at v (s + 1) n.
Proof. unfold blocks_at. rewrite Nat2Z.inj_succ, seqZ_cons by lia. simpl. do 4 f_equal; lia. Qed.

Lemma blocks_at_1 v s : blocks_at v s 1 = v s.
Proof. rewrite blocks_at_S. apply app_nil_r. Qed.

Section spec.
Context {P : Type} `{!Platform P} `{!PlatformSpec P}.
Abbreviation W := (world P bcache).

(** Parts of the state the block layer never touches. *)
Definition same_frame {C} (w w' : world P C) : Prop :=
  w_caller w' = w_caller w /\ w_ctx w' = w_ctx w /\ w_files w' = w_files w /\
  w_dirs w' = w_dirs w /\ w_errno w' = w_errno w.

Definition pool_of (w : W) : list bcache_entry := bcache_pool (w_cache w).
Definition tick_of (w : W) : Z := bcache_tick (w_cache w).

Record cache_rep (cx : mofs_ctx_t) (nblk : Z) (v : Z -> list byte) (w : W) : Prop := {
  cr_ctx : w_ctx w = cx;
  cr_fd : dev_fd cx = p_fd;
  cr_nb : 0 < blk_size (sp_blk cx) <= 65536;
  cr_nblk : 0 <= nblk <= 2 ^ 32;
  cr_plat : p_ok (w_plat w);
  cr_dev : nblk * blk_size (sp_blk cx) <= blen (p_dev (w_plat w));
  cr_ready : bcache_ready (w_cache w) = true;
  cr_slots : pool_of w <> [];
  cr_tick : 0 <= tick_of w < MOFS_UINT64_MAX;
  cr_pool : pool_ok (blk_size (sp_blk cx)) nblk (tick_of w) (dev_block w) v (pool_of w);
  cr_mutex : bcache_mutex (w_cache w) = true
}.

Definition with_pool (pool : list bcache_entry) (w : W) : W :=
  let c := w_cache w in set_cache (mkCache pool (bcache_ready c) (bcache_tick c) (bcache_mutex c)) w.

Lemma upd_entry_eq idx f (w : W) : upd_entry idx f w = (with_pool (alter f idx (pool_of w)) w, Ok tt).
Proof. reflexivity. Qed.

Lemma same_frame_refl {C} (w : world P C) : same_frame w w.
Proof. repeat split. Qed.

Lemma same_frame_trans {C} (w w' w'' : world P C) : same_frame w w' -> same_frame w' w'' -> same_frame w w''.
Proof. unfold same_frame. intros; destruct_and!; repeat split; congruence. Qed.

(** The device image after one block was written. *)
Lemma dev_block_write (w : W) p' b x c nblk :
  let nb := mofs_io_blk_sz w in
  0 < nb -> 0 <= b < nblk -> 0 <= c < nblk -> nblk * nb <= blen (p_dev (w_plat w)) -> blen x = nb ->
  p_dev p' = bsplice (b * nb) x (p_dev (w_plat w)) ->
  dev_block (set_plat p' w) c = if c =? b then x else dev_block w c.
Proof.
  intros nb Hnb Hb Hc Hdev Hx Hp. unfold dev_block. change (mofs_io_blk_sz (set_plat p' w)) with nb.
  simpl. rewrite Hp. fold nb. destruct (Z.eqb_spec c b) as [->|Hne].
  - apply bslice_bsplice_same; nia.
  - apply bslice_bsplice_other; nia.
Qed.

(** Writing a dirty slot back makes it clean and leaves the logical disk alone. *)
Lemma flush_entry_ok cx nblk v (w : W) i e :
  cache_rep cx nblk v w -> pool_of w !! i = Some e -> valid e = true -> exists w',
  bcache_flush_entry i w = (w', Ok tt) /\ cache_rep cx nblk v w' /\ same_frame w w' /\
  pool_of w' = alter (fun e => set_flags (valid e) false e) i (pool_of w) /\ tick_of w' = tick_of w /\
  (forall c, 0 <= c < nblk -> dev_block w' c = if c =? blk_num e then data e else dev_block w c) /\
  blen (p_dev (w_plat w')) = blen (p_dev (w_plat w)).
Proof.
  intros [Hcx Hfd Hnb Hnblk Hplat Hdev Hready Hslots Htick Hpool Hmutex] Hi Hv.
  destruct (po_entry _ _ _ _ _ _ Hpool i e Hi) as [Hlen Htk].
  destruct (po_valid _ _ _ _ _ _ Hpool i e Hi Hv) as (Hb & Hdata & Hclean).
  assert (Hsz : mofs_io_blk_sz w = blk_size (sp_blk cx)) by (unfold mofs_io_blk_sz; by rewrite Hcx).
  destruct (raw_write_ok w (dev_fd cx) (data e) 1 (blk_num e)) as (p' & He & Hok' & Hd');
    rewrite ?Hsz; try done; try lia; [nia|nia|].
  rewrite Hsz, Z.mul_1_l, bslice_all in Hd' by lia.
  assert (Hblk : forall c, 0 <= c < nblk ->
    dev_block (set_plat p' w) c = if c =? blk_num e then data e else dev_block w c).
  { intros c Hc. eapply dev_block_write with (nblk := nblk); rewrite ?Hsz; try done; lia. }
  eexists. split.
  { unfold bcache_flush_entry, get_pool, gets. repeat erewrite M_bind_ok by reflexivity.
    rewrite Hcx. unfold entry_at. fold (pool_of w). rewrite Hi. cbn [default].
    rewrite (M_bind_ok _ _ _ _ _ He). cbn. apply upd_entry_eq. }
  split; [|split; [by repeat split|split; [done|split; [done|split; [exact Hblk|]]]]].
  2: { cbn [w_plat with_pool set_cache set_plat]. rewrite Hd', length_bsplice; nia. }
  split; try done.
  - unfold with_pool, pool_of; simpl. rewrite Hd', length_bsplice; nia.
  - unfold pool_of; simpl. destruct (pool_of w) eqn:E; [done|]. unfold pool_of in E. rewrite E. by destruct i.
  - change (pool_of (with_pool ?p ?x)) with p. change (pool_of (set_plat p' w)) with (pool_of w).
    eapply (pool_ok_update _ _ _ _ _ _ _ e); [exact Hpool|exact Hi|..]; simpl; try done.
    + intros _. split; [done|]. split; [done|]. intros _. fold (dev_block (P:=P) (C:=bcache)).
      change (dev_block (with_pool ?p ?x)) with (dev_block x). rewrite Hblk, Z.eqb_refl by done. done.
    + intros _ j g Hj Hg Hvg Heq. apply Hj. by apply (po_uniq _ _ _ _ _ _ Hpool j i g e).
    + intros b Hbr Hn _. split; [|done].
      change (dev_block (with_pool ?p ?x)) with (dev_block x). rewrite Hblk by done.
      destruct (Z.eqb_spec b (blk_num e)); [|done]. exfalso. by apply Hn.
    + intros _ Hn. exfalso. by apply Hn.
Qed.

Lemma pool_of_with_pool p (w : W) : pool_of (with_pool p w) = p.
Proof. reflexivity. Qed.

Lemma with_pool_twice p q (w : W) : with_pool p (with_pool q w) = with_pool p w.
Proof. reflexivity. Qed.

(** A step that only rewrites one slot. *)
Lemma cache_rep_slot cx nblk v v' (w : W) i e f :
  cache_rep cx nblk v w -> pool_of w !! i = Some e ->
  let e' := f e in
  blen (data e') = blk_size (sp_blk cx) -> lru_tick e' = lru_tick e ->
  (valid e' = true -> 0 <= blk_num e' < nblk /\ data e' = v' (blk_num e') /\
     (dirty e' = false -> dev_block w (blk_num e') = v' (blk_num e'))) ->
  (valid e' = true -> forall j g, j <> i -> pool_of w !! j = Some g -> valid g = true -> blk_num g <> blk_num e') ->
  (forall b, 0 <= b < nblk -> ~ (valid e = true /\ b = blk_num e) -> ~ (valid e' = true /\ b = blk_num e') -> v' b = v b) ->
  (valid e = true -> ~ (valid e' = true /\ blk_num e' = blk_num e) -> dev_block w (blk_num e) = v' (blk_num e)) ->
  cache_rep cx nblk v' (with_pool (alter f i (pool_of w)) w).
Proof.
  intros [Hcx Hfd Hnb Hnblk Hplat Hdev Hready Hslots Htick Hpool Hmutex] Hi e' Hlen Hlt He' Hclash Hoth Hdrop.
  split; try done.
  - change (pool_of (with_pool ?p ?x)) with p. destruct (pool_of w); [done|]. by destruct i.
  - change (pool_of (with_pool ?p ?x)) with p. change (dev_block (with_pool ?p ?x)) with (dev_block x).
    change (tick_of (with_pool ?p ?x)) with (tick_of x).
    destruct (po_entry _ _ _ _ _ _ Hpool i e Hi) as [_ Htk].
    eapply (pool_ok_update _ _ _ _ _ _ _ e); [exact Hpool|exact Hi|..]; try done.
    + fold e'. lia.
    + intros b Hb H1 H2. split; [done|]. by apply Hoth.
Qed.

Lemma touch_ok cx nblk v (w : W) i e :
  cache_rep cx nblk v w -> pool_of w !! i = Some e -> tick_of w + 1 < MOFS_UINT64_MAX -> exists w',
  bcache_touch i w = (w', Ok tt) /\ cache_rep cx nblk v w' /\ same_frame w w' /\
  tick_of w' = tick_of w + 1 /\ pool_of w' = alter (set_tick (tick_of w + 1)) i (pool_of w).
Proof.
  intros [Hcx Hfd Hnb Hnblk Hplat Hdev Hready Hslots Htick Hpool Hmutex] Hi Hlt.
  eexists. split; [reflexivity|].
  assert (Hu : u64 (tick_of w + 1) = tick_of w + 1) by (apply u64_small; unfold MOFS_UINT64_MAX in *; lia).
  unfold tick_of, pool_of in *; simpl in *. rewrite Hu.
  split; [|repeat split]. split; unfold tick_of, pool_of; simpl; rewrite ?Hu; try done; try lia.
  - destruct (bcache_pool (w_cache w)); [done|]. by destruct i.
  - destruct (po_entry _ _ _ _ _ _ Hpool i e Hi) as [Hlen Htk].
    eapply (pool_ok_update _ _ _ _ _ _ _ e); [exact Hpool|exact Hi|..]; simpl; try done; try lia.
    + intros Hv. by apply (po_valid _ _ _ _ _ _ Hpool i).
    + intros Hv j g Hj Hg Hvg Heq. apply Hj. by apply (po_uniq _ _ _ _ _ _ Hpool j i g e).
    + intros Hv Hn. exfalso. by apply Hn.
Qed.

(** The victim is a free slot of an otherwise unchanged logical disk. *)
Lemma victim_ok cx nblk v (w : W) :
  cache_rep cx nblk v w -> exists w' i e,
  bcache_get_victim w = (w', Ok i) /\ cache_rep cx nblk v w' /\ same_frame w w' /\
  pool_of w' !! i = Some e /\ valid e = false /\ is_victim (pool_of w) i /\ tick_of w' = tick_of w /\
  (forall b, uncached (pool_of w) b -> uncached (pool_of w') b).
Proof.
  intros Hr. pose proof (cr_pool _ _ _ _ Hr) as Hpool.
  pose proof (victim_slot_spec (pool_of w)) as Hvs.
  unfold bcache_get_victim, get_pool, gets. erewrite M_bind_ok by reflexivity. fold (pool_of w).
  destruct (victim_slot (pool_of w)) as [i|].
  2: { exfalso. pose proof (cr_slots _ _ _ _ Hr). pose proof (cr_tick _ _ _ _ Hr).
       destruct (pool_of w) as [|e r] eqn:Ep; [done|].
       specialize (Hvs 0%nat e eq_refl). destruct (po_entry _ _ _ _ _ _ Hpool 0%nat e eq_refl). lia. }
  destruct Hvs as (e & Hi & Hchoice).
  assert (Hmid : exists w1 e1, (if valid (entry_at (pool_of w) i) && dirty (entry_at (pool_of w) i)
            then bcache_flush_entry i else mret tt) w = (w1, Ok tt) /\
      cache_rep cx nblk v w1 /\ same_frame w w1 /\ tick_of w1 = tick_of w /\
      pool_of w1 !! i = Some e1 /\ valid e1 = valid e /\ blk_num e1 = blk_num e /\ dirty e1 && valid e1 = false /\
      (forall j, j <> i -> pool_of w1 !! j = pool_of w !! j)).
  { unfold entry_at. rewrite Hi. simpl. destruct (valid e) eqn:Hv, (dirty e) eqn:Hd; simpl.
    1: { destruct (flush_entry_ok cx nblk v w i e Hr Hi Hv) as (w1 & E1 & R1 & F1 & P1 & T1 & _).
         exists w1, (set_flags true false e). rewrite P1. split; [done|]. split; [done|]. split; [done|].
         split; [done|]. split; [rewrite list_lookup_alter_eq, Hi; simpl; by rewrite Hv|].
         repeat split; try done. intros j Hj. by apply list_lookup_alter_ne. }
    all: exists w, e; rewrite ?Hv, ?Hd; split_and!; try done; apply same_frame_refl. }
  destruct Hmid as (w1 & e1 & E1 & R1 & F1 & T1 & Hi1 & Hv1 & Hb1 & Hd1 & Hoth).
  pose proof (cr_pool _ _ _ _ R1) as Hpool1.
  rewrite (M_bind_ok _ _ _ _ _ E1). rewrite (M_bind_ok _ _ _ _ _ (upd_entry_eq i _ w1)).
  eexists _, i, (set_flags false false e1). split; [reflexivity|].
  change (pool_of (with_pool ?p ?x)) with p.
  split; [|split; [exact F1|split; [rewrite list_lookup_alter_eq, Hi1; done|]]].
  - eapply (cache_rep_slot _ _ v v); [done|exact Hi1|..]; simpl; try done.
    + by apply (po_entry _ _ _ _ _ _ Hpool1 i e1).
    + intros Hve _. apply (po_valid _ _ _ _ _ _ Hpool1 i e1); [done|done|].
      rewrite Hve in Hd1. by destruct (dirty e1).
  - split; [done|]. split; [by exists e|]. split; [exact T1|].
    intros b Hun j g Hg Hvg. destruct (decide (j = i)) as [->|Hj].
    + rewrite list_lookup_alter_eq, Hi1 in Hg. by simplify_eq/=.
    + rewrite list_lookup_alter_ne, Hoth in Hg by done. by apply (Hun j g).
Qed.

(** Steps of the platform that leave the device image alone. *)
Lemma cache_rep_plat cx nblk v (w : W) p' :
  cache_rep cx nblk v w -> p_ok p' -> p_dev p' = p_dev (w_plat w) -> cache_rep cx nblk v (set_plat p' w).
Proof.
  intros [Hcx Hfd Hnb Hnblk Hplat Hdev Hready Hslots Htick Hpool Hmutex] Hok Hd.
  split; try done; [simpl; by rewrite Hd|].
  assert (Hdev' : forall c, dev_block (set_plat p' w) c = dev_block w c).
  { intros c. unfold dev_block. simpl. by rewrite Hd. }
  destruct Hpool as [H1 H2 H3 H4]. split; [done|done| |].
  - intros i e Hi Hv. rewrite Hdev'. by apply (H3 i).
  - intros b Hb Hun. rewrite Hdev'. by apply H4.
Qed.

(** The miss path shared by reading and patching: after it, slot [i] is free
    and its buffer holds the device copy of [b], which is the logical one. *)
Lemma miss_load_ok cx nblk v (w : W) b :
  cache_rep cx nblk v w -> 0 <= b < nblk -> uncached (pool_of w) b -> exists w1 w2 i e,
  bcache_get_victim w = (w1, Ok i) /\
  read_continuous_blocks_raw (dev_fd cx) (data (entry_at (pool_of w1) i)) 1 b w1 = (w2, Ok (1, 0, v b)) /\
  w_ctx w1 = cx /\ pool_of w2 = pool_of w1 /\
  cache_rep cx nblk v w2 /\ same_frame w w2 /\ tick_of w2 = tick_of w /\
  pool_of w2 !! i = Some e /\ valid e = false /\ uncached (pool_of w2) b /\ dev_block w2 b = v b.
Proof.
  intros Hr Hb Hun.
  destruct (victim_ok cx nblk v w Hr) as (w1 & i & e & E1 & R1 & F1 & Hi & Hv & _ & T1 & U1).
  pose proof R1 as [Hcx Hfd Hnb Hnblk Hplat Hdev Hready Hslots Htick Hpool Hmutex].
  assert (Hsz : mofs_io_blk_sz w1 = blk_size (sp_blk cx)) by (unfold mofs_io_blk_sz; by rewrite Hcx).
  destruct (po_entry _ _ _ _ _ _ Hpool i e Hi) as [Hlen _].
  assert (Hat : entry_at (pool_of w1) i = e) by (unfold entry_at; by rewrite Hi).
  destruct (raw_read_ok w1 (dev_fd cx) (data e) 1 b) as (p' & He & Hok' & Hd');
    rewrite ?Hsz; try done; try lia; [nia|nia|].
  assert (Hdb : dev_block w1 b = v b) by (apply (po_miss _ _ _ _ _ _ Hpool b Hb); by apply U1).
  rewrite Hsz, Z.mul_1_l in He. rewrite bsplice_0_all in He by (rewrite length_bslice; nia).
  replace (bslice _ _ _) with (v b) in He by (rewrite <- Hdb; unfold dev_block; by rewrite Hsz).
  exists w1, (set_plat p' w1), i, e. rewrite Hat.
  assert (Hdev' : forall c, dev_block (set_plat p' w1) c = dev_block w1 c).
  { intros c. unfold dev_block. simpl. by rewrite Hd'. }
  split_and!; try done; [by apply cache_rep_plat|by apply U1|by rewrite Hdev'].
Qed.

(** Every logical block has the size of a block. *)
Lemma cache_rep_len cx nblk v (w : W) b :
  cache_rep cx nblk v w -> 0 <= b < nblk -> blen (v b) = blk_size (sp_blk cx).
Proof.
  intros Hr Hb. pose proof (cr_pool _ _ _ _ Hr) as Hpool.
  destruct (bcache_find (pool_of w) b) as [i|] eqn:Hf.
  - apply bcache_find_Some in Hf as (e & Hi & Hv & <-).
    destruct (po_valid _ _ _ _ _ _ Hpool i e Hi Hv) as (_ & <- & _).
    by apply (po_entry _ _ _ _ _ _ Hpool i e).
  - apply bcache_find_None in Hf. rewrite <- (po_miss _ _ _ _ _ _ Hpool b Hb Hf).
    unfold dev_block, mofs_io_blk_sz. rewrite (cr_ctx _ _ _ _ Hr).
    pose proof (cr_nb _ _ _ _ Hr). pose proof (cr_dev _ _ _ _ Hr). rewrite length_bslice; nia.
Qed.

Lemma cache_rep_ext cx nblk v v' (w : W) :
  cache_rep cx nblk v w -> (forall b, 0 <= b < nblk -> v' b = v b) -> cache_rep cx nblk v' w.
Proof.
  intros [Hcx Hfd Hnb Hnblk Hplat Hdev Hready Hslots Htick [H1 H2 H3 H4] Hmutex] Hv.
  split; try done. split; try done.
  - intros i e Hi He. destruct (H3 i e Hi He) as (? & ? & ?). rewrite Hv by done. eauto.
  - intros b Hb Hu. rewrite Hv by done. eauto.
Qed.

(** A hit, seen from the logical disk. *)
Lemma hit_entry cx nblk v (w : W) b i :
  cache_rep cx nblk v w -> bcache_find (pool_of w) b = Some i ->
  exists e, pool_of w !! i = Some e /\ entry_at (pool_of w) i = e /\ valid e = true /\ blk_num e = b /\ data e = v b.
Proof.
  intros Hr Hf. apply bcache_find_Some in Hf as (e & Hi & Hv & Hb). exists e.
  destruct (po_valid _ _ _ _ _ _ (cr_pool _ _ _ _ Hr) i e Hi Hv) as (_ & Hd & _).
  split_and!; try done; [unfold entry_at; by rewrite Hi|by rewrite Hd, Hb].
Qed.

(** Recording in a free slot a block that was not cached. *)
Lemma fill_ok cx nblk v (w : W) i e b x d :
  cache_rep cx nblk v w -> pool_of w !! i = Some e -> valid e = false -> 0 <= b < nblk ->
  uncached (pool_of w) b -> blen x = blk_size (sp_blk cx) -> (d = false -> dev_block w b = x) ->
  cache_rep cx nblk (upd v b x)
    (with_pool (alter (fun e => set_flags true d (set_blk b (set_data x e))) i (pool_of w)) w).
Proof.
  intros Hr Hi Hv Hb Hun Hx Hdev.
  eapply cache_rep_slot; [done|exact Hi|..]; simpl; try done.
  - intros _. rewrite upd_eq. done.
  - intros _ j g Hj Hg Hvg. by apply (Hun j g).
  - intros c Hc _ Hn. apply upd_ne. intros ->. by apply Hn.
  - congruence.
Qed.

(** Overwriting the contents of a cached block. *)
Lemma overwrite_ok cx nblk v (w : W) i e b x :
  cache_rep cx nblk v w -> pool_of w !! i = Some e -> valid e = true -> blk_num e = b ->
  blen x = blk_size (sp_blk cx) ->
  cache_rep cx nblk (upd v b x)
    (with_pool (alter (fun e => set_flags (valid e) true (set_data x e)) i (pool_of w)) w).
Proof.
  intros Hr Hi Hv <- Hx. pose proof (cr_pool _ _ _ _ Hr) as Hpool.
  destruct (po_valid _ _ _ _ _ _ Hpool i e Hi Hv) as (Hb & _).
  eapply cache_rep_slot; [done|exact Hi|..]; simpl; try done.
  - intros _. rewrite upd_eq. done.
  - intros _ j g Hj Hg Hvg Heq. apply Hj. by apply (po_uniq _ _ _ _ _ _ Hpool j i g e).
  - intros c Hc Hn _. apply upd_ne. intros ->. by apply Hn.
  - intros _ Hn. exfalso. by apply Hn.
Qed.

(** One iteration of the read loop brings [v (start + i)] into the buffer. *)
Lemma read_step_ok cx nblk v start n (w : W) i buf :
  let nb := blk_size (sp_blk cx) in
  cache_rep cx nblk v w -> 0 <= start + i < nblk -> tick_of w + 1 < MOFS_UINT64_MAX -> exists w',
  bcache_read_loop nb start (S n) i buf w =
    bcache_read_loop nb start n (i + 1) (bsplice (i * nb) (v (start + i)) buf) w' /\
  cache_rep cx nblk v w' /\ same_frame w w' /\ tick_of w' = tick_of w + 1.
Proof.
  intros nb Hr Hsi Ht. pose proof (cr_nblk _ _ _ _ Hr) as Hnk.
  pose proof (cache_rep_len _ _ _ _ (start + i) Hr ltac:(lia)) as Hlen. fold nb in Hlen.
  cbn [bcache_read_loop]. rewrite u32_small by lia.
  erewrite M_bind_ok by reflexivity. fold (pool_of w).
  destruct (bcache_find (pool_of w) (start + i)) as [idx|] eqn:Hf.
  - destruct (hit_entry _ _ _ _ _ _ Hr Hf) as (e & He & -> & _ & _ & ->).
    destruct (touch_ok cx nblk v w idx e Hr He ltac:(lia)) as (w1 & E1 & R1 & F1 & T1 & _).
    exists w1. split; [|done]. rewrite (M_bind_ok _ _ _ _ _ E1). by rewrite bslice_all by lia.
  - apply bcache_find_None in Hf.
    destruct (miss_load_ok cx nblk v w (start + i) Hr Hsi Hf)
      as (w1 & w2 & idx & e & E1 & E2 & C1 & P2 & R2 & F2 & T2 & He & Hv & Hu2 & Hd2).
    pose proof (fill_ok cx nblk v w2 idx e (start + i) (v (start + i)) false R2 He Hv Hsi Hu2
      Hlen (fun _ => Hd2)) as R3.
    set (w3 := with_pool _ w2) in R3.
    destruct (touch_ok cx nblk _ w3 idx (set_flags true false (set_blk (start + i) (set_data (v (start + i)) e))) R3)
      as (w4 & E4 & R4 & F4 & T4 & _).
    { subst w3. change (pool_of (with_pool ?p ?x)) with p. by rewrite list_lookup_alter_eq, He. }
    { change (tick_of w3) with (tick_of w2). lia. }
    exists w4. split_and!.
    + rewrite (M_bind_ok _ _ _ _ _ E1). erewrite M_bind_ok by reflexivity. rewrite C1.
      erewrite M_bind_ok by reflexivity. fold (pool_of w1).
      rewrite (M_bind_ok _ _ _ _ _ E2). cbv beta iota.
      rewrite (M_bind_ok _ _ _ _ _ (upd_entry_eq idx _ w2)). cbn [Z.eqb Pos.eqb negb].
      rewrite (M_bind_ok _ _ _ _ _ (upd_entry_eq idx _ _)).
      change (pool_of (with_pool ?p ?x)) with p. rewrite with_pool_twice, list_alter_alter_eq.
      change (with_pool _ w2) with w3. rewrite (M_bind_ok _ _ _ _ _ E4). by rewrite bslice_all by lia.
    + eapply cache_rep_ext; [exact R4|]. intros b Hb. unfold upd. by destruct (Z.eqb_spec b (start + i)) as [->|].
    + eapply same_frame_trans; [exact F2|]. exact F4.
    + rewrite T4. change (tick_of w3) with (tick_of w2). lia.
Qed.

(** Reading [n] blocks through the cache yields their logical contents. *)
Lemma read_loop_ok cx nblk v start n : forall (w : W) i buf,
  let nb := blk_size (sp_blk cx) in
  cache_rep cx nblk v w -> 0 <= i -> 0 <= start -> start + i + Z.of_nat n <= nblk ->
  (i + Z.of_nat n) * nb <= blen buf -> tick_of w + Z.of_nat n < MOFS_UINT64_MAX -> exists w',
  bcache_read_loop nb start n i buf w =
    (w', Ok (i + Z.of_nat n, 0, bsplice (i * nb) (blocks_at v (start + i) n) buf)) /\
  cache_rep cx nblk v w' /\ same_frame w w' /\ tick_of w' = tick_of w + Z.of_nat n.
Proof.
  induction n as [|n IH]; intros w i buf nb Hr Hi Hs Hn Hbuf Ht.
  { exists w. cbn [bcache_read_loop]. change (blocks_at v (start + i) 0) with (@nil byte).
    rewrite bsplice_nil, !Z.add_0_r. by split_and!. }
  pose proof (cr_nb _ _ _ _ Hr) as Hnb. fold nb in Hnb.
  pose proof (cache_rep_len _ _ _ _ (start + i) Hr ltac:(lia)) as Hlen. fold nb in Hlen.
  destruct (read_step_ok cx nblk v start n w i buf Hr ltac:(lia) ltac:(lia)) as (w1 & E1 & R1 & F1 & T1).
  fold nb in E1.
  destruct (IH w1 (i + 1) (bsplice (i * nb) (v (start + i)) buf)) as (w' & E & R & F & T); try done; try lia.
  { fold nb. rewrite length_bsplice; nia. }
  exists w'. fold nb in E. rewrite E1, E. split_and!; [|done|by eapply same_frame_trans|lia].
  do 2 f_equal. f_equal; [f_equal; lia|].
  replace ((i + 1) * nb) with (i * nb + blen (v (start + i))) by nia.
  rewrite bsplice_app, blocks_at_S by nia. do 3 f_equal. lia.
Qed.

Lemma bcache_read_ok cx nblk v (w : W) buf req start :
  let nb := blk_size (sp_blk cx) in
  cache_rep cx nblk v w -> 0 <= start -> 0 <= req -> start + req <= nblk ->
  req * nb <= blen buf -> tick_of w + req < MOFS_UINT64_MAX -> exists w',
  mofs_bcache_read_blocks (dev_fd cx) buf req start w =
    (w', Ok (req, 0, bsplice 0 (blocks_at v start (Z.to_nat req)) buf)) /\
  cache_rep cx nblk v w' /\ same_frame w w' /\ tick_of w' = tick_of w + req.
Proof.
  intros nb Hr Hs Hq Hn Hbuf Ht. pose proof (cr_nb _ _ _ _ Hr). pose proof (cr_fd _ _ _ _ Hr). pose proof p_fd_nonneg.
  destruct (read_loop_ok cx nblk v start (Z.to_nat req) w 0 buf) as (w' & E & R & F & T); try done; try lia.
  exists w'. rewrite Z2Nat.id in * by lia. split_and!; try done.
  unfold mofs_bcache_read_blocks, gets. erewrite M_bind_ok by reflexivity.
  unfold mofs_io_blk_sz. rewrite (cr_ctx _ _ _ _ Hr).
  rewrite (proj2 (Z.ltb_ge _ 0)), (proj2 (Z.eqb_neq _ 0)) by lia.
  erewrite M_bind_ok by reflexivity. rewrite (cr_ready _ _ _ _ Hr). cbn [negb].
  rewrite E. by rewrite Z.mul_0_l, Z.add_0_r.
Qed.

(** ** Writing *)

(** The logical disk after [n] blocks of [buf], from block [i] on, were written
    at [start + i]. *)
Fixpoint upd_blocks (nb : Z) (buf : list byte) (start i : Z) (n : nat) (v : Z -> list byte) : Z -> list byte :=
  match n with
  | O => v
  | S n' => upd_blocks nb buf start (i + 1) n' (upd v (start + i) (bslice (i * nb) nb buf))
  end.

(** One iteration of the write loop, hit or miss, makes the block's logical
    contents the given ones; the device is only touched to evict. *)
Lemma write_step_ok cx nblk v start n (w : W) i buf :
  let nb := blk_size (sp_blk cx) in
  cache_rep cx nblk v w -> 0 <= i -> 0 <= start + i < nblk -> (i + 1) * nb <= blen buf ->
  tick_of w + 1 < MOFS_UINT64_MAX -> exists w',
  bcache_write_loop nb start (S n) i buf w = bcache_write_loop nb start n (i + 1) buf w' /\
  cache_rep cx nblk (upd v (start + i) (bslice (i * nb) nb buf)) w' /\ same_frame w w' /\
  tick_of w' = tick_of w + 1.
Proof.
  intros nb Hr Hi0 Hsi Hbuf Ht. pose proof (cr_nblk _ _ _ _ Hr) as Hnk.
  pose proof (cr_nb _ _ _ _ Hr) as Hnb. fold nb in Hnb.
  set (x := bslice (i * nb) nb buf). assert (Hx : blen x = nb) by (unfold x; rewrite length_bslice; nia).
  cbn [bcache_write_loop]. rewrite u32_small by lia. fold x.
  erewrite M_bind_ok by reflexivity. fold (pool_of w).
  (* the slot the block ends up in, and the pool before the copy *)
  assert (Hslot : exists w1 idx e f, match bcache_find (pool_of w) (start + i) with
      | Some idx => mret idx
      | None => idx ← bcache_get_victim;
          upd_entry idx (fun e => set_flags true (dirty e) (set_blk (start + i) e));; mret idx
      end w = (with_pool (alter f idx (pool_of w1)) w1, Ok idx) /\
      same_frame w w1 /\ tick_of w1 = tick_of w /\ pool_of w1 !! idx = Some e /\ blen (data (f e)) = nb /\
      cache_rep cx nblk (upd v (start + i) x)
        (with_pool (alter (fun e => set_flags (valid (f e)) true (set_data x (f e))) idx (pool_of w1)) w1)).
  { destruct (bcache_find (pool_of w) (start + i)) as [idx|] eqn:Hf.
    - destruct (hit_entry _ _ _ _ _ _ Hr Hf) as (e & He & _ & Hv & Hb & Hd).
      exists w, idx, e, id. split_and!; try done.
      + rewrite list_alter_id by done. by destruct w as [? ? ? []].
      + apply (po_entry _ _ _ _ _ _ (cr_pool _ _ _ _ Hr) idx e He).
      + by eapply (overwrite_ok _ _ _ _ _ e).
    - apply bcache_find_None in Hf.
      destruct (victim_ok cx nblk v w Hr) as (w1 & idx & e & E1 & R1 & F1 & He & Hv & _ & T1 & U1).
      exists w1, idx, e, (fun e => set_flags true (dirty e) (set_blk (start + i) e)). split_and!; try done.
      + by rewrite (M_bind_ok _ _ _ _ _ E1).
      + apply (po_entry _ _ _ _ _ _ (cr_pool _ _ _ _ R1) idx e He).
      + eapply (fill_ok _ _ _ _ _ e); try done. by apply U1. }
  destruct Hslot as (w1 & idx & e & f & E1 & F1 & T1 & He & Hlf & R3). rewrite (M_bind_ok _ _ _ _ _ E1).
  set (w3 := with_pool (alter (fun e => set_flags (valid (f e)) true (set_data x (f e))) idx (pool_of w1)) w1) in R3.
  destruct (touch_ok cx nblk _ w3 idx (set_flags (valid (f e)) true (set_data x (f e))) R3) as (w4 & E4 & R4 & F4 & T4 & _).
  { subst w3. change (pool_of (with_pool ?p ?x)) with p. by rewrite list_lookup_alter_eq, He. }
  { change (tick_of w3) with (tick_of w1). lia. }
  exists w4. split_and!; [|done|eapply same_frame_trans; [exact F1|exact F4]|rewrite T4; change (tick_of w3) with (tick_of w1); lia].
  rewrite !(M_bind_ok _ _ _ _ _ (upd_entry_eq idx _ _)).
  rewrite !pool_of_with_pool, !with_pool_twice, !list_alter_alter_eq.
  replace (with_pool _ w1) with w3; [by rewrite (M_bind_ok _ _ _ _ _ E4)|].
  unfold w3. apply (f_equal (fun p => with_pool p w1)). apply list_alter_ext; [|done].
  intros e' He'. rewrite He in He'. simplify_eq/=.
  by rewrite bsplice_0_all by lia.
Qed.

Lemma write_loop_ok cx nblk start n : forall v (w : W) i buf,
  let nb := blk_size (sp_blk cx) in
  cache_rep cx nblk v w -> 0 <= i -> 0 <= start -> start + i + Z.of_nat n <= nblk ->
  (i + Z.of_nat n) * nb <= blen buf -> tick_of w + Z.of_nat n < MOFS_UINT64_MAX -> exists w',
  bcache_write_loop nb start n i buf w = (w', Ok (i + Z.of_nat n, 0)) /\
  cache_rep cx nblk (upd_blocks nb buf start i n v) w' /\ same_frame w w' /\ tick_of w' = tick_of w + Z.of_nat n.
Proof.
  induction n as [|n IH]; intros v w i buf nb Hr Hi Hs Hn Hbuf Ht.
  { exists w. cbn [bcache_write_loop upd_blocks]. rewrite !Z.add_0_r. by split_and!. }
  pose proof (cr_nb _ _ _ _ Hr) as Hnb. fold nb in Hnb.
  destruct (write_step_ok cx nblk v start n w i buf Hr Hi) as (w1 & E1 & R1 & F1 & T1); try fold nb; try nia.
  destruct (IH _ w1 (i + 1) buf R1) as (w' & E & R & F & T); try lia; try (fold nb; nia).
  exists w'. fold nb in E, E1. rewrite E1, E. split_and!; [do 2 f_equal; f_equal; lia|done|by eapply same_frame_trans|lia].
Qed.

Lemma bcache_write_ok cx nblk v (w : W) buf req start :
  let nb := blk_size (sp_blk cx) in
  cache_rep cx nblk v w -> 0 <= start -> 0 <= req -> start + req <= nblk ->
  req * nb <= blen buf -> tick_of w + req < MOFS_UINT64_MAX -> exists w',
  mofs_bcache_write_blocks (dev_fd cx) buf req start w = (w', Ok (req, 0)) /\
  cache_rep cx nblk (upd_blocks nb buf start 0 (Z.to_nat req) v) w' /\ same_frame w w' /\
  tick_of w' = tick_of w + req.
Proof.
  intros nb Hr Hs Hq Hn Hbuf Ht. pose proof (cr_nb _ _ _ _ Hr). pose proof (cr_fd _ _ _ _ Hr). pose proof p_fd_nonneg.
  destruct (write_loop_ok cx nblk start (Z.to_nat req) v w 0 buf) as (w' & E & R & F & T); try done; try lia.
  exists w'. rewrite Z2Nat.id in E, T by lia. split_and!; try done.
  unfold mofs_bcache_write_blocks, gets. erewrite M_bind_ok by reflexivity.
  unfold mofs_io_blk_sz. rewrite (cr_ctx _ _ _ _ Hr).
  rewrite (proj2 (Z.ltb_ge _ 0)), (proj2 (Z.eqb_neq _ 0)) by lia.
  erewrite M_bind_ok by reflexivity. rewrite (cr_ready _ _ _ _ Hr). cbn [negb]. exact E.
Qed.

(** ** Patching, flushing, invalidating *)

(** [mofs_bcache_modify_block] patches the logical block in place. *)
Lemma bcache_modify_ok cx nblk v (w : W) b off patch :
  let nb := blk_size (sp_blk cx) in
  cache_rep cx nblk v w -> 0 <= b < nblk -> 0 <= off -> 0 < blen patch -> off + blen patch <= nb ->
  tick_of w + 1 < MOFS_UINT64_MAX -> exists w',
  mofs_bcache_modify_block b off patch w = (w', Ok tt) /\
  cache_rep cx nblk (upd v b (bsplice off patch (v b))) w' /\ same_frame w w' /\ tick_of w' = tick_of w + 1.
Proof.
  intros nb Hr Hb Ho Hp Hlen Ht. pose proof (cr_nb _ _ _ _ Hr) as Hnb. fold nb in Hnb.
  pose proof (cache_rep_len _ _ _ _ b Hr Hb) as Hlv. fold nb in Hlv.
  set (x := bsplice off patch (v b)). assert (Hx : blen x = nb) by (unfold x; rewrite length_bsplice; lia).
  unfold mofs_bcache_modify_block. erewrite M_bind_ok by reflexivity.
  unfold mofs_io_blk_sz at 1 2 3 4. rewrite (cr_ctx _ _ _ _ Hr). fold nb.
  if_false. erewrite M_bind_ok by reflexivity. rewrite (cr_ready _ _ _ _ Hr). cbn [negb].
  rewrite (u32_small (off + blen patch)) by lia. if_false.
  erewrite M_bind_ok by reflexivity. fold (pool_of w).
  assert (Hslot : exists w1 idx e f, match bcache_find (pool_of w) b with
      | Some idx => mret idx
      | None => idx ← bcache_get_victim; fd ← gets (fun w => dev_fd (w_ctx w)); pool ← get_pool;
          '(read_one, frac, d) ← read_continuous_blocks_raw fd (data (entry_at pool idx)) 1 b;
          upd_entry idx (set_data d);;
          if negb (read_one =? 1) || negb (frac =? 0) then fail MOFS_EIO else
          upd_entry idx (fun e => set_flags true false (set_blk b e));; mret idx
      end w = (with_pool (alter f idx (pool_of w1)) w1, Ok idx) /\
      same_frame w w1 /\ tick_of w1 = tick_of w /\ pool_of w1 !! idx = Some e /\ data (f e) = v b /\
      cache_rep cx nblk (upd v b x)
        (with_pool (alter (fun e => set_flags (valid (f e)) true (set_data x (f e))) idx (pool_of w1)) w1)).
  { destruct (bcache_find (pool_of w) b) as [idx|] eqn:Hf.
    - destruct (hit_entry _ _ _ _ _ _ Hr Hf) as (e & He & _ & Hv & Hbe & Hd).
      exists w, idx, e, id. split_and!; try done.
      + rewrite list_alter_id by done. by destruct w as [? ? ? []].
      + by eapply (overwrite_ok _ _ _ _ _ e).
    - apply bcache_find_None in Hf.
      destruct (miss_load_ok cx nblk v w b Hr Hb Hf)
        as (w1 & w2 & idx & e & E1 & E2 & C1 & P2 & R2 & F2 & T2 & He & Hv & Hu2 & Hd2).
      exists w2, idx, e, (fun e => set_flags true false (set_blk b (set_data (v b) e))). split_and!; try done.
      + rewrite (M_bind_ok _ _ _ _ _ E1). do 2 erewrite M_bind_ok by reflexivity. fold (pool_of w1).
        rewrite C1, (M_bind_ok _ _ _ _ _ E2). cbv beta iota.
        rewrite (M_bind_ok _ _ _ _ _ (upd_entry_eq idx _ w2)). cbn [Z.eqb Pos.eqb negb orb].
        rewrite (M_bind_ok _ _ _ _ _ (upd_entry_eq idx _ _)).
        by rewrite pool_of_with_pool, with_pool_twice, list_alter_alter_eq.
      + by eapply (fill_ok _ _ _ _ _ e). }
  destruct Hslot as (w1 & idx & e & f & E1 & F1 & T1 & He & Hdf & R3). rewrite (M_bind_ok _ _ _ _ _ E1).
  set (w3 := with_pool (alter (fun e => set_flags (valid (f e)) true (set_data x (f e))) idx (pool_of w1)) w1) in R3.
  destruct (touch_ok cx nblk _ w3 idx (set_flags (valid (f e)) true (set_data x (f e))) R3) as (w4 & E4 & R4 & F4 & T4 & _).
  { unfold w3. by rewrite pool_of_with_pool, list_lookup_alter_eq, He. }
  { change (tick_of w3) with (tick_of w1). lia. }
  exists w4. split_and!; [|done|eapply same_frame_trans; [exact F1|exact F4]|rewrite T4; change (tick_of w3) with (tick_of w1); lia].
  rewrite !(M_bind_ok _ _ _ _ _ (upd_entry_eq idx _ _)).
  rewrite !pool_of_with_pool, !with_pool_twice, !list_alter_alter_eq.
  replace (with_pool _ w1) with w3; [done|].
  unfold w3. apply (f_equal (fun p => with_pool p w1)). apply list_alter_ext; [|done].
  intros e' He'. rewrite He in He'. simplify_eq/=. by rewrite Hdf.
Qed.

(** Slots below [i] hold nothing that is still to be written back. *)
Definition clean_below (i : nat) (pool : list bcache_entry) : Prop :=
  forall j e, (j < i)%nat -> pool !! j = Some e -> valid e = true -> dirty e = false.

Lemma flush_loop_ok cx nblk v n : forall (w : W) i,
  cache_rep cx nblk v w -> clean_below i (pool_of w) -> length (pool_of w) = (i + n)%nat -> exists w',
  bcache_flush_loop n i w = (w', Ok tt) /\ cache_rep cx nblk v w' /\ same_frame w w' /\
  tick_of w' = tick_of w /\ clean_below (i + n) (pool_of w') /\ length (pool_of w') = (i + n)%nat /\
  blen (p_dev (w_plat w')) = blen (p_dev (w_plat w)).
Proof.
  induction n as [|n IH]; intros w i Hr Hc Hl; cbn [bcache_flush_loop].
  { exists w. rewrite Nat.add_0_r in *. by split_and!. }
  erewrite M_bind_ok by reflexivity. fold (pool_of w).
  destruct (lookup_lt_is_Some_2 (pool_of w) i) as [e Hi]; [lia|].
  assert (Hat : entry_at (pool_of w) i = e) by (unfold entry_at; by rewrite Hi). rewrite Hat.
  assert (Hstep : exists w1, (if valid e && dirty e then bcache_flush_entry i else mret tt) w = (w1, Ok tt) /\
     cache_rep cx nblk v w1 /\ same_frame w w1 /\ tick_of w1 = tick_of w /\
     clean_below (S i) (pool_of w1) /\ length (pool_of w1) = length (pool_of w) /\
     blen (p_dev (w_plat w1)) = blen (p_dev (w_plat w))).
  { assert (Hext : forall pool, (forall j, j <> i -> pool !! j = pool_of w !! j) ->
       (forall f, pool !! i = Some f -> valid f = true -> dirty f = false) -> clean_below (S i) pool).
    { intros pool Hoth Hself j f Hj Hf. destruct (decide (j = i)) as [->|Hne]; [eauto|].
      rewrite Hoth in Hf by done. apply (Hc j f); [lia|done]. }
    destruct (valid e && dirty e) eqn:Hvd; bool_hyps.
    - destruct (flush_entry_ok cx nblk v w i e Hr Hi) as (w1 & E1 & R1 & F1 & P1 & T1 & _ & D1); [done|].
      exists w1. rewrite P1, length_alter. split_and!; try done. apply Hext.
      + intros j Hj. by apply list_lookup_alter_ne.
      + intros f Hf. rewrite list_lookup_alter_eq, Hi in Hf. by simplify_eq/=.
    - exists w. split_and!; try done. apply Hext; [done|]. intros f Hf Hv. rewrite Hi in Hf. injection Hf as <-.
      rewrite Hv in Hvd. by destruct (dirty e). }
  destruct Hstep as (w1 & E1 & R1 & F1 & T1 & C1 & L1 & D1). rewrite (M_bind_ok _ _ _ _ _ E1).
  destruct (IH w1 (S i) R1 C1) as (w' & E & R & F & T & C & L & D); [lia|].
  exists w'. replace (i + S n)%nat with (S i + n)%nat by lia.
  split_and!; try done; [by eapply same_frame_trans|congruence|congruence].
Qed.

(** After [mofs_bcache_flush] the device holds the logical disk. *)
Lemma bcache_flush_ok cx nblk v (w : W) :
  cache_rep cx nblk v w -> exists w',
  mofs_bcache_flush w = (w', Ok tt) /\ cache_rep cx nblk v w' /\ same_frame w w' /\ tick_of w' = tick_of w /\
  (forall b, 0 <= b < nblk -> dev_block w' b = v b) /\ blen (p_dev (w_plat w')) = blen (p_dev (w_plat w)).
Proof.
  intros Hr. unfold mofs_bcache_flush. erewrite M_bind_ok by reflexivity. rewrite (cr_ready _ _ _ _ Hr). cbn [negb].
  erewrite M_bind_ok by reflexivity. fold (pool_of w).
  destruct (flush_loop_ok cx nblk v (length (pool_of w)) w 0 Hr) as (w1 & E1 & R1 & F1 & T1 & C1 & L1 & D1);
    [intros j e Hj; lia|done|].
  rewrite (M_bind_ok _ _ _ _ _ E1). erewrite M_bind_ok by reflexivity.
  destruct (p_fsync (w_plat w1) (dev_fd (w_ctx w1)) (cr_plat _ _ _ _ R1)) as (p' & Ep & Hok & Hd & _).
  { rewrite (cr_ctx _ _ _ _ R1). apply (cr_fd _ _ _ _ R1). }
  exists (set_plat p' w1). split_and!; try done.
  - by apply plat_eq.
  - by apply cache_rep_plat.
  - intros b Hb. transitivity (dev_block w1 b); [unfold dev_block; simpl; by rewrite Hd|].
    pose proof (cr_pool _ _ _ _ R1) as Hpool.
    destruct (bcache_find (pool_of w1) b) as [i|] eqn:Hf.
    + apply bcache_find_Some in Hf as (e & Hi & Hv & <-).
      apply (po_valid _ _ _ _ _ _ Hpool i e Hi Hv). apply (C1 i e); [|done|done].
      apply lookup_lt_Some in Hi. lia.
    + apply bcache_find_None in Hf. by apply (po_miss _ _ _ _ _ _ Hpool b Hb).
  - simpl. by rewrite Hd.
Qed.

(** [mofs_bcache_invalidate] forgets a block: its logical contents fall back to
    what the device holds; nothing else changes. *)
Lemma bcache_invalidate_ok cx nblk v (w : W) b :
  cache_rep cx nblk v w -> 0 <= b < nblk -> exists w',
  mofs_bcache_invalidate b w = (w', Ok tt) /\ cache_rep cx nblk (upd v b (dev_block w b)) w' /\
  same_frame w w' /\ tick_of w' = tick_of w.
Proof.
  intros Hr Hb. pose proof (cr_pool _ _ _ _ Hr) as Hpool.
  unfold mofs_bcache_invalidate. erewrite M_bind_ok by reflexivity. rewrite (cr_ready _ _ _ _ Hr). cbn [negb].
  erewrite M_bind_ok by reflexivity. fold (pool_of w).
  destruct (bcache_find (pool_of w) b) as [i|] eqn:Hf.
  - destruct (hit_entry _ _ _ _ _ _ Hr Hf) as (e & He & _ & Hv & Hbe & Hd).
    eexists. split; [apply upd_entry_eq|]. split; [|by split_and!].
    eapply (cache_rep_slot _ _ v); [done|exact He|..]; simpl; try done.
    + apply (po_entry _ _ _ _ _ _ Hpool i e He).
    + intros c Hc Hn _. apply upd_ne. intros ->. by apply Hn.
    + intros _ _. by rewrite Hbe, upd_eq.
  - apply bcache_find_None in Hf. exists w. split_and!; try done.
    eapply cache_rep_ext; [done|]. intros c Hc. unfold upd. destruct (Z.eqb_spec c b) as [->|]; [|done].
    by apply (po_miss _ _ _ _ _ _ Hpool b Hb).
Qed.

(** ** Initialisation *)

Lemma malloc_ok {C} (w : world P C) n :
  p_ok (w_plat w) -> 0 <= n -> exists p' b,
  mofs_malloc n w = (set_plat p' w, Ok b) /\ blen b = n /\ p_ok p' /\ p_dev p' = p_dev (w_plat w) /\
  p_pos p' = p_pos (w_plat w).
Proof.
  intros Hok Hn. destruct (p_malloc (w_plat w) n Hok Hn) as (p' & b & E & H). exists p', b. split; [|done].
  by apply plat_eq.
Qed.

Lemma alloc_data_ok sz n : forall (w : W),
  p_ok (w_plat w) -> 0 <= sz -> exists p' ds,
  bcache_alloc_data n sz w = (set_plat p' w, Ok ds) /\ length ds = n /\ Forall (fun d => blen d = sz) ds /\
  p_ok p' /\ p_dev p' = p_dev (w_plat w).
Proof.
  induction n as [|n IH]; intros w Hok Hsz; cbn [bcache_alloc_data].
  { exists (w_plat w), []. split; [by destruct w|]. by split_and!. }
  destruct (malloc_ok w sz Hok Hsz) as (p1 & b & E1 & Hb & Hok1 & Hd1 & _).
  destruct (IH (set_plat p1 w) Hok1 Hsz) as (p' & ds & E & Hl & Hall & Hok' & Hd').
  exists p', (b :: ds). rewrite (M_bind_ok _ _ _ _ _ E1), (M_bind_ok _ _ _ _ _ E).
  split_and!; try done; [simpl; by rewrite Hl|by constructor|simpl in Hd'; congruence].
Qed.

(** [mofs_bcache_init] gives an empty cache: the logical disk is the device. *)
Lemma bcache_init_ok cx nblk (w : W) :
  w_ctx w = cx -> dev_fd cx = p_fd -> 0 < blk_size (sp_blk cx) <= 65536 -> 0 <= nblk <= 2 ^ 32 ->
  p_ok (w_plat w) -> nblk * blk_size (sp_blk cx) <= blen (p_dev (w_plat w)) ->
  bcache_ready (w_cache w) = false -> pool_of w <> [] -> exists w',
  mofs_bcache_init w = (w', Ok tt) /\ cache_rep cx nblk (dev_block w) w' /\ same_frame w w' /\
  tick_of w' = 0 /\ p_dev (w_plat w') = p_dev (w_plat w).
Proof.
  intros Hcx Hfd Hnb Hnblk Hok Hdev Hready Hslots.
  assert (Hm : exists p1 w1, (if bcache_mutex (w_cache w) then mret tt else
     mofs_mutex_init;;
     modify (fun w => let c := w_cache w in
       set_cache (mkCache (bcache_pool c) (bcache_ready c) (bcache_tick c) true) w)) w = (w1, Ok tt) /\
     w1 = set_cache (mkCache (pool_of w) false (tick_of w) true) (set_plat p1 w) /\
     p_ok p1 /\ p_dev p1 = p_dev (w_plat w)).
  { destruct (bcache_mutex (w_cache w)) eqn:Em.
    - exists (w_plat w), w. split_and!; try done. unfold pool_of, tick_of. destruct w as [? ? ? []]; simpl in *. by subst.
    - destruct (p_mutex_init (w_plat w) Hok) as (p1 & E & Hok1 & Hd1 & _).
      exists p1. eexists. split_and!; [|reflexivity|done|done].
      rewrite (M_bind_ok _ _ _ _ _ (plat_eq _ _ _ _ E)). unfold modify. simpl. by rewrite Hready. }
  destruct Hm as (p1 & w1 & E1 & Hw1 & Hok1 & Hd1).
  set (w2 := with_pool (replicate (length (pool_of w)) zero_entry) w1).
  destruct (alloc_data_ok (blk_size (sp_blk cx)) (length (pool_of w)) w2) as (p' & ds & E2 & Hl & Hall & Hok' & Hd');
    [subst w1; done|lia|].
  eexists. split.
  { unfold mofs_bcache_init. erewrite M_bind_ok by reflexivity. unfold mofs_io_blk_sz. rewrite Hcx. if_false.
    erewrite M_bind_ok by reflexivity. rewrite (M_bind_ok _ _ _ _ _ E1). rewrite Hready.
    erewrite M_bind_ok by reflexivity. fold (pool_of w). change (set_cache _ w1) with w2.
    rewrite (M_bind_ok _ _ _ _ _ E2). reflexivity. }
  assert (Hdd : p_dev p' = p_dev (w_plat w)) by (rewrite Hd'; subst w2 w1; simpl; done).
  split; [|subst w2 w1; by split_and!].
  assert (Hdb : forall c, dev_block (set_cache (mkCache ((fun d => mkEntry false false 0 0 d) <$> ds) true 0 true) (set_plat p' w2)) c = dev_block w c).
  { intros c. unfold dev_block, mofs_io_blk_sz. simpl. rewrite Hdd. by subst w2 w1. }
  split; try done; try (subst w2 w1; done).
  - simpl. by rewrite Hdd.
  - unfold pool_of; simpl. destruct ds; [|done]. simpl in Hl. destruct (pool_of w); [done|discriminate].
  - assert (Hfree : forall i e, pool_of (set_cache (mkCache ((fun d => mkEntry false false 0 0 d) <$> ds) true 0 true) (set_plat p' w2)) !! i = Some e ->
       valid e = false /\ lru_tick e = 0 /\ blen (data e) = blk_size (sp_blk cx)).
    { unfold pool_of; simpl. intros i e He. rewrite list_lookup_fmap in He.
      destruct (ds !! i) as [d|] eqn:Hd; simplify_eq/=. split_and!; [done|done|]. exact (Forall_lookup_1 _ _ _ _ Hall Hd). }
    split.
    + intros i e He. apply Hfree in He as (_ & -> & ?). unfold tick_of; simpl. split; [done|lia].
    + intros i j e f He _ Hv. apply Hfree in He as [Hv0 _]. congruence.
    + intros i e He Hv. apply Hfree in He as [Hv0 _]. congruence.
    + intros b Hb _. apply Hdb.
Qed.

(** A ready cache in which no slot is valid: the logical disk is the device. *)
Lemma cache_rep_empty cx nblk (w : W) :
  w_ctx w = cx -> dev_fd cx = p_fd -> 0 < blk_size (sp_blk cx) <= 65536 -> 0 <= nblk <= 2 ^ 32 ->
  p_ok (w_plat w) -> nblk * blk_size (sp_blk cx) <= blen (p_dev (w_plat w)) ->
  bcache_ready (w_cache w) = true -> bcache_mutex (w_cache w) = true -> pool_of w <> [] -> tick_of w = 0 ->
  Forall (fun e => valid e = false /\ lru_tick e = 0 /\ blen (data e) = blk_size (sp_blk cx)) (pool_of w) ->
  cache_rep cx nblk (dev_block w) w.
Proof.
  intros Hcx Hfd Hnb Hnblk Hok Hdev Hready Hmutex Hslots Ht Hall. split; try done.
  - rewrite Ht. unfold MOFS_UINT64_MAX. lia.
  - rewrite Forall_lookup in Hall. split.
    + intros i e He. apply Hall in He as (_ & -> & ?). split; [done|lia].
    + intros i j e f He _ Hv. apply Hall in He as [Hf _]. congruence.
    + intros i e He Hv. apply Hall in He as [Hf _]. congruence.
    + done.
Qed.

End spec.
