(* ===== verification/Ops.v ===== *)
(** * Programs over the services of the core

    The modules above the block layer ([mofs_block.c] without its raw I/O,
    [mofs_inode.c], [mofs_dir.c], [mofs_file.c], ...) are written as values of
    [prog]: trees of the service calls they make, each followed by a
    continuation that receives the status of the call.  This file gives [prog]
    two meanings:
    - [interp] runs a program on the real state [world], against the block
      driver the build selected ([BlockDriver]: the write-back cache of
      [mofs_buffer.c], or plain raw I/O when it is compiled out);
    - [wp] is the weakest precondition over the abstract state [astate], in
      which the disk is a function from block numbers to contents and no
      cache exists.
    [interp_adequate] connects them for every driver that satisfies
    [DriverSpec]: what [wp] proves on the abstract disk holds of the real run. *)

From Stdlib Require Import ZArith Lia.
From stdpp Require Import base list.
From S2P Require Import Prelude Types Platform Raw Buffer BufferSpec.

(** ** Syntax *)

Inductive op : Type :=
| OpRead (fd : Z) (buf : list byte) (req_blk_num start_blk_num : Z)   (** read_continuous_blocks *)
| OpWrite (fd : Z) (buf : list byte) (req_blk_num start_blk_num : Z)  (** write_continuous_blocks *)
| OpModify (blk byte_off : Z) (patch : list byte)                     (** mofs_bcache_modify_block *)
| OpInvalidate (blk : Z)                                              (** mofs_bcache_invalidate *)
| OpFlush                                                             (** mofs_bcache_flush *)
| OpMalloc (n : Z)                                                    (** mofs_malloc *)
| OpNow                                                               (** mofs_now *)
| OpUser                                                              (** mofs_get_caller_user *)
| OpGetFiles | OpSetFiles (fs : list mofs_filehandle)                 (** the file handle pool *)
| OpGetDirs | OpSetDirs (ds : list mofs_dirhandle)                    (** the directory handle pool *)
| OpLock | OpUnlock.                                                  (** mofs_core_sync_lock, mofs_core_sync_unlock *)

Definition op_ret (o : op) : Type :=
  match o with
  | OpRead _ _ _ _ => Z * Z * list byte     (** read_blk_num, fraction, buf *)
  | OpWrite _ _ _ _ => Z * Z                (** written_blk_num, fraction *)
  | OpModify _ _ _ | OpInvalidate _ | OpFlush | OpSetFiles _ | OpSetDirs _ | OpLock | OpUnlock => unit
  | OpMalloc _ => list byte
  | OpNow => Z
  | OpUser => mofs_user_ctx_t
  | OpGetFiles => list mofs_filehandle
  | OpGetDirs => list mofs_dirhandle
  end.

Inductive prog (A : Type) : Type :=
| Done (r : res A)
| Vis (o : op) (k : res (op_ret o) -> prog A).
Arguments Done {A} r.
Arguments Vis {A} o k.

(** [return e;] *)
Definition throw {A} (e : Z) : prog A := Done (Err e).

(** A service call whose failure is returned to the caller at once. *)
Definition call (o : op) : prog (op_ret o) := Vis o (fun r => Done r).

#[global] Instance prog_ret : MRet prog := fun A x => Done (Ok x).

#[global] Instance prog_bind : MBind prog := fun A B f =>
  fix go (p : prog A) : prog B :=
    match p with
    | Done (Ok x) => f x
    | Done (Err e) => Done (Err e)
    | Done Stuck => Done Stuck
    | Vis o k => Vis o (fun r => go (k r))
    end.

(** Run [p] and keep its status: [ret = p(...)] without an early return. *)
Fixpoint status {A} (p : prog A) : prog (res A) :=
  match p with
  | Done Stuck => Done Stuck
  | Done r => Done (Ok r)
  | Vis o k => Vis o (fun r => status (k r))
  end.

(** [(void)p(...)]: the status is dropped. *)
Definition ignore {A} (p : prog A) : prog unit := status p;; mret tt.

(** [cleanup] runs when [p] fails, whose status is then returned. *)
Definition on_error {A} (p : prog A) (cleanup : prog unit) : prog A :=
  r ← status p;
  match r with
  | Ok x => mret x
  | Err e => cleanup;; throw e
  | Stuck => Done Stuck
  end.

(** [if (cond) return e;] *)
Definition guard (ok : bool) (e : Z) : prog unit := if ok then mret tt else throw e.

(** [p] between [mofs_core_sync_lock] and [mofs_core_sync_unlock]. *)
Definition locked {A} (p : prog A) : prog A :=
  Vis OpLock (fun _ => r ← status p; Vis OpUnlock (fun _ => Done r)).

(** ** Concrete meaning *)

(** What the build offers below [read_continuous_blocks] and friends. *)
Class BlockDriver (P C : Type) `{!Platform P} := {
  drv_read : Z -> list byte -> Z -> Z -> M (world P C) (Z * Z * list byte);
  drv_write : Z -> list byte -> Z -> Z -> M (world P C) (Z * Z);
  drv_modify : Z -> Z -> list byte -> M (world P C) unit;
  drv_invalidate : Z -> M (world P C) unit;
  drv_flush : M (world P C) unit;
  drv_init : M (world P C) unit;
  drv_fini : M (world P C) unit;
  (** the flags [mofs_init_core] opens the device with *)
  drv_open_flags : Z
}.

(** [MOFS_BUFFER_CACHE_ENABLE = 1]. *)
#[global] Instance cached_driver {P} `{!Platform P} : BlockDriver P bcache := {
  drv_read := mofs_bcache_read_blocks;
  drv_write := mofs_bcache_write_blocks;
  drv_modify := mofs_bcache_modify_block;
  drv_invalidate := mofs_bcache_invalidate;
  drv_flush := mofs_bcache_flush;
  drv_init := mofs_bcache_init;
  drv_fini := mofs_bcache_fini;
  drv_open_flags := MOFS_IO_OPEN_FLAG_RDWR
}.

(** [MOFS_BUFFER_CACHE_ENABLE = 0]: the stubs of [mofs_buffer.c]. *)
#[global] Instance uncached_driver {P} `{!Platform P} : BlockDriver P unit := {
  drv_read := read_continuous_blocks_raw;
  drv_write := write_continuous_blocks_raw;
  drv_modify := fun _ _ _ => fail MOFS_EINVAL;
  drv_invalidate := fun _ => mret tt;
  drv_flush := mret tt;
  drv_init := mret tt;
  drv_fini := mret tt;
  drv_open_flags := Z.lor MOFS_IO_OPEN_FLAG_RDWR MOFS_IO_OPEN_FLAG_SYNC
}.

Section interp.
Context {P C : Type} `{!Platform P} `{!BlockDriver P C}.

(** A thread that runs alone never waits for the core lock, which is recursive,
    and [world] does not hold it; what several threads do with it is the subject
    of [Sync]. *)
Definition handle (o : op) : M (world P C) (op_ret o) :=
  match o with
  | OpRead fd buf n s => drv_read fd buf n s
  | OpWrite fd buf n s => drv_write fd buf n s
  | OpModify b off patch => drv_modify b off patch
  | OpInvalidate b => drv_invalidate b
  | OpFlush => drv_flush
  | OpMalloc n => mofs_malloc n
  | OpNow => mofs_now
  | OpUser => mofs_get_caller_user
  | OpGetFiles => gets w_files
  | OpSetFiles fs => modify (set_files fs)
  | OpGetDirs => gets w_dirs
  | OpSetDirs ds => modify (set_dirs ds)
  | OpLock | OpUnlock => mret tt
  end.

Fixpoint interp {A} (p : prog A) : M (world P C) A := fun w =>
  match p with
  | Done r => (w, r)
  | Vis o k => let '(w', r) := handle o w in interp (k r) w'
  end.

Lemma interp_bind {A B} (p : prog A) (k : A -> prog B) : forall w : world P C,
  interp (p ≫= k) w = match interp p w with
                      | (w', Ok x) => interp (k x) w'
                      | (w', Err e) => (w', Err e)
                      | (w', Stuck) => (w', Stuck)
                      end.
Proof.
  induction p as [[x|e|]|o kk IH]; intros w; [done..|]. cbn. destruct (handle o w) as [w' r]. apply IH.
Qed.

Lemma interp_status {A} (p : prog A) : forall w : world P C,
  interp (status p) w = match interp p w with (w', Stuck) => (w', Stuck) | (w', r) => (w', Ok r) end.
Proof.
  induction p as [[x|e|]|o kk IH]; intros w; [done..|]. cbn. destruct (handle o w) as [w' r]. apply IH.
Qed.

(** A thread that runs alone does not notice the lock. *)
Lemma interp_locked {A} (p : prog A) (w : world P C) : interp (locked p) w = interp p w.
Proof.
  unfold locked. cbn. unfold mret, M_ret. rewrite interp_bind, interp_status. by destruct (interp p w) as [w' [x|e|]].
Qed.

(** Number of block accesses a service makes. *)
Definition op_cost (o : op) : Z :=
  match o with
  | OpRead _ _ n _ | OpWrite _ _ n _ => Z.max 0 n
  | OpModify _ _ _ => 1
  | _ => 0
  end.

(** Number of block accesses of a run. *)
Fixpoint run_cost {A} (p : prog A) (w : world P C) : Z :=
  match p with
  | Done _ => 0
  | Vis o k => let '(w', r) := handle o w in op_cost o + run_cost (k r) w'
  end.

Lemma run_cost_nonneg {A} (p : prog A) : forall w, 0 <= run_cost p w.
Proof.
  induction p as [r|o k IH]; intros w; cbn [run_cost]; [lia|].
  destruct (handle o w) as [w' r]. specialize (IH r w'). assert (0 <= op_cost o) by (destruct o; simpl; lia). lia.
Qed.

End interp.

(** ** Abstract meaning *)

Record astate := mkAstate {
  a_disk : Z -> list byte;
  a_caller : mofs_user_ctx_t;
  a_files : list mofs_filehandle;
  a_dirs : list mofs_dirhandle;
  a_cached : bool             (** the build has a block cache *)
}.

Definition set_disk d a := mkAstate d (a_caller a) (a_files a) (a_dirs a) (a_cached a).
Definition set_afiles f a := mkAstate (a_disk a) (a_caller a) f (a_dirs a) (a_cached a).
Definition set_adirs d a := mkAstate (a_disk a) (a_caller a) (a_files a) d (a_cached a).

Section wp.
(** The mounted volume: its context and its size in blocks. *)
Context (cx : mofs_ctx_t) (nblk : Z).
Abbreviation nb := (blk_size (sp_blk cx)).

(** What a service may do while the platform does not fail: a precondition and
    every outcome it may have. *)
Definition op_wp (o : op) : (res (op_ret o) -> astate -> Prop) -> astate -> Prop :=
  match o return (res (op_ret o) -> astate -> Prop) -> astate -> Prop with
  | OpRead fd buf n s => fun Q a =>
      fd = dev_fd cx /\ 0 <= s /\ 0 <= n /\ s + n <= nblk /\ n * nb <= blen buf /\
      Q (Ok (n, 0, bsplice 0 (blocks_at (a_disk a) s (Z.to_nat n)) buf)) a
  | OpWrite fd buf n s => fun Q a =>
      fd = dev_fd cx /\ 0 <= s /\ 0 <= n /\ s + n <= nblk /\ n * nb <= blen buf /\
      Q (Ok (n, 0)) (set_disk (upd_blocks nb buf s 0 (Z.to_nat n) (a_disk a)) a)
  | OpModify b off patch => fun Q a =>
      if a_cached a then
        0 <= b < nblk /\ 0 <= off /\ 0 < blen patch /\ off + blen patch <= nb /\
        Q (Ok tt) (set_disk (upd (a_disk a) b (bsplice off patch (a_disk a b))) a)
      else Q (Err MOFS_EINVAL) a
  | OpInvalidate b => fun Q a =>
      0 <= b < nblk /\ forall x, blen x = nb -> Q (Ok tt) (set_disk (upd (a_disk a) b x) a)
  | OpFlush => fun Q a => Q (Ok tt) a
  | OpMalloc n => fun Q a => 0 <= n /\ forall b, blen b = n -> Q (Ok b) a
  | OpNow => fun Q a => forall t, 0 <= t < 2 ^ 64 -> Q (Ok t) a
  | OpUser => fun Q a => u_valid (a_caller a) = true /\ Q (Ok (a_caller a)) a
  | OpGetFiles => fun Q a => Q (Ok (a_files a)) a
  | OpSetFiles fs => fun Q a => Q (Ok tt) (set_afiles fs a)
  | OpGetDirs => fun Q a => Q (Ok (a_dirs a)) a
  | OpSetDirs ds => fun Q a => Q (Ok tt) (set_adirs ds a)
  | OpLock | OpUnlock => fun Q a => Q (Ok tt) a
  end.

Fixpoint wp {A} (p : prog A) (Q : res A -> astate -> Prop) (a : astate) : Prop :=
  match p with
  | Done r => Q r a
  | Vis o k => op_wp o (fun r a' => wp (k r) Q a') a
  end.

Lemma op_wp_mono o Q Q' a :
  (forall r a', Q r a' -> Q' r a') -> op_wp o Q a -> op_wp o Q' a.
Proof. intros H. destruct o; simpl; try (destruct (a_cached a)); intuition auto. Qed.

Lemma wp_mono {A} (p : prog A) Q Q' : forall a,
  (forall r a', Q r a' -> Q' r a') -> wp p Q a -> wp p Q' a.
Proof.
  induction p as [r|o k IH]; intros a H; simpl; [auto|].
  apply op_wp_mono. intros r a'. by apply IH.
Qed.

(** Sequencing: the continuation runs on success only. *)
Definition then_wp {A B} (k : A -> prog B) (Q : res B -> astate -> Prop) (r : res A) (a : astate) : Prop :=
  match r with Ok x => wp (k x) Q a | Err e => Q (Err e) a | Stuck => Q Stuck a end.

Lemma wp_bind {A B} (p : prog A) (k : A -> prog B) Q : forall a,
  wp p (then_wp k Q) a -> wp (p ≫= k) Q a.
Proof.
  induction p as [[x|e|]|o kk IH]; intros a H; simpl in *; try done.
  eapply op_wp_mono; [|exact H]. intros r a'. by apply IH.
Qed.

Lemma wp_status {A} (p : prog A) Q : forall a,
  wp p (fun r a' => match r with Stuck => Q Stuck a' | _ => Q (Ok r) a' end) a -> wp (status p) Q a.
Proof.
  induction p as [[x|e|]|o kk IH]; intros a H; simpl in *; try done.
  eapply op_wp_mono; [|exact H]. intros r a'. by apply IH.
Qed.

Lemma wp_call o Q a : op_wp o Q a -> wp (call o) Q a.
Proof. intros H. exact H. Qed.

Lemma wp_ret {A} (x : A) Q a : Q (Ok x) a -> wp (mret x) Q a.
Proof. intros H. exact H. Qed.

Lemma wp_ignore {A} (p : prog A) Q a :
  wp p (fun r a' => match r with Stuck => Q Stuck a' | _ => Q (Ok tt) a' end) a -> wp (ignore p) Q a.
Proof.
  intros H. apply wp_bind, wp_status. eapply wp_mono; [|exact H]. by intros [] a'.
Qed.

(** A step that can only succeed never runs its cleanup. *)
Lemma wp_on_error {A} (p : prog A) c Q a :
  wp p (fun r a' => match r with Err e => wp c (then_wp (fun _ => throw e) Q) a' | _ => Q r a' end) a ->
  wp (on_error p c) Q a.
Proof.
  intros H. apply wp_bind, wp_status. eapply wp_mono; [|exact H]. intros [x|e|] a' Hr; simpl; try done.
  by apply wp_bind.
Qed.

(** Locking has no effect of its own. *)
Lemma wp_locked {A} (p : prog A) Q a : wp p Q a -> wp (locked p) Q a.
Proof. intros H. apply (wp_bind (status p)), wp_status. eapply wp_mono; [|exact H]. by intros []. Qed.

End wp.

(** Bring the statement of a step's outcome into head normal form. *)
Ltac wp_simpl := unfold then_wp; cbv beta iota zeta.

(** Only the pieces of the abstract state that are shared with [world]. *)
Definition state_rel {P C} (w : world P C) (a : astate) : Prop :=
  w_caller w = a_caller a /\ w_files w = a_files a /\ w_dirs w = a_dirs a.

(** ** What a block driver promises *)

Class DriverSpec (P C : Type) `{!Platform P} `{!PlatformSpec P} `{!BlockDriver P C} := {
  (** the mounted world holds the logical disk *)
  drv_rep : mofs_ctx_t -> Z -> (Z -> list byte) -> world P C -> Prop;
  (** block accesses left before the driver's access counter is exhausted *)
  drv_left : world P C -> Z;
  drv_is_cached : bool;
  drv_rep_plat : forall cx nblk v w, drv_rep cx nblk v w -> p_ok (w_plat w);
  drv_rep_len : forall cx nblk v w b, drv_rep cx nblk v w -> 0 <= b < nblk -> blen (v b) = blk_size (sp_blk cx);
  (** only the contents of the volume's blocks matter *)
  drv_rep_ext : forall cx nblk v v' w, drv_rep cx nblk v w ->
    (forall b, 0 <= b < nblk -> v' b = v b) -> drv_rep cx nblk v' w;
  (** steps outside the block layer *)
  drv_rep_frame : forall cx nblk v w p' u fs ds e, drv_rep cx nblk v w ->
    p_ok p' -> p_dev p' = p_dev (w_plat w) ->
    drv_rep cx nblk v (mkWorld p' u (w_ctx w) (w_cache w) fs ds e) /\
    drv_left (mkWorld p' u (w_ctx w) (w_cache w) fs ds e) = drv_left w;
  drv_read_ok : forall cx nblk v w buf n s,
    drv_rep cx nblk v w -> 0 <= s -> 0 <= n -> s + n <= nblk -> n * blk_size (sp_blk cx) <= blen buf ->
    n < drv_left w -> exists w',
    drv_read (dev_fd cx) buf n s w = (w', Ok (n, 0, bsplice 0 (blocks_at v s (Z.to_nat n)) buf)) /\
    drv_rep cx nblk v w' /\ same_frame w w' /\ drv_left w - n <= drv_left w';
  drv_write_ok : forall cx nblk v w buf n s,
    drv_rep cx nblk v w -> 0 <= s -> 0 <= n -> s + n <= nblk -> n * blk_size (sp_blk cx) <= blen buf ->
    n < drv_left w -> exists w',
    drv_write (dev_fd cx) buf n s w = (w', Ok (n, 0)) /\
    drv_rep cx nblk (upd_blocks (blk_size (sp_blk cx)) buf s 0 (Z.to_nat n) v) w' /\ same_frame w w' /\
    drv_left w - n <= drv_left w';
  drv_modify_ok : forall cx nblk v w b off patch,
    drv_is_cached = true ->
    drv_rep cx nblk v w -> 0 <= b < nblk -> 0 <= off -> 0 < blen patch -> off + blen patch <= blk_size (sp_blk cx) ->
    1 < drv_left w -> exists w',
    drv_modify b off patch w = (w', Ok tt) /\ drv_rep cx nblk (upd v b (bsplice off patch (v b))) w' /\
    same_frame w w' /\ drv_left w - 1 <= drv_left w';
  drv_modify_stub : forall w b off patch,
    drv_is_cached = false -> drv_modify b off patch w = (w, Err MOFS_EINVAL);
  drv_invalidate_ok : forall cx nblk v w b,
    drv_rep cx nblk v w -> 0 <= b < nblk -> exists w' x,
    drv_invalidate b w = (w', Ok tt) /\ blen x = blk_size (sp_blk cx) /\ drv_rep cx nblk (upd v b x) w' /\
    same_frame w w' /\ drv_left w <= drv_left w';
  drv_flush_ok : forall cx nblk v w,
    drv_rep cx nblk v w -> exists w',
    drv_flush w = (w', Ok tt) /\ drv_rep cx nblk v w' /\ same_frame w w' /\ drv_left w <= drv_left w'
}.

(** ** Adequacy *)

Section adequacy.
Context {P C : Type} `{!Platform P} `{!PlatformSpec P} `{!BlockDriver P C} `{!DriverSpec P C}.
Context (cx : mofs_ctx_t) (nblk : Z).

(** The mounted world [w] implements the abstract state [a]. *)
Record rep (w : world P C) (a : astate) : Prop := {
  rep_disk : drv_rep cx nblk (a_disk a) w;
  rep_state : state_rel w a;
  rep_cached : a_cached a = drv_is_cached
}.

Lemma rep_block w a w' v' :
  rep w a -> drv_rep cx nblk v' w' -> same_frame w w' -> rep w' (set_disk v' a).
Proof.
  intros [_ (H1 & H2 & H3) Hc] Hd (F1 & F2 & F3 & F4 & F5).
  split; [done| |done]. unfold state_rel in *. simpl. split_and!; congruence.
Qed.

Lemma rep_plat w a p' :
  rep w a -> p_ok p' -> p_dev p' = p_dev (w_plat w) -> rep (set_plat p' w) a /\ drv_left (set_plat p' w) = drv_left w.
Proof.
  intros [Hd Hs Hc] Hok Hdev.
  destruct (drv_rep_frame cx nblk (a_disk a) w p' (w_caller w) (w_files w) (w_dirs w) (w_errno w)) as [H1 H2]; try done.
Qed.

Lemma set_disk_id a : set_disk (a_disk a) a = a.
Proof. by destruct a. Qed.

(** One service call. *)
Lemma same_frame_errno (w w' : world P C) : same_frame w w' -> w_errno w' = w_errno w.
Proof. by intros (_ & _ & _ & _ & H). Qed.

Lemma handle_ok (o : op) Q w a :
  op_wp cx nblk o Q a -> rep w a -> op_cost o < drv_left w -> exists w' r a',
  handle o w = (w', r) /\ Q r a' /\ rep w' a' /\ drv_left w - op_cost o <= drv_left w' /\ w_errno w' = w_errno w.
Proof.
  intros Hwp Hr Hl. pose proof Hr as [Hd (S1 & S2 & S3) Hc].
  pose proof (drv_rep_plat _ _ _ _ Hd) as Hok.
  destruct o; cbn [handle op_wp op_cost] in *.
  - destruct Hwp as (-> & H1 & H2 & H3 & H4 & HQ). rewrite Z.max_r in * by lia.
    destruct (drv_read_ok cx nblk _ w buf req_blk_num start_blk_num Hd) as (w' & E & R & F & L); try done.
    eexists w', _, _. split_and!; [exact E|exact HQ| |done|by apply same_frame_errno]. rewrite <- (set_disk_id a). by eapply rep_block.
  - destruct Hwp as (-> & H1 & H2 & H3 & H4 & HQ). rewrite Z.max_r in * by lia.
    destruct (drv_write_ok cx nblk _ w buf req_blk_num start_blk_num Hd) as (w' & E & R & F & L); try done.
    eexists w', _, _. split_and!; [exact E|exact HQ| |done|by apply same_frame_errno]. by eapply rep_block.
  - rewrite Hc in Hwp. destruct drv_is_cached eqn:Hic.
    + destruct Hwp as (H1 & H2 & H3 & H4 & HQ).
      destruct (drv_modify_ok cx nblk _ w blk byte_off patch Hic Hd) as (w' & E & R & F & L); try done.
      eexists w', _, _. split_and!; [exact E|exact HQ| |done|by apply same_frame_errno]. by eapply rep_block.
    + eexists w, _, a. split_and!; [by apply drv_modify_stub|exact Hwp|done|lia|done].
  - destruct Hwp as (H1 & HQ).
    destruct (drv_invalidate_ok cx nblk _ w blk Hd H1) as (w' & x & E & Hx & R & F & L).
    eexists w', _, _. split_and!; [exact E|by apply HQ| |lia|by apply same_frame_errno]. by eapply rep_block.
  - destruct (drv_flush_ok cx nblk _ w Hd) as (w' & E & R & F & L).
    eexists w', _, _. split_and!; [exact E|exact Hwp| |lia|by apply same_frame_errno]. rewrite <- (set_disk_id a). by eapply rep_block.
  - destruct Hwp as (H1 & HQ).
    destruct (malloc_ok w n Hok H1) as (p' & b & E & Hb & Hok' & Hdev & _).
    destruct (rep_plat w a p' Hr Hok' Hdev) as [R L].
    eexists _, _, a. split_and!; [exact E|by apply HQ|done|lia|done].
  - destruct (p_time (w_plat w) Hok) as (p' & t & E & Ht & Hok' & Hdev & _).
    destruct (rep_plat w a p' Hr Hok' Hdev) as [R L].
    eexists (set_plat p' w), (Ok t), a. split; [by apply plat_eq|]. split; [by apply Hwp|]. split; [done|]. split; [lia|done].
  - destruct Hwp as (H1 & HQ). eexists w, _, a. split_and!; [|exact HQ|done|lia|done].
    unfold mofs_get_caller_user. erewrite M_bind_ok by reflexivity. rewrite S1.
    rewrite (plat_eq _ _ _ _ (p_user _ _ H1)). by destruct w.
  - eexists w, _, a. split_and!; [reflexivity|by rewrite S2|done|lia|done].
  - destruct (drv_rep_frame cx nblk (a_disk a) w (w_plat w) (w_caller w) fs (w_dirs w) (w_errno w)) as [R L]; try done.
    eexists _, _, _. split_and!; [reflexivity|exact Hwp|by split| |done]. unfold set_files. lia.
  - eexists w, _, a. split_and!; [reflexivity|by rewrite S3|done|lia|done].
  - destruct (drv_rep_frame cx nblk (a_disk a) w (w_plat w) (w_caller w) (w_files w) ds (w_errno w)) as [R L]; try done.
    eexists _, _, _. split_and!; [reflexivity|exact Hwp|by split| |done]. unfold set_dirs. lia.
  - eexists w, _, a. split_and!; [reflexivity|exact Hwp|done|lia|done].
  - eexists w, _, a. split_and!; [reflexivity|exact Hwp|done|lia|done].
Qed.

(** Whatever [wp] establishes on the abstract disk, the real run delivers. *)
Lemma interp_ok {A} (p : prog A) Q : forall w a,
  wp cx nblk p Q a -> rep w a -> run_cost p w < drv_left w -> exists w' r a',
  interp p w = (w', r) /\ Q r a' /\ rep w' a' /\ drv_left w - run_cost p w <= drv_left w' /\ w_errno w' = w_errno w.
Proof.
  induction p as [r|o k IH]; intros w a Hwp Hr Hl; cbn [interp run_cost wp] in *.
  { exists w, r, a. split_and!; [done|done|done|lia|done]. }
  assert (Hcost : op_cost o < drv_left w).
  { destruct (handle o w) as [w1 r1]. pose proof (run_cost_nonneg (k r1) w1). lia. }
  destruct (handle_ok o _ w a Hwp Hr Hcost) as (w1 & r1 & a1 & E1 & H1 & R1 & L1 & X1). rewrite E1 in *.
  destruct (IH r1 w1 a1 H1 R1) as (w' & r & a' & E & HQ & R & L & X); [lia|].
  exists w', r, a'. split_and!; [done|done|done|lia|congruence].
Qed.

End adequacy.

(** ** The two drivers *)

#[global] Instance cached_spec {P} `{!Platform P} `{!PlatformSpec P} : DriverSpec P bcache.
Proof.
  refine {| drv_rep := cache_rep; drv_left := fun w => MOFS_UINT64_MAX - tick_of w; drv_is_cached := true |}.
  - intros cx nblk v w. apply cr_plat.
  - intros cx nblk v w b. apply cache_rep_len.
  - intros cx nblk v v' w. apply cache_rep_ext.
  - intros cx nblk v w p' u fs ds e Hr Hok Hdev. split; [|done].
    pose proof (cache_rep_plat _ _ _ _ p' Hr Hok Hdev) as []. by split.
  - intros cx nblk v w buf n s Hr H1 H2 H3 H4 H5.
    destruct (bcache_read_ok cx nblk v w buf n s Hr) as (w' & E & R & F & T); try done; [lia|].
    exists w'. split_and!; try done. lia.
  - intros cx nblk v w buf n s Hr H1 H2 H3 H4 H5.
    destruct (bcache_write_ok cx nblk v w buf n s Hr) as (w' & E & R & F & T); try done; [lia|].
    exists w'. split_and!; try done. lia.
  - intros cx nblk v w b off patch _ Hr H1 H2 H3 H4 H5.
    destruct (bcache_modify_ok cx nblk v w b off patch Hr) as (w' & E & R & F & T); try done; [lia|].
    exists w'. split_and!; try done. lia.
  - done.
  - intros cx nblk v w b Hr Hb. destruct (bcache_invalidate_ok cx nblk v w b Hr Hb) as (w' & E & R & F & T).
    exists w', (dev_block w b). split_and!; try done; [|lia].
    pose proof (cache_rep_len _ _ _ _ b R Hb) as Hl. by rewrite upd_eq in Hl.
  - intros cx nblk v w Hr. destruct (bcache_flush_ok cx nblk v w Hr) as (w' & E & R & F & T & _).
    exists w'. split_and!; try done. lia.
Defined.

(** The disk after a multi-block write, block by block. *)
Lemma upd_blocks_lookup nb buf s n : forall i v c,
  upd_blocks nb buf s i n v c =
  if bool_decide (s + i <= c < s + i + Z.of_nat n) then bslice ((c - s) * nb) nb buf else v c.
Proof.
  induction n as [|n IH]; intros i v c; cbn [upd_blocks].
  { by rewrite bool_decide_eq_false_2 by lia. }
  rewrite IH. destruct (decide (c = s + i)) as [->|Hne].
  - rewrite bool_decide_eq_false_2, bool_decide_eq_true_2, upd_eq by lia. f_equal; nia.
  - rewrite upd_ne by done. do 2 case_bool_decide; try lia; done.
Qed.

Lemma upd_blocks_1 nb buf s v c :
  upd_blocks nb buf s 0 1 v c = upd v s (bslice 0 nb buf) c.
Proof. cbn. by rewrite Z.add_0_r. Qed.

(** Without a cache the logical disk is the device. *)
Record raw_rep {P} `{!Platform P} `{!PlatformSpec P} (cx : mofs_ctx_t) (nblk : Z) (v : Z -> list byte) (w : world P unit) : Prop := {
  rr_ctx : w_ctx w = cx;
  rr_fd : dev_fd cx = p_fd;
  rr_nb : 0 < blk_size (sp_blk cx) <= 65536;
  rr_nblk : 0 <= nblk <= 2 ^ 32;
  rr_plat : p_ok (w_plat w);
  rr_dev : nblk * blk_size (sp_blk cx) <= blen (p_dev (w_plat w));
  rr_blocks : forall b, 0 <= b < nblk -> dev_block w b = v b
}.

Section raw_driver.
Context {P : Type} `{!Platform P} `{!PlatformSpec P}.

Lemma raw_rep_sz cx nblk v (w : world P unit) : raw_rep cx nblk v w -> mofs_io_blk_sz w = blk_size (sp_blk cx).
Proof. intros H. unfold mofs_io_blk_sz. by rewrite (rr_ctx _ _ _ _ H). Qed.

(** Contiguous device bytes are the concatenation of the blocks. *)
Lemma dev_blocks_at cx nblk v (w : world P unit) n : forall s,
  raw_rep cx nblk v w -> 0 <= s -> s + Z.of_nat n <= nblk ->
  bslice (s * blk_size (sp_blk cx)) (Z.of_nat n * blk_size (sp_blk cx)) (p_dev (w_plat w)) = blocks_at v s n.
Proof.
  induction n as [|n IH]; intros s Hr Hs Hn; [done|]. pose proof (rr_nb _ _ _ _ Hr).
  rewrite blocks_at_S, <- (rr_blocks _ _ _ _ Hr s), <- IH by (try done; lia).
  unfold dev_block. rewrite (raw_rep_sz _ _ _ _ Hr).
  replace (Z.of_nat (S n) * blk_size (sp_blk cx)) with (blk_size (sp_blk cx) + Z.of_nat n * blk_size (sp_blk cx)) by nia.
  rewrite bslice_add by nia. do 2 f_equal; nia.
Qed.

Lemma raw_write_rep cx nblk v (w : world P unit) p' buf n s :
  raw_rep cx nblk v w -> 0 <= s -> 0 <= n -> s + n <= nblk -> n * blk_size (sp_blk cx) <= blen buf ->
  p_ok p' -> p_dev p' = bsplice (s * blk_size (sp_blk cx)) (bslice 0 (n * blk_size (sp_blk cx)) buf) (p_dev (w_plat w)) ->
  raw_rep cx nblk (upd_blocks (blk_size (sp_blk cx)) buf s 0 (Z.to_nat n) v) (set_plat p' w).
Proof.
  intros Hr Hs Hn Hsn Hbuf Hok Hdev. pose proof (raw_rep_sz _ _ _ _ Hr) as Hsz.
  destruct Hr as [Hcx Hfd Hnb Hnblk Hplat Hd Hb].
  set (nb := blk_size (sp_blk cx)) in *.
  assert (Hl : blen (bslice 0 (n * nb) buf) = n * nb) by (rewrite length_bslice; nia).
  split; try done; fold nb.
  - simpl. rewrite Hdev, length_bsplice; nia.
  - intros b Hbr. rewrite upd_blocks_lookup. unfold dev_block.
    change (mofs_io_blk_sz (set_plat p' w)) with (mofs_io_blk_sz w). rewrite Hsz. simpl. rewrite Hdev.
    case_bool_decide as Hin.
    + rewrite Z2Nat.id in Hin by lia. rewrite bslice_bsplice_in, bslice_bslice by nia. f_equal; nia.
    + rewrite bslice_bsplice_other by nia. rewrite <- Hb by done. unfold dev_block. by rewrite Hsz.
Qed.

#[global] Instance uncached_spec : DriverSpec P unit.
Proof.
  refine {| drv_rep := raw_rep; drv_left := fun _ => MOFS_UINT64_MAX; drv_is_cached := false |}.
  - intros cx nblk v w. apply rr_plat.
  - intros cx nblk v w b Hr Hb. rewrite <- (rr_blocks _ _ _ _ Hr b Hb). unfold dev_block.
    rewrite (raw_rep_sz _ _ _ _ Hr). destruct Hr. rewrite length_bslice; nia.
  - intros cx nblk v v' w [] Hv. split; try done. intros b Hb. rewrite Hv by done. eauto.
  - intros cx nblk v w p' u fs ds e [Hcx Hfd Hnb Hnblk Hplat Hd Hb] Hok Hdev. split; [|done].
    split; try done; simpl; [by rewrite Hdev|]. intros b Hbr. rewrite <- Hb by done.
    unfold dev_block. simpl. by rewrite Hdev.
  - intros cx nblk v w buf n s Hr H1 H2 H3 H4 H5. pose proof (raw_rep_sz _ _ _ _ Hr) as Hsz.
    pose proof Hr as [Hcx Hfd Hnb Hnblk Hplat Hd Hb].
    destruct (raw_read_ok w (dev_fd cx) buf n s) as (p' & E & Hok & Hdev); rewrite ?Hsz; try done; try nia.
    exists (set_plat p' w). split_and!; try done; [|..|lia].
    + simpl. rewrite E, Hsz. rewrite <- (dev_blocks_at cx nblk v w (Z.to_nat n) s) by (try done; lia).
      by rewrite Z2Nat.id by lia.
    + split; try done; simpl; [by rewrite Hdev|]. intros b Hbr. rewrite <- Hb by done.
      unfold dev_block. simpl. by rewrite Hdev.
  - intros cx nblk v w buf n s Hr H1 H2 H3 H4 H5. pose proof (raw_rep_sz _ _ _ _ Hr) as Hsz.
    pose proof Hr as [Hcx Hfd Hnb Hnblk Hplat Hd Hb].
    destruct (raw_write_ok w (dev_fd cx) buf n s) as (p' & E & Hok & Hdev); rewrite ?Hsz; try done; try nia; try lia.
    exists (set_plat p' w). split_and!; try done; [|lia]. rewrite Hsz in Hdev. by apply raw_write_rep.
  - done.
  - done.
  - intros cx nblk v w b Hr Hb. exists w, (v b). split_and!; try done.
    + rewrite <- (rr_blocks _ _ _ _ Hr b Hb). unfold dev_block.
      rewrite (raw_rep_sz _ _ _ _ Hr). destruct Hr. rewrite length_bslice; nia.
    + destruct Hr. split; try done. intros c Hc. unfold upd. destruct (Z.eqb_spec c b) as [->|]; auto.
  - intros cx nblk v w Hr. by exists w.
Defined.

End raw_driver.
