(* ===== verification/Split.v ===== *)
(** * The split block cache (src/core/modules/mofs_buffer_split.c)

    The alternative cache: two pools with LRU replacement of their own, one for
    the blocks below the data region and one for the others, behind the same
    interface.  The pointers [pool] and [tick_ref] that the C functions pass
    around are the selector [m] here ([true]: [meta_pool] and [meta_tick]); the
    lengths of the two lists are [MOFS_META_CACHE_NUM] and
    [MOFS_DATA_CACHE_NUM].  As in [Buffer], the mutex is only its existence. *)

From Stdlib Require Import ZArith Lia.
From stdpp Require Import base list.
From S2P Require Import Prelude Types Platform Raw Buffer.

(** ** State *)

Record scache := mkSplit {
  meta_pool : list bcache_entry;
  meta_tick : Z;
  data_pool : list bcache_entry;
  data_tick : Z;
  split_ready : bool;
  split_mutex : bool
}.

Definition split_start (meta_num data_num : nat) : scache :=
  mkSplit (replicate meta_num zero_entry) 0 (replicate data_num zero_entry) 0 false false.

Definition sel_pool (m : bool) (c : scache) : list bcache_entry := if m then meta_pool c else data_pool c.
Definition sel_tick (m : bool) (c : scache) : Z := if m then meta_tick c else data_tick c.

Definition put_sel (m : bool) (pool : list bcache_entry) (tick : Z) (c : scache) : scache :=
  if m then mkSplit pool tick (data_pool c) (data_tick c) (split_ready c) (split_mutex c)
  else mkSplit (meta_pool c) (meta_tick c) pool tick (split_ready c) (split_mutex c).

Definition is_metadata_block (cx : mofs_ctx_t) (blk : Z) : bool := blk <? data_region_start (sp_blk cx).

Section split.
Context {P : Type} `{!Platform P}.
Abbreviation W := (world P scache).

Definition get_sel (m : bool) : M W (list bcache_entry) := gets (fun w => sel_pool m (w_cache w)).

Definition upd_sel (m : bool) (idx : nat) (f : bcache_entry -> bcache_entry) : M W unit :=
  modify (fun w => let c := w_cache w in set_cache (put_sel m (alter f idx (sel_pool m c)) (sel_tick m c) c) w).

(** ** Pool operations *)

Definition pool_touch (m : bool) (idx : nat) : M W unit :=
  modify (fun w => let c := w_cache w in
    let t := u64 (sel_tick m c + 1) in
    set_cache (put_sel m (alter (set_tick t) idx (sel_pool m c)) t c) w).

Definition pool_find (pool : list bcache_entry) (blk : Z) : option nat :=
  find_idx (fun e => valid e && (blk_num e =? blk)) pool.

Definition pool_flush_entry (m : bool) (idx : nat) : M W unit :=
  pool ← get_sel m;
  fd ← gets (fun w => dev_fd (w_ctx w));
  let e := entry_at pool idx in
  '(written_blk_num, fraction) ← write_continuous_blocks_raw fd (data e) 1 (blk_num e);
  if negb (written_blk_num =? 1) || negb (fraction =? 0) then fail MOFS_EIO else
  upd_sel m idx (fun e => set_flags (valid e) false e).

(** The selection of [pool_get_victim] is the one of [bcache_get_victim]. *)
Definition pool_get_victim (m : bool) : M W nat :=
  pool ← get_sel m;
  match victim_slot pool with
  | None => fail MOFS_EIO
  | Some idx =>
      let e := entry_at pool idx in
      (if valid e && dirty e then pool_flush_entry m idx else mret tt);;
      upd_sel m idx (set_flags false false);;
      mret idx
  end.

Fixpoint pool_alloc_data (n : nat) (blk_sz : Z) : M W (list (list byte)) :=
  match n with
  | O => mret []
  | S n' => d ← mofs_malloc blk_sz; ds ← pool_alloc_data n' blk_sz; mret (d :: ds)
  end.

Definition pool_alloc (m : bool) (blk_sz : Z) : M W unit :=
  num ← gets (fun w => length (sel_pool m (w_cache w)));
  modify (fun w => let c := w_cache w in set_cache (put_sel m (replicate num zero_entry) (sel_tick m c) c) w);;
  ds ← pool_alloc_data num blk_sz;
  modify (fun w => let c := w_cache w in
    set_cache (put_sel m ((fun d => mkEntry false false 0 0 d) <$> ds) (sel_tick m c) c) w).

Definition pool_free (m : bool) : M W unit :=
  modify (fun w => let c := w_cache w in
    set_cache (put_sel m ((fun e => set_data [] (set_flags false false e)) <$> sel_pool m c) (sel_tick m c) c) w).

Fixpoint pool_flush_loop (m : bool) (n i : nat) : M W unit :=
  match n with
  | O => mret tt
  | S n' =>
      pool ← get_sel m;
      let e := entry_at pool i in
      (if valid e && dirty e then pool_flush_entry m i else mret tt);;
      pool_flush_loop m n' (S i)
  end.

Definition pool_flush_all (m : bool) : M W unit :=
  pool ← get_sel m; pool_flush_loop m (length pool) 0.

Definition pool_load_block (m : bool) (blk : Z) : M W nat :=
  idx ← pool_get_victim m;
  fd ← gets (fun w => dev_fd (w_ctx w));
  pool ← get_sel m;
  '(read_one, frac, d) ← read_continuous_blocks_raw fd (data (entry_at pool idx)) 1 blk;
  upd_sel m idx (set_data d);;
  if negb (read_one =? 1) || negb (frac =? 0) then fail MOFS_EIO else
  upd_sel m idx (fun e => set_flags true false (set_blk blk e));;
  mret idx.

(** ** Operations *)

Definition split_bcache_init : M W unit :=
  blk_sz ← gets mofs_io_blk_sz;
  if blk_sz =? 0 then fail MOFS_EINVAL else
  c ← gets w_cache;
  (if split_mutex c then mret tt else
     mofs_mutex_init;;
     modify (fun w => let c := w_cache w in
       set_cache (mkSplit (meta_pool c) (meta_tick c) (data_pool c) (data_tick c) (split_ready c) true) w));;
  if split_ready c then mret tt else
  pool_alloc true blk_sz;;
  r ← attempt (pool_alloc false blk_sz);
  match r with
  | Ok _ => modify (fun w => let c := w_cache w in set_cache (mkSplit (meta_pool c) 0 (data_pool c) 0 true (split_mutex c)) w)
  | Err e => pool_free true;; fail e
  | Stuck => fun w => (w, Stuck)
  end.

Definition split_bcache_fini : M W unit :=
  c ← gets w_cache;
  if negb (split_mutex c) then mret tt else
  pool_free true;;
  pool_free false;;
  modify (fun w => let c := w_cache w in
    set_cache (mkSplit (meta_pool c) (meta_tick c) (data_pool c) (data_tick c) false false) w).

(** The loop of [mofs_bcache_read_blocks]; the pool is chosen per block. *)
Fixpoint split_read_loop (blk_bytes start_blk_num : Z) (n : nat) (i : Z) (buf : list byte) : M W (Z * Z * list byte) :=
  match n with
  | O => mret (i, 0, buf)
  | S n' =>
      let blk := u32 (start_blk_num + i) in
      m ← gets (fun w => is_metadata_block (w_ctx w) blk);
      pool ← get_sel m;
      match pool_find pool blk with
      | Some idx =>
          let buf := bsplice (i * blk_bytes) (bslice 0 blk_bytes (data (entry_at pool idx))) buf in
          pool_touch m idx;;
          split_read_loop blk_bytes start_blk_num n' (i + 1) buf
      | None =>
          victim ← pool_get_victim m;
          fd ← gets (fun w => dev_fd (w_ctx w));
          pool ← get_sel m;
          '(read_one, frac, d) ← read_continuous_blocks_raw fd (data (entry_at pool victim)) 1 blk;
          upd_sel m victim (set_data d);;
          if negb (frac =? 0) then mret (i, frac, bsplice (i * blk_bytes) (bslice 0 frac d) buf) else
          if negb (read_one =? 1) then fail MOFS_EIO else
          upd_sel m victim (fun e => set_flags true false (set_blk blk e));;
          pool_touch m victim;;
          split_read_loop blk_bytes start_blk_num n' (i + 1)
            (bsplice (i * blk_bytes) (bslice 0 blk_bytes d) buf)
      end
  end.

Definition split_bcache_read_blocks (fd : Z) (buf : list byte) (req_blk_num start_blk_num : Z) : M W (Z * Z * list byte) :=
  blk_bytes ← gets mofs_io_blk_sz;
  if fd <? 0 then fail MOFS_EINVAL else
  if blk_bytes =? 0 then fail MOFS_EINVAL else
  ready ← gets (fun w => split_ready (w_cache w));
  if negb ready then read_continuous_blocks_raw fd buf req_blk_num start_blk_num else
  split_read_loop blk_bytes start_blk_num (Z.to_nat req_blk_num) 0 buf.

Fixpoint split_write_loop (blk_bytes start_blk_num : Z) (n : nat) (i : Z) (buf : list byte) : M W (Z * Z) :=
  match n with
  | O => mret (i, 0)
  | S n' =>
      let blk := u32 (start_blk_num + i) in
      m ← gets (fun w => is_metadata_block (w_ctx w) blk);
      pool ← get_sel m;
      idx ← match pool_find pool blk with
            | Some idx => mret idx
            | None =>
                idx ← pool_get_victim m;
                upd_sel m idx (fun e => set_flags true (dirty e) (set_blk blk e));;
                mret idx
            end;
      upd_sel m idx (fun e => set_data (bsplice 0 (bslice (i * blk_bytes) blk_bytes buf) (data e)) e);;
      upd_sel m idx (fun e => set_flags (valid e) true e);;
      pool_touch m idx;;
      split_write_loop blk_bytes start_blk_num n' (i + 1) buf
  end.

Definition split_bcache_write_blocks (fd : Z) (buf : list byte) (req_blk_num start_blk_num : Z) : M W (Z * Z) :=
  blk_bytes ← gets mofs_io_blk_sz;
  if fd <? 0 then fail MOFS_EINVAL else
  if blk_bytes =? 0 then fail MOFS_EINVAL else
  ready ← gets (fun w => split_ready (w_cache w));
  if negb ready then write_continuous_blocks_raw fd buf req_blk_num start_blk_num else
  split_write_loop blk_bytes start_blk_num (Z.to_nat req_blk_num) 0 buf.

Definition split_bcache_modify_block (blk : Z) (byte_off : Z) (patch : list byte) : M W unit :=
  blk_bytes ← gets mofs_io_blk_sz;
  m ← gets (fun w => is_metadata_block (w_ctx w) blk);
  let patch_len := blen patch in
  if (patch_len =? 0) || (blk_bytes =? 0) then fail MOFS_EINVAL else
  ready ← gets (fun w => split_ready (w_cache w));
  if negb ready then fail MOFS_EINVAL else
  if (blk_bytes <? byte_off) || (blk_bytes <? patch_len) || (blk_bytes <? u32 (byte_off + patch_len))
  then fail MOFS_EINVAL else
  pool ← get_sel m;
  idx ← match pool_find pool blk with
        | Some idx => mret idx
        | None => pool_load_block m blk
        end;
  upd_sel m idx (fun e => set_data (bsplice byte_off patch (data e)) e);;
  upd_sel m idx (fun e => set_flags (valid e) true e);;
  pool_touch m idx.

Definition split_bcache_flush : M W unit :=
  ready ← gets (fun w => split_ready (w_cache w));
  if negb ready then mret tt else
  pool_flush_all true;;
  pool_flush_all false;;
  fd ← gets (fun w => dev_fd (w_ctx w));
  dev_fsync fd.

(** Only the data pool is searched. *)
Definition split_bcache_invalidate (blk : Z) : M W unit :=
  ready ← gets (fun w => split_ready (w_cache w));
  if negb ready then mret tt else
  pool ← get_sel false;
  match pool_find pool blk with
  | Some idx => upd_sel false idx (set_flags false false)
  | None => mret tt
  end.

End split.
