(* ===== verification/SplitSpec.v ===== *)
(** * Correctness of the split cache

    Each pool of the split cache behaves as the unified cache of [Buffer] does
    on the blocks that are routed to it.  [view m w] is the world in which the
    selected pool is the whole cache; every pool operation of the split cache is
    the unified one run on that view ([sim]), so the lemmas of [BufferSpec]
    carry over.  The result is a third block driver for the core. *)

From Stdlib Require Import ZArith Lia.
From stdpp Require Import base list list_numbers.
From S2P Require Import Prelude Types Platform Raw Buffer BufferSpec Ops Split.

Create HintDb sim.
Create HintDb keeps.

Section split.
Context {P : Type} `{!Platform P}.
Abbreviation U := (world P bcache).
Abbreviation W := (world P scache).

(** ** Views *)

Definition view (m : bool) (w : W) : U :=
  let c := w_cache w in
  mkWorld (w_plat w) (w_caller w) (w_ctx w) (mkCache (sel_pool m c) (split_ready c) (sel_tick m c) (split_mutex c))
          (w_files w) (w_dirs w) (w_errno w).

(** The world [w] with everything but the other pool taken from [u]. *)
Definition back (m : bool) (w : W) (u : U) : W :=
  let c := w_cache w in
  let d := w_cache u in
  let s := mkSplit (meta_pool c) (meta_tick c) (data_pool c) (data_tick c) (bcache_ready d) (bcache_mutex d) in
  mkWorld (w_plat u) (w_caller u) (w_ctx u) (put_sel m (bcache_pool d) (bcache_tick d) s) (w_files u) (w_dirs u) (w_errno u).

Lemma view_back m w u : view m (back m w u) = u.
Proof. by destruct u as [? ? ? [] ? ? ?], m. Qed.

Lemma back_back m w u u' : back m (back m w u) u' = back m w u'.
Proof. by destruct m. Qed.

Lemma back_view m w : back m w (view m w) = w.
Proof. by destruct w as [? ? ? [] ? ? ?], m. Qed.

(** [q] does on the split cache what [p] does on the view. *)
Definition sim {A} (m : bool) (p : M U A) (q : M W A) : Prop :=
  forall w, q w = (back m w (fst (p (view m w))), snd (p (view m w))).

Lemma sim_bind {A B} m (p : M U A) (q : M W A) (k : A -> M U B) (l : A -> M W B) :
  sim m p q -> (forall x, sim m (k x) (l x)) -> sim m (p ≫= k) (q ≫= l).
Proof.
  intros Hp Hk w. unfold mbind, M_bind. rewrite (Hp w). destruct (p (view m w)) as [u [x|e|]]; simpl; try done.
  rewrite (Hk x), view_back, back_back. done.
Qed.

Lemma sim_ret {A} m (x : A) : sim m (mret x) (mret x).
Proof. intros w. simpl. by rewrite back_view. Qed.

Lemma sim_fail {A} m e : sim m (@fail U A e) (@fail W A e).
Proof. intros w. simpl. by rewrite back_view. Qed.

Lemma sim_gets {A} m (f : U -> A) (g : W -> A) : (forall w, f (view m w) = g w) -> sim m (gets f) (gets g).
Proof. intros H w. simpl. by rewrite back_view, H. Qed.

Lemma sim_modify m (f : U -> U) (g : W -> W) : (forall w, g w = back m w (f (view m w))) -> sim m (modify f) (modify g).
Proof. intros H w. unfold modify. simpl. by rewrite H. Qed.

Lemma sim_plat {A} m (f : M P A) : sim m (plat f) (plat f).
Proof.
  intros w. unfold plat. simpl. destruct (f (w_plat w)) as [p x]. simpl. by destruct w as [? ? ? [] ? ? ?], m.
Qed.

(** Decomposes both programs in parallel. *)
Ltac sim_step :=
  match goal with
  | |- sim _ (_ ≫= _) (_ ≫= _) => apply sim_bind; [|intros ?]
  | |- sim _ (mret _) (mret _) => apply sim_ret
  | |- sim _ (fail _) (fail _) => apply sim_fail
  | |- sim _ (gets _) (gets _) => apply sim_gets; intros ?; try reflexivity
  | |- sim _ (plat _) (plat _) => apply sim_plat
  | |- sim _ (match ?x with _ => _ end) _ => destruct x
  | |- _ => solve [eauto with sim]
  end.
Ltac sim_auto := repeat sim_step.

Lemma sim_raw_read m fd buf n s : sim m (read_continuous_blocks_raw fd buf n s) (read_continuous_blocks_raw fd buf n s).
Proof.
  assert (Hone : sim m (read_one_block fd) (read_one_block fd)) by (unfold read_one_block, dev_read; sim_auto).
  assert (Hloop : forall nb k i b, sim m (read_blocks_loop fd nb k i b) (read_blocks_loop fd nb k i b)).
  { intros nb k. induction k as [|k IH]; intros i b; cbn [read_blocks_loop]; sim_auto. }
  unfold read_continuous_blocks_raw, dev_lseek. sim_auto.
Qed.

Lemma sim_raw_write m fd buf n s : sim m (write_continuous_blocks_raw fd buf n s) (write_continuous_blocks_raw fd buf n s).
Proof.
  assert (Hone : forall b, sim m (write_one_block fd b) (write_one_block fd b)) by (intros b; unfold write_one_block, dev_write; sim_auto).
  assert (Hloop : forall nb k i b, sim m (write_blocks_loop fd nb k i b) (write_blocks_loop fd nb k i b)).
  { intros nb k. induction k as [|k IH]; intros i b; cbn [write_blocks_loop]; sim_auto. }
  unfold write_continuous_blocks_raw, dev_lseek. sim_auto.
Qed.
#[local] Hint Resolve sim_raw_read sim_raw_write : sim.

Lemma sim_get m : sim m get_pool (get_sel m).
Proof. by apply sim_gets. Qed.

Lemma sim_upd m idx f : sim m (upd_entry idx f) (upd_sel m idx f).
Proof. intros w. unfold upd_entry, upd_sel, put_pool, get_pool, modify, gets, mbind, M_bind. by destruct w as [? ? ? [] ? ? ?], m. Qed.

Lemma sim_touch m idx : sim m (bcache_touch idx) (pool_touch m idx).
Proof. apply sim_modify. intros w. by destruct w as [? ? ? [] ? ? ?], m. Qed.
#[local] Hint Resolve sim_get sim_upd sim_touch : sim.

Lemma sim_flush_entry m idx : sim m (bcache_flush_entry idx) (pool_flush_entry m idx).
Proof. unfold bcache_flush_entry, pool_flush_entry. sim_auto. Qed.
#[local] Hint Resolve sim_flush_entry : sim.

Lemma sim_victim m : sim m bcache_get_victim (pool_get_victim m).
Proof. unfold bcache_get_victim, pool_get_victim. sim_auto. Qed.
#[local] Hint Resolve sim_victim : sim.

Lemma sim_flush_loop m n : forall i, sim m (bcache_flush_loop n i) (pool_flush_loop m n i).
Proof. induction n as [|n IH]; intros i; cbn [bcache_flush_loop pool_flush_loop]; sim_auto. Qed.
#[local] Hint Resolve sim_flush_loop : sim.

Lemma sim_flush_all m : sim m (pool ← get_pool; bcache_flush_loop (length pool) 0) (pool_flush_all m).
Proof. unfold pool_flush_all. sim_auto. Qed.

(** ** One block of a transfer *)

(** The pool of a block. *)
Abbreviation route w b := (is_metadata_block (w_ctx w) b).

Lemma read_one_sim nb start i buf w :
  let m := route w (u32 (start + i)) in
  split_read_loop nb start 1 i buf w =
  (back m w (fst (bcache_read_loop nb start 1 i buf (view m w))), snd (bcache_read_loop nb start 1 i buf (view m w))).
Proof.
  intros m. cbn [split_read_loop bcache_read_loop]. erewrite M_bind_ok by reflexivity. fold m.
  generalize m as m'. clear m. intros m. revert w. change (forall w, ?q w = (back m w (fst (?p (view m w))), snd (?p (view m w)))) with (sim m p q).
  change pool_find with bcache_find. sim_auto.
Qed.

Lemma write_one_sim nb start i buf w :
  let m := route w (u32 (start + i)) in
  split_write_loop nb start 1 i buf w =
  (back m w (fst (bcache_write_loop nb start 1 i buf (view m w))), snd (bcache_write_loop nb start 1 i buf (view m w))).
Proof.
  intros m. cbn [split_write_loop bcache_write_loop]. erewrite M_bind_ok by reflexivity. fold m.
  generalize m as m'. clear m. intros m. revert w. change (forall w, ?q w = (back m w (fst (?p (view m w))), snd (?p (view m w)))) with (sim m p q).
  change pool_find with bcache_find. sim_auto.
Qed.

Lemma modify_sim b off patch w :
  let m := route w b in
  split_bcache_modify_block b off patch w =
  (back m w (fst (mofs_bcache_modify_block b off patch (view m w))), snd (mofs_bcache_modify_block b off patch (view m w))).
Proof.
  intros m. unfold split_bcache_modify_block, mofs_bcache_modify_block. do 2 erewrite M_bind_ok by reflexivity.
  rewrite (M_bind_ok (gets mofs_io_blk_sz) _ (view m w) (view m w) (mofs_io_blk_sz w)) by reflexivity.
  fold m. generalize (mofs_io_blk_sz w) as nb. generalize m as m'. clear m. intros m nb. revert w.
  change (forall w, ?q w = (back m w (fst (?p (view m w))), snd (?p (view m w)))) with (sim m p q).
  unfold pool_load_block. change pool_find with bcache_find. sim_auto.
Qed.

Lemma sim_invalidate b : sim false (mofs_bcache_invalidate b) (split_bcache_invalidate b).
Proof. unfold mofs_bcache_invalidate, split_bcache_invalidate. change pool_find with bcache_find. sim_auto. Qed.

(** ** Which blocks a pool holds *)

Definition holds (S : Z -> Prop) (pool : list bcache_entry) : Prop :=
  forall i e, pool !! i = Some e -> valid e = true -> S (blk_num e).

(** [p] brings no block outside [S] into the pool. *)
Definition keeps {A} (S : Z -> Prop) (p : M U A) : Prop := forall u, holds S (pool_of u) -> holds S (pool_of (fst (p u))).

Lemma keeps_bind {A B} S (p : M U A) (k : A -> M U B) : keeps S p -> (forall x, keeps S (k x)) -> keeps S (p ≫= k).
Proof.
  intros Hp Hk u Hu. unfold mbind, M_bind. specialize (Hp u Hu). destruct (p u) as [u' [x|e|]]; [by apply Hk|done|done].
Qed.

Lemma keeps_ret {A} S (x : A) : keeps S (mret x).
Proof. by intros u. Qed.

Lemma keeps_fail {A} S e : keeps S (@fail U A e).
Proof. by intros u. Qed.

Lemma keeps_gets {A} S (f : U -> A) : keeps S (gets f).
Proof. by intros u. Qed.

Lemma keeps_plat {A} S (f : M P A) : keeps S (plat f).
Proof. intros u Hu. unfold plat. by destruct (f (w_plat u)). Qed.

Lemma holds_alter (S : Z -> Prop) f i pool :
  holds S pool -> (forall e, (valid e = true -> S (blk_num e)) -> valid (f e) = true -> S (blk_num (f e))) -> holds S (alter f i pool).
Proof.
  intros H Hf j e Hj Hv. destruct (decide (j = i)) as [->|Hne].
  - rewrite list_lookup_alter_eq in Hj. apply fmap_Some in Hj as (e0 & He0 & ->). apply Hf; [|done]. intros Hv0. by apply (H i).
  - rewrite list_lookup_alter_ne in Hj by done. by apply (H j).
Qed.

Lemma keeps_upd (S : Z -> Prop) idx f :
  (forall e, (valid e = true -> S (blk_num e)) -> valid (f e) = true -> S (blk_num (f e))) -> keeps S (upd_entry idx f).
Proof. intros Hf u Hu. by apply holds_alter. Qed.

Lemma keeps_touch S idx : keeps S (bcache_touch idx).
Proof. intros u Hu. apply holds_alter; [done|]. auto. Qed.

Ltac keeps_step :=
  match goal with
  | |- keeps _ (_ ≫= _) => apply keeps_bind; [|intros ?]
  | |- keeps _ (mret _) => apply keeps_ret
  | |- keeps _ (fail _) => apply keeps_fail
  | |- keeps _ (gets _) => apply keeps_gets
  | |- keeps _ get_pool => apply keeps_gets
  | |- keeps _ (plat _) => apply keeps_plat
  | |- keeps _ (bcache_touch _) => apply keeps_touch
  | |- keeps _ (upd_entry _ _) => apply keeps_upd; simpl; solve [auto|discriminate]
  | |- keeps _ (match ?x with _ => _ end) => destruct x
  | |- _ => solve [eauto with keeps]
  end.
Ltac keeps_auto := repeat keeps_step.

Lemma keeps_raw_read S fd buf n s : keeps S (read_continuous_blocks_raw fd buf n s).
Proof.
  assert (Hloop : forall nb k i b, keeps S (read_blocks_loop fd nb k i b)).
  { intros nb k. induction k as [|k IH]; intros i b; cbn [read_blocks_loop]; unfold read_one_block, dev_read; keeps_auto. }
  unfold read_continuous_blocks_raw, dev_lseek. keeps_auto.
Qed.

Lemma keeps_raw_write S fd buf n s : keeps S (write_continuous_blocks_raw fd buf n s).
Proof.
  assert (Hloop : forall nb k i b, keeps S (write_blocks_loop fd nb k i b)).
  { intros nb k. induction k as [|k IH]; intros i b; cbn [write_blocks_loop]; unfold write_one_block, dev_write; keeps_auto. }
  unfold write_continuous_blocks_raw, dev_lseek. keeps_auto.
Qed.
#[local] Hint Resolve keeps_raw_read keeps_raw_write : keeps.

Lemma keeps_flush_entry S idx : keeps S (bcache_flush_entry idx).
Proof. unfold bcache_flush_entry. keeps_auto. Qed.
#[local] Hint Resolve keeps_flush_entry : keeps.

Lemma keeps_victim S : keeps S bcache_get_victim.
Proof. unfold bcache_get_victim. keeps_auto. Qed.
#[local] Hint Resolve keeps_victim : keeps.

Lemma keeps_flush_loop S n : forall i, keeps S (bcache_flush_loop n i).
Proof. induction n as [|n IH]; intros i; cbn [bcache_flush_loop]; keeps_auto. Qed.

Lemma keeps_read_one (S : Z -> Prop) nb start i buf : S (u32 (start + i)) -> keeps S (bcache_read_loop nb start 1 i buf).
Proof. intros HS. cbn [bcache_read_loop]. keeps_auto. Qed.

Lemma keeps_write_one (S : Z -> Prop) nb start i buf : S (u32 (start + i)) -> keeps S (bcache_write_loop nb start 1 i buf).
Proof. intros HS. cbn [bcache_write_loop]. keeps_auto. Qed.

Lemma keeps_modify (S : Z -> Prop) b off patch : S b -> keeps S (mofs_bcache_modify_block b off patch).
Proof. intros HS. unfold mofs_bcache_modify_block. keeps_auto. Qed.

Lemma keeps_invalidate S b : keeps S (mofs_bcache_invalidate b).
Proof. unfold mofs_bcache_invalidate. keeps_auto. Qed.

(** ** The split cache against a logical disk *)

Context `{!PlatformSpec P}.

(** The logical disk as one pool sees it: its own blocks, and the device for
    the blocks of the other pool. *)
Definition side (cx : mofs_ctx_t) (m : bool) (v dev : Z -> list byte) (b : Z) : list byte :=
  if Bool.eqb (is_metadata_block cx b) m then v b else dev b.

Record split_rep (cx : mofs_ctx_t) (nblk : Z) (v : Z -> list byte) (w : W) : Prop := {
  sr_side : forall m, cache_rep cx nblk (side cx m v (dev_block w)) (view m w);
  sr_route : forall m, holds (fun b => is_metadata_block cx b = m) (sel_pool m (w_cache w))
}.

Lemma split_rep_ext cx nblk v v' w : split_rep cx nblk v w -> (forall b, 0 <= b < nblk -> v' b = v b) -> split_rep cx nblk v' w.
Proof.
  intros [Hs Hr] Hv. split; [|done]. intros m. eapply cache_rep_ext; [apply Hs|].
  intros b Hb. unfold side. case_match; [by apply Hv|done].
Qed.

(** A change of the device below the blocks a pool does not hold. *)
Lemma cache_rep_device cx nblk v v' (u u' : U) :
  cache_rep cx nblk v u -> w_ctx u' = w_ctx u -> bcache_ready (w_cache u') = true -> bcache_mutex (w_cache u') = true ->
  pool_of u' = pool_of u -> tick_of u' = tick_of u ->
  p_ok (w_plat u') -> nblk * blk_size (sp_blk cx) <= blen (p_dev (w_plat u')) ->
  (forall b, 0 <= b < nblk -> uncached (pool_of u) b /\ v' b = dev_block u' b \/ dev_block u' b = dev_block u b /\ v' b = v b) ->
  cache_rep cx nblk v' u'.
Proof.
  intros [Hcx Hfd Hnb Hnblk Hplat Hdev Hready Hslots Htick [H1 H2 H3 H4] Hmutex] Hc Hr Hmx Hp Ht Hok Hlen Hb.
  split; try done; try congruence. rewrite Hp, Ht. split; try done.
  - intros i e Hi Hv. destruct (H3 i e Hi Hv) as (Hrg & Hd & Hdirty).
    destruct (Hb (blk_num e) Hrg) as [[Hu _]|[E1 E2]]; [by destruct (Hu i e)|]. by rewrite E1, E2.
  - intros b Hbr Hu. destruct (Hb b Hbr) as [[_ ->]|[E1 E2]]; [done|]. rewrite E1, E2. by apply H4.
Qed.

(** A pool operation that implements a change of the blocks of its pool. *)
Lemma split_rep_step cx nblk v w m u v1 :
  split_rep cx nblk v w -> cache_rep cx nblk v1 u -> same_frame (view m w) u ->
  holds (fun b => is_metadata_block cx b = m) (pool_of u) ->
  (forall b, 0 <= b < nblk -> is_metadata_block cx b <> m -> v1 b = dev_block w b) ->
  split_rep cx nblk (fun b => if Bool.eqb (is_metadata_block cx b) m then v1 b else v b) (back m w u) /\ same_frame w (back m w u).
Proof.
  intros [Hs Hrt] Hu Hf Hh Hoth. split; [|by destruct m].
  assert (Hdev : forall b, dev_block (back m w u) b = dev_block u b) by (intros b; by destruct m).
  assert (Hsame : forall b, 0 <= b < nblk -> is_metadata_block cx b <> m -> dev_block u b = dev_block w b).
  { intros b Hb Hne. rewrite <- (Hoth b Hb Hne). apply (po_miss _ _ _ _ _ _ (cr_pool _ _ _ _ Hu) b Hb).
    intros j e Hj Hv <-. by apply Hne, (Hh j e). }
  split.
  - intros m'. destruct (decide (m' = m)) as [->|Hne].
    + rewrite view_back. eapply cache_rep_ext; [exact Hu|]. intros b Hb. unfold side.
      destruct (Bool.eqb_spec (is_metadata_block cx b) m) as [_|Hne]; [done|]. by rewrite Hdev, Hsame, Hoth.
    + eapply (cache_rep_device cx nblk _ _ (view m' w)); [apply Hs|..].
      * destruct Hf as (_ & Hc & _). by destruct m.
      * pose proof (cr_ready _ _ _ _ Hu). by destruct m, m'.
      * pose proof (cr_mutex _ _ _ _ Hu). by destruct m, m'.
      * by destruct m, m'.
      * by destruct m, m'.
      * pose proof (cr_plat _ _ _ _ Hu). by destruct m, m'.
      * pose proof (cr_dev _ _ _ _ Hu). by destruct m, m'.
      * intros b Hb. change (dev_block (view m' ?x) b) with (dev_block x b). unfold side. rewrite !Hdev.
        destruct (Bool.eqb_spec (is_metadata_block cx b) m') as [He|He].
        -- right. split; [apply Hsame; [done|congruence]|]. rewrite (proj2 (Bool.eqb_false_iff _ _)) by congruence. done.
        -- left. split; [|done]. intros j e Hj Hv <-. apply He, (Hrt m' j e); [|done]. by destruct m'.
  - intros m'. destruct (decide (m' = m)) as [->|Hne].
    + by destruct m.
    + specialize (Hrt m'). by destruct m, m'.
Qed.

(** ** The operations *)

(** Accesses left before one of the two LRU clocks runs out. *)
Definition split_left (w : W) : Z := MOFS_UINT64_MAX - Z.max (meta_tick (w_cache w)) (data_tick (w_cache w)).

Lemma split_left_sel w m : split_left w <= MOFS_UINT64_MAX - tick_of (view m w).
Proof. unfold split_left, tick_of. destruct m; simpl; lia. Qed.

Lemma split_left_back w m u k : 0 <= k -> tick_of u <= tick_of (view m w) + k -> split_left w - k <= split_left (back m w u).
Proof. unfold split_left, tick_of. destruct m; simpl; lia. Qed.

Lemma side_own cx m v dev b : is_metadata_block cx b = m -> side cx m v dev b = v b.
Proof. intros <-. unfold side. by rewrite Bool.eqb_reflx. Qed.

Lemma side_other cx m v dev b : is_metadata_block cx b <> m -> side cx m v dev b = dev b.
Proof. intros Hne. unfold side. by rewrite (proj2 (Bool.eqb_false_iff _ _)). Qed.

Lemma split_ctx cx nblk v w : split_rep cx nblk v w -> w_ctx w = cx.
Proof. intros Hr. apply (cr_ctx _ _ _ _ (sr_side _ _ _ _ Hr true)). Qed.

(** A pool operation that leaves the logical disk alone. *)
Lemma split_rep_same cx nblk v w m u :
  split_rep cx nblk v w -> cache_rep cx nblk (side cx m v (dev_block w)) u -> same_frame (view m w) u ->
  holds (fun b => is_metadata_block cx b = m) (pool_of u) ->
  split_rep cx nblk v (back m w u) /\ same_frame w (back m w u).
Proof.
  intros Hr Hu Hf Hh. destruct (split_rep_step cx nblk v w m u _ Hr Hu Hf Hh) as [H1 H2].
  - intros b _ Hne. by apply side_other.
  - split; [|done]. eapply split_rep_ext; [exact H1|]. intros b _. simpl.
    destruct (Bool.eqb_spec (is_metadata_block cx b) m) as [He|]; [|done]. by rewrite side_own.
Qed.

(** A pool operation that rewrites one block of its pool. *)
Lemma split_rep_upd cx nblk v w m u b x :
  split_rep cx nblk v w -> is_metadata_block cx b = m ->
  cache_rep cx nblk (upd (side cx m v (dev_block w)) b x) u -> same_frame (view m w) u ->
  holds (fun b => is_metadata_block cx b = m) (pool_of u) ->
  split_rep cx nblk (upd v b x) (back m w u) /\ same_frame w (back m w u).
Proof.
  intros Hr Hb Hu Hf Hh. destruct (split_rep_step cx nblk v w m u _ Hr Hu Hf Hh) as [H1 H2].
  - intros c _ Hne. rewrite upd_ne by congruence. by apply side_other.
  - split; [|done]. eapply split_rep_ext; [exact H1|]. intros c _. simpl.
    destruct (Bool.eqb_spec (is_metadata_block cx c) m) as [He|Hne].
    + unfold upd. case_match; [done|]. by rewrite side_own.
    + rewrite upd_ne by congruence. done.
Qed.

Lemma split_read_step cx nblk v w start i buf :
  let nb := blk_size (sp_blk cx) in
  split_rep cx nblk v w -> 0 <= i -> 0 <= start -> start + i < nblk -> (i + 1) * nb <= blen buf -> 1 < split_left w -> exists w',
  split_read_loop nb start 1 i buf w = (w', Ok (i + 1, 0, bsplice (i * nb) (v (start + i)) buf)) /\
  split_rep cx nblk v w' /\ same_frame w w' /\ split_left w - 1 <= split_left w'.
Proof.
  intros nb Hr Hi Hs Hn Hbuf Hl. pose proof (sr_side _ _ _ _ Hr) as Hside.
  pose proof (cr_nblk _ _ _ _ (Hside true)) as Hnk. rewrite read_one_sim, (split_ctx _ _ _ _ Hr).
  rewrite (u32_small (start + i)) by lia. set (m := is_metadata_block cx (start + i)).
  pose proof (split_left_sel w m) as Hlm.
  destruct (read_loop_ok cx nblk _ start 1 (view m w) i buf (Hside m)) as (u & E & R & F & T); try lia.
  fold nb in E. rewrite E. change (Z.of_nat 1) with 1 in *. rewrite blocks_at_1 in E |- *.
  destruct (split_rep_same cx nblk v w m u Hr R F) as [H1 H2].
  { assert (Hk := keeps_read_one (fun b => is_metadata_block cx b = m) nb start i buf).
    rewrite u32_small in Hk by lia. specialize (Hk eq_refl (view m w) (sr_route _ _ _ _ Hr m)). by rewrite E in Hk. }
  exists (back m w u). split_and!; try done.
  - by rewrite side_own.
  - apply split_left_back; lia.
Qed.

Lemma split_read_cons nb start n i buf w w' buf' :
  split_read_loop nb start 1 i buf w = (w', Ok (i + 1, 0, buf')) ->
  split_read_loop nb start (S n) i buf w = split_read_loop nb start n (i + 1) buf' w'.
Proof.
  cbn [split_read_loop]. unfold mbind, M_bind, gets. cbv beta iota. set (m := is_metadata_block (w_ctx w) _). unfold get_sel, gets.
  destruct (pool_find _ _) as [idx|].
  - destruct (pool_touch m idx w) as [w1 [[]|e|]]; intros H; unfold mret, M_ret in H; simplify_eq; done.
  - destruct (pool_get_victim m w) as [w1 [idx|e|]]; [|intros; simplify_eq..].
    destruct (read_continuous_blocks_raw _ _ _ _ w1) as [w2 [[[ro fr] d]|e|]]; [|intros; simplify_eq..].
    destruct (upd_sel m idx (set_data d) w2) as [w3 [[]|e|]]; [|intros; simplify_eq..].
    destruct (negb (fr =? 0)). { intros H. unfold mret, M_ret in H. simplify_eq. lia. }
    destruct (negb (ro =? 1)); [by intros|].
    destruct (upd_sel m idx _ w3) as [w4 [[]|e|]]; [|intros; simplify_eq..].
    destruct (pool_touch m idx w4) as [w5 [[]|e|]]; intros H; unfold mret, M_ret in H; simplify_eq; done.
Qed.

Lemma split_rep_len cx nblk v w b : split_rep cx nblk v w -> 0 <= b < nblk -> blen (v b) = blk_size (sp_blk cx).
Proof.
  intros Hr Hb. set (m := is_metadata_block cx b).
  rewrite <- (side_own cx m v (dev_block w) b) by done. by apply (cache_rep_len _ _ _ _ _ (sr_side _ _ _ _ Hr m)).
Qed.

Lemma split_read_loop_ok cx nblk v start n : forall w i buf,
  let nb := blk_size (sp_blk cx) in
  split_rep cx nblk v w -> 0 <= i -> 0 <= start -> start + i + Z.of_nat n <= nblk ->
  (i + Z.of_nat n) * nb <= blen buf -> Z.of_nat n < split_left w -> exists w',
  split_read_loop nb start n i buf w = (w', Ok (i + Z.of_nat n, 0, bsplice (i * nb) (blocks_at v (start + i) n) buf)) /\
  split_rep cx nblk v w' /\ same_frame w w' /\ split_left w - Z.of_nat n <= split_left w'.
Proof.
  induction n as [|n IH]; intros w i buf nb Hr Hi Hs Hn Hbuf Hl.
  { exists w. cbn [split_read_loop]. change (blocks_at v (start + i) 0) with (@nil byte).
    rewrite bsplice_nil, !Z.add_0_r. split_and!; try done; lia. }
  pose proof (cr_nb _ _ _ _ (sr_side _ _ _ _ Hr true)) as Hnb. fold nb in Hnb.
  pose proof (split_rep_len _ _ _ _ (start + i) Hr ltac:(lia)) as Hlen. fold nb in Hlen.
  destruct (split_read_step cx nblk v w start i buf Hr) as (w1 & E1 & R1 & F1 & T1); try lia; try (fold nb; nia).
  fold nb in E1. rewrite (split_read_cons _ _ n _ _ _ _ _ E1).
  destruct (IH w1 (i + 1) (bsplice (i * nb) (v (start + i)) buf) R1) as (w' & E & R & F & T); try lia.
  { fold nb. rewrite length_bsplice; nia. }
  exists w'. fold nb in E. rewrite E. split_and!; [|done|by eapply same_frame_trans|lia].
  do 2 f_equal. f_equal; [f_equal; lia|].
  replace ((i + 1) * nb) with (i * nb + blen (v (start + i))) by nia.
  rewrite bsplice_app, blocks_at_S by nia. do 3 f_equal. lia.
Qed.

Lemma split_write_step cx nblk v w start i buf :
  let nb := blk_size (sp_blk cx) in
  split_rep cx nblk v w -> 0 <= i -> 0 <= start -> start + i < nblk -> (i + 1) * nb <= blen buf -> 1 < split_left w -> exists w',
  split_write_loop nb start 1 i buf w = (w', Ok (i + 1, 0)) /\
  split_rep cx nblk (upd v (start + i) (bslice (i * nb) nb buf)) w' /\ same_frame w w' /\ split_left w - 1 <= split_left w'.
Proof.
  intros nb Hr Hi Hs Hn Hbuf Hl. pose proof (sr_side _ _ _ _ Hr) as Hside.
  pose proof (cr_nblk _ _ _ _ (Hside true)) as Hnk. rewrite write_one_sim, (split_ctx _ _ _ _ Hr).
  rewrite (u32_small (start + i)) by lia. set (m := is_metadata_block cx (start + i)).
  pose proof (split_left_sel w m) as Hlm.
  destruct (write_loop_ok cx nblk start 1 (side cx m v (dev_block w)) (view m w) i buf (Hside m)) as (u & E & R & F & T); try lia.
  fold nb in E, R. rewrite E. change (Z.of_nat 1) with 1 in *. cbn [upd_blocks] in R.
  destruct (split_rep_upd cx nblk v w m u (start + i) _ Hr eq_refl R F) as [H1 H2].
  { assert (Hk := keeps_write_one (fun b => is_metadata_block cx b = m) nb start i buf).
    rewrite u32_small in Hk by lia. specialize (Hk eq_refl (view m w) (sr_route _ _ _ _ Hr m)). by rewrite E in Hk. }
  exists (back m w u). split_and!; try done. apply split_left_back; lia.
Qed.

Lemma split_write_cons nb start n i buf w w' :
  split_write_loop nb start 1 i buf w = (w', Ok (i + 1, 0)) ->
  split_write_loop nb start (S n) i buf w = split_write_loop nb start n (i + 1) buf w'.
Proof.
  cbn [split_write_loop]. unfold mbind, M_bind, gets. cbv beta iota. set (m := is_metadata_block (w_ctx w) _). unfold get_sel, gets.
  match goal with |- context [match ?f w with _ => _ end] => destruct (f w) as [w1 [idx|e|]] end; [|intros; simplify_eq..].
  destruct (upd_sel m idx _ w1) as [w2 [[]|e|]]; [|intros; simplify_eq..].
  destruct (upd_sel m idx _ w2) as [w3 [[]|e|]]; [|intros; simplify_eq..].
  destruct (pool_touch m idx w3) as [w4 [[]|e|]]; intros H; unfold mret, M_ret in H; simplify_eq; done.
Qed.

Lemma split_write_loop_ok cx nblk start n : forall v w i buf,
  let nb := blk_size (sp_blk cx) in
  split_rep cx nblk v w -> 0 <= i -> 0 <= start -> start + i + Z.of_nat n <= nblk ->
  (i + Z.of_nat n) * nb <= blen buf -> Z.of_nat n < split_left w -> exists w',
  split_write_loop nb start n i buf w = (w', Ok (i + Z.of_nat n, 0)) /\
  split_rep cx nblk (upd_blocks nb buf start i n v) w' /\ same_frame w w' /\ split_left w - Z.of_nat n <= split_left w'.
Proof.
  induction n as [|n IH]; intros v w i buf nb Hr Hi Hs Hn Hbuf Hl.
  { exists w. cbn [split_write_loop upd_blocks]. rewrite !Z.add_0_r. split_and!; try done; lia. }
  pose proof (cr_nb _ _ _ _ (sr_side _ _ _ _ Hr true)) as Hnb. fold nb in Hnb.
  destruct (split_write_step cx nblk v w start i buf Hr) as (w1 & E1 & R1 & F1 & T1); try lia; try (fold nb; nia).
  fold nb in E1. rewrite (split_write_cons _ _ n _ _ _ _ E1).
  destruct (IH _ w1 (i + 1) buf R1) as (w' & E & R & F & T); try lia; try (fold nb; nia).
  exists w'. fold nb in E. rewrite E. split_and!; [do 2 f_equal; f_equal; lia|done|by eapply same_frame_trans|lia].
Qed.

Lemma split_flush_pool cx nblk v w m : split_rep cx nblk v w -> exists w',
  pool_flush_all m w = (w', Ok tt) /\ split_rep cx nblk v w' /\ same_frame w w' /\ split_left w <= split_left w' /\
  (forall b, 0 <= b < nblk -> is_metadata_block cx b = m -> dev_block w' b = v b) /\
  (forall b, 0 <= b < nblk -> is_metadata_block cx b <> m -> dev_block w' b = dev_block w b) /\
  blen (p_dev (w_plat w')) = blen (p_dev (w_plat w)).
Proof.
  intros Hr. rewrite (sim_flush_all m w). erewrite M_bind_ok by reflexivity. fold (pool_of (view m w)).
  destruct (flush_loop_ok cx nblk _ (length (pool_of (view m w))) (view m w) 0 (sr_side _ _ _ _ Hr m)) as (u & E & R & F & T & Cl & L & Dl);
    [intros j e Hj; lia|done|].
  rewrite E. assert (Hh : holds (fun b => is_metadata_block cx b = m) (pool_of u)).
  { pose proof (keeps_flush_loop (fun b => is_metadata_block cx b = m) (length (pool_of (view m w))) 0 (view m w) (sr_route _ _ _ _ Hr m)) as Hk.
    by rewrite E in Hk. }
  destruct (split_rep_same cx nblk v w m u Hr R F Hh) as [H1 H2].
  pose proof (cr_pool _ _ _ _ R) as Hpool.
  assert (Hdev : forall b, 0 <= b < nblk -> dev_block u b = side cx m v (dev_block w) b).
  { intros b Hb. destruct (bcache_find (pool_of u) b) as [i|] eqn:Hf.
    - apply bcache_find_Some in Hf as (e & Hi & Hv & <-).
      apply (po_valid _ _ _ _ _ _ Hpool i e Hi Hv), (Cl i e); [|done|done]. apply lookup_lt_Some in Hi. lia.
    - apply bcache_find_None in Hf. by apply (po_miss _ _ _ _ _ _ Hpool b Hb). }
  exists (back m w u). split_and!; try done.
  - pose proof (split_left_back w m u 0). lia.
  - intros b Hb Hm. change (dev_block (back m w u) b) with (dev_block u b). rewrite Hdev by done. by apply side_own.
  - intros b Hb Hm. change (dev_block (back m w u) b) with (dev_block u b). rewrite Hdev by done. by apply side_other.
Qed.

(** Steps of the platform that leave the device image alone. *)
Lemma split_rep_plat cx nblk v w p' caller fs ds e :
  split_rep cx nblk v w -> p_ok p' -> p_dev p' = p_dev (w_plat w) ->
  split_rep cx nblk v (mkWorld p' caller (w_ctx w) (w_cache w) fs ds e).
Proof.
  intros [Hs Hr] Hok Hd. split; [|done]. intros m.
  assert (Hdev : forall b, dev_block (mkWorld p' caller (w_ctx w) (w_cache w) fs ds e) b = dev_block w b)
    by (intros b; unfold dev_block; simpl; by rewrite Hd).
  eapply cache_rep_ext with (v := side cx m v (dev_block w)).
  - pose proof (cache_rep_plat _ _ _ _ p' (Hs m) Hok Hd) as []. by split.
  - intros b _. unfold side. case_match; [done|]. apply Hdev.
Qed.

Lemma split_flush_ok cx nblk v w : split_rep cx nblk v w -> exists w',
  split_bcache_flush w = (w', Ok tt) /\ split_rep cx nblk v w' /\ same_frame w w' /\ split_left w <= split_left w' /\
  (forall b, 0 <= b < nblk -> dev_block w' b = v b) /\ blen (p_dev (w_plat w')) = blen (p_dev (w_plat w)).
Proof.
  intros Hr. unfold split_bcache_flush. erewrite M_bind_ok by reflexivity.
  replace (split_ready (w_cache w)) with true by (symmetry; apply (cr_ready _ _ _ _ (sr_side _ _ _ _ Hr true))). cbn [negb].
  destruct (split_flush_pool cx nblk v w true Hr) as (w1 & E1 & R1 & F1 & L1 & D1 & _ & N1).
  destruct (split_flush_pool cx nblk v w1 false R1) as (w2 & E2 & R2 & F2 & L2 & D2 & K2 & N2).
  rewrite (M_bind_ok _ _ _ _ _ E1), (M_bind_ok _ _ _ _ _ E2). erewrite M_bind_ok by reflexivity.
  pose proof (sr_side _ _ _ _ R2 true) as Hc2.
  destruct (p_fsync (w_plat w2) (dev_fd (w_ctx w2)) (cr_plat _ _ _ _ Hc2)) as (p' & Ep & Hok & Hd & _).
  { rewrite (split_ctx _ _ _ _ R2). apply (cr_fd _ _ _ _ Hc2). }
  exists (set_plat p' w2). split_and!.
  - by apply plat_eq.
  - by apply split_rep_plat.
  - eapply same_frame_trans; [exact F1|]. exact F2.
  - etransitivity; [exact L1|exact L2].
  - intros b Hb. transitivity (dev_block w2 b); [unfold dev_block; simpl; by rewrite Hd|].
    destruct (is_metadata_block cx b) eqn:Hm; [|by apply D2]. rewrite K2 by (try done; congruence). by apply D1.
  - simpl. rewrite Hd. congruence.
Qed.

Lemma split_invalidate_ok cx nblk v w b : split_rep cx nblk v w -> 0 <= b < nblk -> exists w',
  split_bcache_invalidate b w = (w', Ok tt) /\
  split_rep cx nblk (upd v b (if is_metadata_block cx b then v b else dev_block w b)) w' /\
  same_frame w w' /\ split_left w <= split_left w'.
Proof.
  intros Hr Hb. pose proof (cr_ready _ _ _ _ (sr_side _ _ _ _ Hr false)) as Hrd.
  destruct (bcache_invalidate_ok cx nblk _ (view false w) b (sr_side _ _ _ _ Hr false) Hb) as (u & E & R & F & T).
  rewrite (sim_invalidate b w), E. exists (back false w u).
  assert (Hh : holds (fun b => is_metadata_block cx b = false) (pool_of u)).
  { pose proof (keeps_invalidate (fun b => is_metadata_block cx b = false) b (view false w) (sr_route _ _ _ _ Hr false)) as Hk. by rewrite E in Hk. }
  assert (Hl : split_left w <= split_left (back false w u)) by (pose proof (split_left_back w false u 0); lia).
  destruct (is_metadata_block cx b) eqn:Hm.
  - destruct (split_rep_same cx nblk v w false u Hr) as [H1 H2]; [|done|done|].
    { eapply cache_rep_ext; [exact R|]. intros c Hc. unfold upd. destruct (Z.eqb_spec c b) as [->|]; [|done].
      rewrite side_other by congruence. done. }
    split_and!; try done. eapply split_rep_ext; [exact H1|]. intros c Hc. unfold upd. by destruct (Z.eqb_spec c b) as [->|].
  - destruct (split_rep_upd cx nblk v w false u b (dev_block w b) Hr Hm R F Hh) as [H1 H2]. by split_and!.
Qed.

(** ** Empty pools *)

Definition free_pool (sz : Z) (pool : list bcache_entry) : Prop :=
  Forall (fun e => valid e = false /\ lru_tick e = 0 /\ blen (data e) = sz) pool.

Lemma split_rep_empty cx nblk (w : W) :
  w_ctx w = cx -> dev_fd cx = p_fd -> 0 < blk_size (sp_blk cx) <= 65536 -> 0 <= nblk <= 2 ^ 32 ->
  p_ok (w_plat w) -> nblk * blk_size (sp_blk cx) <= blen (p_dev (w_plat w)) ->
  split_ready (w_cache w) = true -> split_mutex (w_cache w) = true ->
  (forall m, sel_pool m (w_cache w) <> [] /\ sel_tick m (w_cache w) = 0 /\
             free_pool (blk_size (sp_blk cx)) (sel_pool m (w_cache w))) ->
  split_rep cx nblk (dev_block w) w.
Proof.
  intros Hcx Hfd Hnb Hnblk Hok Hdev Hready Hmutex Hm. split.
  - intros m. destruct (Hm m) as (Hne & Ht & Hall).
    eapply cache_rep_ext; [by apply (cache_rep_empty cx nblk (view m w))|].
    intros b _. unfold side. by case_match.
  - intros m i e He Hv. destruct (Hm m) as (_ & _ & Hall). apply (Forall_lookup_1 _ _ _ _ Hall) in He as [Hf _]. congruence.
Qed.

(** ** Initialisation *)

Lemma pool_alloc_data_ok sz n (w : W) :
  p_ok (w_plat w) -> 0 <= sz -> exists p' ds,
  pool_alloc_data n sz w = (set_plat p' w, Ok ds) /\ length ds = n /\ Forall (fun d => blen d = sz) ds /\
  p_ok p' /\ p_dev p' = p_dev (w_plat w).
Proof.
  intros Hok Hsz. revert w Hok. induction n as [|n IH]; intros w Hok; cbn [pool_alloc_data].
  { exists (w_plat w), []. split; [by destruct w|]. by split_and!. }
  destruct (malloc_ok w sz Hok Hsz) as (p1 & b & E1 & Hb & Hok1 & Hd1 & _).
  destruct (IH (set_plat p1 w) Hok1) as (p' & ds & E & Hl & Hall & Hok' & Hd').
  exists p', (b :: ds). rewrite (M_bind_ok _ _ _ _ _ E1), (M_bind_ok _ _ _ _ _ E).
  split_and!; try done; [simpl; by rewrite Hl|by constructor|simpl in Hd'; congruence].
Qed.

Lemma pool_alloc_ok m sz (w : W) :
  p_ok (w_plat w) -> 0 <= sz -> exists p' pool,
  pool_alloc m sz w = (set_cache (put_sel m pool (sel_tick m (w_cache w)) (w_cache w)) (set_plat p' w), Ok tt) /\
  length pool = length (sel_pool m (w_cache w)) /\ free_pool sz pool /\ p_ok p' /\ p_dev p' = p_dev (w_plat w).
Proof.
  intros Hok Hsz.
  set (w1 := set_cache (put_sel m (replicate (length (sel_pool m (w_cache w))) zero_entry) (sel_tick m (w_cache w)) (w_cache w)) w).
  destruct (pool_alloc_data_ok sz (length (sel_pool m (w_cache w))) w1 Hok Hsz) as (p' & ds & E & Hl & Hall & Hok' & Hd').
  exists p', ((fun d => mkEntry false false 0 0 d) <$> ds). split_and!; try done.
  - unfold pool_alloc. erewrite M_bind_ok by reflexivity. erewrite M_bind_ok by reflexivity.
    change (set_cache _ w) with w1. rewrite (M_bind_ok _ _ _ _ _ E).
    unfold modify, w1. destruct w as [? ? ? [] ? ? ?], m; reflexivity.
  - by rewrite length_fmap.
  - apply Forall_fmap. eapply Forall_impl; [exact Hall|]. done.
Qed.

Lemma split_mutex_ok (w : W) : p_ok (w_plat w) -> exists p1,
  (if split_mutex (w_cache w) then mret tt else
     mofs_mutex_init;;
     modify (fun w => let c := w_cache w in
       set_cache (mkSplit (meta_pool c) (meta_tick c) (data_pool c) (data_tick c) (split_ready c) true) w)) w =
  (set_cache (mkSplit (meta_pool (w_cache w)) (meta_tick (w_cache w)) (data_pool (w_cache w)) (data_tick (w_cache w))
                (split_ready (w_cache w)) true) (set_plat p1 w), Ok tt) /\
  p_ok p1 /\ p_dev p1 = p_dev (w_plat w).
Proof.
  intros Hok. destruct (split_mutex (w_cache w)) eqn:Em.
  - exists (w_plat w). split_and!; try done. destruct w as [? ? ? []]; simpl in *. by subst.
  - destruct (p_mutex_init (w_plat w) Hok) as (p1 & E & Hok1 & Hd1 & _).
    exists p1. split_and!; try done. by rewrite (M_bind_ok _ _ _ _ _ (plat_eq _ _ _ _ E)).
Qed.

Lemma split_init_ok cx nblk (w : W) :
  w_ctx w = cx -> dev_fd cx = p_fd -> 0 < blk_size (sp_blk cx) <= 65536 -> 0 <= nblk <= 2 ^ 32 ->
  p_ok (w_plat w) -> nblk * blk_size (sp_blk cx) <= blen (p_dev (w_plat w)) ->
  split_ready (w_cache w) = false -> (forall m, sel_pool m (w_cache w) <> []) -> exists w',
  split_bcache_init w = (w', Ok tt) /\ split_rep cx nblk (dev_block w) w' /\ same_frame w w' /\
  split_left w' = MOFS_UINT64_MAX /\ p_dev (w_plat w') = p_dev (w_plat w).
Proof.
  intros Hcx Hfd Hnb Hnblk Hok Hdev Hready Hslots.
  destruct (split_mutex_ok w Hok) as (p1 & E1 & Hok1 & Hd1). set (w1 := set_cache _ (set_plat p1 w)) in E1.
  assert (Hsz : 0 <= blk_size (sp_blk cx)) by lia.
  destruct (pool_alloc_ok true _ w1 Hok1 Hsz) as (p2 & mp & E2 & Hl2 & Hf2 & Hok2 & Hd2).
  set (w2 := set_cache _ _) in E2.
  destruct (pool_alloc_ok false _ w2 Hok2 Hsz) as (p3 & dp & E3 & Hl3 & Hf3 & Hok3 & Hd3).
  set (w3 := set_cache _ _) in E3.
  assert (Hd : p_dev p3 = p_dev (w_plat w)) by (rewrite Hd3; simpl; rewrite Hd2; exact Hd1).
  exists (set_cache (mkSplit mp 0 dp 0 true true) (set_plat p3 w)). split_and!; [|..|done|done|exact Hd].
  - unfold split_bcache_init. erewrite M_bind_ok by reflexivity. unfold mofs_io_blk_sz. rewrite Hcx.
    rewrite (proj2 (Z.eqb_neq _ 0)) by lia. erewrite M_bind_ok by reflexivity. rewrite (M_bind_ok _ _ _ _ _ E1), Hready.
    rewrite (M_bind_ok _ _ _ _ _ E2). unfold attempt, mbind, M_bind. rewrite E3. reflexivity.
  - eapply split_rep_ext; [apply split_rep_empty; try done|].
    + simpl. by rewrite Hd.
    + intros m. pose proof (Hslots m) as Hs. destruct m; simpl in *; split_and!; try done.
      * intros ->. by destruct (meta_pool (w_cache w)).
      * intros ->. by destruct (data_pool (w_cache w)).
    + intros b _. unfold dev_block. simpl. rewrite Hd. done.
Qed.

End split.

(** ** The third driver *)

(** [MOFS_BUFFER_CACHE_ENABLE = 1] and [MOFS_BCACHE_SPLIT = 1]. *)
#[global] Instance split_driver {P} `{!Platform P} : BlockDriver P scache := {
  drv_read := split_bcache_read_blocks;
  drv_write := split_bcache_write_blocks;
  drv_modify := split_bcache_modify_block;
  drv_invalidate := split_bcache_invalidate;
  drv_flush := split_bcache_flush;
  drv_init := split_bcache_init;
  drv_fini := split_bcache_fini;
  drv_open_flags := MOFS_IO_OPEN_FLAG_RDWR
}.

#[global] Instance split_spec {P} `{!Platform P} `{!PlatformSpec P} : DriverSpec P scache.
Proof.
  refine {| drv_rep := split_rep; drv_left := split_left; drv_is_cached := true |}.
  - intros cx nblk v w Hr. apply (cr_plat _ _ _ _ (sr_side _ _ _ _ Hr true)).
  - intros cx nblk v w b. apply split_rep_len.
  - intros cx nblk v v' w. apply split_rep_ext.
  - intros cx nblk v w p' u fs ds e Hr Hok Hdev. split; [|done]. by apply split_rep_plat.
  - intros cx nblk v w buf n s Hr H1 H2 H3 H4 H5. pose proof (sr_side _ _ _ _ Hr true) as Hc.
    pose proof (cr_nb _ _ _ _ Hc). pose proof (cr_fd _ _ _ _ Hc). pose proof p_fd_nonneg. pose proof (cr_ready _ _ _ _ Hc) as Hrd.
    destruct (split_read_loop_ok cx nblk v s (Z.to_nat n) w 0 buf Hr) as (w' & E & R & F & T); try lia.
    rewrite Z2Nat.id in E, T by lia. exists w'. split_and!; try done. cbn [drv_read split_driver].
    unfold split_bcache_read_blocks. erewrite M_bind_ok by reflexivity. unfold mofs_io_blk_sz. rewrite (split_ctx _ _ _ _ Hr).
    rewrite (proj2 (Z.ltb_ge _ 0)), (proj2 (Z.eqb_neq _ 0)) by lia. erewrite M_bind_ok by reflexivity.
    simpl in Hrd. rewrite Hrd. cbn [negb]. rewrite Z.add_0_r in E. exact E.
  - intros cx nblk v w buf n s Hr H1 H2 H3 H4 H5. pose proof (sr_side _ _ _ _ Hr true) as Hc.
    pose proof (cr_nb _ _ _ _ Hc). pose proof (cr_fd _ _ _ _ Hc). pose proof p_fd_nonneg. pose proof (cr_ready _ _ _ _ Hc) as Hrd.
    destruct (split_write_loop_ok cx nblk s (Z.to_nat n) v w 0 buf Hr) as (w' & E & R & F & T); try lia.
    rewrite Z2Nat.id in E, T by lia. exists w'. split_and!; try done. cbn [drv_write split_driver].
    unfold split_bcache_write_blocks. erewrite M_bind_ok by reflexivity. unfold mofs_io_blk_sz. rewrite (split_ctx _ _ _ _ Hr).
    rewrite (proj2 (Z.ltb_ge _ 0)), (proj2 (Z.eqb_neq _ 0)) by lia. erewrite M_bind_ok by reflexivity.
    simpl in Hrd. rewrite Hrd. cbn [negb]. exact E.
  - intros cx nblk v w b off patch _ Hr H1 H2 H3 H4 H5. cbn [drv_modify split_driver]. rewrite modify_sim, (split_ctx _ _ _ _ Hr).
    set (m := is_metadata_block cx b). pose proof (split_left_sel w m) as Hlm.
    destruct (bcache_modify_ok cx nblk _ (view m w) b off patch (sr_side _ _ _ _ Hr m)) as (u & E & R & F & T); try done; [lia|].
    rewrite E. destruct (split_rep_upd cx nblk v w m u b (bsplice off patch (v b)) Hr eq_refl) as [R1 F1]; try done.
    + by rewrite side_own in R.
    + pose proof (keeps_modify (fun b => is_metadata_block cx b = m) b off patch eq_refl (view m w) (sr_route _ _ _ _ Hr m)) as Hk. by rewrite E in Hk.
    + exists (back m w u). split_and!; try done. apply split_left_back; lia.
  - done.
  - intros cx nblk v w b Hr Hb. destruct (split_invalidate_ok cx nblk v w b Hr Hb) as (w' & E & R & F & T).
    exists w', (if is_metadata_block cx b then v b else dev_block w b). split_and!; try done.
    pose proof (split_rep_len _ _ _ _ b R Hb) as Hl. by rewrite upd_eq in Hl.
  - intros cx nblk v w Hr. destruct (split_flush_ok cx nblk v w Hr) as (w' & E & R & F & T & _). by exists w'.
Defined.
