(* ===== verification/LocalSpec.v ===== *)
(** * Block drivers and the state outside the block layer

    [errno] and the credentials of the caller belong to a thread, the handle
    pools to the modules above.  The class [LocalDriver] says that a block
    driver leaves all of them alone; the three drivers of the repository do. *)

From Stdlib Require Import ZArith Lia.
From stdpp Require Import base list.
From S2P Require Import Prelude Types Platform Raw Buffer BufferSpec Ops Split SplitSpec.

(** The parts of the state that do not belong to the block layer agree. *)
Definition same_local {P C} (w w' : world P C) : Prop :=
  w_caller w' = w_caller w /\ w_errno w' = w_errno w /\ w_files w' = w_files w /\ w_dirs w' = w_dirs w.

(** [m] keeps them, whatever it returns. *)
Definition keeps_local {P C A} (m : M (world P C) A) : Prop := forall w, same_local w (m w).1.

Create HintDb keeps_local.

Section combinators.
Context {P C : Type} `{!Platform P}.
Abbreviation W := (world P C).

Lemma tls_ret {A} (x : A) : keeps_local (mret x : M W A).
Proof. done. Qed.

Lemma tls_fail {A} e : keeps_local (fail e : M W A).
Proof. done. Qed.

Lemma tls_gets {A} (f : W -> A) : keeps_local (gets f).
Proof. done. Qed.

Lemma tls_modify (f : W -> W) : (forall w, same_local w (f w)) -> keeps_local (modify f).
Proof. intros H w. apply H. Qed.

Lemma tls_plat {A} (f : M P A) : keeps_local (plat (C := C) f).
Proof. intros w. unfold plat. by destruct (f (w_plat w)). Qed.

Lemma tls_bind {A B} (m : M W A) (k : A -> M W B) : keeps_local m -> (forall x, keeps_local (k x)) -> keeps_local (m ≫= k).
Proof.
  intros Hm Hk w. unfold mbind, M_bind. specialize (Hm w). destruct (m w) as [w' [x|e|]]; [|done..].
  destruct (Hk x w') as (E1 & E2 & E3 & E4), Hm as (F1 & F2 & F3 & F4). cbn in *. split_and!; congruence.
Qed.

End combinators.

#[export] Hint Resolve tls_ret tls_fail tls_gets tls_plat : keeps_local.
#[export] Hint Extern 5 (keeps_local (modify _)) => apply tls_modify; done : keeps_local.

(** Take a program of the lower layers apart. *)
Ltac keeps :=
  repeat match goal with
  | |- keeps_local (mbind _ _) => apply tls_bind; [|intros ?]
  | |- keeps_local (let _ := _ in _) => cbv zeta
  | |- keeps_local (if ?b then _ else _) => destruct b
  | |- keeps_local (match ?x with _ => _ end) => destruct x
  | |- keeps_local (let '(_, _) := ?x in _) => destruct x
  | |- keeps_local _ => solve [eauto with keeps_local]
  end.

(** A block driver that touches no thread-local state. *)
Class LocalDriver (P C : Type) `{!Platform P} `{!BlockDriver P C} := {
  local_read : forall fd buf n s, keeps_local (drv_read (P := P) (C := C) fd buf n s);
  local_write : forall fd buf n s, keeps_local (drv_write (P := P) (C := C) fd buf n s);
  local_modify : forall b off patch, keeps_local (drv_modify (P := P) (C := C) b off patch);
  local_invalidate : forall b, keeps_local (drv_invalidate (P := P) (C := C) b);
  local_flush : keeps_local (drv_flush (P := P) (C := C))
}.

#[export] Hint Resolve local_read local_write local_modify local_invalidate local_flush : keeps_local.

(** The services of the core: only the pool services change the pools, and
    none changes the thread-local state. *)
Lemma tls_handle {P C} `{!Platform P} `{!BlockDriver P C} `{!LocalDriver P C} (o : op) (w : world P C) :
  match o with
  | OpSetFiles fs => (handle o w).1 = set_files fs w
  | OpSetDirs ds => (handle o w).1 = set_dirs ds w
  | _ => same_local w (handle o w).1
  end.
Proof.
  assert (Hd : forall A (m : M (world P C) A), keeps_local m -> same_local w (m w).1) by (intros A m H; apply H).
  destruct o; cbn [handle]; try done; apply Hd; eauto with keeps_local; try (apply tls_plat).
  unfold mofs_get_caller_user. keeps.
Qed.

Lemma handle_caller {P C} `{!Platform P} `{!BlockDriver P C} `{!LocalDriver P C} (o : op) (w : world P C) :
  w_caller (handle o w).1 = w_caller w /\ w_errno (handle o w).1 = w_errno w.
Proof. pose proof (tls_handle o w) as H. destruct o; try (by destruct H as (? & ? & _)); done. Qed.

(** ** Raw I/O *)

Section raw.
Context {P C : Type} `{!Platform P}.
Abbreviation W := (world P C).

Lemma tls_dev_lseek fd off wh : keeps_local (dev_lseek (C := C) fd off wh).
Proof. apply tls_plat. Qed.
Lemma tls_dev_read fd n : keeps_local (dev_read (C := C) fd n).
Proof. apply tls_plat. Qed.
Lemma tls_dev_write fd b : keeps_local (dev_write (C := C) fd b).
Proof. apply tls_plat. Qed.
Lemma tls_dev_fsync fd : keeps_local (dev_fsync (C := C) fd).
Proof. apply tls_plat. Qed.

#[local] Hint Resolve tls_dev_lseek tls_dev_read tls_dev_write : keeps_local.

Lemma tls_read_one fd : keeps_local (read_one_block (C := C) fd).
Proof. unfold read_one_block. keeps. Qed.
Lemma tls_write_one fd b : keeps_local (write_one_block (C := C) fd b).
Proof. unfold write_one_block. keeps. Qed.

#[local] Hint Resolve tls_read_one tls_write_one : keeps_local.

Lemma tls_read_loop fd nb n : forall i buf, keeps_local (read_blocks_loop (C := C) fd nb n i buf).
Proof. induction n as [|n IH]; intros i buf; cbn [read_blocks_loop]; keeps. Qed.
Lemma tls_write_loop fd nb n : forall i buf, keeps_local (write_blocks_loop (C := C) fd nb n i buf).
Proof. induction n as [|n IH]; intros i buf; cbn [write_blocks_loop]; keeps. Qed.

#[local] Hint Resolve tls_read_loop tls_write_loop : keeps_local.

Lemma tls_raw_read fd buf n s : keeps_local (read_continuous_blocks_raw (C := C) fd buf n s).
Proof. unfold read_continuous_blocks_raw. keeps. Qed.
Lemma tls_raw_write fd buf n s : keeps_local (write_continuous_blocks_raw (C := C) fd buf n s).
Proof. unfold write_continuous_blocks_raw. keeps. Qed.

End raw.

#[export] Hint Resolve tls_dev_fsync tls_raw_read tls_raw_write : keeps_local.

#[export] Instance uncached_local {P} `{!Platform P} : LocalDriver P unit.
Proof. split; intros; cbn; eauto with keeps_local. Qed.

(** ** The unified cache *)

Section cache.
Context {P : Type} `{!Platform P}.

Lemma tls_get_pool : keeps_local (get_pool (P := P)).
Proof. done. Qed.
Lemma tls_upd_entry i f : keeps_local (upd_entry (P := P) i f).
Proof. unfold upd_entry, get_pool, put_pool. keeps. Qed.
Lemma tls_touch i : keeps_local (bcache_touch (P := P) i).
Proof. by apply tls_modify. Qed.

#[local] Hint Resolve tls_get_pool tls_upd_entry tls_touch : keeps_local.

Lemma tls_flush_entry i : keeps_local (bcache_flush_entry (P := P) i).
Proof. unfold bcache_flush_entry. keeps. Qed.

#[local] Hint Resolve tls_flush_entry : keeps_local.

Lemma tls_get_victim : keeps_local (bcache_get_victim (P := P)).
Proof. unfold bcache_get_victim. keeps. Qed.

#[local] Hint Resolve tls_get_victim : keeps_local.

Lemma tls_bread_loop nb s n : forall i buf, keeps_local (bcache_read_loop (P := P) nb s n i buf).
Proof. induction n as [|n IH]; intros i buf; cbn [bcache_read_loop]; keeps. Qed.
Lemma tls_bwrite_loop nb s n : forall i buf, keeps_local (bcache_write_loop (P := P) nb s n i buf).
Proof. induction n as [|n IH]; intros i buf; cbn [bcache_write_loop]; keeps. Qed.
Lemma tls_bflush_loop n : forall i, keeps_local (bcache_flush_loop (P := P) n i).
Proof. induction n as [|n IH]; intros i; cbn [bcache_flush_loop]; keeps. Qed.

#[local] Hint Resolve tls_bread_loop tls_bwrite_loop tls_bflush_loop : keeps_local.

#[export] Instance cached_local : LocalDriver P bcache.
Proof.
  split; intros; cbn [drv_read drv_write drv_modify drv_invalidate drv_flush cached_driver].
  - unfold mofs_bcache_read_blocks. keeps.
  - unfold mofs_bcache_write_blocks. keeps.
  - unfold mofs_bcache_modify_block. keeps.
  - unfold mofs_bcache_invalidate. keeps.
  - unfold mofs_bcache_flush. keeps.
Qed.

End cache.

(** ** The split cache *)

Section split.
Context {P : Type} `{!Platform P}.

Lemma tls_get_sel m : keeps_local (get_sel (P := P) m).
Proof. done. Qed.
Lemma tls_upd_sel m i f : keeps_local (upd_sel (P := P) m i f).
Proof. by apply tls_modify. Qed.
Lemma tls_pool_touch m i : keeps_local (pool_touch (P := P) m i).
Proof. by apply tls_modify. Qed.

#[local] Hint Resolve tls_get_sel tls_upd_sel tls_pool_touch : keeps_local.

Lemma tls_pool_flush_entry m i : keeps_local (pool_flush_entry (P := P) m i).
Proof. unfold pool_flush_entry. keeps. Qed.

#[local] Hint Resolve tls_pool_flush_entry : keeps_local.

Lemma tls_pool_victim m : keeps_local (pool_get_victim (P := P) m).
Proof. unfold pool_get_victim. keeps. Qed.

#[local] Hint Resolve tls_pool_victim : keeps_local.

Lemma tls_pool_load m b : keeps_local (pool_load_block (P := P) m b).
Proof. unfold pool_load_block. keeps. Qed.
Lemma tls_sread_loop nb s n : forall i buf, keeps_local (split_read_loop (P := P) nb s n i buf).
Proof. induction n as [|n IH]; intros i buf; cbn [split_read_loop]; keeps. Qed.
Lemma tls_swrite_loop nb s n : forall i buf, keeps_local (split_write_loop (P := P) nb s n i buf).
Proof. induction n as [|n IH]; intros i buf; cbn [split_write_loop]; keeps. Qed.
Lemma tls_pflush_loop m n : forall i, keeps_local (pool_flush_loop (P := P) m n i).
Proof. induction n as [|n IH]; intros i; cbn [pool_flush_loop]; keeps. Qed.

#[local] Hint Resolve tls_pool_load tls_sread_loop tls_swrite_loop tls_pflush_loop : keeps_local.

#[export] Instance split_local : LocalDriver P scache.
Proof.
  split; intros; cbn [drv_read drv_write drv_modify drv_invalidate drv_flush split_driver].
  - unfold split_bcache_read_blocks. keeps.
  - unfold split_bcache_write_blocks. keeps.
  - unfold split_bcache_modify_block. keeps.
  - unfold split_bcache_invalidate. keeps.
  - unfold split_bcache_flush, pool_flush_all. keeps.
Qed.

End split.
