(* ===== verification/Bitmap.v ===== *)
(** * Whole-block transfers and on-disk bitmaps

    The parts that [mofs_block.c] (data bitmap) and [mofs_inode.c] (inode
    bitmap) have in common: reading or writing one full block, flipping one
    bit of a bitmap, and scanning a bitmap for free entries. *)

From Stdlib Require Import ZArith Lia.
From stdpp Require Import base list.
From S2P Require Import Prelude Types Platform Raw Buffer BufferSpec Ops.

(** ** Single blocks *)

(** [read_continuous_blocks(ctx.dev_fd, buf, 1, blk, ...)] followed by the
    check [(read_blk_num != 1) || (fraction != 0)], which every caller makes. *)
Definition read_full_block (cx : mofs_ctx_t) (buf : list byte) (blk : Z) : prog (list byte) :=
  '(read_blk_num, fraction, buf) ← call (OpRead (dev_fd cx) buf 1 (u32 blk));
  if negb (read_blk_num =? 1) || negb (fraction =? 0) then throw MOFS_EIO else mret buf.

Definition write_full_block (cx : mofs_ctx_t) (buf : list byte) (blk : Z) : prog unit :=
  '(written_blk_num, fraction) ← call (OpWrite (dev_fd cx) buf 1 (u32 blk));
  if negb (written_blk_num =? 1) || negb (fraction =? 0) then throw MOFS_EIO else mret tt.

(** [mofs_io_blk_sz()] of the mounted volume. *)
Definition io_blk_sz (cx : mofs_ctx_t) : Z := blk_size (sp_blk cx).

(** ** Bits *)

Definition get_u8 (i : Z) (buf : list byte) : Z := byte.unsigned (default (byte.of_Z 0) (buf !! Z.to_nat i)).
Definition put_u8 (i v : Z) (buf : list byte) : list byte := <[Z.to_nat i := byte.of_Z v]> buf.

(** [buf[byte] |= 1 << bit] or [buf[byte] &= ~(1 << bit)]. *)
Definition put_bit (buf : list byte) (target_byte target_bit : Z) (set_used : bool) : list byte :=
  let old := get_u8 target_byte buf in
  put_u8 target_byte
    (if set_used then Z.lor old (u8 (Z.shiftl 1 target_bit))
     else Z.land old (u8 (Z.lnot (Z.shiftl 1 target_bit)))) buf.

(** Bit [i] of a bitmap block. *)
Definition get_bit (buf : list byte) (i : Z) : bool := Z.testbit (get_u8 (i / 8) buf) (i mod 8).

(** The body that [set_data_bitmap_bit] and [set_inode_bitmap_bit] share, after
    their range checks: read the block of the bitmap at [start], change the
    bit, write it back. *)
Definition set_bitmap_bit (cx : mofs_ctx_t) (start idx : Z) (set_used : bool) : prog unit :=
  let bits_per_bitmap := u32 (io_blk_sz cx * 8) in
  let target_blk := idx / bits_per_bitmap in
  let bit_in_blk := idx mod bits_per_bitmap in
  bitmap_buf ← call (OpMalloc (io_blk_sz cx));
  bitmap_buf ← read_full_block cx bitmap_buf (start + target_blk);
  write_full_block cx (put_bit bitmap_buf (bit_in_blk / 8) (bit_in_blk mod 8) set_used) (start + target_blk).

(** ** Scanning for free entries

    [limit] is the number of entries of the bitmap, [reserved] the number of
    leading entries that are skipped, [need] the number of entries wanted. *)
Section scan.
Context (limit reserved need : Z).

(** The loop over the bits of one byte, bits [bit], [bit+1], ... ([n] left). *)
Fixpoint scan_bits (v base : Z) (n : nat) (bit : Z) (acc : list Z) : list Z :=
  match n with
  | O => acc
  | S n' =>
      if negb (blen acc <? need) then acc else
      let idx := u32 (base + bit) in
      if limit <=? idx then acc else
      if idx <? reserved then scan_bits v base n' (bit + 1) acc else
      if Z.land v (Z.shiftl 1 bit) =? 0 then scan_bits v base n' (bit + 1) (acc ++ [idx])
      else scan_bits v base n' (bit + 1) acc
  end.

(** The loop over the bytes of one bitmap block. *)
Fixpoint scan_bytes (buf : list byte) (blk_base : Z) (n : nat) (byte_idx : Z) (acc : list Z) : list Z :=
  match n with
  | O => acc
  | S n' =>
      if negb (blen acc <? need) then acc else
      scan_bytes buf blk_base n' (byte_idx + 1)
        (scan_bits (get_u8 byte_idx buf) (blk_base + byte_idx * 8) 8 0 acc)
  end.

(** The loop over the blocks of the bitmap that starts at [start]. *)
Fixpoint scan_blocks (cx : mofs_ctx_t) (start : Z) (buf : list byte) (n : nat) (blk_idx : Z) (acc : list Z) : prog (list Z) :=
  match n with
  | O => mret acc
  | S n' =>
      if negb (blen acc <? need) then mret acc else
      buf ← read_full_block cx buf (start + blk_idx);
      scan_blocks cx start buf n' (blk_idx + 1)
        (scan_bytes buf (blk_idx * u32 (io_blk_sz cx * 8)) (Z.to_nat (io_blk_sz cx)) 0 acc)
  end.

(** The common body of [find_free_data_block_indices] and
    [find_free_inode_indices]; [bitmap_blk_num] is the length of the bitmap. *)
Definition find_free_indices (cx : mofs_ctx_t) (start bitmap_blk_num : Z) : prog (list Z) :=
  if need =? 0 then mret [] else
  bitmap_buf ← call (OpMalloc (io_blk_sz cx));
  found ← scan_blocks cx start bitmap_buf (Z.to_nat bitmap_blk_num) 0 [];
  if blen found <? need then throw MOFS_ENOSPC else mret found.
End scan.
