(* ===== verification/Inode.v ===== *)
(** * Inodes (src/core/modules/mofs_inode.c)

    Reading and writing an inode takes the core lock, which the calls of posix.c
    hold already: [locked] nests. *)

From Stdlib Require Import ZArith Lia.
From stdpp Require Import base list.
From S2P Require Import Prelude Types Platform Raw Buffer BufferSpec Ops Bitmap.

(** The update [mofs_inode_stamp_now] makes when the time is [now]. *)
Definition stamp_times (now mask : Z) (inode : mofs_inode_t) : mofs_inode_t :=
  set_i_times
    (if has_flag mask MOFS_INODE_TIME_ATIME then now else i_atime inode)
    (if has_flag mask MOFS_INODE_TIME_MTIME then now else i_mtime inode)
    (if has_flag mask MOFS_INODE_TIME_CTIME then now else i_ctime inode) inode.

Definition mofs_inode_stamp_now (inode : mofs_inode_t) (mask : Z) : prog mofs_inode_t :=
  if mask =? 0 then throw MOFS_EINVAL else
  now ← call OpNow;
  mret (stamp_times now mask inode).

(** ** Inode bitmap *)

Section inode.
Context (cx : mofs_ctx_t).
Abbreviation sb := (sp_blk cx).

Definition set_inode_bitmap_bit (inode_idx : Z) (set_used : bool) : prog unit :=
  if (inode_idx <? 3) || (inode_num sb <=? inode_idx) then throw MOFS_EINVAL else
  set_bitmap_bit cx (inode_bitmap_start sb) inode_idx set_used.

Fixpoint update_inode_bitmap_bits (inode_idx_list : list Z) (set_used : bool) : prog unit :=
  match inode_idx_list with
  | [] => mret tt
  | i :: r => ignore (set_inode_bitmap_bit i set_used);; update_inode_bitmap_bits r set_used
  end.

Definition find_free_inode_indices (required_alloc_num : Z) : prog (list Z) :=
  find_free_indices (inode_num sb) 3 required_alloc_num cx (inode_bitmap_start sb)
    (u32 (data_bitmap_start sb - inode_bitmap_start sb)).

(** ** Inode table *)

(** [inode_num * (int)sizeof(mofs_inode_t)], an [int] product. *)
Definition inode_byte (inum : Z) : Z := s32 (inum * 64).

Definition inode_blk (inum : Z) : Z := inode_table_start sb + Z.quot (inode_byte inum) (io_blk_sz cx).
Definition inode_off (inum : Z) : Z := Z.rem (inode_byte inum) (io_blk_sz cx).

Definition mofs_read_inode (inum : Z) : prog mofs_inode_t :=
  if (inum <? 0) || (inode_num sb <=? inum) then throw MOFS_EINVAL else
  buf ← call (OpMalloc (io_blk_sz cx));
  locked (
    buf ← read_full_block cx buf (inode_blk inum);
    mret (decode_inode (bslice (inode_off inum) 64 buf))).

Definition mofs_write_inode (inum : Z) (inode : mofs_inode_t) : prog unit :=
  if (inum <? 0) || (inode_num sb <=? inum) then throw MOFS_EINVAL else
  blk_buf ← call (OpMalloc (io_blk_sz cx));
  (* with the cache compiled out the call below is, like its stub, EINVAL *)
  r ← status (call (OpModify (u32 (inode_blk inum)) (u32 (inode_off inum)) (encode_inode inode)));
  match r with
  | Ok _ => mret tt
  | Err e =>
      if negb (e =? MOFS_EINVAL) then throw e else
      locked (
        blk_buf ← read_full_block cx blk_buf (inode_blk inum);
        write_full_block cx (bsplice (inode_off inum) (encode_inode inode) blk_buf) (inode_blk inum))
  | Stuck => Done Stuck
  end.

Definition mofs_inode_stamp_persist (inum mask : Z) : prog unit :=
  if (inum <? 0) || (inode_num sb <=? inum) || (mask =? 0) then throw MOFS_EINVAL else
  blk_buf ← call (OpMalloc (io_blk_sz cx));
  locked (
    blk_buf ← read_full_block cx blk_buf (inode_blk inum);
    inode ← mofs_inode_stamp_now (decode_inode (bslice (inode_off inum) 64 blk_buf)) mask;
    write_full_block cx (bsplice (inode_off inum) (encode_inode inode) blk_buf) (inode_blk inum)).

(** ** Allocation *)

Definition allocate_inode : prog Z :=
  found ← find_free_inode_indices 1;
  let idx := default 0 (head found) in
  on_error (set_inode_bitmap_bit idx true) (update_inode_bitmap_bits found false);;
  mret (s32 idx).

Definition free_inode (inum : Z) : prog unit :=
  if (inum <? 3) || (inode_num sb <=? inum) then throw MOFS_EINVAL else
  set_inode_bitmap_bit inum false;;
  on_error (mofs_write_inode inum zero_inode) (update_inode_bitmap_bits [inum] true).

End inode.
