(* ===== verification/Block.v ===== *)
(** * Data blocks of files (src/core/modules/mofs_block.c)

    The data bitmap, the on-disk list of a file's data blocks, and growing and
    shrinking a file.  A walk along list nodes is given [chain_fuel] steps, one
    more than the volume has blocks; a walk that uses them up has met the same
    node twice, and its outcome is [Stuck]. *)

From Stdlib Require Import ZArith Lia.
From stdpp Require Import base list.
From S2P Require Import Prelude Types Platform Raw Buffer BufferSpec Ops Bitmap Inode.

(** The buffer [rebuild_data_block_list] fills for one list node: [memset],
    header, pointers. *)
Definition list_node_buf (blk_sz next_abs : Z) (ptrs : list Z) : list byte :=
  le_split 4 next_abs ++ le_split 4 (blen ptrs) ++ concat (le_split 4 <$> ptrs) ++
  zeros (blk_sz - 8 - 4 * blen ptrs).

(** The pointers of a list node. *)
Definition list_ptrs (n : nat) (buf : list byte) : list Z := (fun i => list_ptr (Z.of_nat i) buf) <$> seq 0 n.

Section block.
Context (cx : mofs_ctx_t).
Abbreviation sb := (sp_blk cx).

Definition list_ptrs_cap : Z := mofs_list_ptrs_per_node (blk_size sb).

Definition abs_to_data_idx (abs_blk : Z) : prog Z :=
  if abs_blk <? data_region_start sb then throw MOFS_EIO else
  let data_idx := abs_blk - data_region_start sb in
  if data_blk_num sb <=? data_idx then throw MOFS_EIO else mret data_idx.

Definition read_list_node (abs_blk : Z) (blk_buf : list byte) : prog (list byte) := read_full_block cx blk_buf abs_blk.

Definition write_list_node (abs_blk : Z) (blk_buf : list byte) : prog unit := write_full_block cx blk_buf abs_blk.

(** ** Data bitmap *)

Definition set_data_bitmap_bit (data_idx : Z) (set_used : bool) : prog unit :=
  if data_blk_num sb <=? data_idx then throw MOFS_EINVAL else
  set_bitmap_bit cx (data_bitmap_start sb) data_idx set_used.

Fixpoint update_data_bitmap_bits (data_idx_list : list Z) (set_used : bool) : prog unit :=
  match data_idx_list with
  | [] => mret tt
  | i :: r => ignore (set_data_bitmap_bit i set_used);; update_data_bitmap_bits r set_used
  end.

Definition find_free_data_block_indices (required_alloc_num : Z) : prog (list Z) :=
  find_free_indices (data_blk_num sb) 0 required_alloc_num cx (data_bitmap_start sb)
    (u32 (inode_table_start sb - data_bitmap_start sb)).

(** The loop that marks freshly found entries used; when one update fails the
    entries marked so far ([done]) are released again. *)
Fixpoint mark_used (done todo : list Z) : prog unit :=
  match todo with
  | [] => mret tt
  | i :: r =>
      on_error (set_data_bitmap_bit i true) (update_data_bitmap_bits done false);;
      mark_used (done ++ [i]) r
  end.

(** ** List nodes *)

Definition chain_fuel : nat := S (Z.to_nat (hole_blk_num sb)).

(** The [while] loop of [free_list_chain]. *)
Fixpoint free_list_loop (fuel : nat) (node_abs : Z) (blk_buf : list byte) : prog unit :=
  match fuel with
  | O => Done Stuck
  | S fuel' =>
      if node_abs =? 0 then mret tt else
      blk_buf ← read_list_node node_abs blk_buf;
      let next_abs := hdr_next_abs blk_buf in
      data_idx ← abs_to_data_idx node_abs;
      set_data_bitmap_bit data_idx false;;
      ignore (call (OpInvalidate node_abs));;
      free_list_loop fuel' next_abs blk_buf
  end.

Definition free_list_chain (head_abs : Z) : prog unit :=
  if head_abs =? 0 then mret tt else
  blk_buf ← call (OpMalloc (io_blk_sz cx));
  free_list_loop chain_fuel head_abs blk_buf.

(** The loops of [export_data_block_list]: [out] is [abs_out[0..out_idx)]. *)
Fixpoint export_loop (nr_blocks : Z) (fuel : nat) (node_abs : Z) (blk_buf : list byte) (out : list Z) : prog (list Z) :=
  match fuel with
  | O => Done Stuck
  | S fuel' =>
      if node_abs =? 0 then mret out else
      blk_buf ← read_list_node node_abs blk_buf;
      if list_ptrs_cap <? hdr_nr_ptrs blk_buf then throw MOFS_EIO else
      (* the copy loop stops with EIO at the first pointer beyond the count *)
      if nr_blocks <? blen out + hdr_nr_ptrs blk_buf then throw MOFS_EIO else
      export_loop nr_blocks fuel' (hdr_next_abs blk_buf) blk_buf
        (out ++ list_ptrs (Z.to_nat (hdr_nr_ptrs blk_buf)) blk_buf)
  end.

(** [export_data_block_list(inode, abs_out, abs_cap)] with a non-NULL array. *)
Definition export_data_block_list (inode : mofs_inode_t) (abs_cap : Z) : prog (list Z) :=
  if i_nr_blocks inode =? 0 then mret [] else
  if (i_data_head inode =? 0) || (abs_cap <? i_nr_blocks inode) then throw MOFS_EINVAL else
  if list_ptrs_cap =? 0 then throw MOFS_EINVAL else
  blk_buf ← call (OpMalloc (io_blk_sz cx));
  out ← export_loop (i_nr_blocks inode) chain_fuel (i_data_head inode) blk_buf [];
  if negb (blen out =? i_nr_blocks inode) then throw MOFS_EIO else mret out.

Definition list_nodes_for_block_count (nr_blocks : Z) : Z :=
  if nr_blocks =? 0 then 0 else
  if list_ptrs_cap =? 0 then 0 else
  u32 (nr_blocks + list_ptrs_cap - 1) / list_ptrs_cap.

(** The loop of [rebuild_data_block_list] that fills and writes the nodes
    [idxs]; [rest] is [abs_list] from [abs_idx] on, [all] every node. *)
Fixpoint write_nodes (all idxs rest : list Z) : prog unit :=
  match idxs with
  | [] => mret tt
  | i :: r =>
      let node_abs := u32 (data_region_start sb + i) in
      let nr_in_node := Z.min (blen rest) list_ptrs_cap in
      let next_abs := match r with [] => 0 | j :: _ => u32 (data_region_start sb + j) end in
      let blk_buf := list_node_buf (io_blk_sz cx) next_abs (take (Z.to_nat nr_in_node) rest) in
      on_error (write_list_node node_abs blk_buf) (update_data_bitmap_bits all false);;
      write_nodes all r (drop (Z.to_nat nr_in_node) rest)
  end.

(** [rebuild_data_block_list]: the updated inode and the previous head. *)
Definition rebuild_data_block_list (inode : mofs_inode_t) (abs_list : list Z) : prog (mofs_inode_t * Z) :=
  let nr_blocks := blen abs_list in
  let needed_nodes := list_nodes_for_block_count nr_blocks in
  let old_head := i_data_head inode in
  if nr_blocks =? 0 then mret (set_i_map 0 0 inode, old_head) else
  if needed_nodes =? 0 then throw MOFS_EINVAL else
  call (OpMalloc (u32 (needed_nodes * 4)));;
  list_node_idx ← find_free_data_block_indices needed_nodes;
  mark_used [] list_node_idx;;
  on_error (call (OpMalloc (io_blk_sz cx))) (update_data_bitmap_bits list_node_idx false);;
  write_nodes list_node_idx list_node_idx abs_list;;
  let head_abs := u32 (data_region_start sb + default 0 (head list_node_idx)) in
  mret (set_i_map head_abs nr_blocks inode, old_head).

(** The loop of [resolve_file_data_block]. *)
Fixpoint resolve_loop (fuel : nat) (node_abs remain : Z) (blk_buf : list byte) : prog Z :=
  match fuel with
  | O => Done Stuck
  | S fuel' =>
      if node_abs =? 0 then throw MOFS_EIO else
      blk_buf ← read_list_node node_abs blk_buf;
      if list_ptrs_cap <? hdr_nr_ptrs blk_buf then throw MOFS_EIO else
      if remain <? hdr_nr_ptrs blk_buf then mret (list_ptr remain blk_buf) else
      resolve_loop fuel' (hdr_next_abs blk_buf) (remain - hdr_nr_ptrs blk_buf) blk_buf
  end.

Definition resolve_file_data_block (inum file_blk_idx : Z) : prog Z :=
  if inum <? 0 then throw MOFS_EINVAL else
  inode ← mofs_read_inode cx inum;
  if i_nr_blocks inode <=? file_blk_idx then throw MOFS_EINVAL else
  if i_data_head inode =? 0 then throw MOFS_EIO else
  blk_buf ← call (OpMalloc (io_blk_sz cx));
  resolve_loop chain_fuel (i_data_head inode) file_blk_idx blk_buf.

(** ** Growing and shrinking a file *)

(** Two allocations of which the first is only checked after the second. *)
Definition malloc_both (n m : Z) : prog unit :=
  r1 ← status (call (OpMalloc n));
  r2 ← status (call (OpMalloc m));
  match r1, r2 with
  | Ok _, Ok _ => mret tt
  | _, Err e => throw e
  | Err e, _ => throw e
  | _, _ => Done Stuck
  end.

(** The end of [allocate_data_block] and of [free_data_block]: write the list
    anew, let the inode point to it, free the old list.  [undo] is what each of
    them does when a step fails. *)
Definition relink (inum : Z) (inode : mofs_inode_t) (abs_list : list Z) (undo : prog unit) : prog unit :=
  '(inode', old_head) ← on_error (rebuild_data_block_list inode abs_list) undo;
  on_error (mofs_write_inode cx inum inode') (ignore (free_list_chain (i_data_head inode'));; undo);;
  if negb (old_head =? 0) then ignore (free_list_chain old_head) else mret tt.

Definition allocate_data_block (inum req_blk_num : Z) : prog unit :=
  if inum <? 0 then throw MOFS_EINVAL else
  if req_blk_num =? 0 then mret tt else
  inode ← mofs_read_inode cx inum;
  let new_total := u32 (i_nr_blocks inode + req_blk_num) in
  if MOFS_MAX_FILE_DATA_BLOCKS <? new_total then throw MOFS_ENOSPC else
  malloc_both (u32 (new_total * 4)) (u32 (req_blk_num * 4));;
  flat_abs ← (if 0 <? i_nr_blocks inode then export_data_block_list inode (i_nr_blocks inode) else mret []);
  new_data_idx ← find_free_data_block_indices req_blk_num;
  mark_used [] new_data_idx;;
  let flat_abs := flat_abs ++ ((fun i => u32 (data_region_start sb + i)) <$> new_data_idx) in
  relink inum inode flat_abs (update_data_bitmap_bits new_data_idx false).

(** The loop of [free_data_block] that releases the blocks of a range. *)
Fixpoint release_blocks (abs_list : list Z) : prog unit :=
  match abs_list with
  | [] => mret tt
  | b :: r =>
      data_idx ← abs_to_data_idx b;
      set_data_bitmap_bit data_idx false;;
      ignore (call (OpInvalidate b));;
      release_blocks r
  end.

(** [rollback_bitmap:] of [free_data_block]. *)
Definition rollback_bitmap (abs_list : list Z) : prog unit :=
  update_data_bitmap_bits ((fun b => u32 (b - data_region_start sb)) <$> abs_list) true.

Definition free_data_block (inum start_blk_num req_blk_num : Z) : prog unit :=
  if inum <? 0 then throw MOFS_EINVAL else
  if req_blk_num =? 0 then mret tt else
  inode ← mofs_read_inode cx inum;
  if i_nr_blocks inode <=? start_blk_num then throw MOFS_EINVAL else
  let free_blk_num := if i_nr_blocks inode <? u32 (start_blk_num + req_blk_num)
                      then i_nr_blocks inode - start_blk_num else req_blk_num in
  let remain_num := u32 (i_nr_blocks inode - free_blk_num) in
  call (OpMalloc (u32 (i_nr_blocks inode * 4)));;
  flat_abs ← export_data_block_list inode (i_nr_blocks inode);
  let freed := bslice start_blk_num free_blk_num flat_abs in
  release_blocks freed;;
  (if 0 <? remain_num then on_error (call (OpMalloc (u32 (remain_num * 4)))) (rollback_bitmap freed);; mret tt else mret tt);;
  let compact_abs := take (Z.to_nat start_blk_num) flat_abs ++ drop (Z.to_nat (start_blk_num + free_blk_num)) flat_abs in
  relink inum inode compact_abs (rollback_bitmap freed).

End block.
