(* ===== verification/FileData.v ===== *)
(** * Block-wise access to file contents (src/core/modules/mofs_file.c)

    [read_file_data_block] and [write_file_data_block]: logical blocks of a
    file, through the on-disk block list. *)

From Stdlib Require Import ZArith Lia.
From stdpp Require Import base list.
From S2P Require Import Prelude Types Platform Raw Buffer BufferSpec Ops Bitmap Inode Block.

Section filedata.
Context (cx : mofs_ctx_t).
Abbreviation sb := (sp_blk cx).
Abbreviation bs := (blk_size (sp_blk cx)).

(** [(size + blk_size - 1U) / blk_size] in 32-bit arithmetic. *)
Definition size_blks (size : Z) : Z := u32 (size + bs - 1) / bs.

(** The read loop: [i] blocks done, [n] to go; [buf] points at block [i]. *)
Fixpoint read_file_loop (inum start : Z) (n : nat) (i : Z) (buf : list byte) : prog (Z * Z * list byte) :=
  match n with
  | O => mret (i, 0, buf)
  | S n' =>
      abs_blk_num ← resolve_file_data_block cx inum (u32 (start + i));
      let done := take (Z.to_nat (i * bs)) buf in
      '(read_one, read_fraction, rest) ← call (OpRead (dev_fd cx) (drop (Z.to_nat (i * bs)) buf) 1 abs_blk_num);
      let buf := done ++ rest in
      if negb (read_fraction =? 0) then mret (i, read_fraction, buf) else
      if negb (read_one =? 1) then throw MOFS_EIO else
      read_file_loop inum start n' (i + 1) buf
  end.

(** [read_file_data_block]: (read_blk_num, fraction, buf). *)
Definition read_file_data_block (inum : Z) (buf : list byte) (start_blk_num req_blk_num : Z) : prog (Z * Z * list byte) :=
  if inum <? 0 then throw MOFS_EINVAL else
  if req_blk_num =? 0 then mret (0, 0, buf) else
  inode ← mofs_read_inode cx inum;
  let nblks := size_blks (i_size inode) in
  if (i_nr_blocks inode <=? start_blk_num) || (nblks <=? start_blk_num) then mret (0, 0, buf) else
  let req := if nblks <? u32 (start_blk_num + req_blk_num) then nblks - start_blk_num else req_blk_num in
  '(read_blk_num, fraction, buf) ← read_file_loop inum start_blk_num (Z.to_nat req) 0 buf;
  if (fraction =? 0) && (i_size inode / bs <? u32 (start_blk_num + read_blk_num))
  then mret (u32 (read_blk_num - 1), i_size inode mod bs, buf)
  else mret (read_blk_num, fraction, buf).

Fixpoint write_file_loop (inum start : Z) (n : nat) (i : Z) (buf : list byte) : prog (Z * Z) :=
  match n with
  | O => mret (i, 0)
  | S n' =>
      abs_blk_num ← resolve_file_data_block cx inum (u32 (start + i));
      if (abs_blk_num <? data_region_start sb) || (u32 (data_region_start sb + data_blk_num sb) <=? abs_blk_num)
      then throw MOFS_EINVAL else
      '(written_one, written_fraction) ← call (OpWrite (dev_fd cx) (drop (Z.to_nat (i * bs)) buf) 1 abs_blk_num);
      if negb (written_fraction =? 0) then mret (i, written_fraction) else
      if negb (written_one =? 1) then throw MOFS_EIO else
      write_file_loop inum start n' (i + 1) buf
  end.

(** [write_file_data_block]: (written_blk_num, fraction). *)
Definition write_file_data_block (inum : Z) (buf : list byte) (start_blk_num req_blk_num : Z) : prog (Z * Z) :=
  if inum <? 0 then throw MOFS_EINVAL else
  if req_blk_num =? 0 then mret (0, 0) else
  inode ← mofs_read_inode cx inum;
  if i_nr_blocks inode <=? start_blk_num then throw MOFS_EINVAL else
  let req := if i_nr_blocks inode - start_blk_num <? req_blk_num then i_nr_blocks inode - start_blk_num else req_blk_num in
  write_file_loop inum start_blk_num (Z.to_nat req) 0 buf.

End filedata.
