(* ===== verification/Perm.v ===== *)
(** * Permission checks (src/core/modules/mofs_perm.c) *)

From Stdlib Require Import ZArith Lia.
From stdpp Require Import base list.
From S2P Require Import Prelude Types Platform Raw Buffer BufferSpec Ops.

(** [mofs_is_caller_in_group], over the services of the core. *)
Definition caller_in_group (g : Z) : prog bool := u ← call OpUser; mret (user_in_group u g).

(** The first half of [mofs_check_open_permission]: [open_perm_flags], or the
    error that a combination of access modes gives. *)
Definition open_perm_flags (flags : Z) : res Z :=
  if Z.land flags MOFS_OFLAG_ACCMODE =? 0 then Err MOFS_EINVAL else
  let set f := Z.land flags f =? f in
  let st := if set MOFS_OFLAG_EXEC then Some MOFS_OFLAG_EXEC else None in
  res_bind (if set MOFS_OFLAG_SEARCH
            then match st with Some _ => Err MOFS_EINVAL | None => Ok (Some MOFS_OFLAG_SEARCH) end
            else Ok st) (fun st =>
  res_bind (if set MOFS_OFLAG_RDONLY
            then match st with Some _ => Err MOFS_EINVAL | None => Ok (Some MOFS_OFLAG_RDONLY) end
            else Ok st) (fun st =>
  res_bind (if set MOFS_OFLAG_WRONLY
            then match st with
                 | Some f => if f =? MOFS_OFLAG_RDONLY then Ok (Some MOFS_OFLAG_RDWR) else Err MOFS_EINVAL
                 | None => Ok (Some MOFS_OFLAG_WRONLY)
                 end
            else Ok st) (fun st =>
  Ok (default 0 st)))).

(** The mode bits (read, write, execute) that apply to the caller. *)
Definition perm_class (is_owner is_member : bool) : Z * Z * Z :=
  if is_owner then (MOFS_S_IRUSR, MOFS_S_IWUSR, MOFS_S_IXUSR)
  else if is_member then (MOFS_S_IRGRP, MOFS_S_IWGRP, MOFS_S_IXGRP)
  else (MOFS_S_IROTH, MOFS_S_IWOTH, MOFS_S_IXOTH).

(** The second half: 0 or [MOFS_EACCES]. *)
Definition perm_denied (op_flags mode : Z) (cls : Z * Z * Z) : bool :=
  let '(is_read, is_write, is_execute) := cls in
  if op_flags =? MOFS_OFLAG_RDONLY then Z.land mode is_read =? 0
  else if op_flags =? MOFS_OFLAG_WRONLY then Z.land mode is_write =? 0
  else if op_flags =? MOFS_OFLAG_RDWR then (Z.land mode is_read =? 0) || (Z.land mode is_write =? 0)
  else if op_flags =? MOFS_OFLAG_EXEC then Z.land mode is_execute =? 0
  else if op_flags =? MOFS_OFLAG_SEARCH then Z.land mode is_execute =? 0
  else false.

Definition mofs_check_open_permission (flags : Z) (user : mofs_user_ctx_t) (inode : mofs_inode_t) : prog unit :=
  op_flags ← Done (open_perm_flags flags);
  is_member ← caller_in_group (i_gid inode);
  if perm_denied op_flags (i_mode inode) (perm_class (uid user =? i_uid inode) is_member)
  then throw MOFS_EACCES else mret tt.

Definition mofs_check_dir_traverse (user : mofs_user_ctx_t) (dir_inode : mofs_inode_t) : prog unit :=
  mofs_check_open_permission MOFS_OFLAG_SEARCH user dir_inode.

Definition mofs_check_dir_read (user : mofs_user_ctx_t) (dir_inode : mofs_inode_t) : prog unit :=
  mofs_check_open_permission MOFS_OFLAG_RDONLY user dir_inode.

Definition mofs_check_dir_write (user : mofs_user_ctx_t) (dir_inode : mofs_inode_t) : prog unit :=
  mofs_check_open_permission MOFS_OFLAG_WRONLY user dir_inode;;
  mofs_check_dir_traverse user dir_inode.

(** [mofs_get_caller_user(&user)] with the check of [user.valid] that follows
    it everywhere. *)
Definition require_caller_user : prog mofs_user_ctx_t :=
  user ← call OpUser;
  if u_valid user then mret user else throw MOFS_EPERM.
