(* ===== verification/Dirent.v ===== *)
(** * Directory entries (src/core/modules/mofs_dir.c)

    Searching, adding and removing entries of one directory.  A directory is a
    file whose contents are an array of 32-byte entries; removal leaves a
    zeroed slot (tombstone) that a later addition reuses. *)

From Stdlib Require Import ZArith Lia.
From stdpp Require Import base list.
From S2P Require Import Prelude Types Platform Raw Buffer BufferSpec Ops Bitmap Inode Block FileData.

Definition dot : cstr := [byte.of_Z 46].
Definition dotdot : cstr := [byte.of_Z 46; byte.of_Z 46].

Definition is_dot_or_dotdot_name (name : cstr) : bool := mofs_strcmp_eq name dot || mofs_strcmp_eq name dotdot.

(** The first [n] entries of a directory block. *)
Definition dirents (n : nat) (buf : list byte) : list mofs_dirent_t := (fun j => dirent_at (Z.of_nat j) buf) <$> seq 0 n.

(** [name[0] != '\0'] *)
Definition name_set (d : mofs_dirent_t) : bool := negb (bool_decide (c_str (d_name d) = [])).
Definition has_name (component : cstr) (d : mofs_dirent_t) : bool := mofs_strcmp_eq (c_str (d_name d)) component.
Definition in_use (d : mofs_dirent_t) : bool := negb (d_inode_num d =? 0).

(** A full block, or a short last one. *)
Definition dir_read_ok (read_blk_num fraction : Z) : bool :=
  ((read_blk_num =? 1) && (fraction =? 0)) || ((read_blk_num =? 0) && negb (fraction =? 0)).

Section dirent.
Context (cx : mofs_ctx_t).
Abbreviation sb := (sp_blk cx).
Abbreviation bs := (blk_size (sp_blk cx)).

(** The number of entries the block just read holds. *)
Definition dirent_num (fraction : Z) : nat :=
  Z.to_nat (if negb (fraction =? 0) then fraction / sizeof_dirent else bs / sizeof_dirent).

Definition write_dot_entries (child_inode_num parent_inode_num : Z) : prog unit :=
  call (OpMalloc bs);;
  let blk_buf := zeros bs in
  let blk_buf := put_dirent 0 (mkDirent (name_field dot) (u32 child_inode_num)) blk_buf in
  let blk_buf := put_dirent 1 (mkDirent (name_field dotdot) (u32 parent_inode_num)) blk_buf in
  '(written, fraction) ← write_file_data_block cx child_inode_num blk_buf 0 1;
  if negb (written =? 1) || negb (fraction =? 0) then throw MOFS_EIO else mret tt.

(** The block loop of [is_directory_empty]. *)
Fixpoint is_empty_loop (inum : Z) (n : nat) (blk_idx : Z) (buf : list byte) : prog bool :=
  match n with
  | O => mret true
  | S n' =>
      '(rd, fraction, buf) ← read_file_data_block cx inum buf blk_idx 1;
      if negb (dir_read_ok rd fraction) then throw MOFS_EIO else
      if existsb (fun d => in_use d && name_set d && negb (is_dot_or_dotdot_name (c_str (d_name d))))
           (dirents (dirent_num fraction) buf)
      then mret false
      else is_empty_loop inum n' (blk_idx + 1) buf
  end.

Definition is_directory_empty (inum : Z) : prog bool :=
  if inum <? 0 then throw MOFS_EINVAL else
  inode ← mofs_read_inode cx inum;
  if negb (has_flag (i_mode inode) MOFS_FTYPE_DIR) then throw MOFS_ENOTDIR else
  buf ← call (OpMalloc bs);
  is_empty_loop inum (Z.to_nat (size_blks cx (i_size inode))) 0 buf.

(** The block loop of [find_dir_entry]. *)
Fixpoint find_entry_loop (component : cstr) (parent : Z) (n : nat) (i : Z) (buf : list byte) : prog Z :=
  match n with
  | O => throw MOFS_ENOENT
  | S n' =>
      '(_, fraction, buf) ← read_file_data_block cx parent buf i 1;
      match find_idx (has_name component) (dirents (dirent_num fraction) buf) with
      | Some j => mret (s32 (d_inode_num (dirent_at (Z.of_nat j) buf)))
      | None => find_entry_loop component parent n' (i + 1) buf
      end
  end.

Definition find_dir_entry (component : cstr) (parent_inode_num : Z) : prog Z :=
  if parent_inode_num <? 0 then throw MOFS_EINVAL else
  buf ← call (OpMalloc bs);
  inode ← mofs_read_inode cx parent_inode_num;
  find_entry_loop component parent_inode_num (Z.to_nat (s32 (size_blks cx (i_size inode)))) 0 buf.

(** The block loop of [remove_dir_entry]. *)
Fixpoint remove_entry_loop (component : cstr) (parent : Z) (n : nat) (blk_idx : Z) (buf : list byte) : prog unit :=
  match n with
  | O => throw MOFS_ENOENT
  | S n' =>
      '(rd, fraction, buf) ← read_file_data_block cx parent buf blk_idx 1;
      if negb (dir_read_ok rd fraction) then throw MOFS_EIO else
      match find_idx (fun d => in_use d && has_name component d) (dirents (dirent_num fraction) buf) with
      | Some j =>
          '(written, fraction) ← write_file_data_block cx parent (put_dirent (Z.of_nat j) zero_dirent buf) blk_idx 1;
          if negb (written =? 1) || negb (fraction =? 0) then throw MOFS_EIO else mret tt
      | None => remove_entry_loop component parent n' (blk_idx + 1) buf
      end
  end.

Definition remove_dir_entry (component : cstr) (parent_inode_num : Z) : prog unit :=
  if bool_decide (component = []) || (parent_inode_num <? 0) then throw MOFS_EINVAL else
  buf ← call (OpMalloc bs);
  parent_inode ← mofs_read_inode cx parent_inode_num;
  if negb (has_flag (i_mode parent_inode) MOFS_FTYPE_DIR) then throw MOFS_ENOTDIR else
  remove_entry_loop component parent_inode_num (Z.to_nat (s32 (size_blks cx (i_size parent_inode)))) 0 buf;;
  parent_inode ← mofs_inode_stamp_now parent_inode (Z.lor MOFS_INODE_TIME_MTIME MOFS_INODE_TIME_CTIME);
  mofs_write_inode cx parent_inode_num parent_inode.

Definition entries_per_blk : Z := bs / sizeof_dirent.

(** The first pass of [add_dir_entry]: [MOFS_EEXIST] on a duplicate, otherwise
    the first reusable slot. *)
Fixpoint add_scan_loop (component : cstr) (parent : Z) (n : nat) (blk_idx : Z) (buf : list byte) (reusable : option Z) : prog (option Z * list byte) :=
  match n with
  | O => mret (reusable, buf)
  | S n' =>
      '(rd, fraction, buf) ← read_file_data_block cx parent buf blk_idx 1;
      if negb (dir_read_ok rd fraction) then throw MOFS_EIO else
      let ds := dirents (dirent_num fraction) buf in
      if existsb (fun d => in_use d && name_set d && has_name component d) ds then throw MOFS_EEXIST else
      let reusable := match reusable with
        | Some r => Some r
        | None => (fun j => blk_idx * entries_per_blk + Z.of_nat j) <$> find_idx (fun d => negb (in_use d) || negb (name_set d)) ds
        end in
      add_scan_loop component parent n' (blk_idx + 1) buf reusable
  end.

(** The middle part of [add_dir_entry]: the block that gets the entry, either
    a new one appended to the directory or an existing one. *)
Definition add_target_block (parent_inode_num old_blk_num target_blk_idx : Z) (dirent_buf : list byte) : prog (bool * list byte) :=
  if old_blk_num <=? target_blk_idx then
    if MOFS_MAX_FILE_DATA_BLOCKS <=? old_blk_num then throw MOFS_EFBIG else
    allocate_data_block cx parent_inode_num 1;;
    mret (true, zeros bs)
  else
    '(rd, fraction, dirent_buf) ← read_file_data_block cx parent_inode_num dirent_buf target_blk_idx 1;
    if negb (dir_read_ok rd fraction) then throw MOFS_EIO else mret (false, dirent_buf).

Definition add_dir_entry (component : cstr) (parent_inode_num child_inode_num : Z) : prog unit :=
  let name_len := blen component in
  if bool_decide (component = []) || (parent_inode_num <? 0) || (child_inode_num <=? 0) || (inode_num sb <=? child_inode_num)
  then throw MOFS_EINVAL else
  if (name_len =? 0) || (MOFS_FILENAME_LEN <=? name_len) then throw MOFS_EINVAL else
  dirent_buf ← call (OpMalloc bs);
  parent_inode ← mofs_read_inode cx parent_inode_num;
  if negb (has_flag (i_mode parent_inode) MOFS_FTYPE_DIR) then throw MOFS_ENOTDIR else
  if negb (i_size parent_inode mod sizeof_dirent =? 0) then throw MOFS_EIO else
  let old_blk_num := size_blks cx (i_size parent_inode) in
  let append_entry_idx := i_size parent_inode / sizeof_dirent in
  if MOFS_MAX_FILE_DATA_BLOCKS * entries_per_blk <=? append_entry_idx then throw MOFS_EFBIG else
  '(reusable, dirent_buf) ← add_scan_loop component parent_inode_num (Z.to_nat old_blk_num) 0 dirent_buf None;
  let target_entry_idx := default append_entry_idx reusable in
  let target_blk_idx := target_entry_idx / entries_per_blk in
  let target_in_blk := target_entry_idx mod entries_per_blk in
  '(allocated_newblk, dirent_buf) ← add_target_block parent_inode_num old_blk_num target_blk_idx dirent_buf;
  let dirent_buf := put_dirent target_in_blk (mkDirent (name_field component) (u32 child_inode_num)) dirent_buf in
  on_error
    ('(written, fraction) ← write_file_data_block cx parent_inode_num dirent_buf target_blk_idx 1;
     if negb ((written =? 1) && (fraction =? 0)) then throw MOFS_EIO else
     let parent_inode := match reusable with
       | Some _ => parent_inode
       | None => set_i_size (u32 (i_size parent_inode + sizeof_dirent)) parent_inode
       end in
     parent_inode ← mofs_inode_stamp_now parent_inode (Z.lor MOFS_INODE_TIME_MTIME MOFS_INODE_TIME_CTIME);
     mofs_write_inode cx parent_inode_num parent_inode)
    (if (allocated_newblk : bool) then ignore (free_data_block cx parent_inode_num target_blk_idx 1) else mret tt).

(** The slot that holds [..] in the first block of a directory. *)
Definition dotdot_slot (buf : list byte) : option nat :=
  find_idx (fun d => in_use d && has_name dotdot d) (dirents (Z.to_nat entries_per_blk) buf).

(** The common first half of [read_dotdot_parent] and [rewrite_dotdot]. *)
Definition read_dot_block (dir_inode : Z) : prog (list byte * nat) :=
  buf ← call (OpMalloc bs);
  '(rd, fraction, buf) ← read_file_data_block cx dir_inode buf 0 1;
  if negb (rd =? 1) || negb (fraction =? 0) then throw MOFS_EIO else
  match dotdot_slot buf with Some j => mret (buf, j) | None => throw MOFS_EIO end.

Definition read_dotdot_parent (dir_inode : Z) : prog Z :=
  '(buf, slot) ← read_dot_block dir_inode;
  mret (s32 (d_inode_num (dirent_at (Z.of_nat slot) buf))).

Definition rewrite_dotdot (dir_inode new_parent : Z) : prog unit :=
  '(buf, slot) ← read_dot_block dir_inode;
  let d := dirent_at (Z.of_nat slot) buf in
  '(written, fraction) ← write_file_data_block cx dir_inode
     (put_dirent (Z.of_nat slot) (mkDirent (d_name d) (u32 new_parent)) buf) 0 1;
  if negb (written =? 1) || negb (fraction =? 0) then throw MOFS_EIO else mret tt.

(** The [while] loop of [directory_is_ancestor]; [n] is [inode_num - guard]. *)
Fixpoint ancestor_loop (ancestor : Z) (n : nat) (cursor : Z) : prog bool :=
  match n with
  | O => mret false
  | S n' =>
      if cursor =? ancestor then mret true else
      if cursor =? MOFS_ROOT_INODE_NUM then mret false else
      parent ← read_dotdot_parent cursor;
      if parent =? cursor then mret false else
      ancestor_loop ancestor n' parent
  end.

Definition directory_is_ancestor (ancestor start : Z) : prog bool :=
  ancestor_loop ancestor (Z.to_nat (inode_num sb)) start.

Definition adjust_dir_nlink (inum delta : Z) : prog unit :=
  inode ← mofs_read_inode cx inum;
  if (delta <? 0) && (i_links inode =? 0) then throw MOFS_EIO else
  inode ← mofs_inode_stamp_now (set_i_links (u16 (i_links inode + delta)) inode)
            (Z.lor MOFS_INODE_TIME_MTIME MOFS_INODE_TIME_CTIME);
  mofs_write_inode cx inum inode.

End dirent.
