(* ===== verification/Path.v ===== *)
(** * Path resolution (src/core/modules/mofs_path.c) *)

From Stdlib Require Import ZArith Lia.
From stdpp Require Import base list.
From S2P Require Import Prelude Types Platform Raw Buffer BufferSpec Ops Bitmap Inode Block FileData Perm Dirent.

Definition MOFS_PATH_RESOLVE_INODE : Z := 1.
Definition MOFS_PATH_RESOLVE_PARENT : Z := 2.
Definition MOFS_PATH_ALLOW_MISSING_LEAF : Z := 4.
Definition MOFS_PATH_CHECK_ACCESS : Z := 8.

Record mofs_path_info_t := mkPathInfo {
  parent_inode_num : Z;
  leaf_inode_num : Z;
  leaf_found : bool;
  leaf_name : cstr
}.

Definition slash : byte := byte.of_Z 47.

(** The tokens that repeated [mofs_strtok(_, "/")] yields: the maximal runs of
    other bytes, [cur] (reversed) being the run read so far. *)
Fixpoint strtok_from (cur : cstr) (s : cstr) : list cstr :=
  let emit := match cur with [] => [] | _ => [rev cur] end in
  match s with
  | [] => emit
  | c :: r => if bool_decide (c = slash) then emit ++ strtok_from [] r else strtok_from (c :: cur) r
  end.
Definition strtok_slash (s : cstr) : list cstr := strtok_from [] s.

Section path.
Context (cx : mofs_ctx_t).

Definition check_parent_traverse (check_access : bool) (user : mofs_user_ctx_t) (parent : Z) : prog unit :=
  if negb check_access then mret tt else
  if parent =? MOFS_ROOT_INODE_NUM then mret tt else
  inode ← mofs_read_inode cx parent;
  if negb (has_flag (i_mode inode) MOFS_FTYPE_DIR) then throw MOFS_ENOTDIR else
  mofs_check_dir_traverse user inode.

(** The treatment of the last component in [mofs_resolve_path]. *)
Definition resolve_leaf (flags : Z) (user : mofs_user_ctx_t) (parent : Z) (current : cstr) : prog mofs_path_info_t :=
  if MOFS_FILENAME_LEN <=? blen current then throw MOFS_ENAMETOOLONG else
  let pinfo := if has_flag flags MOFS_PATH_RESOLVE_PARENT then parent else -1 in
  if negb (has_flag flags MOFS_PATH_RESOLVE_INODE) then mret (mkPathInfo pinfo (-1) false current) else
  check_parent_traverse (has_flag flags MOFS_PATH_CHECK_ACCESS) user parent;;
  r ← status (find_dir_entry cx current parent);
  match r with
  | Ok child =>
      if 0 <=? child then mret (mkPathInfo pinfo child true current)
      else if has_flag flags MOFS_PATH_ALLOW_MISSING_LEAF then mret (mkPathInfo pinfo (-1) false current)
      else throw MOFS_ENOENT
  | _ =>
      if has_flag flags MOFS_PATH_ALLOW_MISSING_LEAF then mret (mkPathInfo pinfo (-1) false current)
      else throw MOFS_ENOENT
  end.

(** The component loop of [mofs_resolve_path]. *)
Fixpoint resolve_components (flags : Z) (user : mofs_user_ctx_t) (parent : Z) (tokens : list cstr) : prog mofs_path_info_t :=
  match tokens with
  | [] => throw MOFS_EINVAL
  | [current] => resolve_leaf flags user parent current
  | current :: next =>
      check_parent_traverse (has_flag flags MOFS_PATH_CHECK_ACCESS) user parent;;
      r ← status (find_dir_entry cx current parent);
      match r with
      | Ok child => if child <? 0 then throw MOFS_ENOENT else resolve_components flags user child next
      | _ => throw MOFS_ENOENT
      end
  end.

(** The credentials of a caller that was not asked for: never looked at. *)
Definition no_user : mofs_user_ctx_t := mkUser 0 0 0 [] false.

Definition mofs_resolve_path (path : option cstr) (flags : Z) : prog mofs_path_info_t :=
  match path with
  | None => throw MOFS_EINVAL
  | Some p =>
      if negb (bool_decide (head p = Some slash)) then throw MOFS_EINVAL else
      if negb (has_flag flags MOFS_PATH_RESOLVE_INODE) && negb (has_flag flags MOFS_PATH_RESOLVE_PARENT)
      then throw MOFS_EINVAL else
      if has_flag flags MOFS_PATH_ALLOW_MISSING_LEAF && negb (has_flag flags MOFS_PATH_RESOLVE_INODE)
      then throw MOFS_EINVAL else
      user ← (if has_flag flags MOFS_PATH_CHECK_ACCESS then require_caller_user else mret no_user);
      if mofs_strcmp_eq p [slash] then
        if has_flag flags MOFS_PATH_RESOLVE_PARENT then throw MOFS_EINVAL
        else mret (mkPathInfo (-1) MOFS_ROOT_INODE_NUM true [])
      else
      call (OpMalloc (u32 (blen p + 1)));;
      resolve_components flags user MOFS_ROOT_INODE_NUM (strtok_slash p)
  end.

Definition mofs_path_to_inode_num (path : option cstr) : prog Z :=
  path_info ← mofs_resolve_path path (Z.lor MOFS_PATH_RESOLVE_INODE MOFS_PATH_CHECK_ACCESS);
  mret (leaf_inode_num path_info).

Definition mofs_path_to_parent_and_component (path : option cstr) : prog (Z * cstr) :=
  path_info ← mofs_resolve_path path (Z.lor MOFS_PATH_RESOLVE_PARENT MOFS_PATH_CHECK_ACCESS);
  mret (parent_inode_num path_info, leaf_name path_info).

End path.
