(* ===== verification/File.v ===== *)
(** * File operations (src/core/modules/mofs_file.c)

    Handles are indices into [filehandle_pool]; a NULL handle is [None].
    Output buffers are returned; buffer arguments are not NULL. *)

From Stdlib Require Import ZArith Lia.
From stdpp Require Import base list.
From S2P Require Import Prelude Types Platform Raw Buffer BufferSpec Ops Bitmap Inode Block FileData Perm Dirent Path.

(** The resolve flags of the operations that create, respectively remove, the leaf. *)
Definition resolve_new : Z :=
  Z.lor (Z.lor (Z.lor MOFS_PATH_RESOLVE_PARENT MOFS_PATH_RESOLVE_INODE) MOFS_PATH_ALLOW_MISSING_LEAF) MOFS_PATH_CHECK_ACCESS.
Definition resolve_old : Z :=
  Z.lor (Z.lor MOFS_PATH_RESOLVE_PARENT MOFS_PATH_RESOLVE_INODE) MOFS_PATH_CHECK_ACCESS.

(** [mode & 0777U] *)
Definition perm_bits (mode : Z) : Z := Z.land mode 0x1FF.

(** ** Handle pool *)

Definition get_free_filehandle_index (pool : list mofs_filehandle) : option nat := find_idx (fun f => negb (fh_used f)) pool.

(** The handle behind a pointer, or [MOFS_EINVAL] for NULL and closed handles. *)
Definition get_handle (h : option nat) : prog (nat * mofs_filehandle) :=
  match h with
  | None => throw MOFS_EINVAL
  | Some i =>
      pool ← call OpGetFiles;
      match pool !! i with
      | Some f => if fh_used f then mret (i, f) else throw MOFS_EINVAL
      | None => throw MOFS_EINVAL
      end
  end.

Definition put_handle (i : nat) (f : mofs_filehandle) : prog unit :=
  pool ← call OpGetFiles; call (OpSetFiles (<[i := f]> pool)).

Definition set_file_offset (i : nat) (off : Z) : prog unit :=
  pool ← call OpGetFiles;
  call (OpSetFiles (alter (fun f => mkFile (fh_used f) (fh_inode_num f) (u32 off) (open_flags f)) i pool)).

Section file.
Context (cx : mofs_ctx_t).
Abbreviation sb := (sp_blk cx).
Abbreviation bs := (blk_size (sp_blk cx)).

Definition mofs_max_file_bytes : Z := MOFS_MAX_FILE_DATA_BLOCKS * bs.

(** ** Creation and removal *)

Definition mofs_create_core (path : option cstr) (mode : Z) : prog Z :=
  path_info ← mofs_resolve_path cx path resolve_new;
  if leaf_found path_info then throw MOFS_EEXIST else
  user ← require_caller_user;
  parent_inode ← mofs_read_inode cx (parent_inode_num path_info);
  mofs_check_dir_write user parent_inode;;
  inum ← allocate_inode cx;
  on_error
    (let inode := mkInode 0 1 (u16 (Z.lor MOFS_FTYPE_REG (perm_bits mode))) (uid user) (gid user) 0 0 0 0 0 (zeros 16) in
     inode ← mofs_inode_stamp_now inode MOFS_INODE_TIME_ALL;
     mofs_write_inode cx inum inode;;
     add_dir_entry cx (leaf_name path_info) (parent_inode_num path_info) inum)
    (ignore (free_inode cx inum));;
  mret inum.

Definition mofs_unlink_core (path : option cstr) : prog unit :=
  path_info ← mofs_resolve_path cx path resolve_old;
  let target := leaf_inode_num path_info in
  user ← require_caller_user;
  parent_inode ← mofs_read_inode cx (parent_inode_num path_info);
  mofs_check_dir_write user parent_inode;;
  target_inode ← mofs_read_inode cx target;
  if has_flag (i_mode target_inode) MOFS_FTYPE_DIR then throw MOFS_EISDIR else
  remove_dir_entry cx (leaf_name path_info) (parent_inode_num path_info);;
  (if 0 <? i_nr_blocks target_inode then free_data_block cx target 0 (i_nr_blocks target_inode) else mret tt);;
  free_inode cx target.

(** ** Open and close *)

(** The inode that [mofs_open_core] opens, creating the file if asked to. *)
Definition open_inode (path : option cstr) (flags mode : Z) : prog (Z * mofs_inode_t) :=
  r ← status (mofs_path_to_inode_num cx path);
  match r with
  | Ok inum =>
      if has_flag flags MOFS_OFLAG_CREAT && has_flag flags MOFS_OFLAG_EXCL then throw MOFS_EEXIST else
      inode ← mofs_read_inode cx inum; mret (inum, inode)
  | Err e =>
      if (e =? MOFS_ENOENT) && has_flag flags MOFS_OFLAG_CREAT then
        inum ← mofs_create_core path mode;
        inode ← mofs_read_inode cx inum; mret (inum, inode)
      else throw e
  | Stuck => Done Stuck
  end.

Definition mofs_open_core (path : option cstr) (flags mode : Z) : prog nat :=
  match path with None => throw MOFS_EINVAL | Some _ =>
  user ← require_caller_user;
  '(inum, inode) ← open_inode path flags mode;
  if has_flag flags MOFS_OFLAG_DIRECTORY && negb (has_flag (i_mode inode) MOFS_FTYPE_DIR) then throw MOFS_ENOTDIR else
  mofs_check_open_permission flags user inode;;
  pool ← call OpGetFiles;
  match get_free_filehandle_index pool with
  | None => throw MOFS_ENFILE
  | Some i => put_handle i (mkFile true inum 0 (u32 flags));; mret i
  end end.

Definition mofs_close_core (h : option nat) : prog unit :=
  '(i, _) ← get_handle h;
  put_handle i zero_filehandle.

(** ** Reading *)

Definition read_req_blk_num (offset size : Z) : Z := u32 ((offset mod bs + size + bs - 1) / bs).

(** [mofs_read_core]: the [read_size] bytes copied to the caller's buffer. *)
Definition mofs_read_core (h : option nat) (size offset : Z) (update_offset : bool) : prog (list byte) :=
  '(i, f) ← get_handle h;
  if (size =? 0) || (offset <? 0) then throw MOFS_EINVAL else
  if negb (has_flag (open_flags f) MOFS_OFLAG_RDONLY) then throw MOFS_EBADF else
  inode ← mofs_read_inode cx (fh_inode_num f);
  user ← require_caller_user;
  mofs_check_open_permission (open_flags f) user inode;;
  if has_flag (i_mode inode) MOFS_FTYPE_DIR then throw MOFS_EISDIR else
  let req_blk_num := read_req_blk_num offset size in
  buf_tmp ← call (OpMalloc (u32 (req_blk_num * bs)));
  '(read_blk_num, fraction, buf_tmp) ←
    read_file_data_block cx (fh_inode_num f) buf_tmp (u32 (offset / bs)) req_blk_num;
  let got := u32 (read_blk_num * bs + fraction) in
  let read_size := if got <? offset mod bs then 0 else u32 (got - offset mod bs) in
  let read_size := if size <? read_size then size else read_size in
  let out := bslice (offset mod bs) read_size buf_tmp in
  (if update_offset then set_file_offset i (offset + read_size) else mret tt);;
  (if 0 <? read_size then mofs_inode_stamp_persist cx (fh_inode_num f) MOFS_INODE_TIME_ATIME else mret tt);;
  mret out.

(** ** Writing *)

(** The preload loop of [mofs_write_core]: blocks that exist are read in. *)
Fixpoint preload_loop (inum start current : Z) (n : nat) (i : Z) (buf : list byte) : prog (list byte) :=
  match n with
  | O => mret buf
  | S n' =>
      let file_blk_num := u32 (start + i) in
      if current <=? file_blk_num then preload_loop inum start current n' (i + 1) buf else
      abs_blk_num ← resolve_file_data_block cx inum file_blk_num;
      if (abs_blk_num <? data_region_start sb) || (u32 (data_region_start sb + data_blk_num sb) <=? abs_blk_num)
      then throw MOFS_EIO else
      let done := take (Z.to_nat (i * bs)) buf in
      rest ← read_full_block cx (drop (Z.to_nat (i * bs)) buf) abs_blk_num;
      preload_loop inum start current n' (i + 1) (done ++ rest)
  end.

(** [memset(buf + at, 0, n)] *)
Definition zero_at (at_ n : Z) (buf : list byte) : list byte := bsplice at_ (zeros n) buf.

(** The gap between the old end of file and the write offset. *)
Definition zero_gap (old_size offset start_blk_num : Z) (buf : list byte) : list byte :=
  if old_size <? offset then
    let start_off := start_blk_num * bs in
    let zero_from := if start_off <? old_size then old_size else start_off in
    if zero_from <? offset then zero_at (zero_from - start_off) (offset - zero_from) buf else buf
  else buf.

(** Everything between the allocation and the transfer: the buffer to write. *)
Definition write_prepare (inum old_size offset start_blk_num req_blk_num : Z) (data : list byte) : prog (list byte) :=
  call (OpMalloc (u32 (req_blk_num * bs)));;
  let buf_tmp := zeros (u32 (req_blk_num * bs)) in
  buf_tmp ← preload_loop inum start_blk_num (size_blks cx old_size) (Z.to_nat req_blk_num) 0 buf_tmp;
  let buf_tmp := zero_gap old_size offset start_blk_num buf_tmp in
  mret (bsplice (offset mod bs) data buf_tmp).

(** The transfer and the update of the inode: the number of bytes written. *)
Definition write_transfer (i : nat) (f : mofs_filehandle) (inode : mofs_inode_t) (offset start_blk_num req_blk_num write_size_req : Z) (update_offset : bool) (buf_tmp : list byte) : prog Z :=
  '(written_blk_num, fraction) ← write_file_data_block cx (fh_inode_num f) buf_tmp start_blk_num req_blk_num;
  let total := u32 (written_blk_num * bs + fraction) in
  let written_size := if total <? offset mod bs then 0 else
    let w := total - offset mod bs in if write_size_req <? w then write_size_req else w in
  let write_end := offset + written_size in
  let inode := if i_size inode <? write_end then set_i_size (u32 write_end) inode else inode in
  r ← status (if 0 <? written_size then
                inode ← mofs_inode_stamp_now inode (Z.lor MOFS_INODE_TIME_MTIME MOFS_INODE_TIME_CTIME);
                mofs_write_inode cx (fh_inode_num f) inode
              else mret tt);
  (if update_offset then set_file_offset i write_end else mret tt);;
  match r with Ok _ => mret written_size | Err e => throw e | Stuck => Done Stuck end.

(** [mofs_write_core]: the number of bytes written. *)
Definition mofs_write_core (h : option nat) (data : list byte) (offset : Z) (update_offset : bool) : prog Z :=
  '(i, f) ← get_handle h;
  let size := blen data in
  if (size =? 0) || (offset <? 0) then throw MOFS_EINVAL else
  if negb (has_flag (open_flags f) MOFS_OFLAG_WRONLY) then throw MOFS_EBADF else
  inode ← mofs_read_inode cx (fh_inode_num f);
  let old_size := i_size inode in
  user ← require_caller_user;
  mofs_check_open_permission (Z.land (open_flags f) MOFS_OFLAG_ACCMODE) user inode;;
  if has_flag (i_mode inode) MOFS_FTYPE_DIR then throw MOFS_EISDIR else
  if mofs_max_file_bytes <=? offset then throw MOFS_EFBIG else
  let room := u32 (mofs_max_file_bytes - offset) in
  let write_size_req := if room <? size then room else size in
  if write_size_req =? 0 then mret 0 else
  let start_blk_num := u32 (offset / bs) in
  let req_blk_num := u32 (offset mod bs + write_size_req + bs - 1) / bs in
  let current_blk_num := size_blks cx old_size in
  let last := u32 (start_blk_num + req_blk_num) in
  let required_blk_num := last - current_blk_num in
  let alloc_done := current_blk_num <? last in
  (if alloc_done then allocate_data_block cx (fh_inode_num f) required_blk_num else mret tt);;
  '(inode, buf_tmp) ← on_error
    (inode ← (if alloc_done then mofs_read_inode cx (fh_inode_num f) else mret inode);
     buf_tmp ← write_prepare (fh_inode_num f) old_size offset start_blk_num req_blk_num (take (Z.to_nat write_size_req) data);
     mret (inode, buf_tmp))
    (if alloc_done then ignore (free_data_block cx (fh_inode_num f) current_blk_num required_blk_num) else mret tt);
  write_transfer i f inode offset start_blk_num req_blk_num write_size_req update_offset buf_tmp.

(** ** Truncation *)

(** Any failure, and a short transfer, is reported as [MOFS_EIO]. *)
Definition as_eio {A} (p : prog A) : prog A :=
  r ← status p;
  match r with Ok x => mret x | Err _ => throw MOFS_EIO | Stuck => Done Stuck end.

Definition zero_partial_block_tail (inum blk_idx tail_start : Z) : prog unit :=
  if bs <=? tail_start then throw MOFS_EINVAL else
  buf ← call (OpMalloc bs);
  abs_blk_num ← resolve_file_data_block cx inum blk_idx;
  buf ← as_eio (read_full_block cx buf abs_blk_num);
  as_eio (write_full_block cx (zero_at tail_start (bs - tail_start) buf) abs_blk_num).

Fixpoint preload_zero_loop (inum start current : Z) (n : nat) (i : Z) (buf : list byte) : prog (list byte) :=
  match n with
  | O => mret buf
  | S n' =>
      let file_blk_num := u32 (start + i) in
      if current <=? file_blk_num then preload_zero_loop inum start current n' (i + 1) buf else
      abs_blk_num ← resolve_file_data_block cx inum file_blk_num;
      let done := take (Z.to_nat (i * bs)) buf in
      rest ← as_eio (read_full_block cx (drop (Z.to_nat (i * bs)) buf) abs_blk_num);
      preload_zero_loop inum start current n' (i + 1) (done ++ rest)
  end.

Definition zero_file_byte_range (inum from_off to_off : Z) : prog unit :=
  if to_off <=? from_off then mret tt else
  inode ← mofs_read_inode cx inum;
  let start_blk_num := from_off / bs in
  let req_blk_num := u32 ((to_off - 1) / bs - start_blk_num + 1) in
  call (OpMalloc (u32 (req_blk_num * bs)));;
  buf_tmp ← preload_zero_loop inum start_blk_num (size_blks cx (i_size inode)) (Z.to_nat req_blk_num) 0
              (zeros (u32 (req_blk_num * bs)));
  let start_off := start_blk_num * bs in
  let zero_from := if start_off <? from_off then from_off else start_off in
  let buf_tmp := if zero_from <? to_off then zero_at (zero_from - start_off) (to_off - zero_from) buf_tmp else buf_tmp in
  write_file_data_block cx inum buf_tmp start_blk_num req_blk_num;;
  mret tt.

(** [inode.i_size = new_size], time stamps, write-back. *)
Definition set_size_persist (inum new_size : Z) (inode : mofs_inode_t) : prog unit :=
  inode ← mofs_inode_stamp_now (set_i_size new_size inode) (Z.lor MOFS_INODE_TIME_MTIME MOFS_INODE_TIME_CTIME);
  mofs_write_inode cx inum inode.

(** The shrinking branch of [truncate_inode]. *)
Definition truncate_shrink (inum new_size old_nr_blocks : Z) : prog unit :=
  let keep_blks := if new_size =? 0 then 0 else size_blks cx new_size in
  (if (0 <? new_size) && negb (new_size mod bs =? 0) && (0 <? keep_blks)
   then zero_partial_block_tail inum (keep_blks - 1) (new_size mod bs) else mret tt);;
  (if keep_blks <? old_nr_blocks then free_data_block cx inum keep_blks (old_nr_blocks - keep_blks) else mret tt);;
  inode ← mofs_read_inode cx inum;
  set_size_persist inum new_size inode.

(** The growing branch of [truncate_inode]. *)
Definition truncate_grow (inum new_size : Z) (inode : mofs_inode_t) : prog unit :=
  let old_size := i_size inode in
  let needed_blks := size_blks cx new_size in
  let alloc_done := i_nr_blocks inode <? needed_blks in
  let required_blk_num := needed_blks - i_nr_blocks inode in
  (if alloc_done then allocate_data_block cx inum required_blk_num else mret tt);;
  on_error
    (inode ← (if alloc_done then mofs_read_inode cx inum else mret inode);
     zero_file_byte_range inum old_size new_size;;
     set_size_persist inum new_size inode)
    (if alloc_done then ignore (free_data_block cx inum (i_nr_blocks inode) required_blk_num) else mret tt).

Definition truncate_inode (inum new_size : Z) : prog unit :=
  inode ← mofs_read_inode cx inum;
  if has_flag (i_mode inode) MOFS_FTYPE_DIR then throw MOFS_EISDIR else
  user ← require_caller_user;
  mofs_check_open_permission MOFS_OFLAG_WRONLY user inode;;
  if new_size =? i_size inode then mret tt else
  if new_size <? i_size inode then truncate_shrink inum new_size (i_nr_blocks inode)
  else truncate_grow inum new_size inode.

Definition mofs_truncate_core (inum length : Z) : prog unit :=
  if inum <? 0 then throw MOFS_EINVAL else
  if length <? 0 then throw MOFS_EINVAL else
  if mofs_max_file_bytes <? length then throw MOFS_EFBIG else
  truncate_inode inum (u32 length).

(** ** Status *)

Definition mofs_stat_core (path : option cstr) : prog mofs_stat_t :=
  match path with None => throw MOFS_EINVAL | Some _ =>
  user ← require_caller_user;
  inum ← mofs_path_to_inode_num cx path;
  inode ← mofs_read_inode cx inum;
  (if has_flag (i_mode inode) MOFS_FTYPE_DIR then mofs_check_dir_traverse user inode
   else mofs_check_open_permission MOFS_OFLAG_RDONLY user inode);;
  mret (mkStat inum (i_mode inode) (i_links inode) (i_uid inode) (i_gid inode) (i_size inode)
               (s64 (i_atime inode)) (s64 (i_mtime inode)) (s64 (i_ctime inode)) 0)
  end.

End file.
