(* ===== verification/Dir.v ===== *)
(** * Directory operations (src/core/modules/mofs_dir.c)

    [mkdir], [rmdir], [rename] and the directory streams.  Stream handles are
    indices into [dirhandle_pool]; a NULL handle is [None]. *)

From Stdlib Require Import ZArith Lia.
From stdpp Require Import base list.
From S2P Require Import Prelude Types Platform Raw Buffer BufferSpec Ops Bitmap Inode Block FileData Perm Dirent Path File.

Definition get_free_dirhandle_index (pool : list mofs_dirhandle) : option nat := find_idx (fun d => negb (dh_used d)) pool.

(** The handle behind a pointer, or [MOFS_EINVAL] for NULL and closed handles. *)
Definition get_dirhandle (h : option nat) : prog (nat * mofs_dirhandle) :=
  match h with
  | None => throw MOFS_EINVAL
  | Some i =>
      pool ← call OpGetDirs;
      match pool !! i with
      | Some d => if dh_used d then mret (i, d) else throw MOFS_EINVAL
      | None => throw MOFS_EINVAL
      end
  end.

Definition put_dirhandle (i : nat) (d : mofs_dirhandle) : prog unit :=
  pool ← call OpGetDirs; call (OpSetDirs (<[i := d]> pool)).

Section dir.
Context (cx : mofs_ctx_t).
Abbreviation sb := (sp_blk cx).
Abbreviation bs := (blk_size (sp_blk cx)).

(** [rollback:] of [mofs_mkdir_core]. *)
Definition mkdir_rollback (parent_linked block_allocated : bool) (path_info : mofs_path_info_t) (child : Z) : prog unit :=
  (if parent_linked then ignore (remove_dir_entry cx (leaf_name path_info) (parent_inode_num path_info)) else mret tt);;
  (if block_allocated then ignore (free_data_block cx child 0 1) else mret tt);;
  ignore (free_inode cx child).

(** The steps of [mofs_mkdir_core] up to the first data block. *)
Definition mkdir_child (child mode : Z) (user : mofs_user_ctx_t) : prog unit :=
  let inode := mkInode 0 2 (u16 (Z.lor MOFS_FTYPE_DIR (perm_bits mode))) (uid user) (gid user) 0 0 0 0 0 (zeros 16) in
  inode ← mofs_inode_stamp_now inode MOFS_INODE_TIME_ALL;
  mofs_write_inode cx child inode;;
  allocate_data_block cx child 1.

(** The steps between the data block and the link into the parent. *)
Definition mkdir_contents (child : Z) (path_info : mofs_path_info_t) : prog unit :=
  write_dot_entries cx child (parent_inode_num path_info);;
  inode ← mofs_read_inode cx child;
  inode ← mofs_inode_stamp_now (set_i_size bs inode) (Z.lor MOFS_INODE_TIME_MTIME MOFS_INODE_TIME_CTIME);
  mofs_write_inode cx child inode;;
  add_dir_entry cx (leaf_name path_info) (parent_inode_num path_info) child.

Definition mkdir_parent_link (parent : Z) : prog unit :=
  parent_inode ← mofs_read_inode cx parent;
  parent_inode ← mofs_inode_stamp_now (set_i_links (u16 (i_links parent_inode + 1)) parent_inode) MOFS_INODE_TIME_CTIME;
  mofs_write_inode cx parent parent_inode.

Definition mofs_mkdir_core (path : option cstr) (mode : Z) : prog unit :=
  path_info ← mofs_resolve_path cx path resolve_new;
  if leaf_found path_info then throw MOFS_EEXIST else
  user ← require_caller_user;
  parent_inode ← mofs_read_inode cx (parent_inode_num path_info);
  if negb (has_flag (i_mode parent_inode) MOFS_FTYPE_DIR) then throw MOFS_ENOTDIR else
  mofs_check_dir_write user parent_inode;;
  child ← allocate_inode cx;
  on_error (mkdir_child child mode user) (mkdir_rollback false false path_info child);;
  on_error (mkdir_contents child path_info) (mkdir_rollback false true path_info child);;
  on_error (mkdir_parent_link (parent_inode_num path_info)) (mkdir_rollback true true path_info child).

Definition mofs_rmdir_core (path : option cstr) : prog unit :=
  match path with None => throw MOFS_EINVAL | Some p =>
  if negb (bool_decide (head p = Some slash)) then throw MOFS_EINVAL else
  if (blen p =? 1) || is_dot_or_dotdot_name p then throw MOFS_EINVAL else
  path_info ← mofs_resolve_path cx path resolve_old;
  if is_dot_or_dotdot_name (leaf_name path_info) then throw MOFS_EINVAL else
  let parent := parent_inode_num path_info in
  let target := leaf_inode_num path_info in
  user ← require_caller_user;
  parent_inode ← mofs_read_inode cx parent;
  mofs_check_dir_write user parent_inode;;
  target_inode ← mofs_read_inode cx target;
  if negb (has_flag (i_mode target_inode) MOFS_FTYPE_DIR) then throw MOFS_ENOTDIR else
  is_empty ← is_directory_empty cx target;
  if negb is_empty then throw MOFS_ENOTEMPTY else
  remove_dir_entry cx (leaf_name path_info) parent;;
  (if 0 <? i_nr_blocks target_inode then free_data_block cx target 0 (i_nr_blocks target_inode) else mret tt);;
  free_inode cx target;;
  parent_inode ← mofs_read_inode cx parent;
  if i_links parent_inode =? 0 then throw MOFS_EIO else
  parent_inode ← mofs_inode_stamp_now (set_i_links (i_links parent_inode - 1) parent_inode) MOFS_INODE_TIME_CTIME;
  mofs_write_inode cx parent parent_inode
  end.

(** ** Directory streams *)

Definition mofs_opendir_core (path : option cstr) : prog nat :=
  match path with None => throw MOFS_EINVAL | Some _ =>
  user ← require_caller_user;
  inum ← mofs_path_to_inode_num cx path;
  inode ← mofs_read_inode cx inum;
  (if has_flag (i_mode inode) MOFS_FTYPE_DIR then mofs_check_dir_read user inode else throw MOFS_ENOTDIR);;
  pool ← call OpGetDirs;
  match get_free_dirhandle_index pool with
  | None => throw MOFS_ENFILE
  | Some i => put_dirhandle i (mkDir true inum 0 zero_dirent);; mret i
  end end.

Definition mofs_closedir_core (h : option nat) : prog unit :=
  '(i, _) ← get_dirhandle h;
  put_dirhandle i zero_dirhandle.

(** The block loop of [mofs_readdir_core]: the entry found and its position. *)
Fixpoint readdir_loop (inum : Z) (n : nat) (start_block : Z) (start_idx : nat) (buf : list byte) : prog (option (mofs_dirent_t * Z * nat)) :=
  match n with
  | O => mret None
  | S n' =>
      '(_, fraction, buf) ← read_file_data_block cx inum buf start_block 1;
      match find_idx (fun d => in_use d && name_set d) (drop start_idx (dirents (dirent_num cx fraction) buf)) with
      | Some j => mret (Some (dirent_at (Z.of_nat (start_idx + j)) buf, start_block, (start_idx + j)%nat))
      | None => readdir_loop inum n' (start_block + 1) 0 buf
      end
  end.

(** [mofs_readdir_core]: the entry is left in the handle's [dirent_buf]; a
    zeroed entry is the end of the directory. *)
Definition mofs_readdir_core (h : option nat) : prog unit :=
  '(i, d) ← get_dirhandle h;
  buf ← call (OpMalloc bs);
  user ← require_caller_user;
  inode ← mofs_read_inode cx (dh_inode_num d);
  (if negb (has_flag (i_mode inode) MOFS_FTYPE_DIR) then throw MOFS_ENOTDIR else mofs_check_dir_read user inode);;
  let start_block := dirent_offset d / entries_per_blk cx in
  let start_idx := dirent_offset d mod entries_per_blk cx in
  found ← readdir_loop (dh_inode_num d) (Z.to_nat (size_blks cx (i_size inode) - start_block)) start_block (Z.to_nat start_idx) buf;
  match found with
  | Some (e, b, j) => put_dirhandle i (mkDir (dh_used d) (dh_inode_num d) (u32 (b * entries_per_blk cx + Z.of_nat j + 1)) e)
  | None => put_dirhandle i (mkDir (dh_used d) (dh_inode_num d) (dirent_offset d) zero_dirent)
  end.

(** ** Rename *)

Definition require_parent_write (parent : Z) : prog unit :=
  user ← require_caller_user;
  parent_inode ← mofs_read_inode cx parent;
  if negb (has_flag (i_mode parent_inode) MOFS_FTYPE_DIR) then throw MOFS_ENOTDIR else
  mofs_check_dir_write user parent_inode.

(** The treatment of an existing destination: [true] when there is nothing left to do. *)
Definition rename_replace (new_path : option cstr) (old_info new_info : mofs_path_info_t) (src_is_dir : bool) : prog bool :=
  if negb (leaf_found new_info) then mret false else
  if leaf_inode_num new_info =? leaf_inode_num old_info then mret true else
  dst_inode ← mofs_read_inode cx (leaf_inode_num new_info);
  let dst_is_dir := has_flag (i_mode dst_inode) MOFS_FTYPE_DIR in
  (if src_is_dir then
     if dst_is_dir then mofs_rmdir_core new_path else throw MOFS_ENOTDIR
   else
     if dst_is_dir then throw MOFS_EISDIR else mofs_unlink_core cx new_path);;
  mret false.

(** Moving a directory between parents: [..] and the link counts. *)
Definition rename_reparent (old_info new_info : mofs_path_info_t) : prog unit :=
  on_error
    (rewrite_dotdot cx (leaf_inode_num old_info) (parent_inode_num new_info);;
     adjust_dir_nlink cx (parent_inode_num old_info) (-1);;
     on_error (adjust_dir_nlink cx (parent_inode_num new_info) 1)
              (ignore (adjust_dir_nlink cx (parent_inode_num old_info) 1)))
    (ignore (rewrite_dotdot cx (leaf_inode_num old_info) (parent_inode_num old_info));;
     ignore (remove_dir_entry cx (leaf_name new_info) (parent_inode_num new_info));;
     ignore (add_dir_entry cx (leaf_name old_info) (parent_inode_num old_info) (leaf_inode_num old_info))).

Definition mofs_rename_core (old_path new_path : option cstr) : prog unit :=
  match old_path, new_path with
  | Some po, Some pn =>
  if negb (bool_decide (head po = Some slash)) || negb (bool_decide (head pn = Some slash)) then throw MOFS_EINVAL else
  old_info ← mofs_resolve_path cx old_path resolve_old;
  if negb (leaf_found old_info) || is_dot_or_dotdot_name (leaf_name old_info) then throw MOFS_EINVAL else
  new_info ← mofs_resolve_path cx new_path resolve_new;
  if is_dot_or_dotdot_name (leaf_name new_info) then throw MOFS_EINVAL else
  src_inode ← mofs_read_inode cx (leaf_inode_num old_info);
  let src_is_dir := has_flag (i_mode src_inode) MOFS_FTYPE_DIR in
  same ← rename_replace new_path old_info new_info src_is_dir;
  if (same : bool) then mret tt else
  (if src_is_dir then
     ancestor ← directory_is_ancestor cx (leaf_inode_num old_info) (parent_inode_num new_info);
     if (ancestor : bool) then throw MOFS_EINVAL else mret tt
   else mret tt);;
  require_parent_write (parent_inode_num old_info);;
  (if parent_inode_num old_info =? parent_inode_num new_info then mret tt
   else require_parent_write (parent_inode_num new_info));;
  remove_dir_entry cx (leaf_name old_info) (parent_inode_num old_info);;
  on_error (add_dir_entry cx (leaf_name new_info) (parent_inode_num new_info) (leaf_inode_num old_info))
    (ignore (add_dir_entry cx (leaf_name old_info) (parent_inode_num old_info) (leaf_inode_num old_info)));;
  (if src_is_dir && negb (parent_inode_num old_info =? parent_inode_num new_info)
   then rename_reparent old_info new_info else mret tt);;
  ignore (mofs_inode_stamp_persist cx (leaf_inode_num old_info) MOFS_INODE_TIME_CTIME)
  | _, _ => throw MOFS_EINVAL
  end.

End dir.
