(* ===== verification/Format.v ===== *)
(** * Formatting a volume (src/core/modules/mofs_format.c) *)

From Stdlib Require Import ZArith Lia.
From stdpp Require Import base list.
From S2P Require Import Prelude Types Platform Raw Buffer BufferSpec Ops Bitmap Inode Block.

(** ** Layout *)

(** The quantities [mofs_format] computes from the size of the device. *)
Record format_layout := mkLayout {
  l_hole_blk_num : Z;
  l_inode_num : Z;
  l_inode_bitmap_blks : Z;
  l_data_bitmap_blks : Z;
  l_inode_table_blks : Z
}.

Definition compute_layout (dev_size bb : Z) : format_layout :=
  let bpi := u32 (bb * 4) in
  let hole := dev_size / bb in
  let inodes := u64 (dev_size + (bpi - 1)) / bpi in
  mkLayout hole inodes
    (u64 (inodes + bb * 8 - 1) / (bb * 8))
    (u64 (hole + bb * 8 - 1) / (bb * 8))
    (u64 (inodes * 64 + bb - 1) / bb).

Definition meta_reserved (l : format_layout) : Z :=
  1 + l_inode_bitmap_blks l + l_data_bitmap_blks l + l_inode_table_blks l.

Definition layout_superblock (l : format_layout) (bb : Z) : mofs_superblock_t :=
  let ibs := 1 in
  let dbs := u32 (ibs + l_inode_bitmap_blks l) in
  let its := u32 (dbs + l_data_bitmap_blks l) in
  let drs := u32 (its + l_inode_table_blks l) in
  mkSuper MOFS_MAGIC_NUM (u32 (l_hole_blk_num l)) (u32 (l_inode_num l))
          (u32 (l_hole_blk_num l - meta_reserved l)) ibs dbs its drs bb.

Section format.
Context {P C : Type} `{!Platform P}.
Abbreviation W := (world P C).

Definition seek_device (fd offset : Z) : M W unit := dev_lseek fd offset MOFS_SEEK_SET;; mret tt.

Definition write_exact (fd : Z) (buf : list byte) : M W unit :=
  written ← dev_write fd buf;
  if negb (written =? blen buf) then fail MOFS_EIO else mret tt.

Definition clear_blocks (fd block_num blk_bytes : Z) : M W unit :=
  mofs_malloc blk_bytes;;
  seek_device fd (u64 (block_num * blk_bytes));;
  write_exact fd (zeros blk_bytes).

(** [for (i = 0; i < meta_reserved; i++) clear_blocks(fd, i, ...)] *)
Fixpoint clear_meta (fd bb : Z) (n : nat) (i : Z) : M W unit :=
  match n with
  | O => mret tt
  | S n' => clear_blocks fd i bb;; clear_meta fd bb n' (i + 1)
  end.

(** The contents of the root's list node, with its single pointer. *)
Definition root_list_node (bb data_region : Z) : list byte := list_node_buf bb 0 [data_region].

Definition root_inode (bb data_region now : Z) : mofs_inode_t :=
  mkInode bb 2 (u16 (Z.lor MOFS_FTYPE_DIR 0x1ED)) 0 0 (u32 (data_region + 1)) 1 now now now (zeros 16).

(** "Make Root Directory" of [mofs_format]: bitmaps, blocks, inode. *)
Definition format_root (fd bb : Z) (sb : mofs_superblock_t) : M W unit :=
  seek_device fd (u64 (inode_bitmap_start sb * bb));;
  write_exact fd [byte.of_Z 4];;
  seek_device fd (u64 (data_bitmap_start sb * bb));;
  write_exact fd [byte.of_Z 3];;
  clear_blocks fd (data_region_start sb) bb;;
  clear_blocks fd (data_region_start sb + 1) bb;;
  mofs_malloc bb;;
  seek_device fd (u64 ((data_region_start sb + 1) * bb));;
  write_exact fd (root_list_node bb (data_region_start sb));;
  now ← mofs_now;
  seek_device fd (inode_table_start sb * bb + 128);;
  write_exact fd (encode_inode (root_inode bb (data_region_start sb) now)).

(** [mofs_format] between [dev_open] and [dev_close]. *)
Definition format_device (fd fs_size blk_sz : Z) : M W unit :=
  let bb := if 0 <=? blk_sz then u32 blk_sz else MOFS_BLK_SIZE_DEFAULT in
  (let e := mofs_validate_logical_blk_size bb in if e =? 0 then mret tt else fail e);;
  dev_size ← (if 0 <? fs_size then mret (fs_size * bb) else dev_get_size fd);
  let l := compute_layout dev_size bb in
  if l_hole_blk_num l <=? meta_reserved l then fail MOFS_EINVAL else
  clear_meta fd bb (Z.to_nat (meta_reserved l)) 0;;
  if MOFS_UINT32_MAX <? l_hole_blk_num l then fail MOFS_EINVAL else
  let sb := layout_superblock l bb in
  seek_device fd 0;;
  write_exact fd (encode_superblock sb);;
  format_root fd bb sb.

(** Close [fd] whatever the status [r] was; an earlier error wins. *)
Definition close_with {A} (fd : Z) (r : res A) : M W A :=
  c ← attempt (dev_close fd);
  match r, c with
  | Ok x, Ok _ => mret x
  | Ok _, Err e => fail e
  | Err e, _ => fail e
  | _, _ => fun w => (w, Stuck)
  end.

Definition mofs_format (device_file : option cstr) (fs_size blk_sz : Z) : M W unit :=
  fd ← dev_open device_file MOFS_IO_OPEN_FLAG_RDWR;
  r ← attempt (format_device fd fs_size blk_sz);
  close_with fd r.

End format.
