(* ===== verification/Core.v ===== *)
(** * Mounting and unmounting (src/core/modules/mofs_core.c)

    The core lock of [os_sync.c] is a service of the platform: its creation
    can fail; its use is the subject of [Sync]. *)

From Stdlib Require Import ZArith Lia.
From stdpp Require Import base list.
From S2P Require Import Prelude Types Platform Raw Buffer BufferSpec Ops Bitmap Inode Block Format.

Definition MOFS_DIRHANDLE_POOL_SIZE : nat := 64.
Definition MOFS_FILEHANDLE_POOL_SIZE : nat := 64.

Section core.
Context {P C : Type} `{!Platform P} `{!BlockDriver P C}.
Abbreviation W := (world P C).

Definition upd_ctx (f : mofs_ctx_t -> mofs_ctx_t) : M W unit := modify (fun w => set_ctx (f (w_ctx w)) w).

(** [out1:] of [mofs_init_core], and the end of [mofs_fini_core]. *)
Definition reset_ctx : M W unit := upd_ctx (fun c => mkCtx false None 0 (sp_blk c)).

(** The checks on the superblock that was read from block 0. *)
Definition check_superblock (sb : mofs_superblock_t) (vol_bytes : Z) : res unit :=
  if negb (vol_bytes / blk_size sb =? hole_blk_num sb) then Err MOFS_EINVAL else Ok tt.

(** Reading and validating the superblock. *)
Definition load_superblock (fd : Z) : M W mofs_superblock_t :=
  dev_lseek fd 0 MOFS_SEEK_SET;;
  bs ← dev_read fd sizeof_superblock;
  if negb (blen bs =? sizeof_superblock) then fail MOFS_EIO else
  let sb := decode_superblock bs in
  if negb (magic sb =? MOFS_MAGIC_NUM) then fail MOFS_EIO else
  (let e := mofs_validate_logical_blk_size (blk_size sb) in if e =? 0 then mret tt else fail e);;
  vol_bytes ← dev_get_size fd;
  match check_superblock sb vol_bytes with
  | Ok _ => mret sb
  | Err e => fail e
  | Stuck => fun w => (w, Stuck)
  end.

(** [update_root_owner]: hand the root directory to the mounting user. *)
Definition chown_root (cx : mofs_ctx_t) (root_uid root_gid : Z) : prog unit :=
  root ← mofs_read_inode cx MOFS_ROOT_INODE_NUM;
  root ← mofs_inode_stamp_now (set_i_owner root_uid root_gid root) MOFS_INODE_TIME_CTIME;
  mofs_write_inode cx MOFS_ROOT_INODE_NUM root.

(** [mofs_init_core] once the device is open.  Of [mofs_core_sync_init] only the
    creation of the mutex is here, which can fail; the whole function, with the
    flag that says that the mutex is there already, is [mofs_core_sync_init] of
    [Sync]. *)
Definition mount_device (fd : Z) (update_root_owner : bool) (root_uid root_gid : Z) : M W unit :=
  sb ← load_superblock fd;
  upd_ctx (fun c => mkCtx (ctx_init c) (dev_path c) (dev_fd c) sb);;
  modify (set_dirs (replicate MOFS_DIRHANDLE_POOL_SIZE zero_dirhandle));;
  modify (set_files (replicate MOFS_FILEHANDLE_POOL_SIZE zero_filehandle));;
  drv_init;;
  mofs_mutex_init;;
  upd_ctx (fun c => mkCtx true (dev_path c) (dev_fd c) (sp_blk c));;
  if update_root_owner then
    cx ← gets w_ctx;
    interp (chown_root cx root_uid root_gid)
  else mret tt.

Definition mofs_init_core (path : cstr) (update_root_owner : bool) (root_uid root_gid : Z) : M W unit :=
  r ← attempt (mofs_malloc (u32 (blen path + 1)));
  match r with
  | Ok _ =>
      upd_ctx (fun c => mkCtx (ctx_init c) (Some path) (dev_fd c) (sp_blk c));;
      o ← attempt (dev_open (Some path) drv_open_flags);
      match o with
      | Ok fd =>
          upd_ctx (fun c => mkCtx (ctx_init c) (dev_path c) fd (sp_blk c));;
          m ← attempt (mount_device fd update_root_owner root_uid root_gid);
          match m with
          | Ok _ => mret tt
          | Err e => drv_fini;; attempt (dev_close fd);; reset_ctx;; fail e
          | Stuck => fun w => (w, Stuck)
          end
      | Err e => reset_ctx;; fail e
      | Stuck => fun w => (w, Stuck)
      end
  | Err e => reset_ctx;; fail e
  | Stuck => fun w => (w, Stuck)
  end.

Definition mofs_fini_core : M W unit :=
  r ← attempt drv_flush;
  drv_fini;;
  fd ← gets (fun w => dev_fd (w_ctx w));
  c ← attempt (dev_close fd);
  reset_ctx;;
  match r, c with
  | Ok _, Ok _ => mret tt
  | Err e, _ => fail e
  | Ok _, Err e => fail e
  | _, _ => fun w => (w, Stuck)
  end.

End core.
