(* ===== verification/Posix.v ===== *)
(** * The POSIX-style API (src/posix/posix.c)

    Each call runs one operation of the core under the core lock and turns its
    status into a return value and [errno].  Handles are pool indices; NULL is
    [None].  An [M W Z] below never fails: its value is what the C function
    returns. *)

From Stdlib Require Import ZArith Lia.
From stdpp Require Import base list.
From S2P Require Import Prelude Types Platform Raw Buffer BufferSpec Ops Bitmap Inode Block FileData Perm Dirent Path File Dir Format Core.

Section posix.
Context {P C : Type} `{!Platform P} `{!BlockDriver P C}.
Abbreviation W := (world P C).

Definition posix_set_errno (e : Z) : M W unit := modify (set_errno e).

(** A call of the core on the mounted volume, and its status. *)
Definition core_run {A} (f : mofs_ctx_t -> prog A) : M W (res A) :=
  cx ← gets w_ctx; attempt (interp (f cx)).

(** Lock, run, unlock. *)
Definition core_call {A} (f : mofs_ctx_t -> prog A) : M W (res A) := core_run (fun cx => locked (f cx)).

(** [mofs_core_sync_lock] and [mofs_core_sync_unlock] outside the core. *)
Definition core_lock : M W unit := interp (call OpLock).
Definition core_unlock : M W unit := interp (call OpUnlock).

(** [ok] on success; otherwise set [errno] and return [bad e]. *)
Definition finish {A R} (r : res A) (ok : A -> R) (bad : Z -> R) : M W R :=
  match r with
  | Ok x => mret (ok x)
  | Err e => posix_set_errno e;; mret (bad e)
  | Stuck => fun w => (w, Stuck)
  end.

(** The calls that return 0 or -1. *)
Definition int_call (f : mofs_ctx_t -> prog unit) : M W Z :=
  r ← core_call f; finish r (fun _ => 0) (fun _ => -1).

Definition mofs_stat (path : option cstr) : M W (Z * option mofs_stat_t) :=
  r ← core_call (fun cx => mofs_stat_core cx path); finish r (fun st => (0, Some st)) (fun _ => (-1, None)).

Definition mofs_opendir (path : option cstr) : M W (option nat) :=
  r ← core_call (fun cx => mofs_opendir_core cx path); finish r Some (fun _ => None).

Definition mofs_closedir (h : option nat) : M W Z := int_call (fun _ => mofs_closedir_core h).

(** [handle->dirent_buf] *)
Definition handle_dirent (h : option nat) (w : W) : mofs_dirent_t :=
  match h with Some i => dirent_buf (default zero_dirhandle (w_dirs w !! i)) | None => zero_dirent end.

(** The entry in the handle's buffer, or NULL at the end of the directory. *)
Definition readdir_result (e : mofs_dirent_t) : option mofs_dirent_t := if in_use e && name_set e then Some e else None.

(** The buffer is read after the lock was released. *)
Definition mofs_readdir (h : option nat) : M W (option mofs_dirent_t) :=
  r ← core_call (fun cx => mofs_readdir_core cx h);
  e ← gets (handle_dirent h);
  finish r (fun _ => readdir_result e) (fun _ => None).

Definition mofs_open (path : option cstr) (flags mode : Z) : M W (option nat) :=
  r ← core_call (fun cx => mofs_open_core cx path flags mode); finish r Some (fun _ => None).

(** [mofs_close] returns the error number itself. *)
Definition mofs_close (h : option nat) : M W Z :=
  r ← core_call (fun _ => mofs_close_core h); finish r (fun _ => 0) (fun e => e).

(** [mofs_pread]: the return value and the bytes stored. *)
Definition mofs_pread (h : option nat) (size offset : Z) : M W (Z * list byte) :=
  match h with
  | None => finish (@Err unit MOFS_EINVAL) (fun _ => (0, [])) (fun _ => (-1, []))
  | Some _ =>
      if (offset <? 0) || (MOFS_UINT32_MAX <? offset)
      then finish (@Err unit MOFS_EINVAL) (fun _ => (0, [])) (fun _ => (-1, [])) else
      r ← core_call (fun cx => mofs_read_core cx h size offset true);
      finish r (fun bs => (s32 (blen bs), bs)) (fun _ => (-1, []))
  end.

Definition mofs_pwrite (h : option nat) (data : list byte) (offset : Z) : M W Z :=
  match h with
  | None => finish (@Err unit MOFS_EINVAL) (fun _ => 0) (fun _ => -1)
  | Some _ =>
      if (offset <? 0) || (MOFS_UINT32_MAX <? offset)
      then finish (@Err unit MOFS_EINVAL) (fun _ => 0) (fun _ => -1) else
      r ← core_call (fun cx => mofs_write_core cx h data offset true);
      finish r s32 (fun _ => -1)
  end.

(** [handle->file_offset] *)
Definition handle_offset (h : nat) (w : W) : Z := default 0 (file_offset <$> (w_files w !! h)).

Definition mofs_read (h : option nat) (size : Z) : M W (Z * list byte) :=
  match h with
  | None => finish (@Err unit MOFS_EINVAL) (fun _ => (0, [])) (fun _ => (-1, []))
  | Some i => off ← gets (handle_offset i); mofs_pread h size off
  end.

Definition mofs_write (h : option nat) (data : list byte) : M W Z :=
  match h with
  | None => finish (@Err unit MOFS_EINVAL) (fun _ => 0) (fun _ => -1)
  | Some i => off ← gets (handle_offset i); mofs_pwrite h data off
  end.

(** The value of a signed 64-bit expression; C leaves an overflow undefined. *)
Definition signed64 (z : Z) : res Z := if (- 2 ^ 63 <=? z) && (z <? 2 ^ 63) then Ok z else Stuck.

(** The position that [mofs_lseek] moves to from [base]. *)
Definition lseek_target (base offset : Z) : res Z :=
  if 0 <=? offset then
    if MOFS_UINT32_MAX <? offset then Err MOFS_EINVAL else
    res_bind (signed64 (MOFS_UINT32_MAX - offset)) (fun room =>
    if room <? base then Err MOFS_EINVAL else signed64 (base + offset))
  else if offset =? - 2 ^ 63 then Err MOFS_EINVAL else
    res_bind (signed64 (- offset)) (fun back =>
    if base <? back then Err MOFS_EINVAL else signed64 (base + offset)).

(** The part of [mofs_lseek] that runs under the core lock. *)
Definition lseek_locked (cx : mofs_ctx_t) (i : nat) (offset whence : Z) : prog Z :=
  pool ← call OpGetFiles;
  let f := default zero_filehandle (pool !! i) in
  base ← (if whence =? MOFS_SEEK_SET then mret 0
          else if whence =? MOFS_SEEK_CUR then mret (file_offset f)
          else if whence =? MOFS_SEEK_END then inode ← mofs_read_inode cx (fh_inode_num f); mret (i_size inode)
          else throw MOFS_EINVAL);
  new_pos ← Done (lseek_target base offset);
  set_file_offset i new_pos;;
  mret new_pos.

Definition lseek_core (cx : mofs_ctx_t) (i : nat) (offset whence : Z) : prog Z :=
  pool ← call OpGetFiles;
  if negb (fh_used (default zero_filehandle (pool !! i))) then throw MOFS_EBADF else
  lseek_locked cx i offset whence.

Definition mofs_lseek (h : option nat) (offset whence : Z) : M W Z :=
  match h with
  | None => finish (@Err unit MOFS_EINVAL) (fun _ => 0) (fun _ => -1)
  | Some i => r ← core_call (fun cx => lseek_core cx i offset whence); finish r id (fun _ => -1)
  end.

Definition mofs_truncate (path : option cstr) (length : Z) : M W Z :=
  int_call (fun cx => inum ← mofs_path_to_inode_num cx path; mofs_truncate_core cx inum length).

(** The part of [mofs_ftruncate] that runs under the core lock. *)
Definition ftruncate_locked (cx : mofs_ctx_t) (i : nat) (length : Z) : prog unit :=
  pool ← call OpGetFiles;
  mofs_truncate_core cx (fh_inode_num (default zero_filehandle (pool !! i))) length.

Definition ftruncate_core (cx : mofs_ctx_t) (h : option nat) (length : Z) : prog unit :=
  match h with
  | None => throw MOFS_EBADF
  | Some i =>
      pool ← call OpGetFiles;
      let f := default zero_filehandle (pool !! i) in
      if negb (fh_used f) then throw MOFS_EBADF else
      if negb (has_flag (open_flags f) MOFS_OFLAG_WRONLY) then throw MOFS_EBADF else
      ftruncate_locked cx i length
  end.

Definition mofs_ftruncate (h : option nat) (length : Z) : M W Z := int_call (fun cx => ftruncate_core cx h length).

Definition mofs_unlink (path : option cstr) : M W Z := int_call (fun cx => mofs_unlink_core cx path).
Definition mofs_mkdir (path : option cstr) (mode : Z) : M W Z := int_call (fun cx => mofs_mkdir_core cx path mode).
Definition mofs_rmdir (path : option cstr) : M W Z := int_call (fun cx => mofs_rmdir_core cx path).
Definition mofs_rename (old_path new_path : option cstr) : M W Z := int_call (fun cx => mofs_rename_core cx old_path new_path).

Definition fsync_core (h : option nat) : prog unit :=
  match h with
  | None => throw MOFS_EINVAL
  | Some i =>
      pool ← call OpGetFiles;
      if negb (fh_used (default zero_filehandle (pool !! i))) then throw MOFS_EBADF else call OpFlush
  end.

Definition mofs_fsync (h : option nat) : M W Z := int_call (fun _ => fsync_core h).

End posix.
