(* ===== verification/Sync.v ===== *)
(** * Threads and the core lock (os_sync.c, os_posix_errno.c, posix.c)

    The calls of posix.c as the threads of a process make them: argument
    checks and reads of the handle outside the lock, the locked part, and what
    is done after the lock was released.  A schedule is a list of thread
    numbers; a step of a thread is one service call of the locked part or one
    action around it.  [errno] and the credentials of the caller are
    thread-local.  The recursive mutex of the threads library is a parameter,
    the class [RecMutex]. *)

From Stdlib Require Import ZArith Lia.
From stdpp Require Import base list gmap.
From S2P Require Import Prelude Types Platform Linux Zephyr Raw Buffer BufferSpec Ops Bitmap Inode Block FileData Perm Dirent Path File Dir Format Core Posix.

(** ** The core lock *)

(** A recursive mutex: [mutex_lock t] is [None] while thread [t] has to wait. *)
Class RecMutex (K : Type) := {
  mutex_lock : nat -> K -> option K;
  mutex_unlock : nat -> K -> K
}.

(** What the threads library promises: [mutex_count k t] is how often thread
    [t] holds the mutex. *)
Class RecMutexSpec (K : Type) `{!RecMutex K} := {
  mutex_count : K -> nat -> nat;
  mutex_waits : forall t k, mutex_lock t k = None <-> exists u, u <> t /\ (0 < mutex_count k u)%nat;
  mutex_lock_count : forall t k k' u, mutex_lock t k = Some k' ->
    mutex_count k' u = (mutex_count k u + if decide (u = t) then 1 else 0)%nat;
  mutex_unlock_count : forall t k u, (0 < mutex_count k t)%nat ->
    mutex_count (mutex_unlock t k) u = (mutex_count k u - if decide (u = t) then 1 else 0)%nat
}.

(** [core_sync_ready] and [core_sync_mutex] of os_sync.c. *)
Record core_sync (K : Type) := mkSync {
  core_sync_ready : bool;
  core_sync_mutex : K
}.
Arguments mkSync {K}.
Arguments core_sync_ready {K}.
Arguments core_sync_mutex {K}.

Section lock.
Context {K : Type} `{!RecMutex K}.

(** [mofs_core_sync_init]: [attr_init], [settype] and [mutex_init] are the
    results of the three functions of the threads library, [errno] is the value
    that [get_errno] finds, [fresh] the new mutex. *)
Definition mofs_core_sync_init (fresh : K) (attr_init settype mutex_init errno : Z) (s : core_sync K) : core_sync K * Z :=
  if core_sync_ready s then (s, 0) else
  if negb (attr_init =? 0) then (s, Linux.os_to_mofs_errno errno) else
  if negb (settype =? 0) then (s, Linux.os_to_mofs_errno errno) else
  if negb (mutex_init =? 0) then (s, Linux.os_to_mofs_errno errno) else
  (mkSync true fresh, 0).

Definition mofs_core_sync_fini (s : core_sync K) : core_sync K :=
  if core_sync_ready s then mkSync false (core_sync_mutex s) else s.

(** [None]: thread [t] waits. *)
Definition mofs_core_sync_lock (t : nat) (s : core_sync K) : option (core_sync K) :=
  if core_sync_ready s then mkSync (core_sync_ready s) <$> mutex_lock t (core_sync_mutex s) else Some s.

Definition mofs_core_sync_unlock (t : nat) (s : core_sync K) : core_sync K :=
  if core_sync_ready s then mkSync (core_sync_ready s) (mutex_unlock t (core_sync_mutex s)) else s.

(** The same on Zephyr (src/os/zephyr/service/os_sync.c), whose mutex is
    recursive from the start and is never given back; [errno] is [None] where
    it is 0. *)
Definition zephyr_core_sync_init (fresh : K) (mutex_init : Z) (errno : option host_errno) (s : core_sync K) : core_sync K * Z :=
  if core_sync_ready s then (s, 0) else
  if negb (mutex_init =? 0) then (s, from_option Zephyr.os_to_mofs_errno 0 errno) else
  (mkSync true fresh, 0).

Definition zephyr_core_sync_fini (s : core_sync K) : core_sync K := s.

Definition zephyr_core_sync_lock (t : nat) (s : core_sync K) : option (core_sync K) :=
  if negb (core_sync_ready s) then Some s
  else mkSync (core_sync_ready s) <$> mutex_lock t (core_sync_mutex s).

Definition zephyr_core_sync_unlock (t : nat) (s : core_sync K) : core_sync K :=
  if negb (core_sync_ready s) then s else mkSync (core_sync_ready s) (mutex_unlock t (core_sync_mutex s)).

End lock.

(** ** The slots of [mofs_errno] (src/os/linux/service/os_posix_errno.c)

    [specific] is what [pthread_setspecific] stored under [mofs_errno_key] for
    each thread, [ints] the integers that [mofs_malloc] returned. *)
Record errno_slots := mkSlots {
  specific : gmap nat positive;
  ints : gmap positive Z
}.

(** [slot] is what [mofs_malloc] returns if it is called, [stored] whether
    [pthread_setspecific] can store it. *)
Definition mofs_errno_location (t : nat) (slot : option positive) (stored : bool) (s : errno_slots) : errno_slots * option positive :=
  match specific s !! t with
  | Some p => (s, Some p)
  | None =>
      match slot with
      | None => (s, None)
      | Some p => (mkSlots (if stored then <[t := p]> (specific s) else specific s) (<[p := 0]> (ints s)), Some p)
      end
  end.

(** [posix_set_errno] of posix.c on the slots. *)
Definition posix_set_errno_slot (t : nat) (slot : option positive) (stored : bool) (err : Z) (s : errno_slots) : errno_slots :=
  let '(s1, location) := mofs_errno_location t slot stored s in
  match location with
  | Some p => mkSlots (specific s1) (<[p := err]> (ints s1))
  | None => s1
  end.

(** Reading [mofs_errno]; [None] where the macro follows a null pointer. *)
Definition mofs_errno (t : nat) (slot : option positive) (stored : bool) (s : errno_slots) : errno_slots * option Z :=
  let '(s1, location) := mofs_errno_location t slot stored s in
  (s1, location ≫= fun p => ints s1 !! p).

(** [mofs_errno_key_destructor], which runs when thread [t] ends. *)
Definition mofs_errno_key_destructor (t : nat) (s : errno_slots) : errno_slots :=
  match specific s !! t with
  | Some p => mkSlots (delete t (specific s)) (delete p (ints s))
  | None => s
  end.

(** ** The calls *)

Inductive api :=
| PStat (path : option cstr)
| POpendir (path : option cstr)
| PClosedir (h : option nat)
| PReaddir (h : option nat)
| POpen (path : option cstr) (flags mode : Z)
| PClose (h : option nat)
| PRead (h : option nat) (size : Z)
| PWrite (h : option nat) (data : list byte)
| PPread (h : option nat) (size offset : Z)
| PPwrite (h : option nat) (data : list byte) (offset : Z)
| PLseek (h : option nat) (offset whence : Z)
| PTruncate (path : option cstr) (length : Z)
| PFtruncate (h : option nat) (length : Z)
| PUnlink (path : option cstr)
| PMkdir (path : option cstr) (mode : Z)
| PRmdir (path : option cstr)
| PRename (old_path new_path : option cstr)
| PFsync (h : option nat).

(** Return values, with what is stored through pointer arguments. *)
Inductive api_ret :=
| RInt (z : Z)
| RStat (z : Z) (st : option mofs_stat_t)
| RHandle (h : option nat)
| RDirent (e : option mofs_dirent_t)
| RBytes (z : Z) (bs : list byte).

Section api.
Context {P C : Type} `{!Platform P} `{!BlockDriver P C}.
Abbreviation W := (world P C).

(** The range check of [mofs_pread] and [mofs_pwrite]. *)
Definition check_offset (offset : Z) : res Z :=
  if (offset <? 0) || (MOFS_UINT32_MAX <? offset) then Err MOFS_EINVAL else Ok offset.

(** Run on a handle that is not NULL. *)
Definition with_handle (h : option nat) (e : Z) (k : nat -> res Z) : res Z :=
  match h with None => Err e | Some i => k i end.

(** What a call does before it takes the lock: the error it returns with, or
    the file offset the locked part will use (0 where it uses none). *)
Definition api_check (c : api) (w : W) : res Z :=
  match c with
  | PRead h _ | PWrite h _ => with_handle h MOFS_EINVAL (fun i => check_offset (handle_offset i w))
  | PPread h _ off | PPwrite h _ off => with_handle h MOFS_EINVAL (fun _ => check_offset off)
  | PLseek h _ _ => with_handle h MOFS_EINVAL (fun i =>
      if negb (fh_used (default zero_filehandle (w_files w !! i))) then Err MOFS_EBADF else Ok 0)
  | PFtruncate h _ => with_handle h MOFS_EBADF (fun i =>
      let f := default zero_filehandle (w_files w !! i) in
      if negb (fh_used f) then Err MOFS_EBADF else
      if negb (has_flag (open_flags f) MOFS_OFLAG_WRONLY) then Err MOFS_EBADF else Ok 0)
  | PFsync h => with_handle h MOFS_EINVAL (fun _ => Ok 0)
  | _ => Ok 0
  end.

Definition handle_num (h : option nat) : nat := default 0%nat h.

(** The part of a call that runs under the lock; [v] comes from [api_check]. *)
Definition api_body (c : api) (v : Z) (cx : mofs_ctx_t) : prog api_ret :=
  match c with
  | PStat p => st ← mofs_stat_core cx p; mret (RStat 0 (Some st))
  | POpendir p => h ← mofs_opendir_core cx p; mret (RHandle (Some h))
  | PClosedir h => mofs_closedir_core h;; mret (RInt 0)
  | PReaddir h => mofs_readdir_core cx h;; mret (RDirent None)
  | POpen p flags mode => h ← mofs_open_core cx p flags mode; mret (RHandle (Some h))
  | PClose h => mofs_close_core h;; mret (RInt 0)
  | PRead h size | PPread h size _ => bs ← mofs_read_core cx h size v true; mret (RBytes (s32 (blen bs)) bs)
  | PWrite h data | PPwrite h data _ => n ← mofs_write_core cx h data v true; mret (RInt (s32 n))
  | PLseek h off whence => n ← lseek_locked cx (handle_num h) off whence; mret (RInt n)
  | PTruncate p len => (inum ← mofs_path_to_inode_num cx p; mofs_truncate_core cx inum len);; mret (RInt 0)
  | PFtruncate h len => ftruncate_locked cx (handle_num h) len;; mret (RInt 0)
  | PUnlink p => mofs_unlink_core cx p;; mret (RInt 0)
  | PMkdir p mode => mofs_mkdir_core cx p mode;; mret (RInt 0)
  | PRmdir p => mofs_rmdir_core cx p;; mret (RInt 0)
  | PRename p q => mofs_rename_core cx p q;; mret (RInt 0)
  | PFsync h => fsync_core h;; mret (RInt 0)
  end.

(** What a call returns after the locked part succeeded: [mofs_readdir] looks
    at the handle again. *)
Definition api_exit (c : api) (r : api_ret) (w : W) : api_ret :=
  match c with PReaddir h => RDirent (readdir_result (handle_dirent h w)) | _ => r end.

(** What it returns on error [e]. *)
Definition api_bad (c : api) (e : Z) : api_ret :=
  match c with
  | PStat _ => RStat (-1) None
  | POpendir _ | POpen _ _ _ => RHandle None
  | PReaddir _ => RDirent None
  | PClose _ => RInt e
  | PRead _ _ | PPread _ _ _ => RBytes (-1) []
  | _ => RInt (-1)
  end.

(** After the lock was released, or when the checks failed. *)
Definition api_finish (c : api) (r : res api_ret) : M W api_ret :=
  x ← gets (fun w y => api_exit c y w); finish r x (api_bad c).

(** A call from the outcome of its checks on, without interruption. *)
Definition api_from (c : api) (chk : res Z) : M W api_ret :=
  match chk with
  | Ok v => r ← core_call (api_body c v); api_finish c r
  | Err e => api_finish c (Err e)
  | Stuck => api_finish c Stuck
  end.

(** A whole call without interruption. *)
Definition api_call (c : api) : M W api_ret := chk ← gets (api_check c); api_from c chk.

(** The same call as a function of posix.c. *)
Definition posix_call (c : api) : M W api_ret :=
  match c with
  | PStat p => '(z, st) ← mofs_stat p; mret (RStat z st)
  | POpendir p => h ← mofs_opendir p; mret (RHandle h)
  | PClosedir h => z ← mofs_closedir h; mret (RInt z)
  | PReaddir h => e ← mofs_readdir h; mret (RDirent e)
  | POpen p flags mode => h ← mofs_open p flags mode; mret (RHandle h)
  | PClose h => z ← mofs_close h; mret (RInt z)
  | PRead h size => '(z, bs) ← mofs_read h size; mret (RBytes z bs)
  | PWrite h data => z ← mofs_write h data; mret (RInt z)
  | PPread h size off => '(z, bs) ← mofs_pread h size off; mret (RBytes z bs)
  | PPwrite h data off => z ← mofs_pwrite h data off; mret (RInt z)
  | PLseek h off whence => z ← mofs_lseek h off whence; mret (RInt z)
  | PTruncate p len => z ← mofs_truncate p len; mret (RInt z)
  | PFtruncate h len => z ← mofs_ftruncate h len; mret (RInt z)
  | PUnlink p => z ← mofs_unlink p; mret (RInt z)
  | PMkdir p mode => z ← mofs_mkdir p mode; mret (RInt z)
  | PRmdir p => z ← mofs_rmdir p; mret (RInt z)
  | PRename p q => z ← mofs_rename p q; mret (RInt z)
  | PFsync h => z ← mofs_fsync h; mret (RInt z)
  end.

End api.

(** ** Threads *)

(** Where a thread is in its current call. *)
Inductive phase :=
| Ready                                   (** the call has not begun *)
| Waiting (v : Z)                         (** the checks passed with [v] *)
| Inside (v : Z) (p : prog api_ret)       (** it has the lock, [p] is left to do *)
| Leaving (r : res api_ret).              (** the lock was released, or a check failed *)

Record thread := mkThread {
  t_caller : mofs_user_ctx_t;               (** [caller_user_ctx] *)
  t_errno : Z;                              (** [*mofs_errno_location()] *)
  t_phase : phase;
  t_todo : list api;                        (** the current call first *)
  t_done : list (api * api_ret)
}.

Definition set_phase (ph : phase) (th : thread) : thread := mkThread (t_caller th) (t_errno th) ph (t_todo th) (t_done th).

(** The call [c] returned [r] and left [errno] at [e]. *)
Definition returned (c : api) (r : api_ret) (e : Z) (th : thread) : thread :=
  mkThread (t_caller th) e Ready (tail (t_todo th)) (t_done th ++ [(c, r)]).

Definition new_thread (u : mofs_user_ctx_t) (calls : list api) : thread := mkThread u 0 Ready calls [].

(** The process: the shared state, the lock, the threads, and a record of the
    calls in the order in which they released the lock (or failed a check), with
    the outcome of their checks. *)
Record machine (P C K : Type) := mkMachine {
  m_world : world P C;
  m_sync : core_sync K;
  m_threads : list thread;
  m_log : list (nat * res Z)
}.
Arguments mkMachine {P C K}.
Arguments m_world {P C K}.
Arguments m_sync {P C K}.
Arguments m_threads {P C K}.
Arguments m_log {P C K}.

Section threads.
Context {P C K : Type} `{!Platform P} `{!BlockDriver P C} `{!RecMutex K}.
Abbreviation W := (world P C).
Abbreviation Mach := (machine P C K).

(** The state as thread [th] sees it, and the part the threads share. *)
Definition as_thread (th : thread) (w : W) : W := set_errno (t_errno th) (set_caller (t_caller th) w).
Definition shared (w : W) : W := set_errno 0 (set_caller (mkUser 0 0 0 [] false) w).

(** Thread [t] is now [th]. *)
Definition put_thread (t : nat) (th : thread) (m : Mach) : Mach :=
  mkMachine (m_world m) (m_sync m) (<[t := th]> (m_threads m)) (m_log m).
Definition with_world (w : W) (m : Mach) : Mach := mkMachine w (m_sync m) (m_threads m) (m_log m).
Definition with_sync (s : core_sync K) (m : Mach) : Mach := mkMachine (m_world m) s (m_threads m) (m_log m).
Definition record (e : nat * res Z) (m : Mach) : Mach := mkMachine (m_world m) (m_sync m) (m_threads m) (m_log m ++ [e]).

(** The end of a call. *)
Definition end_call (c : api) (r : res api_ret) (w : W) (th : thread) : option thread :=
  match api_finish c r (as_thread th w) with
  | (w', Ok x) => Some (returned c x (w_errno w') th)
  | _ => None
  end.

(** What a service call does to the core lock; [None]: thread [t] waits. *)
Definition sync_op (t : nat) (o : op) (s : core_sync K) : option (core_sync K) :=
  match o with
  | OpLock => mofs_core_sync_lock t s
  | OpUnlock => Some (mofs_core_sync_unlock t s)
  | _ => Some s
  end.

(** One step of thread [t]; [None] when it has nothing to do, waits for the
    lock, or hangs. *)
Definition step (t : nat) (m : Mach) : option Mach :=
  th ← m_threads m !! t;
  c ← head (t_todo th);
  match t_phase th with
  | Ready =>
      match api_check c (m_world m) with
      | Ok v => Some (put_thread t (set_phase (Waiting v) th) m)
      | Err e => Some (record (t, Err e) (put_thread t (set_phase (Leaving (Err e)) th) m))
      | Stuck => None
      end
  | Waiting v =>
      s ← mofs_core_sync_lock t (m_sync m);
      Some (put_thread t (set_phase (Inside v (api_body c v (w_ctx (m_world m)))) th) (with_sync s m))
  | Inside v (Vis o k) =>
      s ← sync_op t o (m_sync m);
      let '(w, r) := handle o (as_thread th (m_world m)) in
      Some (put_thread t (set_phase (Inside v (k r)) th) (with_world (shared w) (with_sync s m)))
  | Inside v (Done Stuck) => None
  | Inside v (Done r) =>
      Some (record (t, Ok v) (put_thread t (set_phase (Leaving r) th) (with_sync (mofs_core_sync_unlock t (m_sync m)) m)))
  | Leaving r => th' ← end_call c r (m_world m) th; Some (put_thread t th' m)
  end.

(** A schedule; a thread that cannot make a step stays where it is. *)
Definition exec (sched : list nat) (m : Mach) : Mach :=
  fold_left (fun m t => default m (step t m)) sched m.

(** The start: nobody has the lock. *)
Definition start (w : W) (s : core_sync K) (threads : list (mofs_user_ctx_t * list api)) : Mach :=
  mkMachine (shared w) s ((fun '(u, cs) => new_thread u cs) <$> threads) [].

(** Every call has returned. *)
Definition finished (m : Mach) : Prop := Forall (fun th => t_todo th = []) (m_threads m).

(** A thread hangs with the lock held. *)
Definition hung (m : Mach) : Prop := exists t th v, m_threads m !! t = Some th /\ t_phase th = Inside v (Done Stuck).

(** ** One call after another *)

(** Thread [t] makes its next call without interruption. *)
Definition run_call (f : api -> M W api_ret) (t : nat) (s : W * list thread) : option (W * list thread) :=
  th ← s.2 !! t;
  c ← head (t_todo th);
  match f c (as_thread th s.1) with
  | (w', Ok r) => Some (shared w', <[t := returned c r (w_errno w') th]> s.2)
  | _ => None
  end.

(** The calls of a log, one after another: [f] makes a call whose checks had
    the outcome the log holds. *)
Definition replay (f : api -> res Z -> M W api_ret) (log : list (nat * res Z)) (s : W * list thread) : option (W * list thread) :=
  fold_left (fun s '(t, chk) => s ≫= run_call (fun c => f c chk) t) log (Some s).

End threads.

(** A recursive mutex: its holder and how often it was locked again. *)
Definition rmutex : Type := option (nat * nat).

#[global] Instance rmutex_ops : RecMutex rmutex := {
  mutex_lock := fun t k =>
    match k with
    | None => Some (Some (t, 0%nat))
    | Some (u, n) => if decide (u = t) then Some (Some (u, S n)) else None
    end;
  mutex_unlock := fun t k =>
    match k with
    | Some (u, n) => if decide (u = t) then match n with O => None | S n' => Some (u, n') end else k
    | None => None
    end
}.

#[global] Instance rmutex_spec : RecMutexSpec rmutex.
Proof.
  refine {| mutex_count := fun k t => match k with Some (u, n) => if decide (t = u) then S n else 0%nat | None => 0%nat end |}.
  - intros t [[u n]|]; cbn; split.
    + destruct (decide (u = t)) as [|Hu]; [done|]. intros _. exists u. rewrite decide_True by done. split; [done|lia].
    + intros (v & Hv & Hc). destruct (decide (v = u)) as [->|]; [|lia]. by rewrite decide_False.
    + done.
    + intros (v & _ & Hc). lia.
  - intros t [[u n]|] k' v; cbn; intros E; [destruct (decide (u = t)) as [->|]|]; simplify_eq; destruct (decide (v = t)); lia.
  - intros t [[u n]|] v; cbn; [|lia]. destruct (decide (t = u)) as [->|]; [|lia]. intros _. rewrite decide_True by done.
    destruct n, (decide (v = u)); lia.
Defined.
