(* ===== verification/LockSpec.v ===== *)
(** * Lock nesting in the core

    Reading and writing an inode takes the core lock that the call of posix.c
    holds already.  [nests n p]: a thread that holds the lock [n] times more than
    its call does gives back what [p] takes, on every path through [p] and
    whatever the services return.  [balanced p], the case of 0, holds of every
    program of the core. *)

From Stdlib Require Import ZArith Lia.
From stdpp Require Import base list.
From S2P Require Import Prelude Types Platform Raw Buffer BufferSpec Ops Bitmap Inode Block FileData Perm Dirent Path File Dir Core Posix Sync.

(** How often the lock is held after a service call; [None] where it is given
    back without having been taken. *)
Definition depth_after (o : op) (n : nat) : option nat :=
  match o with OpLock => Some (S n) | OpUnlock => match n with O => None | S n' => Some n' end | _ => Some n end.

Fixpoint nests {A} (n : nat) (p : prog A) : Prop :=
  match p with
  | Done Stuck => True
  | Done _ => n = 0%nat
  | Vis o k => match depth_after o n with Some n' => forall r, nests n' (k r) | None => False end
  end.

Definition balanced {A} (p : prog A) : Prop := nests 0 p.

(** ** Composition *)

Lemma nests_bind {A B} (p : prog A) (k : A -> prog B) : forall n, nests n p -> (forall x, balanced (k x)) -> nests n (p ≫= k).
Proof.
  induction p as [[x|e|]|o kk IH]; intros n Hp Hk; cbn in *; [subst n; apply Hk|done|done|].
  destruct (depth_after o n) as [n'|]; [|done]. intros r. by apply IH.
Qed.

Lemma bal_bind {A B} (p : prog A) (k : A -> prog B) : balanced p -> (forall x, balanced (k x)) -> balanced (p ≫= k).
Proof. apply nests_bind. Qed.

Lemma bal_done {A} (r : res A) : balanced (Done r).
Proof. by destruct r. Qed.

Lemma bal_ret {A} (x : A) : balanced (mret x).
Proof. done. Qed.

Lemma bal_throw {A} e : balanced (throw (A := A) e).
Proof. done. Qed.

(** A service call other than locking. *)
Lemma bal_call o : depth_after o 0 = Some 0%nat -> balanced (call o).
Proof. intros H. unfold balanced, call. cbn. rewrite H. intros r. apply bal_done. Qed.

Lemma nests_status {A} (p : prog A) : forall n, nests n p -> nests n (status p).
Proof.
  induction p as [[x|e|]|o k IH]; intros n; cbn; try done. destruct (depth_after o n) as [n'|]; [|done]. intros Hk r. by apply IH.
Qed.

Lemma bal_status {A} (p : prog A) : balanced p -> balanced (status p).
Proof. apply nests_status. Qed.

(** What [locked] takes it gives back, on success and on failure. *)
Lemma nests_unlock {A} (p : prog A) : forall n, nests n p -> nests (S n) (r ← status p; Vis OpUnlock (fun _ => Done r)).
Proof.
  induction p as [[x|e|]|o k IH]; intros n; cbn; [by intros -> _|by intros -> _|done|].
  destruct o; cbn [depth_after]; try (intros Hk r; exact (IH r n (Hk r))).
  - intros Hk r. exact (IH r (S n) (Hk r)).
  - destruct n as [|n]; [done|]. intros Hk r. exact (IH r n (Hk r)).
Qed.

Lemma bal_locked {A} (p : prog A) : balanced p -> balanced (locked p).
Proof. intros H _. exact (nests_unlock p 0 H). Qed.

Lemma bal_ignore {A} (p : prog A) : balanced p -> balanced (ignore p).
Proof. intros H. apply bal_bind; [by apply bal_status|]. intros x. apply bal_ret. Qed.

Lemma bal_on_error {A} (p : prog A) c : balanced p -> balanced c -> balanced (on_error p c).
Proof.
  intros Hp Hc. apply bal_bind; [by apply bal_status|]. intros [x|e|]; [done| |done].
  apply bal_bind; [done|]. intros _. apply bal_throw.
Qed.

Lemma bal_as_eio {A} (p : prog A) : balanced p -> balanced (as_eio p).
Proof. intros H. apply bal_bind; [by apply bal_status|]. by intros [x|e|]. Qed.

Create HintDb balanced.
#[export] Hint Resolve bal_done bal_ret bal_throw : balanced.

(** Take a program of the core apart. *)
Ltac balance :=
  repeat match goal with
  | |- balanced (mbind _ _) => apply bal_bind; [|intros ?]
  | |- balanced (on_error _ _) => apply bal_on_error
  | |- balanced (ignore _) => apply bal_ignore
  | |- balanced (as_eio _) => apply bal_as_eio
  | |- balanced (status _) => apply bal_status
  | |- balanced (locked _) => apply bal_locked
  | |- balanced (call ?o) => exact (bal_call o eq_refl)
  | |- balanced (let _ := _ in _) => cbv zeta
  | |- balanced (if ?b then _ else _) => destruct b
  | |- balanced (match ?x with _ => _ end) => destruct x
  | |- balanced _ => solve [eauto with balanced]
  end.

(** ** Bitmaps *)

Lemma bal_read_full_block cx buf blk : balanced (read_full_block cx buf blk).
Proof. unfold read_full_block. balance. Qed.
#[export] Hint Resolve bal_read_full_block : balanced.

Lemma bal_write_full_block cx buf blk : balanced (write_full_block cx buf blk).
Proof. unfold write_full_block. balance. Qed.
#[export] Hint Resolve bal_write_full_block : balanced.

Lemma bal_set_bitmap_bit cx start idx set_used : balanced (set_bitmap_bit cx start idx set_used).
Proof. unfold set_bitmap_bit. balance. Qed.
#[export] Hint Resolve bal_set_bitmap_bit : balanced.

Lemma bal_scan_blocks need limit reserved n : forall cx start buf blk_idx acc, balanced (scan_blocks need limit reserved cx start buf n blk_idx acc).
Proof. induction n as [|n IH]; intros cx start buf blk_idx acc; cbn [scan_blocks]; balance. Qed.
#[export] Hint Resolve bal_scan_blocks : balanced.

Lemma bal_find_free_indices limit reserved need cx start bitmap_blk_num : balanced (find_free_indices limit reserved need cx start bitmap_blk_num).
Proof. unfold find_free_indices. balance. Qed.
#[export] Hint Resolve bal_find_free_indices : balanced.

(** ** Inodes *)

Lemma bal_mofs_inode_stamp_now inode mask : balanced (mofs_inode_stamp_now inode mask).
Proof. unfold mofs_inode_stamp_now. balance. Qed.
#[export] Hint Resolve bal_mofs_inode_stamp_now : balanced.

Lemma bal_set_inode_bitmap_bit cx inode_idx set_used : balanced (set_inode_bitmap_bit cx inode_idx set_used).
Proof. unfold set_inode_bitmap_bit. balance. Qed.
#[export] Hint Resolve bal_set_inode_bitmap_bit : balanced.

Lemma bal_update_inode_bitmap_bits cx inode_idx_list : forall set_used, balanced (update_inode_bitmap_bits cx inode_idx_list set_used).
Proof. induction inode_idx_list as [|i inode_idx_list IH]; intros set_used; cbn [update_inode_bitmap_bits]; balance. Qed.
#[export] Hint Resolve bal_update_inode_bitmap_bits : balanced.

Lemma bal_find_free_inode_indices cx required_alloc_num : balanced (find_free_inode_indices cx required_alloc_num).
Proof. unfold find_free_inode_indices. balance. Qed.
#[export] Hint Resolve bal_find_free_inode_indices : balanced.

Lemma bal_mofs_read_inode cx inum : balanced (mofs_read_inode cx inum).
Proof. unfold mofs_read_inode. balance. Qed.
#[export] Hint Resolve bal_mofs_read_inode : balanced.

Lemma bal_mofs_write_inode cx inum inode : balanced (mofs_write_inode cx inum inode).
Proof. unfold mofs_write_inode. balance. Qed.
#[export] Hint Resolve bal_mofs_write_inode : balanced.

Lemma bal_mofs_inode_stamp_persist cx inum mask : balanced (mofs_inode_stamp_persist cx inum mask).
Proof. unfold mofs_inode_stamp_persist. balance. Qed.
#[export] Hint Resolve bal_mofs_inode_stamp_persist : balanced.

Lemma bal_allocate_inode cx : balanced (allocate_inode cx).
Proof. unfold allocate_inode. balance. Qed.
#[export] Hint Resolve bal_allocate_inode : balanced.

Lemma bal_free_inode cx inum : balanced (free_inode cx inum).
Proof. unfold free_inode. balance. Qed.
#[export] Hint Resolve bal_free_inode : balanced.

(** ** Block lists *)

Lemma bal_abs_to_data_idx cx abs_blk : balanced (abs_to_data_idx cx abs_blk).
Proof. unfold abs_to_data_idx. balance. Qed.
#[export] Hint Resolve bal_abs_to_data_idx : balanced.

Lemma bal_read_list_node cx abs_blk blk_buf : balanced (read_list_node cx abs_blk blk_buf).
Proof. unfold read_list_node. balance. Qed.
#[export] Hint Resolve bal_read_list_node : balanced.

Lemma bal_write_list_node cx abs_blk blk_buf : balanced (write_list_node cx abs_blk blk_buf).
Proof. unfold write_list_node. balance. Qed.
#[export] Hint Resolve bal_write_list_node : balanced.

Lemma bal_set_data_bitmap_bit cx data_idx set_used : balanced (set_data_bitmap_bit cx data_idx set_used).
Proof. unfold set_data_bitmap_bit. balance. Qed.
#[export] Hint Resolve bal_set_data_bitmap_bit : balanced.

Lemma bal_update_data_bitmap_bits cx data_idx_list : forall set_used, balanced (update_data_bitmap_bits cx data_idx_list set_used).
Proof. induction data_idx_list as [|i data_idx_list IH]; intros set_used; cbn [update_data_bitmap_bits]; balance. Qed.
#[export] Hint Resolve bal_update_data_bitmap_bits : balanced.

Lemma bal_find_free_data_block_indices cx required_alloc_num : balanced (find_free_data_block_indices cx required_alloc_num).
Proof. unfold find_free_data_block_indices. balance. Qed.
#[export] Hint Resolve bal_find_free_data_block_indices : balanced.

Lemma bal_mark_used cx todo : forall done, balanced (mark_used cx done todo).
Proof. induction todo as [|i todo IH]; intros done; cbn [mark_used]; balance. Qed.
#[export] Hint Resolve bal_mark_used : balanced.

Lemma bal_free_list_loop cx fuel : forall node_abs blk_buf, balanced (free_list_loop cx fuel node_abs blk_buf).
Proof. induction fuel as [|fuel IH]; intros node_abs blk_buf; cbn [free_list_loop]; balance. Qed.
#[export] Hint Resolve bal_free_list_loop : balanced.

Lemma bal_free_list_chain cx head_abs : balanced (free_list_chain cx head_abs).
Proof. unfold free_list_chain. balance. Qed.
#[export] Hint Resolve bal_free_list_chain : balanced.

Lemma bal_export_loop cx fuel : forall nr_blocks node_abs blk_buf out, balanced (export_loop cx nr_blocks fuel node_abs blk_buf out).
Proof. induction fuel as [|fuel IH]; intros nr_blocks node_abs blk_buf out; cbn [export_loop]; balance. Qed.
#[export] Hint Resolve bal_export_loop : balanced.

Lemma bal_export_data_block_list cx inode abs_cap : balanced (export_data_block_list cx inode abs_cap).
Proof. unfold export_data_block_list. balance. Qed.
#[export] Hint Resolve bal_export_data_block_list : balanced.

Lemma bal_write_nodes cx idxs : forall all rest, balanced (write_nodes cx all idxs rest).
Proof. induction idxs as [|i idxs IH]; intros all rest; cbn [write_nodes]; balance. Qed.
#[export] Hint Resolve bal_write_nodes : balanced.

Lemma bal_rebuild_data_block_list cx inode abs_list : balanced (rebuild_data_block_list cx inode abs_list).
Proof. unfold rebuild_data_block_list. balance. Qed.
#[export] Hint Resolve bal_rebuild_data_block_list : balanced.

Lemma bal_resolve_loop cx fuel : forall node_abs remain blk_buf, balanced (resolve_loop cx fuel node_abs remain blk_buf).
Proof. induction fuel as [|fuel IH]; intros node_abs remain blk_buf; cbn [resolve_loop]; balance. Qed.
#[export] Hint Resolve bal_resolve_loop : balanced.

Lemma bal_resolve_file_data_block cx inum file_blk_idx : balanced (resolve_file_data_block cx inum file_blk_idx).
Proof. unfold resolve_file_data_block. balance. Qed.
#[export] Hint Resolve bal_resolve_file_data_block : balanced.

Lemma bal_malloc_both n m : balanced (malloc_both n m).
Proof.
  unfold malloc_both. apply bal_bind; [balance|]. intros r1. apply bal_bind; [balance|]. intros r2. by destruct r1, r2.
Qed.
#[export] Hint Resolve bal_malloc_both : balanced.

Lemma bal_relink cx inum inode abs_list undo : balanced undo -> balanced (relink cx inum inode abs_list undo).
Proof. intros Hu. unfold relink. balance. Qed.
#[export] Hint Resolve bal_relink : balanced.

Lemma bal_allocate_data_block cx inum req_blk_num : balanced (allocate_data_block cx inum req_blk_num).
Proof. unfold allocate_data_block. balance. Qed.
#[export] Hint Resolve bal_allocate_data_block : balanced.

Lemma bal_release_blocks cx abs_list : balanced (release_blocks cx abs_list).
Proof. induction abs_list as [|b abs_list IH]; cbn [release_blocks]; balance. Qed.
#[export] Hint Resolve bal_release_blocks : balanced.

Lemma bal_rollback_bitmap cx abs_list : balanced (rollback_bitmap cx abs_list).
Proof. unfold rollback_bitmap. balance. Qed.
#[export] Hint Resolve bal_rollback_bitmap : balanced.

Lemma bal_free_data_block cx inum start_blk_num req_blk_num : balanced (free_data_block cx inum start_blk_num req_blk_num).
Proof. unfold free_data_block. balance. Qed.
#[export] Hint Resolve bal_free_data_block : balanced.

(** ** File data *)

Lemma bal_read_file_loop cx n : forall inum start i buf, balanced (read_file_loop cx inum start n i buf).
Proof. induction n as [|n IH]; intros inum start i buf; cbn [read_file_loop]; balance. Qed.
#[export] Hint Resolve bal_read_file_loop : balanced.

Lemma bal_read_file_data_block cx inum buf start_blk_num req_blk_num : balanced (read_file_data_block cx inum buf start_blk_num req_blk_num).
Proof. unfold read_file_data_block. balance. Qed.
#[export] Hint Resolve bal_read_file_data_block : balanced.

Lemma bal_write_file_loop cx n : forall inum start i buf, balanced (write_file_loop cx inum start n i buf).
Proof. induction n as [|n IH]; intros inum start i buf; cbn [write_file_loop]; balance. Qed.
#[export] Hint Resolve bal_write_file_loop : balanced.

Lemma bal_write_file_data_block cx inum buf start_blk_num req_blk_num : balanced (write_file_data_block cx inum buf start_blk_num req_blk_num).
Proof. unfold write_file_data_block. balance. Qed.
#[export] Hint Resolve bal_write_file_data_block : balanced.

(** ** Permissions *)

Lemma bal_caller_in_group g : balanced (caller_in_group g).
Proof. unfold caller_in_group. balance. Qed.
#[export] Hint Resolve bal_caller_in_group : balanced.

Lemma bal_mofs_check_open_permission flags user inode : balanced (mofs_check_open_permission flags user inode).
Proof. unfold mofs_check_open_permission. balance. Qed.
#[export] Hint Resolve bal_mofs_check_open_permission : balanced.

Lemma bal_mofs_check_dir_traverse user dir_inode : balanced (mofs_check_dir_traverse user dir_inode).
Proof. unfold mofs_check_dir_traverse. balance. Qed.
#[export] Hint Resolve bal_mofs_check_dir_traverse : balanced.

Lemma bal_mofs_check_dir_read user dir_inode : balanced (mofs_check_dir_read user dir_inode).
Proof. unfold mofs_check_dir_read. balance. Qed.
#[export] Hint Resolve bal_mofs_check_dir_read : balanced.

Lemma bal_mofs_check_dir_write user dir_inode : balanced (mofs_check_dir_write user dir_inode).
Proof. unfold mofs_check_dir_write. balance. Qed.
#[export] Hint Resolve bal_mofs_check_dir_write : balanced.

Lemma bal_require_caller_user : balanced (require_caller_user).
Proof. unfold require_caller_user. balance. Qed.
#[export] Hint Resolve bal_require_caller_user : balanced.

(** ** Directory entries *)

Lemma bal_write_dot_entries cx child_inode_num parent_inode_num : balanced (write_dot_entries cx child_inode_num parent_inode_num).
Proof. unfold write_dot_entries. balance. Qed.
#[export] Hint Resolve bal_write_dot_entries : balanced.

Lemma bal_is_empty_loop cx n : forall inum blk_idx buf, balanced (is_empty_loop cx inum n blk_idx buf).
Proof. induction n as [|n IH]; intros inum blk_idx buf; cbn [is_empty_loop]; balance. Qed.
#[export] Hint Resolve bal_is_empty_loop : balanced.

Lemma bal_is_directory_empty cx inum : balanced (is_directory_empty cx inum).
Proof. unfold is_directory_empty. balance. Qed.
#[export] Hint Resolve bal_is_directory_empty : balanced.

Lemma bal_find_entry_loop cx n : forall component parent i buf, balanced (find_entry_loop cx component parent n i buf).
Proof. induction n as [|n IH]; intros component parent i buf; cbn [find_entry_loop]; balance. Qed.
#[export] Hint Resolve bal_find_entry_loop : balanced.

Lemma bal_find_dir_entry cx component parent_inode_num : balanced (find_dir_entry cx component parent_inode_num).
Proof. unfold find_dir_entry. balance. Qed.
#[export] Hint Resolve bal_find_dir_entry : balanced.

Lemma bal_remove_entry_loop cx n : forall component parent blk_idx buf, balanced (remove_entry_loop cx component parent n blk_idx buf).
Proof. induction n as [|n IH]; intros component parent blk_idx buf; cbn [remove_entry_loop]; balance. Qed.
#[export] Hint Resolve bal_remove_entry_loop : balanced.

Lemma bal_remove_dir_entry cx component parent_inode_num : balanced (remove_dir_entry cx component parent_inode_num).
Proof. unfold remove_dir_entry. balance. Qed.
#[export] Hint Resolve bal_remove_dir_entry : balanced.

Lemma bal_add_scan_loop cx n : forall component parent blk_idx buf reusable, balanced (add_scan_loop cx component parent n blk_idx buf reusable).
Proof. induction n as [|n IH]; intros component parent blk_idx buf reusable; cbn [add_scan_loop]; balance. Qed.
#[export] Hint Resolve bal_add_scan_loop : balanced.

Lemma bal_add_target_block cx parent_inode_num old_blk_num target_blk_idx dirent_buf : balanced (add_target_block cx parent_inode_num old_blk_num target_blk_idx dirent_buf).
Proof. unfold add_target_block. balance. Qed.
#[export] Hint Resolve bal_add_target_block : balanced.

Lemma bal_add_dir_entry cx component parent_inode_num child_inode_num : balanced (add_dir_entry cx component parent_inode_num child_inode_num).
Proof. unfold add_dir_entry. balance. Qed.
#[export] Hint Resolve bal_add_dir_entry : balanced.

Lemma bal_read_dot_block cx dir_inode : balanced (read_dot_block cx dir_inode).
Proof. unfold read_dot_block. balance. Qed.
#[export] Hint Resolve bal_read_dot_block : balanced.

Lemma bal_read_dotdot_parent cx dir_inode : balanced (read_dotdot_parent cx dir_inode).
Proof. unfold read_dotdot_parent. balance. Qed.
#[export] Hint Resolve bal_read_dotdot_parent : balanced.

Lemma bal_rewrite_dotdot cx dir_inode new_parent : balanced (rewrite_dotdot cx dir_inode new_parent).
Proof. unfold rewrite_dotdot. balance. Qed.
#[export] Hint Resolve bal_rewrite_dotdot : balanced.

Lemma bal_ancestor_loop cx n : forall ancestor cursor, balanced (ancestor_loop cx ancestor n cursor).
Proof. induction n as [|n IH]; intros ancestor cursor; cbn [ancestor_loop]; balance. Qed.
#[export] Hint Resolve bal_ancestor_loop : balanced.

Lemma bal_directory_is_ancestor cx ancestor start : balanced (directory_is_ancestor cx ancestor start).
Proof. unfold directory_is_ancestor. balance. Qed.
#[export] Hint Resolve bal_directory_is_ancestor : balanced.

Lemma bal_adjust_dir_nlink cx inum delta : balanced (adjust_dir_nlink cx inum delta).
Proof. unfold adjust_dir_nlink. balance. Qed.
#[export] Hint Resolve bal_adjust_dir_nlink : balanced.

(** ** Paths *)

Lemma bal_check_parent_traverse cx check_access user parent : balanced (check_parent_traverse cx check_access user parent).
Proof. unfold check_parent_traverse. balance. Qed.
#[export] Hint Resolve bal_check_parent_traverse : balanced.

Lemma bal_resolve_leaf cx flags user parent current : balanced (resolve_leaf cx flags user parent current).
Proof. unfold resolve_leaf. balance. Qed.
#[export] Hint Resolve bal_resolve_leaf : balanced.

Lemma bal_resolve_components cx tokens : forall flags user parent, balanced (resolve_components cx flags user parent tokens).
Proof. induction tokens as [|t tokens IH]; intros flags user parent; cbn [resolve_components]; balance. Qed.
#[export] Hint Resolve bal_resolve_components : balanced.

Lemma bal_mofs_resolve_path cx path flags : balanced (mofs_resolve_path cx path flags).
Proof. unfold mofs_resolve_path. balance. Qed.
#[export] Hint Resolve bal_mofs_resolve_path : balanced.

Lemma bal_mofs_path_to_inode_num cx path : balanced (mofs_path_to_inode_num cx path).
Proof. unfold mofs_path_to_inode_num. balance. Qed.
#[export] Hint Resolve bal_mofs_path_to_inode_num : balanced.

(** ** Files *)

Lemma bal_mofs_create_core cx path mode : balanced (mofs_create_core cx path mode).
Proof. unfold mofs_create_core. balance. Qed.
#[export] Hint Resolve bal_mofs_create_core : balanced.

Lemma bal_mofs_unlink_core cx path : balanced (mofs_unlink_core cx path).
Proof. unfold mofs_unlink_core. balance. Qed.
#[export] Hint Resolve bal_mofs_unlink_core : balanced.

Lemma bal_open_inode cx path flags mode : balanced (open_inode cx path flags mode).
Proof. unfold open_inode. balance. Qed.
#[export] Hint Resolve bal_open_inode : balanced.

Lemma bal_preload_loop cx n : forall inum start current i buf, balanced (preload_loop cx inum start current n i buf).
Proof. induction n as [|n IH]; intros inum start current i buf; cbn [preload_loop]; balance. Qed.
#[export] Hint Resolve bal_preload_loop : balanced.

Lemma bal_write_prepare cx inum old_size offset start_blk_num req_blk_num data : balanced (write_prepare cx inum old_size offset start_blk_num req_blk_num data).
Proof. unfold write_prepare. balance. Qed.
#[export] Hint Resolve bal_write_prepare : balanced.

Lemma bal_zero_partial_block_tail cx inum blk_idx tail_start : balanced (zero_partial_block_tail cx inum blk_idx tail_start).
Proof. unfold zero_partial_block_tail. balance. Qed.
#[export] Hint Resolve bal_zero_partial_block_tail : balanced.

Lemma bal_preload_zero_loop cx n : forall inum start current i buf, balanced (preload_zero_loop cx inum start current n i buf).
Proof. induction n as [|n IH]; intros inum start current i buf; cbn [preload_zero_loop]; balance. Qed.
#[export] Hint Resolve bal_preload_zero_loop : balanced.

Lemma bal_zero_file_byte_range cx inum from_off to_off : balanced (zero_file_byte_range cx inum from_off to_off).
Proof. unfold zero_file_byte_range. balance. Qed.
#[export] Hint Resolve bal_zero_file_byte_range : balanced.

Lemma bal_set_size_persist cx inum new_size inode : balanced (set_size_persist cx inum new_size inode).
Proof. unfold set_size_persist. balance. Qed.
#[export] Hint Resolve bal_set_size_persist : balanced.

Lemma bal_truncate_shrink cx inum new_size old_nr_blocks : balanced (truncate_shrink cx inum new_size old_nr_blocks).
Proof. unfold truncate_shrink. balance. Qed.
#[export] Hint Resolve bal_truncate_shrink : balanced.

Lemma bal_truncate_grow cx inum new_size inode : balanced (truncate_grow cx inum new_size inode).
Proof. unfold truncate_grow. balance. Qed.
#[export] Hint Resolve bal_truncate_grow : balanced.

Lemma bal_truncate_inode cx inum new_size : balanced (truncate_inode cx inum new_size).
Proof. unfold truncate_inode. balance. Qed.
#[export] Hint Resolve bal_truncate_inode : balanced.

Lemma bal_mofs_truncate_core cx inum length : balanced (mofs_truncate_core cx inum length).
Proof. unfold mofs_truncate_core. balance. Qed.
#[export] Hint Resolve bal_mofs_truncate_core : balanced.

Lemma bal_mofs_stat_core cx path : balanced (mofs_stat_core cx path).
Proof. unfold mofs_stat_core. balance. Qed.
#[export] Hint Resolve bal_mofs_stat_core : balanced.

(** ** Directories *)

Lemma bal_mkdir_rollback cx parent_linked block_allocated path_info child : balanced (mkdir_rollback cx parent_linked block_allocated path_info child).
Proof. unfold mkdir_rollback. balance. Qed.
#[export] Hint Resolve bal_mkdir_rollback : balanced.

Lemma bal_mkdir_child cx child mode user : balanced (mkdir_child cx child mode user).
Proof. unfold mkdir_child. balance. Qed.
#[export] Hint Resolve bal_mkdir_child : balanced.

Lemma bal_mkdir_contents cx child path_info : balanced (mkdir_contents cx child path_info).
Proof. unfold mkdir_contents. balance. Qed.
#[export] Hint Resolve bal_mkdir_contents : balanced.

Lemma bal_mkdir_parent_link cx parent : balanced (mkdir_parent_link cx parent).
Proof. unfold mkdir_parent_link. balance. Qed.
#[export] Hint Resolve bal_mkdir_parent_link : balanced.

Lemma bal_mofs_mkdir_core cx path mode : balanced (mofs_mkdir_core cx path mode).
Proof. unfold mofs_mkdir_core. balance. Qed.
#[export] Hint Resolve bal_mofs_mkdir_core : balanced.

Lemma bal_mofs_rmdir_core cx path : balanced (mofs_rmdir_core cx path).
Proof. unfold mofs_rmdir_core. balance. Qed.
#[export] Hint Resolve bal_mofs_rmdir_core : balanced.

Lemma bal_readdir_loop cx n : forall inum start_block start_idx buf, balanced (readdir_loop cx inum n start_block start_idx buf).
Proof. induction n as [|n IH]; intros inum start_block start_idx buf; cbn [readdir_loop]; balance. Qed.
#[export] Hint Resolve bal_readdir_loop : balanced.

Lemma bal_require_parent_write cx parent : balanced (require_parent_write cx parent).
Proof. unfold require_parent_write. balance. Qed.
#[export] Hint Resolve bal_require_parent_write : balanced.

Lemma bal_rename_replace cx new_path old_info new_info src_is_dir : balanced (rename_replace cx new_path old_info new_info src_is_dir).
Proof. unfold rename_replace. balance. Qed.
#[export] Hint Resolve bal_rename_replace : balanced.

Lemma bal_rename_reparent cx old_info new_info : balanced (rename_reparent cx old_info new_info).
Proof. unfold rename_reparent. balance. Qed.
#[export] Hint Resolve bal_rename_reparent : balanced.

Lemma bal_mofs_rename_core cx old_path new_path : balanced (mofs_rename_core cx old_path new_path).
Proof. unfold mofs_rename_core. balance. Qed.
#[export] Hint Resolve bal_mofs_rename_core : balanced.

(** ** Handles *)

Lemma bal_put_handle i f : balanced (put_handle i f).
Proof. unfold put_handle. balance. Qed.
#[export] Hint Resolve bal_put_handle : balanced.

Lemma bal_set_file_offset i off : balanced (set_file_offset i off).
Proof. unfold set_file_offset. balance. Qed.
#[export] Hint Resolve bal_set_file_offset : balanced.

Lemma bal_get_handle h : balanced (get_handle h).
Proof. unfold get_handle. balance. Qed.
#[export] Hint Resolve bal_get_handle : balanced.

Lemma bal_mofs_open_core cx p flags mode : balanced (mofs_open_core cx p flags mode).
Proof. unfold mofs_open_core. destruct p as [p|]; [|done]. balance. Qed.
#[export] Hint Resolve bal_mofs_open_core : balanced.

Lemma bal_mofs_close_core h : balanced (mofs_close_core h).
Proof. unfold mofs_close_core. balance. Qed.
#[export] Hint Resolve bal_mofs_close_core : balanced.

Lemma bal_mofs_read_core cx h size off upd : balanced (mofs_read_core cx h size off upd).
Proof. unfold mofs_read_core. balance. Qed.
#[export] Hint Resolve bal_mofs_read_core : balanced.

Lemma bal_write_transfer cx i f inode off start req wreq upd buf : balanced (write_transfer cx i f inode off start req wreq upd buf).
Proof. unfold write_transfer. balance. Qed.
#[export] Hint Resolve bal_write_transfer : balanced.

Lemma bal_mofs_write_core cx h data off upd : balanced (mofs_write_core cx h data off upd).
Proof. unfold mofs_write_core. balance. Qed.
#[export] Hint Resolve bal_mofs_write_core : balanced.

Lemma bal_put_dirhandle i d : balanced (put_dirhandle i d).
Proof. unfold put_dirhandle. balance. Qed.
#[export] Hint Resolve bal_put_dirhandle : balanced.

Lemma bal_get_dirhandle h : balanced (get_dirhandle h).
Proof. unfold get_dirhandle. balance. Qed.
#[export] Hint Resolve bal_get_dirhandle : balanced.

Lemma bal_mofs_opendir_core cx p : balanced (mofs_opendir_core cx p).
Proof. unfold mofs_opendir_core. destruct p as [p|]; [|done]. balance. Qed.
#[export] Hint Resolve bal_mofs_opendir_core : balanced.

Lemma bal_mofs_closedir_core h : balanced (mofs_closedir_core h).
Proof. unfold mofs_closedir_core. balance. Qed.
#[export] Hint Resolve bal_mofs_closedir_core : balanced.

Lemma bal_mofs_readdir_core cx h : balanced (mofs_readdir_core cx h).
Proof. unfold mofs_readdir_core. balance. Qed.
#[export] Hint Resolve bal_mofs_readdir_core : balanced.

(** ** Locked parts *)

Lemma bal_lseek_locked cx i off wh : balanced (lseek_locked cx i off wh).
Proof. unfold lseek_locked. balance. Qed.

Lemma bal_ftruncate_locked cx i len : balanced (ftruncate_locked cx i len).
Proof. unfold ftruncate_locked. balance. Qed.

Lemma bal_fsync_core h : balanced (fsync_core h).
Proof. unfold fsync_core. destruct h as [i|]; balance. Qed.
#[export] Hint Resolve bal_lseek_locked bal_ftruncate_locked bal_fsync_core : balanced.

(** The locked part of every call. *)
Lemma bal_api_body c v cx : balanced (api_body c v cx).
Proof. destruct c; cbn [api_body]; balance. Qed.
