(* ===== verification/SyncSpec.v ===== *)
(** * Threads: the calls, the lock and the interleavings

    A call split at the lock is the function of posix.c; block drivers leave
    thread-local state alone; the invariant of the lock; a run of threads
    against the same calls made one after another. *)

From Stdlib Require Import ZArith Lia.
From stdpp Require Import base list.
From S2P Require Import Prelude Types Platform Raw Buffer BufferSpec Ops Bitmap Inode Block FileData Perm Dirent Path File Dir Format Core Posix Sync LocalSpec LockSpec.

(** ** Calls *)

Section calls.
Context {P C : Type} `{!Platform P} `{!BlockDriver P C}.
Abbreviation W := (world P C).

(** The locked part of a call and its end, against the function of posix.c. *)
Lemma call_finish {A R} (c : api) (p : mofs_ctx_t -> prog A) (g : A -> api_ret) (ok : A -> R) (bad : Z -> R) (k : R -> M W api_ret) (w : W) :
  (forall x (w' : W), k (ok x) w' = (w', Ok (api_exit c (g x) w'))) -> (forall e (w' : W), k (bad e) w' = (w', Ok (api_bad c e))) ->
  (r ← core_call (fun cx => x ← p cx; mret (g x)); api_finish c r) w = ((r ← core_call p; finish r ok bad) ≫= k) w.
Proof.
  intros Hok Hbad. unfold core_call, core_run, api_finish, gets, attempt, mbind, M_bind. rewrite !interp_locked, interp_bind.
  destruct (interp (p (w_ctx w)) w) as [w' [x|e|]]; cbn; [symmetry; apply Hok| |done].
  unfold posix_set_errno, modify, mbind, M_bind. cbn. by rewrite Hbad.
Qed.

(** A call that fails before it takes the lock. *)
Lemma call_rejected {R} (c : api) e (bad : Z -> R) (k : R -> M W api_ret) (w : W) :
  (forall e (w' : W), k (bad e) w' = (w', Ok (api_bad c e))) ->
  api_finish c (Err e) w = (finish (@Err unit e) (fun _ => bad 0) bad ≫= k) w.
Proof. intros Hbad. unfold api_finish, gets, finish, posix_set_errno, modify, mbind, M_bind. cbn. symmetry. apply Hbad. Qed.

Ltac posix_call_solve := refine (call_finish _ _ _ _ _ _ _ _ _); done.

(** Reading and writing from a position that was chosen. *)
Lemma pread_from (c : api) i size off (w : W) :
  c = PRead (Some i) size \/ (exists o, c = PPread (Some i) size o) ->
  api_from c (check_offset off) w = ('(z, bs) ← mofs_pread (Some i) size off; mret (RBytes z bs)) w.
Proof.
  intros Hc. unfold mofs_pread, check_offset. destruct (_ || _).
  - unfold api_from. apply (call_rejected _ _ (fun _ => (-1, []))). destruct Hc as [->|[o ->]]; done.
  - destruct Hc as [->|[o ->]]; posix_call_solve.
Qed.

Lemma pwrite_from (c : api) i dt off (w : W) :
  c = PWrite (Some i) dt \/ (exists o, c = PPwrite (Some i) dt o) ->
  api_from c (check_offset off) w = (z ← mofs_pwrite (Some i) dt off; mret (RInt z)) w.
Proof.
  intros Hc. unfold mofs_pwrite, check_offset. destruct (_ || _).
  - unfold api_from. apply (call_rejected _ _ (fun _ => -1)). destruct Hc as [->|[o ->]]; done.
  - destruct Hc as [->|[o ->]]; posix_call_solve.
Qed.

Lemma readdir_eq h (w : W) : api_from (PReaddir h) (Ok 0) w = (e ← mofs_readdir h; mret (RDirent e)) w.
Proof.
  unfold api_from, mofs_readdir, core_call, core_run, api_finish, gets, attempt, mbind, M_bind. cbn [api_body]. rewrite !interp_locked, interp_bind.
  destruct (interp (mofs_readdir_core (w_ctx w) h) w) as [w' [x|e|]]; done.
Qed.

(** A check of the handle before the lock, and the same check under it. *)
Lemma interp_files {A} (k : list mofs_filehandle -> prog A) (w : W) : interp (pool ← call OpGetFiles; k pool) w = interp (k (w_files w)) w.
Proof. done. Qed.

Lemma core_call_ext {A} (p q : mofs_ctx_t -> prog A) (w : W) : interp (p (w_ctx w)) w = interp (q (w_ctx w)) w -> core_call p w = core_call q w.
Proof. intros E. unfold core_call, core_run, gets, attempt, mbind, M_bind. by rewrite !interp_locked, E. Qed.

Lemma bind_ext {A B} (m m' : M W A) (k : A -> M W B) w : m w = m' w -> (m ≫= k) w = (m' ≫= k) w.
Proof. intros E. unfold mbind, M_bind. by rewrite E. Qed.

(** A call that checks its handle before it takes the lock: [p] repeats the
    check under the lock. *)
Lemma call_guarded {A R} (c : api) (chk : res Z) (p q : mofs_ctx_t -> prog A) (g : A -> api_ret) (ok : A -> R) (bad : Z -> R) (k : R -> M W api_ret) (w : W) :
  (forall v, chk = Ok v -> interp (p (w_ctx w)) w = interp (q (w_ctx w)) w /\ api_body c v = (fun cx => x ← q cx; mret (g x))) ->
  (forall e, chk = Err e -> interp (p (w_ctx w)) w = (w, Err e)) -> chk <> Stuck ->
  (forall x (w' : W), k (ok x) w' = (w', Ok (api_exit c (g x) w'))) -> (forall e (w' : W), k (bad e) w' = (w', Ok (api_bad c e))) ->
  api_from c chk w = ((r ← core_call p; finish r ok bad) ≫= k) w.
Proof.
  intros Hq Herr Hns Hok Hbad. destruct chk as [v|e|]; [| |done].
  - destruct (Hq v eq_refl) as [E B]. unfold api_from. rewrite B, (call_finish c q g ok bad k w Hok Hbad).
    by apply bind_ext, bind_ext, core_call_ext.
  - unfold api_from. unfold core_call, core_run, api_finish, gets, attempt, mbind, M_bind. rewrite interp_locked, (Herr e eq_refl). cbn.
    unfold posix_set_errno, modify, mbind, M_bind. cbn. by rewrite Hbad.
Qed.

Lemma lseek_eq i off wh (w : W) : api_call (PLseek (Some i) off wh) w = (z ← mofs_lseek (Some i) off wh; mret (RInt z)) w.
Proof.
  unfold api_call. erewrite M_bind_ok by reflexivity. cbn [api_check with_handle].
  apply (call_guarded _ _ (fun cx => lseek_core cx i off wh) (fun cx => lseek_locked cx i off wh) RInt id); try done;
    unfold lseek_core; rewrite ?interp_files; destruct (negb _); naive_solver.
Qed.

Lemma ftruncate_eq h len (w : W) : api_call (PFtruncate h len) w = (z ← mofs_ftruncate h len; mret (RInt z)) w.
Proof.
  unfold api_call. erewrite M_bind_ok by reflexivity.
  apply (call_guarded _ _ (fun cx => ftruncate_core cx h len) (fun cx => ftruncate_locked cx (handle_num h) len) (fun _ => RInt 0) (fun _ => 0)); try done;
    destruct h as [i|]; cbn [api_check with_handle ftruncate_core]; rewrite ?interp_files; try naive_solver; destruct (negb _); try naive_solver; destruct (negb _); naive_solver.
Qed.

Lemma fsync_eq h (w : W) : api_call (PFsync h) w = (z ← mofs_fsync h; mret (RInt z)) w.
Proof.
  unfold api_call. erewrite M_bind_ok by reflexivity.
  apply (call_guarded _ _ (fun _ => fsync_core h) (fun _ => fsync_core h) (fun _ => RInt 0) (fun _ => 0)); try done; destruct h; naive_solver.
Qed.

Lemma api_call_eq (c : api) (w : W) : api_call c w = posix_call c w.
Proof.
  destruct c as [p|p|h|h|p fl md|h|h sz|h dt|h sz off|h dt off|h off wh|p len|h len|p|p md|p|p q|h];
    try (unfold api_call; erewrite M_bind_ok by reflexivity; posix_call_solve).
  - apply readdir_eq.
  - destruct h as [i|]; [by apply pread_from; left|]. by refine (call_rejected _ _ (fun _ => (-1, [])) _ _ _).
  - destruct h as [i|]; [by apply pwrite_from; left|]. by refine (call_rejected _ _ (fun _ => -1) _ _ _).
  - destruct h as [i|]; [by apply pread_from; right; exists off|]. by refine (call_rejected _ _ (fun _ => (-1, [])) _ _ _).
  - destruct h as [i|]; [by apply pwrite_from; right; exists off|]. by refine (call_rejected _ _ (fun _ => -1) _ _ _).
  - destruct h as [i|]; [apply lseek_eq|]. by refine (call_rejected _ _ (fun _ => -1) _ _ _).
  - apply ftruncate_eq.
  - apply fsync_eq.
Qed.

End calls.

(** ** Steps of a thread *)

Section steps.
Context {P C K : Type} `{!Platform P} `{!BlockDriver P C} `{!RecMutex K}.
Abbreviation W := (world P C).
Abbreviation Mach := (machine P C K).

(** The kinds of step, as rules. *)
Inductive step_case (t : nat) (m : Mach) (th : thread) (c : api) : Mach -> Prop :=
| StepCheck v : t_phase th = Ready -> api_check c (m_world m) = Ok v ->
    step_case t m th c (put_thread t (set_phase (Waiting v) th) m)
| StepReject e : t_phase th = Ready -> api_check c (m_world m) = Err e ->
    step_case t m th c (record (t, Err e) (put_thread t (set_phase (Leaving (Err e)) th) m))
| StepLock v s : t_phase th = Waiting v -> mofs_core_sync_lock t (m_sync m) = Some s ->
    step_case t m th c (put_thread t (set_phase (Inside v (api_body c v (w_ctx (m_world m)))) th) (with_sync s m))
| StepRun v o k s w r : t_phase th = Inside v (Vis o k) -> sync_op t o (m_sync m) = Some s -> handle o (as_thread th (m_world m)) = (w, r) ->
    step_case t m th c (put_thread t (set_phase (Inside v (k r)) th) (with_world (shared w) (with_sync s m)))
| StepUnlock v r : t_phase th = Inside v (Done r) -> r <> Stuck ->
    step_case t m th c (record (t, Ok v) (put_thread t (set_phase (Leaving r) th) (with_sync (mofs_core_sync_unlock t (m_sync m)) m)))
| StepReturn r th' : t_phase th = Leaving r -> end_call c r (m_world m) th = Some th' ->
    step_case t m th c (put_thread t th' m).

Lemma step_inv t (m m' : Mach) : step t m = Some m' ->
  exists th c, m_threads m !! t = Some th /\ head (t_todo th) = Some c /\ step_case t m th c m'.
Proof.
  unfold step. intros H. apply bind_Some in H as (th & Hth & H). apply bind_Some in H as (c & Hc & H).
  exists th, c. split; [done|]. split; [done|]. destruct (t_phase th) as [|v|v [r|o k]|r] eqn:Hp.
  - destruct (api_check c (m_world m)) as [v|e|] eqn:Hk; simplify_eq; by econstructor.
  - apply bind_Some in H as (s & Hs & H). simplify_eq. by econstructor.
  - destruct r; simplify_eq; by econstructor.
  - apply bind_Some in H as (s & Hs & H). destruct (handle o _) as [w r] eqn:E. simplify_eq. by econstructor.
  - apply bind_Some in H as (th' & E & H). simplify_eq. by econstructor.
Qed.

Lemma api_check_not_stuck c (w : W) : api_check c w <> Stuck.
Proof.
  destruct c as [p|p|h|h|p fl md|h|h sz|h dt|h sz off|h dt off|h off wh|p len|h len|p|p md|p|p q|h]; try done; destruct h as [i|]; try done; cbn [api_check with_handle]; unfold check_offset.
  all: repeat match goal with |- context [if ?b then _ else _] => destruct b end; done.
Qed.

(** A schedule keeps what every step keeps. *)
Lemma exec_invariant (I : Mach -> Prop) : (forall t m m', I m -> step t m = Some m' -> I m') -> forall sched m, I m -> I (exec sched m).
Proof.
  intros Hstep sched. induction sched as [|t sched IH]; intros m Hm; [done|]. cbn. apply IH.
  destruct (step t m) as [m'|] eqn:E; [by eapply Hstep|done].
Qed.

End steps.

(** ** The lock *)

Definition is_inside (th : thread) : bool := match t_phase th with Inside _ _ => true | _ => false end.

Section lock.
Context {P C K : Type} `{!Platform P} `{!BlockDriver P C} `{!RecMutex K} `{!RecMutexSpec K}.
Abbreviation W := (world P C).
Abbreviation Mach := (machine P C K).

(** Thread [t] is in its locked part. *)
Definition inside_at (m : Mach) (t : nat) : bool := match m_threads m !! t with Some th => is_inside th | None => false end.

(** What thread [th] holds of the lock: in its locked part once, and once more
    for every nested lock that is still to be given back. *)
Definition holds (k : K) (t : nat) (th : thread) : Prop :=
  match t_phase th with
  | Inside _ p => exists n, nests n p /\ mutex_count k t = S n
  | _ => mutex_count k t = 0%nat
  end.

(** The lock is held by the thread that is in its locked part; a thread without
    calls is at rest. *)
Record lock_ok (m : Mach) : Prop := {
  lo_ready : core_sync_ready (m_sync m) = true;
  lo_holds : forall t th, m_threads m !! t = Some th -> holds (core_sync_mutex (m_sync m)) t th;
  lo_none : forall t, m_threads m !! t = None -> mutex_count (core_sync_mutex (m_sync m)) t = 0%nat;
  lo_excl : forall t u, inside_at m t = true -> inside_at m u = true -> t = u;
  lo_rest : forall t th, m_threads m !! t = Some th -> t_todo th = [] -> t_phase th = Ready;
  lo_left : forall t th, m_threads m !! t = Some th -> t_phase th <> Leaving Stuck
}.

(** A change of thread [t] only. *)
Lemma inside_put (m : Mach) t th th' u : m_threads m !! t = Some th ->
  inside_at (put_thread t th' m) u = if decide (u = t) then is_inside th' else inside_at m u.
Proof.
  intros Ht. unfold inside_at, put_thread. cbn. destruct (decide (u = t)) as [->|Hu].
  - by rewrite list_lookup_insert_eq by (by eapply lookup_lt_Some).
  - by rewrite list_lookup_insert_ne by done.
Qed.

Lemma inside_thread (m : Mach) t th : m_threads m !! t = Some th -> inside_at m t = is_inside th.
Proof. intros E. unfold inside_at. by rewrite E. Qed.

(** Holding the lock and being inside are the same. *)
Lemma count_inside (m : Mach) t : lock_ok m -> (0 < mutex_count (core_sync_mutex (m_sync m)) t)%nat <-> inside_at m t = true.
Proof.
  intros Hok. unfold inside_at. destruct (m_threads m !! t) as [th|] eqn:E; [|rewrite (lo_none m Hok t E); split; [lia|done]].
  pose proof (lo_holds m Hok t th E) as H. unfold holds, is_inside in *. destruct (t_phase th); try (rewrite H; split; [lia|done]).
  destruct H as (n & _ & ->). split; [done|lia].
Qed.

Lemma outside_count (m : Mach) t : lock_ok m -> inside_at m t = false -> mutex_count (core_sync_mutex (m_sync m)) t = 0%nat.
Proof. intros Hok Ht. pose proof (count_inside m t Hok) as [H _]. rewrite Ht in H. destruct (mutex_count _ t); [done|]. discriminate H. lia. Qed.

(** The invariant after thread [t] became [th'] and the lock changed for [t]. *)
Lemma lock_ok_put (m m' : Mach) t th th' : lock_ok m -> m_threads m !! t = Some th -> m_threads m' = <[t := th']> (m_threads m) ->
  core_sync_ready (m_sync m') = true ->
  (forall u, u <> t -> mutex_count (core_sync_mutex (m_sync m')) u = mutex_count (core_sync_mutex (m_sync m)) u) ->
  holds (core_sync_mutex (m_sync m')) t th' ->
  (is_inside th' = true -> forall u, u <> t -> inside_at m u = false) ->
  (t_todo th' = [] -> t_phase th' = Ready) -> t_phase th' <> Leaving Stuck -> lock_ok m'.
Proof.
  intros Hok Ht Hm Hr Hc Hh Hex Hrest Hst.
  assert (Hin : forall u, inside_at m' u = if decide (u = t) then is_inside th' else inside_at m u).
  { intros u. rewrite <- (inside_put m t th th' u Ht). unfold inside_at. by rewrite Hm. }
  assert (Hget : forall u x, m_threads m' !! u = Some x -> u = t /\ x = th' \/ u <> t /\ m_threads m !! u = Some x).
  { intros u x Hx. rewrite Hm in Hx. apply list_lookup_insert_Some in Hx as [(<- & -> & _)|[Hu Hx]]; [by left|by right]. }
  split.
  - done.
  - intros u x Hx. destruct (Hget u x Hx) as [[-> ->]|[Hu Hx']]; [done|]. pose proof (lo_holds m Hok u x Hx') as H.
    unfold holds in *. destruct (t_phase x); rewrite Hc by done; done.
  - intros u Hu. assert (Hut : u <> t) by (intros ->; rewrite Hm, list_lookup_insert_eq in Hu; [done|by eapply lookup_lt_Some]).
    rewrite Hc by done. apply (lo_none m Hok). by rewrite Hm, list_lookup_insert_ne in Hu.
  - intros u v. rewrite !Hin. destruct (decide (u = t)) as [->|Hu], (decide (v = t)) as [->|Hv]; [done| | |apply (lo_excl m Hok)].
    + intros Hi Hj. rewrite (Hex Hi v Hv) in Hj. done.
    + intros Hi Hj. rewrite (Hex Hj u Hu) in Hi. done.
  - intros u x Hx. destruct (Hget u x Hx) as [[-> ->]|[_ Hx']]; [done|by apply (lo_rest m Hok u)].
  - intros u x Hx. destruct (Hget u x Hx) as [[-> ->]|[_ Hx']]; [done|by apply (lo_left m Hok u)].
Qed.

(** A step outside the locked part leaves the lock alone. *)
Lemma lock_ok_keep (m m' : Mach) t th th' : lock_ok m -> m_threads m !! t = Some th -> m_threads m' = <[t := th']> (m_threads m) ->
  m_sync m' = m_sync m -> is_inside th = false -> is_inside th' = false ->
  (t_todo th' = [] -> t_phase th' = Ready) -> t_phase th' <> Leaving Stuck -> lock_ok m'.
Proof.
  intros Hok Ht Hm Hs Hi Hi'. apply (lock_ok_put m m' t th th' Hok Ht Hm); rewrite ?Hs; [apply (lo_ready m Hok)|done| |by rewrite Hi'].
  pose proof (lo_holds m Hok t th Ht) as H. unfold holds, is_inside in *. by destruct (t_phase th), (t_phase th').
Qed.

(** Who is inside is alone there. *)
Lemma others_outside (m : Mach) t : lock_ok m -> inside_at m t = true -> forall u, u <> t -> inside_at m u = false.
Proof. intros Hok Ht u Hu. destruct (inside_at m u) eqn:E; [|done]. destruct Hu. by apply (lo_excl m Hok). Qed.

(** Nobody waits for a lock that no other thread holds. *)
Lemma lock_blocked t s : core_sync_ready s = true -> mofs_core_sync_lock t s = None -> exists u, u <> t /\ (0 < mutex_count (core_sync_mutex s) u)%nat.
Proof. intros Hr Hl. unfold mofs_core_sync_lock in Hl. rewrite Hr in Hl. by apply fmap_None, mutex_waits in Hl. Qed.

(** What a service call of the thread that is inside does to the lock. *)
Lemma sync_op_count t o (s s' : core_sync K) n : core_sync_ready s = true -> mutex_count (core_sync_mutex s) t = S n -> sync_op t o s = Some s' ->
  core_sync_ready s' = true /\ (forall u, u <> t -> mutex_count (core_sync_mutex s') u = mutex_count (core_sync_mutex s) u) /\
  forall n', depth_after o n = Some n' -> mutex_count (core_sync_mutex s') t = S n'.
Proof.
  intros Hr Hc Hs. destruct o; cbn in Hs |- *; try (simplify_eq; split; [done|]; split; [done|]; by intros n' [= <-]).
  - unfold mofs_core_sync_lock in Hs. rewrite Hr in Hs. apply fmap_Some in Hs as (k & Hk & ->). split; [done|]. split.
    + intros u Hu. cbn. rewrite (mutex_lock_count _ _ _ u Hk), decide_False by done. lia.
    + intros n' [= <-]. cbn. rewrite (mutex_lock_count _ _ _ t Hk), decide_True by done. lia.
  - simplify_eq. unfold mofs_core_sync_unlock. rewrite Hr. cbn. split; [done|]. split.
    + intros u Hu. rewrite mutex_unlock_count by lia. rewrite decide_False by done. lia.
    + intros n' Hn. rewrite mutex_unlock_count, decide_True by (done || lia). destruct n; simplify_eq. lia.
Qed.

(** Who gets the lock finds nobody inside. *)
Lemma lock_free (m : Mach) t s : lock_ok m -> inside_at m t = false -> mofs_core_sync_lock t (m_sync m) = Some s ->
  (forall u, inside_at m u = false) /\ core_sync_ready s = true /\
  forall u, mutex_count (core_sync_mutex s) u = if decide (u = t) then 1%nat else 0%nat.
Proof.
  intros Hok Ht Hl. unfold mofs_core_sync_lock in Hl. rewrite (lo_ready m Hok) in Hl. apply fmap_Some in Hl as (k & Hk & ->).
  assert (Hno : forall u, inside_at m u = false).
  { intros u. destruct (decide (u = t)) as [->|Hu]; [done|]. destruct (inside_at m u) eqn:E; [|done]. exfalso.
    assert (Hw : mutex_lock t (core_sync_mutex (m_sync m)) = None); [|congruence].
    apply mutex_waits. exists u. split; [done|]. by apply count_inside. }
  split; [done|]. split; [done|]. intros u. cbn. rewrite (mutex_lock_count _ _ _ u Hk), (outside_count m u Hok) by done. by destruct (decide (u = t)).
Qed.

Lemma lock_ok_step t (m m' : Mach) : lock_ok m -> step t m = Some m' -> lock_ok m'.
Proof.
  intros Hok Hs. apply step_inv in Hs as (th & c & Ht & Hc & Hcase).
  assert (Htodo : t_todo th <> []) by (intros E; by rewrite E in Hc).
  pose proof (lo_holds m Hok t th Ht) as Hh. pose proof (others_outside m t Hok) as Hoth. rewrite (inside_thread m t th Ht) in Hoth.
  inversion Hcase as [v Hp Hk|e Hp Hk|v s Hp Hl|v o k s w r Hp Hl Hd|v r Hp Hns|r th' Hp He]; subst m'; unfold holds, is_inside in Hh, Hoth; rewrite Hp in Hh, Hoth.
  - apply (lock_ok_keep m _ t th (set_phase (Waiting v) th)); try done. unfold is_inside. by rewrite Hp.
  - apply (lock_ok_keep m _ t th (set_phase (Leaving (Err e)) th)); try done. unfold is_inside. by rewrite Hp.
  - destruct (lock_free m t s Hok) as (Hno & Hr & Hcnt); [rewrite (inside_thread m t th Ht); unfold is_inside; by rewrite Hp|done|].
    apply (lock_ok_put m _ t th (set_phase (Inside v (api_body c v (w_ctx (m_world m)))) th)); try done.
    + intros u Hu. cbn. rewrite Hcnt, (outside_count m u Hok) by done. by rewrite decide_False.
    + exists 0%nat. split; [apply bal_api_body|]. cbn. by rewrite Hcnt, decide_True.
  - destruct Hh as (n & Hn & Hcnt). destruct (sync_op_count t o _ s n (lo_ready m Hok) Hcnt Hl) as (Hr & Hu & Hdep). cbn in Hn.
    apply (lock_ok_put m _ t th (set_phase (Inside v (k r)) th)); try done.
    destruct (depth_after o n) as [n'|]; [|done]. exists n'. split; [apply Hn|by apply Hdep].
  - destruct Hh as (n & Hn & Hcnt). cbn in Hn. assert (n = 0%nat) as -> by (by destruct r).
    apply (lock_ok_put m _ t th (set_phase (Leaving r) th)); try done; cbn; unfold mofs_core_sync_unlock; rewrite ?(lo_ready m Hok); [done|..].
    + intros u Hu. cbn. rewrite mutex_unlock_count by lia. rewrite decide_False by done. lia.
    + unfold holds. cbn. rewrite mutex_unlock_count by lia. rewrite decide_True by done. lia.
    + intros [= ->]. done.
  - assert (Hre : exists x e, th' = returned c x e th).
    { unfold end_call in He. destruct (api_finish c r _) as [w' [x|e|]]; simplify_eq; eauto. }
    destruct Hre as (x & e & ->).
    apply (lock_ok_keep m _ t th (returned c x e th)); try done. unfold is_inside. by rewrite Hp.
Qed.

Lemma lock_ok_start (w : W) s threads : core_sync_ready s = true -> (forall t, mutex_count (core_sync_mutex s) t = 0%nat) ->
  lock_ok (start w s threads).
Proof.
  intros Hr Hf.
  assert (Hth : forall t th, m_threads (start w s threads) !! t = Some th -> t_phase th = Ready).
  { intros t th Ht. cbn in Ht. rewrite list_lookup_fmap in Ht. apply fmap_Some in Ht as ([u cs] & _ & ->). done. }
  assert (Hno : forall t, inside_at (start w s threads) t = false).
  { intros t. unfold inside_at. destruct (_ !! t) as [th|] eqn:E; [|done]. unfold is_inside. by rewrite (Hth t th E). }
  split; [done| | | | |].
  - intros t th E. unfold holds. rewrite (Hth t th E). apply Hf.
  - intros t _. apply Hf.
  - intros t u. by rewrite Hno.
  - intros t th E _. by apply (Hth t).
  - intros t th E. by rewrite (Hth t th E).
Qed.

End lock.
