(* ===== verification/SerialSpec.v ===== *)
(** * Interleaved threads against the same calls one after another

    [follows] relates a machine to the state that the calls of its log give
    when they are made without interruption; every step keeps it. *)

From Stdlib Require Import ZArith Lia.
From stdpp Require Import base list.
From S2P Require Import Prelude Types Platform Raw Buffer BufferSpec Ops LocalSpec Posix Sync SyncSpec.

(** [mofs_readdir] reads the handle again after the lock was released; the
    result of every other call is fixed inside. *)
Definition is_readdir (c : api) : bool := match c with PReaddir _ => true | _ => false end.

Section serial.
Context {P C K : Type} `{!Platform P} `{!BlockDriver P C} `{!LocalDriver P C} `{!RecMutex K} `{!RecMutexSpec K}.
Abbreviation W := (world P C).
Abbreviation Mach := (machine P C K).

(** ** Thread-local state *)

Lemma as_thread_shared th (w : W) : w_caller w = t_caller th -> w_errno w = t_errno th -> as_thread th (shared w) = w.
Proof. intros Hc He. destruct w. cbn in *. by subst. Qed.

Lemma shared_as_thread th (w : W) : shared (as_thread th w) = shared w.
Proof. done. Qed.

Lemma shared_idem (w : W) : shared (shared w) = shared w.
Proof. done. Qed.

Lemma as_thread_phase ph th (w : W) : as_thread (set_phase ph th) w = as_thread th w.
Proof. done. Qed.

Lemma interp_local {A} (p : prog A) : forall w : W, w_caller (interp p w).1 = w_caller w /\ w_errno (interp p w).1 = w_errno w.
Proof.
  induction p as [r|o k IH]; intros w; [done|]. cbn. pose proof (handle_caller o w) as H. destruct (handle o w) as [w' r]. cbn in H.
  destruct (IH r w') as [E1 E2], H as [E3 E4]. by rewrite E1, E2.
Qed.

(** The rest of a locked part, run by thread [th] without interruption. *)
Definition run_as (th : thread) (p : prog api_ret) (w : W) : W * res api_ret :=
  let '(w', r) := interp p (as_thread th w) in (shared w', r).

Lemma run_as_step th o k (w w' : W) r : handle o (as_thread th w) = (w', r) -> run_as th (Vis o k) w = run_as th (k r) (shared w').
Proof.
  intros E. unfold run_as. cbn [interp]. rewrite E. rewrite as_thread_shared; [done| |];
  pose proof (handle_caller o (as_thread th w)) as [H1 H2]; rewrite E in H1, H2; done.
Qed.

(** ** The state between calls *)

(** [th] as if its current call had not begun, or had returned. *)
Definition view (th : thread) : thread :=
  match t_phase th, t_todo th with
  | Leaving (Ok x), c :: _ => returned c x (t_errno th) th
  | Leaving (Err e), c :: _ => returned c (api_bad c e) e th
  | _, _ => set_phase Ready th
  end.

Lemma view_phase ph th : (forall r, ph <> Leaving r) -> (forall r, t_phase th <> Leaving r) -> view (set_phase ph th) = view th.
Proof.
  intros H1 H2. unfold view. cbn. destruct ph as [| | |r], (t_phase th) as [| | |r']; try done; by destruct (H1 r) || destruct (H2 r').
Qed.

Lemma view_ready th : (forall r, t_phase th <> Leaving r) -> view th = set_phase Ready th.
Proof. intros H. unfold view. destruct (t_phase th) as [| | |r]; try done. by destruct (H r). Qed.

(** The end of a call gives the thread its view. *)
Lemma end_call_view c r (w : W) th th' : is_readdir c = false -> head (t_todo th) = Some c -> t_phase th = Leaving r ->
  end_call c r w th = Some th' -> th' = view th.
Proof.
  intros Hrd Hc Hp E. unfold view. rewrite Hp. destruct (t_todo th) as [|c' l]; simplify_eq/=.
  destruct r as [x|e|]; unfold end_call, api_finish, finish, posix_set_errno, modify, gets, mbind, M_bind in E; cbn in E; simplify_eq; [|done].
  destruct c; done.
Qed.

(** ** The relation *)

(** [f c chk] makes the call [c] whose checks had the outcome [chk]; the
    threads make calls of the kind [good] only. *)
Context (f : api -> res Z -> M W api_ret) (good : api -> Prop).
Context (good_exit : forall c, good c -> is_readdir c = false).
Context (f_spec : forall c chk (w w0 : W), good c -> api_check c w0 = chk -> f c chk w = api_from c chk w).

Record follows (s0 : W * list thread) (m : Mach) (ws : W) : Prop := {
  fo_lock : lock_ok m;
  fo_good : forall t th, m_threads m !! t = Some th -> Forall good (t_todo th);
  fo_checked : forall t th c v, m_threads m !! t = Some th -> head (t_todo th) = Some c ->
    (t_phase th = Waiting v \/ exists p, t_phase th = Inside v p) -> exists w0 : W, api_check c w0 = Ok v;
  fo_replay : replay f (m_log m) s0 = Some (ws, view <$> m_threads m);
  fo_free : (forall t, inside_at m t = false) -> m_world m = ws;
  fo_inside : forall t th c v p, m_threads m !! t = Some th -> head (t_todo th) = Some c -> t_phase th = Inside v p ->
    run_as th p (m_world m) = run_as th (api_body c v (w_ctx ws)) ws;
  fo_shared : shared (m_world m) = m_world m /\ shared ws = ws
}.

Lemma replay_snoc log e s0 s : replay f log s0 = Some s -> replay f (log ++ [e]) s0 = run_call (fun c => f c e.2) e.1 s.
Proof. intros E. unfold replay in *. rewrite fold_left_app, E. by destruct e. Qed.

(** What one call does to the state between calls. *)
Lemma run_call_eq t th c chk (ws w' : W) ths r : ths !! t = Some th -> head (t_todo th) = Some c -> good c -> (exists w0 : W, api_check c w0 = chk) ->
  api_from c chk (as_thread th ws) = (w', Ok r) ->
  run_call (fun c => f c chk) t (ws, ths) = Some (shared w', <[t := returned c r (w_errno w') th]> ths).
Proof.
  intros Ht Hc Hg [w0 H0] E. unfold run_call. cbn. rewrite Ht. cbn. rewrite Hc. cbn. rewrite (f_spec c chk _ w0 Hg H0), E. done.
Qed.

Lemma api_from_err c e th (w : W) : api_from c (Err e) (as_thread th w) = (set_errno e (as_thread th w), Ok (api_bad c e)).
Proof. done. Qed.

(** A locked part that ends with [r] makes the call. *)
Lemma api_from_done c v r th (ws w' : W) : is_readdir c = false -> head (t_todo th) = Some c -> r <> Stuck ->
  run_as th (api_body c v (w_ctx ws)) ws = (w', r) ->
  exists w1 x, api_from c (Ok v) (as_thread th ws) = (w1, Ok x) /\ shared w1 = w' /\
  view (set_phase (Leaving r) th) = returned c x (w_errno w1) th.
Proof.
  intros Hrd Hc Hns Hrun. unfold run_as in Hrun. pose proof (interp_local (api_body c v (w_ctx ws)) (as_thread th ws)) as [_ He].
  unfold api_from, core_call, core_run, api_finish, gets, attempt, mbind, M_bind. change (w_ctx (as_thread th ws)) with (w_ctx ws). rewrite interp_locked.
  destruct (interp (api_body c v (w_ctx ws)) (as_thread th ws)) as [w1 r1]. cbn in He. simplify_eq.
  unfold view. cbn [t_phase set_phase t_todo]. destruct (t_todo th) as [|c' l]; simplify_eq/=. destruct r as [x|e|]; [| |done].
  - exists w1, x. split; [by destruct c|]. split; [done|]. by rewrite He.
  - by exists (set_errno e w1), (api_bad c e).
Qed.

(** The relation after a step of thread [t]. *)
Lemma follows_put s0 (m m' : Mach) ws ws' t th th' : follows s0 m ws -> m_threads m !! t = Some th -> m_threads m' = <[t := th']> (m_threads m) ->
  lock_ok m' -> Forall good (t_todo th') ->
  (forall c v, head (t_todo th') = Some c -> (t_phase th' = Waiting v \/ exists p, t_phase th' = Inside v p) -> exists w0 : W, api_check c w0 = Ok v) ->
  replay f (m_log m') s0 = Some (ws', <[t := view th']> (view <$> m_threads m)) ->
  ((forall u, inside_at m' u = false) -> m_world m' = ws') ->
  (forall c v p, head (t_todo th') = Some c -> t_phase th' = Inside v p -> run_as th' p (m_world m') = run_as th' (api_body c v (w_ctx ws')) ws') ->
  (m_world m' = m_world m /\ ws' = ws \/ forall u, u <> t -> inside_at m u = false) ->
  shared (m_world m') = m_world m' /\ shared ws' = ws' -> follows s0 m' ws'.
Proof.
  intros Hf Ht Hm Hlock Hgood Hchk Hrep Hfree Hin Hoth Hsh.
  assert (Hget : forall u x, m_threads m' !! u = Some x -> u = t /\ x = th' \/ u <> t /\ m_threads m !! u = Some x).
  { intros u x Hx. rewrite Hm in Hx. apply list_lookup_insert_Some in Hx as [(<- & -> & _)|[Hu Hx]]; [by left|by right]. }
  split; try done.
  - intros u x Hx. destruct (Hget u x Hx) as [[-> ->]|[_ Hx']]; [done|by eapply (fo_good _ _ _ Hf)].
  - intros u x c v Hx Hc Hp. destruct (Hget u x Hx) as [[-> ->]|[_ Hx']]; [by eapply Hchk|by eapply (fo_checked _ _ _ Hf)].
  - by rewrite Hm, list_fmap_insert.
  - intros u x c v p Hx Hc Hp. destruct (Hget u x Hx) as [[-> ->]|[Hu Hx']]; [by apply Hin|].
    destruct Hoth as [[-> ->]|Hoth]; [by eapply (fo_inside _ _ _ Hf)|]. specialize (Hoth u Hu).
    rewrite (inside_thread m u x Hx') in Hoth. unfold is_inside in Hoth. by rewrite Hp in Hoth.
Qed.

Lemma view_insert_id (m : Mach) t th th' : m_threads m !! t = Some th -> view th' = view th ->
  <[t := view th']> (view <$> m_threads m) = view <$> m_threads m.
Proof. intros Ht E. apply list_insert_id. by rewrite list_lookup_fmap, Ht, E. Qed.

(** Only [t] can be inside. *)
Lemma free_put (m : Mach) t th th' : m_threads m !! t = Some th -> is_inside th = false ->
  forall m' : Mach, (forall u, inside_at m' u = false) -> m_threads m' = <[t := th']> (m_threads m) -> forall u, inside_at m u = false.
Proof.
  intros Ht Hi m' Hno Hm u. destruct (decide (u = t)) as [->|Hu]; [by rewrite (inside_thread m t th Ht)|].
  specialize (Hno u). unfold inside_at in *. by rewrite Hm, list_lookup_insert_ne in Hno.
Qed.

(** The call of thread [t] is appended to the log. *)
Lemma replay_call s0 (m : Mach) ws t th c chk (w' : W) x : follows s0 m ws -> m_threads m !! t = Some th -> head (t_todo th) = Some c ->
  good c -> (forall r, t_phase th <> Leaving r) -> (exists w0 : W, api_check c w0 = chk) -> api_from c chk (as_thread th ws) = (w', Ok x) ->
  replay f (m_log m ++ [(t, chk)]) s0 = Some (shared w', <[t := returned c x (w_errno w') th]> (view <$> m_threads m)).
Proof.
  intros Hf Ht Hc Hg Hp Hchk E. rewrite (replay_snoc _ _ _ _ (fo_replay _ _ _ Hf)). cbn [fst snd].
  by rewrite (run_call_eq t (set_phase Ready th) c chk ws w' _ x); [|rewrite list_lookup_fmap, Ht, <- view_ready| | | |].
Qed.

Lemma follows_step s0 t (m m' : Mach) ws : follows s0 m ws -> step t m = Some m' -> exists ws', follows s0 m' ws'.
Proof.
  intros Hf Hs. pose proof (lock_ok_step t m m' (fo_lock _ _ _ Hf) Hs) as Hlock. apply step_inv in Hs as (th & c & Ht & Hc & Hcase).
  pose proof (fo_good _ _ _ Hf t th Ht) as Hgood. pose proof (fo_shared _ _ _ Hf) as [Hsm Hsw].
  assert (Hg : good c) by (destruct (t_todo th); simplify_eq/=; by inversion Hgood).
  inversion Hcase as [v Hp Hk|e Hp Hk|v s Hp Hl|v o k s w r Hp Hl Hh|v r Hp Hns|r th' Hp He]; subst m'.
  - exists ws. apply (follows_put s0 m _ ws ws t th (set_phase (Waiting v) th) Hf Ht); try done.
    + intros c' v' Hc' [[= <-]|[p Hp']]; [|done]. cbn in Hc'. simplify_eq. by exists (m_world m).
    + rewrite (view_insert_id m t th); [exact (fo_replay _ _ _ Hf)|done|]. apply view_phase; [done|by rewrite Hp].
    + intros Hno. apply (fo_free _ _ _ Hf). refine (free_put m t th _ Ht _ _ Hno eq_refl). unfold is_inside. by rewrite Hp.
    + by left.
  - exists ws. apply (follows_put s0 m _ ws ws t th (set_phase (Leaving (Err e)) th) Hf Ht); try done.
    + intros c' v' Hc' [?|[p Hp']]; done.
    + cbn [m_log record put_thread with_sync]. rewrite <- Hsw at 1.
      erewrite (replay_call s0 m ws t th c (Err e)); [|done..|by rewrite Hp|by exists (m_world m)|apply api_from_err].
      unfold view at 2. cbn [t_phase set_phase t_todo]. destruct (t_todo th) as [|c' l]; simplify_eq/=; done.
    + intros Hno. apply (fo_free _ _ _ Hf). refine (free_put m t th _ Ht _ _ Hno eq_refl). unfold is_inside. by rewrite Hp.
    + by left.
  - assert (Hout : inside_at m t = false) by (rewrite (inside_thread m t th Ht); unfold is_inside; by rewrite Hp).
    destruct (lock_free m t s (fo_lock _ _ _ Hf) Hout Hl) as (Hno & _ & _). pose proof (fo_free _ _ _ Hf Hno) as Hw.
    exists ws. apply (follows_put s0 m _ ws ws t th (set_phase (Inside v (api_body c v (w_ctx (m_world m)))) th) Hf Ht); try done.
    + intros c' v' Hc' [?|[p Hp']]; [done|]. cbn in Hp', Hc'. simplify_eq. by apply (fo_checked _ _ _ Hf t th c v' Ht Hc); left.
    + rewrite (view_insert_id m t th); [exact (fo_replay _ _ _ Hf)|done|]. apply view_phase; [done|by rewrite Hp].
    + intros c' v' p Hc' Hp'. cbn in Hp', Hc'. simplify_eq. done.
    + by left.
  - pose proof (others_outside m t (fo_lock _ _ _ Hf)) as Hoth. rewrite (inside_thread m t th Ht) in Hoth. unfold is_inside in Hoth. rewrite Hp in Hoth.
    exists ws. apply (follows_put s0 m _ ws ws t th (set_phase (Inside v (k r)) th) Hf Ht); try done.
    + intros c' v' Hc' [?|[p Hp']]; [done|]. cbn in Hp', Hc'. simplify_eq. apply (fo_checked _ _ _ Hf t th c v' Ht Hc). right. by exists (Vis o k).
    + rewrite (view_insert_id m t th); [exact (fo_replay _ _ _ Hf)|done|]. apply view_phase; [done|by rewrite Hp].
    + intros Hno. specialize (Hno t). rewrite (inside_put _ t th) in Hno by done. by rewrite decide_True in Hno.
    + intros c' v' p Hc' Hp'. cbn in Hp', Hc'. simplify_eq. pose proof (fo_inside _ _ _ Hf t th _ _ _ Ht Hc Hp) as E.
      rewrite (run_as_step th o k _ w r Hh) in E. exact E.
    + right. by apply Hoth.
  - pose proof (others_outside m t (fo_lock _ _ _ Hf)) as Hoth. rewrite (inside_thread m t th Ht) in Hoth. unfold is_inside in Hoth. rewrite Hp in Hoth.
    pose proof (fo_inside _ _ _ Hf t th c v _ Ht Hc Hp) as E. unfold run_as at 1 in E. cbn [interp] in E. rewrite shared_as_thread, Hsm in E.
    destruct (api_from_done c v r th ws (m_world m) (good_exit c Hg) Hc Hns (eq_sym E)) as (w1 & x & Ef & Hw1 & Hv).
    exists (m_world m). apply (follows_put s0 m _ ws (m_world m) t th (set_phase (Leaving r) th) Hf Ht); try done.
    + intros c' v' Hc' [?|[p Hp']]; done.
    + cbn [m_log record put_thread with_sync]. rewrite Hv, <- Hw1 at 1. apply (replay_call s0 m ws t th c (Ok v)); [done..|by rewrite Hp| |done].
      apply (fo_checked _ _ _ Hf t th c v Ht Hc). right. by exists (Done r).
    + right. by apply Hoth.
  - exists ws. assert (E : th' = view th) by (by eapply end_call_view; [apply good_exit| | |]). subst th'.
    assert (Hvt : t_phase (view th) = Ready) by (unfold view; rewrite Hp; destruct r, (t_todo th); done).
    assert (Hvv : view (view th) = view th).
    { rewrite view_ready by (by rewrite Hvt). unfold view. rewrite Hp. by destruct r, (t_todo th). }
    apply (follows_put s0 m _ ws ws t th (view th) Hf Ht); try done.
    + unfold view. rewrite Hp. destruct (t_todo th) as [|c1 l] eqn:Hl; simplify_eq/=. destruct r; cbn; rewrite Hl; try done; by inversion Hgood.
    + intros c' v' Hc' [?|[p Hp']]; congruence.
    + rewrite (view_insert_id m t th); [exact (fo_replay _ _ _ Hf)|done|done].
    + intros Hno. apply (fo_free _ _ _ Hf). refine (free_put m t th _ Ht _ _ Hno eq_refl). unfold is_inside. by rewrite Hp.
    + intros c' v' p Hc' Hp'. congruence.
    + by left.
Qed.

Lemma follows_start (w : W) s threads : core_sync_ready s = true -> (forall t, mutex_count (core_sync_mutex s) t = 0%nat) ->
  (forall u cs, (u, cs) ∈ threads -> Forall good cs) ->
  let m := start w s threads in follows (m_world m, m_threads m) m (m_world m).
Proof.
  intros Hr Hf Hg m.
  assert (Hth : forall t th, m_threads m !! t = Some th -> exists u cs, (u, cs) ∈ threads /\ th = new_thread u cs).
  { intros t th Ht. cbn in Ht. rewrite list_lookup_fmap in Ht. apply fmap_Some in Ht as ([u cs] & E & ->).
    exists u, cs. split; [by eapply list_elem_of_lookup_2|done]. }
  split; try done.
  - by apply lock_ok_start.
  - intros t th Ht. destruct (Hth t th Ht) as (u & cs & Hin & ->). by apply (Hg u).
  - intros t th c v Ht _ Hp. destruct (Hth t th Ht) as (u & cs & Hin & ->). by destruct Hp as [?|[p ?]].
  - cbn [m_log m start replay fold_left]. do 2 f_equal. symmetry. unfold replay. cbn. f_equal. f_equal.
    rewrite <- list_fmap_compose. apply list_fmap_ext. by intros i [u cs] _.
  - intros t th c v p Ht _ Hp. destruct (Hth t th Ht) as (u & cs & Hin & ->). done.
Qed.

Lemma follows_exec s0 sched : forall (m : Mach) ws, follows s0 m ws -> exists ws', follows s0 (exec sched m) ws'.
Proof.
  intros m ws Hf. apply (exec_invariant (fun m => exists ws, follows s0 m ws)); [|by exists ws].
  intros t m1 m2 [ws1 H1] Hs. by eapply follows_step.
Qed.

(** When every call has returned, the views are the threads. *)
Lemma finished_view (m : Mach) : lock_ok m -> finished m -> view <$> m_threads m = m_threads m /\ forall t, inside_at m t = false.
Proof.
  intros Hok Hfin.
  assert (Hr : forall t th, m_threads m !! t = Some th -> t_phase th = Ready).
  { intros t th Ht. apply (lo_rest m Hok t th Ht). by eapply (Forall_lookup_1 (fun th => t_todo th = [])). }
  split.
  - apply list_eq. intros t. rewrite list_lookup_fmap. destruct (m_threads m !! t) as [th|] eqn:E; [|done]. cbn. f_equal.
    rewrite view_ready by (by rewrite (Hr t th E)). specialize (Hr t th E). destruct th. cbn in *. by subst.
  - intros t. unfold inside_at. destruct (m_threads m !! t) as [th|] eqn:E; [|done]. unfold is_inside. by rewrite (Hr t th E).
Qed.

End serial.

(** ** Progress and termination *)

Section progress.
Context {P C K : Type} `{!Platform P} `{!BlockDriver P C} `{!RecMutex K} `{!RecMutexSpec K}.
Abbreviation W := (world P C).
Abbreviation Mach := (machine P C K).

(** One step of some thread. *)
Definition steps_to (m' m : Mach) : Prop := exists t, step t m = Some m'.

(** Actions left around the locked parts. *)
Definition weight (th : thread) : nat :=
  4 * length (t_todo th) - match t_phase th with Ready => 0 | Waiting _ => 1 | Inside _ _ => 2 | Leaving _ => 3 end.

Definition total (m : Mach) : nat := sum_list_with weight (m_threads m).

Lemma sum_insert {A} (g : A -> nat) (l : list A) i x y : l !! i = Some x -> (sum_list_with g (<[i := y]> l) + g x = sum_list_with g l + g y)%nat.
Proof.
  revert i. induction l as [|z l IH]; intros [|i] H; simplify_eq/=; [lia|]. specialize (IH i H). lia.
Qed.

(** [p'] is [p] after its next service call. *)
Definition after_call (p p' : prog api_ret) : Prop :=
  match p with Done _ => False | Vis _ k => exists r, p' = k r end.

(** A step is a service call of the locked part, or brings [total] down. *)
Lemma step_total t (m m' : Mach) : step t m = Some m' ->
  (total m' < total m)%nat \/
  exists th v p p', m_threads m !! t = Some th /\ t_phase th = Inside v p /\ after_call p p' /\ total m' = total m /\
    m_threads m' !! t = Some (set_phase (Inside v p') th).
Proof.
  intros Hs. apply step_inv in Hs as (th & c & Ht & Hc & Hcase).
  assert (Hlen : (1 <= length (t_todo th))%nat) by (destruct (t_todo th); simplify_eq/=; lia).
  assert (Hput : forall (m1 : Mach) th', m_threads m1 = <[t := th']> (m_threads m) -> (total m1 + weight th = total m + weight th')%nat).
  { intros m1 th' E. unfold total. rewrite E. by apply sum_insert. }
  assert (Hdec : forall (m1 : Mach) th', m_threads m1 = <[t := th']> (m_threads m) -> (weight th' < weight th)%nat -> (total m1 < total m)%nat).
  { intros m1 th' E Hw. specialize (Hput m1 th' E). lia. }
  inversion Hcase as [v Hp Hk|e Hp Hk|v s Hp Hl|v o k s w r Hp Hl Hh|v r Hp Hns|r th' Hp He]; subst m'.
  4: { right. exists th, v, (Vis o k), (k r). split; [done|]. split; [done|]. split; [by exists r|]. split.
       - enough (weight (set_phase (Inside v (k r)) th) = weight th); [|unfold weight; by rewrite Hp].
         assert (E : (total (put_thread t (set_phase (Inside v (k r)) th) (with_world (shared w) (with_sync s m))) + weight th = total m + weight (set_phase (Inside v (k r)) th))%nat) by (by apply Hput). lia.
       - cbn. apply list_lookup_insert_eq. by eapply lookup_lt_Some. }
  all: left; eapply Hdec; [reflexivity|].
  1-4: unfold weight; cbn [t_phase set_phase t_todo]; rewrite Hp; lia.
  assert (Ht' : t_phase th' = Ready /\ t_todo th' = tail (t_todo th)).
  { unfold end_call in He. destruct (api_finish c r _) as [w' [x|e|]]; by simplify_eq. }
  unfold weight. rewrite Hp, (proj1 Ht'), (proj2 Ht'). destruct (t_todo th); simplify_eq/=; lia.
Qed.

Lemma inside_phase (m : Mach) t th v p : m_threads m !! t = Some th -> t_phase th = Inside v p -> inside_at m t = true.
Proof. intros Ht Hp. rewrite (inside_thread m t th Ht). unfold is_inside. by rewrite Hp. Qed.

(** While thread [t] is inside, only its own service calls keep [total]. *)
Lemma step_inside u t (m m' : Mach) th v p : lock_ok m -> m_threads m !! t = Some th -> t_phase th = Inside v p -> step u m = Some m' ->
  (total m' < total m)%nat \/
  exists p', after_call p p' /\ total m' = total m /\ m_threads m' !! t = Some (set_phase (Inside v p') th).
Proof.
  intros Hok Ht Hp Hs. destruct (step_total u m m' Hs) as [Hlt|(th1 & v1 & p1 & p2 & Hu & Hp1 & Hn & Htot & Ht2)]; [by left|right].
  pose proof (lo_excl m Hok u t (inside_phase _ _ _ _ _ Hu Hp1) (inside_phase _ _ _ _ _ Ht Hp)) as ->.
  rewrite Ht in Hu. injection Hu as <-. rewrite Hp in Hp1. injection Hp1 as <- <-. by exists p2.
Qed.

(** Every schedule comes to an end. *)
Lemma steps_end_inside n : (forall m : Mach, (total m < n)%nat -> lock_ok m -> Acc steps_to m) ->
  forall p (m : Mach) t th v, lock_ok m -> total m = n -> m_threads m !! t = Some th -> t_phase th = Inside v p -> Acc steps_to m.
Proof.
  intros IH p. induction p as [r|o k IHp]; intros m t th v Hok Htot Ht Hp; constructor; intros m2 [u Hs];
    pose proof (lock_ok_step u m m2 Hok Hs) as Hok2; destruct (step_inside u t m m2 th v _ Hok Ht Hp Hs) as [Hlt|(p' & Hn & Htot2 & Ht2)].
  - apply IH; [lia|exact Hok2].
  - destruct Hn.
  - apply IH; [lia|exact Hok2].
  - destruct Hn as [r1 ->]. refine (IHp r1 m2 t _ v Hok2 _ Ht2 eq_refl). lia.
Qed.

Lemma steps_end (m : Mach) : lock_ok m -> Acc steps_to m.
Proof.
  remember (total m) as n eqn:Hn. revert m Hn. induction (lt_wf n) as [n _ IH]. intros m -> Hok.
  assert (IH' : forall m1 : Mach, (total m1 < total m)%nat -> lock_ok m1 -> Acc steps_to m1) by (intros m1 Hlt; by apply (IH (total m1))).
  constructor. intros m2 [u Hs]. pose proof (lock_ok_step u m m2 Hok Hs) as Hok2.
  destruct (step_total u m m2 Hs) as [Hlt|(th1 & v1 & p1 & p2 & Hu & Hp1 & Hn & Htot2 & Ht2)]; [by apply IH'|].
  exact (steps_end_inside (total m) IH' p2 m2 u _ v1 Hok2 Htot2 Ht2 eq_refl).
Qed.

(** The thread that is inside never waits for a nested lock. *)
Lemma nested_runs (m : Mach) t o : lock_ok m -> inside_at m t = true -> exists s, sync_op t o (m_sync m) = Some s.
Proof.
  intros Hok Ht. destruct (sync_op t o (m_sync m)) as [s|] eqn:E; [by exists s|]. destruct o; try done. exfalso.
  destruct (lock_blocked t _ (lo_ready m Hok) E) as (u & Hu & Hcnt). apply (count_inside m u Hok) in Hcnt. by destruct Hu; apply (lo_excl m Hok).
Qed.

(** Why a thread with a call to make cannot make a step. *)
Lemma blocked (m : Mach) t th c : lock_ok m -> step t m = None -> m_threads m !! t = Some th -> head (t_todo th) = Some c ->
  (exists v, t_phase th = Inside v (Done Stuck)) \/ exists v, t_phase th = Waiting v /\ mofs_core_sync_lock t (m_sync m) = None.
Proof.
  intros Hok Hstop Ht Hc. pose proof (lo_left m Hok t th Ht) as Hl.
  assert (Hin : forall v p, t_phase th = Inside v p -> inside_at m t = true) by (intros v p; by apply inside_phase).
  unfold step in Hstop. rewrite Ht in Hstop. cbn in Hstop. rewrite Hc in Hstop. cbn in Hstop.
  destruct (t_phase th) as [|v|v [r|o k]|r].
  - pose proof (api_check_not_stuck c (m_world m)). by destruct (api_check c (m_world m)).
  - right. exists v. split; [done|]. by destruct (mofs_core_sync_lock t (m_sync m)).
  - left. exists v. by destruct r.
  - destruct (nested_runs m t o Hok) as [s Hs]; [by eapply Hin|]. rewrite Hs in Hstop. cbn in Hstop. by destruct (handle o _).
  - unfold end_call, api_finish, finish, posix_set_errno, modify, gets, mbind, M_bind in Hstop. cbn in Hstop. by destruct r.
Qed.

Lemma todo_dec th : {t_todo th = [] } + {t_todo th <> [] }.
Proof. destruct (t_todo th); [by left|by right]. Qed.

(** A machine in which no thread can make a step. *)
Lemma stopped (m : Mach) : lock_ok m -> (forall t, step t m = None) -> finished m \/ hung m.
Proof.
  intros Hok Hstop.
  assert (Hb : forall t th, m_threads m !! t = Some th -> t_todo th <> [] -> hung m).
  { intros t th Ht Htodo. destruct (t_todo th) as [|c l] eqn:El; [done|].
    destruct (blocked m t th c Hok (Hstop t) Ht ltac:(by rewrite El)) as [[v Hv]|(v & Hv & Hl)]; [by exists t, th, v|].
    destruct (lock_blocked t _ (lo_ready m Hok) Hl) as (u & Hu & Hcnt). apply (count_inside m u Hok) in Hcnt.
    unfold inside_at in Hcnt. destruct (m_threads m !! u) as [th'|] eqn:Eu; [|done].
    unfold is_inside in Hcnt. destruct (t_phase th') as [| |v' p|] eqn:Ep; try done.
    destruct (t_todo th') as [|c' l'] eqn:El'; [pose proof (lo_rest m Hok u th' Eu El'); congruence|].
    destruct (blocked m u th' c' Hok (Hstop u) Eu ltac:(by rewrite El')) as [[v1 Hv1]|(v1 & Hv1 & _)]; [by exists u, th', v1|congruence]. }
  destruct (Forall_Exists_dec (fun th => t_todo th = []) (fun th => t_todo th <> []) todo_dec (m_threads m)) as [Hf|He]; [by left|].
  right. apply Exists_exists in He as (th & Hin & Htodo). apply list_elem_of_lookup_1 in Hin as [t Ht]. by apply (Hb t th).
Qed.

End progress.
