(* ===== verification/Fuse.v ===== *)
(** * The FUSE file system (src/os/linux/tools/fuse/fuse_ops.c)

    The callbacks that libfuse invokes, over the POSIX-style calls.  libfuse
    is a parameter: the request's context ([fuse_get_context()], [None] where
    it is NULL) and the [filler] of readdir are arguments.  A callback returns
    what the C function returns: a negative host error number or its result.
    [fi->fh] holds a handle, 0 being [None]. *)

From Stdlib Require Import ZArith Lia.
From stdpp Require Import base list.
From S2P Require Import Prelude Types Platform Linux Raw Buffer BufferSpec Ops Bitmap Inode Block FileData Perm Dirent Path File Dir Format Core Posix.

(** The fields of [struct fuse_context] and [struct fuse_file_info] in use. *)
Record fuse_context := mkFuse { f_uid : Z; f_gid : Z; f_pid : Z; f_umask : Z }.
Record fuse_file_info := mkFi { fi_flags : Z; fi_fh : option nat }.

(** Linux values of the open flags. *)
Definition O_ACCMODE : Z := 3.
Definition O_CREAT : Z := 0x40.
Definition O_EXCL : Z := 0x80.
Definition O_DIRECTORY : Z := 0x10000.
Definition O_PATH : Z := 0x200000.

(** [S_IRUSR | S_IWUSR | S_IRGRP | S_IWGRP | S_IROTH | S_IWOTH] *)
Definition default_create_mode : Z := 0x1B6.

(** [build_mofs_open_args]: flags and mode for [mofs_open].  [have_O_PATH] says
    whether the headers of the build define [O_PATH]. *)
Definition access_flags (have_O_PATH : bool) (fuse_flags : Z) : res Z :=
  if have_O_PATH && has_flag fuse_flags O_PATH then
    if negb (Z.land fuse_flags O_ACCMODE =? 0) && negb (Z.land fuse_flags O_ACCMODE =? Linux.O_RDONLY)
    then Err MOFS_EINVAL else Ok MOFS_OFLAG_SEARCH
  else
    let acc := Z.land fuse_flags O_ACCMODE in
    if acc =? Linux.O_RDONLY then Ok MOFS_OFLAG_RDONLY
    else if acc =? Linux.O_WRONLY then Ok MOFS_OFLAG_WRONLY
    else if acc =? Linux.O_RDWR then Ok MOFS_OFLAG_RDWR
    else Err MOFS_EINVAL.

Definition masked (ctx : option fuse_context) (mode : Z) : Z :=
  match ctx with Some c => Z.land mode (Z.lnot (f_umask c)) | None => mode end.

Definition build_mofs_open_args (have_O_PATH : bool) (ctx : option fuse_context) (fuse_flags requested_mode : Z) (force_create : bool) : res (Z * Z) :=
  match access_flags have_O_PATH fuse_flags with
  | Ok flags =>
      let flags := if has_flag fuse_flags O_DIRECTORY then Z.lor flags MOFS_OFLAG_DIRECTORY else flags in
      let flags := if has_flag fuse_flags O_EXCL then Z.lor flags MOFS_OFLAG_EXCL else flags in
      if force_create || has_flag fuse_flags O_CREAT then
        let mode := if requested_mode =? 0 then default_create_mode else requested_mode in
        Ok (Z.lor flags MOFS_OFLAG_CREAT, masked ctx mode)
      else Ok (flags, requested_mode)
  | Err e => Err e
  | Stuck => Stuck
  end.

Section fuse.
Context {P C : Type} `{!LinuxOS P} `{!BlockDriver P C}.
Abbreviation W := (world P C).
Context (ctx : option fuse_context) (have_O_PATH : bool).

(** [-(mofs_to_os_errno(e))]. *)
Definition neg_errno (e : Z) : Z := - Linux.mofs_to_os_errno e.

Definition fuse_neg_errno_from_mofs : M W Z := gets (fun w => neg_errno (w_errno w)).

Definition mofs_fuse_bind_request_caller : M W unit :=
  match ctx with
  | Some c => r ← attempt (mofs_set_caller_for_peer_process (f_uid c) (f_gid c) (f_pid c)); mret tt
  | None => mret tt
  end.

(** A POSIX call that returns 0, or fails. *)
Definition fuse_status (m : M W Z) : M W Z :=
  r ← m; if negb (r =? 0) then fuse_neg_errno_from_mofs else mret 0.

(** [mofs_init_fuse]: [fail] stands for [exit(EXIT_FAILURE)]. *)
Definition mofs_init_fuse (devfile_path : cstr) : M W unit :=
  match ctx with
  | None => fail MOFS_EIO
  | Some _ =>
      p ← gets w_plat;
      let u := u32 (sys_geteuid p) in
      let g := u32 (sys_getegid p) in
      mofs_init_core devfile_path true u g;;
      p ← gets w_plat;
      attempt (mofs_set_caller_for_peer_process (u32 (sys_geteuid p)) (u32 (sys_getegid p)) (sys_getpid p));;
      mret tt
  end.

Definition mofs_destroy_fuse : M W unit := mofs_clear_caller_user;; attempt mofs_fini_core;; mret tt.

(** The result and [stbuf], which is zeroed first. *)
Definition mofs_getattr_fuse (path : option cstr) : M W (Z * option mofs_stat_t) :=
  mofs_fuse_bind_request_caller;;
  '(ret, stat) ← mofs_stat path;
  if ret =? 0 then mret (0, stat) else e ← fuse_neg_errno_from_mofs; mret (e, None).

Definition mofs_truncate_fuse (path : option cstr) (size : Z) (fi : option fuse_file_info) : M W Z :=
  mofs_fuse_bind_request_caller;;
  match path with
  | None => mret (neg_errno MOFS_EINVAL)
  | Some p =>
      match fi with
      | Some (mkFi _ (Some h)) => fuse_status (mofs_ftruncate (Some h) size)
      | _ => fuse_status (mofs_truncate (Some p) size)
      end
  end.

(** Opening with the arguments that were built; [fi] afterwards. *)
Definition open_with (args : res (Z * Z)) (path : cstr) (fi : fuse_file_info) : M W (Z * option fuse_file_info) :=
  match args with
  | Ok (flags, mode) =>
      h ← mofs_open (Some path) flags mode;
      match h with
      | None => e ← fuse_neg_errno_from_mofs; mret (e, Some fi)
      | Some h => mret (0, Some (mkFi (fi_flags fi) (Some h)))
      end
  | Err e => mret (neg_errno e, Some fi)
  | Stuck => fun w => (w, Stuck)
  end.

Definition mofs_open_fuse (path : option cstr) (fi : option fuse_file_info) : M W (Z * option fuse_file_info) :=
  mofs_fuse_bind_request_caller;;
  match path, fi with
  | Some p, Some i => open_with (build_mofs_open_args have_O_PATH ctx (fi_flags i) 0 false) p i
  | _, _ => mret (neg_errno MOFS_EINVAL, fi)
  end.

Definition mofs_create_fuse (path : option cstr) (mode : Z) (fi : option fuse_file_info) : M W (Z * option fuse_file_info) :=
  mofs_fuse_bind_request_caller;;
  match path, fi with
  | Some p, Some i => open_with (build_mofs_open_args have_O_PATH ctx (fi_flags i) mode true) p i
  | _, _ => mret (neg_errno MOFS_EINVAL, fi)
  end.

Definition mofs_release_fuse (fi : option fuse_file_info) : M W (Z * option fuse_file_info) :=
  mofs_fuse_bind_request_caller;;
  match fi with
  | Some (mkFi flags (Some h)) =>
      r ← fuse_status (mofs_close (Some h)); mret (r, Some (mkFi flags None))
  | _ => mret (neg_errno MOFS_EBADF, fi)
  end.

Definition mofs_unlink_fuse (path : option cstr) : M W Z :=
  mofs_fuse_bind_request_caller;;
  match path with None => mret (neg_errno MOFS_EINVAL) | Some p => fuse_status (mofs_unlink (Some p)) end.

Definition mofs_mkdir_fuse (path : option cstr) (mode : Z) : M W Z :=
  mofs_fuse_bind_request_caller;;
  match path with None => mret (neg_errno MOFS_EINVAL) | Some p => fuse_status (mofs_mkdir (Some p) (masked ctx mode)) end.

Definition mofs_rmdir_fuse (path : option cstr) : M W Z :=
  mofs_fuse_bind_request_caller;;
  match path with None => mret (neg_errno MOFS_EINVAL) | Some p => fuse_status (mofs_rmdir (Some p)) end.

(** ** Listing a directory *)

(** libfuse's [filler(buf, name, NULL, cookie, 0)]: the buffer afterwards and
    whether it is full (a non-zero result). *)
Context {B : Type} (filler : B -> cstr -> Z -> B * bool).

(** Offer [name] unless the cookie [offset] is already past [cursor]. *)
Definition offer (offset : Z) (name : cstr) (cursor : Z) (buf : B) : B * bool :=
  if offset <=? cursor then filler buf name (cursor + 1) else (buf, false).

(** The [while] loop over [mofs_readdir]: the result and the buffer. *)
Fixpoint fill_loop (fuel : nat) (handle : nat) (offset cursor : Z) (buf : B) : M W (Z * B) :=
  match fuel with
  | O => fun w => (w, Stuck)
  | S fuel' =>
      modify (set_errno 0);;
      dirent ← mofs_readdir (Some handle);
      match dirent with
      | None =>
          e ← gets w_errno;
          if negb (e =? 0) then r ← fuse_neg_errno_from_mofs; mret (r, buf) else mret (0, buf)
      | Some d =>
          if cursor <? offset then fill_loop fuel' handle offset (cursor + 1) buf else
          let name := c_str (d_name d) in
          if bool_decide (name = dot) || bool_decide (name = dotdot)
          then fill_loop fuel' handle offset (cursor + 1) buf else
          let '(buf, full) := filler buf name (cursor + 1) in
          if (full : bool) then mret (0, buf) else fill_loop fuel' handle offset (cursor + 1) buf
      end
  end.

(** More than the entries a directory of the largest size has. *)
Definition readdir_fuel : nat := Z.to_nat (MOFS_MAX_FILE_DATA_BLOCKS * MOFS_BLK_SIZE_MAX / sizeof_dirent + 2).

(** [mofs_readdir_fuse] between [mofs_opendir] and [mofs_closedir]. *)
Definition fill_dir (handle : nat) (offset : Z) (buf : B) : M W (Z * B) :=
  let '(buf, full) := offer offset dot 0 buf in
  if (full : bool) then mret (0, buf) else
  let '(buf, full) := offer offset dotdot 1 buf in
  if (full : bool) then mret (0, buf) else
  fill_loop readdir_fuel handle offset 2 buf.

Definition mofs_readdir_fuse (path : option cstr) (buf : B) (offset : Z) : M W (Z * B) :=
  mofs_fuse_bind_request_caller;;
  match path with
  | None => mret (neg_errno MOFS_EINVAL, buf)
  | Some p =>
      if offset <? 0 then mret (neg_errno MOFS_EINVAL, buf) else
      core_lock;;
      handle ← mofs_opendir (Some p);
      r ← match handle with
          | None => e ← fuse_neg_errno_from_mofs; mret (e, buf)
          | Some h =>
              '(ret, buf) ← fill_dir h offset buf;
              c ← mofs_closedir (Some h);
              if negb (c =? 0) && (ret =? 0) then e ← fuse_neg_errno_from_mofs; mret (e, buf) else mret (ret, buf)
          end;
      core_unlock;;
      mret r
  end.

(** ** Data *)

(** [mofs_read_fuse] and [mofs_write_fuse] with a non-NULL buffer: the result
    and the bytes stored. *)
Definition mofs_read_fuse (size offset : Z) (fi : option fuse_file_info) : M W (Z * list byte) :=
  mofs_fuse_bind_request_caller;;
  match fi with
  | Some (mkFi _ (Some h)) =>
      if (offset <? 0) || (2 ^ 32 - 1 <? u64 offset) then mret (neg_errno MOFS_EINVAL, []) else
      if size =? 0 then mret (0, []) else
      '(ret, bs) ← mofs_pread (Some h) (u32 size) offset;
      if ret <? 0 then e ← fuse_neg_errno_from_mofs; mret (e, bs) else mret (ret, bs)
  | _ => mret (neg_errno MOFS_EINVAL, [])
  end.

Definition mofs_write_fuse (buf : list byte) (offset : Z) (fi : option fuse_file_info) : M W Z :=
  mofs_fuse_bind_request_caller;;
  match fi with
  | Some (mkFi _ (Some h)) =>
      if (offset <? 0) || (2 ^ 32 - 1 <? u64 offset) then mret (neg_errno MOFS_EINVAL) else
      if blen buf =? 0 then mret 0 else
      ret ← mofs_pwrite (Some h) (take (Z.to_nat (u32 (blen buf))) buf) offset;
      if ret <? 0 then fuse_neg_errno_from_mofs else mret ret
  | _ => mret (neg_errno MOFS_EINVAL)
  end.

End fuse.
