(* ===== verification/Vfs.v ===== *)
(** * The Zephyr VFS adapter (src/os/zephyr/tools/vfs)

    The file-system operations that [mofs_vfs.c] registers with Zephyr's
    virtual file system, over the POSIX-style calls.  Zephyr's VFS itself is
    outside the repository: its objects appear as the fields the adapter
    reads and writes.  A result is a number or the error [-e]. *)

From Stdlib Require Import ZArith Lia.
From stdpp Require Import base list.
From S2P Require Import Prelude Types Platform Zephyr Raw Buffer BufferSpec Ops Bitmap Inode Block FileData Perm Dirent Path File Dir Format Core Posix.

Inductive vfs_ret := Ret (n : Z) | Neg (e : host_errno).

(** The bits of [fs_mode_t] in use: [FS_O_READ], [FS_O_WRITE] (both are
    [FS_O_RDWR]), [FS_O_CREATE] and [FS_O_APPEND]. *)
Record fs_mode := mkMode { fs_o_read : bool; fs_o_write : bool; fs_o_create : bool; fs_o_append : bool }.

Record fs_mount := mkMount { mountp_len : Z; storage_dev : option cstr }.
Record fs_file := mkFile { fs_mp : option fs_mount; filep : option nat; fs_flags : fs_mode }.
Record fs_dir := mkDirp { dir_mp : option fs_mount; dirp : option nat }.

Inductive fs_dirent_type := FS_DIR_ENTRY_FILE | FS_DIR_ENTRY_DIR.
Record fs_dirent := mkEntry { ent_name : cstr; ent_type : fs_dirent_type; ent_size : Z }.
Record fs_statvfs := mkStatvfs { f_bsize : Z; f_frsize : Z; f_blocks : Z; f_bfree : Z }.

(** [mofs_vfs_strip_prefix] of non-NULL arguments. *)
Definition mofs_vfs_strip_prefix (path : cstr) (mp : fs_mount) : cstr :=
  match drop (Z.to_nat (mountp_len mp)) path with [] => [slash] | rest => rest end.

(** The part of [path] after its last slash ([strrchr]), if it has one. *)
Fixpoint after_last_slash (path : cstr) : option cstr :=
  match path with
  | [] => None
  | c :: rest => match after_last_slash rest with
                 | Some base => Some base
                 | None => if bool_decide (c = slash) then Some rest else None
                 end
  end.

(** [-mofs_to_os_errno(e)]: 0 is no error. *)
Definition neg_os_errno (e : Z) : vfs_ret := if e =? 0 then Ret 0 else Neg (Zephyr.mofs_to_os_errno e).

(** The flags for [mofs_open]. *)
Definition vfs_open_flags (flags : fs_mode) : Z :=
  let acc := if fs_o_read flags && fs_o_write flags then MOFS_OFLAG_RDWR
             else if fs_o_read flags then MOFS_OFLAG_RDONLY
             else if fs_o_write flags then MOFS_OFLAG_WRONLY
             else MOFS_OFLAG_RDONLY in
  if fs_o_create flags then Z.lor acc MOFS_OFLAG_CREAT else acc.

Section vfs.
Context {H C : Type} `{!ZephyrKernel H} `{!BlockDriver (Zephyr.zstate H) C}.
Abbreviation W := (world (Zephyr.zstate H) C).

(** [sizeof(entry->name)], which the configuration of Zephyr sets. *)
Context (name_size : Z).

Definition strncpy_name (s : cstr) : cstr := take (Z.to_nat (name_size - 1)) s.

Definition mofs_vfs_neg_errno : M W vfs_ret := gets (fun w => neg_os_errno (w_errno w)).

(** The two shapes of a POSIX call's failure. *)
Definition vfs_status (m : M W Z) : M W vfs_ret := r ← m; if negb (r =? 0) then mofs_vfs_neg_errno else mret (Ret 0).
Definition vfs_count (m : M W Z) : M W vfs_ret := r ← m; if r <? 0 then mofs_vfs_neg_errno else mret (Ret r).

(** ** Files *)

Definition mofs_vfs_open (filp : option fs_file) (fs_path : option cstr) (flags : fs_mode) : M W (vfs_ret * option fs_file) :=
  match filp, fs_path with
  | Some (mkFile (Some mp) h fl), Some fs_path =>
      if fs_o_append flags then mret (Neg ENOTSUP, filp) else
      handle ← mofs_open (Some (mofs_vfs_strip_prefix fs_path mp)) (vfs_open_flags flags) 0x1B6;
      match handle with
      | None => e ← mofs_vfs_neg_errno; mret (e, filp)
      | Some handle => mret (Ret 0, Some (mkFile (Some mp) (Some handle) fl))
      end
  | _, _ => mret (Neg EINVAL, filp)
  end.

(** With a non-NULL buffer; the bytes stored in it. *)
Definition mofs_vfs_read (filp : option fs_file) (nbytes : Z) : M W (vfs_ret * list byte) :=
  match filp with
  | Some (mkFile _ (Some h) fl) =>
      if negb (fs_o_read fl) then mret (Neg EACCES, []) else
      '(n, bs) ← mofs_read (Some h) (u32 nbytes);
      if n <? 0 then e ← mofs_vfs_neg_errno; mret (e, bs) else mret (Ret n, bs)
  | _ => mret (Neg EINVAL, [])
  end.

Definition mofs_vfs_write (filp : option fs_file) (src : list byte) : M W vfs_ret :=
  match filp with
  | Some (mkFile _ (Some h) fl) =>
      if negb (fs_o_write fl) then mret (Neg EACCES) else
      vfs_count (mofs_write (Some h) (take (Z.to_nat (u32 (blen src))) src))
  | _ => mret (Neg EINVAL)
  end.

Definition mofs_vfs_lseek (filp : option fs_file) (off whence : Z) : M W vfs_ret :=
  match filp with
  | Some (mkFile _ (Some h) _) =>
      pos ← mofs_lseek (Some h) off whence;
      if pos <? 0 then mofs_vfs_neg_errno else mret (Ret 0)
  | _ => mret (Neg EINVAL)
  end.

Definition mofs_vfs_tell (filp : option fs_file) : M W vfs_ret :=
  match filp with
  | Some (mkFile _ (Some h) _) => vfs_count (mofs_lseek (Some h) 0 MOFS_SEEK_CUR)
  | _ => mret (Neg EINVAL)
  end.

Definition mofs_vfs_truncate (filp : option fs_file) (length : Z) : M W vfs_ret :=
  match filp with
  | Some (mkFile _ (Some h) _) =>
      if length <? 0 then mret (Neg EINVAL) else vfs_status (mofs_ftruncate (Some h) length)
  | _ => mret (Neg EINVAL)
  end.

(** [filep] is cleared either way. *)
Definition mofs_vfs_close (filp : option fs_file) : M W (vfs_ret * option fs_file) :=
  match filp with
  | Some (mkFile mp (Some h) fl) => err ← mofs_close (Some h); mret (neg_os_errno err, Some (mkFile mp None fl))
  | _ => mret (Neg EINVAL, filp)
  end.

Definition mofs_vfs_sync (filp : option fs_file) : M W vfs_ret :=
  match filp with
  | Some (mkFile _ (Some h) _) => vfs_status (mofs_fsync (Some h))
  | _ => mret (Neg EINVAL)
  end.

(** ** Directories *)

(** [mofs_vfs_set_basename]: the name of the entry. *)
Definition mofs_vfs_set_basename (path : cstr) : cstr :=
  strncpy_name (match after_last_slash path with Some (c :: base) => c :: base | _ => path end).

Definition mofs_vfs_opendir (dp : option fs_dir) (fs_path : option cstr) : M W (vfs_ret * option fs_dir) :=
  match dp, fs_path with
  | Some (mkDirp (Some mp) _), Some fs_path =>
      handle ← mofs_opendir (Some (mofs_vfs_strip_prefix fs_path mp));
      match handle with
      | None => e ← mofs_vfs_neg_errno; mret (e, dp)
      | Some h => mret (Ret 0, Some (mkDirp (Some mp) (Some h)))
      end
  | _, _ => mret (Neg EINVAL, dp)
  end.

(** The type and size of an entry. *)
Definition entry_of (name : cstr) (mode size : Z) : fs_dirent :=
  if has_flag mode MOFS_FTYPE_DIR then mkEntry name FS_DIR_ENTRY_DIR 0 else mkEntry name FS_DIR_ENTRY_FILE size.

(** The part of [mofs_vfs_readdir] that fills in an entry: the name stays when
    the inode cannot be read. *)
Definition fill_entry (d : mofs_dirent_t) (entry : fs_dirent) : M W (vfs_ret * fs_dirent) :=
  let name := strncpy_name (c_str (d_name d)) in
  r ← core_run (fun cx => mofs_read_inode cx (d_inode_num d));
  match r with
  | Ok inode => mret (Ret 0, entry_of name (i_mode inode) (i_size inode))
  | Err e => mret (neg_os_errno e, mkEntry name (ent_type entry) (ent_size entry))
  | Stuck => fun w => (w, Stuck)
  end.

(** [mofs_vfs_readdir] into a non-NULL entry; an empty name is the end. *)
Definition mofs_vfs_readdir (dp : option fs_dir) (entry : fs_dirent) : M W (vfs_ret * fs_dirent) :=
  match dp with
  | Some (mkDirp _ (Some h)) =>
      modify (set_errno 0);;
      dirent ← mofs_readdir (Some h);
      match dirent with
      | None =>
          e ← gets w_errno;
          if negb (e =? 0) then r ← mofs_vfs_neg_errno; mret (r, entry)
          else mret (Ret 0, mkEntry [] (ent_type entry) (ent_size entry))
      | Some d => fill_entry d entry
      end
  | _ => mret (Neg EINVAL, entry)
  end.

Definition mofs_vfs_closedir (dp : option fs_dir) : M W (vfs_ret * option fs_dir) :=
  match dp with
  | Some (mkDirp mp (Some h)) => r ← vfs_status (mofs_closedir (Some h)); mret (r, Some (mkDirp mp None))
  | _ => mret (Neg EINVAL, dp)
  end.

(** ** Names *)

(** A directory is removed when [mofs_unlink] reports [MOFS_EISDIR]. *)
Definition mofs_vfs_unlink (mountp : option fs_mount) (name : option cstr) : M W vfs_ret :=
  match mountp, name with
  | Some mp, Some name =>
      let path := mofs_vfs_strip_prefix name mp in
      r ← mofs_unlink (Some path);
      if r =? 0 then mret (Ret 0) else
      e ← gets w_errno;
      if e =? MOFS_EISDIR then vfs_status (mofs_rmdir (Some path)) else mofs_vfs_neg_errno
  | _, _ => mret (Neg EINVAL)
  end.

Definition mofs_vfs_rename (mountp : option fs_mount) (from to : option cstr) : M W vfs_ret :=
  match mountp, from, to with
  | Some mp, Some from, Some to =>
      vfs_status (mofs_rename (Some (mofs_vfs_strip_prefix from mp)) (Some (mofs_vfs_strip_prefix to mp)))
  | _, _, _ => mret (Neg EINVAL)
  end.

Definition mofs_vfs_mkdir (mountp : option fs_mount) (name : option cstr) : M W vfs_ret :=
  match mountp, name with
  | Some mp, Some name => vfs_status (mofs_mkdir (Some (mofs_vfs_strip_prefix name mp)) 0x1FF)
  | _, _ => mret (Neg EINVAL)
  end.

(** [mofs_vfs_stat] into a non-NULL entry. *)
Definition mofs_vfs_stat (mountp : option fs_mount) (path : option cstr) (entry : fs_dirent) : M W (vfs_ret * fs_dirent) :=
  match mountp, path with
  | Some mp, Some path =>
      let mofs_path := mofs_vfs_strip_prefix path mp in
      '(r, st) ← mofs_stat (Some mofs_path);
      match st with
      | Some st => if negb (r =? 0) then e ← mofs_vfs_neg_errno; mret (e, entry)
                   else mret (Ret 0, entry_of (mofs_vfs_set_basename mofs_path) (st_mode st) (st_size st))
      | None => e ← mofs_vfs_neg_errno; mret (e, entry)
      end
  | _, _ => mret (Neg EINVAL, entry)
  end.

(** ** The volume *)

(** Every block of the disk is reported free. *)
Definition mofs_vfs_statvfs (mountp : option fs_mount) : M W (vfs_ret * option fs_statvfs) :=
  match mountp with
  | Some (mkMount _ (Some disk)) =>
      c ← plat (Zephyr.kern (disk_access_ioctl disk GET_SECTOR_COUNT));
      match c with
      | inl _ => mret (Neg EIO, None)
      | inr sector_count =>
          s ← plat (Zephyr.kern (disk_access_ioctl disk GET_SECTOR_SIZE));
          match s with
          | inl _ => mret (Neg EIO, None)
          | inr sector_size => mret (Ret 0, Some (mkStatvfs (u32 sector_size) (u32 sector_size) (u32 sector_count) (u32 sector_count)))
          end
      end
  | _ => mret (Neg EINVAL, None)
  end.

(** The status of a core call that returns its error number. *)
Definition core_status (m : M W unit) : M W vfs_ret :=
  r ← attempt m;
  match r with Ok _ => mret (Ret 0) | Err e => mret (neg_os_errno e) | Stuck => fun w => (w, Stuck) end.

Definition mofs_mount (mount : option fs_mount) : M W vfs_ret :=
  match mount with
  | Some (mkMount _ (Some disk)) => core_status (mofs_init_core disk true 0 0)
  | _ => mret (Neg EINVAL)
  end.

Definition mofs_unmount : M W vfs_ret := core_status mofs_fini_core.

End vfs.
