(* ===== verification/Tools.v ===== *)
(** * The programs: mkfs, the FUSE program and the Zephyr application

    [mkfs_mofs.c] and [fuse.c] (src/os/linux/tools) with what [getopt] and
    [fuse_main] do as arguments, and [mofs_vfs_main.c] (src/os/zephyr/tools/vfs)
    in all its configurations over a class [VfsApi] of the calls that Zephyr's
    virtual file system offers to applications.  Messages are not modelled. *)

From Stdlib Require Import ZArith Lia.
From stdpp Require Import base list.
From S2P Require Import Prelude Types Platform Linux Zephyr Raw Buffer BufferSpec Ops Path Format Core Vfs.

(** ** mkfs *)

(** [isspace] and [isdigit] of the C locale. *)
Definition is_space (c : byte) : bool := let n := byte.unsigned c in (n =? 32) || ((9 <=? n) && (n <=? 13)).
Definition is_digit (c : byte) : bool := let n := byte.unsigned c in (48 <=? n) && (n <=? 57).

Fixpoint skip_spaces (s : cstr) : cstr :=
  match s with c :: s' => if is_space c then skip_spaces s' else s | [] => [] end.

Fixpoint digits (acc : Z) (s : cstr) : Z :=
  match s with
  | c :: s' => if is_digit c then digits (acc * 10 + (byte.unsigned c - 48)) s' else acc
  | [] => acc
  end.

(** [atoi]: the value of [strtol], which stops at the limits of [long], as an [int]. *)
Definition atoi (s : cstr) : Z :=
  let clamp x := Z.max (- 2 ^ 63) (Z.min (2 ^ 63 - 1) x) in
  match skip_spaces s with
  | c :: s' => if byte.unsigned c =? 45 then s32 (clamp (- digits 0 s'))
               else if byte.unsigned c =? 43 then s32 (clamp (digits 0 s'))
               else s32 (clamp (digits 0 (c :: s')))
  | [] => 0
  end.

(** A result of [getopt]: the option and [optarg]; any other character. *)
Inductive mkfs_opt := OptSize (arg : cstr) | OptBlock (arg : cstr) | OptHelp | OptOther.

(** The loop over the options: [None] when help is asked for. *)
Fixpoint mkfs_options (opts : list mkfs_opt) (fs_size blk_size : Z) : option (Z * Z) :=
  match opts with
  | [] => Some (fs_size, blk_size)
  | OptSize a :: r => mkfs_options r (atoi a) blk_size
  | OptBlock a :: r => mkfs_options r fs_size (atoi a)
  | OptHelp :: _ => None
  | OptOther :: r => mkfs_options r fs_size blk_size
  end.

Section mkfs.
Context {P C : Type} `{!Platform P}.

(** [main]: the exit status.  [opts] and [optind] are what [getopt] makes of
    the arguments. *)
Definition mkfs_main (argv : list cstr) (opts : list mkfs_opt) (optind : nat) : M (world P C) Z :=
  match mkfs_options opts (-1) (-1) with
  | None => mret 0
  | Some (fs_size, blk_size_param) =>
      match argv !! optind with
      | None => mret 1
      | Some device_file =>
          r ← attempt (mofs_format (Some device_file) fs_size blk_size_param);
          match r with Ok _ => mret 0 | Err _ => mret 1 | Stuck => fun w => (w, Stuck) end
      end
  end.

End mkfs.

(** ** The FUSE program *)

Definition opt_h : cstr := byte.of_Z <$> [45; 104].
Definition opt_help : cstr := byte.of_Z <$> [45; 45; 104; 101; 108; 112].

(** The argument starts with a dash. *)
Definition is_option (a : cstr) : bool := match a with c :: _ => byte.unsigned c =? 45 | [] => false end.

(** The loop over the arguments: an exit status, or the device file and the
    mount point as far as they were given. *)
Fixpoint fuse_args (args : list cstr) (devfile_path mount_point : option cstr) : Z + (option cstr * option cstr) :=
  match args with
  | [] => inr (devfile_path, mount_point)
  | a :: r =>
      if bool_decide (a = opt_h) || bool_decide (a = opt_help) then inl 0 else
      if is_option a then inl 1 else
      match devfile_path, mount_point with
      | None, _ => fuse_args r (Some a) mount_point
      | Some _, None => fuse_args r devfile_path (Some a)
      | Some _, Some _ => inl 1
      end
  end.

(** [main]: the exit status, or the arguments and the device file that
    [fuse_main] is called with. *)
Definition fuse_start (argv : list cstr) : Z + (list cstr * cstr) :=
  match fuse_args (tail argv) None None with
  | inl e => inl e
  | inr (Some devfile_path, Some mount_point) => inr ([default [] (head argv); mount_point], devfile_path)
  | inr _ => inl 1
  end.

Definition fuse_program {W : Type} (fuse_main : list cstr -> cstr -> M W Z) (argv : list cstr) : M W Z :=
  match fuse_start argv with inl e => mret e | inr (fuse_argv, devfile) => fuse_main fuse_argv devfile end.

(** ** The Zephyr application *)

(** The calls of Zephyr's virtual file system; [F] and [D] are its open files
    and directories.  A call returns a number or a negative error. *)
Class VfsApi (W F D : Type) := {
  fs_file_init : F;
  fs_dir_init : D;
  fs_open : F -> cstr -> fs_mode -> M W (vfs_ret * F);
  fs_close : F -> M W (vfs_ret * F);
  fs_read : F -> Z -> M W (vfs_ret * list byte);
  fs_write : F -> list byte -> M W vfs_ret;
  fs_seek : F -> Z -> Z -> M W vfs_ret;
  fs_sync : F -> M W vfs_ret;
  fs_mkdir : cstr -> M W vfs_ret;
  fs_unlink : cstr -> M W vfs_ret;
  fs_rename : cstr -> cstr -> M W vfs_ret;
  fs_stat : cstr -> fs_dirent -> M W (vfs_ret * fs_dirent);
  fs_opendir : D -> cstr -> M W (vfs_ret * D);
  fs_readdir : D -> fs_dirent -> M W (vfs_ret * fs_dirent);
  fs_closedir : D -> M W (vfs_ret * D);
  fs_mount_vol : fs_mount -> M W vfs_ret;
  fs_unmount_vol : fs_mount -> M W vfs_ret
}.

Definition MOFS_DISK_NAME : cstr := byte.of_Z <$> [82; 65; 77].
Definition MOFS_BLK_SIZE_APP : Z := 4096.

(** [/MOFS] *)
Definition mofs_mnt : fs_mount := mkMount 5 (Some MOFS_DISK_NAME).

(** ["/MOFS/hello.txt"], ["hello-mofs"], ["/MOFS/dir"], ["/MOFS/dir/a.txt"],
    ["/MOFS/dir/b.txt"], ["a.txt"] *)
Definition MOFS_TEST_PATH : cstr := byte.of_Z <$> [47; 77; 79; 70; 83; 47; 104; 101; 108; 108; 111; 46; 116; 120; 116].
Definition MOFS_TEST_PAYLOAD : cstr := byte.of_Z <$> [104; 101; 108; 108; 111; 45; 109; 111; 102; 115].
Definition MOFS_TEST_DIR : cstr := byte.of_Z <$> [47; 77; 79; 70; 83; 47; 100; 105; 114].
Definition MOFS_TEST_CHILD : cstr := byte.of_Z <$> [47; 77; 79; 70; 83; 47; 100; 105; 114; 47; 97; 46; 116; 120; 116].
Definition MOFS_TEST_RENAMED : cstr := byte.of_Z <$> [47; 77; 79; 70; 83; 47; 100; 105; 114; 47; 98; 46; 116; 120; 116].
Definition child_name : cstr := byte.of_Z <$> [97; 46; 116; 120; 116].

Definition is_neg (r : vfs_ret) : bool := match r with Neg _ => true | Ret n => n <? 0 end.

Section app.
Context {P C F D : Type} `{!Platform P} `{!VfsApi (world P C) F D}.
Abbreviation W := (world P C).

(** [FS_O_CREATE | FS_O_RDWR] *)
Definition create_rdwr : fs_mode := mkMode true true true false.

(** Return [r] after closing the file. *)
Definition close_and (file : F) (r : vfs_ret) : M W vfs_ret := fs_close file;; mret r.

(** [mofs_vfs_exercise_file]. *)
Definition mofs_vfs_exercise_file : M W vfs_ret :=
  '(ret, file) ← fs_open fs_file_init MOFS_TEST_PATH create_rdwr;
  if is_neg ret then mret ret else
  n ← fs_write file MOFS_TEST_PAYLOAD;
  match n with
  | Neg _ => close_and file n
  | Ret k =>
      if negb (k =? blen MOFS_TEST_PAYLOAD) then close_and file (Neg EIO) else
      ret ← fs_seek file 0 MOFS_SEEK_SET;
      if is_neg ret then close_and file ret else
      '(n, buf) ← fs_read file (blen MOFS_TEST_PAYLOAD);
      match n with
      | Neg _ => close_and file n
      | Ret k =>
          if negb (k =? blen MOFS_TEST_PAYLOAD) || negb (bool_decide (take (Z.to_nat k) buf = MOFS_TEST_PAYLOAD)) then close_and file (Neg EIO) else
          '(ret, _) ← fs_close file;
          if is_neg ret then mret ret else mret (Ret 0)
      end
  end.

(** The [while] loop of [mofs_vfs_exercise_dir]; [fuel] bounds the entries. *)
Fixpoint exercise_list (fuel : nat) (dir : D) (entry : fs_dirent) (found : bool) : M W (vfs_ret + bool) :=
  match fuel with
  | O => fun w => (w, Stuck)
  | S fuel' =>
      '(ret, entry) ← fs_readdir dir entry;
      if is_neg ret then fs_closedir dir;; mret (inl ret) else
      match ent_name entry with
      | [] => mret (inr found)
      | _ => exercise_list fuel' dir entry (found || bool_decide (ent_name entry = child_name))
      end
  end.

(** The second part of [mofs_vfs_exercise_dir], from [fs_rename] on. *)
Definition exercise_names : M W vfs_ret :=
  ret ← fs_rename MOFS_TEST_CHILD MOFS_TEST_RENAMED;
  if is_neg ret then mret ret else
  ret ← fs_unlink MOFS_TEST_RENAMED;
  if is_neg ret then mret ret else
  ret ← fs_unlink MOFS_TEST_DIR;
  if is_neg ret then mret ret else mret (Ret 0).

(** The listing of the directory. *)
Definition exercise_listing (fuel : nat) (entry : fs_dirent) : M W vfs_ret :=
  '(ret, dir) ← fs_opendir fs_dir_init MOFS_TEST_DIR;
  if is_neg ret then mret ret else
  l ← exercise_list fuel dir entry false;
  match l with
  | inl ret => mret ret
  | inr found =>
      '(ret, _) ← fs_closedir dir;
      if is_neg ret then mret ret else
      if negb found then mret (Neg EIO) else exercise_names
  end.

(** [mofs_vfs_exercise_dir]; [entry] is the uninitialised variable. *)
Definition mofs_vfs_exercise_dir (fuel : nat) (entry : fs_dirent) : M W vfs_ret :=
  ret ← fs_mkdir MOFS_TEST_DIR;
  if is_neg ret then mret ret else
  '(ret, file) ← fs_open fs_file_init MOFS_TEST_CHILD create_rdwr;
  if is_neg ret then mret ret else
  ret ← fs_sync file;
  if is_neg ret then close_and file ret else
  '(ret, _) ← fs_close file;
  if is_neg ret then mret ret else
  '(ret, entry) ← fs_stat MOFS_TEST_CHILD entry;
  match ent_type entry with
  | FS_DIR_ENTRY_FILE => if is_neg ret then mret ret else exercise_listing fuel entry
  | FS_DIR_ENTRY_DIR => mret (if is_neg ret then ret else Neg EIO)
  end.

(** Unmount and fail. *)
Definition unmount_fail : M W Z := fs_unmount_vol mofs_mnt;; mret 1.

(** The end of [main], with [ENABLE_UNMOUNT]. *)
Definition app_end (enable_unmount : bool) : M W Z :=
  if negb enable_unmount then mret 0 else
  ret ← fs_unmount_vol mofs_mnt;
  mret (if is_neg ret then 1 else 0).

(** [main] of [mofs_vfs_main.c]; the two switches of its configuration are
    arguments, both 0 in the source. *)
Definition vfs_main (enable_file_io_tests enable_unmount : bool) (fuel : nat) (entry : fs_dirent) : M W Z :=
  r ← attempt (mofs_format (Some MOFS_DISK_NAME) (-1) MOFS_BLK_SIZE_APP);
  match r with
  | Err _ => mret 1
  | Stuck => fun w => (w, Stuck)
  | Ok _ =>
      ret ← fs_mount_vol mofs_mnt;
      if is_neg ret then mret 1 else
      if negb enable_file_io_tests then app_end enable_unmount else
      ret ← mofs_vfs_exercise_file;
      if is_neg ret then unmount_fail else
      ret ← mofs_vfs_exercise_dir fuel entry;
      if is_neg ret then unmount_fail else app_end enable_unmount
  end.

End app.
