(* ===== verification/Volume.v ===== *)
(** * The logical volume

    The geometry of a mounted volume, the metadata that a logical disk holds
    (inodes, allocation bits), and the effect of the bitmap and inode
    operations on it, as rules for [wp]. *)

From Stdlib Require Import ZArith Lia.
From stdpp Require Import base list list_numbers.
From S2P Require Import Prelude Types Platform Raw Buffer BufferSpec Ops Bitmap Inode.

(** ** Geometry *)

(** The regions of the volume follow one another, are large enough for what
    they hold, and all block numbers fit 32 bits. *)
Record vol_ok (cx : mofs_ctx_t) (nblk : Z) : Prop := {
  vo_bs : mofs_validate_logical_blk_size (blk_size (sp_blk cx)) = 0;
  vo_ibs : 0 < inode_bitmap_start (sp_blk cx);
  vo_dbs : inode_bitmap_start (sp_blk cx) <= data_bitmap_start (sp_blk cx);
  vo_its : data_bitmap_start (sp_blk cx) <= inode_table_start (sp_blk cx);
  vo_drs : inode_table_start (sp_blk cx) <= data_region_start (sp_blk cx);
  vo_data : 0 <= data_blk_num (sp_blk cx);
  vo_end : data_region_start (sp_blk cx) + data_blk_num (sp_blk cx) = nblk;
  vo_hole : hole_blk_num (sp_blk cx) = nblk;
  vo_max : nblk < 2 ^ 32;
  vo_inodes : 0 <= inode_num (sp_blk cx) < 2 ^ 25;
  vo_ibits : inode_num (sp_blk cx) <= (data_bitmap_start (sp_blk cx) - inode_bitmap_start (sp_blk cx)) * (8 * blk_size (sp_blk cx));
  vo_dbits : data_blk_num (sp_blk cx) <= (inode_table_start (sp_blk cx) - data_bitmap_start (sp_blk cx)) * (8 * blk_size (sp_blk cx));
  (** bit numbers do not wrap around *)
  vo_iwrap : (data_bitmap_start (sp_blk cx) - inode_bitmap_start (sp_blk cx)) * (8 * blk_size (sp_blk cx)) <= 2 ^ 32;
  vo_dwrap : (inode_table_start (sp_blk cx) - data_bitmap_start (sp_blk cx)) * (8 * blk_size (sp_blk cx)) <= 2 ^ 32;
  vo_table : inode_num (sp_blk cx) * 64 <= (data_region_start (sp_blk cx) - inode_table_start (sp_blk cx)) * blk_size (sp_blk cx)
}.

(** A block size is a power of two between 512 and 65536. *)
Lemma valid_blk_size bs :
  mofs_validate_logical_blk_size bs = 0 -> exists k, 9 <= k <= 16 /\ bs = 2 ^ k.
Proof.
  unfold mofs_validate_logical_blk_size, MOFS_BLK_SIZE_MIN, MOFS_BLK_SIZE_MAX.
  destruct ((bs <? 512) || (65536 <? bs)) eqn:E; [discriminate|]. bool_hyps.
  rewrite u32_small by lia.
  destruct (Z.eqb_spec (Z.land bs (bs - 1)) 0) as [Hl|]; [|discriminate]. intros _.
  exists (Z.log2 bs). pose proof (Z.log2_spec bs ltac:(lia)) as [H1 H2].
  split.
  { split; [change 9 with (Z.log2 512)|change 16 with (Z.log2 65536)]; apply Z.log2_le_mono; lia. }
  destruct (Z.eq_dec bs (2 ^ Z.log2 bs)) as [|Hne]; [done|]. exfalso.
  assert (Hk : 0 <= Z.log2 bs) by apply Z.log2_nonneg.
  assert (Hlog : Z.log2 (bs - 1) = Z.log2 bs) by (apply Z.log2_unique; lia).
  assert (Ht : Z.testbit (Z.land bs (bs - 1)) (Z.log2 bs) = true).
  { rewrite Z.land_spec. rewrite Z.bit_log2 by lia. rewrite <- Hlog. by rewrite Z.bit_log2 by lia. }
  rewrite Hl, Z.bits_0 in Ht. discriminate.
Qed.

(** ** Bits of a bitmap block *)

Lemma get_u8_put_u8 i j v buf : 0 <= i < blen buf -> 0 <= j -> 0 <= v < 256 ->
  get_u8 j (put_u8 i v buf) = if j =? i then v else get_u8 j buf.
Proof.
  intros Hi Hj Hv. unfold get_u8, put_u8. destruct (Z.eqb_spec j i) as [->|Hne].
  - rewrite list_lookup_insert_eq by lia. simpl. rewrite byte.unsigned_of_Z. apply Z.mod_small. lia.
  - by rewrite list_lookup_insert_ne by lia.
Qed.

Lemma get_u8_range i buf : 0 <= get_u8 i buf < 256.
Proof. unfold get_u8. apply byte.unsigned_range. Qed.

Lemma length_put_bit buf by_ bi u : length (put_bit buf by_ bi u) = length buf.
Proof. unfold put_bit, put_u8. apply length_insert. Qed.

Lemma testbit_byte_high v n : 0 <= v < 256 -> 8 <= n -> Z.testbit v n = false.
Proof.
  intros Hv Hn. destruct (Z.eq_dec v 0) as [->|Hne]; [apply Z.bits_0|].
  apply Z.bits_above_log2; [lia|]. apply Z.log2_lt_pow2; [lia|].
  assert (2 ^ 8 <= 2 ^ n) by (apply Z.pow_le_mono_r; lia). lia.
Qed.

(** [|=] and [&= ~] change one bit of a byte. *)
Lemma testbit_flip (old bit n : Z) (u : bool) : 0 <= old < 256 -> 0 <= bit < 8 -> 0 <= n < 8 ->
  let v := if u then Z.lor old (u8 (Z.shiftl 1 bit)) else Z.land old (u8 (Z.lnot (Z.shiftl 1 bit))) in
  0 <= v < 256 /\ Z.testbit v n = if n =? bit then u else Z.testbit old n.
Proof.
  intros Hold Hbit Hn v.
  assert (Hu8 : forall x k, 0 <= k < 8 -> Z.testbit (u8 x) k = Z.testbit x k).
  { intros x k Hk. unfold u8. by rewrite Z.mod_pow2_bits_low by lia. }
  assert (Hsh : forall k, 0 <= k -> Z.testbit (Z.shiftl 1 bit) k = (k =? bit)).
  { intros k Hk. rewrite Z.shiftl_spec by lia. destruct (Z.eqb_spec k bit) as [->|Hne].
    - by rewrite Z.sub_diag.
    - destruct (Z.ltb_spec k bit); [apply Z.testbit_neg_r; lia|].
      apply Z.bits_above_log2; simpl; lia. }
  split.
  - assert (Hr : 0 <= v). { destruct u; unfold v; [apply Z.lor_nonneg|apply Z.land_nonneg; left; lia].
      split; [lia|]. unfold u8. apply Z.mod_pos_bound. lia. }
    split; [done|]. destruct (Z.eq_dec v 0) as [->|Hv0]; [lia|].
    change 256 with (2 ^ 8). apply Z.log2_lt_pow2; [lia|].
    destruct (Z.lt_ge_cases (Z.log2 v) 8) as [|Hge]; [done|]. exfalso.
    pose proof (Z.bit_log2 v ltac:(lia)) as Hb. unfold v in Hb. fold v in Hb.
    assert (Hz : Z.testbit v (Z.log2 v) = false); [|congruence].
    unfold v at 1. destruct u; rewrite ?Z.lor_spec, ?Z.land_spec, (testbit_byte_high old) by lia; [|done].
    simpl. apply testbit_byte_high; [unfold u8; apply Z.mod_pos_bound; lia|lia].
  - unfold v. destruct u.
    + rewrite Z.lor_spec, Hu8, Hsh by lia. destruct (n =? bit); [apply orb_true_r|apply orb_false_r].
    + rewrite Z.land_spec, Hu8, Z.lnot_spec, Hsh by lia. destruct (n =? bit); [apply andb_false_r|apply andb_true_r].
Qed.

Lemma get_bit_put_bit buf i j u : 0 <= i < 8 * blen buf -> 0 <= j ->
  get_bit (put_bit buf (i / 8) (i mod 8) u) j = if j =? i then u else get_bit buf j.
Proof.
  intros Hi Hj. unfold get_bit, put_bit.
  destruct (testbit_flip (get_u8 (i / 8) buf) (i mod 8) (j mod 8) u (get_u8_range _ _) ltac:(lia) ltac:(lia)) as [Hr Ht].
  rewrite get_u8_put_u8 by (try exact Hr; lia).
  destruct (Z.eqb_spec (j / 8) (i / 8)) as [He|Hne].
  - rewrite Ht, He. destruct (Z.eqb_spec (j mod 8) (i mod 8)), (Z.eqb_spec j i); try done; exfalso; lia.
  - destruct (Z.eqb_spec j i); [exfalso; subst; done|done].
Qed.

(** The test of the scan loops. *)
Lemma land_bit_test v bit : 0 <= bit -> (Z.land v (Z.shiftl 1 bit) =? 0) = negb (Z.testbit v bit).
Proof.
  intros Hb. rewrite Z.shiftl_1_l. destruct (Z.testbit v bit) eqn:Ht; simpl.
  - apply Z.eqb_neq. intros Hz. assert (H : Z.testbit (Z.land v (2 ^ bit)) bit = true).
    { rewrite Z.land_spec, Ht, Z.pow2_bits_true by lia. done. }
    rewrite Hz, Z.bits_0 in H. discriminate.
  - apply Z.eqb_eq. apply Z.bits_inj'. intros n Hn. rewrite Z.land_spec, Z.bits_0.
    destruct (Z.eq_dec n bit) as [->|Hne]; [by rewrite Ht|].
    by rewrite Z.pow2_bits_false, andb_false_r by lia.
Qed.

(** ** Metadata of a logical disk *)

Abbreviation disk := (Z -> list byte).

Section views.
Context (cx : mofs_ctx_t).
Abbreviation sb := (sp_blk cx).
Abbreviation bs := (blk_size (sp_blk cx)).

(** Bit [i] of the bitmap that starts at block [start]. *)
Definition bitmap_bit (start : Z) (d : disk) (i : Z) : bool := get_bit (d (start + i / (bs * 8))) (i mod (bs * 8)).
Definition put_bitmap_bit (start : Z) (d : disk) (i : Z) (u : bool) : disk :=
  let b := start + i / (bs * 8) in
  upd d b (put_bit (d b) (i mod (bs * 8) / 8) (i mod (bs * 8) mod 8) u).

Definition data_bit : disk -> Z -> bool := bitmap_bit (data_bitmap_start sb).
Definition inode_bit : disk -> Z -> bool := bitmap_bit (inode_bitmap_start sb).
Definition put_data_bit : disk -> Z -> bool -> disk := put_bitmap_bit (data_bitmap_start sb).
Definition put_inode_bit : disk -> Z -> bool -> disk := put_bitmap_bit (inode_bitmap_start sb).

(** Inode [n] of the table. *)
Definition tbl_blk (n : Z) : Z := inode_table_start sb + n * 64 / bs.
Definition tbl_off (n : Z) : Z := (n * 64) mod bs.
Definition inode_at (d : disk) (n : Z) : mofs_inode_t := decode_inode (bslice (tbl_off n) 64 (d (tbl_blk n))).
Definition put_inode (d : disk) (n : Z) (i : mofs_inode_t) : disk :=
  upd d (tbl_blk n) (bsplice (tbl_off n) (encode_inode i) (d (tbl_blk n))).

End views.

(** All blocks of the volume have the size of a block. *)
Definition disk_ok (cx : mofs_ctx_t) (nblk : Z) (d : disk) : Prop :=
  forall b, 0 <= b < nblk -> blen (d b) = blk_size (sp_blk cx).

Section volume.
Context (cx : mofs_ctx_t) (nblk : Z) (Hvol : vol_ok cx nblk).
Abbreviation sb := (sp_blk cx).
Abbreviation bs := (blk_size (sp_blk cx)).

Lemma bs_512 : exists m, bs = 512 * m /\ 1 <= m <= 128.
Proof.
  destruct (valid_blk_size bs (vo_bs _ _ Hvol)) as (k & Hk & ->).
  exists (2 ^ (k - 9)). replace (2 ^ k) with (2 ^ 9 * 2 ^ (k - 9)) by (rewrite <- Z.pow_add_r by lia; f_equal; lia).
  split; [done|]. split; [apply (Z.pow_le_mono_r 2 0); lia|].
  change 128 with (2 ^ 7). apply Z.pow_le_mono_r; lia.
Qed.

Lemma bs_range : 512 <= bs <= 65536.
Proof. destruct bs_512 as (m & -> & ?). lia. Qed.

Lemma disk_ok_upd d b x : disk_ok cx nblk d -> blen x = bs -> disk_ok cx nblk (upd d b x).
Proof. intros Hd Hx c Hc. unfold upd. destruct (c =? b); auto. Qed.

(** *** Where metadata lives *)

Lemma tbl_blk_range n : 0 <= n < inode_num sb -> inode_table_start sb <= tbl_blk cx n < data_region_start sb.
Proof.
  intros Hn. pose proof bs_range. pose proof (vo_table _ _ Hvol). unfold tbl_blk.
  split; [assert (0 <= n * 64 / bs) by (apply Z.div_pos; lia); lia|].
  assert (n * 64 / bs < data_region_start sb - inode_table_start sb); [|lia].
  apply Z.div_lt_upper_bound; nia.
Qed.

Lemma tbl_off_range n : 0 <= n -> 0 <= tbl_off cx n /\ tbl_off cx n + 64 <= bs.
Proof.
  intros Hn. destruct bs_512 as (m & Hm & ?). unfold tbl_off. rewrite Hm.
  replace (512 * m) with (64 * (8 * m)) by lia. rewrite (Z.mul_comm n 64).
  rewrite Z.mul_mod_distr_l by lia. pose proof (Z.mod_pos_bound n (8 * m)). lia.
Qed.

Lemma bitmap_blk_range start len i num :
  num <= len * (8 * bs) -> 0 <= i < num -> start <= start + i / (bs * 8) < start + len.
Proof.
  intros Hnum Hi. pose proof bs_range.
  assert (0 <= i / (bs * 8)) by (apply Z.div_pos; lia).
  assert (i / (bs * 8) < len) by (apply Z.div_lt_upper_bound; nia). lia.
Qed.

Lemma data_bitmap_blk i : 0 <= i < data_blk_num sb ->
  data_bitmap_start sb <= data_bitmap_start sb + i / (bs * 8) < inode_table_start sb.
Proof.
  intros Hi. pose proof (bitmap_blk_range (data_bitmap_start sb) _ i _ (vo_dbits _ _ Hvol) Hi). lia.
Qed.

Lemma inode_bitmap_blk i : 0 <= i < inode_num sb ->
  inode_bitmap_start sb <= inode_bitmap_start sb + i / (bs * 8) < data_bitmap_start sb.
Proof.
  intros Hi. pose proof (bitmap_blk_range (inode_bitmap_start sb) _ i _ (vo_ibits _ _ Hvol) Hi). lia.
Qed.

(** *** One block *)

Lemma wp_malloc n Q a : 0 <= n -> (forall b, blen b = n -> Q (Ok b) a) -> wp cx nblk (call (OpMalloc n)) Q a.
Proof. intros Hn H. simpl. auto. Qed.

Lemma wp_read_full buf b Q a :
  disk_ok cx nblk (a_disk a) -> 0 <= b < nblk -> blen buf = bs ->
  Q (Ok (a_disk a b)) a -> wp cx nblk (read_full_block cx buf b) Q a.
Proof.
  intros Hd Hb Hbuf HQ. pose proof (vo_max _ _ Hvol). unfold read_full_block. apply wp_bind. simpl.
  rewrite u32_small by lia. split_and!; try lia.
  change (Pos.to_nat 1) with 1%nat. rewrite blocks_at_1, bsplice_0_all by (specialize (Hd b Hb); lia). done.
Qed.

(** Reading into a larger buffer changes its first block only. *)
Lemma wp_read_first buf b Q a :
  disk_ok cx nblk (a_disk a) -> 0 <= b < nblk -> bs <= blen buf ->
  Q (Ok (a_disk a b ++ drop (Z.to_nat bs) buf)) a -> wp cx nblk (read_full_block cx buf b) Q a.
Proof.
  intros Hd Hb Hbuf HQ. pose proof (vo_max _ _ Hvol). pose proof bs_range. unfold read_full_block. apply wp_bind. simpl.
  rewrite u32_small by lia. split_and!; try lia.
  change (Pos.to_nat 1) with 1%nat. rewrite blocks_at_1. unfold bsplice. simpl.
  replace (length (a_disk a b)) with (Z.to_nat bs) by (specialize (Hd b Hb); lia). done.
Qed.

Lemma wp_write_full buf b Q a :
  0 <= b < nblk -> blen buf = bs ->
  Q (Ok tt) (set_disk (upd (a_disk a) b buf) a) -> wp cx nblk (write_full_block cx buf b) Q a.
Proof.
  intros Hb Hbuf HQ. pose proof (vo_max _ _ Hvol). unfold write_full_block. apply wp_bind. simpl.
  rewrite u32_small by lia. split_and!; try lia.
  rewrite Z.add_0_r, bslice_all by lia. done.
Qed.

(** *** Bitmaps *)

Lemma bitmap_bits : u32 (io_blk_sz cx * 8) = bs * 8.
Proof. pose proof bs_range. unfold io_blk_sz. apply u32_small. lia. Qed.

Lemma wp_set_bitmap_bit start i u Q a :
  disk_ok cx nblk (a_disk a) -> 0 <= start + i / (bs * 8) < nblk ->
  Q (Ok tt) (set_disk (put_bitmap_bit cx start (a_disk a) i u) a) ->
  wp cx nblk (set_bitmap_bit cx start i u) Q a.
Proof.
  intros Hd Hb HQ. unfold set_bitmap_bit. rewrite bitmap_bits. pose proof bs_range.
  apply wp_bind, wp_malloc; [unfold io_blk_sz; lia|]. intros buf Hbuf. apply wp_bind.
  apply wp_read_full; [done|done|done|]. apply wp_write_full; [done| |done].
  rewrite length_put_bit. by apply Hd.
Qed.

Lemma disk_ok_put_bitmap_bit start d i u : disk_ok cx nblk d -> 0 <= start + i / (bs * 8) < nblk ->
  disk_ok cx nblk (put_bitmap_bit cx start d i u).
Proof. intros Hd Hb. apply disk_ok_upd; [done|]. rewrite length_put_bit. by apply Hd. Qed.

(** Setting one bit changes that bit only. *)
Lemma bitmap_bit_put start d i j u :
  disk_ok cx nblk d -> 0 <= start + i / (bs * 8) < nblk -> 0 <= i -> 0 <= j ->
  bitmap_bit cx start (put_bitmap_bit cx start d i u) j = if j =? i then u else bitmap_bit cx start d j.
Proof.
  intros Hd Hb Hi Hj. pose proof bs_range. unfold bitmap_bit, put_bitmap_bit.
  assert (0 < bs * 8) by lia.
  pose proof (Z.mod_pos_bound i (bs * 8)). pose proof (Z.mod_pos_bound j (bs * 8)).
  destruct (Z.eq_dec (j / (bs * 8)) (i / (bs * 8))) as [He|Hne].
  - rewrite He, upd_eq, get_bit_put_bit by (rewrite ?(Hd _ Hb); lia).
    destruct (Z.eqb_spec (j mod (bs * 8)) (i mod (bs * 8))) as [Hm|Hm], (Z.eqb_spec j i) as [|Hji]; try done.
    + exfalso. apply Hji. rewrite (Z.div_mod j (bs * 8)), (Z.div_mod i (bs * 8)) by lia. congruence.
    + exfalso. by subst.
  - rewrite upd_ne by lia. destruct (Z.eqb_spec j i); [exfalso; by subst|done].
Qed.

(** A bitmap is not affected by writes to other blocks. *)
Lemma bitmap_bit_upd start len num d b x i :
  num <= len * (8 * bs) -> 0 <= i < num -> ~ (start <= b < start + len) ->
  bitmap_bit cx start (upd d b x) i = bitmap_bit cx start d i.
Proof.
  intros Hnum Hi Hb. unfold bitmap_bit. pose proof (bitmap_blk_range start len i num Hnum Hi).
  by rewrite upd_ne by lia.
Qed.

Lemma data_bit_upd d b x i : 0 <= i < data_blk_num sb -> ~ (data_bitmap_start sb <= b < inode_table_start sb) ->
  data_bit cx (upd d b x) i = data_bit cx d i.
Proof. intros Hi Hb. eapply (bitmap_bit_upd _ _ _ _ _ _ _ (vo_dbits _ _ Hvol) Hi). lia. Qed.

Lemma inode_bit_upd d b x i : 0 <= i < inode_num sb -> ~ (inode_bitmap_start sb <= b < data_bitmap_start sb) ->
  inode_bit cx (upd d b x) i = inode_bit cx d i.
Proof. intros Hi Hb. eapply (bitmap_bit_upd _ _ _ _ _ _ _ (vo_ibits _ _ Hvol) Hi). lia. Qed.

(** *** Inodes *)

Lemma inode_byte_small n : 0 <= n < inode_num sb -> inode_byte n = n * 64.
Proof. intros Hn. pose proof (vo_inodes _ _ Hvol). unfold inode_byte. apply s32_small. lia. Qed.

Lemma inode_blk_eq n : 0 <= n < inode_num sb -> inode_blk cx n = tbl_blk cx n.
Proof.
  intros Hn. pose proof bs_range. unfold inode_blk, tbl_blk, io_blk_sz. rewrite inode_byte_small by done.
  rewrite Z.quot_div_nonneg by lia. done.
Qed.

Lemma inode_off_eq n : 0 <= n < inode_num sb -> inode_off cx n = tbl_off cx n.
Proof.
  intros Hn. pose proof bs_range. unfold inode_off, tbl_off, io_blk_sz. rewrite inode_byte_small by done.
  rewrite Z.rem_mod_nonneg by lia. done.
Qed.

Lemma tbl_blk_vol n : 0 <= n < inode_num sb -> 0 <= tbl_blk cx n < nblk.
Proof.
  intros Hn. pose proof (tbl_blk_range n Hn). destruct Hvol. lia.
Qed.

Lemma inum_guard n : 0 <= n < inode_num sb -> (n <? 0) || (inode_num sb <=? n) = false.
Proof. intros Hn. rewrite orb_false_iff, Z.ltb_ge, Z.leb_gt. lia. Qed.

Lemma wp_read_inode n Q a :
  disk_ok cx nblk (a_disk a) -> 0 <= n < inode_num sb ->
  Q (Ok (inode_at cx (a_disk a) n)) a -> wp cx nblk (mofs_read_inode cx n) Q a.
Proof.
  intros Hd Hn HQ. unfold mofs_read_inode. rewrite inum_guard by done. pose proof bs_range.
  apply wp_bind, wp_malloc; [unfold io_blk_sz; lia|]. intros buf Hbuf. apply wp_locked, wp_bind.
  rewrite inode_blk_eq, inode_off_eq by done.
  apply wp_read_full; [done|by apply tbl_blk_vol|done|]. exact HQ.
Qed.

Lemma length_encode_inode_Z i : length (i_reserved i) = 16%nat -> blen (encode_inode i) = 64.
Proof. intros H. by rewrite length_encode_inode. Qed.

Lemma disk_ok_put_inode d n i : disk_ok cx nblk d -> 0 <= n < inode_num sb -> length (i_reserved i) = 16%nat ->
  disk_ok cx nblk (put_inode cx d n i).
Proof.
  intros Hd Hn Hi. apply disk_ok_upd; [done|]. pose proof (tbl_off_range n ltac:(lia)).
  pose proof (Hd _ (tbl_blk_vol n Hn)) as Hl. rewrite length_bsplice; rewrite ?length_encode_inode_Z by done; lia.
Qed.

Lemma wp_write_inode n i Q a :
  disk_ok cx nblk (a_disk a) -> 0 <= n < inode_num sb -> length (i_reserved i) = 16%nat ->
  Q (Ok tt) (set_disk (put_inode cx (a_disk a) n i) a) -> wp cx nblk (mofs_write_inode cx n i) Q a.
Proof.
  intros Hd Hn Hi HQ. unfold mofs_write_inode. rewrite inum_guard by done. pose proof bs_range as Hbs.
  apply wp_bind, wp_malloc; [unfold io_blk_sz; lia|]. intros buf Hbuf.
  rewrite inode_blk_eq, inode_off_eq by done.
  pose proof (tbl_blk_vol n Hn) as Hb. pose proof (tbl_off_range n ltac:(lia)) as Ho.
  pose proof (vo_max _ _ Hvol). pose proof (length_encode_inode_Z i Hi) as Hl. pose proof (Hd _ Hb) as Hlb.
  rewrite !u32_small by lia. apply wp_bind, wp_status, wp_call. cbn [op_wp]. wp_simpl. destruct (a_cached a) eqn:Hc.
  - split_and!; try lia. exact HQ.
  - change (negb (MOFS_EINVAL =? MOFS_EINVAL)) with false. wp_simpl.
    apply wp_locked, wp_bind, wp_read_full; [done|done|done|]. apply wp_write_full; [done| |exact HQ].
    rewrite length_bsplice; lia.
Qed.

(** Writing an inode: that inode, and nothing else of the metadata, changes. *)
Lemma inode_at_put d n m i :
  disk_ok cx nblk d -> 0 <= n < inode_num sb -> 0 <= m < inode_num sb -> inode_fits i ->
  inode_at cx (put_inode cx d n i) m = if m =? n then i else inode_at cx d m.
Proof.
  intros Hd Hn Hm Hi. unfold inode_at, put_inode. pose proof (fits_reserved _ Hi) as Hr.
  pose proof (tbl_off_range n ltac:(lia)) as Hon. pose proof (tbl_off_range m ltac:(lia)) as Hom.
  pose proof (Hd _ (tbl_blk_vol n Hn)) as Hl. pose proof (length_encode_inode_Z i Hr) as Hle.
  destruct (Z.eqb_spec m n) as [->|Hne].
  - rewrite upd_eq, bslice_bsplice_same by lia. by apply decode_encode_inode.
  - destruct (Z.eq_dec (tbl_blk cx m) (tbl_blk cx n)) as [He|Hb]; [|by rewrite upd_ne].
    rewrite He, upd_eq. f_equal. apply bslice_bsplice_other; try lia. rewrite Hle.
    unfold tbl_blk, tbl_off in *. pose proof bs_range.
    pose proof (Z.div_mod (m * 64) bs). pose proof (Z.div_mod (n * 64) bs).
    assert (m * 64 / bs = n * 64 / bs) by lia. nia.
Qed.

Lemma inode_at_upd d b x n : 0 <= n < inode_num sb -> ~ (inode_table_start sb <= b < data_region_start sb) ->
  inode_at cx (upd d b x) n = inode_at cx d n.
Proof. intros Hn Hb. unfold inode_at. pose proof (tbl_blk_range n Hn). by rewrite upd_ne by lia. Qed.

Lemma inode_at_fits d n : disk_ok cx nblk d -> 0 <= n < inode_num sb -> inode_fits (inode_at cx d n).
Proof.
  intros Hd Hn. apply decode_inode_fits. pose proof (tbl_off_range n ltac:(lia)). pose proof (Hd _ (tbl_blk_vol n Hn)).
  rewrite length_bslice; lia.
Qed.

(** *** Scanning for free entries *)

Section scan.
Context (limit reserved need : Z) (start : Z) (d : disk).
Hypothesis (Hneed : 0 <= need).

(** Entry [i] can be handed out. *)
Definition can_alloc (i : Z) : bool := (reserved <=? i) && (i <? limit) && negb (bitmap_bit cx start d i).

(** The entries that can be handed out, among the first [n], in order. *)
Definition allocatable (lo : Z) (n : Z) : list Z := List.filter can_alloc (seqZ lo n).

Lemma allocatable_none lo n : limit <= lo -> allocatable lo n = [].
Proof.
  intros Hlo. unfold allocatable. destruct (List.filter can_alloc (seqZ lo n)) as [|x l] eqn:E; [done|]. exfalso.
  assert (Hx : In x (List.filter can_alloc (seqZ lo n))) by (rewrite E; left; done).
  apply filter_In in Hx as [Hx Hc]. unfold can_alloc in Hc. bool_hyps. apply list_elem_of_In, elem_of_seqZ in Hx. lia.
Qed.

Lemma allocatable_app lo n m : 0 <= n -> 0 <= m -> allocatable lo (n + m) = allocatable lo n ++ allocatable (lo + n) m.
Proof. intros. unfold allocatable. rewrite seqZ_app by lia. apply List.filter_app. Qed.

Lemma allocatable_cons lo n : 0 < n ->
  allocatable lo n = (if can_alloc lo then [lo] else []) ++ allocatable (lo + 1) (n - 1).
Proof.
  intros Hn. unfold allocatable. rewrite seqZ_cons by lia. simpl.
  rewrite <- Z.add_1_r, <- Z.sub_1_r. by destruct (can_alloc lo).
Qed.

Lemma take_full {A} (n : nat) (l k : list A) : length l = n -> take n (l ++ k) = l.
Proof. intros <-. by rewrite take_app_length. Qed.

Lemma scan_bits_spec v base n : forall bit acc,
  0 <= base -> base + 8 <= 2 ^ 32 -> 0 <= bit -> bit + Z.of_nat n <= 8 -> blen acc <= need ->
  (forall b, 0 <= b < 8 -> Z.testbit v b = bitmap_bit cx start d (base + b)) ->
  scan_bits limit reserved need v base n bit acc =
    take (Z.to_nat need) (acc ++ allocatable (base + bit) (Z.of_nat n)).
Proof.
  induction n as [|n IH]; intros bit acc Hb0 Hb8 Hbit Hn Hacc Hv; cbn [scan_bits].
  { rewrite app_nil_r. symmetry. apply take_ge. lia. }
  destruct (Z.ltb_spec (blen acc) need) as [Hlt|Hge]; cbn [negb].
  2: { symmetry. apply take_full. lia. }
  rewrite u32_small by lia. destruct (Z.leb_spec limit (base + bit)) as [Hl|Hl].
  { rewrite allocatable_none by lia. rewrite app_nil_r. symmetry. apply take_ge. lia. }
  rewrite allocatable_cons by lia. replace (Z.of_nat (S n) - 1) with (Z.of_nat n) by lia.
  replace (base + bit + 1) with (base + (bit + 1)) by lia.
  rewrite land_bit_test, Hv by lia. unfold can_alloc.
  rewrite (proj2 (Z.ltb_lt (base + bit) limit)) by lia. rewrite andb_true_r.
  destruct (Z.ltb_spec (base + bit) reserved) as [Hr|Hr].
  { rewrite (proj2 (Z.leb_gt reserved _)) by lia. simpl. apply IH; try done; lia. }
  rewrite (proj2 (Z.leb_le reserved _)) by lia. simpl.
  destruct (negb (bitmap_bit cx start d (base + bit))); simpl.
  - rewrite IH; try done; try lia; [by rewrite <- app_assoc|]. rewrite length_app. simpl. lia.
  - apply IH; try done; lia.
Qed.

Lemma take_app_take {A} (n : nat) (x y : list A) : take n (take n x ++ y) = take n (x ++ y).
Proof.
  destruct (decide (length x <= n)%nat) as [H|H].
  - by rewrite (take_ge x) by lia.
  - rewrite !take_app_le; [by rewrite take_take, Nat.min_id|lia|rewrite length_take; lia].
Qed.

Lemma blen_take_need (x : list Z) : blen (take (Z.to_nat need) x) <= need.
Proof. rewrite length_take. lia. Qed.

Lemma scan_bytes_spec buf blk_base n : forall j acc,
  0 <= blk_base -> 0 <= j -> blk_base + (j + Z.of_nat n) * 8 <= 2 ^ 32 -> blen acc <= need ->
  (forall i, 0 <= i < (j + Z.of_nat n) * 8 -> get_bit buf i = bitmap_bit cx start d (blk_base + i)) ->
  scan_bytes limit reserved need buf blk_base n j acc =
    take (Z.to_nat need) (acc ++ allocatable (blk_base + j * 8) (Z.of_nat n * 8)).
Proof.
  induction n as [|n IH]; intros j acc Hb Hj Hmax Hacc Hbits; cbn [scan_bytes].
  { rewrite app_nil_r. symmetry. apply take_ge. lia. }
  destruct (Z.ltb_spec (blen acc) need) as [Hlt|Hge]; cbn [negb].
  2: { symmetry. apply take_full. lia. }
  rewrite scan_bits_spec; try lia.
  2: { intros b Hbb. rewrite <- Z.add_assoc, <- Hbits by lia. unfold get_bit.
       replace ((j * 8 + b) / 8) with j by lia. by replace ((j * 8 + b) mod 8) with b by lia. }
  rewrite IH; try lia; [|apply blen_take_need|intros; apply Hbits; lia].
  rewrite take_app_take, <- app_assoc. do 2 f_equal.
  replace (Z.of_nat (S n) * 8) with (8 + Z.of_nat n * 8) by lia.
  rewrite allocatable_app by lia. f_equal; f_equal; lia.
Qed.

Lemma wp_scan_blocks n : forall buf k acc Q a,
  a_disk a = d -> disk_ok cx nblk d -> 0 <= start -> start + k + Z.of_nat n <= nblk -> 0 <= k ->
  (k + Z.of_nat n) * (8 * bs) <= 2 ^ 32 -> blen acc <= need -> blen buf = bs ->
  Q (Ok (take (Z.to_nat need) (acc ++ allocatable (k * (bs * 8)) (Z.of_nat n * (bs * 8))))) a ->
  wp cx nblk (scan_blocks limit reserved need cx start buf n k acc) Q a.
Proof.
  induction n as [|n IH]; intros buf k acc Q a Ha Hd Hs Hn Hk Hmax Hacc Hbuf HQ; cbn [scan_blocks]; pose proof bs_range.
  { apply wp_ret. unfold allocatable in HQ; simpl in HQ. rewrite app_nil_r, take_ge in HQ by lia. done. }
  destruct (Z.ltb_spec (blen acc) need) as [Hlt|Hge]; cbn [negb].
  2: { apply wp_ret. rewrite take_full in HQ by lia. done. }
  apply wp_bind, wp_read_full; [by rewrite Ha|lia|done|]. wp_simpl. rewrite bitmap_bits. unfold io_blk_sz.
  rewrite Ha. rewrite scan_bytes_spec; try lia; try nia.
  2: { intros i Hi. rewrite Z2Nat.id in Hi by lia. unfold bitmap_bit. rewrite (Z.add_comm (k * (bs * 8)) i).
       rewrite Z.div_add, Z.mod_add by lia. rewrite Z.div_small, Z.mod_small by lia. simpl. done. }
  apply IH; try done; try nia; [apply blen_take_need|by apply Hd; lia|].
  rewrite take_app_take, <- app_assoc. replace (Z.of_nat (S n) * (bs * 8)) with (bs * 8 + Z.of_nat n * (bs * 8)) in HQ by nia.
  rewrite allocatable_app in HQ by nia. rewrite Z2Nat.id by lia. rewrite Z.add_0_r.
  replace ((k + 1) * (bs * 8)) with (k * (bs * 8) + bs * 8) by nia. exact HQ.
Qed.

(** What the scan of a whole bitmap finds. *)
Lemma wp_find_free_indices len Q a :
  a_disk a = d -> disk_ok cx nblk d -> 0 <= start -> 0 <= len -> start + len <= nblk ->
  len * (8 * bs) <= 2 ^ 32 -> 0 <= limit <= len * (8 * bs) ->
  (blen (allocatable 0 limit) < need -> Q (Err MOFS_ENOSPC) a) ->
  (need <= blen (allocatable 0 limit) -> Q (Ok (take (Z.to_nat need) (allocatable 0 limit))) a) ->
  wp cx nblk (find_free_indices limit reserved need cx start len) Q a.
Proof.
  intros Ha Hd Hs Hlen Hend Hmax Hlim Herr Hok. unfold find_free_indices. pose proof bs_range.
  destruct (Z.eqb_spec need 0) as [H0|Hn0]; [apply wp_ret; rewrite H0 in Hok; apply Hok; lia|].
  apply wp_bind, wp_malloc; [unfold io_blk_sz; lia|]. intros buf Hbuf.
  apply wp_bind, wp_scan_blocks; try done; try lia.
  wp_simpl. simpl (_ ++ _). rewrite Z.mul_0_l, Z2Nat.id by lia.
  replace (len * (bs * 8)) with (limit + (len * (bs * 8) - limit)) by lia.
  rewrite allocatable_app, (allocatable_none (0 + limit)), app_nil_r by lia.
  rewrite length_take. destruct (Z.ltb_spec (blen (allocatable 0 limit)) need) as [Hlt|Hge].
  - rewrite (proj2 (Z.ltb_lt _ _)) by lia. by apply Herr.
  - rewrite (proj2 (Z.ltb_ge _ _)) by lia. by apply wp_ret, Hok.
Qed.

Lemma allocatable_spec i n : In i (allocatable 0 n) <-> 0 <= i < n /\ can_alloc i = true.
Proof. unfold allocatable. rewrite filter_In, <- list_elem_of_In, elem_of_seqZ. rewrite Z.add_0_l. done. Qed.

Lemma allocatable_sorted n : StronglySorted Z.lt (allocatable 0 n).
Proof. apply StronglySorted_filter, StronglySorted_seqZ. Qed.

Lemma allocatable_NoDup n : NoDup (allocatable 0 n).
Proof.
  unfold allocatable. apply NoDup_ListNoDup, List.NoDup_filter, NoDup_ListNoDup, NoDup_seqZ.
Qed.

End scan.

End volume.

(** ** Runs on a mounted volume *)

Section runs.
Context {P C : Type} `{!Platform P} `{!PlatformSpec P} `{!BlockDriver P C} `{!DriverSpec P C}.
Context (cx : mofs_ctx_t) (nblk : Z).
Abbreviation rep := (rep cx nblk).

Lemma rep_disk_ok (w : world P C) a : rep w a -> disk_ok cx nblk (a_disk a).
Proof. intros Hr b Hb. eapply drv_rep_len; [apply Hr|done]. Qed.

(** Adequacy, with the cost bookkeeping dropped. *)
Lemma run_wp {A} (p : prog A) Q (w : world P C) a :
  rep w a -> run_cost p w < drv_left w -> wp cx nblk p Q a ->
  exists w' r a', interp p w = (w', r) /\ Q r a' /\ rep w' a'.
Proof. intros Hr Hl Hwp. destruct (interp_ok cx nblk p Q w a Hwp Hr Hl) as (w' & r & a' & ? & ? & ? & _). by exists w', r, a'. Qed.

(** The outcome and the state afterwards are known. *)
Lemma run_wp_eq {A} (p : prog A) r a' (w : world P C) a :
  rep w a -> run_cost p w < drv_left w ->
  wp cx nblk p (fun r' b => r' = r /\ b = a') a ->
  exists w', interp p w = (w', r) /\ rep w' a'.
Proof.
  intros Hr Hl Hwp. destruct (run_wp p _ w a Hr Hl Hwp) as (w' & ? & ? & E & (-> & ->) & R). by exists w'.
Qed.

(** The outcome is a known value, the state changes in the disk only. *)
Lemma run_wp_disk {A} (p : prog A) r (Q : disk -> Prop) (w : world P C) a :
  rep w a -> run_cost p w < drv_left w ->
  wp cx nblk p (fun r' a' => r' = r /\ exists d', a' = set_disk d' a /\ Q d') a ->
  exists w' d', interp p w = (w', r) /\ rep w' (set_disk d' a) /\ Q d'.
Proof.
  intros Hr Hl Hwp. destruct (run_wp p _ w a Hr Hl Hwp) as (w' & ? & ? & E & (-> & d' & -> & HQ) & R). by exists w', d'.
Qed.

End runs.
