(* ===== verification/BlockSpec.v ===== *)
(** * Correctness of the data-block layer

    The chain of list nodes that maps a file's logical blocks, and what
    exporting, resolving, rebuilding and freeing it do to the logical disk. *)

From Stdlib Require Import ZArith Lia.
From stdpp Require Import base list list_numbers.
From S2P Require Import Prelude Types Platform Raw Buffer BufferSpec Ops Bitmap Inode Block Volume.

(** ** Encoding of a list node *)

Lemma concat_le_cons x (l : list Z) : concat (le_split 4 <$> x :: l) = le_split 4 x ++ concat (le_split 4 <$> l).
Proof. reflexivity. Qed.

Lemma length_concat_le (l : list Z) : length (concat (le_split 4 <$> l)) = (4 * length l)%nat.
Proof. induction l as [|x l IH]; [done|]. rewrite concat_le_cons, length_app, length_le_split, IH. simpl. lia. Qed.

Lemma length_list_node_buf bs next ptrs : 8 + 4 * blen ptrs <= bs -> blen (list_node_buf bs next ptrs) = bs.
Proof.
  intros H. unfold list_node_buf. rewrite !length_app, !length_le_split, length_concat_le, length_zeros. lia.
Qed.

Lemma node_next_buf bs next ptrs : 0 <= next < 2 ^ 32 -> hdr_next_abs (list_node_buf bs next ptrs) = next.
Proof.
  intros H. unfold hdr_next_abs, list_node_buf. rewrite get_le_app_l by (rewrite ?length_le_split; simpl; lia).
  by apply (get_le_split 4).
Qed.

Lemma node_nr_buf bs next ptrs : blen ptrs < 2 ^ 32 -> hdr_nr_ptrs (list_node_buf bs next ptrs) = blen ptrs.
Proof.
  intros H. unfold hdr_nr_ptrs, list_node_buf. rewrite get_le_app_r by (rewrite length_le_split; simpl; lia).
  rewrite length_le_split. rewrite get_le_app_l by (rewrite ?length_le_split; simpl; lia).
  replace (4 - Z.of_nat 4) with 0 by lia. apply (get_le_split 4); lia.
Qed.

Lemma list_ptr_buf bs next ptrs i p :
  Forall (fun p => 0 <= p < 2 ^ 32) ptrs -> ptrs !! i = Some p ->
  list_ptr (Z.of_nat i) (list_node_buf bs next ptrs) = p.
Proof.
  intros Hall Hi. unfold list_ptr, list_node_buf. rewrite get_le_app_r by (rewrite length_le_split; lia).
  rewrite get_le_app_r by (rewrite !length_le_split; lia). rewrite !length_le_split.
  generalize (zeros (bs - 8 - 4 * blen ptrs)). intros tl. clear next.
  replace (8 + 4 * Z.of_nat i - Z.of_nat 4 - Z.of_nat 4) with (4 * Z.of_nat i) by lia.
  revert i Hi. induction Hall as [|q l Hq Hall IH]; intros i Hi; [done|]. rewrite concat_le_cons, <- app_assoc.
  destruct i as [|i]; simpl in Hi.
  - simplify_eq. rewrite get_le_app_l by (rewrite ?length_le_split; simpl; lia). by apply (get_le_split 4).
  - rewrite get_le_app_r by (rewrite length_le_split; lia). rewrite length_le_split.
    replace (4 * Z.of_nat (S i) - Z.of_nat 4) with (4 * Z.of_nat i) by lia. by apply IH.
Qed.

Lemma list_ptrs_buf bs next ptrs :
  Forall (fun p => 0 <= p < 2 ^ 32) ptrs -> list_ptrs (length ptrs) (list_node_buf bs next ptrs) = ptrs.
Proof.
  intros Hall. apply list_eq_same_length with (length ptrs); [done|unfold list_ptrs; by rewrite length_fmap, length_seq|].
  intros i x y Hi Hx Hy. unfold list_ptrs in Hx. rewrite list_lookup_fmap, lookup_seq_lt in Hx by lia. simplify_eq/=.
  by apply list_ptr_buf.
Qed.

Lemma length_list_ptrs n buf : length (list_ptrs n buf) = n.
Proof. unfold list_ptrs. by rewrite length_fmap, length_seq. Qed.

Lemma list_ptrs_lookup n buf i : (i < n)%nat -> list_ptrs n buf !! i = Some (list_ptr (Z.of_nat i) buf).
Proof. intros Hi. unfold list_ptrs. by rewrite list_lookup_fmap, lookup_seq_lt. Qed.

(** ** Chains *)

Section chains.
Context (cx : mofs_ctx_t) (nblk : Z).
Abbreviation sb := (sp_blk cx).
Abbreviation bs := (blk_size (sp_blk cx)).
Abbreviation drs := (data_region_start (sp_blk cx)).

Definition node_ptrs (d : disk) (n : Z) : list Z := list_ptrs (Z.to_nat (hdr_nr_ptrs (d n))) (d n).

(** [chain d h nodes ptrs]: the list that starts at [h] consists of [nodes]
    and holds the pointers [ptrs]. *)
Fixpoint chain (d : disk) (h : Z) (nodes ptrs : list Z) : Prop :=
  match nodes with
  | [] => h = 0 /\ ptrs = []
  | n :: ns => h = n /\ drs <= n < nblk /\ hdr_nr_ptrs (d n) <= list_ptrs_cap cx /\
      exists ps, ptrs = node_ptrs d n ++ ps /\ chain d (hdr_next_abs (d n)) ns ps
  end.

Lemma chain_ext d d' nodes : forall h ptrs,
  chain d h nodes ptrs -> (forall n, n ∈ nodes -> d' n = d n) -> chain d' h nodes ptrs.
Proof.
  induction nodes as [|n ns IH]; intros h ptrs Hc He; [done|]. destruct Hc as (-> & Hr & Hcap & ps & -> & Hc).
  assert (En : d' n = d n) by (apply He; left). simpl. unfold node_ptrs. rewrite En. split_and!; try done; try lia.
  exists ps. split; [done|]. apply IH; [done|]. intros m Hm. apply He. by right.
Qed.

Lemma chain_nodes_range d nodes : forall h ptrs, chain d h nodes ptrs -> Forall (fun n => drs <= n < nblk) nodes.
Proof.
  induction nodes as [|n ns IH]; intros h ptrs Hc; [constructor|]. destruct Hc as (-> & Hr & _ & ps & _ & Hc).
  constructor; [done|by eapply IH].
Qed.

End chains.

Section blockspec.
Context (cx : mofs_ctx_t) (nblk : Z) (Hvol : vol_ok cx nblk).
Abbreviation sb := (sp_blk cx).
Abbreviation bs := (blk_size (sp_blk cx)).
Abbreviation drs := (data_region_start (sp_blk cx)).

Lemma drs_pos : 0 < drs.
Proof. destruct Hvol. lia. Qed.

(** *** Walking a chain *)

Lemma wp_export_loop nr nodes : forall fuel h ptrs buf out Q a,
  disk_ok cx nblk (a_disk a) -> chain cx nblk (a_disk a) h nodes ptrs -> (length nodes < fuel)%nat ->
  blen out + blen ptrs <= nr -> blen buf = bs -> Q (Ok (out ++ ptrs)) a ->
  wp cx nblk (export_loop cx nr fuel h buf out) Q a.
Proof.
  pose proof drs_pos as Hpos. pose proof (bs_range cx nblk Hvol) as Hbs.
  induction nodes as [|n ns IH]; intros [|fuel] h ptrs buf out Q a Hd Hc Hf Hnr Hbuf HQ; simpl in Hf; try lia; cbn [export_loop].
  { destruct Hc as [-> ->]. rewrite app_nil_r in HQ. apply wp_ret. exact HQ. }
  destruct Hc as (-> & Hr & Hcap & ps & -> & Hc). rewrite (proj2 (Z.eqb_neq n 0)) by lia.
  apply wp_bind, (wp_read_full cx nblk Hvol); [done|lia|done|]. wp_simpl.
  assert (0 <= hdr_nr_ptrs (a_disk a n)) by (apply get_le_range; lia).
  assert (Hl : blen (node_ptrs (a_disk a) n) = hdr_nr_ptrs (a_disk a n)) by (unfold node_ptrs; rewrite length_list_ptrs; lia).
  rewrite length_app in Hnr.
  rewrite (proj2 (Z.ltb_ge _ _)), (proj2 (Z.ltb_ge _ _)) by lia.
  apply IH with ps; try done; [lia| |by apply Hd; lia|].
  - rewrite length_app. unfold node_ptrs in *. lia.
  - rewrite <- app_assoc. exact HQ.
Qed.

Lemma wp_resolve_loop nodes : forall fuel h ptrs buf i b Q a,
  disk_ok cx nblk (a_disk a) -> chain cx nblk (a_disk a) h nodes ptrs -> (length nodes < fuel)%nat ->
  0 <= i -> ptrs !! Z.to_nat i = Some b -> blen buf = bs -> Q (Ok b) a ->
  wp cx nblk (resolve_loop cx fuel h i buf) Q a.
Proof.
  pose proof drs_pos as Hpos. pose proof (bs_range cx nblk Hvol) as Hbs.
  induction nodes as [|n ns IH]; intros [|fuel] h ptrs buf i b Q a Hd Hc Hf Hi Hb Hbuf HQ; simpl in Hf; try lia; cbn [resolve_loop].
  { destruct Hc as [-> ->]. done. }
  destruct Hc as (-> & Hr & Hcap & ps & -> & Hc). rewrite (proj2 (Z.eqb_neq n 0)) by lia.
  apply wp_bind, (wp_read_full cx nblk Hvol); [done|lia|done|]. wp_simpl.
  assert (0 <= hdr_nr_ptrs (a_disk a n)) by (apply get_le_range; lia).
  assert (Hl : length (node_ptrs (a_disk a) n) = Z.to_nat (hdr_nr_ptrs (a_disk a n))) by (unfold node_ptrs; by rewrite length_list_ptrs).
  rewrite (proj2 (Z.ltb_ge _ _)) by lia.
  destruct (Z.ltb_spec i (hdr_nr_ptrs (a_disk a n))) as [Hlt|Hge].
  - apply wp_ret. rewrite lookup_app_l in Hb by lia. unfold node_ptrs in Hb.
    rewrite list_ptrs_lookup, Z2Nat.id in Hb by lia. simplify_eq. exact HQ.
  - rewrite lookup_app_r in Hb by lia. apply IH with ps b; try done; [lia|lia| |by apply Hd; lia].
    rewrite <- Hb. f_equal. lia.
Qed.

(** Distinct nodes are few enough for the fuel. *)
Lemma chain_fuel_enough d h nodes ptrs :
  chain cx nblk d h nodes ptrs -> NoDup nodes -> (length nodes < chain_fuel cx)%nat.
Proof.
  intros Hc Hn. pose proof (chain_nodes_range _ _ _ _ _ _ Hc) as Hr. pose proof drs_pos.
  assert (Hle : (length nodes <= length (seqZ 0 nblk))%nat).
  { apply submseteq_length, NoDup_submseteq; [done|]. intros x Hx. apply elem_of_seqZ.
    rewrite Forall_forall in Hr. apply Hr in Hx. lia. }
  rewrite length_seqZ in Hle. unfold chain_fuel. rewrite (vo_hole _ _ Hvol). lia.
Qed.

Lemma cap_pos : 0 < list_ptrs_cap cx /\ 8 + 4 * list_ptrs_cap cx <= bs /\ list_ptrs_cap cx < 2 ^ 14.
Proof.
  pose proof (bs_range cx nblk Hvol). unfold list_ptrs_cap, mofs_list_ptrs_per_node.
  rewrite (proj2 (Z.leb_gt _ _)) by lia. lia.
Qed.

(** [export_data_block_list] returns the pointers of the chain, in order. *)
Lemma wp_export inode nodes ptrs cap Q a :
  disk_ok cx nblk (a_disk a) -> chain cx nblk (a_disk a) (i_data_head inode) nodes ptrs -> NoDup nodes ->
  i_nr_blocks inode = blen ptrs -> blen ptrs <= cap -> Q (Ok ptrs) a ->
  wp cx nblk (export_data_block_list cx inode cap) Q a.
Proof.
  intros Hd Hc Hnd Hnr Hcap HQ. unfold export_data_block_list. pose proof cap_pos. pose proof drs_pos.
  destruct (Z.eqb_spec (i_nr_blocks inode) 0) as [Hz|Hz].
  { apply wp_ret. assert (ptrs = []) as -> by (destruct ptrs; [done|simpl in *; lia]). done. }
  assert (Hh : i_data_head inode <> 0).
  { destruct nodes as [|n ns]; [destruct Hc as [_ ->]; simpl in *; lia|]. destruct Hc as (-> & ? & _). lia. }
  rewrite (proj2 (Z.eqb_neq _ _) Hh), (proj2 (Z.ltb_ge _ _)), (proj2 (Z.eqb_neq _ _)) by lia. cbn [orb].
  pose proof (bs_range cx nblk Hvol). apply wp_bind, wp_malloc; [unfold io_blk_sz; lia|]. intros buf Hbuf.
  apply wp_bind. eapply wp_export_loop; try done; [by eapply chain_fuel_enough|simpl; lia|].
  wp_simpl. simpl (_ ++ _). rewrite Hnr, Z.eqb_refl. cbn [negb]. by apply wp_ret.
Qed.

(** [resolve_file_data_block] is indexing into that list. *)
Lemma wp_resolve inum nodes ptrs i b Q a :
  let inode := inode_at cx (a_disk a) inum in
  disk_ok cx nblk (a_disk a) -> 0 <= inum < inode_num sb ->
  chain cx nblk (a_disk a) (i_data_head inode) nodes ptrs -> NoDup nodes -> i_nr_blocks inode = blen ptrs ->
  0 <= i -> ptrs !! Z.to_nat i = Some b -> Q (Ok b) a ->
  wp cx nblk (resolve_file_data_block cx inum i) Q a.
Proof.
  intros inode Hd Hinum Hc Hnd Hnr Hi Hb HQ. unfold resolve_file_data_block. pose proof drs_pos.
  rewrite (proj2 (Z.ltb_ge _ _)) by lia. apply wp_bind, (wp_read_inode cx nblk Hvol); [done|done|]. wp_simpl. fold inode.
  pose proof (lookup_lt_Some _ _ _ Hb) as Hlt. rewrite (proj2 (Z.leb_gt _ _)) by lia.
  assert (Hh : i_data_head inode <> 0).
  { destruct nodes as [|n ns]; [destruct Hc as [_ ->]; simpl in *; lia|]. destruct Hc as (-> & ? & _). lia. }
  rewrite (proj2 (Z.eqb_neq _ _) Hh). pose proof (bs_range cx nblk Hvol).
  apply wp_bind, wp_malloc; [unfold io_blk_sz; lia|]. intros buf Hbuf.
  eapply wp_resolve_loop; try done. by eapply chain_fuel_enough.
Qed.

Lemma wp_resolve_beyond inum (ptrs : list Z) i Q a :
  let inode := inode_at cx (a_disk a) inum in
  disk_ok cx nblk (a_disk a) -> 0 <= inum < inode_num sb -> i_nr_blocks inode = blen ptrs ->
  0 <= i -> ptrs !! Z.to_nat i = None -> Q (Err MOFS_EINVAL) a ->
  wp cx nblk (resolve_file_data_block cx inum i) Q a.
Proof.
  intros inode Hd Hn Hnr Hi Hnone HQ. unfold resolve_file_data_block. rewrite (proj2 (Z.ltb_ge _ _)) by lia.
  apply wp_bind, (wp_read_inode cx nblk Hvol); [done|done|]. wp_simpl. fold inode.
  apply lookup_ge_None in Hnone. rewrite (proj2 (Z.leb_le _ _)) by lia. exact HQ.
Qed.

(** *** Data bitmap *)

Definition put_data_bits (d : disk) (l : list Z) (u : bool) : disk := foldl (fun d i => put_data_bit cx d i u) d l.

Abbreviation in_data i := (0 <= i < data_blk_num (sp_blk cx)).

Lemma data_blk_vol i : in_data i -> 0 <= data_bitmap_start sb + i / (bs * 8) < nblk.
Proof. intros Hi. pose proof (data_bitmap_blk cx nblk Hvol i Hi). destruct Hvol. lia. Qed.

Lemma disk_ok_put_data_bit d i u : disk_ok cx nblk d -> in_data i -> disk_ok cx nblk (put_data_bit cx d i u).
Proof. intros Hd Hi. apply disk_ok_put_bitmap_bit; [done|by apply data_blk_vol]. Qed.

Lemma disk_ok_put_data_bits l u : forall d, disk_ok cx nblk d -> Forall (fun i => in_data i) l ->
  disk_ok cx nblk (put_data_bits d l u).
Proof.
  induction l as [|i l IH]; intros d Hd Hl; [done|]. inversion_clear Hl.
  apply IH; [by apply disk_ok_put_data_bit|done].
Qed.

Lemma wp_set_data_bit i u Q a :
  disk_ok cx nblk (a_disk a) -> in_data i -> Q (Ok tt) (set_disk (put_data_bit cx (a_disk a) i u) a) ->
  wp cx nblk (set_data_bitmap_bit cx i u) Q a.
Proof.
  intros Hd Hi HQ. unfold set_data_bitmap_bit. rewrite (proj2 (Z.leb_gt _ _)) by lia.
  apply (wp_set_bitmap_bit cx nblk Hvol); [done|by apply data_blk_vol|done].
Qed.

Lemma wp_update_data_bits l u : forall Q a,
  disk_ok cx nblk (a_disk a) -> Forall (fun i => in_data i) l ->
  Q (Ok tt) (set_disk (put_data_bits (a_disk a) l u) a) ->
  wp cx nblk (update_data_bitmap_bits cx l u) Q a.
Proof.
  induction l as [|i l IH]; intros Q a Hd Hl HQ; cbn [update_data_bitmap_bits].
  { apply wp_ret. by destruct a. }
  inversion_clear Hl as [|? ? Hi Hl']. apply wp_bind, wp_ignore, wp_set_data_bit; [done|done|]. wp_simpl.
  apply IH; [by apply disk_ok_put_data_bit|done|exact HQ].
Qed.

Lemma wp_mark_used todo : forall done_ Q a,
  disk_ok cx nblk (a_disk a) -> Forall (fun i => in_data i) todo ->
  Q (Ok tt) (set_disk (put_data_bits (a_disk a) todo true) a) ->
  wp cx nblk (mark_used cx done_ todo) Q a.
Proof.
  induction todo as [|i l IH]; intros done_ Q a Hd Hl HQ; cbn [mark_used].
  { apply wp_ret. by destruct a. }
  inversion_clear Hl as [|? ? Hi Hl']. apply wp_bind, wp_on_error, wp_set_data_bit; [done|done|]. wp_simpl.
  apply IH; [by apply disk_ok_put_data_bit|done|exact HQ].
Qed.

Lemma data_bit_put d i j u : disk_ok cx nblk d -> in_data i -> 0 <= j ->
  data_bit cx (put_data_bit cx d i u) j = if j =? i then u else data_bit cx d j.
Proof.
  intros Hd Hi Hj. apply (bitmap_bit_put cx nblk Hvol); [done|by apply data_blk_vol|lia|done].
Qed.

Lemma data_bit_put_bits l u : forall d j, disk_ok cx nblk d -> Forall (fun i => in_data i) l -> 0 <= j ->
  data_bit cx (put_data_bits d l u) j = if bool_decide (j ∈ l) then u else data_bit cx d j.
Proof.
  induction l as [|i l IH]; intros d j Hd Hl Hj; [done|]. inversion_clear Hl as [|? ? Hi Hl'].
  change (put_data_bits d (i :: l) u) with (put_data_bits (put_data_bit cx d i u) l u).
  rewrite IH by (try done; by apply disk_ok_put_data_bit).
  rewrite data_bit_put by done. destruct (Z.eqb_spec j i) as [->|Hne].
  - rewrite (bool_decide_eq_true_2 (i ∈ i :: l)) by (left). by case_bool_decide.
  - rewrite (bool_decide_ext (j ∈ i :: l) (j ∈ l)); [done|]. rewrite elem_of_cons. split; [intros [|]; done|by right].
Qed.

(** Blocks outside the data bitmap keep their contents. *)
Lemma put_data_bits_other l u : forall d b, Forall (fun i => in_data i) l ->
  ~ (data_bitmap_start sb <= b < inode_table_start sb) -> put_data_bits d l u b = d b.
Proof.
  induction l as [|i l IH]; intros d b Hl Hb; [done|]. inversion_clear Hl as [|? ? Hi Hl'].
  change (put_data_bits d (i :: l) u) with (put_data_bits (put_data_bit cx d i u) l u).
  rewrite IH by done. unfold put_data_bit, put_bitmap_bit. pose proof (data_bitmap_blk cx nblk Hvol i Hi).
  apply upd_ne. lia.
Qed.

(** *** Writing the nodes of a list *)

Definition head_abs (idxs : list Z) : Z := match idxs with [] => 0 | i :: _ => drs + i end.

Fixpoint put_nodes (d : disk) (idxs rest : list Z) : disk :=
  match idxs with
  | [] => d
  | i :: r =>
      let nr := Z.to_nat (Z.min (blen rest) (list_ptrs_cap cx)) in
      put_nodes (upd d (drs + i) (list_node_buf bs (head_abs r) (take nr rest))) r (drop nr rest)
  end.

Lemma data_abs_small i : in_data i -> u32 (drs + i) = drs + i /\ drs <= drs + i < nblk.
Proof. intros Hi. pose proof drs_pos. destruct Hvol. split; [apply u32_small; lia|lia]. Qed.

Lemma head_abs_small idxs : Forall (fun i => in_data i) idxs ->
  match idxs with [] => 0 | j :: _ => u32 (drs + j) end = head_abs idxs /\ 0 <= head_abs idxs < 2 ^ 32.
Proof.
  intros [|j l Hj _]; simpl; [lia|]. destruct (data_abs_small j Hj) as [-> ?]. pose proof drs_pos. pose proof (vo_max _ _ Hvol). lia.
Qed.

Lemma take_cap_len (rest : list Z) :
  8 + 4 * blen (take (Z.to_nat (Z.min (blen rest) (list_ptrs_cap cx))) rest) <= bs.
Proof. pose proof cap_pos. rewrite length_take. lia. Qed.

Lemma disk_ok_put_nodes idxs : forall d rest, disk_ok cx nblk d -> disk_ok cx nblk (put_nodes d idxs rest).
Proof.
  induction idxs as [|i r IH]; intros d rest Hd; [done|]. cbn [put_nodes]. apply IH.
  apply disk_ok_upd; [done|]. apply length_list_node_buf, take_cap_len.
Qed.

Lemma wp_write_nodes all idxs : forall rest Q a,
  disk_ok cx nblk (a_disk a) -> Forall (fun i => in_data i) idxs ->
  Q (Ok tt) (set_disk (put_nodes (a_disk a) idxs rest) a) ->
  wp cx nblk (write_nodes cx all idxs rest) Q a.
Proof.
  induction idxs as [|i r IH]; intros rest Q a Hd Hl HQ; cbn [write_nodes].
  { apply wp_ret. by destruct a. }
  inversion_clear Hl as [|? ? Hi Hl']. destruct (data_abs_small i Hi) as [-> Hr].
  destruct (head_abs_small r Hl') as [-> _]. pose proof drs_pos.
  apply wp_bind, wp_on_error, (wp_write_full cx nblk Hvol); [lia|apply length_list_node_buf, take_cap_len|].
  wp_simpl. apply IH; [|done|exact HQ].
  apply disk_ok_upd; [done|]. apply length_list_node_buf, take_cap_len.
Qed.

Lemma put_nodes_other idxs : forall d rest b, b ∉ (Z.add drs <$> idxs) -> put_nodes d idxs rest b = d b.
Proof.
  induction idxs as [|i r IH]; intros d rest b Hb; [done|]. cbn [put_nodes]. rewrite fmap_cons in Hb.
  apply not_elem_of_cons in Hb as [Hne Hb]. rewrite IH by done. by apply upd_ne.
Qed.

Lemma ceil_div_step x c : 0 < c -> 0 < x -> ceil_div (x - Z.min x c) c = ceil_div x c - 1.
Proof.
  intros Hc Hx. unfold ceil_div. replace (x + c - 1) with (x - 1 + 1 * c) by lia. rewrite Z.div_add by lia.
  destruct (Z.min_spec x c) as [[? E]|[? E]]; rewrite E.
  - rewrite !Z.div_small; lia.
  - replace (x - c + c - 1) with (x - 1) by lia. lia.
Qed.

(** The freshly written nodes form a chain that holds exactly the pointers. *)
Lemma chain_put_nodes idxs : forall d rest,
  NoDup idxs -> Forall (fun i => in_data i) idxs -> Forall (fun p => 0 <= p < 2 ^ 32) rest ->
  blen idxs = ceil_div (blen rest) (list_ptrs_cap cx) ->
  chain cx nblk (put_nodes d idxs rest) (head_abs idxs) (Z.add drs <$> idxs) rest.
Proof.
  pose proof cap_pos as (Hc & Hcb & Hc14).
  induction idxs as [|i r IH]; intros d rest Hnd Hl Hp Hlen.
  { pose proof (ceil_div_spec (blen rest) _ Hc). simpl in Hlen. split; [done|]. destruct rest; [done|simpl in *; nia]. }
  apply NoDup_cons in Hnd as [Hni Hnd]. inversion_clear Hl as [|? ? Hi Hl'].
  destruct (data_abs_small i Hi) as [_ Hr]. destruct (head_abs_small r Hl') as [_ Hh].
  cbn [put_nodes head_abs fmap list_fmap chain]. set (nr := Z.to_nat (Z.min (blen rest) (list_ptrs_cap cx))).
  assert (Hpos : 0 < blen rest).
  { pose proof (ceil_div_spec (blen rest) _ Hc). simpl in Hlen. nia. }
  assert (En : put_nodes (upd d (drs + i) (list_node_buf bs (head_abs r) (take nr rest))) r (drop nr rest) (drs + i) =
     list_node_buf bs (head_abs r) (take nr rest)).
  { rewrite put_nodes_other, upd_eq; [done|]. intros Hin. apply list_elem_of_fmap in Hin as (j & Hj & Hjr).
    assert (i = j) by lia. by subst. }
  assert (Hlt : blen (take nr rest) <= list_ptrs_cap cx) by (rewrite length_take; lia).
  unfold node_ptrs. rewrite En, node_nr_buf, node_next_buf, Nat2Z.id, list_ptrs_buf by (try lia; by apply Forall_take).
  split_and!; try done; try lia. exists (drop nr rest). split; [by rewrite take_drop|].
  apply IH; [done|done|by apply Forall_drop|]. rewrite length_drop. simpl in Hlen.
  replace (Z.of_nat (length rest - nr)) with (blen rest - Z.min (blen rest) (list_ptrs_cap cx)) by lia.
  rewrite ceil_div_step by lia. lia.
Qed.

(** *** Free blocks *)

Lemma filter_filter_and {A} (f g : A -> bool) l : List.filter g (List.filter f l) = List.filter (fun x => f x && g x) l.
Proof. induction l as [|x l IH]; [done|]. simpl. destruct (f x); simpl; rewrite IH; done. Qed.

(** The free data blocks of a disk, in increasing order. *)
Definition free_data (d : disk) : list Z :=
  allocatable cx (data_blk_num sb) 0 (data_bitmap_start sb) d 0 (data_blk_num sb).

Lemma free_data_ext d d' : (forall j, in_data j -> data_bit cx d' j = data_bit cx d j) -> free_data d' = free_data d.
Proof.
  intros H. unfold free_data, allocatable. apply List.filter_ext_in. intros j Hj. apply list_elem_of_In, elem_of_seqZ in Hj.
  unfold can_alloc. unfold data_bit in H. by rewrite H by lia.
Qed.

Lemma elem_of_free_data d i : i ∈ free_data d <-> in_data i /\ data_bit cx d i = false.
Proof.
  unfold free_data. rewrite list_elem_of_In, allocatable_spec. unfold can_alloc.
  rewrite !andb_true_iff, Z.leb_le, Z.ltb_lt, negb_true_iff. unfold data_bit. intuition lia.
Qed.

Lemma NoDup_free_data d : NoDup (free_data d).
Proof. apply allocatable_NoDup. Qed.

Lemma take_free_range n d : Forall (fun i => in_data i) (take n (free_data d)).
Proof. apply Forall_take, Forall_forall. intros i Hi. by apply elem_of_free_data in Hi as [? _]. Qed.

Lemma wp_find_free_data need Q a :
  0 <= need -> disk_ok cx nblk (a_disk a) ->
  (blen (free_data (a_disk a)) < need -> Q (Err MOFS_ENOSPC) a) ->
  (need <= blen (free_data (a_disk a)) -> Q (Ok (take (Z.to_nat need) (free_data (a_disk a)))) a) ->
  wp cx nblk (find_free_data_block_indices cx need) Q a.
Proof.
  intros Hn Hd Herr Hok. unfold find_free_data_block_indices. pose proof Hvol as [].
  assert (Hu : u32 (inode_table_start sb - data_bitmap_start sb) = inode_table_start sb - data_bitmap_start sb) by (apply u32_small; lia).
  rewrite Hu. apply (wp_find_free_indices cx nblk Hvol) with (d := a_disk a); try done; lia.
Qed.

(** Marking the first free blocks used leaves the others free. *)
Lemma free_data_mark d k :
  disk_ok cx nblk d -> free_data (put_data_bits d (take k (free_data d)) true) = drop k (free_data d).
Proof.
  intros Hd. set (F := free_data d). pose proof (NoDup_free_data d) as Hnd. fold F in Hnd.
  transitivity (List.filter (fun i => negb (bool_decide (i ∈ take k F))) F).
  - unfold free_data at 1, F, free_data, allocatable. rewrite filter_filter_and.
    apply List.filter_ext_in. intros i Hi. apply list_elem_of_In, elem_of_seqZ in Hi.
    unfold can_alloc. fold (data_bit cx). change (bitmap_bit cx (data_bitmap_start sb)) with (data_bit cx).
    rewrite data_bit_put_bits by first [done|apply take_free_range|lia].
    fold (allocatable cx (data_blk_num sb) 0 (data_bitmap_start sb) d 0 (data_blk_num sb)).
    fold (free_data d). case_bool_decide; simpl; rewrite ?andb_false_r, ?andb_true_r; done.
  - rewrite <- (take_drop k F) in Hnd at 1. apply NoDup_app in Hnd as (_ & Hdis & _).
    transitivity (List.filter (fun i => negb (bool_decide (i ∈ take k F))) (take k F ++ drop k F)); [by rewrite take_drop|].
    rewrite List.filter_app.
    assert (E1 : forall l, (forall i, i ∈ l -> i ∈ take k F) -> List.filter (fun i => negb (bool_decide (i ∈ take k F))) l = []).
    { induction l as [|x l IH]; intros Hl; [done|]. simpl. rewrite bool_decide_eq_true_2 by (apply Hl; left). simpl.
      apply IH. intros i Hi. apply Hl. by right. }
    assert (E2 : forall l, (forall i, i ∈ l -> i ∉ take k F) -> List.filter (fun i => negb (bool_decide (i ∈ take k F))) l = l).
    { induction l as [|x l IH]; intros Hl; [done|]. simpl. rewrite bool_decide_eq_false_2 by (apply Hl; left). simpl.
      f_equal. apply IH. intros i Hi. apply Hl. by right. }
    rewrite E1, E2; [done| |done]. intros i Hi Hit. by apply (Hdis i).
Qed.

(** *** Releasing blocks *)

(** [d'] is [d] after the blocks [l] were released: their bits are clear,
    their contents are arbitrary, everything else is as before. *)
Record released (d d' : disk) (l : list Z) : Prop := {
  rel_ok : disk_ok cx nblk d';
  rel_same : forall b, 0 <= b < nblk -> ~ (data_bitmap_start sb <= b < inode_table_start sb) -> b ∉ l -> d' b = d b;
  rel_bits : forall j, in_data j -> data_bit cx d' j = if bool_decide (drs + j ∈ l) then false else data_bit cx d j
}.

Lemma released_nil d : disk_ok cx nblk d -> released d d [].
Proof. intros Hd. split; [done|done|]. intros j Hj. by rewrite bool_decide_eq_false_2 by apply not_elem_of_nil. Qed.

(** One block: clear its bit, forget its contents. *)
Lemma released_one d b x : disk_ok cx nblk d -> drs <= b < nblk -> blen x = bs ->
  released d (upd (put_data_bit cx d (b - drs) false) b x) [b].
Proof.
  intros Hd Hb Hx. assert (Hi : in_data (b - drs)) by (destruct Hvol; lia).
  assert (Hd1 : disk_ok cx nblk (put_data_bit cx d (b - drs) false)) by (by apply disk_ok_put_data_bit).
  split.
  - by apply disk_ok_upd.
  - intros c Hc Hm Hn. apply not_elem_of_cons in Hn as [Hne _]. rewrite upd_ne by done.
    apply (put_data_bits_other [b - drs] false d c); [by constructor|done].
  - intros j Hj. rewrite (data_bit_upd cx nblk Hvol) by (try done; destruct Hvol; lia).
    rewrite data_bit_put by (try done; lia). destruct (Z.eqb_spec j (b - drs)) as [->|Hne].
    + rewrite bool_decide_eq_true_2; [done|]. apply list_elem_of_singleton. lia.
    + rewrite bool_decide_eq_false_2; [done|]. rewrite list_elem_of_singleton. lia.
Qed.

Lemma released_trans d d1 d2 l m : released d d1 l -> released d1 d2 m -> released d d2 (l ++ m).
Proof.
  intros [H1 H2 H3] [K1 K2 K3]. split; [done| |].
  - intros b Hb Hm Hn. rewrite elem_of_app in Hn. rewrite K2, H2; try done; tauto.
  - intros j Hj. rewrite K3, H3 by done. rewrite (bool_decide_ext (drs + j ∈ l ++ m) (drs + j ∈ l \/ drs + j ∈ m)) by apply elem_of_app.
    repeat case_bool_decide; try done; tauto.
Qed.

Lemma wp_release_one b (k : prog unit) Q a :
  disk_ok cx nblk (a_disk a) -> drs <= b < nblk ->
  (forall d', released (a_disk a) d' [b] -> wp cx nblk k Q (set_disk d' a)) ->
  wp cx nblk (data_idx ← abs_to_data_idx cx b; set_data_bitmap_bit cx data_idx false;; ignore (call (OpInvalidate b));; k) Q a.
Proof.
  intros Hd Hb Hk. assert (Hi : in_data (b - drs)) by (destruct Hvol; lia). pose proof drs_pos.
  unfold abs_to_data_idx. rewrite (proj2 (Z.ltb_ge _ _)), (proj2 (Z.leb_gt _ _)) by lia.
  apply wp_bind, wp_ret, wp_bind, wp_set_data_bit; [done|done|]. wp_simpl.
  apply wp_bind, wp_ignore, wp_call. cbn [op_wp]. split; [lia|]. intros x Hx. wp_simpl.
  apply Hk. by apply released_one.
Qed.

Lemma wp_release_blocks l : forall Q a,
  disk_ok cx nblk (a_disk a) -> Forall (fun b => drs <= b < nblk) l ->
  (forall d', released (a_disk a) d' l -> Q (Ok tt) (set_disk d' a)) ->
  wp cx nblk (release_blocks cx l) Q a.
Proof.
  induction l as [|b l IH]; intros Q a Hd Hl HQ; cbn [release_blocks].
  { apply wp_ret. specialize (HQ (a_disk a) (released_nil _ Hd)). by destruct a. }
  inversion_clear Hl as [|? ? Hb Hl']. apply wp_release_one; [done|done|]. intros d1 H1.
  apply IH; [apply H1|done|]. intros d2 H2. apply HQ. by apply (released_trans _ d1 _ [b]).
Qed.

Lemma wp_free_list_loop nodes : forall fuel h ptrs buf Q a,
  disk_ok cx nblk (a_disk a) -> chain cx nblk (a_disk a) h nodes ptrs -> NoDup nodes -> (length nodes < fuel)%nat ->
  blen buf = bs -> (forall d', released (a_disk a) d' nodes -> Q (Ok tt) (set_disk d' a)) ->
  wp cx nblk (free_list_loop cx fuel h buf) Q a.
Proof.
  pose proof drs_pos as Hpos.
  induction nodes as [|n ns IH]; intros [|fuel] h ptrs buf Q a Hd Hc Hnd Hf Hbuf HQ; simpl in Hf; try lia; cbn [free_list_loop].
  { destruct Hc as [-> ->]. apply wp_ret. specialize (HQ (a_disk a) (released_nil _ Hd)). by destruct a. }
  destruct Hc as (-> & Hr & Hcap & ps & -> & Hc). apply NoDup_cons in Hnd as [Hni Hnd].
  rewrite (proj2 (Z.eqb_neq n 0)) by lia.
  apply wp_bind, (wp_read_full cx nblk Hvol); [done|lia|done|]. wp_simpl.
  apply wp_release_one; [done|done|]. intros d1 H1. apply IH with ps; try done; [apply H1| |lia|by apply Hd; lia|].
  - eapply chain_ext; [exact Hc|]. intros m Hm. pose proof (chain_nodes_range _ _ _ _ _ _ Hc) as Hrs.
    rewrite Forall_forall in Hrs. apply Hrs in Hm as Hmr. apply (rel_same _ _ _ H1); [lia|destruct Hvol; lia|].
    rewrite list_elem_of_singleton. intros ->. done.
  - intros d2 H2. apply HQ. by apply (released_trans _ d1 _ [n]).
Qed.

Lemma wp_free_list_chain h nodes ptrs Q a :
  disk_ok cx nblk (a_disk a) -> chain cx nblk (a_disk a) h nodes ptrs -> NoDup nodes ->
  (forall d', released (a_disk a) d' nodes -> Q (Ok tt) (set_disk d' a)) ->
  wp cx nblk (free_list_chain cx h) Q a.
Proof.
  intros Hd Hc Hnd HQ. unfold free_list_chain. pose proof (bs_range cx nblk Hvol).
  destruct (Z.eqb_spec h 0) as [->|Hne].
  { apply wp_ret. destruct nodes as [|n ns].
    - specialize (HQ (a_disk a) (released_nil _ Hd)). by destruct a.
    - destruct Hc as (<- & ? & _). pose proof drs_pos. lia. }
  apply wp_bind, wp_malloc; [unfold io_blk_sz; lia|]. intros buf Hbuf.
  eapply wp_free_list_loop; try done. by eapply chain_fuel_enough.
Qed.

End blockspec.
