(* ===== verification/AllocSpec.v ===== *)
(** * Growing and shrinking files

    [file_map d inum nodes ptrs]: on the logical disk [d], the data of file
    [inum] is in the blocks [ptrs], listed by the nodes [nodes].  The theorems
    of this file show what [allocate_data_block] and [free_data_block] make of
    it, that they leave every other file alone, and when they fail. *)

From Stdlib Require Import ZArith Lia.
From stdpp Require Import base list list_numbers.
From S2P Require Import Prelude Types Platform Raw Buffer BufferSpec Ops Bitmap Inode Block Volume BlockSpec.

Section alloc.
Context (cx : mofs_ctx_t) (nblk : Z) (Hvol : vol_ok cx nblk).
Abbreviation sb := (sp_blk cx).
Abbreviation bs := (blk_size (sp_blk cx)).
Abbreviation drs := (data_region_start (sp_blk cx)).
Abbreviation in_data i := (0 <= i < data_blk_num (sp_blk cx)).
Abbreviation cap := (list_ptrs_cap cx).
Abbreviation free_data := (free_data cx).
Abbreviation is_inode n := (0 <= n < inode_num (sp_blk cx)).

(** ** Mapping of a file *)

Record file_map (d : disk) (inum : Z) (nodes ptrs : list Z) : Prop := {
  fm_chain : chain cx nblk d (i_data_head (inode_at cx d inum)) nodes ptrs;
  fm_nr : i_nr_blocks (inode_at cx d inum) = blen ptrs;
  fm_nodup : NoDup (nodes ++ ptrs);
  fm_range : Forall (fun b => drs <= b < nblk) ptrs;
  fm_used : forall b, b ∈ nodes ++ ptrs -> data_bit cx d (b - drs) = true;
  fm_max : blen ptrs <= MOFS_MAX_FILE_DATA_BLOCKS
}.

Lemma fm_nodes_nodup d inum nodes ptrs : file_map d inum nodes ptrs -> NoDup nodes.
Proof. intros H. pose proof (fm_nodup _ _ _ _ H) as Hn. apply NoDup_app in Hn. tauto. Qed.

Lemma fm_nodes_range d inum nodes ptrs : file_map d inum nodes ptrs -> Forall (fun b => drs <= b < nblk) nodes.
Proof. intros H. eapply chain_nodes_range, (fm_chain _ _ _ _ H). Qed.

(** The mapping depends on two fields of the inode, the nodes and the bits of its blocks. *)
Lemma file_map_ext_head d d' inum nodes ptrs :
  file_map d inum nodes ptrs -> i_data_head (inode_at cx d' inum) = i_data_head (inode_at cx d inum) ->
  i_nr_blocks (inode_at cx d' inum) = i_nr_blocks (inode_at cx d inum) ->
  (forall b, b ∈ nodes -> d' b = d b) -> (forall b, b ∈ nodes ++ ptrs -> data_bit cx d' (b - drs) = true) ->
  file_map d' inum nodes ptrs.
Proof.
  intros [H1 H2 H3 H4 H5 H6] Hh Hr Hn Hb. split; rewrite ?Hh, ?Hr; try done. by eapply chain_ext.
Qed.

Lemma file_map_ext d d' inum nodes ptrs :
  file_map d inum nodes ptrs -> inode_at cx d' inum = inode_at cx d inum ->
  (forall b, b ∈ nodes -> d' b = d b) -> (forall b, b ∈ nodes ++ ptrs -> data_bit cx d' (b - drs) = true) ->
  file_map d' inum nodes ptrs.
Proof. intros Hm Hi. apply file_map_ext_head; [done|by rewrite Hi|by rewrite Hi]. Qed.

(** ** Rebuilding *)

Lemma list_nodes_count n : 0 <= n <= MOFS_MAX_FILE_DATA_BLOCKS -> list_nodes_for_block_count cx n = ceil_div n cap.
Proof.
  intros Hn. pose proof (cap_pos cx nblk Hvol) as (Hc & _ & Hc14). unfold list_nodes_for_block_count, MOFS_MAX_FILE_DATA_BLOCKS in *.
  destruct (Z.eqb_spec n 0) as [->|Hne]; [unfold ceil_div; rewrite Z.div_small; lia|].
  rewrite (proj2 (Z.eqb_neq _ _)) by lia. rewrite u32_small by lia. done.
Qed.

(** The nodes that [rebuild_data_block_list] takes for [n] pointers. *)
Definition new_nodes (d : disk) (n : Z) : list Z := take (Z.to_nat (ceil_div n cap)) (free_data d).

Lemma new_nodes_len d n : 0 <= ceil_div n cap -> blen (new_nodes d n) <= ceil_div n cap.
Proof. intros H. unfold new_nodes. rewrite length_take. lia. Qed.

Lemma ceil_cap_range n : 0 <= n <= MOFS_MAX_FILE_DATA_BLOCKS -> 0 <= ceil_div n cap <= n /\ (0 < n -> 0 < ceil_div n cap).
Proof.
  intros Hn. pose proof (cap_pos cx nblk Hvol) as (Hc & _). pose proof (ceil_div_spec n cap Hc). nia.
Qed.

Lemma wp_rebuild inode l Q a :
  disk_ok cx nblk (a_disk a) -> blen l <= MOFS_MAX_FILE_DATA_BLOCKS ->
  (blen (free_data (a_disk a)) < ceil_div (blen l) cap -> Q (Err MOFS_ENOSPC) a) ->
  (ceil_div (blen l) cap <= blen (free_data (a_disk a)) ->
   let idx := new_nodes (a_disk a) (blen l) in
   Q (Ok (set_i_map (head_abs cx idx) (blen l) inode, i_data_head inode))
     (set_disk (put_nodes cx (put_data_bits cx (a_disk a) idx true) idx l) a)) ->
  wp cx nblk (rebuild_data_block_list cx inode l) Q a.
Proof.
  intros Hd Hl Herr Hok. pose proof (cap_pos cx nblk Hvol) as (Hc & _). pose proof (bs_range cx nblk Hvol).
  unfold rebuild_data_block_list. rewrite list_nodes_count by lia.
  pose proof (ceil_cap_range (blen l) ltac:(lia)) as [Hr Hp].
  destruct (Z.eqb_spec (blen l) 0) as [H0|H0].
  { apply wp_ret. destruct l; [|simpl in H0; lia]. unfold new_nodes in Hok. change (blen (@nil Z)) with 0 in Hok.
    assert (Hz : ceil_div 0 cap = 0) by (unfold ceil_div; apply Z.div_small; lia).
    rewrite Hz in Hok. specialize (Hok ltac:(lia)). by destruct a. }
  rewrite (proj2 (Z.eqb_neq _ _)) by lia.
  apply wp_bind, wp_malloc; [unfold u32; apply Z.mod_pos_bound; lia|]. intros ? _. wp_simpl.
  apply wp_bind, (wp_find_free_data cx nblk Hvol); [lia|done|exact Herr|]. intros Hge. specialize (Hok Hge).
  fold (new_nodes (a_disk a) (blen l)). set (idx := new_nodes (a_disk a) (blen l)) in *. wp_simpl.
  assert (Hidx : Forall (fun i => in_data i) idx) by apply take_free_range.
  apply wp_bind, (wp_mark_used cx nblk Hvol); [done|done|]. wp_simpl.
  apply wp_bind, wp_on_error, wp_malloc; [unfold io_blk_sz; lia|]. intros buf Hbuf. wp_simpl.
  apply wp_bind, (wp_write_nodes cx nblk Hvol); [by apply (disk_ok_put_data_bits cx nblk Hvol)|done|]. wp_simpl.
  apply wp_ret. destruct (head_abs_small cx nblk Hvol idx Hidx) as [Hh _].
  replace (u32 (drs + default 0 (head idx))) with (head_abs cx idx); [exact Hok|].
  destruct idx as [|i r] eqn:Ei; [|done]. exfalso.
  assert (Hz : blen idx = ceil_div (blen l) cap) by (unfold idx, new_nodes; rewrite length_take; lia).
  rewrite Ei in Hz. simpl in Hz. lia.
Qed.

(** Writing nodes and the inode does not touch the bitmap. *)
Lemma data_bit_put_nodes ks d rest j : Forall (fun i => in_data i) ks -> in_data j ->
  data_bit cx (put_nodes cx d ks rest) j = data_bit cx d j.
Proof.
  revert d rest. induction ks as [|i ks IH]; intros d rest His Hj; [done|]. inversion_clear His as [|? ? Hi His'].
  cbn [put_nodes]. rewrite IH by done. apply (data_bit_upd cx nblk Hvol); [done|]. destruct Hvol. lia.
Qed.

Lemma inode_at_put_nodes ks d rest n : Forall (fun i => in_data i) ks -> is_inode n ->
  inode_at cx (put_nodes cx d ks rest) n = inode_at cx d n.
Proof.
  revert d rest. induction ks as [|i ks IH]; intros d rest His Hn; [done|]. inversion_clear His as [|? ? Hi His'].
  cbn [put_nodes]. rewrite IH by done. apply (inode_at_upd cx nblk Hvol); [done|]. destruct Hvol. lia.
Qed.

Lemma inode_at_put_data_bits ks d u n : Forall (fun i => in_data i) ks -> is_inode n ->
  inode_at cx (put_data_bits cx d ks u) n = inode_at cx d n.
Proof.
  intros His Hn. unfold inode_at. rewrite (put_data_bits_other cx nblk Hvol); [done|done|].
  pose proof (tbl_blk_range cx nblk Hvol n Hn). lia.
Qed.

(** The disk once the inode points to the rebuilt list, step by step. *)
Section rebuilt.
Context (e : disk) (inum : Z) (inode' : mofs_inode_t) (l : list Z).
Hypothesis (He : disk_ok cx nblk e) (Hinum : is_inode inum) (Hfit : inode_fits inode').
Hypothesis (Hl : Forall (fun p => 0 <= p < 2 ^ 32) l) (Hmax : blen l <= MOFS_MAX_FILE_DATA_BLOCKS).
Hypothesis (Hspace : ceil_div (blen l) cap <= blen (free_data e)).
Let idx := new_nodes e (blen l).
Let r := put_inode cx (put_nodes cx (put_data_bits cx e idx true) idx l) inum inode'.

Lemma idx_range : Forall (fun i => in_data i) idx.
Proof. apply take_free_range. Qed.

Lemma idx_nodup : NoDup idx.
Proof. unfold idx, new_nodes. eapply (sublist_NoDup _ (free_data e)); [apply NoDup_free_data|]. apply sublist_take. Qed.

Lemma idx_free i : i ∈ idx -> data_bit cx e i = false.
Proof. intros Hi. unfold idx, new_nodes in Hi. apply elem_of_take in Hi as (k & Hi & _).
  apply list_elem_of_lookup_2 in Hi. by apply elem_of_free_data in Hi as [_ ?]. Qed.

Lemma rebuilt_ok : disk_ok cx nblk r.
Proof.
  apply (disk_ok_put_inode cx nblk Hvol); [|done|by apply fits_reserved].
  apply (disk_ok_put_nodes cx nblk Hvol), (disk_ok_put_data_bits cx nblk Hvol); [done|apply idx_range].
Qed.

Lemma rebuilt_data b : drs <= b < nblk -> b ∉ (Z.add drs <$> idx) -> r b = e b.
Proof.
  intros Hb Hn. unfold r, put_inode. pose proof (tbl_blk_range cx nblk Hvol inum Hinum).
  rewrite upd_ne by lia. rewrite (put_nodes_other cx) by done.
  apply (put_data_bits_other cx nblk Hvol); [apply idx_range|destruct Hvol; lia].
Qed.

Lemma node_abs_ge b : b ∈ (Z.add drs <$> idx) -> drs <= b < nblk.
Proof using Hvol.
  intros Hb. apply list_elem_of_fmap in Hb as (i & -> & Hi). pose proof idx_range as Hr. rewrite Forall_forall in Hr.
  apply Hr in Hi. clear - Hvol Hi. destruct Hvol. lia.
Qed.

Lemma rebuilt_low b : 0 <= b < data_bitmap_start sb -> r b = e b.
Proof.
  intros Hb. unfold r, put_inode. pose proof (tbl_blk_range cx nblk Hvol inum Hinum). destruct Hvol.
  rewrite upd_ne by lia. rewrite (put_nodes_other cx).
  - apply (put_data_bits_other cx nblk Hvol); [apply idx_range|lia].
  - intros Hin. apply node_abs_ge in Hin. lia.
Qed.

Lemma rebuilt_bits j : in_data j -> data_bit cx r j = bool_decide (j ∈ idx) || data_bit cx e j.
Proof.
  intros Hj. unfold r, put_inode. pose proof (tbl_blk_range cx nblk Hvol inum Hinum).
  rewrite (data_bit_upd cx nblk Hvol) by (try done; lia).
  rewrite data_bit_put_nodes by (try done; apply idx_range).
  rewrite (data_bit_put_bits cx nblk Hvol) by first [done|apply idx_range|lia].
  by case_bool_decide.
Qed.

Lemma rebuilt_inode m : is_inode m -> inode_at cx r m = if m =? inum then inode' else inode_at cx e m.
Proof.
  intros Hm. unfold r. rewrite (inode_at_put cx nblk Hvol); try done.
  - rewrite inode_at_put_nodes, inode_at_put_data_bits by (try done; apply idx_range). done.
  - apply (disk_ok_put_nodes cx nblk Hvol), (disk_ok_put_data_bits cx nblk Hvol); [done|apply idx_range].
Qed.

Lemma rebuilt_chain : chain cx nblk r (head_abs cx idx) (Z.add drs <$> idx) l.
Proof.
  pose proof (ceil_cap_range (blen l) ltac:(lia)) as [Hr _].
  eapply chain_ext; [apply (chain_put_nodes cx nblk Hvol idx (put_data_bits cx e idx true) l)|]; try done.
  - apply idx_nodup.
  - apply idx_range.
  - unfold idx, new_nodes. rewrite length_take. lia.
  - intros n Hn. apply node_abs_ge in Hn. unfold r, put_inode.
    pose proof (tbl_blk_range cx nblk Hvol inum Hinum). by rewrite upd_ne by lia.
Qed.

End rebuilt.

(** Releasing data blocks leaves inodes and the blocks below the data bitmap alone. *)
Lemma released_inode d d' l m : released cx nblk d d' l -> Forall (fun b => drs <= b < nblk) l -> is_inode m ->
  inode_at cx d' m = inode_at cx d m.
Proof.
  intros Hr Hl Hm. pose proof (tbl_blk_range cx nblk Hvol m Hm). unfold inode_at.
  rewrite (rel_same _ _ _ _ _ Hr); [done|destruct Hvol; lia|lia|].
  intros Hin. rewrite Forall_forall in Hl. apply Hl in Hin. lia.
Qed.

Lemma released_low d d' l b : released cx nblk d d' l -> Forall (fun b => drs <= b < nblk) l ->
  0 <= b < data_bitmap_start sb -> d' b = d b.
Proof.
  intros Hr Hl Hb. destruct Hvol. apply (rel_same _ _ _ _ _ Hr); [lia|lia|].
  intros Hin. rewrite Forall_forall in Hl. apply Hl in Hin. lia.
Qed.

(** ** Growing *)

(** What remains the same when metadata of one file changes. *)
Record others_same (d d' : disk) (inum : Z) : Prop := {
  os_ok : disk_ok cx nblk d';
  os_inode : forall m, is_inode m -> m <> inum -> inode_at cx d' m = inode_at cx d m;
  os_low : forall b, 0 <= b < data_bitmap_start sb -> d' b = d b
}.

(** The file [inum] was extended by [new]; [nodes'] replaced [nodes]. *)
Record grown (d d' : disk) (inum : Z) (nodes ptrs nodes' new : list Z) : Prop := {
  gr_others : others_same d d' inum;
  gr_map : file_map d' inum nodes' (ptrs ++ new);
  gr_inode : inode_at cx d' inum =
    set_i_map (i_data_head (inode_at cx d' inum)) (blen (ptrs ++ new)) (inode_at cx d inum);
  (** the blocks it received were free *)
  gr_fresh : forall b, b ∈ nodes' ++ new -> drs <= b < nblk /\ data_bit cx d (b - drs) = false;
  (** no block outside the lists of nodes changed, the new data blocks included *)
  gr_data : forall b, drs <= b < nblk -> b ∉ nodes -> b ∉ nodes' -> d' b = d b;
  gr_bits : forall j, in_data j -> data_bit cx d' j =
    bool_decide (drs + j ∈ nodes' ++ new) || (data_bit cx d j && negb (bool_decide (drs + j ∈ nodes)));
  gr_nodes : blen nodes' <= ceil_div (blen (ptrs ++ new)) cap
}.

Lemma elem_of_abs i (l : list Z) : drs + i ∈ (Z.add drs <$> l) <-> i ∈ l.
Proof.
  rewrite list_elem_of_fmap. split; [|by exists i]. intros (j & Hj & Hin). assert (i = j) as -> by lia. done.
Qed.

Lemma abs_elem_of b (l : list Z) : b ∈ (Z.add drs <$> l) <-> (b - drs) ∈ l.
Proof. rewrite <- (elem_of_abs (b - drs)). by replace (drs + (b - drs)) with b by lia. Qed.

Lemma NoDup_abs (l : list Z) : NoDup l -> NoDup (Z.add drs <$> l).
Proof. apply NoDup_fmap_2. intros x y. lia. Qed.

(** Linking a file to a rebuilt list, then freeing the old one. *)
Lemma wp_relink inum inode l undo nodes ptrs Q a :
  let e := a_disk a in
  let idx := new_nodes e (blen l) in
  let inode' := set_i_map (head_abs cx idx) (blen l) inode in
  let r := put_inode cx (put_nodes cx (put_data_bits cx e idx true) idx l) inum inode' in
  disk_ok cx nblk e -> is_inode inum -> inode_fits inode' -> blen l <= MOFS_MAX_FILE_DATA_BLOCKS ->
  ceil_div (blen l) cap <= blen (free_data e) -> chain cx nblk r (i_data_head inode) nodes ptrs -> NoDup nodes ->
  (forall d', released cx nblk r d' nodes -> Q (Ok tt) (set_disk d' a)) ->
  wp cx nblk (relink cx inum inode l undo) Q a.
Proof.
  intros e idx inode' r He Hinum Hfit Hmax Hspace Hc Hnd HQ. unfold relink.
  assert (Hr : disk_ok cx nblk r) by (by apply rebuilt_ok).
  apply wp_bind, wp_on_error, wp_rebuild; [done|done|fold e; lia|]. intros _. fold e. fold idx. wp_simpl. fold inode'.
  apply wp_bind, wp_on_error, (wp_write_inode cx nblk Hvol); [|done|by apply fits_reserved|].
  { apply (disk_ok_put_nodes cx nblk Hvol), (disk_ok_put_data_bits cx nblk Hvol); [done|apply take_free_range]. }
  wp_simpl. change (set_disk _ (set_disk _ a)) with (set_disk r a).
  destruct (Z.eqb_spec (i_data_head inode) 0) as [H0|Hne]; cbn [negb].
  - apply wp_ret, HQ. rewrite H0 in Hc. destruct nodes as [|n ns]; [by apply released_nil|].
    destruct Hc as (<- & ? & _). pose proof (drs_pos cx nblk Hvol). lia.
  - apply wp_ignore. eapply (wp_free_list_chain cx nblk Hvol); done.
Qed.

(** No room for the list: the undo step runs and the error is returned. *)
Lemma wp_relink_full inum inode l undo Q a :
  disk_ok cx nblk (a_disk a) -> blen l <= MOFS_MAX_FILE_DATA_BLOCKS ->
  blen (free_data (a_disk a)) < ceil_div (blen l) cap ->
  wp cx nblk undo (then_wp cx nblk (fun _ => throw MOFS_ENOSPC) Q) a ->
  wp cx nblk (relink cx inum inode l undo) Q a.
Proof.
  intros He Hmax Hfull Hu. unfold relink. apply wp_bind, wp_on_error, wp_rebuild; [done|done| |lia].
  intros _. eapply wp_mono; [|exact Hu]. intros [[]|e|] a' H; exact H.
Qed.

Lemma wp_malloc_both n m Q a : Q (Ok tt) a -> wp cx nblk (malloc_both (u32 n) (u32 m)) Q a.
Proof.
  intros HQ. unfold malloc_both. pose proof (u32_range n). pose proof (u32_range m).
  apply wp_bind, wp_status, wp_malloc; [lia|]. intros b1 _. wp_simpl.
  apply wp_bind, wp_status, wp_malloc; [lia|]. intros b2 _. wp_simpl. by apply wp_ret.
Qed.

Section grow.
Context (d : disk) (inum : Z) (nodes ptrs : list Z) (req : Z).
Hypothesis (Hd : disk_ok cx nblk d) (Hinum : is_inode inum) (Hfm : file_map d inum nodes ptrs).
Hypothesis (Hreq : 0 < req) (Hmax : blen ptrs + req <= MOFS_MAX_FILE_DATA_BLOCKS).
Hypothesis (Hspace : req + ceil_div (blen ptrs + req) cap <= blen (free_data d)).
Let new_idx := take (Z.to_nat req) (free_data d).
Let e := put_data_bits cx d new_idx true.
Let flat := ptrs ++ (Z.add drs <$> new_idx).
Let idx := new_nodes e (blen flat).
Let inode' := set_i_map (head_abs cx idx) (blen flat) (inode_at cx d inum).
Let r := put_inode cx (put_nodes cx (put_data_bits cx e idx true) idx flat) inum inode'.

Lemma grow_new_len : blen new_idx = req.
Proof. unfold new_idx. rewrite length_take. pose proof (ceil_cap_range (blen ptrs + req) ltac:(lia)) as [? _]. lia. Qed.

Lemma grow_flat_len : blen flat = blen ptrs + req.
Proof. unfold flat. rewrite length_app, length_fmap. pose proof grow_new_len. lia. Qed.

Lemma grow_new_range : Forall (fun i => in_data i) new_idx.
Proof. apply take_free_range. Qed.

Lemma grow_e_ok : disk_ok cx nblk e.
Proof. apply (disk_ok_put_data_bits cx nblk Hvol); [done|apply grow_new_range]. Qed.

Lemma grow_e_free : free_data e = drop (Z.to_nat req) (free_data d).
Proof. by apply (free_data_mark cx nblk Hvol). Qed.

Lemma grow_space : ceil_div (blen flat) cap <= blen (free_data e).
Proof. rewrite grow_e_free, length_drop, grow_flat_len. pose proof (ceil_cap_range (blen ptrs + req) ltac:(lia)) as [? _]. lia. Qed.

Lemma grow_flat_range : Forall (fun b => drs <= b < nblk) flat.
Proof.
  apply Forall_app. split; [apply (fm_range _ _ _ _ Hfm)|]. apply Forall_fmap. eapply Forall_impl; [apply grow_new_range|].
  intros i Hi. destruct Hvol. unfold compose. cbv beta in *. lia.
Qed.

Lemma grow_flat_u32 : Forall (fun p => 0 <= p < 2 ^ 32) flat.
Proof.
  eapply Forall_impl; [apply grow_flat_range|]. simpl. intros b Hb. pose proof (drs_pos cx nblk Hvol). pose proof (vo_max _ _ Hvol). lia.
Qed.

Lemma grow_idx_free i : i ∈ idx -> in_data i /\ data_bit cx d i = false /\ i ∉ new_idx.
Proof.
  intros Hi. unfold idx, new_nodes in Hi. rewrite grow_e_free in Hi.
  apply elem_of_take in Hi as (k & Hi & _). apply list_elem_of_lookup_2 in Hi as Hi2.
  assert (Hf : i ∈ free_data d) by (rewrite <- (take_drop (Z.to_nat req)); apply elem_of_app; by right).
  apply elem_of_free_data in Hf as [? ?]. split; [done|]. split; [done|]. intros Hn.
  pose proof (NoDup_free_data cx d) as Hnd. rewrite <- (take_drop (Z.to_nat req)) in Hnd.
  apply NoDup_app in Hnd as (_ & Hdis & _). by apply (Hdis i).
Qed.

Lemma grow_new_free i : i ∈ new_idx -> in_data i /\ data_bit cx d i = false.
Proof.
  intros Hi. apply elem_of_take in Hi as (k & Hi & _). apply list_elem_of_lookup_2 in Hi. by apply elem_of_free_data.
Qed.

(** Blocks of the file were in use, so none of them is handed out. *)
Lemma grow_old_used b : b ∈ nodes ++ ptrs -> ((b - drs) ∉ idx) /\ ((b - drs) ∉ new_idx).
Proof.
  intros Hb. pose proof (fm_used _ _ _ _ Hfm b Hb) as Hu. split; intros Hi.
  - apply grow_idx_free in Hi as (_ & ? & _). congruence.
  - apply grow_new_free in Hi as [_ ?]. congruence.
Qed.

Lemma grow_inode_fits : inode_fits inode'.
Proof.
  pose proof (inode_at_fits cx nblk Hvol d inum Hd Hinum) as []. pose proof grow_flat_len.
  destruct (head_abs_small cx nblk Hvol idx (take_free_range cx _ e)) as [_ Hh].
  unfold MOFS_MAX_FILE_DATA_BLOCKS in *. constructor; unfold inode'; cbn [set_i_map i_size i_links i_mode i_uid i_gid i_data_head i_nr_blocks i_atime i_mtime i_ctime i_reserved]; try done; lia.
Qed.

Lemma grow_max : blen flat <= MOFS_MAX_FILE_DATA_BLOCKS.
Proof. rewrite grow_flat_len. lia. Qed.

Lemma grow_e_inode m : is_inode m -> inode_at cx e m = inode_at cx d m.
Proof. intros Hm. apply inode_at_put_data_bits; [apply grow_new_range|done]. Qed.

Lemma grow_e_bit j : in_data j -> data_bit cx e j = bool_decide (j ∈ new_idx) || data_bit cx d j.
Proof.
  intros Hj. unfold e. rewrite (data_bit_put_bits cx nblk Hvol) by first [done|apply grow_new_range|lia]. by case_bool_decide.
Qed.

Lemma grow_e_data b : ~ (data_bitmap_start sb <= b < inode_table_start sb) -> e b = d b.
Proof. intros Hb. apply (put_data_bits_other cx nblk Hvol); [apply grow_new_range|done]. Qed.

(** The old list is still intact when it is freed. *)
Lemma grow_old_chain : chain cx nblk r (i_data_head (inode_at cx d inum)) nodes ptrs.
Proof.
  eapply chain_ext; [apply (fm_chain _ _ _ _ Hfm)|]. intros n Hn.
  pose proof (fm_nodes_range _ _ _ _ Hfm) as Hr. rewrite Forall_forall in Hr. apply Hr in Hn as Hnr.
  transitivity (e n).
  - apply rebuilt_data; [done|done|]. rewrite abs_elem_of. apply grow_old_used. apply elem_of_app. by left.
  - apply grow_e_data. destruct Hvol. lia.
Qed.

(** Nodes, old blocks and new blocks are all different. *)
Lemma grow_nodup : NoDup ((Z.add drs <$> idx) ++ flat).
Proof.
  pose proof (fm_nodup _ _ _ _ Hfm) as Hnd. apply NoDup_app in Hnd as (_ & _ & Hnp).
  apply NoDup_app. split_and!.
  - apply NoDup_abs, idx_nodup.
  - intros b Hb Hf. apply abs_elem_of in Hb. apply elem_of_app in Hf as [Hf|Hf].
    + assert (Ho : b ∈ nodes ++ ptrs) by (apply elem_of_app; by right). by apply grow_old_used in Ho as [? _].
    + apply abs_elem_of in Hf. by apply grow_idx_free in Hb as (_ & _ & ?).
  - apply NoDup_app. split_and!; [done| |].
    + intros b Hb Hf. apply abs_elem_of in Hf.
      assert (Ho : b ∈ nodes ++ ptrs) by (apply elem_of_app; by right). by apply grow_old_used in Ho as [_ ?].
    + apply NoDup_abs. eapply (sublist_NoDup _ (free_data d)); [apply NoDup_free_data|]. apply sublist_take.
Qed.

Lemma grow_r_bit j : in_data j -> data_bit cx r j = bool_decide (drs + j ∈ (Z.add drs <$> idx) ++ (Z.add drs <$> new_idx)) || data_bit cx d j.
Proof.
  intros Hj. unfold r, idx. rewrite rebuilt_bits, grow_e_bit by (try done; apply grow_e_ok). fold idx.
  rewrite orb_assoc. f_equal.
  rewrite (bool_decide_ext (drs + j ∈ _ ++ _) (j ∈ idx \/ j ∈ new_idx)) by (rewrite elem_of_app, !elem_of_abs; done).
  by rewrite bool_decide_or.
Qed.

Lemma grow_node_new n : n ∈ nodes -> n ∉ (Z.add drs <$> idx) ++ (Z.add drs <$> new_idx).
Proof.
  intros Hn. assert (Ho : n ∈ nodes ++ ptrs) by (apply elem_of_app; by left). apply grow_old_used in Ho.
  rewrite elem_of_app, !abs_elem_of. tauto.
Qed.

Lemma grow_bits d' j : released cx nblk r d' nodes -> in_data j -> data_bit cx d' j =
  bool_decide (drs + j ∈ (Z.add drs <$> idx) ++ (Z.add drs <$> new_idx)) || (data_bit cx d j && negb (bool_decide (drs + j ∈ nodes))).
Proof.
  intros Hr Hj. rewrite (rel_bits _ _ _ _ _ Hr) by done. destruct (bool_decide (drs + j ∈ nodes)) eqn:Hn.
  - apply bool_decide_eq_true in Hn. rewrite (bool_decide_eq_false_2 (drs + j ∈ _ ++ _)) by (by apply grow_node_new).
    by rewrite andb_false_r.
  - rewrite andb_true_r. by apply grow_r_bit.
Qed.

Lemma grow_final_inode d' m : released cx nblk r d' nodes -> is_inode m ->
  inode_at cx d' m = if m =? inum then inode' else inode_at cx d m.
Proof.
  intros Hr Hm. rewrite (released_inode _ _ _ m Hr) by (try done; by eapply fm_nodes_range).
  unfold r, idx. rewrite rebuilt_inode by (try done; first [apply grow_e_ok|apply grow_inode_fits]).
  by rewrite grow_e_inode.
Qed.

Lemma grow_map d' : released cx nblk r d' nodes -> file_map d' inum (Z.add drs <$> idx) flat.
Proof.
  intros Hr. assert (Hino : inode_at cx d' inum = inode') by (rewrite grow_final_inode, Z.eqb_refl; done).
  split; rewrite ?Hino.
  - eapply chain_ext.
    + apply rebuilt_chain; first [apply grow_e_ok|done|apply grow_inode_fits|apply grow_flat_u32|apply grow_max|apply grow_space].
    + intros n Hn. pose proof (node_abs_ge e flat n Hn) as Hnr.
      apply (rel_same _ _ _ _ _ Hr); [pose proof (drs_pos cx nblk Hvol); lia|destruct Hvol; lia|].
      intros Hin. apply (grow_node_new n Hin). apply elem_of_app. by left.
  - done.
  - apply grow_nodup.
  - apply grow_flat_range.
  - intros b Hb. assert (Hbr : in_data (b - drs)).
    { apply elem_of_app in Hb as [Hb|Hb].
      - apply (node_abs_ge e flat) in Hb. destruct Hvol; lia.
      - pose proof grow_flat_range as Hf. rewrite Forall_forall in Hf. apply Hf in Hb. destruct Hvol; lia. }
    rewrite grow_bits by done. replace (drs + (b - drs)) with b by lia.
    destruct (bool_decide (b ∈ _ ++ _)) eqn:E; [done|]. apply bool_decide_eq_false in E. rewrite elem_of_app in E.
    unfold flat in Hb. rewrite !elem_of_app in Hb. destruct Hb as [Hb|[Hb|Hb]]; [tauto| |tauto].
    assert (Ho : b ∈ nodes ++ ptrs) by (apply elem_of_app; by right). rewrite (fm_used _ _ _ _ Hfm b Ho).
    pose proof (fm_nodup _ _ _ _ Hfm) as Hnd. apply NoDup_app in Hnd as (_ & Hdis & _).
    rewrite bool_decide_eq_false_2; [done|]. intros Hin. by apply (Hdis b).
  - apply grow_max.
Qed.

Lemma grow_done d' : released cx nblk r d' nodes ->
  grown d d' inum nodes ptrs (Z.add drs <$> idx) (Z.add drs <$> new_idx).
Proof.
  intros Hr. assert (Hino : inode_at cx d' inum = inode') by (rewrite grow_final_inode, Z.eqb_refl; done).
  pose proof (fm_nodes_range _ _ _ _ Hfm) as Hnr. split.
  - split; [apply Hr| |].
    + intros m Hm Hne. rewrite grow_final_inode by done. by rewrite (proj2 (Z.eqb_neq m inum)).
    + intros b Hb. rewrite (released_low _ _ _ b Hr) by done. unfold r, idx.
      rewrite rebuilt_low by (try done; first [apply grow_e_ok|apply grow_inode_fits]). apply grow_e_data. lia.
  - by apply grow_map.
  - rewrite Hino. done.
  - intros b Hb. rewrite elem_of_app, !abs_elem_of in Hb.
    assert (H : in_data (b - drs) /\ data_bit cx d (b - drs) = false).
    { destruct Hb as [Hb|Hb]; [apply grow_idx_free in Hb as (? & ? & _); done|by apply grow_new_free]. }
    destruct Hvol. split; [lia|tauto].
  - intros b Hb Hn Hn'. rewrite (rel_same _ _ _ _ _ Hr); [|pose proof (drs_pos cx nblk Hvol); lia|destruct Hvol; lia|done].
    unfold r, idx. rewrite rebuilt_data by done. apply grow_e_data. destruct Hvol; lia.
  - intros j Hj. by apply grow_bits.
  - rewrite length_fmap. apply new_nodes_len. pose proof grow_max as Hm. fold flat.
    apply (ceil_cap_range (blen flat)). lia.
Qed.

(** [allocate_data_block] when there is room. *)
Lemma wp_allocate_grow Q a :
  a_disk a = d -> (forall d' nodes' new, blen new = req -> grown d d' inum nodes ptrs nodes' new -> Q (Ok tt) (set_disk d' a)) ->
  wp cx nblk (allocate_data_block cx inum req) Q a.
Proof.
  intros Ha HQ. unfold allocate_data_block. rewrite (proj2 (Z.ltb_ge _ _)), (proj2 (Z.eqb_neq _ _)) by lia.
  apply wp_bind, (wp_read_inode cx nblk Hvol); [by rewrite Ha|done|]. wp_simpl. rewrite Ha.
  pose proof (fm_nr _ _ _ _ Hfm) as Hnr. assert (Hm1024 : blen ptrs + req <= 1024) by exact Hmax. change MOFS_MAX_FILE_DATA_BLOCKS with 1024. rewrite Hnr.
  rewrite (u32_small (blen ptrs + req)), (proj2 (Z.ltb_ge _ _)) by lia.
  apply wp_bind, wp_malloc_both. wp_simpl.
  assert (Hexp : wp cx nblk (if 0 <? blen ptrs then export_data_block_list cx (inode_at cx d inum) (blen ptrs) else mret [])
     (fun r a' => r = Ok ptrs /\ a' = a) a).
  { destruct (Z.ltb_spec 0 (blen ptrs)).
    - eapply (wp_export cx nblk Hvol); rewrite ?Ha; [done|apply (fm_chain _ _ _ _ Hfm)|by eapply fm_nodes_nodup|done|lia|done].
    - apply wp_ret. destruct ptrs; [done|simpl in *; lia]. }
  apply wp_bind. eapply wp_mono; [|exact Hexp]. intros ? ? [-> ->]. wp_simpl.
  pose proof (ceil_cap_range (blen ptrs + req) ltac:(lia)) as [Hcr _].
  apply wp_bind, (wp_find_free_data cx nblk Hvol); [lia|by rewrite Ha|rewrite Ha; lia|]. intros _. rewrite Ha. wp_simpl. fold new_idx.
  apply wp_bind, (wp_mark_used cx nblk Hvol); [by rewrite Ha|apply grow_new_range|]. rewrite Ha. fold e. wp_simpl.
  replace ((fun i => u32 (drs + i)) <$> new_idx) with (Z.add drs <$> new_idx).
  2: { apply list_fmap_ext. intros k x Hx. symmetry. apply (data_abs_small cx nblk Hvol). pose proof grow_new_range as Hr.
       rewrite Forall_lookup in Hr. eauto. }
  fold flat. eapply wp_relink; simpl (a_disk _); [apply grow_e_ok|done|apply grow_inode_fits|apply grow_max|apply grow_space|
    apply grow_old_chain|by eapply fm_nodes_nodup|].
  intros d' Hr. apply (HQ d' (Z.add drs <$> idx) (Z.add drs <$> new_idx)); [rewrite length_fmap; apply grow_new_len|by apply grow_done].
Qed.

End grow.

(** Same metadata, same blocks: only the representation of the bitmap blocks
    may differ. *)
Record unchanged (d d' : disk) : Prop := {
  un_ok : disk_ok cx nblk d';
  un_blocks : forall b, ~ (data_bitmap_start sb <= b < inode_table_start sb) -> d' b = d b;
  un_bits : forall j, in_data j -> data_bit cx d' j = data_bit cx d j
}.

Lemma unchanged_refl d : disk_ok cx nblk d -> unchanged d d.
Proof. by split. Qed.

(** Marking free entries and releasing them again changes nothing. *)
Lemma unchanged_rollback d k : disk_ok cx nblk d ->
  let l := take k (free_data d) in unchanged d (put_data_bits cx (put_data_bits cx d l true) l false).
Proof.
  intros Hd l. assert (Hl : Forall (fun i => in_data i) l) by apply take_free_range.
  assert (Hd1 : disk_ok cx nblk (put_data_bits cx d l true)) by (by apply (disk_ok_put_data_bits cx nblk Hvol)).
  split.
  - by apply (disk_ok_put_data_bits cx nblk Hvol).
  - intros b Hb. by rewrite !(put_data_bits_other cx nblk Hvol).
  - intros j Hj. rewrite !(data_bit_put_bits cx nblk Hvol) by first [done|lia]. case_bool_decide as Hin; [|done].
    symmetry. apply elem_of_take in Hin as (n & Hn & _). apply list_elem_of_lookup_2 in Hn. by apply elem_of_free_data in Hn as [_ ?].
Qed.

(** Reading the mapping of a file. *)
Lemma wp_export_file inum nodes ptrs Q a :
  disk_ok cx nblk (a_disk a) -> file_map (a_disk a) inum nodes ptrs -> Q (Ok ptrs) a ->
  wp cx nblk (export_data_block_list cx (inode_at cx (a_disk a) inum) (blen ptrs)) Q a.
Proof.
  intros Hd Hfm HQ. eapply (wp_export cx nblk Hvol); try done; [apply (fm_chain _ _ _ _ Hfm)|by eapply fm_nodes_nodup|apply (fm_nr _ _ _ _ Hfm)].
Qed.

(** [allocate_data_block] on a full volume: [MOFS_ENOSPC], and nothing is lost. *)
Lemma wp_allocate_full inum nodes ptrs req Q a :
  let d := a_disk a in
  disk_ok cx nblk d -> is_inode inum -> file_map d inum nodes ptrs ->
  0 < req -> blen ptrs + req <= MOFS_MAX_FILE_DATA_BLOCKS ->
  blen (free_data d) < req + ceil_div (blen ptrs + req) cap ->
  (forall d', unchanged d d' -> Q (Err MOFS_ENOSPC) (set_disk d' a)) ->
  wp cx nblk (allocate_data_block cx inum req) Q a.
Proof.
  intros d Hd Hinum Hfm Hreq Hmax Hfull HQ. unfold allocate_data_block.
  rewrite (proj2 (Z.ltb_ge _ _)), (proj2 (Z.eqb_neq _ _)) by lia.
  apply wp_bind, (wp_read_inode cx nblk Hvol); [done|done|]. wp_simpl. fold d.
  pose proof (fm_nr _ _ _ _ Hfm) as Hnr. unfold MOFS_MAX_FILE_DATA_BLOCKS in *. rewrite Hnr.
  rewrite (u32_small (blen ptrs + req)), (proj2 (Z.ltb_ge _ _)) by lia.
  apply wp_bind, wp_malloc_both. wp_simpl.
  assert (Hexp : wp cx nblk (if 0 <? blen ptrs then export_data_block_list cx (inode_at cx d inum) (blen ptrs) else mret [])
     (fun r a' => r = Ok ptrs /\ a' = a) a).
  { destruct (Z.ltb_spec 0 (blen ptrs)); [by eapply wp_export_file|]. apply wp_ret. destruct ptrs; [done|simpl in *; lia]. }
  apply wp_bind. eapply wp_mono; [|exact Hexp]. intros ? ? [-> ->]. wp_simpl.
  apply wp_bind, (wp_find_free_data cx nblk Hvol); [lia|done| |].
  { intros _. wp_simpl. specialize (HQ d (unchanged_refl d Hd)). by destruct a. }
  intros Hge. fold d in Hge. fold d. set (new_idx := take (Z.to_nat req) (free_data d)). wp_simpl.
  assert (Hn : Forall (fun i => in_data i) new_idx) by apply take_free_range.
  assert (Hnl : blen new_idx = req) by (unfold new_idx; rewrite length_take; lia).
  apply wp_bind, (wp_mark_used cx nblk Hvol); [done|done|]. fold d. set (e := put_data_bits cx d new_idx true). wp_simpl.
  assert (He : disk_ok cx nblk e) by (by apply (disk_ok_put_data_bits cx nblk Hvol)).
  apply wp_relink_full; [done|rewrite length_app, length_fmap; unfold MOFS_MAX_FILE_DATA_BLOCKS; lia| |].
  - simpl (a_disk _). pose proof (free_data_mark cx nblk Hvol d (Z.to_nat req) Hd) as Hfd. fold new_idx e in Hfd.
    rewrite Hfd, length_drop, length_app, length_fmap.
    replace (Z.of_nat (length ptrs + length new_idx)) with (blen ptrs + req) by lia. lia.
  - eapply (wp_update_data_bits cx nblk Hvol); [done|done|]. wp_simpl. apply HQ. by apply unchanged_rollback.
Qed.

(** Beyond the maximal number of blocks of a file nothing is attempted. *)
Lemma wp_allocate_limit inum req Q a :
  disk_ok cx nblk (a_disk a) -> is_inode inum -> 0 < req ->
  MOFS_MAX_FILE_DATA_BLOCKS < i_nr_blocks (inode_at cx (a_disk a) inum) + req < 2 ^ 32 ->
  Q (Err MOFS_ENOSPC) a -> wp cx nblk (allocate_data_block cx inum req) Q a.
Proof.
  intros Hd Hinum Hreq Hlim HQ. unfold allocate_data_block, MOFS_MAX_FILE_DATA_BLOCKS in *.
  rewrite (proj2 (Z.ltb_ge _ _)), (proj2 (Z.eqb_neq _ _)) by lia.
  apply wp_bind, (wp_read_inode cx nblk Hvol); [done|done|]. wp_simpl. rewrite u32_small by lia.
  rewrite (proj2 (Z.ltb_lt _ _)) by lia. exact HQ.
Qed.

End alloc.
