(* ===== verification/FreeSpec.v ===== *)
(** * Shrinking files

    What [free_data_block] does to the mapping of the file it shrinks and to
    everything else on the volume. *)

From Stdlib Require Import ZArith Lia.
From stdpp Require Import base list list_numbers.
From S2P Require Import Prelude Types Platform Raw Buffer BufferSpec Ops Bitmap Inode Block Volume BlockSpec AllocSpec.

Section free.
Context (cx : mofs_ctx_t) (nblk : Z) (Hvol : vol_ok cx nblk).
Abbreviation sb := (sp_blk cx).
Abbreviation bs := (blk_size (sp_blk cx)).
Abbreviation drs := (data_region_start (sp_blk cx)).
Abbreviation in_data i := (0 <= i < data_blk_num (sp_blk cx)).
Abbreviation cap := (list_ptrs_cap cx).
Abbreviation free_data := (free_data cx).
Abbreviation is_inode n := (0 <= n < inode_num (sp_blk cx)).
Abbreviation file_map := (file_map cx nblk).

(** The file [inum] lost the blocks [freed] and kept [keep]. *)
Record shrunk (d d' : disk) (inum : Z) (nodes nodes' keep freed : list Z) : Prop := {
  sh_others : others_same cx nblk d d' inum;
  sh_map : file_map d' inum nodes' keep;
  sh_inode : inode_at cx d' inum =
    set_i_map (i_data_head (inode_at cx d' inum)) (blen keep) (inode_at cx d inum);
  sh_fresh : forall b, b ∈ nodes' -> drs <= b < nblk /\ (data_bit cx d (b - drs) = false \/ b ∈ freed);
  sh_data : forall b, drs <= b < nblk -> b ∉ nodes -> b ∉ nodes' -> b ∉ freed -> d' b = d b;
  sh_bits : forall j, in_data j -> data_bit cx d' j =
    bool_decide (drs + j ∈ nodes') || (data_bit cx d j && negb (bool_decide (drs + j ∈ nodes ++ freed)));
  sh_nodes : blen nodes' <= ceil_div (blen keep) cap
}.

Section shrink.
Context (d e : disk) (inum : Z) (nodes pre freed post : list Z).
Let ptrs := pre ++ freed ++ post.
Let keep := pre ++ post.
Hypothesis (Hd : disk_ok cx nblk d) (Hinum : is_inode inum) (Hfm : file_map d inum nodes ptrs).
Hypothesis (Hrel : released cx nblk d e freed).
Hypothesis (Hspace : ceil_div (blen keep) cap <= blen (free_data e)).
Let idx := new_nodes cx e (blen keep).
Let inode' := set_i_map (head_abs cx idx) (blen keep) (inode_at cx d inum).
Let r := put_inode cx (put_nodes cx (put_data_bits cx e idx true) idx keep) inum inode'.

Lemma shrink_e_ok : disk_ok cx nblk e.
Proof. apply Hrel. Qed.

Lemma shrink_freed_range : Forall (fun b => drs <= b < nblk) freed.
Proof. pose proof (fm_range _ _ _ _ _ _ Hfm) as H. unfold ptrs in H. rewrite !Forall_app in H. tauto. Qed.

Lemma shrink_keep_range : Forall (fun b => drs <= b < nblk) keep.
Proof. pose proof (fm_range _ _ _ _ _ _ Hfm) as H. unfold ptrs in H. unfold keep. rewrite !Forall_app in *. tauto. Qed.

Lemma shrink_keep_u32 : Forall (fun p => 0 <= p < 2 ^ 32) keep.
Proof.
  eapply Forall_impl; [apply shrink_keep_range|]. simpl. intros b Hb. pose proof (drs_pos cx nblk Hvol). pose proof (vo_max _ _ Hvol). lia.
Qed.

Lemma shrink_max : blen keep <= MOFS_MAX_FILE_DATA_BLOCKS.
Proof. pose proof (fm_max _ _ _ _ _ _ Hfm) as H. unfold ptrs in H. unfold keep. rewrite !length_app in *. lia. Qed.

(** Nodes, kept blocks and freed blocks are pairwise different. *)
Lemma shrink_nodup : NoDup nodes /\ NoDup keep /\
  (forall b, b ∈ nodes -> (b ∉ keep) /\ (b ∉ freed)) /\ (forall b, b ∈ keep -> b ∉ freed).
Proof.
  pose proof (fm_nodup _ _ _ _ _ _ Hfm) as H. unfold ptrs in H.
  assert (Hp : nodes ++ pre ++ freed ++ post ≡ₚ (nodes ++ keep) ++ freed).
  { unfold keep. rewrite <- !app_assoc. apply Permutation_app_head, Permutation_app_head, Permutation_app_comm. }
  rewrite Hp in H. apply NoDup_app in H as (H1 & H2 & _). apply NoDup_app in H1 as (H3 & H4 & H5).
  split_and!; [done|done| |].
  - intros b Hb. split; [by apply H4|]. apply H2, elem_of_app. by left.
  - intros b Hb. apply H2, elem_of_app. by right.
Qed.

Lemma shrink_used b : b ∈ nodes \/ b ∈ keep -> data_bit cx d (b - drs) = true.
Proof.
  intros Hb. apply (fm_used _ _ _ _ _ _ Hfm). unfold ptrs. unfold keep in Hb. rewrite !elem_of_app in *. tauto.
Qed.

Lemma shrink_e_inode m : is_inode m -> inode_at cx e m = inode_at cx d m.
Proof. intros Hm. eapply released_inode; [done|exact Hrel|apply shrink_freed_range|done]. Qed.

Lemma shrink_e_bit j : in_data j -> data_bit cx e j = data_bit cx d j && negb (bool_decide (drs + j ∈ freed)).
Proof. intros Hj. rewrite (rel_bits _ _ _ _ _ Hrel) by done. case_bool_decide; simpl; [by rewrite andb_false_r|by rewrite andb_true_r]. Qed.

Lemma shrink_e_data b : drs <= b < nblk -> b ∉ freed -> e b = d b.
Proof. intros Hb Hn. apply (rel_same _ _ _ _ _ Hrel); [pose proof (drs_pos cx nblk Hvol); lia|destruct Hvol; lia|done]. Qed.

(** A block the list was rebuilt in was free, or has just been freed. *)
Lemma shrink_idx b : b ∈ (Z.add drs <$> idx) ->
  drs <= b < nblk /\ (data_bit cx d (b - drs) = false \/ b ∈ freed) /\ (b ∉ nodes) /\ (b ∉ keep).
Proof.
  intros Hb. pose proof (node_abs_ge cx nblk Hvol e keep b Hb) as Hr. apply abs_elem_of in Hb.
  assert (Hj : in_data (b - drs)) by (destruct Hvol; lia).
  pose proof (idx_free cx e keep (b - drs) Hb) as Hf. rewrite shrink_e_bit in Hf by done.
  replace (drs + (b - drs)) with b in Hf by lia.
  destruct shrink_nodup as (_ & _ & Hnf & Hkf). split; [done|].
  assert (Hor : data_bit cx d (b - drs) = false \/ b ∈ freed).
  { destruct (data_bit cx d (b - drs)); [right|by left]. simpl in Hf. apply negb_false_iff, bool_decide_eq_true in Hf. done. }
  split; [done|]. split; intros Hin.
  - destruct Hor as [Hz|Hz]; [rewrite shrink_used in Hz by tauto; done|]. by apply Hnf in Hin as [_ ?].
  - destruct Hor as [Hz|Hz]; [rewrite shrink_used in Hz by tauto; done|]. by apply Hkf in Hin.
Qed.

Lemma shrink_inode_fits : inode_fits inode'.
Proof.
  pose proof (inode_at_fits cx nblk Hvol d inum Hd Hinum) as []. pose proof shrink_max.
  destruct (head_abs_small cx nblk Hvol idx (take_free_range cx _ e)) as [_ Hh].
  unfold MOFS_MAX_FILE_DATA_BLOCKS in *. constructor; unfold inode'; cbn [set_i_map i_size i_links i_mode i_uid i_gid i_data_head i_nr_blocks i_atime i_mtime i_ctime i_reserved]; try done; lia.
Qed.

Lemma shrink_r_ok : disk_ok cx nblk r.
Proof. apply rebuilt_ok; [done|apply shrink_e_ok|done|apply shrink_inode_fits]. Qed.

Lemma shrink_nodes_range : Forall (fun b => drs <= b < nblk) nodes.
Proof. by eapply fm_nodes_range. Qed.

Lemma shrink_old_chain : chain cx nblk r (i_data_head (inode_at cx d inum)) nodes ptrs.
Proof.
  eapply chain_ext; [apply (fm_chain _ _ _ _ _ _ Hfm)|]. intros n Hn.
  pose proof shrink_nodes_range as Hr. rewrite Forall_forall in Hr. apply Hr in Hn as Hnr.
  transitivity (e n).
  - apply (rebuilt_data cx nblk Hvol); [done|done|]. intros Hin. by apply shrink_idx in Hin as (_ & _ & ? & _).
  - apply shrink_e_data; [done|]. destruct shrink_nodup as (_ & _ & Hnf & _). by apply Hnf in Hn as [_ ?].
Qed.

Lemma shrink_final_inode d' m : released cx nblk r d' nodes -> is_inode m ->
  inode_at cx d' m = if m =? inum then inode' else inode_at cx d m.
Proof.
  intros Hr Hm. rewrite (released_inode cx nblk Hvol _ _ _ m Hr) by (try done; apply shrink_nodes_range).
  unfold r, idx. rewrite (rebuilt_inode cx nblk Hvol) by first [done|apply shrink_e_ok|apply shrink_inode_fits].
  by rewrite shrink_e_inode.
Qed.

Lemma shrink_bits d' j : released cx nblk r d' nodes -> in_data j -> data_bit cx d' j =
  bool_decide (drs + j ∈ (Z.add drs <$> idx)) || (data_bit cx d j && negb (bool_decide (drs + j ∈ nodes ++ freed))).
Proof.
  intros Hr Hj. rewrite (rel_bits _ _ _ _ _ Hr) by done.
  rewrite (bool_decide_ext (drs + j ∈ nodes ++ freed) (drs + j ∈ nodes \/ drs + j ∈ freed)) by apply elem_of_app.
  rewrite bool_decide_or, negb_orb. destruct (bool_decide (drs + j ∈ nodes)) eqn:Hn.
  - apply bool_decide_eq_true in Hn. rewrite (bool_decide_eq_false_2 (drs + j ∈ Z.add drs <$> idx)).
    + simpl. by rewrite andb_false_r.
    + intros Hin. by apply shrink_idx in Hin as (_ & _ & ? & _).
  - unfold r, idx. rewrite (rebuilt_bits cx nblk Hvol) by first [done|apply shrink_e_ok]. fold idx.
    rewrite shrink_e_bit by done. rewrite (bool_decide_ext (drs + j ∈ Z.add drs <$> idx) (j ∈ idx)) by apply elem_of_abs. done.
Qed.

Lemma shrink_map d' : released cx nblk r d' nodes -> file_map d' inum (Z.add drs <$> idx) keep.
Proof.
  intros Hr. assert (Hino : inode_at cx d' inum = inode') by (rewrite shrink_final_inode, Z.eqb_refl; done).
  destruct shrink_nodup as (_ & Hnk & Hnf & Hkf).
  split; rewrite ?Hino.
  - eapply chain_ext.
    + apply rebuilt_chain; first [done|apply shrink_e_ok|apply shrink_inode_fits|apply shrink_keep_u32|apply shrink_max].
    + intros n Hn. apply shrink_idx in Hn as (Hnr & _ & Hnn & _).
      apply (rel_same _ _ _ _ _ Hr); [pose proof (drs_pos cx nblk Hvol); lia|destruct Hvol; lia|done].
  - done.
  - apply NoDup_app. split_and!; [apply NoDup_abs, idx_nodup| |done].
    intros b Hb. by apply shrink_idx in Hb as (_ & _ & _ & ?).
  - apply shrink_keep_range.
  - intros b Hb. assert (Hbr : drs <= b < nblk).
    { apply elem_of_app in Hb as [Hb|Hb]; [by apply shrink_idx in Hb as [? _]|].
      pose proof shrink_keep_range as Hk. rewrite Forall_forall in Hk. by apply Hk. }
    rewrite shrink_bits by (try done; destruct Hvol; lia). replace (drs + (b - drs)) with b by lia.
    apply elem_of_app in Hb as [Hb|Hb]; [by rewrite bool_decide_eq_true_2|].
    rewrite shrink_used by tauto. rewrite (bool_decide_eq_false_2 (b ∈ nodes ++ freed)); [apply orb_true_r|].
    rewrite elem_of_app. intros [Hin|Hin]; [by apply Hnf in Hin as [? _]|by apply (Hkf b)].
  - apply shrink_max.
Qed.

Lemma shrink_done d' : released cx nblk r d' nodes -> shrunk d d' inum nodes (Z.add drs <$> idx) keep freed.
Proof.
  intros Hr. assert (Hino : inode_at cx d' inum = inode') by (rewrite shrink_final_inode, Z.eqb_refl; done). split.
  - split; [apply Hr| |].
    + intros m Hm Hne. rewrite shrink_final_inode by done. by rewrite (proj2 (Z.eqb_neq m inum)).
    + intros b Hb. rewrite (released_low cx nblk Hvol _ _ _ b Hr) by (try done; apply shrink_nodes_range). unfold r, idx.
      rewrite (rebuilt_low cx nblk Hvol) by first [done|apply shrink_e_ok|apply shrink_inode_fits].
      by apply (released_low cx nblk Hvol _ _ _ b Hrel shrink_freed_range).
  - by apply shrink_map.
  - by rewrite Hino.
  - intros b Hb. by apply shrink_idx in Hb as (? & ? & _).
  - intros b Hb Hn Hn' Hf. rewrite (rel_same _ _ _ _ _ Hr); [|pose proof (drs_pos cx nblk Hvol); lia|destruct Hvol; lia|done].
    unfold r, idx. rewrite (rebuilt_data cx nblk Hvol) by done. by apply shrink_e_data.
  - intros j Hj. by apply shrink_bits.
  - rewrite length_fmap. apply (new_nodes_len cx). pose proof shrink_max. fold keep.
    apply (ceil_cap_range cx nblk Hvol (blen keep)). lia.
Qed.

End shrink.

(** Releasing used blocks adds them to the free ones. *)
Lemma free_data_released d e l :
  released cx nblk d e l -> NoDup l -> Forall (fun b => drs <= b < nblk) l ->
  (forall b, b ∈ l -> data_bit cx d (b - drs) = true) ->
  blen (free_data d) + blen l <= blen (free_data e).
Proof.
  intros Hrel Hnd Hr Hu. rewrite Forall_forall in Hr.
  assert (Hle : (length (free_data d ++ ((fun b : Z => (b - drs)%Z) <$> l)) <= length (free_data e))%nat).
  { apply submseteq_length, NoDup_submseteq.
    - apply NoDup_app. split_and!; [apply NoDup_free_data| |apply NoDup_fmap_2; [intros x y ?; lia|done]].
      intros i Hi Hin. apply elem_of_free_data in Hi as [_ Hi]. apply list_elem_of_fmap in Hin as (b & -> & Hb).
      apply Hu in Hb. congruence.
    - intros i Hi. apply elem_of_free_data. apply elem_of_app in Hi as [Hi|Hi].
      + apply elem_of_free_data in Hi as [Hi Hz]. split; [done|]. rewrite (rel_bits _ _ _ _ _ Hrel), Hz by done. by case_bool_decide.
      + apply list_elem_of_fmap in Hi as (b & -> & Hb). pose proof (Hr b Hb). assert (in_data (b - drs)) by (destruct Hvol; lia).
        split; [done|]. rewrite (rel_bits _ _ _ _ _ Hrel) by done. rewrite bool_decide_eq_true_2; [done|].
        by replace (drs + (b - drs)) with b by lia. }
  rewrite length_app, length_fmap in Hle. lia.
Qed.

Lemma wp_opt_malloc (c : bool) n undo Q a :
  Q (Ok tt) a -> wp cx nblk (if c then on_error (call (OpMalloc (u32 n))) undo;; mret tt else mret tt) Q a.
Proof.
  intros HQ. destruct c; [|by apply wp_ret]. apply wp_bind, wp_on_error, wp_malloc; [apply u32_range|].
  intros b _. wp_simpl. by apply wp_ret.
Qed.

(** [free_data_block] on a range of the file, when the rebuilt list fits. *)
Lemma wp_free_shrink inum nodes pre freed post req Q a :
  let d := a_disk a in
  disk_ok cx nblk d -> is_inode inum -> file_map d inum nodes (pre ++ freed ++ post) ->
  freed <> [] -> (req = blen freed \/ (post = [] /\ blen freed <= req /\ blen pre + req < 2 ^ 32)) ->
  ceil_div (blen (pre ++ post)) cap <= blen (free_data d) + blen freed ->
  (forall d' nodes', shrunk d d' inum nodes nodes' (pre ++ post) freed -> Q (Ok tt) (set_disk d' a)) ->
  wp cx nblk (free_data_block cx inum (blen pre) req) Q a.
Proof.
  intros d Hd Hinum Hfm Hne Hreq Hspace HQ.
  pose proof (fm_nr _ _ _ _ _ _ Hfm) as Hnr. pose proof (fm_max _ _ _ _ _ _ Hfm) as Hmax. unfold MOFS_MAX_FILE_DATA_BLOCKS in Hmax.
  rewrite !length_app in Hnr, Hmax. assert (Hf : 0 < blen freed) by (destruct freed; [done|simpl; lia]).
  unfold free_data_block. rewrite (proj2 (Z.ltb_ge _ _)), (proj2 (Z.eqb_neq _ _)) by lia.
  apply wp_bind, (wp_read_inode cx nblk Hvol); [done|done|]. wp_simpl. fold d. rewrite Hnr.
  rewrite (proj2 (Z.leb_gt _ _)) by lia.
  (* the number of blocks to free is the length of [freed] *)
  assert (Hfb : (if Z.of_nat (length pre + (length freed + length post)) <? u32 (blen pre + req)
     then Z.of_nat (length pre + (length freed + length post)) - blen pre else req) = blen freed).
  { destruct Hreq as [->|(-> & Hle & Hlt)]; rewrite u32_small by lia.
    - rewrite (proj2 (Z.ltb_ge _ _)) by lia. done.
    - simpl length in *. destruct (Z.ltb_spec (Z.of_nat (length pre + (length freed + 0))) (blen pre + req)); lia. }
  rewrite Hfb. rewrite (u32_small (Z.of_nat (length pre + (length freed + length post)) - blen freed)) by lia.
  apply wp_bind, wp_malloc; [unfold u32; apply Z.mod_pos_bound; lia|]. intros b0 _. wp_simpl.
  apply wp_bind. replace (Z.of_nat (length pre + (length freed + length post))) with (blen (pre ++ freed ++ post)) by (rewrite !length_app; lia).
  eapply (wp_export_file cx nblk Hvol); [done|exact Hfm|]. wp_simpl.
  assert (Hsl : bslice (blen pre) (blen freed) (pre ++ freed ++ post) = freed).
  { unfold bslice. rewrite !Nat2Z.id, drop_app_length, take_app_length. done. }
  assert (Hcomp : take (Z.to_nat (blen pre)) (pre ++ freed ++ post) ++ drop (Z.to_nat (blen pre + blen freed)) (pre ++ freed ++ post) = pre ++ post).
  { rewrite Nat2Z.id, take_app_length. rewrite app_assoc, drop_app_length' by (rewrite length_app; lia). done. }
  rewrite Hsl. pose proof (fm_range _ _ _ _ _ _ Hfm) as Hrange. rewrite !Forall_app in Hrange.
  apply wp_bind, (wp_release_blocks cx nblk Hvol); [done|tauto|]. fold d. intros e Hrel. wp_simpl.
  assert (Hsp : ceil_div (blen (pre ++ post)) cap <= blen (free_data e)).
  { pose proof (fm_nodup _ _ _ _ _ _ Hfm) as Hnd. apply NoDup_app in Hnd as (_ & _ & Hnd). apply NoDup_app in Hnd as (_ & _ & Hnd).
    apply NoDup_app in Hnd as (Hnd & _ & _).
    pose proof (free_data_released d e freed Hrel Hnd ltac:(tauto)) as Hcnt.
    assert (blen (free_data d) + blen freed <= blen (free_data e)); [|lia].
    apply Hcnt. intros b Hb. apply (fm_used _ _ _ _ _ _ Hfm). rewrite !elem_of_app. tauto. }
  apply wp_bind, wp_opt_malloc. wp_simpl. rewrite Hcomp.
  eapply (wp_relink cx nblk Hvol); simpl (a_disk _); [apply Hrel|done| | |done| |by eapply fm_nodes_nodup|].
  - by eapply (shrink_inode_fits d e inum nodes pre freed post).
  - rewrite length_app. unfold MOFS_MAX_FILE_DATA_BLOCKS. lia.
  - by eapply (shrink_old_chain d e inum nodes pre freed post).
  - intros d' Hr. eapply HQ. by eapply (shrink_done d e inum nodes pre freed post).
Qed.

End free.
