(* ===== verification/InodeSpec.v ===== *)
(** * Correctness of the inode layer

    Allocation and release of inodes and the update of time stamps, as rules
    for [wp], with what they leave alone. *)

From Stdlib Require Import ZArith Lia.
From stdpp Require Import base list list_numbers.
From S2P Require Import Prelude Types Platform Raw Buffer BufferSpec Ops Bitmap Inode Volume.

Section inodespec.
Context (cx : mofs_ctx_t) (nblk : Z) (Hvol : vol_ok cx nblk).
Abbreviation sb := (sp_blk cx).
Abbreviation bs := (blk_size (sp_blk cx)).
Abbreviation is_inode n := (0 <= n < inode_num (sp_blk cx)).

(** The inodes that can be handed out, in increasing order: 0, 1 and the root are reserved. *)
Definition free_inodes (d : disk) : list Z :=
  allocatable cx (inode_num sb) 3 (inode_bitmap_start sb) d 0 (inode_num sb).

Lemma elem_of_free_inodes d i : i ∈ free_inodes d <-> 3 <= i < inode_num sb /\ inode_bit cx d i = false.
Proof.
  rewrite list_elem_of_In. unfold free_inodes. rewrite allocatable_spec. unfold can_alloc. fold (inode_bit cx).
  rewrite !andb_true_iff, negb_true_iff, Z.leb_le, Z.ltb_lt. pose proof (vo_inodes _ _ Hvol). intuition lia.
Qed.

Lemma inode_blk_vol i : is_inode i -> 0 <= inode_bitmap_start sb + i / (bs * 8) < nblk.
Proof. intros Hi. pose proof (inode_bitmap_blk cx nblk Hvol i Hi). destruct Hvol. lia. Qed.

Lemma wp_set_inode_bit i u Q a :
  disk_ok cx nblk (a_disk a) -> 3 <= i < inode_num sb -> Q (Ok tt) (set_disk (put_inode_bit cx (a_disk a) i u) a) ->
  wp cx nblk (set_inode_bitmap_bit cx i u) Q a.
Proof.
  intros Hd Hi HQ. unfold set_inode_bitmap_bit.
  rewrite (proj2 (Z.ltb_ge _ _)), (proj2 (Z.leb_gt _ _)) by lia. cbn [orb].
  apply (wp_set_bitmap_bit cx nblk Hvol); [done|apply inode_blk_vol; lia|done].
Qed.

Lemma disk_ok_put_inode_bit d i u : disk_ok cx nblk d -> is_inode i -> disk_ok cx nblk (put_inode_bit cx d i u).
Proof. intros Hd Hi. apply disk_ok_put_bitmap_bit; [done|by apply inode_blk_vol]. Qed.

Lemma inode_bit_put d i j u : disk_ok cx nblk d -> is_inode i -> 0 <= j ->
  inode_bit cx (put_inode_bit cx d i u) j = if j =? i then u else inode_bit cx d j.
Proof. intros Hd Hi Hj. apply (bitmap_bit_put cx nblk Hvol); [done|by apply inode_blk_vol|lia|done]. Qed.

Lemma put_inode_bit_other d i u b : is_inode i ->
  ~ (inode_bitmap_start sb <= b < data_bitmap_start sb) -> put_inode_bit cx d i u b = d b.
Proof.
  intros Hi Hb. unfold put_inode_bit, put_bitmap_bit. apply upd_ne.
  pose proof (inode_bitmap_blk cx nblk Hvol i Hi). lia.
Qed.

Lemma wp_find_free_inodes need Q a :
  0 <= need -> disk_ok cx nblk (a_disk a) ->
  (blen (free_inodes (a_disk a)) < need -> Q (Err MOFS_ENOSPC) a) ->
  (need <= blen (free_inodes (a_disk a)) -> Q (Ok (take (Z.to_nat need) (free_inodes (a_disk a)))) a) ->
  wp cx nblk (find_free_inode_indices cx need) Q a.
Proof.
  intros Hn Hd Herr Hok. unfold find_free_inode_indices. pose proof Hvol as [].
  assert (Hu : u32 (data_bitmap_start sb - inode_bitmap_start sb) = data_bitmap_start sb - inode_bitmap_start sb) by (apply u32_small; lia).
  rewrite Hu. apply (wp_find_free_indices cx nblk Hvol) with (d := a_disk a); try done; lia.
Qed.

(** [allocate_inode]: the lowest free inode, or [MOFS_ENOSPC]. *)
Lemma wp_allocate_inode Q a :
  disk_ok cx nblk (a_disk a) ->
  (free_inodes (a_disk a) = [] -> Q (Err MOFS_ENOSPC) a) ->
  (forall i r, free_inodes (a_disk a) = i :: r -> Q (Ok i) (set_disk (put_inode_bit cx (a_disk a) i true) a)) ->
  wp cx nblk (allocate_inode cx) Q a.
Proof.
  intros Hd Herr Hok. unfold allocate_inode.
  apply wp_bind, wp_find_free_inodes; [lia|done|..].
  - intros Hl. wp_simpl. apply Herr. destruct (free_inodes (a_disk a)); [done|simpl in Hl; lia].
  - intros Hl. destruct (free_inodes (a_disk a)) as [|i r] eqn:Hf; [simpl in Hl; lia|].
    assert (Hi : i ∈ free_inodes (a_disk a)) by (rewrite Hf; left). apply elem_of_free_inodes in Hi as [Hi _].
    wp_simpl. change (default 0 (head (take (Z.to_nat 1) (i :: r)))) with i. apply wp_bind, wp_on_error, wp_set_inode_bit; [done|done|]. wp_simpl.
    apply wp_ret. rewrite s32_small by (destruct Hvol; lia). by apply (Hok i r).
Qed.

(** [free_inode]: the bit is cleared and the inode zeroed. *)
Lemma wp_free_inode n Q a :
  disk_ok cx nblk (a_disk a) -> 3 <= n < inode_num sb ->
  Q (Ok tt) (set_disk (put_inode cx (put_inode_bit cx (a_disk a) n false) n zero_inode) a) ->
  wp cx nblk (free_inode cx n) Q a.
Proof.
  intros Hd Hn HQ. unfold free_inode.
  rewrite (proj2 (Z.ltb_ge _ _)), (proj2 (Z.leb_gt _ _)) by lia. cbn [orb].
  apply wp_bind, wp_set_inode_bit; [done|done|]. wp_simpl.
  apply wp_on_error, (wp_write_inode cx nblk Hvol); [apply disk_ok_put_inode_bit; [done|lia]|lia|done|exact HQ].
Qed.

(** *** Time stamps *)

Lemma wp_stamp_now inode mask Q a : mask <> 0 ->
  (forall t, 0 <= t < 2 ^ 64 -> Q (Ok (stamp_times t mask inode)) a) ->
  wp cx nblk (mofs_inode_stamp_now inode mask) Q a.
Proof.
  intros Hm HQ. unfold mofs_inode_stamp_now. rewrite (proj2 (Z.eqb_neq _ _)) by done.
  apply wp_bind, wp_call. simpl. intros t Ht. by apply HQ.
Qed.

Lemma stamp_times_fits t mask i : 0 <= t < 2 ^ 64 -> inode_fits i -> inode_fits (stamp_times t mask i).
Proof. intros Ht []. constructor; simpl; try done; by case_match. Qed.

Lemma zero_inode_fits : inode_fits zero_inode.
Proof. constructor; done. Qed.

Lemma wp_stamp_persist n mask Q a :
  disk_ok cx nblk (a_disk a) -> is_inode n -> mask <> 0 ->
  (forall t, 0 <= t < 2 ^ 64 -> Q (Ok tt) (set_disk (put_inode cx (a_disk a) n (stamp_times t mask (inode_at cx (a_disk a) n))) a)) ->
  wp cx nblk (mofs_inode_stamp_persist cx n mask) Q a.
Proof.
  intros Hd Hn Hm HQ. unfold mofs_inode_stamp_persist. rewrite (inum_guard cx) by done.
  rewrite (proj2 (Z.eqb_neq _ _)) by done. cbn [orb].
  pose proof (bs_range cx nblk Hvol). pose proof (tbl_blk_vol cx nblk Hvol n Hn) as Hb.
  pose proof (tbl_off_range cx nblk Hvol n ltac:(lia)) as Ho.
  rewrite (inode_blk_eq cx nblk Hvol) by done. rewrite (inode_off_eq cx nblk Hvol) by done.
  apply wp_bind, wp_malloc; [unfold io_blk_sz; lia|]. intros buf Hbuf. wp_simpl.
  apply wp_locked, wp_bind, (wp_read_full cx nblk Hvol); [done|done|done|]. wp_simpl. fold (inode_at cx (a_disk a) n).
  apply wp_bind, wp_stamp_now; [done|]. intros t Ht. wp_simpl.
  pose proof (inode_at_fits cx nblk Hvol (a_disk a) n Hd Hn) as Hfit.
  apply (wp_write_full cx nblk Hvol); [done| |by apply HQ].
  rewrite length_bsplice, Hd; [done|done|lia|].
  rewrite length_encode_inode_Z by apply Hfit. rewrite Hd by done. lia.
Qed.

End inodespec.
