(* ===== verification/VolInv.v ===== *)
(** * The allocation invariant of a volume

    [vol_files d F]: every inode [n] of the disk [d] maps the blocks [F n], no
    block belongs to two files (or twice to one), and the data bitmap marks
    exactly the blocks that belong to a file: there is neither a doubly used
    nor a leaked block.  Growing, shrinking and failing to grow a file keep it,
    and keep the contents of all other files. *)

From Stdlib Require Import ZArith Lia.
From stdpp Require Import base list list_numbers.
From S2P Require Import Prelude Types Platform Raw Buffer BufferSpec Ops Bitmap Inode Block Volume BlockSpec AllocSpec FreeSpec.

(** List nodes and data blocks of every file. *)
Definition files : Type := Z -> list Z * list Z.

Definition file_blocks (F : files) (n : Z) : list Z := (F n).1 ++ (F n).2.

Definition set_file (F : files) (n : Z) (x : list Z * list Z) : files := fun m => if m =? n then x else F m.

Lemma set_file_eq F n x : set_file F n x n = x.
Proof. unfold set_file. by rewrite Z.eqb_refl. Qed.

Lemma set_file_ne F n x m : m <> n -> set_file F n x m = F m.
Proof. intros H. unfold set_file. by rewrite (proj2 (Z.eqb_neq m n)). Qed.

Lemma set_file_self F n m : set_file F n ((F n).1, (F n).2) m = F m.
Proof. unfold set_file. destruct (Z.eqb_spec m n) as [->|]; [by destruct (F n)|done]. Qed.

Lemma file_blocks_set_eq F n x : file_blocks (set_file F n x) n = x.1 ++ x.2.
Proof. unfold file_blocks. by rewrite set_file_eq. Qed.

Lemma file_blocks_set_ne F n x m : m <> n -> file_blocks (set_file F n x) m = file_blocks F m.
Proof. intros H. unfold file_blocks. by rewrite set_file_ne. Qed.

(** Membership in concatenations of block lists. *)
Ltac elems := unfold file_blocks in *; rewrite ?elem_of_app in *; tauto.

Section inv.
Context (cx : mofs_ctx_t) (nblk : Z) (Hvol : vol_ok cx nblk).
Abbreviation sb := (sp_blk cx).
Abbreviation drs := (data_region_start (sp_blk cx)).
Abbreviation in_data i := (0 <= i < data_blk_num (sp_blk cx)).
Abbreviation is_inode n := (0 <= n < inode_num (sp_blk cx)).

Record vol_files (d : disk) (F : files) : Prop := {
  vf_map : forall n, is_inode n -> file_map cx nblk d n (F n).1 (F n).2;
  vf_disj : forall n m b, is_inode n -> is_inode m -> n <> m -> b ∈ file_blocks F n -> b ∉ file_blocks F m;
  vf_exact : forall j, in_data j -> data_bit cx d j = true -> exists n, is_inode n /\ drs + j ∈ file_blocks F n
}.

Lemma vf_range d F n b : vol_files d F -> is_inode n -> b ∈ file_blocks F n -> drs <= b < nblk.
Proof.
  intros H Hn Hb. pose proof (vf_map _ _ H n Hn) as Hm. apply elem_of_app in Hb as [Hb|Hb].
  - apply (proj1 (Forall_forall _ _) (fm_nodes_range cx nblk _ _ _ _ Hm)), Hb.
  - apply (proj1 (Forall_forall _ _) (fm_range _ _ _ _ _ _ Hm)), Hb.
Qed.

Lemma vf_used d F n b : vol_files d F -> is_inode n -> b ∈ file_blocks F n -> data_bit cx d (b - drs) = true.
Proof. intros H Hn. apply (fm_used _ _ _ _ _ _ (vf_map _ _ H n Hn)). Qed.

Lemma vol_files_ext d F F' : vol_files d F -> (forall n, F' n = F n) -> vol_files d F'.
Proof.
  intros HF He. assert (Hb : forall n, file_blocks F' n = file_blocks F n) by (intros n; unfold file_blocks; by rewrite He). split.
  - intros n Hn. rewrite He. by apply HF.
  - intros n m b. rewrite !Hb. apply (vf_disj _ _ HF).
  - intros j Hj Hd. destruct (vf_exact _ _ HF j Hj Hd) as (n & Hn & Hin). exists n. by rewrite Hb.
Qed.

(** The contents of a file depend on its own blocks only. *)
Definition same_file (d d' : disk) (F : files) (n : Z) : Prop :=
  inode_at cx d' n = inode_at cx d n /\ forall b, b ∈ file_blocks F n -> d' b = d b.

(** A change of the mapping of one file: the generic step of the invariant. *)
Lemma vol_files_step d d' F inum nodes ptrs :
  vol_files d F -> is_inode inum ->
  file_map cx nblk d' inum nodes ptrs ->
  (forall b, b ∈ nodes ++ ptrs -> b ∈ file_blocks F inum \/ data_bit cx d (b - drs) = false) ->
  (forall m, is_inode m -> m <> inum -> same_file d d' F m) ->
  (forall j, in_data j -> data_bit cx d' j =
     bool_decide (drs + j ∈ nodes ++ ptrs) || (data_bit cx d j && negb (bool_decide (drs + j ∈ file_blocks F inum)))) ->
  vol_files d' (set_file F inum (nodes, ptrs)).
Proof.
  intros HF Hi Hm Hnew Hsame Hbits.
  assert (Hfree : forall m b, is_inode m -> m <> inum -> b ∈ file_blocks F m -> b ∉ nodes ++ ptrs).
  { intros m b Hm' Hne Hb Hin. destruct (Hnew b Hin) as [Ho|Hf].
    - by apply (vf_disj _ _ HF m inum b Hm' Hi).
    - pose proof (vf_used _ _ _ _ HF Hm' Hb). congruence. }
  split.
  - intros n Hn. destruct (decide (n = inum)) as [->|Hne]; [by rewrite set_file_eq|].
    rewrite set_file_ne by done. destruct (Hsame n Hn Hne) as [Hin Hb].
    eapply file_map_ext; [by apply (vf_map _ _ HF)|done|intros b ?; apply Hb; elems|].
    intros b Hbn. pose proof (vf_range _ _ _ _ HF Hn Hbn) as Hr. destruct Hvol.
    rewrite Hbits by lia. replace (drs + (b - drs)) with b by lia.
    rewrite (vf_used _ _ _ _ HF Hn Hbn). rewrite (bool_decide_eq_false_2 (b ∈ file_blocks F inum)); [apply orb_true_r|].
    by apply (vf_disj _ _ HF n inum b).
  - intros n m b Hn Hm' Hne Hb.
    destruct (decide (n = inum)) as [->|Hni]; destruct (decide (m = inum)) as [->|Hmi]; try done.
    + rewrite file_blocks_set_eq in Hb. rewrite file_blocks_set_ne by done. intros Hb'. by apply (Hfree m b).
    + rewrite file_blocks_set_ne in Hb by done. rewrite file_blocks_set_eq. by apply (Hfree n b).
    + rewrite !file_blocks_set_ne in * by done. by apply (vf_disj _ _ HF n m b).
  - intros j Hj Hd. rewrite Hbits in Hd by done. apply orb_true_iff in Hd as [Hd|Hd].
    + exists inum. rewrite file_blocks_set_eq. apply bool_decide_eq_true in Hd. done.
    + apply andb_true_iff in Hd as [Hd Ho]. apply negb_true_iff, bool_decide_eq_false in Ho.
      destruct (vf_exact _ _ HF j Hj Hd) as (n & Hn & Hb). exists n. split; [done|].
      rewrite file_blocks_set_ne; [done|]. by intros ->.
Qed.

(** ** Growing *)

Lemma grown_same d d' F inum nodes' new m :
  vol_files d F -> is_inode inum -> grown cx nblk d d' inum (F inum).1 (F inum).2 nodes' new ->
  is_inode m -> m <> inum -> same_file d d' F m.
Proof.
  intros HF Hi Hg Hm Hne. split; [by apply (os_inode _ _ _ _ _ (gr_others _ _ _ _ _ _ _ _ _ Hg))|].
  intros b Hb. apply (gr_data _ _ _ _ _ _ _ _ _ Hg); [by eapply vf_range|..].
  - pose proof (vf_disj _ _ HF m inum b Hm Hi Hne Hb). elems.
  - intros Hn. destruct (gr_fresh _ _ _ _ _ _ _ _ _ Hg b) as [_ Hf]; [elems|].
    pose proof (vf_used _ _ _ _ HF Hm Hb). congruence.
Qed.

Lemma grown_files d d' F inum nodes' new :
  vol_files d F -> is_inode inum -> grown cx nblk d d' inum (F inum).1 (F inum).2 nodes' new ->
  vol_files d' (set_file F inum (nodes', (F inum).2 ++ new)).
Proof.
  intros HF Hi Hg. eapply vol_files_step; [done|done|by apply (gr_map _ _ _ _ _ _ _ _ _ Hg)|..].
  - intros b Hb. destruct (decide (b ∈ (F inum).2)) as [|Hn]; [left; elems|right].
    apply (gr_fresh _ _ _ _ _ _ _ _ _ Hg). elems.
  - intros m Hm Hne. exact (grown_same d d' F inum nodes' new m HF Hi Hg Hm Hne).
  - intros j Hj. rewrite (gr_bits _ _ _ _ _ _ _ _ _ Hg j Hj). unfold file_blocks.
    destruct (decide (drs + j ∈ (F inum).2)) as [Hin|Hout].
    + pose proof (vf_used d F inum (drs + j) HF Hi) as Hu. replace (drs + j - drs) with j in Hu by lia.
      rewrite Hu by elems. rewrite (bool_decide_eq_true_2 (drs + j ∈ nodes' ++ _ ++ new)) by elems.
      rewrite (bool_decide_eq_false_2 (drs + j ∈ (F inum).1)); [apply orb_true_r|].
      intros Hin'. pose proof (fm_nodup _ _ _ _ _ _ (vf_map _ _ HF inum Hi)) as Hnd.
      apply NoDup_app in Hnd as (_ & Hd & _). by apply (Hd _ Hin').
    + f_equal; [|do 2 f_equal]; apply bool_decide_ext; elems.
Qed.

(** The file itself keeps the contents of the blocks it had. *)
Lemma grown_keeps d d' F inum nodes' new b :
  vol_files d F -> is_inode inum -> grown cx nblk d d' inum (F inum).1 (F inum).2 nodes' new ->
  b ∈ (F inum).2 -> d' b = d b.
Proof.
  intros HF Hi Hg Hb. pose proof (vf_map _ _ HF inum Hi) as Hm.
  assert (Hin : b ∈ file_blocks F inum) by elems.
  apply (gr_data _ _ _ _ _ _ _ _ _ Hg); [by eapply vf_range|..].
  - intros Hn. pose proof (fm_nodup _ _ _ _ _ _ Hm) as Hnd. apply NoDup_app in Hnd as (_ & Hd & _). by apply (Hd b).
  - intros Hn. destruct (gr_fresh _ _ _ _ _ _ _ _ _ Hg b) as [_ Hf]; [elems|].
    pose proof (vf_used _ _ _ _ HF Hi Hin). congruence.
Qed.

(** ** Shrinking *)

Lemma shrunk_keeps d d' inum nodes nodes' pre freed post b :
  file_map cx nblk d inum nodes (pre ++ freed ++ post) ->
  shrunk cx nblk d d' inum nodes nodes' (pre ++ post) freed -> b ∈ pre ++ post -> d' b = d b.
Proof.
  intros Hm Hs Hb. pose proof (fm_nodup _ _ _ _ _ _ Hm) as Hnd.
  apply NoDup_app in Hnd as (_ & Hd & Hnd). apply NoDup_app in Hnd as (_ & Hp1 & Hnd). apply NoDup_app in Hnd as (_ & Hp2 & _).
  specialize (Hd b). specialize (Hp1 b). specialize (Hp2 b).
  assert (Hin : b ∈ pre ++ freed ++ post) by elems.
  apply (sh_data _ _ _ _ _ _ _ _ _ Hs); [apply (proj1 (Forall_forall _ _) (fm_range _ _ _ _ _ _ Hm)), Hin|elems| |elems].
  pose proof (fm_nodup _ _ _ _ _ _ (sh_map _ _ _ _ _ _ _ _ _ Hs)) as Hnd'.
  apply NoDup_app in Hnd' as (_ & Hd' & _). intros Hn. by apply (Hd' b).
Qed.

Lemma shrunk_same d d' F inum nodes' keep freed m :
  vol_files d F -> is_inode inum -> shrunk cx nblk d d' inum (F inum).1 nodes' keep freed ->
  (forall b, b ∈ freed -> b ∈ (F inum).2) -> is_inode m -> m <> inum -> same_file d d' F m.
Proof.
  intros HF Hi Hs Hfr Hm Hne. split; [by apply (os_inode _ _ _ _ _ (sh_others _ _ _ _ _ _ _ _ _ Hs))|].
  intros b Hb. pose proof (vf_disj _ _ HF m inum b Hm Hi Hne Hb) as Hd.
  assert (b ∉ freed) by (intros Hf; apply Hd; specialize (Hfr b Hf); elems).
  apply (sh_data _ _ _ _ _ _ _ _ _ Hs); [by eapply vf_range|elems| |done].
  intros Hn. destruct (sh_fresh _ _ _ _ _ _ _ _ _ Hs b) as [_ [Hf|Hf]]; try done.
  pose proof (vf_used _ _ _ _ HF Hm Hb). congruence.
Qed.

Lemma shrunk_files d d' F inum nodes' pre freed post :
  vol_files d F -> is_inode inum -> (F inum).2 = pre ++ freed ++ post ->
  shrunk cx nblk d d' inum (F inum).1 nodes' (pre ++ post) freed ->
  vol_files d' (set_file F inum (nodes', pre ++ post)).
Proof.
  intros HF Hi Hp Hs. pose proof (fm_nodup _ _ _ _ _ _ (vf_map _ _ HF inum Hi)) as Hnd.
  eapply vol_files_step; [done|done|by apply (sh_map _ _ _ _ _ _ _ _ _ Hs)|..].
  - intros b Hb. unfold file_blocks. rewrite Hp. destruct (decide (b ∈ pre ++ post)) as [|Hn]; [left; elems|].
    destruct (sh_fresh _ _ _ _ _ _ _ _ _ Hs b) as [_ [Hf|Hf]]; [elems|by right|left; elems].
  - intros m Hm Hne. apply (shrunk_same d d' F inum nodes' (pre ++ post) freed m); try done.
    intros b Hb. rewrite Hp. elems.
  - intros j Hj. rewrite (sh_bits _ _ _ _ _ _ _ _ _ Hs j Hj). unfold file_blocks. rewrite Hp in *.
    destruct (decide (drs + j ∈ pre ++ post)) as [Hin|Hout].
    + pose proof (vf_used d F inum (drs + j) HF Hi) as Hu. replace (drs + j - drs) with j in Hu by lia.
      rewrite Hu by (unfold file_blocks; rewrite Hp; elems).
      rewrite (bool_decide_eq_true_2 (drs + j ∈ nodes' ++ _)) by elems.
      rewrite (bool_decide_eq_false_2 (drs + j ∈ _ ++ freed)); [apply orb_true_r|].
      apply NoDup_app in Hnd as (_ & Hd & Hnd). apply NoDup_app in Hnd as (_ & Hp1 & Hnd).
      apply NoDup_app in Hnd as (_ & Hp2 & _).
      specialize (Hd (drs + j)). specialize (Hp1 (drs + j)). specialize (Hp2 (drs + j)). elems.
    + f_equal; [|do 2 f_equal]; apply bool_decide_ext; elems.
Qed.

(** ** Nothing changed *)

Lemma unchanged_same d d' F n : vol_files d F -> is_inode n -> unchanged cx nblk d d' -> same_file d d' F n.
Proof.
  intros HF Hn Hu. split.
  - unfold inode_at. rewrite (un_blocks _ _ _ _ Hu); [done|].
    pose proof (tbl_blk_range cx nblk Hvol n Hn). lia.
  - intros b Hb. apply (un_blocks _ _ _ _ Hu). pose proof (vf_range _ _ _ _ HF Hn Hb). destruct Hvol. lia.
Qed.

Lemma unchanged_files d d' F : vol_files d F -> unchanged cx nblk d d' -> vol_files d' F.
Proof.
  intros HF Hu. split; [|by apply (vf_disj _ _ HF)|].
  - intros n Hn. destruct (unchanged_same _ _ _ n HF Hn Hu) as [Hi Hb].
    eapply file_map_ext; [by apply (vf_map _ _ HF)|done|intros b ?; apply Hb; elems|].
    intros b Hbn. pose proof (vf_range _ _ _ _ HF Hn Hbn). destruct Hvol.
    rewrite (un_bits _ _ _ _ Hu) by lia. by eapply vf_used.
  - intros j Hj Hd. rewrite (un_bits _ _ _ _ Hu) in Hd by done. by apply (vf_exact _ _ HF).
Qed.

End inv.
