(* ===== verification/FileSpec.v ===== *)
(** * Correctness of block-wise file access

    The contents of a file as a byte sequence, and what
    [read_file_data_block] and [write_file_data_block] make of it. *)

From Stdlib Require Import ZArith Lia.
From stdpp Require Import base list list_numbers.
From S2P Require Import Prelude Types Platform Raw Buffer BufferSpec Ops Bitmap Inode Block FileData Volume BlockSpec AllocSpec.

(** ** Sequences of equally long pieces *)

Lemma take_concat {A} (n k : nat) (ls : list (list A)) :
  Forall (fun l => length l = n) ls -> take (k * n) (concat ls) = concat (take k ls).
Proof.
  intros H. revert k. induction H as [|l ls Hl _ IH]; intros k; [by destruct (k * n)%nat, k|].
  destruct k as [|k]; [done|]. simpl. rewrite take_app, Hl, (take_ge l) by lia. f_equal.
  replace (n + k * n - n)%nat with (k * n)%nat by lia. apply IH.
Qed.

Lemma drop_concat {A} (n k : nat) (ls : list (list A)) :
  Forall (fun l => length l = n) ls -> drop (k * n) (concat ls) = concat (drop k ls).
Proof.
  intros H. revert k. induction H as [|l ls Hl _ IH]; intros k; [by destruct (k * n)%nat, k|].
  destruct k as [|k]; [done|]. simpl. rewrite drop_app, Hl, (drop_ge l) by lia. simpl.
  replace (n + k * n - n)%nat with (k * n)%nat by lia. apply IH.
Qed.

Lemma length_concat_uniform {A} (n : nat) (ls : list (list A)) :
  Forall (fun l => length l = n) ls -> length (concat ls) = (length ls * n)%nat.
Proof. induction 1 as [|l ls Hl _ IH]; [done|]. simpl. rewrite length_app, Hl, IH. lia. Qed.

(** ** Contents of files *)

(** The bytes in the blocks [ptrs], in order. *)
Definition content (d : disk) (ptrs : list Z) : list byte := concat (d <$> ptrs).

(** The bytes of a file of [size] bytes. *)
Definition file_bytes (d : disk) (ptrs : list Z) (size : Z) : list byte := take (Z.to_nat size) (content d ptrs).

Lemma content_app d l m : content d (l ++ m) = content d l ++ content d m.
Proof. unfold content. by rewrite fmap_app, concat_app. Qed.

Lemma content_ext d d' l : (forall b, b ∈ l -> d' b = d b) -> content d' l = content d l.
Proof.
  intros H. unfold content. f_equal. apply list_fmap_ext. intros i x Hx. apply H. by eapply list_elem_of_lookup_2.
Qed.

Section filespec.
Context (cx : mofs_ctx_t) (nblk : Z) (Hvol : vol_ok cx nblk).
Abbreviation sb := (sp_blk cx).
Abbreviation bs := (blk_size (sp_blk cx)).
Abbreviation drs := (data_region_start (sp_blk cx)).
Abbreviation is_inode n := (0 <= n < inode_num (sp_blk cx)).
Abbreviation file_map := (file_map cx nblk).
Abbreviation in_vol l := (Forall (fun b => drs <= b < nblk) l).

Lemma content_pieces d l : disk_ok cx nblk d -> in_vol l -> Forall (fun x => length x = Z.to_nat bs) (d <$> l).
Proof.
  intros Hd Hl. apply Forall_fmap. eapply Forall_impl; [exact Hl|]. intros b Hb. simpl in *.
  pose proof (drs_pos cx nblk Hvol). pose proof (Hd b ltac:(lia)). lia.
Qed.

Lemma content_len d l : disk_ok cx nblk d -> in_vol l -> blen (content d l) = blen l * bs.
Proof.
  intros Hd Hl. unfold content. rewrite (length_concat_uniform (Z.to_nat bs)) by by apply content_pieces.
  rewrite length_fmap. pose proof (bs_range cx nblk Hvol). nia.
Qed.

(** Whole blocks of the contents are the contents of a part of the block list. *)
Lemma content_slice d l i n : disk_ok cx nblk d -> in_vol l -> 0 <= i -> 0 <= n ->
  bslice (i * bs) (n * bs) (content d l) = content d (bslice i n l).
Proof.
  intros Hd Hl Hi Hn. pose proof (bs_range cx nblk Hvol). unfold bslice, content.
  replace (Z.to_nat (i * bs)) with (Z.to_nat i * Z.to_nat bs)%nat by nia.
  replace (Z.to_nat (n * bs)) with (Z.to_nat n * Z.to_nat bs)%nat by nia.
  rewrite drop_concat by by apply content_pieces. rewrite <- fmap_drop.
  rewrite take_concat by (apply content_pieces; [done|by apply Forall_drop]). by rewrite <- fmap_take.
Qed.

Lemma content_block d l i b : disk_ok cx nblk d -> in_vol l -> 0 <= i -> l !! Z.to_nat i = Some b ->
  bslice (i * bs) bs (content d l) = d b.
Proof.
  intros Hd Hl Hi Hb. replace bs with (1 * bs) at 2 by lia. rewrite content_slice by (try done; lia).
  unfold bslice. change (Z.to_nat 1) with 1%nat. rewrite (drop_S _ _ _ Hb). unfold content. simpl. apply app_nil_r.
Qed.

(** Overwriting one block of the list. *)
Lemma content_upd d l i b x : disk_ok cx nblk d -> in_vol l -> NoDup l -> 0 <= i -> l !! Z.to_nat i = Some b -> blen x = bs ->
  content (upd d b x) l = bsplice (i * bs) x (content d l).
Proof.
  intros Hd Hl Hnd Hi Hb Hx. pose proof (bs_range cx nblk Hvol).
  pose proof (take_drop_middle l _ _ Hb) as Hsplit. set (p := take (Z.to_nat i) l) in *. set (r := drop (S (Z.to_nat i)) l) in *.
  assert (Hp : blen p = i) by (unfold p; rewrite length_take; apply lookup_lt_Some in Hb; lia).
  rewrite <- Hsplit in *. apply NoDup_app in Hnd as (_ & Hpb & Hnd). apply NoDup_cons in Hnd as [Hbr _].
  assert (in_vol p /\ in_vol r) as [Hvp Hvr] by (apply Forall_app in Hl as [? Hr]; apply Forall_cons in Hr as [_ ?]; done).
  assert (Hb0 : 0 <= b < nblk).
  { pose proof (drs_pos cx nblk Hvol). apply Forall_app in Hl as [_ Hr]. apply Forall_cons in Hr as [? _]. lia. }
  rewrite !content_app. change (content ?e (b :: r)) with (e b ++ content e r). rewrite upd_eq.
  change (content d (b :: r)) with (d b ++ content d r).
  rewrite !(content_ext d (upd d b x)).
  2: { intros c Hc. apply upd_ne. intros ->. done. }
  2: { intros c Hc. apply upd_ne. intros ->. apply (Hpb b Hc). left. }
  pose proof (content_len d p Hd Hvp) as Hcl. rewrite Hp in Hcl. specialize (Hd b Hb0).
  unfold bsplice. rewrite take_app_length' by nia. f_equal. f_equal.
  rewrite drop_app_ge by nia. rewrite drop_app_ge by nia.
  replace (Z.to_nat (i * bs) + length x - length (content d p) - length (d b))%nat with 0%nat by nia. done.
Qed.

(** ** Reading *)

Lemma fm_block d n nodes ptrs i : file_map d n nodes ptrs -> 0 <= i < blen ptrs ->
  exists b, ptrs !! Z.to_nat i = Some b /\ drs <= b < nblk.
Proof.
  intros Hfm Hi. destruct (lookup_lt_is_Some_2 ptrs (Z.to_nat i)) as [b Hb]; [lia|]. exists b. split; [done|].
  by apply (Forall_lookup_1 _ _ _ _ (fm_range _ _ _ _ _ _ Hfm) Hb).
Qed.

Lemma wp_read_file_loop inum nodes ptrs start n : forall i buf Q a,
  let d := a_disk a in
  disk_ok cx nblk d -> is_inode inum -> file_map d inum nodes ptrs ->
  0 <= start -> 0 <= i -> start + i + Z.of_nat n <= blen ptrs -> (i + Z.of_nat n) * bs <= blen buf ->
  Q (Ok (i + Z.of_nat n, 0, bsplice (i * bs) (content d (bslice (start + i) (Z.of_nat n) ptrs)) buf)) a ->
  wp cx nblk (read_file_loop cx inum start n i buf) Q a.
Proof.
  induction n as [|n IH]; intros i buf Q a d Hd Hin Hfm Hs Hi Hn Hbuf HQ; cbn [read_file_loop].
  { apply wp_ret. rewrite bslice_0_len in HQ. change (content d []) with (@nil byte) in HQ. by rewrite bsplice_nil, Z.add_0_r in HQ. }
  pose proof (bs_range cx nblk Hvol) as Hbs. pose proof (fm_max _ _ _ _ _ _ Hfm) as Hmax. unfold MOFS_MAX_FILE_DATA_BLOCKS in Hmax.
  destruct (fm_block _ _ _ _ (start + i) Hfm ltac:(lia)) as (b & Hb & Hbr). pose proof (drs_pos cx nblk Hvol).
  rewrite u32_small by lia.
  apply wp_bind, (wp_resolve cx nblk Hvol inum nodes ptrs (start + i) b); try done; try lia;
    [by apply Hfm|by eapply fm_nodes_nodup|by apply Hfm|]. wp_simpl.
  apply wp_bind, wp_call. simpl. split_and!; try done; try lia; [rewrite length_drop; nia|].
  change (Pos.to_nat 1) with 1%nat. rewrite blocks_at_1. fold d.
  pose proof (Hd b ltac:(lia)) as Hlb.
  assert (Hsp : take (Z.to_nat (i * bs)) buf ++ bsplice 0 (d b) (drop (Z.to_nat (i * bs)) buf) = bsplice (i * bs) (d b) buf).
  { unfold bsplice. change (Z.to_nat 0) with 0%nat. rewrite Nat.add_0_l. cbn [take app]. by rewrite drop_drop. }
  rewrite Hsp. apply IH; try done; try lia; [rewrite length_bsplice; nia|].
  replace ((i + 1) * bs) with (i * bs + blen (d b)) by nia. rewrite bsplice_app by nia. fold d.
  replace (i + 1 + Z.of_nat n) with (i + Z.of_nat (S n)) by lia.
  replace (start + (i + 1)) with (start + i + 1) by lia.
  replace (d b ++ content d (bslice (start + i + 1) (Z.of_nat n) ptrs)) with (content d (bslice (start + i) (Z.of_nat (S n)) ptrs)); [exact HQ|].
  replace (Z.of_nat (S n)) with (1 + Z.of_nat n) by lia. rewrite bslice_add by lia. rewrite content_app. f_equal.
  rewrite <- content_slice by (try done; try lia; apply Hfm). replace (1 * bs) with bs by lia. apply content_block; try done; [apply Hfm|lia].
Qed.

(** The number of blocks of a file of [size] bytes. *)
Lemma size_blks_eq size : 0 <= size -> size + bs <= 2 ^ 32 -> size_blks cx size = ceil_div size bs.
Proof. intros H1 H2. unfold size_blks, ceil_div. rewrite u32_small; [done|]. pose proof (bs_range cx nblk Hvol). lia. Qed.

(** The mapping holds enough blocks for the size of the file. *)
Definition covers (d : disk) (inum : Z) (ptrs : list Z) : Prop :=
  i_size (inode_at cx d inum) <= blen ptrs * bs.

Lemma covers_small d inum nodes ptrs : file_map d inum nodes ptrs -> covers d inum ptrs -> i_size (inode_at cx d inum) <= 2 ^ 26.
Proof.
  intros Hfm Hc. pose proof (fm_max _ _ _ _ _ _ Hfm) as Hmax. unfold MOFS_MAX_FILE_DATA_BLOCKS, covers in *.
  pose proof (bs_range cx nblk Hvol). nia.
Qed.

Lemma ceil_div_cases x d : 0 < d -> 0 <= x -> ceil_div x d = x / d + (if x mod d =? 0 then 0 else 1).
Proof.
  intros Hd Hx. pose proof (ceil_div_spec x d Hd) as Hc. pose proof (Z.div_mod x d ltac:(lia)) as He.
  pose proof (Z.mod_pos_bound x d Hd) as Hm. set (q := x / d) in *. set (r := x mod d) in *. set (c := ceil_div x d) in *.
  clearbody q r c. destruct (Z.eqb_spec r 0); nia.
Qed.

(** The last block of a read is partial, or all blocks are full. *)
Lemma read_amount size d start m : 0 < d -> 0 <= size -> 0 <= start -> 0 < m -> start + m <= ceil_div size d ->
  if size / d <? start + m
  then 0 < size mod d < d /\ (m - 1) * d + size mod d = Z.max 0 (Z.min ((start + m) * d) size - start * d)
  else m * d + 0 = Z.max 0 (Z.min ((start + m) * d) size - start * d).
Proof.
  intros Hd Hsz Hs Hm Hle. rewrite ceil_div_cases in Hle by lia.
  pose proof (Z.div_mod size d ltac:(lia)) as He. pose proof (Z.mod_pos_bound size d Hd) as Hr.
  set (q := size / d) in *. set (r := size mod d) in *. clearbody q r.
  destruct (Z.ltb_spec q (start + m)) as [Hlt|Hge].
  - destruct (Z.eqb_spec r 0) as [Hz|Hne]; [lia|]. assert (start + m = q + 1) as -> by lia. split; [lia|].
    assert (m = q + 1 - start) as -> by lia. nia.
  - nia.
Qed.

(** What [read_file_data_block] returns: how many whole blocks, how many bytes
    of a partial last block, and the bytes of the blocks. *)
Definition blocks_read (d : disk) (inum start req : Z) : Z := Z.max 0 (Z.min req (ceil_div (i_size (inode_at cx d inum)) bs - start)).

Lemma wp_read_file_data_block inum nodes ptrs buf start req Q a :
  let d := a_disk a in
  let size := i_size (inode_at cx d inum) in
  let k := blocks_read d inum start req in
  disk_ok cx nblk d -> is_inode inum -> file_map d inum nodes ptrs -> covers d inum ptrs ->
  0 <= start -> 0 <= req -> start + req < 2 ^ 32 -> req * bs <= blen buf ->
  (forall rd frac, 0 <= rd -> 0 <= frac < bs -> rd * bs + frac = Z.max 0 (Z.min ((start + k) * bs) size - start * bs) ->
     (rd = k /\ frac = 0 \/ rd = k - 1 /\ 0 < frac) ->
     Q (Ok (rd, frac, bsplice 0 (content d (bslice start k ptrs)) buf)) a) ->
  wp cx nblk (read_file_data_block cx inum buf start req) Q a.
Proof.
  intros d size k Hd Hin Hfm Hcov Hs Hreq Hw Hbuf HQ. pose proof (bs_range cx nblk Hvol) as Hbs.
  pose proof (covers_small _ _ _ _ Hfm Hcov) as Hsm. fold size in Hsm. unfold covers in Hcov. fold size in Hcov.
  pose proof (fits_size _ (inode_at_fits cx nblk Hvol d inum Hd Hin)) as [Hsz0 _]. fold size in Hsz0.
  pose proof (ceil_div_spec size bs ltac:(lia)) as Hce. unfold k, blocks_read in *. fold size in HQ |- *.
  set (nb := ceil_div size bs) in *.
  unfold read_file_data_block. rewrite (proj2 (Z.ltb_ge _ _)) by lia.
  destruct (Z.eqb_spec req 0) as [->|Hr0].
  { apply wp_ret. specialize (HQ 0 0). replace (Z.max 0 (Z.min 0 (nb - start))) with 0 in HQ by lia.
    rewrite bslice_0_len in HQ. change (content d []) with (@nil byte) in HQ. rewrite bsplice_nil in HQ. apply HQ; [lia|lia| |by left]. rewrite Z.add_0_r. lia. }
  apply wp_bind, (wp_read_inode cx nblk Hvol); [done|done|]. wp_simpl. fold d size.
  rewrite size_blks_eq by lia. fold nb. rewrite (fm_nr _ _ _ _ _ _ Hfm).
  destruct (decide (nb <= start)) as [Hge|Hlt].
  { rewrite (proj2 (Z.leb_le nb start)) by lia. rewrite orb_true_r. apply wp_ret.
    specialize (HQ 0 0). replace (Z.max 0 (Z.min req (nb - start))) with 0 in HQ by lia.
    rewrite bslice_0_len in HQ. change (content d []) with (@nil byte) in HQ. rewrite bsplice_nil in HQ. apply HQ; [lia|lia| |by left]. rewrite Z.add_0_r. lia. }
  assert (Hnbp : nb <= blen ptrs) by nia.
  rewrite (proj2 (Z.leb_gt _ _)), (proj2 (Z.leb_gt _ _)) by lia. cbn [orb].
  rewrite u32_small by lia.
  assert (Hk : (if nb <? start + req then nb - start else req) = Z.max 0 (Z.min req (nb - start))) by (destruct (Z.ltb_spec nb (start + req)); lia).
  rewrite Hk. set (m := Z.max 0 (Z.min req (nb - start))) in *. assert (Hm : 0 < m /\ start + m <= nb /\ m <= req) by lia.
  apply wp_bind, (wp_read_file_loop inum nodes ptrs start (Z.to_nat m)); try done; try lia; [nia|].
  rewrite Z2Nat.id, Z.add_0_l, Z.add_0_r, Z.mul_0_l by lia. wp_simpl. rewrite Z.eqb_refl. cbn [andb].
  rewrite u32_small by lia. fold d.
  pose proof (read_amount size bs start m ltac:(lia) Hsz0 Hs ltac:(lia) ltac:(lia)) as Ham.
  destruct (Z.ltb_spec (size / bs) (start + m)) as [Hpart|Hfull]; apply wp_ret.
  - rewrite u32_small by lia. apply HQ; [lia|lia|apply Ham|right; lia].
  - apply HQ; [lia|lia|apply Ham|by left].
Qed.

(** ** Writing *)

(** [d'] is [d] with [data] at offset [off] of the bytes in the blocks [ptrs]. *)
Record wrote (d d' : disk) (ptrs : list Z) (off : Z) (data : list byte) : Prop := {
  wr_ok : disk_ok cx nblk d';
  wr_content : content d' ptrs = bsplice off data (content d ptrs);
  wr_other : forall b, b ∉ ptrs -> d' b = d b
}.

Lemma wrote_nil d ptrs off : disk_ok cx nblk d -> wrote d d ptrs off [].
Proof. intros Hd. split; [done|by rewrite bsplice_nil|done]. Qed.

Lemma wrote_app d d1 d2 ptrs off x y : disk_ok cx nblk d -> in_vol ptrs -> 0 <= off -> off + blen x <= blen ptrs * bs ->
  wrote d d1 ptrs off x -> wrote d1 d2 ptrs (off + blen x) y -> wrote d d2 ptrs off (x ++ y).
Proof.
  intros Hd Hp Ho Hl [_ H1 O1] [K2 H2 O2]. split; [done| |].
  - rewrite H2, H1. apply bsplice_app; [done|]. by rewrite content_len.
  - intros b Hb. by rewrite O2, O1.
Qed.

(** Writing data blocks leaves all metadata alone. *)
Lemma wrote_low d d' ptrs off x b : in_vol ptrs -> wrote d d' ptrs off x -> b < drs -> d' b = d b.
Proof. intros Hp Hw Hb. apply Hw. intros Hin. apply (proj1 (Forall_forall _ _) Hp) in Hin. lia. Qed.

Lemma wrote_inode d d' ptrs off x n : in_vol ptrs -> wrote d d' ptrs off x -> is_inode n -> inode_at cx d' n = inode_at cx d n.
Proof.
  intros Hp Hw Hn. unfold inode_at. rewrite (wrote_low d d' ptrs off x) by (try done; apply (tbl_blk_range cx nblk Hvol n Hn)). done.
Qed.

Lemma wrote_bit d d' ptrs off x j : in_vol ptrs -> wrote d d' ptrs off x -> 0 <= j < data_blk_num sb -> data_bit cx d' j = data_bit cx d j.
Proof.
  intros Hp Hw Hj. unfold data_bit, bitmap_bit. pose proof (data_bitmap_blk cx nblk Hvol j Hj). pose proof Hvol as [].
  rewrite (wrote_low d d' ptrs off x) by (try done; lia). done.
Qed.

Lemma wrote_map d d' n nodes ptrs off x : is_inode n -> file_map d n nodes ptrs -> wrote d d' ptrs off x -> file_map d' n nodes ptrs.
Proof.
  intros Hn Hfm Hw. pose proof (fm_range _ _ _ _ _ _ Hfm) as Hp. pose proof (fm_nodup _ _ _ _ _ _ Hfm) as Hnd.
  apply NoDup_app in Hnd as (_ & Hd & _).
  eapply file_map_ext; [done|by eapply wrote_inode|intros b Hb; apply Hw; by apply Hd|].
  intros b Hb. assert (drs <= b < nblk) as Hr.
  { apply elem_of_app in Hb as [Hb|Hb]; [apply (proj1 (Forall_forall _ _) (fm_nodes_range cx nblk _ _ _ _ Hfm)), Hb|].
    by apply (proj1 (Forall_forall _ _) Hp). }
  pose proof Hvol as []. rewrite (wrote_bit d d' ptrs off x) by (try done; lia). by apply (fm_used _ _ _ _ _ _ Hfm).
Qed.

Lemma wrote_block d ptrs i b x : disk_ok cx nblk d -> in_vol ptrs -> NoDup ptrs -> 0 <= i -> ptrs !! Z.to_nat i = Some b ->
  blen x = bs -> wrote d (upd d b x) ptrs (i * bs) x.
Proof.
  intros Hd Hp Hnd Hi Hb Hx. split; [by apply disk_ok_upd|by apply content_upd|].
  intros c Hc. apply upd_ne. intros ->. apply Hc. by eapply list_elem_of_lookup_2.
Qed.

Lemma fm_ptrs_nodup d n nodes ptrs : file_map d n nodes ptrs -> NoDup ptrs.
Proof. intros H. pose proof (fm_nodup _ _ _ _ _ _ H) as Hn. apply NoDup_app in Hn. tauto. Qed.

Lemma wp_write_file_loop inum nodes ptrs start n : forall i buf Q a,
  let d := a_disk a in
  disk_ok cx nblk d -> is_inode inum -> file_map d inum nodes ptrs ->
  0 <= start -> 0 <= i -> start + i + Z.of_nat n <= blen ptrs -> (i + Z.of_nat n) * bs <= blen buf ->
  (forall d', wrote d d' ptrs ((start + i) * bs) (bslice (i * bs) (Z.of_nat n * bs) buf) -> Q (Ok (i + Z.of_nat n, 0)) (set_disk d' a)) ->
  wp cx nblk (write_file_loop cx inum start n i buf) Q a.
Proof.
  induction n as [|n IH]; intros i buf Q a d Hd Hin Hfm Hs Hi Hn Hbuf HQ; cbn [write_file_loop].
  { apply wp_ret. rewrite <- (set_disk_id a), <- (Z.add_0_r i). apply HQ. rewrite Z.mul_0_l, bslice_0_len. by apply wrote_nil. }
  pose proof (bs_range cx nblk Hvol) as Hbs. pose proof (fm_max _ _ _ _ _ _ Hfm) as Hmax. unfold MOFS_MAX_FILE_DATA_BLOCKS in Hmax.
  destruct (fm_block _ _ _ _ (start + i) Hfm ltac:(lia)) as (b & Hb & Hbr). pose proof (drs_pos cx nblk Hvol).
  pose proof (vo_end _ _ Hvol) as Hend. pose proof (vo_max _ _ Hvol). pose proof (vo_data _ _ Hvol).
  rewrite (u32_small (start + i)) by lia.
  apply wp_bind, (wp_resolve cx nblk Hvol inum nodes ptrs (start + i) b); try done; try lia;
    [by apply Hfm|by eapply fm_nodes_nodup|by apply Hfm|]. wp_simpl.
  rewrite u32_small, (proj2 (Z.ltb_ge _ _)), (proj2 (Z.leb_gt _ _)) by lia. cbn [orb].
  apply wp_bind, wp_call. simpl. split_and!; try done; try lia; [rewrite length_drop; nia|].
  rewrite Z.add_0_r. fold d.
  set (x := bslice (i * bs) bs buf). match goal with |- context [upd d b ?y] => change y with x end.
  assert (Hlx : blen x = bs) by (unfold x; rewrite length_bslice; nia).
  pose proof (fm_range _ _ _ _ _ _ Hfm) as Hp.
  assert (Hw : wrote d (upd d b x) ptrs ((start + i) * bs) x) by (apply wrote_block; try done; [by eapply fm_ptrs_nodup|lia]).
  apply IH; simpl; try done; try lia; [apply Hw|by eapply wrote_map|].
  intros d' Hw'. replace (i + 1 + Z.of_nat n) with (i + Z.of_nat (S n)) by lia.
  change (set_disk d' (set_disk (upd d b x) a)) with (set_disk d' a). apply HQ.
  replace (Z.of_nat (S n) * bs) with (bs + Z.of_nat n * bs) by nia. rewrite bslice_add by nia.
  replace (i * bs + bs) with ((i + 1) * bs) by nia. fold x.
  eapply wrote_app; [done|done|nia|nia|exact Hw|].
  replace ((start + i) * bs + blen x) with ((start + (i + 1)) * bs) by nia. exact Hw'.
Qed.

(** [write_file_data_block] inside the blocks of the file. *)
Lemma wp_write_file_data_block inum nodes ptrs buf start req Q a :
  let d := a_disk a in
  disk_ok cx nblk d -> is_inode inum -> file_map d inum nodes ptrs ->
  0 <= start -> 0 < req -> start + req <= blen ptrs -> req * bs <= blen buf ->
  (forall d', wrote d d' ptrs (start * bs) (bslice 0 (req * bs) buf) -> Q (Ok (req, 0)) (set_disk d' a)) ->
  wp cx nblk (write_file_data_block cx inum buf start req) Q a.
Proof.
  intros d Hd Hin Hfm Hs Hr Hle Hbuf HQ. unfold write_file_data_block.
  rewrite (proj2 (Z.ltb_ge _ _)), (proj2 (Z.eqb_neq _ _)) by lia.
  apply wp_bind, (wp_read_inode cx nblk Hvol); [done|done|]. wp_simpl. fold d.
  rewrite (fm_nr _ _ _ _ _ _ Hfm). rewrite (proj2 (Z.leb_gt _ _)), (proj2 (Z.ltb_ge _ _)) by lia.
  apply (wp_write_file_loop inum nodes ptrs start (Z.to_nat req)); try done; try lia.
  rewrite Z2Nat.id, !Z.add_0_r, Z.add_0_l, Z.mul_0_l by lia. exact HQ.
Qed.

End filespec.
