(* ===== verification/FileInv.v ===== *)
(** * File contents and the allocation invariant

    Writing data blocks of a file and updating its inode keep the invariant
    [vol_files] and do not reach other files. *)

From Stdlib Require Import ZArith Lia.
From stdpp Require Import base list list_numbers.
From S2P Require Import Prelude Types Platform Raw Buffer BufferSpec Ops Bitmap Inode Block FileData Volume BlockSpec AllocSpec FreeSpec InodeSpec VolInv FileSpec.

Section fileinv.
Context (cx : mofs_ctx_t) (nblk : Z) (Hvol : vol_ok cx nblk).
Abbreviation sb := (sp_blk cx).
Abbreviation bs := (blk_size (sp_blk cx)).
Abbreviation drs := (data_region_start (sp_blk cx)).
Abbreviation is_inode n := (0 <= n < inode_num (sp_blk cx)).
Abbreviation vol_files := (vol_files cx nblk).

Lemma wrote_same d d' F n m off x : vol_files d F -> is_inode n -> is_inode m -> m <> n ->
  wrote cx nblk d d' (F n).2 off x -> same_file cx d d' F m.
Proof.
  intros HF Hn Hm Hne Hw. pose proof (fm_range _ _ _ _ _ _ (vf_map _ _ _ _ HF n Hn)) as Hp. split.
  - by eapply (wrote_inode cx nblk Hvol).
  - intros b Hb. apply Hw. pose proof (vf_disj _ _ _ _ HF m n b Hm Hn Hne Hb). elems.
Qed.

Lemma wrote_files d d' F n off x : vol_files d F -> is_inode n -> wrote cx nblk d d' (F n).2 off x -> vol_files d' F.
Proof.
  intros HF Hn Hw. pose proof (fm_range _ _ _ _ _ _ (vf_map _ _ _ _ HF n Hn)) as Hp. split; [|by apply (vf_disj _ _ _ _ HF)|].
  - intros m Hm. destruct (decide (m = n)) as [->|Hne]; [eapply (wrote_map cx nblk Hvol); [done|by apply HF|exact Hw]|].
    destruct (wrote_same _ _ _ _ _ _ _ HF Hn Hm Hne Hw) as [Hi Hb].
    eapply file_map_ext; [by apply HF|done|intros b Hin; apply Hb; elems|]. intros b Hin.
    pose proof (vf_range _ _ _ _ _ b HF Hm Hin). pose proof Hvol as [].
    rewrite (wrote_bit cx nblk Hvol d d' (F n).2 off x) by (try done; lia). by apply (vf_used _ _ _ _ _ _ HF Hm Hin).
  - intros j Hj Hd. rewrite (wrote_bit cx nblk Hvol d d' (F n).2 off x) in Hd by done. by apply (vf_exact _ _ _ _ HF).
Qed.

(** *** Updating an inode without moving its blocks *)

Lemma put_inode_high d n i b : is_inode n -> drs <= b -> put_inode cx d n i b = d b.
Proof. intros Hn Hb. apply upd_ne. pose proof (tbl_blk_range cx nblk Hvol n Hn). lia. Qed.

Lemma put_inode_low d n i b : is_inode n -> b < inode_table_start sb -> put_inode cx d n i b = d b.
Proof. intros Hn Hb. apply upd_ne. pose proof (tbl_blk_range cx nblk Hvol n Hn). lia. Qed.

Lemma put_inode_bit_same d n i j : is_inode n -> 0 <= j < data_blk_num sb -> data_bit cx (put_inode cx d n i) j = data_bit cx d j.
Proof.
  intros Hn Hj. apply (data_bit_upd cx nblk Hvol); [done|]. pose proof (tbl_blk_range cx nblk Hvol n Hn). lia.
Qed.

Lemma put_inode_same d F n m i : disk_ok cx nblk d -> vol_files d F -> is_inode n -> is_inode m -> m <> n -> inode_fits i ->
  same_file cx d (put_inode cx d n i) F m.
Proof.
  intros Hd HF Hn Hm Hne Hi. split.
  - rewrite (inode_at_put cx nblk Hvol) by done. by rewrite (proj2 (Z.eqb_neq m n)).
  - intros b Hb. apply put_inode_high; [done|]. by apply (vf_range _ _ _ _ _ _ HF Hm Hb).
Qed.

Lemma put_inode_files d F n i : disk_ok cx nblk d -> vol_files d F -> is_inode n -> inode_fits i ->
  i_data_head i = i_data_head (inode_at cx d n) -> i_nr_blocks i = i_nr_blocks (inode_at cx d n) ->
  vol_files (put_inode cx d n i) F.
Proof.
  intros Hd HF Hn Hi Hh Hr. split; [|by apply (vf_disj _ _ _ _ HF)|].
  - intros m Hm. pose proof (inode_at_put cx nblk Hvol d n m i Hd Hn Hm Hi) as Hat.
    assert (Hhr : i_data_head (inode_at cx (put_inode cx d n i) m) = i_data_head (inode_at cx d m) /\
                  i_nr_blocks (inode_at cx (put_inode cx d n i) m) = i_nr_blocks (inode_at cx d m)).
    { rewrite Hat. destruct (Z.eqb_spec m n) as [->|]; done. }
    eapply file_map_ext_head; [by apply HF|apply Hhr|apply Hhr|..]; intros b Hb.
    + apply put_inode_high; [done|]. apply (vf_range _ _ _ _ m b HF Hm). elems.
    + pose proof (vf_range _ _ _ _ m b HF Hm Hb). pose proof Hvol as [].
      rewrite put_inode_bit_same by (try done; lia). by apply (vf_used _ _ _ _ _ _ HF Hm Hb).
  - intros j Hj Hb. rewrite put_inode_bit_same in Hb by done. by apply (vf_exact _ _ _ _ HF).
Qed.

Lemma same_file_refl d F n : same_file cx d d F n.
Proof. done. Qed.

Lemma same_file_trans d d1 d2 F n : same_file cx d d1 F n -> same_file cx d1 d2 F n -> same_file cx d d2 F n.
Proof. intros [I1 B1] [I2 B2]. split; [congruence|]. intros b Hb. by rewrite B2, B1. Qed.

(** Other files do not notice a new mapping of file [n]. *)
Lemma same_file_set d d' F n x m : m <> n -> same_file cx d d' (set_file F n x) m <-> same_file cx d d' F m.
Proof. intros Hne. unfold same_file. by rewrite file_blocks_set_ne. Qed.

(** *** The inode bitmap *)

Lemma put_inode_bit_inode d i u m : is_inode i -> is_inode m -> inode_at cx (put_inode_bit cx d i u) m = inode_at cx d m.
Proof.
  intros Hi Hm. unfold inode_at. rewrite (put_inode_bit_other cx nblk Hvol); [done|done|].
  pose proof (tbl_blk_range cx nblk Hvol m Hm). pose proof Hvol as []. lia.
Qed.

Lemma put_inode_bit_data d i u j : is_inode i -> 0 <= j < data_blk_num sb -> data_bit cx (put_inode_bit cx d i u) j = data_bit cx d j.
Proof.
  intros Hi Hj. apply (data_bit_upd cx nblk Hvol); [done|]. pose proof (inode_bitmap_blk cx nblk Hvol i Hi). lia.
Qed.

Lemma put_inode_bit_same_file d i u F m : vol_files d F -> is_inode i -> is_inode m -> same_file cx d (put_inode_bit cx d i u) F m.
Proof.
  intros HF Hi Hm. split; [by apply put_inode_bit_inode|]. intros b Hb.
  apply (put_inode_bit_other cx nblk Hvol); [done|]. pose proof (vf_range _ _ _ _ m b HF Hm Hb). pose proof Hvol as []. lia.
Qed.

Lemma put_inode_bit_files d i u F : vol_files d F -> is_inode i -> vol_files (put_inode_bit cx d i u) F.
Proof.
  intros HF Hi. split; [|by apply (vf_disj _ _ _ _ HF)|].
  - intros m Hm. destruct (put_inode_bit_same_file d i u F m HF Hi Hm) as [Hin Hb].
    eapply file_map_ext; [by apply HF|done|intros b ?; apply Hb; elems|]. intros b Hin'.
    pose proof (vf_range _ _ _ _ m b HF Hm Hin'). pose proof Hvol as [].
    rewrite put_inode_bit_data by (try done; lia). by apply (vf_used _ _ _ _ _ _ HF Hm Hin').
  - intros j Hj Hb. rewrite put_inode_bit_data in Hb by done. by apply (vf_exact _ _ _ _ HF).
Qed.

(** An inode without blocks can be cleared. *)
Lemma clear_inode_files d n F : disk_ok cx nblk d -> vol_files d F -> is_inode n -> F n = ([], []) ->
  vol_files (put_inode cx d n zero_inode) F.
Proof.
  intros Hd HF Hn He. pose proof (vf_map _ _ _ _ HF n Hn) as [Hc Hnr _ _ _ _]. rewrite He in *.
  apply put_inode_files; try done. by destruct Hc as [Hc _].
Qed.

End fileinv.
