(* ===== verification/PermSpec.v ===== *)
(** * What the permission check decides

    [mofs_check_open_permission] as a pure decision on flags, credentials and
    inode, with its meaning in terms of the nine mode bits. *)

From Stdlib Require Import ZArith Lia.
From stdpp Require Import base list.
From S2P Require Import Prelude Types Platform Raw Buffer BufferSpec Ops Perm.

(** The outcome of the check for caller [u]. *)
Definition open_permission (flags : Z) (u : mofs_user_ctx_t) (inode : mofs_inode_t) : res unit :=
  res_bind (open_perm_flags flags) (fun op_flags =>
  if perm_denied op_flags (i_mode inode) (perm_class (uid u =? i_uid inode) (user_in_group u (i_gid inode)))
  then Err MOFS_EACCES else Ok tt).

Lemma wp_check_open_permission cx nblk flags inode Q a :
  u_valid (a_caller a) = true -> Q (open_permission flags (a_caller a) inode) a ->
  wp cx nblk (mofs_check_open_permission flags (a_caller a) inode) Q a.
Proof.
  intros Hu HQ. unfold mofs_check_open_permission, open_permission in *. apply wp_bind.
  destruct (open_perm_flags flags) as [f|e|]; simpl in *; try done.
  split; [done|]. by destruct (perm_denied _ _ _).
Qed.

Lemma wp_require_caller cx nblk Q a : u_valid (a_caller a) = true -> Q (Ok (a_caller a)) a -> wp cx nblk require_caller_user Q a.
Proof. intros Hu HQ. unfold require_caller_user. apply wp_bind, wp_call. simpl. split; [done|]. by rewrite Hu. Qed.

(** ** Meaning *)

(** The class of mode bits that applies: the owner's, else the group's, else
    the others' (a shift of the three permission bits). *)
Definition class_shift (u : mofs_user_ctx_t) (inode : mofs_inode_t) : Z :=
  if uid u =? i_uid inode then 6 else if user_in_group u (i_gid inode) then 3 else 0.

Definition may_read u inode : bool := Z.testbit (i_mode inode) (class_shift u inode + 2).
Definition may_write u inode : bool := Z.testbit (i_mode inode) (class_shift u inode + 1).
Definition may_exec u inode : bool := Z.testbit (i_mode inode) (class_shift u inode).

(** The fields that permissions depend on. *)
Definition same_access (i i' : mofs_inode_t) : Prop := i_mode i' = i_mode i /\ i_uid i' = i_uid i /\ i_gid i' = i_gid i.

Lemma same_access_trans i j k : same_access i j -> same_access j k -> same_access i k.
Proof. unfold same_access. intuition congruence. Qed.

Lemma may_change_same u i i' : same_access i i' -> may_write u i' && may_exec u i' = may_write u i && may_exec u i.
Proof. intros (Hm & Hu & Hg). unfold may_write, may_exec, class_shift. by rewrite Hm, Hu, Hg. Qed.

Lemma land_pow2_test m n : 0 <= n -> (Z.land m (2 ^ n) =? 0) = negb (Z.testbit m n).
Proof.
  intros Hn. destruct (Z.testbit m n) eqn:Hb; simpl.
  - apply Z.eqb_neq. intros H0. assert (Ht : Z.testbit (Z.land m (2 ^ n)) n = false) by (rewrite H0; apply Z.bits_0).
    rewrite Z.land_spec, Hb, Z.pow2_bits_true in Ht by done. done.
  - apply Z.eqb_eq. apply Z.bits_inj'. intros k Hk. rewrite Z.land_spec, Z.bits_0, Z.pow2_bits_eqb by done.
    destruct (Z.eqb_spec n k) as [<-|]; [by rewrite Hb|apply andb_false_r].
Qed.

#[local] Arguments Z.testbit : simpl never.
#[local] Arguments Z.land : simpl never.

(** Each access mode asks for the bits it names, in the caller's class. *)
Lemma perm_denied_spec u inode :
  let denied f := perm_denied f (i_mode inode) (perm_class (uid u =? i_uid inode) (user_in_group u (i_gid inode))) in
  denied MOFS_OFLAG_RDONLY = negb (may_read u inode) /\
  denied MOFS_OFLAG_WRONLY = negb (may_write u inode) /\
  denied MOFS_OFLAG_RDWR = negb (may_read u inode && may_write u inode) /\
  denied MOFS_OFLAG_EXEC = negb (may_exec u inode) /\
  denied MOFS_OFLAG_SEARCH = negb (may_exec u inode).
Proof.
  intros denied. unfold denied, may_read, may_write, may_exec, class_shift, perm_denied, perm_class.
  destruct (uid u =? i_uid inode); [|destruct (user_in_group u (i_gid inode))]; simpl;
    rewrite negb_andb, <- !land_pow2_test by lia; done.
Qed.

(** The check looks at the four access-mode bits of [flags] only. *)
Lemma open_perm_flags_accmode flags : open_perm_flags flags = open_perm_flags (Z.land flags 15).
Proof.
  unfold open_perm_flags. change MOFS_OFLAG_ACCMODE with 15.
  assert (H : forall m, Z.land (Z.land flags 15) m = Z.land flags (Z.land 15 m)) by (intros; by rewrite Z.land_assoc).
  rewrite !H. done.
Qed.

Lemma access_mode_cases flags : exists k, (k < 16)%nat /\ Z.land flags 15 = Z.of_nat k.
Proof.
  exists (Z.to_nat (Z.land flags 15)). change 15 with (Z.ones 4). rewrite Z.land_ones by lia.
  pose proof (Z.mod_pos_bound flags (2 ^ 4) ltac:(lia)). lia.
Qed.
