(* ===== verification/RwSpec.v ===== *)
(** * Correctness of reading and writing files

    [mofs_read_core] and [mofs_write_core] on an open handle: which bytes are
    returned, what the file holds afterwards, and what is left alone. *)

From Stdlib Require Import ZArith Lia.
From stdpp Require Import base list list_numbers.
From S2P Require Import Prelude Types Platform Raw Buffer BufferSpec Ops Bitmap Inode Block FileData Perm Dirent Path File Volume BlockSpec AllocSpec FreeSpec InodeSpec VolInv FileSpec PermSpec.

(** ** Slices of a prefix *)

Lemma bslice_take {A} o n m (l : list A) : 0 <= o -> bslice o n (take (Z.to_nat m) l) = bslice o (Z.max 0 (Z.min n (m - o))) l.
Proof.
  intros Ho. unfold bslice. rewrite skipn_firstn_comm, take_take. f_equal. lia.
Qed.

(** The number of bytes a read returns, as the code computes it: [c] blocks
    hold the file, [k] of them are read from block [start] on. *)
Lemma read_size_arith bs start om size fsize req c :
  0 < bs -> 0 <= start -> 0 <= om < bs -> 0 < size -> 0 <= fsize -> 0 < req ->
  bs * (c - 1) < fsize <= bs * c -> om + size <= bs * req ->
  let k := Z.max 0 (Z.min req (c - start)) in
  let got := Z.max 0 (Z.min ((start + k) * bs) fsize - start * bs) in
  let n := Z.max 0 (Z.min size (fsize - (bs * start + om))) in
  (if got <? om then 0 else if size <? got - om then size else got - om) = n /\ (0 < n -> om + n <= k * bs) /\ got <= k * bs.
Proof.
  intros Hb Hst Hm Hs Hf Hreq Hc Hr k got n.
  assert (Hgk : got <= k * bs) by (unfold got; nia).
  destruct (Z.le_gt_cases fsize (bs * start + om)) as [Hend|Hin].
  - assert (Hn : n = 0) by lia. rewrite Hn. split; [|split; [lia|done]].
    assert (Hg : got <= om) by (unfold got; nia). destruct (Z.ltb_spec got om); [done|]. assert (got = om) as -> by lia.
    rewrite Z.sub_diag. by rewrite (proj2 (Z.ltb_ge _ _)) by lia.
  - assert (Hcs : start < c) by nia.
    assert (Hk : k = Z.min req (c - start)) by lia. assert (Hkp : 0 < k) by lia.
    assert (Hcov : Z.min (bs * start + om + size) fsize <= (start + k) * bs).
    { destruct (Z.le_gt_cases req (c - start)); [replace k with req by lia|replace k with (c - start) by lia]; nia. }
    assert (Hg : got = Z.min ((start + k) * bs) fsize - start * bs) by (unfold got; nia).
    assert (Hn : n = Z.min size (fsize - (bs * start + om))) by lia.
    set (e := (start + k) * bs) in *. clearbody e. split; [|split; [|done]].
    + rewrite Hn, Hg. rewrite (proj2 (Z.ltb_ge _ _)) by lia.
      destruct (Z.ltb_spec size (Z.min e fsize - start * bs - om)); lia.
    + intros _. lia.
Qed.

(** The bytes of a file after a write: [C] are its old blocks, [X] the new
    ones, the buffer of [R] bytes starts at byte [S] of the file. *)
Lemma write_bytes (C X data : list byte) S om R old :
  0 <= S <= old -> old <= blen C -> 0 <= om -> 0 < blen data -> om + blen data <= R -> S + R <= blen C + blen X ->
  (om + blen data <= blen C - S -> R <= blen C - S) ->
  let buf := bsplice 0 (bslice S (Z.min R (blen C - S)) (C ++ X)) (zeros R) in
  let buf' := if old <? S + om then bsplice (old - S) (zeros (S + om - old)) buf else buf in
  take (Z.to_nat (Z.max old (S + om + blen data))) (bsplice S (bsplice om data buf') (C ++ X)) =
  bsplice (S + om) data (take (Z.to_nat old) C ++ zeros (S + om - old)).
Proof.
  intros HS Hold Hom Hdata HR Hlen Hfit buf buf'.
  assert (Hlp : blen (bslice S (Z.min R (blen C - S)) (C ++ X)) = Z.min R (blen C - S)) by (rewrite length_bslice; rewrite ?length_app; lia).
  assert (Hlb : blen buf = R) by (unfold buf; rewrite length_bsplice; rewrite ?Hlp, ?length_zeros; lia).
  assert (Hlb' : blen buf' = R).
  { unfold buf'. destruct (Z.ltb_spec old (S + om)); [|done]. rewrite length_bsplice; rewrite ?length_zeros; lia. }
  assert (Hlb2 : blen (bsplice om data buf') = R) by (rewrite length_bsplice; lia).
  assert (Hbuf : forall i, buf !! i = if decide (Z.of_nat i < Z.min R (blen C - S)) then (C ++ X) !! (Z.to_nat S + i)%nat else zeros R !! i).
  { intros i. unfold buf. rewrite lookup_bsplice by (rewrite length_zeros; lia). rewrite Hlp.
    rewrite decide_False by lia. destruct (decide (Z.of_nat i < Z.min R (blen C - S))).
    - rewrite decide_True by lia. rewrite lookup_bslice by lia. rewrite decide_True by lia. f_equal. lia.
    - by rewrite decide_False by lia. }
  assert (Hbuf' : forall i, buf' !! i = if decide (old - S <= Z.of_nat i < om) then Some (byte.of_Z 0) else buf !! i).
  { intros i. unfold buf'. destruct (Z.ltb_spec old (S + om)).
    - rewrite lookup_bsplice by lia. rewrite length_zeros, lookup_zeros. repeat case_decide; try lia; done.
    - by rewrite decide_False by lia. }
  apply list_eq. intros i. rewrite lookup_take_dec.
  rewrite lookup_bsplice by (rewrite length_app; lia). rewrite Hlb2.
  rewrite (lookup_bsplice (S + om)) by (rewrite length_app, length_take, length_zeros; lia).
  rewrite (lookup_app_dec (take _ _)), lookup_take_dec, length_take, !lookup_zeros.
  rewrite lookup_bsplice by lia. rewrite Hbuf', Hbuf, !lookup_app_dec, lookup_zeros.
  replace (Z.to_nat S + (i - Z.to_nat S))%nat with (if decide (Z.of_nat i < S) then Z.to_nat S else i) by (case_decide; lia).
  clear Hbuf Hbuf' Hlb Hlb' Hlb2 Hlp. repeat (case_decide; try (exfalso; lia)); try done; try (f_equal; lia); symmetry; apply lookup_ge_None; lia.
Qed.

Lemma read_blocks_covered bs start fsize req np :
  0 < bs -> 0 < Z.max 0 (Z.min req (ceil_div fsize bs - start)) -> fsize <= np * bs ->
  (start + Z.max 0 (Z.min req (ceil_div fsize bs - start))) * bs <= np * bs.
Proof.
  intros Hb Hk Hf. pose proof (ceil_div_spec fsize bs Hb). set (c := ceil_div fsize bs) in *.
  assert (c <= np) by nia. apply Z.mul_le_mono_nonneg_r; lia.
Qed.

Section rwspec.
Context (cx : mofs_ctx_t) (nblk : Z) (Hvol : vol_ok cx nblk).
Abbreviation sb := (sp_blk cx).
Abbreviation bs := (blk_size (sp_blk cx)).
Abbreviation drs := (data_region_start (sp_blk cx)).
Abbreviation is_inode n := (0 <= n < inode_num (sp_blk cx)).
Abbreviation file_map := (file_map cx nblk).

(** ** Handles *)

Lemma wp_get_handle h f Q a : a_files a !! h = Some f -> fh_used f = true -> Q (Ok (h, f)) a ->
  wp cx nblk (get_handle (Some h)) Q a.
Proof. intros Hh Hu HQ. unfold get_handle. apply wp_bind, wp_call. simpl. rewrite Hh, Hu. exact HQ. Qed.

Definition move_handle (h : nat) (off : Z) (pool : list mofs_filehandle) : list mofs_filehandle :=
  alter (fun f => mkFile (fh_used f) (fh_inode_num f) (u32 off) (open_flags f)) h pool.

Lemma wp_set_file_offset h off Q a : Q (Ok tt) (set_afiles (move_handle h off (a_files a)) a) ->
  wp cx nblk (set_file_offset h off) Q a.
Proof. intros HQ. exact HQ. Qed.

(** The state after the handle was moved, if the call moves it. *)
Definition move_if (u : bool) (h : nat) (off : Z) (a : astate) : astate :=
  if u then set_afiles (move_handle h off (a_files a)) a else a.

Lemma wp_move_if (u : bool) h off Q a : Q (Ok tt) (move_if u h off a) ->
  wp cx nblk (if u then set_file_offset h off else mret tt) Q a.
Proof. destruct u; intros HQ; [by apply wp_set_file_offset|by apply wp_ret]. Qed.

(** An open handle on a regular file that the caller may use with [flags]. *)
Record open_on (a : astate) (h : nat) (f : mofs_filehandle) (flags : Z) (nodes ptrs : list Z) : Prop := {
  oo_pool : a_files a !! h = Some f;
  oo_used : fh_used f = true;
  oo_inode : is_inode (fh_inode_num f);
  oo_map : file_map (a_disk a) (fh_inode_num f) nodes ptrs;
  oo_covers : covers cx (a_disk a) (fh_inode_num f) ptrs;
  oo_user : u_valid (a_caller a) = true;
  oo_perm : open_permission flags (a_caller a) (inode_at cx (a_disk a) (fh_inode_num f)) = Ok tt;
  oo_reg : has_flag (i_mode (inode_at cx (a_disk a) (fh_inode_num f))) MOFS_FTYPE_DIR = false
}.

(** ** Reading *)

(** The disk after a read that returned [out]. *)
Definition read_disk (d : disk) (n t : Z) (out : list byte) : disk :=
  if bool_decide (out = []) then d
  else put_inode cx d n (stamp_times t MOFS_INODE_TIME_ATIME (inode_at cx d n)).

Lemma wp_read_core h f nodes ptrs size offset u Q a :
  let d := a_disk a in
  let n := fh_inode_num f in
  let out := bslice offset size (file_bytes d ptrs (i_size (inode_at cx d n))) in
  disk_ok cx nblk d -> open_on a h f (open_flags f) nodes ptrs -> has_flag (open_flags f) MOFS_OFLAG_RDONLY = true ->
  0 <= offset < 2 ^ 32 -> 0 < size -> size + 2 * bs <= 2 ^ 32 ->
  (forall t, 0 <= t < 2 ^ 64 -> Q (Ok out) (set_disk (read_disk d n t out) (move_if u h (offset + blen out) a))) ->
  wp cx nblk (mofs_read_core cx (Some h) size offset u) Q a.
Proof.
  intros d n out Hd [Hp Hu Hin Hfm Hcov Huser Hperm Hreg] Hrd Hoff Hsz Hbig HQ.
  pose proof (bs_range cx nblk Hvol) as Hbs. pose proof (covers_small cx nblk Hvol _ _ _ _ Hfm Hcov) as Hsm.
  pose proof (fits_size _ (inode_at_fits cx nblk Hvol d n Hd Hin)) as [Hf0 _].
  fold d n in Hsm, Hfm, Hcov, Hperm, Hreg, Hin. set (inode := inode_at cx d n) in *. set (fsize := i_size inode) in *.
  pose proof (Z.div_mod offset bs ltac:(lia)) as Hdm. pose proof (Z.mod_pos_bound offset bs ltac:(lia)) as Hom.
  set (start := offset / bs) in *. set (om := offset mod bs) in *.
  assert (Hst : 0 <= start < 2 ^ 32) by nia.
  pose proof (ceil_div_spec (om + size) bs ltac:(lia)) as Hreq. set (req := ceil_div (om + size) bs) in *.
  assert (Hreq0 : 0 < req) by nia. assert (Hreqb : req * bs < 2 ^ 32 /\ start + req < 2 ^ 32) by nia.
  unfold mofs_read_core. apply wp_bind, (wp_get_handle h f); [done|done|]. wp_simpl.
  rewrite (proj2 (Z.eqb_neq _ _)), (proj2 (Z.ltb_ge _ _)) by lia. cbn [orb]. rewrite Hrd. cbn [negb].
  apply wp_bind, (wp_read_inode cx nblk Hvol); [done|done|]. wp_simpl. fold d n inode.
  apply wp_bind, wp_require_caller; [done|]. wp_simpl.
  apply wp_bind, wp_check_open_permission; [done|]. rewrite Hperm. wp_simpl. rewrite Hreg.
  replace (read_req_blk_num cx offset size) with req
    by (unfold read_req_blk_num; fold om; change ((om + size + bs - 1) / bs) with req; by rewrite u32_small by nia).
  rewrite (u32_small (req * bs)) by lia. fold start om. rewrite (u32_small start) by lia.
  apply wp_bind, wp_malloc; [nia|]. intros buf Hbuf. wp_simpl.
  apply wp_bind, (wp_read_file_data_block cx nblk Hvol n nodes ptrs); try done; try lia.
  intros rd frac Hrd0 Hfr Hgot _. wp_simpl. fold d inode fsize in Hgot |- *.
  pose proof (read_size_arith bs start om size fsize req (ceil_div fsize bs) ltac:(lia) ltac:(lia) ltac:(lia) Hsz Hf0 Hreq0
    (ceil_div_spec fsize bs ltac:(lia)) ltac:(lia)) as (Hn & Hnk & Hgk).
  unfold blocks_read in Hgot |- *. fold inode fsize in Hgot |- *. rewrite <- Hdm in Hn, Hnk.
  set (k := Z.max 0 (Z.min req (ceil_div fsize bs - start))) in *. rewrite Hgot.
  set (got := Z.max 0 (Z.min ((start + k) * bs) fsize - start * bs)) in *.
  assert (Hkr : k * bs <= req * bs) by (apply Z.mul_le_mono_nonneg_r; lia).
  rewrite (u32_small got) by lia.
  assert (Hrs : (let read_size := if got <? om then 0 else u32 (got - om) in if size <? read_size then size else read_size)
    = Z.max 0 (Z.min size (fsize - offset))).
  { rewrite <- Hn. cbv zeta. destruct (Z.ltb_spec got om); [by rewrite (proj2 (Z.ltb_ge _ _)) by lia|]. by rewrite u32_small by lia. }
  cbv zeta in Hrs. rewrite Hrs. set (rs := Z.max 0 (Z.min size (fsize - offset))) in *.
  assert (Hout : bslice om rs (bsplice 0 (content d (bslice start k ptrs)) buf) = out /\ blen out = rs).
  { assert (Ho : out = bslice offset rs (content d ptrs)) by (unfold out, file_bytes; apply bslice_take; lia).
    pose proof (fm_range _ _ _ _ _ _ Hfm) as Hpr. pose proof (content_len cx nblk Hvol d ptrs Hd Hpr) as Hcl.
    unfold covers in Hcov. fold inode fsize in Hcov.
    assert (Hrs0 : 0 <= rs) by lia. destruct (Z.eq_dec rs 0) as [H0|H0]; [rewrite Ho, H0; done|].
    rewrite <- (content_slice cx nblk Hvol) by (try done; lia). specialize (Hnk ltac:(lia)).
    assert (Hkc : (start + k) * bs <= blen ptrs * bs) by (apply (read_blocks_covered bs start fsize req); lia).
    rewrite Z.mul_add_distr_r in Hkc.
    assert (0 <= start * bs) by (apply Z.mul_nonneg_nonneg; lia).
    set (kb := k * bs) in *. set (tb := start * bs) in *. assert (0 <= kb) by lia.
    rewrite bslice_bsplice_in by (rewrite ?length_bslice; lia). rewrite Z.sub_0_r, bslice_bslice by lia.
    rewrite Ho, length_bslice by lia. split; [f_equal; lia|lia]. }
  destruct Hout as [-> Hlo].
  apply wp_bind, wp_move_if. wp_simpl. rewrite <- Hlo.
  assert (Hda : a_disk (move_if u h (offset + blen out) a) = d) by by destruct u.
  unfold read_disk in HQ. destruct (Z.ltb_spec 0 (blen out)) as [Hpos|Hzero].
  - rewrite bool_decide_eq_false_2 in HQ by (intros H0; rewrite H0 in Hpos; simpl in Hpos; lia).
    apply wp_bind, (wp_stamp_persist cx nblk Hvol); rewrite ?Hda; try done.
  - rewrite bool_decide_eq_true_2 in HQ by (destruct out; [done|simpl in Hzero; lia]).
    apply wp_bind, wp_ret. wp_simpl. apply wp_ret. specialize (HQ 0 ltac:(lia)). rewrite <- Hda, set_disk_id in HQ. exact HQ.
Qed.

(** ** Writing *)

(** Storing one block at its place in the buffer, and the step of a preload. *)
Lemma splice_block d b i (buf : list byte) : disk_ok cx nblk d -> 0 <= b < nblk -> 0 <= i ->
  take (Z.to_nat (i * bs)) buf ++ d b ++ drop (Z.to_nat bs) (drop (Z.to_nat (i * bs)) buf) = bsplice (i * bs) (d b) buf.
Proof.
  intros Hd Hb Hi. pose proof (bs_range cx nblk Hvol). pose proof (Hd b Hb). unfold bsplice. do 2 f_equal. rewrite drop_drop. f_equal. lia.
Qed.

Lemma preload_step d nodes ptrs inum start c n i b (buf : list byte) :
  disk_ok cx nblk d -> file_map d inum nodes ptrs -> 0 <= start -> 0 <= i -> start + i < c -> 0 <= b < nblk ->
  ptrs !! Z.to_nat (start + i) = Some b -> (i + Z.of_nat (S n)) * bs <= blen buf ->
  bsplice (i * bs) (content d (bslice (start + i) (Z.max 0 (Z.min (Z.of_nat (S n)) (c - start - i))) ptrs)) buf =
  bsplice ((i + 1) * bs) (content d (bslice (start + (i + 1)) (Z.max 0 (Z.min (Z.of_nat n) (c - start - (i + 1)))) ptrs))
    (bsplice (i * bs) (d b) buf).
Proof.
  intros Hd Hfm Hs Hi Hc Hbr Hb Hbuf. pose proof (bs_range cx nblk Hvol) as Hbs. pose proof (Hd b Hbr) as Hlb.
  replace ((i + 1) * bs) with (i * bs + blen (d b)) by nia. rewrite bsplice_app by nia.
  set (m := Z.max 0 (Z.min (Z.of_nat n) (c - start - (i + 1)))).
  replace (Z.max 0 (Z.min (Z.of_nat (S n)) (c - start - i))) with (1 + m) by lia.
  rewrite bslice_add by lia. rewrite content_app.
  replace (content d (bslice (start + i) 1 ptrs)) with (d b).
  2: { symmetry. rewrite <- (content_slice cx nblk Hvol) by (try done; try lia; apply Hfm). rewrite Z.mul_1_l.
       apply (content_block cx nblk Hvol); try done; [apply Hfm|lia]. }
  by replace (start + (i + 1)) with (start + i + 1) by lia.
Qed.

Lemma wp_preload_loop inum nodes ptrs start c n : forall i buf Q a,
  let d := a_disk a in
  disk_ok cx nblk d -> is_inode inum -> file_map d inum nodes ptrs -> c <= blen ptrs ->
  0 <= start -> 0 <= i -> start + i + Z.of_nat n < 2 ^ 32 -> (i + Z.of_nat n) * bs <= blen buf ->
  Q (Ok (bsplice (i * bs) (content d (bslice (start + i) (Z.max 0 (Z.min (Z.of_nat n) (c - start - i))) ptrs)) buf)) a ->
  wp cx nblk (preload_loop cx inum start c n i buf) Q a.
Proof.
  induction n as [|n IH]; intros i buf Q a d Hd Hin Hfm Hc Hs Hi Hn Hbuf HQ; cbn [preload_loop].
  { apply wp_ret. replace (Z.max 0 (Z.min (Z.of_nat 0) (c - start - i))) with 0 in HQ by lia.
    rewrite bslice_0_len in HQ. change (content d []) with (@nil byte) in HQ. by rewrite bsplice_nil in HQ. }
  pose proof (bs_range cx nblk Hvol) as Hbs. rewrite (u32_small (start + i)) by lia.
  destruct (Z.leb_spec c (start + i)) as [Hge|Hlt].
  { apply IH; try done; try lia. fold d.
    replace (Z.max 0 (Z.min (Z.of_nat n) (c - start - (i + 1)))) with 0 by lia.
    replace (Z.max 0 (Z.min (Z.of_nat (S n)) (c - start - i))) with 0 in HQ by lia.
    rewrite bslice_0_len in *. change (content d []) with (@nil byte) in *. by rewrite bsplice_nil in *. }
  destruct (fm_block cx nblk _ _ _ _ (start + i) Hfm ltac:(lia)) as (b & Hb & Hbr). pose proof (drs_pos cx nblk Hvol).
  pose proof (vo_end _ _ Hvol) as Hend. pose proof (vo_max _ _ Hvol). pose proof (vo_data _ _ Hvol).
  apply wp_bind, (wp_resolve cx nblk Hvol inum nodes ptrs (start + i) b); try done; try lia;
    [by apply Hfm|by eapply fm_nodes_nodup|by apply Hfm|]. wp_simpl.
  rewrite u32_small, (proj2 (Z.ltb_ge _ _)), (proj2 (Z.leb_gt _ _)) by lia. cbn [orb].
  apply wp_bind, (wp_read_first cx nblk Hvol); [done|lia|rewrite length_drop; nia|]. wp_simpl. fold d.
  rewrite (preload_step d nodes ptrs inum start c n i b buf) in HQ by (try done; lia).
  rewrite (splice_block d b i buf) by (try done; lia).
  apply IH; try done; try lia. rewrite length_bsplice; rewrite ?(Hd b) by lia; nia.
Qed.

End rwspec.
