(* ===== verification/WriteSpec.v ===== *)
(** * Correctness of writing files

    What [mofs_write_core] leaves in the file it writes and on the volume. *)

From Stdlib Require Import ZArith Lia.
From stdpp Require Import base list list_numbers.
From S2P Require Import Prelude Types Platform Raw Buffer BufferSpec Ops Bitmap Inode Block FileData Perm Dirent Path File Volume BlockSpec AllocSpec FreeSpec InodeSpec VolInv FileSpec FileInv PermSpec RwSpec.

(** The buffer [mofs_write_core] writes: the old blocks from byte [S] on, the
    gap up to the offset zeroed, then the data.  [cb] is the end of the old
    blocks, [old] the old size. *)
Definition write_buf (C1 : list byte) (cb S om R old : Z) (data : list byte) : list byte :=
  let buf := bsplice 0 (bslice S (Z.min R (cb - S)) C1) (zeros R) in
  bsplice om data (if old <? S + om then bsplice (old - S) (zeros (S + om - old)) buf else buf).

Lemma length_write_buf C1 cb S om R old data :
  0 <= S <= old -> old <= cb -> cb <= blen C1 -> 0 <= om -> om + blen data <= R -> blen (write_buf C1 cb S om R old data) = R.
Proof.
  intros HS Ho Hcb Hom HR. unfold write_buf.
  assert (Hlp : blen (bslice S (Z.min R (cb - S)) C1) = Z.min R (cb - S)) by (rewrite length_bslice; lia).
  assert (Hlb : blen (bsplice 0 (bslice S (Z.min R (cb - S)) C1) (zeros R)) = R) by (rewrite length_bsplice; rewrite ?Hlp, ?length_zeros; lia).
  destruct (Z.ltb_spec old (S + om)); rewrite !length_bsplice; rewrite ?length_zeros; try lia.
  rewrite length_bsplice; rewrite ?length_zeros; lia.
Qed.

(** The inode after a write up to [write_end] at time [t]. *)
Definition written_inode (write_end t : Z) (inode : mofs_inode_t) : mofs_inode_t :=
  stamp_times t (Z.lor MOFS_INODE_TIME_MTIME MOFS_INODE_TIME_CTIME)
    (if i_size inode <? write_end then set_i_size write_end inode else inode).

Lemma written_inode_fits e t inode : 0 <= e < 2 ^ 32 -> 0 <= t < 2 ^ 64 -> inode_fits inode -> inode_fits (written_inode e t inode).
Proof. intros He Ht Hf. apply stamp_times_fits; [done|]. destruct (i_size inode <? e); [|done]. destruct Hf. by constructor. Qed.

Lemma written_inode_size e t inode : i_size (written_inode e t inode) = Z.max (i_size inode) e.
Proof. unfold written_inode. destruct (Z.ltb_spec (i_size inode) e); simpl; lia. Qed.

Section writespec.
Context (cx : mofs_ctx_t) (nblk : Z) (Hvol : vol_ok cx nblk).
Abbreviation sb := (sp_blk cx).
Abbreviation bs := (blk_size (sp_blk cx)).
Abbreviation drs := (data_region_start (sp_blk cx)).
Abbreviation is_inode n := (0 <= n < inode_num (sp_blk cx)).
Abbreviation file_map := (file_map cx nblk).

Lemma zero_gap_eq old offset start buf : start * bs <= old ->
  zero_gap cx old offset start buf =
  if old <? offset then bsplice (old - start * bs) (zeros (offset - old)) buf else buf.
Proof.
  intros Hs. unfold zero_gap, zero_at. destruct (Z.ltb_spec old offset) as [Hlt|]; [|done].
  assert (Hz : (if start * bs <? old then old else start * bs) = old) by (destruct (Z.ltb_spec (start * bs) old); lia).
  rewrite Hz. by rewrite (proj2 (Z.ltb_lt _ _) Hlt).
Qed.

Lemma wp_write_prepare inum nodes ptrs old offset start req data Q a :
  let d := a_disk a in
  let c := ceil_div old bs in
  disk_ok cx nblk d -> is_inode inum -> file_map d inum nodes ptrs ->
  0 <= start -> start * bs <= old <= 2 ^ 26 -> c <= blen ptrs -> 0 < req -> start + req <= blen ptrs ->
  offset = start * bs + offset mod bs ->
  Q (Ok (write_buf (content d ptrs) (c * bs) (start * bs) (offset mod bs) (req * bs) old data)) a ->
  wp cx nblk (write_prepare cx inum old offset start req data) Q a.
Proof.
  intros d c Hd Hin Hfm Hs Hold Hc Hr Hle Hoff HQ. pose proof (bs_range cx nblk Hvol) as Hbs.
  pose proof (fm_max _ _ _ _ _ _ Hfm) as Hmax. unfold MOFS_MAX_FILE_DATA_BLOCKS in Hmax.
  assert (HR : 0 < req * bs < 2 ^ 32) by nia.
  pose proof (ceil_div_spec old bs ltac:(lia)) as Hcd. fold c in Hcd. assert (Hsc : start <= c) by nia.
  unfold write_prepare. rewrite (size_blks_eq cx nblk Hvol) by lia. fold c. rewrite (u32_small (req * bs)) by lia.
  apply wp_bind, wp_malloc; [lia|]. intros ? _. wp_simpl.
  apply wp_bind, (wp_preload_loop cx nblk Hvol inum nodes ptrs); try done; try lia; [rewrite length_zeros; nia|].
  wp_simpl. fold d. apply wp_ret. rewrite zero_gap_eq by lia.
  rewrite Z.mul_0_l, Z2Nat.id, Z.add_0_r, Z.sub_0_r by lia.
  rewrite <- (content_slice cx nblk Hvol) by (try done; try lia; apply Hfm).
  replace (Z.max 0 (Z.min req (c - start)) * bs) with (Z.min (req * bs) (c * bs - start * bs)) by (symmetry; apply clip_blocks_mul; lia).
  unfold write_buf in HQ. rewrite <- Hoff in HQ. exact HQ.
Qed.

Lemma wp_write_transfer h f nodes ptrs offset start req wsr u buf Q a :
  let d := a_disk a in
  let n := fh_inode_num f in
  disk_ok cx nblk d -> is_inode n -> file_map d n nodes ptrs ->
  0 <= start -> 0 < req -> start + req <= blen ptrs -> blen buf = req * bs -> 0 <= offset < 2 ^ 26 ->
  0 < wsr -> offset mod bs + wsr <= req * bs -> offset + wsr <= 2 ^ 26 ->
  (forall d2 t, wrote cx nblk d d2 ptrs (start * bs) buf -> 0 <= t < 2 ^ 64 ->
     Q (Ok wsr) (move_if u h (offset + wsr) (set_disk (put_inode cx d2 n (written_inode (offset + wsr) t (inode_at cx d n))) a))) ->
  wp cx nblk (write_transfer cx h f (inode_at cx d n) offset start req wsr u buf) Q a.
Proof.
  intros d n Hd Hin Hfm Hs Hr Hle Hbuf Hoff Hw Hwr Hend HQ. pose proof (bs_range cx nblk Hvol) as Hbs.
  pose proof (fm_max _ _ _ _ _ _ Hfm) as Hmax. unfold MOFS_MAX_FILE_DATA_BLOCKS in Hmax.
  assert (HR : 0 < req * bs < 2 ^ 32) by nia. pose proof (Z.mod_pos_bound offset bs ltac:(lia)) as Hom.
  pose proof (fm_range _ _ _ _ _ _ Hfm) as Hpr.
  unfold write_transfer. apply wp_bind, (wp_write_file_data_block cx nblk Hvol n nodes ptrs); try done; [lia|].
  intros d2 Hw2. rewrite bslice_all in Hw2 by done. wp_simpl. rewrite Z.add_0_r, (u32_small (req * bs)) by lia.
  rewrite (proj2 (Z.ltb_ge (req * bs) _)) by lia.
  assert (Hws : (if wsr <? req * bs - offset mod bs then wsr else req * bs - offset mod bs) = wsr) by (destruct (Z.ltb_spec wsr (req * bs - offset mod bs)); lia).
  rewrite Hws. rewrite (u32_small (offset + wsr)) by lia. rewrite (proj2 (Z.ltb_lt 0 wsr)) by lia.
  assert (Hin2 : inode_at cx d2 n = inode_at cx d n) by by eapply (wrote_inode cx nblk Hvol).
  apply wp_bind, wp_status, wp_bind, wp_stamp_now; [done|]. intros t Ht. wp_simpl.
  fold (written_inode (offset + wsr) t (inode_at cx d n)).
  assert (Hfit : inode_fits (written_inode (offset + wsr) t (inode_at cx d n))).
  { apply written_inode_fits; [lia|done|]. rewrite <- Hin2. apply (inode_at_fits cx nblk Hvol); [apply Hw2|done]. }
  apply (wp_write_inode cx nblk Hvol); [apply Hw2|done|apply Hfit|].
  wp_simpl. apply wp_bind, wp_move_if. wp_simpl. apply wp_ret. by apply HQ.
Qed.

(** *** The whole write *)

(** [d'] is [d] after [data] was written at [offset] of file [n], which got
    the blocks [new]. *)
Record file_written (d d' : disk) (F : files) (n : Z) (nodes new : list Z) (offset : Z) (data : list byte) : Prop := {
  fw_ok : disk_ok cx nblk d';
  fw_files : vol_files cx nblk d' (set_file F n (nodes, (F n).2 ++ new));
  fw_others : forall m, is_inode m -> m <> n -> same_file cx d d' F m;
  fw_bytes : file_bytes d' ((F n).2 ++ new) (i_size (inode_at cx d' n)) =
    let old := i_size (inode_at cx d n) in
    bsplice offset data (file_bytes d (F n).2 old ++ zeros (offset - old));
  fw_inode : exists t head, inode_at cx d' n =
    written_inode (offset + blen data) t (set_i_map head (blen ((F n).2 ++ new)) (inode_at cx d n));
  fw_compact : blen ((F n).2 ++ new) = ceil_div (i_size (inode_at cx d' n)) bs;
  fw_low : forall b, 0 <= b < data_bitmap_start sb -> d' b = d b
}.

(** [d1] is [d] with room for the write in file [n]. *)
Record room_made (d d1 : disk) (F : files) (n : Z) (nodes new : list Z) : Prop := {
  rm_ok : disk_ok cx nblk d1;
  rm_files : vol_files cx nblk d1 (set_file F n (nodes, (F n).2 ++ new));
  rm_others : forall m, is_inode m -> m <> n -> same_file cx d d1 F m;
  rm_data : forall b, b ∈ (F n).2 -> d1 b = d b;
  rm_inode : inode_at cx d1 n = set_i_map (i_data_head (inode_at cx d1 n)) (blen ((F n).2 ++ new)) (inode_at cx d n);
  rm_low : forall b, 0 <= b < data_bitmap_start sb -> d1 b = d b
}.

(** The quantities of a write of [len] bytes at [offset] into a file of [old]
    bytes in [c] blocks, with [e] new blocks. *)
Record write_geom (offset len old c e start om req : Z) : Prop := {
  wg_off : offset = start * bs + om;
  wg_om : 0 <= om < bs;
  wg_start : 0 <= start;
  wg_start_old : start * bs <= old;
  wg_old : bs * (c - 1) < old <= bs * c;
  wg_old0 : 0 <= old;
  wg_len : 0 < len;
  wg_req : bs * (req - 1) < om + len <= bs * req;
  wg_fits : start + req <= c + e;
  wg_new : 0 <= e /\ (e = 0 \/ start + req = c + e)
}.

Lemma write_geom_compact offset len old c e start om req :
  write_geom offset len old c e start om req -> ceil_div (Z.max old (offset + len)) bs = c + e.
Proof.
  intros [] . pose proof (bs_range cx nblk Hvol). apply ceil_div_unique; [lia|]. subst offset.
  destruct wg_new0 as [He [->|Heq]]; [nia|]. nia.
Qed.

Lemma written_content d d1 d2 F n nodes new offset data start om req :
  let old := i_size (inode_at cx d n) in
  let ptrs := (F n).2 in
  disk_ok cx nblk d -> vol_files cx nblk d F -> is_inode n -> room_made d d1 F n nodes new ->
  write_geom offset (blen data) old (blen ptrs) (blen new) start om req ->
  wrote cx nblk d1 d2 (ptrs ++ new) (start * bs) (write_buf (content d1 (ptrs ++ new)) (blen ptrs * bs) (start * bs) om (req * bs) old data) ->
  file_bytes d2 (ptrs ++ new) (Z.max old (offset + blen data)) =
  bsplice offset data (file_bytes d ptrs old ++ zeros (offset - old)).
Proof.
  intros old ptrs Hd HF Hn Hrm [Hoff Hom Hst Hso Hold Hold0 Hlen Hreq Hfits [He0 He]] Hw.
  pose proof (bs_range cx nblk Hvol) as Hbs.
  assert (Hc : content d1 ptrs = content d ptrs) by (apply content_ext, (rm_data _ _ _ _ _ _ Hrm)).
  pose proof (fm_range _ _ _ _ _ _ (vf_map _ _ _ _ HF n Hn)) as Hpr. fold ptrs in Hpr.
  pose proof (fm_range _ _ _ _ _ _ (vf_map _ _ _ _ (rm_files _ _ _ _ _ _ Hrm) n Hn)) as Hpr'.
  rewrite set_file_eq in Hpr'. fold ptrs in Hpr'. cbn [snd] in Hpr'. apply Forall_app in Hpr' as [_ Hnr].
  pose proof (content_len cx nblk Hvol d ptrs Hd Hpr) as HlC.
  pose proof (content_len cx nblk Hvol d1 new (rm_ok _ _ _ _ _ _ Hrm) Hnr) as HlX.
  unfold file_bytes. rewrite (wr_content _ _ _ _ _ _ _ Hw). rewrite content_app, Hc. unfold write_buf.
  assert (Hfb : (start + req) * bs <= (blen ptrs + blen new) * bs) by (apply Z.mul_le_mono_nonneg_r; lia).
  rewrite Hoff, <- HlC.
  apply (write_bytes (content d ptrs) (content d1 new) data (start * bs) om (req * bs) old); rewrite ?HlC, ?HlX; try lia.
  intros Hle. assert (req <= blen ptrs - start) by nia. nia.
Qed.

Lemma write_geom_exists offset len old c :
  0 <= offset -> 0 < len -> 0 <= old -> offset / bs * bs <= old -> c = ceil_div old bs ->
  let req := (offset mod bs + len + bs - 1) / bs in
  offset / bs + req = ceil_div (offset + len) bs /\ 0 < req /\
  write_geom offset len old c (Z.max 0 (offset / bs + req - c)) (offset / bs) (offset mod bs) req.
Proof.
  intros Ho Hl Hold Hs Hc req. pose proof (bs_range cx nblk Hvol) as Hbs.
  pose proof (Z.div_mod offset bs ltac:(lia)) as Hdm. pose proof (Z.mod_pos_bound offset bs ltac:(lia)) as Hom.
  pose proof (ceil_div_spec (offset mod bs + len) bs ltac:(lia)) as Hr. change (ceil_div (offset mod bs + len) bs) with req in Hr.
  pose proof (ceil_div_spec old bs ltac:(lia)) as Hco. rewrite <- Hc in Hco.
  assert (Hst : 0 <= offset / bs) by (apply Z.div_pos; lia). clearbody req.
  set (st := offset / bs) in *. set (om := offset mod bs) in *. clearbody st om.
  assert (0 < req) by nia. split; [|split; [done|]].
  - symmetry. apply ceil_div_unique; [lia|]. nia.
  - split; try done; lia.
Qed.

(** The file as it was, with its own blocks: no room was needed. *)
Lemma room_made_refl d F n : disk_ok cx nblk d -> vol_files cx nblk d F -> is_inode n -> room_made d d F n (F n).1 [].
Proof.
  intros Hd HF Hn. pose proof (fm_nr _ _ _ _ _ _ (vf_map _ _ _ _ HF n Hn)) as Hnr. split; try done.
  - rewrite app_nil_r. eapply vol_files_ext; [done|apply set_file_self].
  - rewrite app_nil_r, <- Hnr. by destruct (inode_at cx d n).
Qed.

(** Everything after the allocation. *)
Lemma wp_write_finish h f F nodes new offset data start om req u alloc undo d Q a :
  let n := fh_inode_num f in
  let old := i_size (inode_at cx d n) in
  let d1 := a_disk a in
  disk_ok cx nblk d -> vol_files cx nblk d F -> is_inode n -> room_made d d1 F n nodes new ->
  (alloc = false -> d1 = d) -> blen (F n).2 = ceil_div old bs ->
  write_geom offset (blen data) old (blen (F n).2) (blen new) start om req -> om = offset mod bs ->
  0 < req -> start + req <= MOFS_MAX_FILE_DATA_BLOCKS -> offset + blen data <= 2 ^ 26 -> old <= 2 ^ 26 ->
  (forall d', file_written d d' F n nodes new offset data -> Q (Ok (blen data)) (move_if u h (offset + blen data) (set_disk d' a))) ->
  wp cx nblk
    ('(inode, buf_tmp) ← on_error
      (inode ← (if alloc then mofs_read_inode cx n else mret (inode_at cx d n));
       buf_tmp ← write_prepare cx n old offset start req data;
       mret (inode, buf_tmp)) undo;
     write_transfer cx h f inode offset start req (blen data) u buf_tmp) Q a.
Proof.
  intros n old d1 Hd HF Hn Hrm Halloc Hcomp Hg Hom Hr Hmax Hend Hsm HQ. pose proof (bs_range cx nblk Hvol) as Hbs.
  pose proof (rm_ok _ _ _ _ _ _ Hrm) as Hd1.
  pose proof (vf_map _ _ _ _ (rm_files _ _ _ _ _ _ Hrm) n Hn) as Hfm. rewrite set_file_eq in Hfm. cbn [fst snd] in Hfm.
  assert (Hlen : blen ((F n).2 ++ new) = blen (F n).2 + blen new) by (rewrite length_app; lia).
  pose proof Hg as [Hoff Homr Hst Hso Hold Hold0 Hdl Hreq Hfits [He0 He]].
  apply wp_bind, wp_on_error, wp_bind.
  assert (Hread : forall Q' : res mofs_inode_t -> astate -> Prop, Q' (Ok (inode_at cx d1 n)) a ->
    wp cx nblk (if alloc then mofs_read_inode cx n else mret (inode_at cx d n)) Q' a).
  { intros Q' HQ'. destruct alloc; [by apply (wp_read_inode cx nblk Hvol)|]. apply wp_ret. by rewrite <- Halloc. }
  apply Hread. wp_simpl. apply wp_bind, (wp_write_prepare n nodes ((F n).2 ++ new)); try done; try lia.
  wp_simpl. apply wp_ret. wp_simpl. fold d1.
  assert (HC : blen (content d1 ((F n).2 ++ new)) = (blen (F n).2 + blen new) * bs).
  { rewrite (content_len cx nblk Hvol) by (try done; apply Hfm). by rewrite Hlen. }
  rewrite <- Hcomp, <- Hom.
  assert (0 <= start * bs) by (apply Z.mul_nonneg_nonneg; lia). assert (0 <= blen new * bs) by (apply Z.mul_nonneg_nonneg; lia).
  apply (wp_write_transfer h f nodes ((F n).2 ++ new)); try done; try lia; [apply length_write_buf; lia|].
  intros d2 t Hw Ht.
  set (i3 := written_inode (offset + blen data) t (inode_at cx d1 n)). set (d3 := put_inode cx d2 n i3).
  assert (Hi1 : i_size (inode_at cx d1 n) = old) by (rewrite (rm_inode _ _ _ _ _ _ Hrm); done).
  assert (Hin2 : inode_at cx d2 n = inode_at cx d1 n) by (eapply (wrote_inode cx nblk Hvol); [apply Hfm|exact Hw|done]).
  assert (Hfit : inode_fits i3).
  { apply written_inode_fits; [lia|done|]. rewrite <- Hin2. apply (inode_at_fits cx nblk Hvol); [apply Hw|done]. }
  assert (Hin3 : inode_at cx d3 n = i3).
  { unfold d3. rewrite (inode_at_put cx nblk Hvol) by (try done; apply Hw). by rewrite Z.eqb_refl. }
  assert (Hsz : i_size (inode_at cx d3 n) = Z.max old (offset + blen data)) by (rewrite Hin3; unfold i3; by rewrite written_inode_size, Hi1).
  set (F' := set_file F n (nodes, (F n).2 ++ new)) in *.
  assert (Hw' : wrote cx nblk d1 d2 (F' n).2 (start * bs) (write_buf (content d1 ((F n).2 ++ new)) (blen (F n).2 * bs) (start * bs) om (req * bs) old data))
    by (unfold F'; rewrite set_file_eq; exact Hw).
  change (Q (Ok (blen data)) (move_if u h (offset + blen data) (set_disk d3 a))). apply HQ. split.
  - apply (disk_ok_put_inode cx nblk Hvol); [apply Hw|done|apply Hfit].
  - apply (put_inode_files cx nblk Hvol); [apply Hw| |done|done|..].
    + eapply (wrote_files cx nblk Hvol); [apply (rm_files _ _ _ _ _ _ Hrm)|exact Hn|exact Hw'].
    + rewrite Hin2. unfold i3, written_inode. by destruct (_ <? _).
    + rewrite Hin2. unfold i3, written_inode. by destruct (_ <? _).
  - intros m Hm Hne. eapply (same_file_trans cx); [by apply (rm_others _ _ _ _ _ _ Hrm)|].
    apply (same_file_set cx _ _ F n (nodes, (F n).2 ++ new)); [done|]. fold F'.
    eapply (same_file_trans cx); [eapply (wrote_same cx nblk Hvol); [apply (rm_files _ _ _ _ _ _ Hrm)|exact Hn|done|done|exact Hw']|].
    apply (put_inode_same cx nblk Hvol); try done; [apply Hw|].
    eapply (wrote_files cx nblk Hvol); [apply (rm_files _ _ _ _ _ _ Hrm)|exact Hn|exact Hw'].
  - rewrite Hsz. etransitivity; [|exact (written_content d d1 d2 F n nodes new offset data start om req Hd HF Hn Hrm Hg Hw)].
    unfold file_bytes. f_equal. apply content_ext. intros b Hb. apply (put_inode_high cx nblk Hvol); [done|].
    apply (proj1 (Forall_forall _ _) (fm_range _ _ _ _ _ _ Hfm) _ Hb).
  - exists t, (i_data_head (inode_at cx d1 n)). rewrite Hin3. unfold i3. f_equal. apply (rm_inode _ _ _ _ _ _ Hrm).
  - rewrite Hsz, Hlen. symmetry. by eapply write_geom_compact.
  - intros b Hb. pose proof Hvol as []. unfold d3. rewrite (put_inode_low cx nblk Hvol) by (try done; lia).
    rewrite (wrote_low cx nblk d1 d2 _ _ _ _ (fm_range _ _ _ _ _ _ Hfm) Hw) by lia. by apply (rm_low _ _ _ _ _ _ Hrm).
Qed.

Lemma room_made_grown d d1 F n nodes new : vol_files cx nblk d F -> is_inode n ->
  grown cx nblk d d1 n (F n).1 (F n).2 nodes new -> room_made d d1 F n nodes new.
Proof.
  intros HF Hn Hg. split.
  - apply (os_ok _ _ _ _ _ (gr_others _ _ _ _ _ _ _ _ _ Hg)).
  - by apply (grown_files cx nblk Hvol d).
  - intros m Hm Hne. by apply (grown_same cx nblk d d1 F n nodes new m).
  - intros b Hb. by eapply (grown_keeps cx nblk d d1 F).
  - apply (gr_inode _ _ _ _ _ _ _ _ _ Hg).
  - apply (os_low _ _ _ _ _ (gr_others _ _ _ _ _ _ _ _ _ Hg)).
Qed.

(** How many bytes of a request fit below the maximal file size. *)
Definition write_len (offset : Z) (data : list byte) : Z := Z.min (blen data) (mofs_max_file_bytes cx - offset).

(** The blocks that a write of [len] bytes at [offset] needs on top of [c]. *)
Definition extra_blks (offset len c : Z) : Z := Z.max 0 (ceil_div (offset + len) bs - c).

(** What every call of [mofs_write_core] below assumes: an open, writable
    handle on a file whose blocks are exactly those its size needs, and an
    offset that is not beyond the block in which the file ends. *)
Record write_pre (a : astate) (h : nat) (f : mofs_filehandle) (F : files) (offset : Z) (data : list byte) : Prop := {
  wp_disk : disk_ok cx nblk (a_disk a);
  wp_vol : vol_files cx nblk (a_disk a) F;
  wp_open : open_on cx nblk a h f (Z.land (open_flags f) MOFS_OFLAG_ACCMODE) (F (fh_inode_num f)).1 (F (fh_inode_num f)).2;
  wp_flag : has_flag (open_flags f) MOFS_OFLAG_WRONLY = true;
  wp_exact : blen (F (fh_inode_num f)).2 = ceil_div (i_size (inode_at cx (a_disk a) (fh_inode_num f))) bs;
  wp_data : 0 < blen data;
  wp_off : 0 <= offset < mofs_max_file_bytes cx;
  wp_near : offset / bs * bs <= i_size (inode_at cx (a_disk a) (fh_inode_num f))
}.

(** The common first part of [mofs_write_core], up to the allocation. *)
Lemma wp_write_core_start h f F offset data u Q a :
  let n := fh_inode_num f in
  let old := i_size (inode_at cx (a_disk a) n) in
  let c := blen (F n).2 in
  let len := write_len offset data in
  let req := (offset mod bs + len + bs - 1) / bs in
  let last := ceil_div (offset + len) bs in
  write_pre a h f F offset data ->
  wp cx nblk
   ((if c <? last then allocate_data_block cx n (last - c) else mret tt);;
    '(inode, buf_tmp) ← on_error
      (inode ← (if c <? last then mofs_read_inode cx n else mret (inode_at cx (a_disk a) n));
       buf_tmp ← write_prepare cx n old offset (offset / bs) req (take (Z.to_nat len) data);
       mret (inode, buf_tmp))
      (if c <? last then ignore (free_data_block cx n c (last - c)) else mret tt);
    write_transfer cx h f inode offset (offset / bs) req len u buf_tmp) Q a ->
  wp cx nblk (mofs_write_core cx (Some h) data offset u) Q a.
Proof.
  intros n old c len req last [Hd HF [Hp Hu Hin Hfm Hcov Huser Hperm Hreg] Hfl Hex Hdl Hoff Hnear] Hwp.
  pose proof (bs_range cx nblk Hvol) as Hbs. pose proof (covers_small cx nblk Hvol _ _ _ _ Hfm Hcov) as Hsm.
  fold n in Hin, Hfm, Hex, Hsm, Hnear, Hperm, Hreg. fold old in Hex, Hsm, Hnear.
  pose proof (fits_size _ (inode_at_fits cx nblk Hvol (a_disk a) n Hd Hin)) as [Hf0 _]. fold old in Hf0.
  unfold mofs_max_file_bytes, MOFS_MAX_FILE_DATA_BLOCKS in Hoff.
  assert (Hlen : 0 < len <= 1024 * bs - offset) by (unfold len, write_len, mofs_max_file_bytes, MOFS_MAX_FILE_DATA_BLOCKS; lia).
  destruct (write_geom_exists offset len old c ltac:(lia) ltac:(lia) Hf0 Hnear Hex) as (Hlast & Hreq0 & Hg).
  fold req in Hlast, Hreq0, Hg. fold last in Hlast.
  pose proof (Z.mod_pos_bound offset bs ltac:(lia)) as Hom. assert (Hst : 0 <= offset / bs) by (apply Z.div_pos; lia).
  pose proof (ceil_div_spec (offset + len) bs ltac:(lia)) as Hls. fold last in Hls. assert (Hl1024 : last <= 1024) by nia.
  unfold mofs_write_core. apply wp_bind, (wp_get_handle cx nblk h f); [done|done|]. wp_simpl.
  rewrite (proj2 (Z.eqb_neq _ _)), (proj2 (Z.ltb_ge offset 0)) by lia. cbn [orb]. rewrite Hfl. cbn [negb].
  apply wp_bind, (wp_read_inode cx nblk Hvol); [done|done|]. wp_simpl. fold n old.
  apply wp_bind, wp_require_caller; [done|]. wp_simpl.
  apply wp_bind, wp_check_open_permission; [done|]. fold n in Hperm. rewrite Hperm. wp_simpl. fold n in Hreg. rewrite Hreg.
  unfold mofs_max_file_bytes, MOFS_MAX_FILE_DATA_BLOCKS. rewrite (proj2 (Z.leb_gt _ offset)) by lia.
  rewrite (u32_small (1024 * bs - offset)) by lia.
  replace (if 1024 * bs - offset <? blen data then 1024 * bs - offset else blen data) with len
    by (unfold len, write_len, mofs_max_file_bytes, MOFS_MAX_FILE_DATA_BLOCKS; destruct (Z.ltb_spec (1024 * bs - offset) (blen data)); lia).
  rewrite (proj2 (Z.eqb_neq len 0)) by lia. rewrite (u32_small (offset / bs)) by nia.
  rewrite (u32_small (offset mod bs + len + bs - 1)) by lia. fold req. rewrite Hlast.
  rewrite (u32_small last) by lia. rewrite (size_blks_eq cx nblk Hvol) by lia. rewrite <- Hex. fold c. exact Hwp.
Qed.

(** A write for which the volume has room. *)
Lemma wp_write_core h f F offset data u Q a :
  let n := fh_inode_num f in
  let d := a_disk a in
  let c := blen (F n).2 in
  let len := write_len offset data in
  let e := extra_blks offset len c in
  write_pre a h f F offset data ->
  (e = 0 \/ e + ceil_div (c + e) (list_ptrs_cap cx) <= blen (free_data cx d)) ->
  (forall d' nodes new, blen new = e -> file_written d d' F n nodes new offset (take (Z.to_nat len) data) ->
     Q (Ok len) (move_if u h (offset + len) (set_disk d' a))) ->
  wp cx nblk (mofs_write_core cx (Some h) data offset u) Q a.
Proof.
  intros n d c len e Hpre Hroom HQ. apply (wp_write_core_start h f F offset data u Q a Hpre).
  pose proof Hpre as [Hd HF [Hp Hu Hin Hfm Hcov Huser Hperm Hreg] Hfl Hex Hdl Hoff Hnear].
  pose proof (bs_range cx nblk Hvol) as Hbs. pose proof (covers_small cx nblk Hvol _ _ _ _ Hfm Hcov) as Hsm.
  fold n in Hin, Hfm, Hex, Hsm, Hnear |- *. fold d in Hd, HF, Hfm, Hex, Hsm, Hnear |- *. fold c in Hex |- *. fold len.
  set (old := i_size (inode_at cx d n)) in *.
  pose proof (fits_size _ (inode_at_fits cx nblk Hvol d n Hd Hin)) as [Hf0 _]. fold old in Hf0.
  unfold mofs_max_file_bytes, MOFS_MAX_FILE_DATA_BLOCKS in Hoff.
  assert (Hlen : 0 < len <= 1024 * bs - offset /\ len <= blen data) by (unfold len, write_len, mofs_max_file_bytes, MOFS_MAX_FILE_DATA_BLOCKS; lia).
  destruct (write_geom_exists offset len old c ltac:(lia) ltac:(lia) Hf0 Hnear Hex) as (Hlast & Hreq0 & Hg).
  set (req := (offset mod bs + len + bs - 1) / bs) in *. set (last := ceil_div (offset + len) bs) in *.
  rewrite Hlast in Hg. assert (He : Z.max 0 (last - c) = e) by done. rewrite He in Hg.
  set (dat := take (Z.to_nat len) data) in *. assert (Hdat : blen dat = len) by (unfold dat; rewrite length_take; lia).
  pose proof (ceil_div_spec (offset + len) bs ltac:(lia)) as Hls. fold last in Hls.
  assert (Hl1024 : last <= MOFS_MAX_FILE_DATA_BLOCKS) by (apply ceil_div_le; unfold MOFS_MAX_FILE_DATA_BLOCKS; lia).
  assert (Hend : offset + len <= 2 ^ 26) by lia.
  destruct (Z.ltb_spec c last) as [Hgrow|Hno].
  - assert (Hel : last - c = e) by lia. rewrite Hel.
    apply wp_bind, (wp_allocate_grow cx nblk Hvol d n (F n).1 (F n).2 e); try done; try lia; [destruct Hroom as [H0|H0]; [lia|exact H0]|].
    intros d1 nodes new Hnew Hgr. wp_simpl. rewrite <- Hdat.
    apply (wp_write_finish h f F nodes new offset dat (offset / bs) (offset mod bs) req u true _ d); try done; try lia.
    + by apply room_made_grown.
    + fold n old c. by rewrite Hdat, Hnew.
    + intros d' Hfw. rewrite Hdat. fold n in Hfw. by apply (HQ d' nodes new).
  - assert (He0 : e = 0) by lia. rewrite He0 in Hg. apply wp_bind, wp_ret. wp_simpl. rewrite <- Hdat.
    apply (wp_write_finish h f F (F n).1 [] offset dat (offset / bs) (offset mod bs) req u false _ d); try done; try lia.
    + by apply room_made_refl.
    + fold n old c. by rewrite Hdat.
    + intros d' Hfw. rewrite Hdat. fold n in Hfw. by apply (HQ d' (F n).1 []).
Qed.

(** A write for which the volume has no room: nothing is changed. *)
Lemma wp_write_core_full h f F offset data u Q a :
  let n := fh_inode_num f in
  let d := a_disk a in
  let c := blen (F n).2 in
  let e := extra_blks offset (write_len offset data) c in
  write_pre a h f F offset data ->
  0 < e -> blen (free_data cx d) < e + ceil_div (c + e) (list_ptrs_cap cx) ->
  (forall d', unchanged cx nblk d d' -> Q (Err MOFS_ENOSPC) (set_disk d' a)) ->
  wp cx nblk (mofs_write_core cx (Some h) data offset u) Q a.
Proof.
  intros n d c e Hpre He Hfull HQ. apply (wp_write_core_start h f F offset data u Q a Hpre).
  pose proof Hpre as [Hd HF [Hp Hu Hin Hfm _ _ _ _] _ _ Hdl Hoff _]. pose proof (bs_range cx nblk Hvol) as Hbs.
  unfold mofs_max_file_bytes, MOFS_MAX_FILE_DATA_BLOCKS in Hoff.
  fold n in Hin, Hfm |- *. fold c. set (len := write_len offset data) in *.
  assert (Hlen : 0 < len <= 1024 * bs - offset) by (unfold len, write_len, mofs_max_file_bytes, MOFS_MAX_FILE_DATA_BLOCKS; lia).
  pose proof (ceil_div_spec (offset + len) bs ltac:(lia)) as Hls. set (last := ceil_div (offset + len) bs) in *.
  assert (Hel : last - c = e) by (unfold e, extra_blks; fold len last; unfold e, extra_blks in He; fold len last in He; lia).
  assert (Hl1024 : last <= MOFS_MAX_FILE_DATA_BLOCKS) by (apply ceil_div_le; unfold MOFS_MAX_FILE_DATA_BLOCKS; lia).
  rewrite (proj2 (Z.ltb_lt c last)), Hel by lia.
  apply wp_bind, (wp_allocate_full cx nblk Hvol n (F n).1 (F n).2 e); try done; fold c; lia.
Qed.

End writespec.
