(* ===== verification/TruncSpec.v ===== *)
(** * Correctness of truncation

    What [mofs_truncate_core] leaves in the file it shrinks or extends. *)

From Stdlib Require Import ZArith Lia.
From stdpp Require Import base list list_numbers.
From S2P Require Import Prelude Types Platform Raw Buffer BufferSpec Ops Bitmap Inode Block FileData Perm Dirent Path File Volume BlockSpec AllocSpec FreeSpec InodeSpec VolInv FileSpec FileInv PermSpec RwSpec WriteSpec.

(** ** Byte lists *)

Lemma take_bsplice_below {A} n o (x l : list A) : 0 <= n <= o -> o <= blen l ->
  take (Z.to_nat n) (bsplice o x l) = take (Z.to_nat n) l.
Proof.
  intros Hn Ho. apply list_eq. intros i. rewrite !lookup_take_dec. case_decide; [|done].
  rewrite lookup_bsplice by lia. by rewrite decide_True by lia.
Qed.

(** Replaces every error by [MOFS_EIO]. *)
Lemma wp_as_eio {A} cx nblk (p : prog A) Q a :
  wp cx nblk p (fun r a' => match r with Ok x => Q (Ok x) a' | Err _ => Q (Err MOFS_EIO) a' | Stuck => Q Stuck a' end) a ->
  wp cx nblk (as_eio p) Q a.
Proof.
  intros H. unfold as_eio. apply wp_bind, wp_status. eapply wp_mono; [|exact H].
  intros [x|e|] a' H'; [by apply wp_ret|exact H'|exact H'].
Qed.

Section truncspec.
Context (cx : mofs_ctx_t) (nblk : Z) (Hvol : vol_ok cx nblk).
Abbreviation sb := (sp_blk cx).
Abbreviation bs := (blk_size (sp_blk cx)).
Abbreviation drs := (data_region_start (sp_blk cx)).
Abbreviation is_inode n := (0 <= n < inode_num (sp_blk cx)).
Abbreviation file_map := (file_map cx nblk).

(** ** The new size *)

(** The inode after its size was set at time [t]. *)
Definition resized_inode (size t : Z) (inode : mofs_inode_t) : mofs_inode_t :=
  stamp_times t (Z.lor MOFS_INODE_TIME_MTIME MOFS_INODE_TIME_CTIME) (set_i_size size inode).

Lemma resized_inode_fits size t inode : 0 <= size < 2 ^ 32 -> 0 <= t < 2 ^ 64 -> inode_fits inode -> inode_fits (resized_inode size t inode).
Proof. intros Hs Ht Hf. apply stamp_times_fits; [done|]. destruct Hf. by constructor. Qed.

(** Everything below the data bitmap, the inode bitmap among it, is the same. *)
Definition same_low (d d' : disk) : Prop := forall b, 0 <= b < data_bitmap_start sb -> d' b = d b.

(** [d'] is [d] with file [n] resized to [size] bytes on the blocks [ptrs]. *)
Record file_resized (d d' : disk) (F : files) (n : Z) (nodes ptrs : list Z) (size : Z) : Prop := {
  fr_ok : disk_ok cx nblk d';
  fr_files : vol_files cx nblk d' (set_file F n (nodes, ptrs));
  fr_others : forall m, is_inode m -> m <> n -> same_file cx d d' F m;
  fr_size : i_size (inode_at cx d' n) = size;
  fr_bytes : file_bytes d' ptrs size =
    let old := i_size (inode_at cx d n) in
    take (Z.to_nat size) (file_bytes d (F n).2 old ++ zeros (size - old));
  fr_inode : exists t head, inode_at cx d' n = resized_inode size t (set_i_map head (blen ptrs) (inode_at cx d n));
  fr_compact : blen ptrs = ceil_div size bs;
  fr_low : same_low d d';
  fr_nodes : ((F n).2 = [] -> (F n).1 = []) -> ptrs = [] -> nodes = []
}.

Lemma wp_set_size n size inode d0 F nodes ptrs Q a :
  let d := a_disk a in
  disk_ok cx nblk d -> is_inode n -> inode = inode_at cx d n -> 0 <= size < 2 ^ 32 ->
  vol_files cx nblk d (set_file F n (nodes, ptrs)) ->
  (forall m, is_inode m -> m <> n -> same_file cx d0 d F m) ->
  inode = set_i_map (i_data_head inode) (blen ptrs) (inode_at cx d0 n) ->
  (let old := i_size (inode_at cx d0 n) in
   file_bytes d ptrs size = take (Z.to_nat size) (file_bytes d0 (F n).2 old ++ zeros (size - old))) ->
  blen ptrs = ceil_div size bs -> same_low d0 d -> (((F n).2 = [] -> (F n).1 = []) -> ptrs = [] -> nodes = []) ->
  (forall d', file_resized d0 d' F n nodes ptrs size -> Q (Ok tt) (set_disk d' a)) ->
  wp cx nblk (set_size_persist cx n size inode) Q a.
Proof.
  intros d Hd Hn -> Hs HF Hoth Hi Hb Hc Hlow Hnod HQ. unfold set_size_persist.
  apply wp_bind, wp_stamp_now; [done|]. intros t Ht. wp_simpl. fold (resized_inode size t (inode_at cx d n)).
  assert (Hfit : inode_fits (resized_inode size t (inode_at cx d n))).
  { apply resized_inode_fits; [done|done|]. by apply (inode_at_fits cx nblk Hvol). }
  apply (wp_write_inode cx nblk Hvol); [done|done|apply Hfit|]. fold d. apply HQ.
  assert (Hat : inode_at cx (put_inode cx d n (resized_inode size t (inode_at cx d n))) n = resized_inode size t (inode_at cx d n)).
  { rewrite (inode_at_put cx nblk Hvol) by done. by rewrite Z.eqb_refl. }
  split.
  - apply (disk_ok_put_inode cx nblk Hvol); [done|done|apply Hfit].
  - by apply (put_inode_files cx nblk Hvol).
  - intros m Hm Hne. eapply (same_file_trans cx); [by apply Hoth|].
    apply (same_file_set cx _ _ F n (nodes, ptrs)); [done|]. by apply (put_inode_same cx nblk Hvol).
  - by rewrite Hat.
  - etransitivity; [|exact Hb]. unfold file_bytes. f_equal. apply content_ext. intros b Hin.
    apply (put_inode_high cx nblk Hvol); [done|]. apply (vf_range _ _ _ _ n b HF Hn). rewrite file_blocks_set_eq. elems.
  - exists t, (i_data_head (inode_at cx d n)). rewrite Hat. by rewrite Hi at 1.
  - done.
  - intros b Hb'. pose proof Hvol as []. rewrite (put_inode_low cx nblk Hvol) by (try done; lia). by apply Hlow.
  - done.
Qed.

(** ** Shrinking *)

Lemma wp_zero_tail inum nodes ptrs i t Q a :
  let d := a_disk a in
  disk_ok cx nblk d -> is_inode inum -> file_map d inum nodes ptrs -> 0 <= i < blen ptrs -> 0 <= t < bs ->
  (forall d', wrote cx nblk d d' ptrs (i * bs + t) (zeros (bs - t)) -> Q (Ok tt) (set_disk d' a)) ->
  wp cx nblk (zero_partial_block_tail cx inum i t) Q a.
Proof.
  intros d Hd Hin Hfm Hi Ht HQ. pose proof (bs_range cx nblk Hvol) as Hbs. pose proof (fm_range _ _ _ _ _ _ Hfm) as Hpr.
  destruct (fm_block cx nblk _ _ _ _ i Hfm ltac:(lia)) as (b & Hb & Hbr). pose proof (drs_pos cx nblk Hvol).
  pose proof (Hd b ltac:(lia)) as Hlb. pose proof (content_len cx nblk Hvol d ptrs Hd Hpr) as HlC.
  assert (Hlz : blen (zeros (bs - t)) = bs - t) by (rewrite length_zeros; lia).
  unfold zero_partial_block_tail. rewrite (proj2 (Z.leb_gt _ _)) by lia.
  apply wp_bind, wp_malloc; [lia|]. intros buf Hbuf. wp_simpl.
  apply wp_bind, (wp_resolve cx nblk Hvol inum nodes ptrs i b); try done; try lia;
    [by apply Hfm|by eapply fm_nodes_nodup|by apply Hfm|]. wp_simpl.
  apply wp_bind, wp_as_eio, (wp_read_full cx nblk Hvol); [done|lia|done|]. wp_simpl. fold d.
  assert (Hlx : blen (zero_at t (bs - t) (d b)) = bs) by (unfold zero_at; rewrite length_bsplice; lia).
  apply wp_as_eio, (wp_write_full cx nblk Hvol); [lia|done|]. apply HQ. fold d.
  destruct (wrote_block cx nblk Hvol d ptrs i b _ Hd Hpr (fm_ptrs_nodup cx nblk _ _ _ _ Hfm) ltac:(lia) Hb Hlx) as [W1 W2 W3].
  split; [done| |done]. rewrite W2. unfold zero_at. rewrite <- (content_block cx nblk Hvol d ptrs i b) by (try done; lia).
  apply bsplice_nested; try lia; nia.
Qed.

Lemma free_data_wrote d d' ptrs off x : Forall (fun b => drs <= b < nblk) ptrs -> wrote cx nblk d d' ptrs off x ->
  free_data cx d' = free_data cx d.
Proof. intros Hp Hw. apply free_data_ext. intros j Hj. by apply (wrote_bit cx nblk Hvol d d' ptrs off x). Qed.

(** The contents of the first blocks of a file reach up to its size. *)
Lemma file_bytes_prefix d pre post size : disk_ok cx nblk d -> Forall (fun b => drs <= b < nblk) (pre ++ post) ->
  size <= blen pre * bs -> file_bytes d (pre ++ post) size = file_bytes d pre size.
Proof.
  intros Hd Hp Hs. unfold file_bytes. rewrite content_app. apply take_app_le.
  apply Forall_app in Hp as [Hp _]. pose proof (content_len cx nblk Hvol d pre Hd Hp). lia.
Qed.

(** The tail of [truncate_shrink], once the last block kept is cleared. *)
Lemma wp_shrink_blocks n F d0 size keep Q a :
  let d := a_disk a in
  let ptrs := (F n).2 in
  let old := i_size (inode_at cx d0 n) in
  disk_ok cx nblk d -> vol_files cx nblk d F -> is_inode n ->
  (forall m, is_inode m -> m <> n -> same_file cx d0 d F m) -> inode_at cx d n = inode_at cx d0 n -> same_low d0 d ->
  keep = ceil_div size bs -> 0 <= size < old -> old <= blen ptrs * bs -> keep <= blen ptrs ->
  file_bytes d ptrs size = file_bytes d0 ptrs size ->
  (keep < blen ptrs -> ceil_div keep (list_ptrs_cap cx) <= blen (free_data cx d) + (blen ptrs - keep)) ->
  (forall d' nodes, file_resized d0 d' F n nodes (take (Z.to_nat keep) ptrs) size -> Q (Ok tt) (set_disk d' a)) ->
  wp cx nblk
    ((if keep <? blen ptrs then free_data_block cx n keep (blen ptrs - keep) else mret tt);;
     inode ← mofs_read_inode cx n; set_size_persist cx n size inode) Q a.
Proof.
  intros d ptrs old Hd HF Hn Hoth Hino Hlow0 Hkeep Hsz Hold Hk Hbytes Hspace HQ. pose proof (bs_range cx nblk Hvol) as Hbs.
  pose proof (vf_map _ _ _ _ HF n Hn) as Hfm. fold ptrs in Hfm. pose proof (fm_range _ _ _ _ _ _ Hfm) as Hpr.
  pose proof (fm_max _ _ _ _ _ _ Hfm) as Hmax. unfold MOFS_MAX_FILE_DATA_BLOCKS in Hmax.
  pose proof (ceil_div_spec size bs ltac:(lia)) as Hcd. rewrite <- Hkeep in Hcd. assert (Hk0 : 0 <= keep) by nia.
  assert (Hold26 : old <= 2 ^ 26) by nia.
  set (pre := take (Z.to_nat keep) ptrs) in *. set (freed := drop (Z.to_nat keep) ptrs).
  assert (Hsplit : ptrs = pre ++ freed) by (symmetry; apply take_drop).
  assert (Hlp : blen pre = keep) by (unfold pre; rewrite length_take; lia).
  assert (Hlf : blen freed = blen ptrs - keep) by (unfold freed; rewrite length_drop; lia).
  assert (Hcut : take (Z.to_nat size) (file_bytes d0 ptrs old ++ zeros (size - old)) = file_bytes d0 ptrs size).
  { replace (zeros (size - old)) with (@nil byte) by (unfold zeros; by replace (Z.to_nat (size - old)) with 0%nat by lia).
    unfold file_bytes. rewrite app_nil_r, take_take. f_equal. lia. }
  assert (Hend : forall d2 nodes, disk_ok cx nblk d2 -> vol_files cx nblk d2 (set_file F n (nodes, pre)) ->
    (forall m, is_inode m -> m <> n -> same_file cx d d2 F m) -> inode_at cx d2 n = set_i_map (i_data_head (inode_at cx d2 n)) (blen pre) (inode_at cx d n) ->
    (forall b, b ∈ pre -> d2 b = d b) -> same_low d d2 -> (((F n).2 = [] -> (F n).1 = []) -> pre = [] -> nodes = []) ->
    wp cx nblk (inode ← mofs_read_inode cx n; set_size_persist cx n size inode) Q (set_disk d2 a)).
  { intros d2 nodes Hd2 HF2 Hs2 Hi2 Hb2 Hl2 Hn2. apply wp_bind, (wp_read_inode cx nblk Hvol); [done|done|]. wp_simpl.
    apply (wp_set_size n size _ d0 F nodes pre); try done; [lia|..].
    - intros m Hm Hne. eapply (same_file_trans cx); [by apply Hoth|by apply Hs2].
    - cbn [a_disk set_disk]. by rewrite <- Hino.
    - cbn [a_disk set_disk]. fold ptrs old. rewrite Hcut, <- Hbytes, Hsplit, file_bytes_prefix; [|done|by rewrite <- Hsplit|lia].
      unfold file_bytes. f_equal. by apply content_ext.
    - lia.
    - intros b Hb. by rewrite Hl2, Hlow0.
    - intros d' Hr. by apply (HQ d' nodes). }
  destruct (Z.ltb_spec keep (blen ptrs)) as [Hlt|Hge].
  - apply wp_bind. rewrite <- Hlp. apply (wp_free_shrink cx nblk Hvol n (F n).1 pre freed []); rewrite ?app_nil_r; try done.
    + by rewrite <- Hsplit.
    + destruct freed; [simpl in Hlf; lia|done].
    + left. lia.
    + rewrite Hlp, Hlf. by apply Hspace.
    + intros d2 nodes Hs. wp_simpl.
      assert (Hp' : (F n).2 = pre ++ freed ++ []) by (by rewrite app_nil_r).
      assert (Hs' : shrunk cx nblk d d2 n (F n).1 nodes (pre ++ []) freed) by (by rewrite app_nil_r).
      apply (Hend d2 nodes).
      * apply (os_ok _ _ _ _ _ (sh_others _ _ _ _ _ _ _ _ _ Hs)).
      * pose proof (shrunk_files cx nblk Hvol d d2 F n nodes pre freed [] HF Hn Hp' Hs') as HF2. by rewrite app_nil_r in HF2.
      * intros m Hm Hne. apply (shrunk_same cx nblk d d2 F n nodes pre freed m); try done. intros b Hb. rewrite Hp'. elems.
      * apply (sh_inode _ _ _ _ _ _ _ _ _ Hs).
      * intros b Hb. apply (shrunk_keeps cx nblk d d2 n (F n).1 nodes pre freed []); [by rewrite app_nil_r, <- Hsplit|done|by rewrite app_nil_r].
      * exact (os_low _ _ _ _ _ (sh_others _ _ _ _ _ _ _ _ _ Hs)).
      * intros _ Hpre. pose proof (sh_nodes _ _ _ _ _ _ _ _ _ Hs) as Hle. rewrite Hpre, (ceil_div_unique 0 _ 0) in Hle by (pose proof (cap_pos cx nblk Hvol); simpl; lia).
        destruct nodes; [done|simpl in Hle; lia].
  - apply wp_bind, wp_ret. wp_simpl. assert (Hpe : pre = ptrs) by (unfold pre; apply take_ge; lia).
    replace a with (set_disk d a) by (by destruct a). apply (Hend d (F n).1); try done.
    + rewrite Hpe. eapply vol_files_ext; [exact HF|apply set_file_self].
    + rewrite Hpe. pose proof (fm_nr _ _ _ _ _ _ Hfm) as Hnr. rewrite <- Hnr. by destruct (inode_at cx d n).
    + by rewrite Hpe.
Qed.

Lemma wp_truncate_shrink n F size Q a :
  let d := a_disk a in
  let ptrs := (F n).2 in
  let old := i_size (inode_at cx d n) in
  let keep := ceil_div size bs in
  disk_ok cx nblk d -> vol_files cx nblk d F -> is_inode n -> blen ptrs = ceil_div old bs -> 0 <= size < old ->
  (keep < blen ptrs -> ceil_div keep (list_ptrs_cap cx) <= blen (free_data cx d) + (blen ptrs - keep)) ->
  (forall d' nodes, file_resized d d' F n nodes (take (Z.to_nat keep) ptrs) size -> Q (Ok tt) (set_disk d' a)) ->
  wp cx nblk (truncate_shrink cx n size (blen ptrs)) Q a.
Proof.
  intros d ptrs old keep Hd HF Hn Hex Hsz Hspace HQ. pose proof (bs_range cx nblk Hvol) as Hbs.
  pose proof (vf_map _ _ _ _ HF n Hn) as Hfm. fold ptrs in Hfm. pose proof (fm_range _ _ _ _ _ _ Hfm) as Hpr.
  pose proof (fm_max _ _ _ _ _ _ Hfm) as Hmax. unfold MOFS_MAX_FILE_DATA_BLOCKS in Hmax.
  pose proof (ceil_div_spec old bs ltac:(lia)) as Hco. rewrite <- Hex in Hco. assert (Hold26 : old <= 2 ^ 26) by nia.
  pose proof (ceil_div_spec size bs ltac:(lia)) as Hck. fold keep in Hck.
  assert (Hkp : 0 <= keep <= blen ptrs) by nia. assert (Hcap : old <= blen ptrs * bs) by lia.
  assert (Hkeq : (if size =? 0 then 0 else size_blks cx size) = keep).
  { rewrite (size_blks_eq cx nblk Hvol) by lia. fold keep. destruct (Z.eqb_spec size 0); [nia|done]. }
  unfold truncate_shrink. rewrite Hkeq.
  destruct ((0 <? size) && negb (size mod bs =? 0) && (0 <? keep)) eqn:Hpart; apply wp_bind.
  - bool_hyps. pose proof (Z.div_mod size bs ltac:(lia)) as Hdm. pose proof (Z.mod_pos_bound size bs ltac:(lia)) as Hmb.
    assert (Hq : (keep - 1) * bs + size mod bs = size).
    { unfold keep. rewrite ceil_div_cases by lia. rewrite (proj2 (Z.eqb_neq (size mod bs) 0)) by done. lia. }
    apply (wp_zero_tail n (F n).1 ptrs); try done; [lia|]. intros d1 Hw. rewrite Hq in Hw. wp_simpl.
    apply (wp_shrink_blocks n F d size keep); fold ptrs; try done; try lia.
    + apply Hw.
    + by apply (wrote_files cx nblk Hvol d d1 F n _ _ HF Hn Hw).
    + intros m Hm Hne. by apply (wrote_same cx nblk Hvol d d1 F n m _ _ HF Hn Hm Hne Hw).
    + by eapply (wrote_inode cx nblk Hvol).
    + intros b Hb. apply (wrote_low cx nblk d d1 ptrs _ _ b Hpr Hw). pose proof Hvol as []. lia.
    + cbn [a_disk set_disk]. unfold file_bytes. fold ptrs. rewrite (wr_content _ _ _ _ _ _ _ Hw). apply take_bsplice_below; [lia|].
      rewrite (content_len cx nblk Hvol) by done. lia.
    + cbn [a_disk set_disk]. rewrite (free_data_wrote d d1 ptrs _ _ Hpr Hw). exact Hspace.
  - apply wp_ret. wp_simpl. apply (wp_shrink_blocks n F d size keep); fold ptrs; try done; lia.
Qed.

(** ** Growing *)

Lemma wp_preload_zero_loop inum nodes ptrs start c n : forall i buf Q a,
  let d := a_disk a in
  disk_ok cx nblk d -> is_inode inum -> file_map d inum nodes ptrs -> c <= blen ptrs ->
  0 <= start -> 0 <= i -> start + i + Z.of_nat n < 2 ^ 32 -> (i + Z.of_nat n) * bs <= blen buf ->
  Q (Ok (bsplice (i * bs) (content d (bslice (start + i) (Z.max 0 (Z.min (Z.of_nat n) (c - start - i))) ptrs)) buf)) a ->
  wp cx nblk (preload_zero_loop cx inum start c n i buf) Q a.
Proof.
  induction n as [|n IH]; intros i buf Q a d Hd Hin Hfm Hc Hs Hi Hn Hbuf HQ; cbn [preload_zero_loop].
  { apply wp_ret. replace (Z.max 0 (Z.min (Z.of_nat 0) (c - start - i))) with 0 in HQ by lia.
    rewrite bslice_0_len in HQ. change (content d []) with (@nil byte) in HQ. by rewrite bsplice_nil in HQ. }
  pose proof (bs_range cx nblk Hvol) as Hbs. rewrite (u32_small (start + i)) by lia.
  destruct (Z.leb_spec c (start + i)) as [Hge|Hlt].
  { apply IH; try done; try lia. fold d.
    replace (Z.max 0 (Z.min (Z.of_nat n) (c - start - (i + 1)))) with 0 by lia.
    replace (Z.max 0 (Z.min (Z.of_nat (S n)) (c - start - i))) with 0 in HQ by lia.
    rewrite bslice_0_len in *. change (content d []) with (@nil byte) in *. by rewrite bsplice_nil in *. }
  destruct (fm_block cx nblk _ _ _ _ (start + i) Hfm ltac:(lia)) as (b & Hb & Hbr). pose proof (drs_pos cx nblk Hvol).
  apply wp_bind, (wp_resolve cx nblk Hvol inum nodes ptrs (start + i) b); try done; try lia;
    [by apply Hfm|by eapply fm_nodes_nodup|by apply Hfm|]. wp_simpl.
  apply wp_bind, wp_as_eio, (wp_read_first cx nblk Hvol); [done|lia|rewrite length_drop; nia|]. wp_simpl. fold d.
  rewrite (preload_step cx nblk Hvol d nodes ptrs inum start c n i b buf) in HQ by (try done; lia).
  rewrite (splice_block cx nblk Hvol d b i buf) by (try done; lia).
  apply IH; try done; try lia. rewrite length_bsplice; rewrite ?(Hd b) by lia; nia.
Qed.

(** [zero_file_byte_range] from the end of a file of [old] bytes writes the
    same buffer as a write of zeros there. *)
Lemma wp_zero_range n nodes ptrs old size start om req Q a :
  let d := a_disk a in
  let c := ceil_div old bs in
  disk_ok cx nblk d -> is_inode n -> file_map d n nodes ptrs -> i_size (inode_at cx d n) = old ->
  0 <= old < size -> size <= 2 ^ 26 -> start = old / bs -> om = old mod bs -> c <= blen ptrs ->
  req = (size - 1) / bs - start + 1 -> om + (size - old) <= req * bs -> start + req <= blen ptrs ->
  (forall d', wrote cx nblk d d' ptrs (start * bs) (write_buf (content d ptrs) (c * bs) (start * bs) om (req * bs) old (zeros (size - old))) ->
     Q (Ok tt) (set_disk d' a)) ->
  wp cx nblk (zero_file_byte_range cx n old size) Q a.
Proof.
  intros d c Hd Hn Hfm Hold Hsz Hmax Hst Hom Hc Hreq Hfit Hlast HQ. pose proof (bs_range cx nblk Hvol) as Hbs.
  pose proof (fm_max _ _ _ _ _ _ Hfm) as Hm. unfold MOFS_MAX_FILE_DATA_BLOCKS in Hm.
  pose proof (Z.div_mod old bs ltac:(lia)) as Hdm. pose proof (Z.mod_pos_bound old bs ltac:(lia)) as Hmb. rewrite <- Hst, <- Hom in Hdm. rewrite <- Hom in Hmb.
  assert (Hst0 : 0 <= start) by (rewrite Hst; apply Z.div_pos; lia).
  assert (Hr0 : 0 < req) by (destruct (Z.le_gt_cases req 0); [nia|done]).
  assert (HR : 0 < req * bs < 2 ^ 32) by nia.
  pose proof (ceil_div_spec old bs ltac:(lia)) as Hcd. fold c in Hcd. assert (Hsc : start <= c) by (apply (Z.mul_le_mono_pos_l _ _ bs); lia).
  assert (Hcp : c * bs <= blen ptrs * bs) by (apply Z.mul_le_mono_nonneg_r; lia).
  unfold zero_file_byte_range. rewrite (proj2 (Z.leb_gt _ _)) by lia.
  apply wp_bind, (wp_read_inode cx nblk Hvol); [done|done|]. wp_simpl. fold d. rewrite Hold, <- Hst, <- Hreq.
  rewrite (u32_small req), (u32_small (req * bs)) by lia. rewrite (size_blks_eq cx nblk Hvol) by lia. fold c.
  apply wp_bind, wp_malloc; [lia|]. intros ? _. wp_simpl.
  apply wp_bind, (wp_preload_zero_loop n nodes ptrs); try done; try lia; [rewrite length_zeros; nia|]. wp_simpl. fold d.
  rewrite Z.mul_0_l, Z2Nat.id, Z.add_0_r, Z.sub_0_r by lia.
  rewrite <- (content_slice cx nblk Hvol) by (try done; try lia; apply Hfm).
  replace (Z.max 0 (Z.min req (c - start)) * bs) with (Z.min (req * bs) (c * bs - start * bs)) by (symmetry; apply clip_blocks_mul; lia).
  assert (Hzf : (if start * bs <? old then old else start * bs) = old) by (destruct (Z.ltb_spec (start * bs) old); lia).
  rewrite Hzf, (proj2 (Z.ltb_lt old size)) by lia. unfold zero_at.
  match goal with |- context [write_file_data_block cx n ?b start req] => set (buf := b) end.
  assert (Hbuf : buf = write_buf (content d ptrs) (c * bs) (start * bs) om (req * bs) old (zeros (size - old))).
  { unfold buf, write_buf. rewrite (proj2 (Z.ltb_ge old (start * bs + om))) by lia. f_equal. lia. }
  assert (Hlen : blen buf = req * bs).
  { rewrite Hbuf. apply length_write_buf; rewrite ?length_zeros; try lia. rewrite (content_len cx nblk Hvol) by (try done; apply Hfm). lia. }
  apply wp_bind, (wp_write_file_data_block cx nblk Hvol n nodes ptrs); try done; [lia|].
  intros d' Hw. rewrite bslice_all in Hw by done. rewrite Hbuf in Hw. wp_simpl. apply wp_ret. by apply HQ.
Qed.

(** The geometry of filling a file of [old] bytes with zeros up to [size]. *)
Lemma grow_geom old size c : 0 <= old < size -> c = ceil_div old bs ->
  let req := (size - 1) / bs - old / bs + 1 in
  old / bs + req = ceil_div size bs /\
  write_geom cx old (size - old) old c (Z.max 0 (ceil_div size bs - c)) (old / bs) (old mod bs) req.
Proof.
  intros Hs Hc req. pose proof (bs_range cx nblk Hvol) as Hbs.
  pose proof (Z.mod_pos_bound old bs ltac:(lia)) as Hmb. pose proof (Z.div_mod old bs ltac:(lia)) as Hdm.
  destruct (write_geom_exists cx nblk Hvol old (size - old) old c) as (H1 & H2 & H3); try done; try lia.
  replace (old + (size - old)) with size in H1 by lia.
  assert (Hlast : (size - 1) / bs + 1 = ceil_div size bs).
  { symmetry. apply ceil_div_unique; [lia|]. pose proof (Z.div_mod (size - 1) bs ltac:(lia)).
    pose proof (Z.mod_pos_bound (size - 1) bs ltac:(lia)). lia. }
  assert (Hr : req = (old mod bs + (size - old) + bs - 1) / bs) by lia.
  split; [lia|]. rewrite Hr. by rewrite <- H1.
Qed.

(** Everything after the allocation. *)
Lemma wp_grow_fill n F size d d1 nodes new (alloc : bool) undo Q a :
  let c := blen (F n).2 in
  let old := i_size (inode_at cx d n) in
  disk_ok cx nblk d -> vol_files cx nblk d F -> is_inode n -> c = ceil_div old bs -> 0 <= old < size -> size <= 2 ^ 26 ->
  room_made cx nblk d d1 F n nodes new -> blen new = Z.max 0 (ceil_div size bs - c) -> (alloc = false -> d1 = d) ->
  (forall d', file_resized d d' F n nodes ((F n).2 ++ new) size -> Q (Ok tt) (set_disk d' a)) ->
  wp cx nblk (on_error (inode ← (if alloc then mofs_read_inode cx n else mret (inode_at cx d n));
    zero_file_byte_range cx n old size;; set_size_persist cx n size inode) undo) Q (set_disk d1 a).
Proof.
  intros c old Hd HF Hn Hex Hsz Hs26 Hrm Hnew Ha HQ. pose proof (bs_range cx nblk Hvol) as Hbs.
  pose proof (vf_map _ _ _ _ HF n Hn) as Hfm.
  destruct (grow_geom old size c ltac:(lia) Hex) as [Hlast Hg]. set (e := Z.max 0 (ceil_div size bs - c)) in *.
  pose proof (rm_ok _ _ _ _ _ _ _ _ Hrm) as Hd1.
  pose proof (vf_map _ _ _ _ (rm_files _ _ _ _ _ _ _ _ Hrm) n Hn) as Hfm1. rewrite set_file_eq in Hfm1. cbn [fst snd] in Hfm1.
  assert (Hlen : blen ((F n).2 ++ new) = c + e) by (rewrite length_app; lia).
  pose proof (rm_inode _ _ _ _ _ _ _ _ Hrm) as Hi1. assert (Hsz1 : i_size (inode_at cx d1 n) = old) by (by rewrite Hi1).
  apply wp_on_error, wp_bind.
  assert (Hread : forall Q' : res mofs_inode_t -> astate -> Prop, Q' (Ok (inode_at cx d1 n)) (set_disk d1 a) ->
    wp cx nblk (if alloc then mofs_read_inode cx n else mret (inode_at cx d n)) Q' (set_disk d1 a)).
  { intros Q' HQ'. destruct alloc; [by apply (wp_read_inode cx nblk Hvol)|]. apply wp_ret. by rewrite <- Ha. }
  apply Hread. wp_simpl. pose proof Hg as [Ho Homr Hst Hso Holdr _ Hl Hrq Hft Hen].
  apply wp_bind, (wp_zero_range n nodes ((F n).2 ++ new) old size (old / bs) (old mod bs) ((size - 1) / bs - old / bs + 1)); try done; try lia.
  cbn [a_disk set_disk]. intros d2 Hw. wp_simpl. rewrite <- Hex in Hw.
  assert (Hw' : wrote cx nblk d1 d2 (set_file F n (nodes, (F n).2 ++ new) n).2 (old / bs * bs)
     (write_buf (content d1 ((F n).2 ++ new)) (c * bs) (old / bs * bs) (old mod bs) (((size - 1) / bs - old / bs + 1) * bs) old (zeros (size - old))))
    by (rewrite set_file_eq; exact Hw).
  assert (Hlz : blen (zeros (size - old)) = size - old) by (rewrite length_zeros; lia).
  assert (Hin2 : inode_at cx d2 n = inode_at cx d1 n) by (eapply (wrote_inode cx nblk Hvol); [apply Hfm1|exact Hw|done]).
  apply (wp_set_size n size _ d F nodes ((F n).2 ++ new)); cbn [a_disk set_disk]; try done; try lia.
  - apply Hw.
  - by apply (wrote_files cx nblk Hvol d1 d2 _ n _ _ (rm_files _ _ _ _ _ _ _ _ Hrm) Hn Hw').
  - intros m Hm Hne. eapply (same_file_trans cx); [by apply (rm_others _ _ _ _ _ _ _ _ Hrm)|].
    apply (same_file_set cx _ _ F n (nodes, (F n).2 ++ new)); [done|].
    by apply (wrote_same cx nblk Hvol d1 d2 _ n m _ _ (rm_files _ _ _ _ _ _ _ _ Hrm) Hn Hm Hne Hw').
  - pose proof (written_content cx nblk Hvol d d1 d2 F n nodes new old (zeros (size - old)) (old / bs) (old mod bs) ((size - 1) / bs - old / bs + 1) Hd HF Hn Hrm) as Hwc.
    rewrite Hlz in Hwc. fold old c in Hwc. rewrite Hnew in Hwc. specialize (Hwc Hg Hw).
    replace (Z.max old (old + (size - old))) with size in Hwc by lia. rewrite Hwc.
    assert (Hlb : blen (file_bytes d (F n).2 old) = old).
    { unfold file_bytes. rewrite length_take. pose proof (content_len cx nblk Hvol d _ Hd (fm_range _ _ _ _ _ _ Hfm)) as Hcl. fold c in Hcl. lia. }
    replace (zeros (old - old)) with (@nil byte) by (by rewrite Z.sub_diag). rewrite app_nil_r. rewrite bsplice_end by (exact Hlb).
    symmetry. apply take_ge. rewrite length_app. lia.
  - rewrite Hlen, <- (write_geom_compact cx nblk Hvol _ _ _ _ _ _ _ _ Hg). f_equal. lia.
  - intros b Hb. pose proof Hvol as []. rewrite (wrote_low cx nblk d1 d2 _ _ _ b (fm_range _ _ _ _ _ _ Hfm1) Hw) by lia. by apply (rm_low _ _ _ _ _ _ _ _ Hrm).
  - intros _ Hnil. rewrite Hnil in Hlen. simpl in Hlen. pose proof (ceil_div_spec size bs ltac:(lia)). nia.
Qed.

Lemma wp_truncate_grow n F size Q a :
  let d := a_disk a in
  let c := blen (F n).2 in
  let old := i_size (inode_at cx d n) in
  let e := Z.max 0 (ceil_div size bs - c) in
  disk_ok cx nblk d -> vol_files cx nblk d F -> is_inode n -> c = ceil_div old bs ->
  old < size <= mofs_max_file_bytes cx ->
  e = 0 \/ e + ceil_div (c + e) (list_ptrs_cap cx) <= blen (free_data cx d) ->
  (forall d' nodes new, blen new = e -> file_resized d d' F n nodes ((F n).2 ++ new) size -> Q (Ok tt) (set_disk d' a)) ->
  wp cx nblk (truncate_grow cx n size (inode_at cx d n)) Q a.
Proof.
  intros d c old e Hd HF Hn Hex Hsz Hroom HQ. pose proof (bs_range cx nblk Hvol) as Hbs.
  pose proof (vf_map _ _ _ _ HF n Hn) as Hfm. pose proof (fm_nr _ _ _ _ _ _ Hfm) as Hnr.
  pose proof (fits_size _ (inode_at_fits cx nblk Hvol d n Hd Hn)) as [Hold0 _]. fold old in Hold0.
  unfold mofs_max_file_bytes, MOFS_MAX_FILE_DATA_BLOCKS in Hsz. assert (Hs26 : size <= 2 ^ 26) by nia.
  pose proof (ceil_div_spec size bs ltac:(lia)) as Hcs. assert (Hc1024 : 0 <= ceil_div size bs <= 1024) by nia.
  unfold truncate_grow. fold old. fold c in Hnr. rewrite Hnr. rewrite (size_blks_eq cx nblk Hvol) by lia.
  destruct (Z.ltb_spec c (ceil_div size bs)) as [Hlt|Hge]; apply wp_bind.
  - apply (wp_allocate_grow cx nblk Hvol d n (F n).1 (F n).2); fold c; try done; try (unfold MOFS_MAX_FILE_DATA_BLOCKS; lia).
    + destruct Hroom as [He|Hr]; [lia|]. by replace e with (ceil_div size bs - c) in Hr by lia.
    + intros d1 nodes new Hnew Hgr. wp_simpl. apply (wp_grow_fill n F size d d1 nodes new true); try done; try lia; [by apply (room_made_grown cx nblk Hvol)|].
      intros d' Hr. by apply (HQ d' nodes new); [lia|].
  - apply wp_ret. wp_simpl. replace a with (set_disk d a) by (by destruct a).
    apply (wp_grow_fill n F size d d (F n).1 [] false); try done; try lia; [by apply room_made_refl|simpl; lia|].
    intros d' Hr. by apply (HQ d' (F n).1 []); [simpl; lia|].
Qed.

(** ** The whole call *)

(** What a call of [mofs_truncate_core] below assumes: a regular file that the
    caller may write, whose blocks are exactly those its size needs, and a
    length below the maximal file size. *)
Record trunc_pre (a : astate) (F : files) (n len : Z) : Prop := {
  tp_disk : disk_ok cx nblk (a_disk a);
  tp_vol : vol_files cx nblk (a_disk a) F;
  tp_inode : is_inode n;
  tp_exact : blen (F n).2 = ceil_div (i_size (inode_at cx (a_disk a) n)) bs;
  tp_user : u_valid (a_caller a) = true;
  tp_perm : open_permission MOFS_OFLAG_WRONLY (a_caller a) (inode_at cx (a_disk a) n) = Ok tt;
  tp_reg : has_flag (i_mode (inode_at cx (a_disk a) n)) MOFS_FTYPE_DIR = false;
  tp_len : 0 <= len <= mofs_max_file_bytes cx
}.

(** The blocks of the file after truncation to [len], given the new ones. *)
Definition trunc_ptrs (ptrs new : list Z) (len : Z) : list Z := take (Z.to_nat (ceil_div len bs)) ptrs ++ new.

(** Room for the list nodes and, when the file grows, for the new blocks. *)
Definition trunc_room (d : disk) (F : files) (n len : Z) : Prop :=
  let c := blen (F n).2 in
  let k := ceil_div len bs in
  (k < c -> ceil_div k (list_ptrs_cap cx) <= blen (free_data cx d) + (c - k)) /\
  (c < k -> (k - c) + ceil_div k (list_ptrs_cap cx) <= blen (free_data cx d)).

Lemma wp_truncate_guards n len F Q a : trunc_pre a F n len ->
  let old := i_size (inode_at cx (a_disk a) n) in
  wp cx nblk (if len =? old then mret tt else if len <? old then truncate_shrink cx n len (blen (F n).2)
              else truncate_grow cx n len (inode_at cx (a_disk a) n)) Q a ->
  wp cx nblk (mofs_truncate_core cx n len) Q a.
Proof.
  intros [Hd HF Hn Hex Hu Hp Hreg Hlen] old Hwp. pose proof (bs_range cx nblk Hvol) as Hbs.
  unfold mofs_max_file_bytes, MOFS_MAX_FILE_DATA_BLOCKS in Hlen.
  unfold mofs_truncate_core, mofs_max_file_bytes, MOFS_MAX_FILE_DATA_BLOCKS.
  rewrite (proj2 (Z.ltb_ge n 0)), (proj2 (Z.ltb_ge len 0)), (proj2 (Z.ltb_ge _ len)), u32_small by lia.
  unfold truncate_inode. apply wp_bind, (wp_read_inode cx nblk Hvol); [done|done|]. wp_simpl. rewrite Hreg.
  apply wp_bind, wp_require_caller; [done|]. wp_simpl.
  apply wp_bind, wp_check_open_permission; [done|]. rewrite Hp. wp_simpl. fold old.
  by rewrite (fm_nr _ _ _ _ _ _ (vf_map _ _ _ _ HF n Hn)).
Qed.

Lemma wp_truncate n len F Q a : trunc_pre a F n len -> len <> i_size (inode_at cx (a_disk a) n) -> trunc_room (a_disk a) F n len ->
  (forall d' nodes new, blen new = Z.max 0 (ceil_div len bs - blen (F n).2) ->
     file_resized (a_disk a) d' F n nodes (trunc_ptrs (F n).2 new len) len -> Q (Ok tt) (set_disk d' a)) ->
  wp cx nblk (mofs_truncate_core cx n len) Q a.
Proof.
  intros Hpre Hne [Hsh Hgr] HQ. apply (wp_truncate_guards n len F Q a Hpre). destruct Hpre as [Hd HF Hn Hex Hu Hp Hreg Hlen].
  pose proof (bs_range cx nblk Hvol) as Hbs. rewrite (proj2 (Z.eqb_neq _ _)) by done.
  set (old := i_size (inode_at cx (a_disk a) n)) in *.
  pose proof (ceil_div_spec old bs ltac:(lia)) as Hco. pose proof (ceil_div_spec len bs ltac:(lia)) as Hcl. rewrite <- Hex in Hco.
  destruct (Z.ltb_spec len old) as [Hlt|Hge].
  - apply (wp_truncate_shrink n F); try done; [lia|]. intros d' nodes Hr. apply (HQ d' nodes []).
    + assert (ceil_div len bs <= blen (F n).2) by nia. simpl. lia.
    + unfold trunc_ptrs. by rewrite app_nil_r.
  - assert (Hle : blen (F n).2 <= ceil_div len bs) by nia.
    apply (wp_truncate_grow n F); try done; [fold old; lia|..].
    + destruct (Z.eq_dec (blen (F n).2) (ceil_div len bs)) as [He|Hn']; [left; lia|right].
      rewrite Z.max_r by lia. rewrite Zplus_minus. apply Hgr. lia.
    + intros d' nodes new Hnew Hr. apply (HQ d' nodes new Hnew). unfold trunc_ptrs. rewrite take_ge by lia. exact Hr.
Qed.

(** Too full: the file keeps its size and contents. *)
Lemma wp_truncate_full n len F Q a : trunc_pre a F n len -> i_size (inode_at cx (a_disk a) n) < len ->
  blen (F n).2 < ceil_div len bs ->
  blen (free_data cx (a_disk a)) < (ceil_div len bs - blen (F n).2) + ceil_div (ceil_div len bs) (list_ptrs_cap cx) ->
  (forall d', unchanged cx nblk (a_disk a) d' -> Q (Err MOFS_ENOSPC) (set_disk d' a)) ->
  wp cx nblk (mofs_truncate_core cx n len) Q a.
Proof.
  intros Hpre Hlt Hc Hfull HQ. apply (wp_truncate_guards n len F Q a Hpre). destruct Hpre as [Hd HF Hn Hex Hu Hp Hreg Hlen].
  pose proof (bs_range cx nblk Hvol) as Hbs. pose proof (vf_map _ _ _ _ HF n Hn) as Hfm.
  unfold mofs_max_file_bytes, MOFS_MAX_FILE_DATA_BLOCKS in Hlen.
  pose proof (ceil_div_spec len bs ltac:(lia)) as Hcl. assert (Hk : ceil_div len bs <= 1024) by nia.
  rewrite (proj2 (Z.eqb_neq _ _)), (proj2 (Z.ltb_ge _ _)) by lia.
  unfold truncate_grow. rewrite (fm_nr _ _ _ _ _ _ Hfm). rewrite (size_blks_eq cx nblk Hvol) by nia.
  rewrite (proj2 (Z.ltb_lt _ _)) by done. apply wp_bind.
  apply (wp_allocate_full cx nblk Hvol n (F n).1 (F n).2); try done; try (unfold MOFS_MAX_FILE_DATA_BLOCKS; lia).
  by rewrite Zplus_minus.
Qed.

End truncspec.
