(* ===== verification/DirSpec.v ===== *)
(** * Directories as lists of entries

    A directory is a file whose bytes are 32-byte entries.  The loops of
    [Dirent] read it block by block; here they are related to searches of the
    list of all its entries. *)

From Stdlib Require Import ZArith Lia.
From stdpp Require Import base list list_numbers.
From S2P Require Import Prelude Types Platform Raw Buffer BufferSpec Ops Bitmap Inode Block FileData Dirent Volume BlockSpec AllocSpec InodeSpec VolInv FileSpec FileInv.

(** [k] entries from the [s]-th on. *)
Definition dirent_slice (s : Z) (k : nat) (buf : list byte) : list mofs_dirent_t := (fun j => dirent_at (s + Z.of_nat j) buf) <$> seq 0 k.

Lemma dirents_slice k buf : dirents k buf = dirent_slice 0 k buf.
Proof. reflexivity. Qed.

Lemma dirent_slice_app s k l buf : dirent_slice s (k + l) buf = dirent_slice s k buf ++ dirent_slice (s + Z.of_nat k) l buf.
Proof.
  unfold dirent_slice. rewrite seq_app, fmap_app. f_equal. replace (seq (0 + k) l) with (Nat.add k <$> seq 0 l) by (rewrite fmap_add_seq; f_equal; lia).
  rewrite <- list_fmap_compose.
  apply list_fmap_ext. intros j x Hx. simpl. f_equal. lia.
Qed.

Lemma dirent_slice_lookup s k buf j : (j < k)%nat -> dirent_slice s k buf !! j = Some (dirent_at (s + Z.of_nat j) buf).
Proof. intros Hj. unfold dirent_slice. rewrite list_lookup_fmap, lookup_seq_lt by done. done. Qed.

Lemma length_dirent_slice s k buf : length (dirent_slice s k buf) = k.
Proof. unfold dirent_slice. by rewrite length_fmap, length_seq. Qed.

Lemma dirent_slice_ext s t k b c : (forall j, 0 <= j < Z.of_nat k -> dirent_at (s + j) b = dirent_at (t + j) c) ->
  dirent_slice s k b = dirent_slice t k c.
Proof.
  intros H. apply list_fmap_ext. intros j x Hx. apply lookup_seq in Hx as [-> Hj]. apply H. lia.
Qed.

(** A slice of the bytes holds a slice of the entries. *)
Lemma dirent_at_bslice s n buf j : 0 <= s -> 0 <= j -> 32 * j + 32 <= n ->
  dirent_at j (bslice (32 * s) n buf) = dirent_at (s + j) buf.
Proof. intros Hs Hj Hn. unfold dirent_at. rewrite bslice_bslice by lia. do 2 f_equal. lia. Qed.

Lemma dirent_at_bsplice j x buf : 0 <= j -> 32 * j + 32 <= blen x -> blen x <= blen buf ->
  dirent_at j (bsplice 0 x buf) = dirent_at j x.
Proof. intros Hj Hx Hb. unfold dirent_at. rewrite bslice_bsplice_in by lia. by rewrite Z.sub_0_r. Qed.

(** ** Searches *)

Lemma find_idx_app {A} (f : A -> bool) l m :
  find_idx f (l ++ m) = match find_idx f l with Some j => Some j | None => Nat.add (length l) <$> find_idx f m end.
Proof.
  induction l as [|x l IH]; simpl; [by destruct (find_idx f m)|]. destruct (f x); [done|]. rewrite IH.
  destruct (find_idx f l); [done|]. by destruct (find_idx f m).
Qed.

Lemma find_idx_lt {A} (f : A -> bool) l j : find_idx f l = Some j -> (j < length l)%nat.
Proof. intros H. apply find_idx_Some in H as [(x & Hx & _) _]. by eapply lookup_lt_Some. Qed.

Lemma find_app {A} (f : A -> bool) l m :
  List.find f (l ++ m) = match List.find f l with Some x => Some x | None => List.find f m end.
Proof. induction l as [|x l IH]; simpl; [done|]. by destruct (f x). Qed.

Lemma find_idx_find {A} (f : A -> bool) l :
  match find_idx f l with Some j => exists x, l !! j = Some x /\ List.find f l = Some x | None => List.find f l = None end.
Proof.
  induction l as [|x l IH]; simpl; [done|]. destruct (f x); [by exists x|]. destruct (find_idx f l) as [j|]; simpl; [|done].
  destruct IH as (y & Hy & Hf). by exists y.
Qed.

Lemma dirents_lookup k buf j x : dirents k buf !! j = Some x -> x = dirent_at (Z.of_nat j) buf /\ (j < k)%nat.
Proof.
  intros H. pose proof (lookup_lt_Some _ _ _ H) as Hj. rewrite dirents_slice, length_dirent_slice in Hj.
  rewrite dirents_slice, dirent_slice_lookup in H by done. by injection H as <-.
Qed.

Section dirspec.
Context (cx : mofs_ctx_t) (nblk : Z) (Hvol : vol_ok cx nblk).
Abbreviation sb := (sp_blk cx).
Abbreviation bs := (blk_size (sp_blk cx)).
Abbreviation epb := (blk_size (sp_blk cx) / 32).
Abbreviation drs := (data_region_start (sp_blk cx)).
Abbreviation is_inode n := (0 <= n < inode_num (sp_blk cx)).
Abbreviation file_map := (file_map cx nblk).

(** The entries of the directory [n], whose data blocks are [ptrs]. *)
Definition dir_entries (d : disk) (n : Z) (ptrs : list Z) : list mofs_dirent_t :=
  dirent_slice 0 (Z.to_nat (i_size (inode_at cx d n) / 32)) (content d ptrs).

(** The entries from the [i]-th block on. *)
Definition entries_from (d : disk) (n : Z) (ptrs : list Z) (i : Z) : list mofs_dirent_t :=
  dirent_slice (i * epb) (Z.to_nat (i_size (inode_at cx d n) / 32 - i * epb)) (content d ptrs).

(** The entries of the [i]-th block. *)
Definition block_entries (d : disk) (n : Z) (ptrs : list Z) (i : Z) : list mofs_dirent_t :=
  dirent_slice (i * epb) (Z.to_nat (Z.min epb (i_size (inode_at cx d n) / 32 - i * epb))) (content d ptrs).

Lemma epb_eq : bs = 32 * epb /\ 16 <= epb.
Proof. destruct (bs_512 cx nblk Hvol) as (m & Hm & Hr). rewrite Hm. replace (512 * m) with (16 * m * 32) by lia. rewrite Z.div_mul by lia. lia. Qed.

Lemma entries_from_0 d n ptrs : entries_from d n ptrs 0 = dir_entries d n ptrs.
Proof. unfold entries_from, dir_entries. f_equal. rewrite Z.mul_0_l. f_equal. lia. Qed.

Lemma entries_from_step d n ptrs i : 0 <= i -> entries_from d n ptrs i = block_entries d n ptrs i ++ entries_from d n ptrs (i + 1).
Proof.
  intros Hi. unfold entries_from, block_entries. destruct epb_eq as [_ He].
  set (t := i_size _ / 32). destruct (Z.le_gt_cases (t - i * epb) epb) as [Hle|Hgt].
  - replace (Z.to_nat (t - (i + 1) * epb)) with 0%nat by lia. rewrite Z.min_r by lia.
    unfold dirent_slice at 3. simpl. by rewrite app_nil_r.
  - rewrite Z.min_l by lia. replace (Z.to_nat (t - i * epb)) with (Z.to_nat epb + Z.to_nat (t - (i + 1) * epb))%nat by lia.
    rewrite dirent_slice_app. do 3 f_equal. lia.
Qed.

Lemma entries_from_end d n ptrs i : ceil_div (i_size (inode_at cx d n)) bs <= i -> entries_from d n ptrs i = [].
Proof.
  intros Hi. pose proof (bs_range cx nblk Hvol) as Hbs. destruct epb_eq as [He H16]. set (size := i_size (inode_at cx d n)) in *.
  pose proof (ceil_div_spec size bs ltac:(lia)) as Hc.
  assert (Hle : bs * ceil_div size bs <= bs * i) by (apply Z.mul_le_mono_nonneg_l; lia).
  unfold entries_from. fold size. replace (Z.to_nat (size / 32 - i * epb)) with 0%nat; [done|].
  assert (size / 32 <= i * epb); [|lia]. apply Z.div_le_upper_bound; [lia|]. lia.
Qed.

(** ** One block of a directory *)

(** What the loops need of a directory. *)
Record dir_file (d : disk) (n : Z) (nodes ptrs : list Z) : Prop := {
  df_inode : is_inode n;
  df_map : file_map d n nodes ptrs;
  df_covers : covers cx d n ptrs
}.

Lemma df_size d n nodes ptrs : disk_ok cx nblk d -> dir_file d n nodes ptrs ->
  0 <= i_size (inode_at cx d n) <= 2 ^ 26 /\ size_blks cx (i_size (inode_at cx d n)) = ceil_div (i_size (inode_at cx d n)) bs /\
  ceil_div (i_size (inode_at cx d n)) bs <= blen ptrs /\ blen ptrs <= 1024.
Proof.
  intros Hd [Hn Hm Hc]. pose proof (covers_small cx nblk Hvol _ _ _ _ Hm Hc) as Hs.
  pose proof (fits_size _ (inode_at_fits cx nblk Hvol d n Hd Hn)) as [H0 _]. pose proof (bs_range cx nblk Hvol).
  pose proof (fm_max _ _ _ _ _ _ Hm) as Hx. unfold MOFS_MAX_FILE_DATA_BLOCKS in Hx.
  split_and!; try lia; [apply (size_blks_eq cx nblk Hvol); lia|apply ceil_div_le; [lia|exact Hc]].
Qed.

Lemma wp_read_dir_block n nodes ptrs i buf Q a :
  let d := a_disk a in
  disk_ok cx nblk d -> dir_file d n nodes ptrs -> 0 <= i < ceil_div (i_size (inode_at cx d n)) bs -> bs <= blen buf ->
  (forall rd frac b, dir_read_ok rd frac = true -> ptrs !! Z.to_nat i = Some b ->
     dirents (dirent_num cx frac) (bsplice 0 (d b) buf) = block_entries d n ptrs i ->
     ((i + 1) * bs <= i_size (inode_at cx d n) -> rd = 1 /\ frac = 0) ->
     Q (Ok (rd, frac, bsplice 0 (d b) buf)) a) ->
  wp cx nblk (read_file_data_block cx n buf i 1) Q a.
Proof.
  intros d Hd Hdf Hi Hbuf HQ. destruct (df_size d n nodes ptrs Hd Hdf) as (Hsz & _ & Hcp & Hmax). destruct Hdf as [Hn Hm Hcov].
  set (size := i_size (inode_at cx d n)) in *. pose proof (bs_range cx nblk Hvol) as Hbs. destruct epb_eq as [He H16].
  pose proof (ceil_div_spec size bs ltac:(lia)) as Hc. set (c := ceil_div size bs) in *.
  apply (wp_read_file_data_block cx nblk Hvol n nodes ptrs); try done; try lia.
  fold d. unfold blocks_read. fold size c. replace (Z.max 0 (Z.min 1 (c - i))) with 1 by lia.
  intros rd frac Hrd Hfr Hgot Hcase.
  destruct (fm_block cx nblk _ _ _ _ i Hm ltac:(lia)) as (b & Hb & Hbr).
  assert (Hblk : content d (bslice i 1 ptrs) = d b).
  { rewrite <- (content_slice cx nblk Hvol) by (try done; try lia; apply Hm). rewrite Z.mul_1_l.
    apply (content_block cx nblk Hvol); [done|apply Hm|lia|done]. }
  assert (Hlb : blen (d b) = bs) by (apply Hd; pose proof (drs_pos cx nblk Hvol); lia).
  rewrite Hblk. assert (Hib : bs * i <= bs * (c - 1)) by (apply Z.mul_le_mono_nonneg_l; lia).
  assert (Hg : rd * bs + frac = Z.min bs (size - i * bs)) by lia. clear Hgot.
  assert (Hrd01 : rd = 1 /\ frac = 0 \/ rd = 0 /\ 0 < frac) by lia.
  assert (Hk : dirent_num cx frac = Z.to_nat (Z.min epb (size / 32 - i * epb))).
  { unfold dirent_num, sizeof_dirent. f_equal.
    assert (Hd32 : size / 32 - i * epb = (size - i * bs) / 32).
    { replace (size - i * bs) with (size + - (i * epb) * 32) by lia. rewrite Z.div_add by lia. lia. }
    rewrite Hd32. destruct Hrd01 as [[-> ->]|[-> Hf]].
    - cbn [Z.eqb negb]. rewrite Z.min_l; [done|]. apply Z.div_le_mono; lia.
    - rewrite (proj2 (Z.eqb_neq _ _)) by lia. cbn [negb]. rewrite Z.min_r; [f_equal; lia|]. apply Z.div_le_mono; lia. }
  apply (HQ rd frac b); [|done|..].
  - unfold dir_read_ok. destruct Hrd01 as [[-> ->]|[-> Hf]]; [done|]. rewrite (proj2 (Z.eqb_neq frac _)) by lia. by destruct (_ && _).
  - unfold block_entries. fold size. rewrite dirents_slice, Hk. apply dirent_slice_ext. intros j Hj. rewrite Z.add_0_l.
    rewrite dirent_at_bsplice by lia.
    rewrite <- (content_block cx nblk Hvol d ptrs i b Hd ltac:(apply Hm) ltac:(lia) Hb).
    replace (i * bs) with (32 * (i * epb)) by lia. apply dirent_at_bslice; lia.
  - intros Hfull. lia.
Qed.

(** A well-formed list of entries: an entry with a name refers to an inode, and
    no name occurs twice. *)
Record dir_wf (es : list mofs_dirent_t) : Prop := {
  dw_used : forall e, e ∈ es -> name_set e = true -> 0 < d_inode_num e < inode_num sb;
  dw_unique : forall i j e f, es !! i = Some e -> es !! j = Some f -> name_set e = true -> c_str (d_name e) = c_str (d_name f) -> i = j
}.

(** ** Searching *)

Definition find_result (component : cstr) (es : list mofs_dirent_t) : res Z :=
  match List.find (has_name component) es with Some e => Ok (s32 (d_inode_num e)) | None => Err MOFS_ENOENT end.

Lemma wp_find_entry_loop component n nodes ptrs k : forall i buf Q a,
  let d := a_disk a in
  disk_ok cx nblk d -> dir_file d n nodes ptrs -> 0 <= i -> i + Z.of_nat k = ceil_div (i_size (inode_at cx d n)) bs -> bs <= blen buf ->
  Q (find_result component (entries_from d n ptrs i)) a ->
  wp cx nblk (find_entry_loop cx component n k i buf) Q a.
Proof.
  induction k as [|k IH]; intros i buf Q a d Hd Hdf Hi Hk Hbuf HQ; cbn [find_entry_loop].
  { rewrite entries_from_end in HQ by (fold d; lia). exact HQ. }
  apply wp_bind, (wp_read_dir_block n nodes ptrs); try done; [fold d; lia|].
  intros rd frac b Hok Hb He Hfull. wp_simpl. fold d in He. fold d.
  unfold find_result in HQ. rewrite entries_from_step, find_app in HQ by done. rewrite <- He in HQ.
  pose proof (find_idx_find (has_name component) (dirents (dirent_num cx frac) (bsplice 0 (d b) buf))) as Hf.
  destruct (find_idx _ _) as [j|].
  - destruct Hf as (x & Hx & Hf). rewrite Hf in HQ. apply dirents_lookup in Hx as [-> _]. exact HQ.
  - rewrite Hf in HQ. apply IH; try done; try (fold d; lia). assert (Hlb : blen (d b) = bs); [|rewrite length_bsplice; lia].
    apply Hd. pose proof (Forall_lookup_1 _ _ _ _ (fm_range _ _ _ _ _ _ (df_map _ _ _ _ Hdf)) Hb). pose proof (drs_pos cx nblk Hvol). cbn beta in *. lia.
Qed.

Lemma wp_find_dir_entry component n nodes ptrs Q a :
  let d := a_disk a in
  disk_ok cx nblk d -> dir_file d n nodes ptrs ->
  Q (find_result component (dir_entries d n ptrs)) a ->
  wp cx nblk (find_dir_entry cx component n) Q a.
Proof.
  intros d Hd Hdf HQ. destruct (df_size _ _ _ _ Hd Hdf) as (Hsz & Hblk & Hc & Hm). pose proof (df_inode _ _ _ _ Hdf) as Hn.
  pose proof (bs_range cx nblk Hvol) as Hbs. pose proof (ceil_div_spec (i_size (inode_at cx d n)) bs ltac:(lia)) as Hcd.
  unfold find_dir_entry. rewrite (proj2 (Z.ltb_ge _ _)) by lia.
  apply wp_bind, wp_malloc; [lia|]. intros buf Hbuf. wp_simpl.
  apply wp_bind, (wp_read_inode cx nblk Hvol); [done|done|]. wp_simpl. fold d. rewrite Hblk.
  assert (Hc0 : 0 <= ceil_div (i_size (inode_at cx d n)) bs) by (apply Z.div_pos; lia).
  rewrite s32_small by lia. rewrite <- entries_from_0 in HQ.
  apply (wp_find_entry_loop component n nodes ptrs); try done; [fold d; lia|lia].
Qed.

End dirspec.
