(* ===== verification/PathSpec.v ===== *)
(** * Correctness of path resolution

    Splitting a path into its components, and the walk along them as a pure
    function of the disk. *)

From Stdlib Require Import ZArith Lia.
From stdpp Require Import base list list_numbers.
From S2P Require Import Prelude Types Platform Raw Buffer BufferSpec Ops Bitmap Inode Block FileData Perm Dirent Path Volume BlockSpec AllocSpec InodeSpec VolInv FileSpec FileInv PermSpec DirSpec.

(** ** Path components *)

Lemma strtok_from_app cur c s : slash ∉ c -> strtok_from cur (c ++ s) = strtok_from (rev c ++ cur) s.
Proof.
  revert cur. induction c as [|x c IH]; intros cur Hc; [done|].
  apply not_elem_of_cons in Hc as [Hx Hc]. simpl. rewrite bool_decide_false by congruence.
  rewrite IH by done. by rewrite <- app_assoc.
Qed.

(** The path ["/c1/c2/..."]. *)
Definition join_path (cs : list cstr) : cstr := concat (map (fun c => slash :: c) cs).

Lemma strtok_from_join cur cs : Forall (fun c => c <> [] /\ slash ∉ c) cs ->
  strtok_from cur (join_path cs) = (match cur with [] => [] | _ => [rev cur] end) ++ cs.
Proof.
  intros Hcs. revert cur. induction Hcs as [|c cs [Hne Hs] _ IH]; intros cur.
  { simpl. by rewrite app_nil_r. }
  cbn [join_path map concat app]. cbn [strtok_from]. rewrite bool_decide_true by done. f_equal.
  fold (join_path cs). rewrite strtok_from_app by done. rewrite IH, app_nil_r, rev_involutive.
  destruct c as [|x c]; [done|]. simpl. by destruct (rev c ++ [x]) eqn:E; [destruct (rev c)|].
Qed.

Lemma strtok_from_tokens cur s : slash ∉ cur ->
  Forall (fun c => c <> [] /\ slash ∉ c) (strtok_from cur s) /\
  concat (strtok_from cur s) = rev cur ++ filter (fun b : byte => b <> slash) s.
Proof.
  revert cur. induction s as [|x s IH]; intros cur Hc; cbn [strtok_from].
  - change (filter _ []) with (@nil byte). rewrite app_nil_r. destruct cur as [|y cur]; [split; [constructor|done]|].
    assert (Hr : slash ∉ rev (y :: cur)) by (rewrite list_elem_of_In, <- in_rev, <- list_elem_of_In; done).
    split; [|cbn [concat]; by rewrite app_nil_r]. constructor; [|constructor]. split; [|done].
    simpl. by destruct (rev cur).
  - destruct (bool_decide_reflect (x = slash)) as [->|Hx].
    + destruct (IH [] ltac:(apply not_elem_of_nil)) as [IH1 IH2]. rewrite (filter_cons_False (fun b : byte => b <> slash)) by tauto.
      destruct cur as [|y cur]; [split; [done|exact IH2]|].
      assert (Hr : slash ∉ rev (y :: cur)) by (rewrite list_elem_of_In, <- in_rev, <- list_elem_of_In; done).
      split; [|cbn [app concat]; rewrite IH2; done].
      apply Forall_app. split; [|done]. constructor; [|constructor]. split; [|done]. simpl. by destruct (rev cur).
    + rewrite (filter_cons_True (fun b : byte => b <> slash)) by done. destruct (IH (x :: cur)) as [IH1 IH2].
      { apply not_elem_of_cons. split; [congruence|done]. }
      split; [done|]. rewrite IH2. simpl. by rewrite <- app_assoc.
Qed.

(** ** The walk *)

Section pathspec.
Context (cx : mofs_ctx_t) (nblk : Z) (Hvol : vol_ok cx nblk).
Abbreviation is_inode n := (0 <= n < inode_num (sp_blk cx)).
Abbreviation vol_files := (vol_files cx nblk).

Definition is_dir (d : disk) (n : Z) : bool := has_flag (i_mode (inode_at cx d n)) MOFS_FTYPE_DIR.

(** Every directory has blocks for its size and well-formed entries, and the
    root is a directory. *)
Record tree_ok (d : disk) (F : files) : Prop := {
  to_root : is_inode MOFS_ROOT_INODE_NUM;
  to_dir : forall n, is_inode n -> is_dir d n = true -> dir_file cx nblk d n (F n).1 (F n).2;
  to_entries : forall n, is_inode n -> is_dir d n = true -> dir_wf cx (dir_entries cx d n (F n).2);
  to_root_dir : is_dir d MOFS_ROOT_INODE_NUM = true
}.

(** May the caller search the directory [n]?  (The root is not asked.) *)
Definition enter (check : bool) (u : mofs_user_ctx_t) (d : disk) (n : Z) : res unit :=
  if negb check then Ok tt else
  if n =? MOFS_ROOT_INODE_NUM then Ok tt else
  if negb (is_dir d n) then Err MOFS_ENOTDIR else
  if may_exec u (inode_at cx d n) then Ok tt else Err MOFS_EACCES.

(** The inode that [name] has in the directory [n]. *)
Definition dir_lookup (d : disk) (F : files) (n : Z) (name : cstr) : option Z :=
  d_inode_num <$> List.find (has_name name) (dir_entries cx d n (F n).2).

(** One step of the walk. *)
Definition step (check : bool) (u : mofs_user_ctx_t) (d : disk) (F : files) (n : Z) (name : cstr) : res Z :=
  match enter check u d n with
  | Ok _ => match dir_lookup d F n name with Some m => Ok m | None => Err MOFS_ENOENT end
  | Err e => Err e
  | Stuck => Stuck
  end.

Fixpoint walk (check : bool) (u : mofs_user_ctx_t) (d : disk) (F : files) (n : Z) (names : list cstr) : res Z :=
  match names with
  | [] => Ok n
  | c :: r => match step check u d F n c with Ok m => walk check u d F m r | e => e end
  end.

(** What is known of the last component [c] in the directory [n]. *)
Definition leaf_info (flags : Z) (u : mofs_user_ctx_t) (d : disk) (F : files) (n : Z) (c : cstr) : res mofs_path_info_t :=
  if MOFS_FILENAME_LEN <=? blen c then Err MOFS_ENAMETOOLONG else
  let parent := if has_flag flags MOFS_PATH_RESOLVE_PARENT then n else -1 in
  let missing := mkPathInfo parent (-1) false c in
  if negb (has_flag flags MOFS_PATH_RESOLVE_INODE) then Ok missing else
  match step (has_flag flags MOFS_PATH_CHECK_ACCESS) u d F n c with
  | Ok m => Ok (mkPathInfo parent m true c)
  | Err e => if (e =? MOFS_ENOENT) && has_flag flags MOFS_PATH_ALLOW_MISSING_LEAF then Ok missing else Err e
  | Stuck => Stuck
  end.

(** The outcome of a resolution: walk to the parent, then look at the leaf. *)
Definition path_info (flags : Z) (u : mofs_user_ctx_t) (d : disk) (F : files) (p : cstr) : res mofs_path_info_t :=
  match rev (strtok_slash p) with
  | [] => Err MOFS_EINVAL
  | leaf :: front =>
      match walk (has_flag flags MOFS_PATH_CHECK_ACCESS) u d F MOFS_ROOT_INODE_NUM (rev front) with
      | Ok parent => leaf_info flags u d F parent leaf
      | Err e => Err e
      | Stuck => Stuck
      end
  end.

Lemma wp_check_dir_traverse inode Q a :
  u_valid (a_caller a) = true ->
  Q (if may_exec (a_caller a) inode then Ok tt else Err MOFS_EACCES) a ->
  wp cx nblk (mofs_check_dir_traverse (a_caller a) inode) Q a.
Proof.
  intros Hu HQ. unfold mofs_check_dir_traverse. apply wp_check_open_permission; [done|].
  unfold open_permission. change (open_perm_flags MOFS_OFLAG_SEARCH) with (Ok MOFS_OFLAG_SEARCH). cbn [res_bind].
  destruct (perm_denied_spec (a_caller a) inode) as (_ & _ & _ & _ & ->). by destruct (may_exec _ _).
Qed.

Lemma wp_check_traverse check n Q a :
  disk_ok cx nblk (a_disk a) -> is_inode n -> (check = true -> u_valid (a_caller a) = true) ->
  Q (enter check (a_caller a) (a_disk a) n) a ->
  wp cx nblk (check_parent_traverse cx check (a_caller a) n) Q a.
Proof.
  intros Hd Hn Hu HQ. unfold check_parent_traverse, enter in *. destruct check; cbn [negb] in *; [|done].
  destruct (n =? MOFS_ROOT_INODE_NUM); [done|].
  apply wp_bind, (wp_read_inode cx nblk Hvol); [done|done|]. wp_simpl. unfold is_dir in HQ.
  destruct (has_flag _ _); cbn [negb] in *; [|done]. apply wp_check_dir_traverse; [by apply Hu|done].
Qed.

(** With access checks the walk enters directories only. *)
Lemma enter_dir u d F n : tree_ok d F -> enter true u d n = Ok tt -> is_dir d n = true.
Proof.
  intros Ht. unfold enter. cbn [negb]. destruct (Z.eqb_spec n MOFS_ROOT_INODE_NUM) as [->|_]; [intros _; apply Ht|].
  by destruct (is_dir d n).
Qed.

Lemma has_name_set c e : c <> [] -> has_name c e = true -> name_set e = true.
Proof.
  unfold has_name, mofs_strcmp_eq, name_set. intros Hc He. apply bool_decide_eq_true in He. by rewrite He, bool_decide_eq_false_2.
Qed.

Lemma dir_lookup_inode d F n c m : tree_ok d F -> is_inode n -> is_dir d n = true -> c <> [] ->
  dir_lookup d F n c = Some m -> is_inode m.
Proof.
  intros Ht Hn Hdir Hc Hl. unfold dir_lookup in Hl. destruct (List.find _ _) as [e|] eqn:Hf; simplify_eq/=.
  apply List.find_some in Hf as [Hin Hname]. cut (0 < d_inode_num e < inode_num (sp_blk cx)); [lia|].
  apply (dw_used _ _ (to_entries _ _ Ht n Hn Hdir)); [by apply list_elem_of_In|]. by eapply has_name_set.
Qed.

Lemma wp_lookup F n c Q a : let d := a_disk a in
  disk_ok cx nblk d -> tree_ok d F -> is_inode n -> is_dir d n = true -> c <> [] ->
  Q (match dir_lookup d F n c with Some m => Ok m | None => Err MOFS_ENOENT end) a ->
  wp cx nblk (find_dir_entry cx c n) Q a.
Proof.
  intros d Hd Ht Hn Hdir Hc HQ. apply (wp_find_dir_entry cx nblk Hvol c n (F n).1 (F n).2); [done|by apply Ht|].
  pose proof (fun m => dir_lookup_inode d F n c m Ht Hn Hdir Hc) as Hm. unfold find_result, dir_lookup in *. fold d.
  destruct (List.find _ _) as [e|]; [|done]. simpl in *. specialize (Hm _ eq_refl). pose proof (vo_inodes _ _ Hvol).
  rewrite s32_small by lia. done.
Qed.

Lemma step_inode d F u n c m : tree_ok d F -> is_inode n -> c <> [] -> step true u d F n c = Ok m -> is_inode m.
Proof.
  intros Ht Hn Hc. unfold step. destruct (enter true u d n) as [[]|e|] eqn:He; try done.
  destruct (dir_lookup d F n c) as [k|] eqn:Hl; intros [= <-]. by eapply dir_lookup_inode; [|..|exact Hl]; [|..|]; try done; eapply enter_dir.
Qed.

Lemma wp_enter_lookup {A} F n c (k : res Z -> prog A) Q a : let d := a_disk a in
  disk_ok cx nblk d -> tree_ok d F -> u_valid (a_caller a) = true -> is_inode n -> c <> [] ->
  match enter true (a_caller a) d n with
  | Ok _ => wp cx nblk (k (match dir_lookup d F n c with Some m => Ok m | None => Err MOFS_ENOENT end)) Q a
  | Err e => Q (Err e) a
  | Stuck => True
  end ->
  wp cx nblk (check_parent_traverse cx true (a_caller a) n;; r ← status (find_dir_entry cx c n); k r) Q a.
Proof.
  intros d Hd Ht Hu Hn Hc HQ. apply wp_bind, wp_check_traverse; [done|done|done|]. fold d.
  pose proof (enter_dir (a_caller a) d F n Ht) as Hdir. destruct (enter true (a_caller a) d n) as [[]|e|] eqn:He; wp_simpl; [|done|].
  - apply wp_bind, wp_status, (wp_lookup F n c); [done|done|done|by apply Hdir|done|]. fold d. by destruct (dir_lookup d F n c).
  - exfalso. unfold enter in He. cbn [negb] in He. by repeat case_match.
Qed.

Section resolve.
Context (flags : Z) (Hchk : has_flag flags MOFS_PATH_CHECK_ACCESS = true).

Lemma wp_resolve_leaf F n c Q a : let d := a_disk a in
  disk_ok cx nblk d -> tree_ok d F -> u_valid (a_caller a) = true -> is_inode n -> c <> [] ->
  Q (leaf_info flags (a_caller a) d F n c) a ->
  wp cx nblk (resolve_leaf cx flags (a_caller a) n c) Q a.
Proof.
  intros d Hd Ht Hu Hn Hc HQ. unfold resolve_leaf, leaf_info in *. rewrite Hchk in *.
  destruct (MOFS_FILENAME_LEN <=? blen c); [done|].
  destruct (has_flag flags MOFS_PATH_RESOLVE_INODE); cbn [negb] in *; [|done].
  apply (wp_enter_lookup F); [done|done|done|done|done|]. fold d. pose proof (fun m => step_inode d F (a_caller a) n c m Ht Hn Hc) as Hm.
  unfold step in *. destruct (enter true (a_caller a) d n) as [[]|e|] eqn:He; [|..].
  - destruct (dir_lookup d F n c) as [m|]; [|by destruct (has_flag flags MOFS_PATH_ALLOW_MISSING_LEAF)].
    rewrite (proj2 (Z.leb_le 0 m)) by (specialize (Hm m eq_refl); lia). exact HQ.
  - destruct (Z.eqb_spec e MOFS_ENOENT) as [->|_]; [|exact HQ]. exfalso.
    unfold enter in He. cbn [negb] in He. repeat case_match; unfold MOFS_ENOENT, MOFS_ENOTDIR, MOFS_EACCES in *; congruence.
  - done.
Qed.

Lemma resolve_components_cons u n c y ys :
  resolve_components cx flags u n (c :: y :: ys) =
  (check_parent_traverse cx (has_flag flags MOFS_PATH_CHECK_ACCESS) u n;;
   r ← status (find_dir_entry cx c n);
   match r with
   | Ok child => if child <? 0 then throw MOFS_ENOENT else resolve_components cx flags u child (y :: ys)
   | _ => throw MOFS_ENOENT
   end).
Proof. reflexivity. Qed.

Lemma wp_resolve_components F u names leaf Q : forall n a, let d := a_disk a in
  disk_ok cx nblk d -> tree_ok d F -> a_caller a = u -> u_valid u = true -> is_inode n ->
  Forall (fun c => c <> []) names -> leaf <> [] ->
  Q (match walk true u d F n names with Ok parent => leaf_info flags u d F parent leaf | Err e => Err e | Stuck => Stuck end) a ->
  wp cx nblk (resolve_components cx flags u n (names ++ [leaf])) Q a.
Proof.
  induction names as [|c names IH]; intros n a d Hd Ht <- Hu Hn Hcs Hleaf HQ; cbn [app].
  { cbn [resolve_components]. by apply (wp_resolve_leaf F). }
  apply Forall_cons in Hcs as [Hc Hcs]. cbn [walk] in HQ.
  assert (Hne : exists y ys, names ++ [leaf] = y :: ys) by (destruct names; eauto). destruct Hne as (y & ys & Hys).
  rewrite Hys, resolve_components_cons, Hchk. apply (wp_enter_lookup F); [done|done|done|done|done|]. fold d.
  pose proof (fun m => step_inode d F (a_caller a) n c m Ht Hn Hc) as Hm.
  unfold step in *. destruct (enter true (a_caller a) d n) as [[]|e|] eqn:He; [|done|done].
  destruct (dir_lookup d F n c) as [m|]; [|done]. specialize (Hm m eq_refl).
  rewrite (proj2 (Z.ltb_ge m 0)) by lia. unfold cstr in *. rewrite <- Hys. by apply IH.
Qed.

Lemma wp_resolve_path F p Q a : let d := a_disk a in
  disk_ok cx nblk d -> tree_ok d F -> u_valid (a_caller a) = true -> blen p < 2 ^ 32 ->
  head p = Some slash -> p <> [slash] ->
  has_flag flags MOFS_PATH_RESOLVE_INODE || has_flag flags MOFS_PATH_RESOLVE_PARENT = true ->
  (has_flag flags MOFS_PATH_ALLOW_MISSING_LEAF = true -> has_flag flags MOFS_PATH_RESOLVE_INODE = true) ->
  Q (path_info flags (a_caller a) d F p) a ->
  wp cx nblk (mofs_resolve_path cx (Some p) flags) Q a.
Proof.
  intros d Hd Ht Hu Hlp Hh Hp Hf1 Hf2 HQ. unfold mofs_resolve_path. rewrite Hh, bool_decide_eq_true_2 by done. cbn [negb].
  replace (negb (has_flag flags MOFS_PATH_RESOLVE_INODE) && negb (has_flag flags MOFS_PATH_RESOLVE_PARENT)) with false
    by (by destruct (has_flag flags MOFS_PATH_RESOLVE_INODE), (has_flag flags MOFS_PATH_RESOLVE_PARENT)).
  replace (has_flag flags MOFS_PATH_ALLOW_MISSING_LEAF && negb (has_flag flags MOFS_PATH_RESOLVE_INODE)) with false
    by (destruct (has_flag flags MOFS_PATH_ALLOW_MISSING_LEAF); [by rewrite Hf2|done]).
  rewrite Hchk. apply wp_bind, wp_require_caller; [done|]. wp_simpl. unfold mofs_strcmp_eq. rewrite bool_decide_eq_false_2 by done.
  apply wp_bind, wp_malloc; [apply u32_range|]. intros buf _. wp_simpl.
  destruct (strtok_from_tokens [] p (not_elem_of_nil _)) as [Htok _]. fold (strtok_slash p) in Htok.
  unfold path_info in HQ. rewrite Hchk in HQ. destruct (rev (strtok_slash p)) as [|leaf front] eqn:Hr.
  - apply (f_equal (@rev _)) in Hr. rewrite rev_involutive in Hr. rewrite Hr. exact HQ.
  - apply (f_equal (@rev _)) in Hr. rewrite rev_involutive in Hr. cbn [rev] in Hr. rewrite Hr in *.
    apply Forall_app in Htok as [Hfr Hlf]. rewrite Forall_singleton in Hlf. destruct Hlf as [Hlf _].
    apply (wp_resolve_components F (a_caller a)); try done; [apply Ht|].
    eapply Forall_impl; [exact Hfr|]. by intros c [Hc _].
Qed.

End resolve.
End pathspec.

Section path_target.
Context (cx : mofs_ctx_t) (nblk : Z) (Hvol : vol_ok cx nblk).
Abbreviation root := MOFS_ROOT_INODE_NUM.

(** ** Where a path leads *)

(** Where a path with the components [names] leads: from the root through
    directories the caller may search; only the last name has a length limit
    of its own. *)
Definition path_target (u : mofs_user_ctx_t) (d : disk) (F : files) (names : list cstr) : res Z :=
  match rev names with
  | [] => Err MOFS_EINVAL
  | leaf :: front =>
      match walk cx true u d F root (rev front) with
      | Ok n => if MOFS_FILENAME_LEN <=? blen leaf then Err MOFS_ENAMETOOLONG else step cx true u d F n leaf
      | e => e
      end
  end.

Lemma walk_app u d F n l m : walk cx true u d F n (l ++ m) =
  match walk cx true u d F n l with Ok k => walk cx true u d F k m | e => e end.
Proof. revert n. induction l as [|c l IH]; intros n; cbn [app walk]; [done|]. by destruct (step _ _ _ _ _ _ _). Qed.

Lemma path_target_walk u d F names : names <> [] -> Forall (fun c => blen c < MOFS_FILENAME_LEN) names ->
  path_target u d F names = walk cx true u d F root names.
Proof.
  intros Hne Hl. unfold path_target. destruct (rev names) as [|leaf front] eqn:Hr.
  { apply (f_equal (@rev _)) in Hr. by rewrite rev_involutive in Hr. }
  apply (f_equal (@rev _)) in Hr. rewrite rev_involutive in Hr. cbn [rev] in Hr. subst names.
  apply Forall_app in Hl as [_ Hl]. rewrite Forall_singleton in Hl.
  rewrite walk_app, rev_app_distr. cbn [rev app]. rewrite rev_involutive. destruct (walk _ _ _ _ _ _ _); [|done|done]. rewrite (proj2 (Z.leb_gt _ _)) by exact Hl. cbn [walk]. by destruct (step _ _ _ _ _ _ _).
Qed.

(** The leaf of a resolution for an existing inode. *)
Lemma path_info_target u d F p :
  path_info cx (Z.lor MOFS_PATH_RESOLVE_INODE MOFS_PATH_CHECK_ACCESS) u d F p =
  match path_target u d F (strtok_slash p) with
  | Ok m => Ok (mkPathInfo (-1) m true (default [] (last (strtok_slash p))))
  | Err e => Err e
  | Stuck => Stuck
  end.
Proof.
  unfold path_info, path_target. destruct (rev (strtok_slash p)) as [|leaf front] eqn:Hr; [done|].
  apply (f_equal (@rev _)) in Hr. rewrite rev_involutive in Hr. cbn [rev] in Hr. rewrite Hr, last_snoc.
  change (has_flag _ MOFS_PATH_CHECK_ACCESS) with true. destruct (walk _ _ _ _ _ _ _); [|done|done].
  unfold leaf_info. change (has_flag _ MOFS_PATH_RESOLVE_PARENT) with false. change (has_flag _ MOFS_PATH_RESOLVE_INODE) with true.
  change (has_flag _ MOFS_PATH_CHECK_ACCESS) with true. change (has_flag _ MOFS_PATH_ALLOW_MISSING_LEAF) with false.
  destruct (MOFS_FILENAME_LEN <=? blen leaf); [done|]. cbn [negb default]. destruct (step _ _ _ _ _ _ _); [done| |done].
  by rewrite andb_false_r.
Qed.

Lemma wp_path_to_inode_num F p Q a : let d := a_disk a in
  disk_ok cx nblk d -> tree_ok cx nblk d F -> u_valid (a_caller a) = true -> blen p < 2 ^ 32 -> head p = Some slash -> p <> [slash] ->
  Q (path_target (a_caller a) d F (strtok_slash p)) a ->
  wp cx nblk (mofs_path_to_inode_num cx (Some p)) Q a.
Proof.
  intros d Hd Ht Hu Hl Hh Hp HQ. unfold mofs_path_to_inode_num.
  apply wp_bind, (wp_resolve_path cx nblk Hvol (Z.lor MOFS_PATH_RESOLVE_INODE MOFS_PATH_CHECK_ACCESS) eq_refl F); try done. fold d. rewrite path_info_target.
  by destruct (path_target _ _ _ _).
Qed.

(** The root needs no walk. *)
Lemma wp_path_root Q a : u_valid (a_caller a) = true -> Q (Ok root) a -> wp cx nblk (mofs_path_to_inode_num cx (Some [slash])) Q a.
Proof.
  intros Hu HQ. apply wp_bind. unfold mofs_resolve_path. cbn [head]. rewrite bool_decide_eq_true_2 by done. cbn [negb].
  change (has_flag _ MOFS_PATH_RESOLVE_INODE) with true. change (has_flag _ MOFS_PATH_ALLOW_MISSING_LEAF) with false.
  change (has_flag _ MOFS_PATH_CHECK_ACCESS) with true. cbn [negb andb]. apply wp_bind, wp_require_caller; [done|]. wp_simpl.
  unfold mofs_strcmp_eq. rewrite bool_decide_eq_true_2 by done. change (has_flag _ MOFS_PATH_RESOLVE_PARENT) with false. exact HQ.
Qed.

(** The inode an absolute path names. *)
Definition path_end (u : mofs_user_ctx_t) (d : disk) (F : files) (p : cstr) : res Z :=
  if bool_decide (p = [slash]) then Ok root else path_target u d F (strtok_slash p).

Lemma wp_path_end F p Q a : let d := a_disk a in
  disk_ok cx nblk d -> tree_ok cx nblk d F -> u_valid (a_caller a) = true -> blen p < 2 ^ 32 -> head p = Some slash ->
  Q (path_end (a_caller a) d F p) a ->
  wp cx nblk (mofs_path_to_inode_num cx (Some p)) Q a.
Proof.
  intros d Hd Ht Hu Hl Hh HQ. unfold path_end in HQ. case_bool_decide as Hp.
  - subst p. by apply wp_path_root.
  - by apply (wp_path_to_inode_num F).
Qed.

End path_target.
