(* ===== verification/EntrySpec.v ===== *)
(** * Changing the entries of a directory

    Adding and removing entries as updates of the list of entries, and the
    test for an empty directory. *)

From Stdlib Require Import ZArith Lia.
From stdpp Require Import base list list_numbers.
From S2P Require Import Prelude Types Platform Raw Buffer BufferSpec Ops Bitmap Inode Block FileData Dirent Volume BlockSpec AllocSpec InodeSpec VolInv FileSpec FileInv DirSpec.

(** A record that survives encoding. *)
Definition dirent_fits (e : mofs_dirent_t) : Prop := length (d_name e) = 28%nat /\ 0 <= d_inode_num e < 2 ^ 32.

Lemma zero_dirent_fits : dirent_fits zero_dirent.
Proof. split; [done|]. simpl. lia. Qed.

Lemma length_encode_dirent_Z e : dirent_fits e -> blen (encode_dirent e) = 32.
Proof. intros [H _]. by rewrite length_encode_dirent. Qed.

(** Reading the entries of bytes in which the [m]-th entry was stored. *)
Lemma dirent_at_stored m k e l : dirent_fits e -> 0 <= m -> 0 <= k -> 32 * m + 32 <= blen l ->
  dirent_at k (bsplice (32 * m) (encode_dirent e) l) = if k =? m then e else dirent_at k l.
Proof.
  intros He Hm Hk Hl. pose proof (length_encode_dirent_Z e He) as Hle. unfold dirent_at. destruct (Z.eqb_spec k m) as [->|Hne].
  - rewrite bslice_bsplice_in by lia. replace (m * 32 - 32 * m) with 0 by lia.
    rewrite bslice_all by lia. destruct He. by apply decode_encode_dirent.
  - by rewrite bslice_bsplice_other by lia.
Qed.

Section entryspec.
Context (cx : mofs_ctx_t) (nblk : Z) (Hvol : vol_ok cx nblk).
Abbreviation sb := (sp_blk cx).
Abbreviation bs := (blk_size (sp_blk cx)).
Abbreviation epb := (blk_size (sp_blk cx) / 32).
Abbreviation drs := (data_region_start (sp_blk cx)).
Abbreviation is_inode n := (0 <= n < inode_num (sp_blk cx)).
Abbreviation vol_files := (vol_files cx nblk).
Abbreviation wrote := (wrote cx nblk).

(** The number of entries of the directory [n]. *)
Definition entry_num (d : disk) (n : Z) : Z := i_size (inode_at cx d n) / 32.

(** ** Writing one entry *)

(** The [j]-th entry of the [i]-th block, in the block just read. *)
Lemma wp_write_slot n nodes ptrs i j b e buf Q a :
  let d := a_disk a in
  disk_ok cx nblk d -> is_inode n -> file_map cx nblk d n nodes ptrs -> 0 <= i < blen ptrs -> ptrs !! Z.to_nat i = Some b ->
  0 <= j < epb -> dirent_fits e -> bs <= blen buf ->
  (forall d', wrote d d' ptrs (32 * (i * epb + j)) (encode_dirent e) -> Q (Ok (1, 0)) (set_disk d' a)) ->
  wp cx nblk (write_file_data_block cx n (put_dirent j e (bsplice 0 (d b) buf)) i 1) Q a.
Proof.
  intros d Hd Hn Hm Hi Hb Hj He Hbuf HQ. pose proof (bs_range cx nblk Hvol) as Hbs. destruct (epb_eq cx nblk Hvol) as [Hbe H16].
  pose proof (fm_range _ _ _ _ _ _ Hm) as Hr. pose proof (length_encode_dirent_Z e He) as Hle.
  pose proof (content_len cx nblk Hvol d ptrs Hd Hr) as Hcl.
  pose proof (content_block cx nblk Hvol d ptrs i b Hd Hr ltac:(lia) Hb) as Hblk.
  assert (Hib : (i + 1) * bs <= blen ptrs * bs) by (apply Z.mul_le_mono_nonneg_r; lia).
  assert (Hib0 : 0 <= i * bs) by (apply Z.mul_nonneg_nonneg; lia).
  assert (Hlb : blen (d b) = bs) by (rewrite <- Hblk, length_bslice; lia).
  assert (Hlp : blen (put_dirent j e (bsplice 0 (d b) buf)) = blen buf) by (unfold put_dirent; rewrite !length_bsplice; rewrite ?length_bsplice; lia).
  apply (wp_write_file_data_block cx nblk Hvol n nodes ptrs); try done; try lia.
  intros d' [Hok Hc Ho]. apply HQ. split; [done| |done]. rewrite Hc, Z.mul_1_l. fold d.
  assert (Hx : bslice 0 bs (put_dirent j e (bsplice 0 (d b) buf)) = bsplice (32 * j) (encode_dirent e) (bslice (i * bs) bs (content d ptrs))).
  { rewrite Hblk. unfold put_dirent. replace (j * 32) with (32 * j) by lia. apply bslice_bsplice_over; lia. }
  rewrite Hx, bsplice_nested by lia. f_equal. lia.
Qed.

(** ** The list of entries after the change *)

(** [d'] is [d] with the [m]-th entry [e] stored in the directory [n] of [ptrs]
    and its inode replaced by [inode]. *)
Lemma entries_stored d d1 n nodes ptrs m e inode :
  disk_ok cx nblk d -> is_inode n -> file_map cx nblk d n nodes ptrs -> wrote d d1 ptrs (32 * m) (encode_dirent e) ->
  dirent_fits e -> 0 <= m -> 32 * m + 32 <= blen ptrs * bs -> inode_fits inode ->
  let es := dir_entries cx d n ptrs in
  (i_size inode / 32 = entry_num d n -> m < entry_num d n ->
     dir_entries cx (put_inode cx d1 n inode) n ptrs = <[Z.to_nat m := e]> es) /\
  (i_size inode / 32 = entry_num d n + 1 -> m = entry_num d n ->
     dir_entries cx (put_inode cx d1 n inode) n ptrs = es ++ [e]).
Proof.
  intros Hd Hn Hm Hw He Hm0 Hml Hfit es. pose proof (fm_range _ _ _ _ _ _ Hm) as Hr. pose proof (content_len cx nblk Hvol d ptrs Hd Hr) as Hcl.
  assert (Hc : content (put_inode cx d1 n inode) ptrs = content d1 ptrs).
  { apply content_ext. intros b Hb. apply (put_inode_high cx nblk Hvol); [done|]. rewrite Forall_forall in Hr. apply Hr in Hb. lia. }
  assert (Hi : inode_at cx (put_inode cx d1 n inode) n = inode).
  { rewrite (inode_at_put cx nblk Hvol) by (try done; apply Hw). by rewrite Z.eqb_refl. }
  assert (Hat : forall k, 0 <= k -> dirent_at k (content d1 ptrs) = if k =? m then e else dirent_at k (content d ptrs)).
  { intros k Hk. rewrite (wr_content _ _ _ _ _ _ _ Hw). apply dirent_at_stored; try done. lia. }
  unfold dir_entries. rewrite Hc, Hi. unfold es, dir_entries. fold (entry_num d n). split.
  - intros -> Hlt. apply list_eq. intros i. destruct (decide (i < Z.to_nat (entry_num d n))%nat) as [Hlen|Hge].
    + rewrite dirent_slice_lookup, Hat by lia. destruct (Z.eqb_spec (0 + Z.of_nat i) m) as [Heq|Hne].
      * replace (Z.to_nat m) with i by lia. by rewrite list_lookup_insert_eq by (rewrite length_dirent_slice; lia).
      * by rewrite list_lookup_insert_ne, dirent_slice_lookup by lia.
    + rewrite !lookup_ge_None_2; rewrite ?length_insert, ?length_dirent_slice; try lia; done.
  - intros -> ->. replace (Z.to_nat (entry_num d n + 1)) with (Z.to_nat (entry_num d n) + 1)%nat by lia.
    rewrite dirent_slice_app. f_equal.
    + apply dirent_slice_ext. intros j Hj. rewrite Hat by lia. by rewrite (proj2 (Z.eqb_neq _ _)) by lia.
    + unfold dirent_slice. cbn [seq fmap list_fmap]. rewrite Hat by lia. by rewrite (proj2 (Z.eqb_eq _ _)) by lia.
Qed.

(** [d'] is [d] with the entries of the directory [n] changed to [es]; nothing
    else changes but the size and the times of [n]. *)
Record dir_changed (d d' : disk) (F : files) (n : Z) (es : list mofs_dirent_t) : Prop := {
  dc_ok : disk_ok cx nblk d';
  dc_files : vol_files d' F;
  dc_others : forall m, is_inode m -> m <> n -> same_file cx d d' F m;
  dc_low : forall b, 0 <= b < data_bitmap_start sb -> d' b = d b;
  dc_dir : dir_file cx nblk d' n (F n).1 (F n).2;
  dc_entries : dir_entries cx d' n (F n).2 = es;
  dc_inode : exists size t, inode_at cx d' n =
    stamp_times t (Z.lor MOFS_INODE_TIME_MTIME MOFS_INODE_TIME_CTIME) (set_i_size size (inode_at cx d n));
  dc_whole : i_size (inode_at cx d n) mod 32 = 0 -> i_size (inode_at cx d' n) mod 32 = 0
}.

Lemma set_i_size_self i : set_i_size (i_size i) i = i.
Proof. by destruct i. Qed.

(** The end of an update: the entry is stored, the inode is stamped and
    written back. *)
Lemma wp_finish_entry d F n m e size Q a : let d1 := a_disk a in
  disk_ok cx nblk d -> vol_files d F -> is_inode n -> covers cx d n (F n).2 ->
  wrote d d1 (F n).2 (32 * m) (encode_dirent e) -> dirent_fits e -> 0 <= m -> 32 * m + 32 <= blen (F n).2 * bs ->
  let es := dir_entries cx d n (F n).2 in
  size = i_size (inode_at cx d n) /\ m < entry_num d n \/
  size = i_size (inode_at cx d n) + 32 /\ m = entry_num d n /\ size <= blen (F n).2 * bs ->
  (forall d', dir_changed d d' F n (if m <? entry_num d n then <[Z.to_nat m := e]> es else es ++ [e]) -> Q (Ok tt) (set_disk d' a)) ->
  wp cx nblk (i ← mofs_inode_stamp_now (set_i_size size (inode_at cx d n)) (Z.lor MOFS_INODE_TIME_MTIME MOFS_INODE_TIME_CTIME);
              mofs_write_inode cx n i) Q a.
Proof.
  intros d1 Hd HF Hn Hcov Hw He Hm0 Hml es Hcase HQ.
  apply wp_bind, wp_stamp_now; [done|]. intros t Ht. wp_simpl. set (inode := stamp_times _ _ _).
  pose proof (vf_map _ _ _ _ HF n Hn) as Hm. pose proof (bs_range cx nblk Hvol) as Hbs.
  pose proof (covers_small cx nblk Hvol _ _ _ _ Hm Hcov) as Hs. pose proof (fm_max _ _ _ _ _ _ Hm) as Hmax. unfold MOFS_MAX_FILE_DATA_BLOCKS in Hmax.
  pose proof (inode_at_fits cx nblk Hvol d n Hd Hn) as Hf0. pose proof (fits_size _ Hf0) as [Hs0 _].
  assert (Hsz : i_size inode = size) by done.
  assert (Hfit : inode_fits inode).
  { apply stamp_times_fits; [done|]. destruct Hf0. constructor; simpl; try done. lia. }
  apply (wp_write_inode cx nblk Hvol); [apply Hw|done|apply Hfit|]. apply HQ.
  pose proof (wrote_files cx nblk Hvol _ _ _ _ _ _ HF Hn Hw) as HF1.
  pose proof (wrote_inode cx nblk Hvol _ _ _ _ _ n (fm_range _ _ _ _ _ _ Hm) Hw Hn) as Hi1. fold d1 in Hi1 |- *.
  assert (Hat : inode_at cx (put_inode cx d1 n inode) n = inode).
  { rewrite (inode_at_put cx nblk Hvol) by (try done; apply Hw). by rewrite Z.eqb_refl. }
  assert (HF' : vol_files (put_inode cx d1 n inode) F) by (apply (put_inode_files cx nblk Hvol); try done; [apply Hw|by rewrite Hi1|by rewrite Hi1]).
  destruct (entries_stored d d1 n (F n).1 (F n).2 m e inode Hd Hn Hm Hw He Hm0 Hml Hfit) as [H1 H2]. rewrite Hsz in H1, H2.
  split; try done.
  - apply (disk_ok_put_inode cx nblk Hvol); [apply Hw|done|apply Hfit].
  - intros k Hk Hne. eapply same_file_trans; [exact (wrote_same cx nblk Hvol _ _ _ _ _ _ _ HF Hn Hk Hne Hw)|]. apply (put_inode_same cx nblk Hvol); try done. apply Hw.
  - intros b Hb. pose proof Hvol as []. pose proof (tbl_blk_range cx nblk Hvol n Hn).
    unfold put_inode. rewrite upd_ne by lia. eapply (wrote_low cx nblk); [exact (fm_range _ _ _ _ _ _ Hm)|exact Hw|lia].
  - split; [done|by apply HF'|]. unfold covers. rewrite Hat, Hsz. unfold covers in Hcov. destruct Hcase as [[-> _]|(_ & _ & Hsl)]; [done|exact Hsl].
  - fold es in H1, H2. destruct Hcase as [[-> Hlt]|(-> & -> & _)].
    + rewrite (proj2 (Z.ltb_lt _ _)) by done. by apply H1.
    + rewrite Z.ltb_irrefl. apply H2; [|done]. unfold entry_num. rewrite <- Z.div_add by lia. f_equal.
  - by exists size, t.
  - rewrite Hat, Hsz. destruct Hcase as [[-> _]|(-> & _)]; [done|]. lia.
Qed.

(** ** Positions *)

(** The position of the first hit, found block by block. *)
Lemma find_idx_blocks f d n ptrs i : 0 <= i ->
  find_idx f (entries_from cx d n ptrs i) =
  match find_idx f (block_entries cx d n ptrs i) with
  | Some j => Some j
  | None => Nat.add (Z.to_nat epb) <$> find_idx f (entries_from cx d n ptrs (i + 1))
  end.
Proof.
  intros Hi. rewrite (entries_from_step cx nblk Hvol), find_idx_app by done. destruct (find_idx f (block_entries _ _ _ _ _)); [done|].
  destruct (find_idx f (entries_from _ _ _ _ _)) as [j|] eqn:Hf; [|done]. apply find_idx_lt in Hf.
  unfold entries_from, block_entries in *. rewrite length_dirent_slice in *. cbn [fmap option_fmap option_map]. do 2 f_equal. rewrite Z.min_l by lia. done.
Qed.

Lemma find_idx_block_lt f d n ptrs i j : find_idx f (block_entries cx d n ptrs i) = Some j -> Z.of_nat j < epb.
Proof. intros Hf. apply find_idx_lt in Hf. unfold block_entries in Hf. rewrite length_dirent_slice in Hf. lia. Qed.

Lemma block_buf_len d n nodes ptrs i b buf : disk_ok cx nblk d -> file_map cx nblk d n nodes ptrs -> ptrs !! Z.to_nat i = Some b -> bs <= blen buf ->
  bs <= blen (bsplice 0 (d b) buf).
Proof.
  intros Hd Hm Hb Hbuf. pose proof (Forall_lookup_1 _ _ _ _ (fm_range _ _ _ _ _ _ Hm) Hb) as Hr. pose proof (drs_pos cx nblk Hvol).
  cbn beta in Hr. pose proof (Hd b ltac:(lia)). rewrite length_bsplice; lia.
Qed.

(** ** Removing *)

Definition live_named (component : cstr) (e : mofs_dirent_t) : bool := in_use e && has_name component e.

Lemma wp_remove_entry_loop component n nodes ptrs k : forall i buf Q a,
  let d := a_disk a in
  disk_ok cx nblk d -> dir_file cx nblk d n nodes ptrs -> 0 <= i -> i + Z.of_nat k = ceil_div (i_size (inode_at cx d n)) bs -> bs <= blen buf ->
  match find_idx (live_named component) (entries_from cx d n ptrs i) with
  | Some j => forall d', wrote d d' ptrs (32 * (i * epb + Z.of_nat j)) (encode_dirent zero_dirent) -> Q (Ok tt) (set_disk d' a)
  | None => Q (Err MOFS_ENOENT) a
  end ->
  wp cx nblk (remove_entry_loop cx component n k i buf) Q a.
Proof.
  induction k as [|k IH]; intros i buf Q a d Hd Hdf Hi Hk Hbuf HQ; cbn [remove_entry_loop].
  { rewrite (entries_from_end cx nblk Hvol) in HQ by (fold d; lia). exact HQ. }
  destruct (df_size cx nblk Hvol _ _ _ _ Hd Hdf) as (_ & _ & Hcp & _). pose proof Hdf as [Hn Hm _].
  apply wp_bind, (wp_read_dir_block cx nblk Hvol n nodes ptrs); try done; [fold d; lia|].
  intros rd frac b Hok Hb He _. wp_simpl. fold d in He. fold d. rewrite Hok, He. cbn [negb].
  rewrite find_idx_blocks in HQ by done. fold (live_named component).
  destruct (find_idx (live_named component) (block_entries cx d n ptrs i)) as [j|] eqn:Hf.
  - apply wp_bind, (wp_write_slot n nodes ptrs); try done; try (fold d; lia).
    apply find_idx_block_lt in Hf. lia.
  - apply IH; try done; try (fold d; lia); [by eapply block_buf_len|]. fold d.
    destruct (find_idx _ (entries_from cx d n ptrs (i + 1))) as [j|]; [|done]. simpl in HQ.
    intros d' Hw. apply HQ. replace (i * epb + Z.of_nat (Z.to_nat epb + j)) with ((i + 1) * epb + Z.of_nat j); [done|].
    destruct (epb_eq cx nblk Hvol). lia.
Qed.

(** [remove_dir_entry] puts a tombstone in the first slot in use with the name. *)
Lemma wp_remove_dir_entry component F n Q a : let d := a_disk a in
  let es := dir_entries cx d n (F n).2 in
  disk_ok cx nblk d -> vol_files d F -> dir_file cx nblk d n (F n).1 (F n).2 ->
  has_flag (i_mode (inode_at cx d n)) MOFS_FTYPE_DIR = true -> component <> [] ->
  match find_idx (live_named component) es with
  | Some j => forall d', dir_changed d d' F n (<[j := zero_dirent]> es) -> Q (Ok tt) (set_disk d' a)
  | None => Q (Err MOFS_ENOENT) a
  end ->
  wp cx nblk (remove_dir_entry cx component n) Q a.
Proof.
  intros d es Hd HF Hdf Hdir Hc HQ. destruct (df_size cx nblk Hvol _ _ _ _ Hd Hdf) as (Hsz & Hblk & Hcp & Hmax). pose proof Hdf as [Hn Hm Hcov].
  pose proof (bs_range cx nblk Hvol) as Hbs. destruct (epb_eq cx nblk Hvol) as [Hbe H16].
  unfold remove_dir_entry. rewrite bool_decide_eq_false_2 by done. rewrite (proj2 (Z.ltb_ge n 0)) by lia. cbn [orb].
  apply wp_bind, wp_malloc; [lia|]. intros buf Hbuf. wp_simpl.
  apply wp_bind, (wp_read_inode cx nblk Hvol); [done|done|]. wp_simpl. fold d. rewrite Hdir. cbn [negb]. rewrite Hblk.
  assert (Hc0 : 0 <= ceil_div (i_size (inode_at cx d n)) bs) by (apply Z.div_pos; lia). rewrite s32_small by lia.
  apply wp_bind, (wp_remove_entry_loop component n (F n).1 (F n).2); try done; try (fold d; lia).
  fold d. rewrite (entries_from_0 cx). fold es.
  destruct (find_idx (live_named component) es) as [j|] eqn:Hf; [|done]. intros d' Hw. wp_simpl.
  apply find_idx_lt in Hf. unfold es, dir_entries in Hf. rewrite length_dirent_slice in Hf. fold (entry_num d n) in Hf.
  rewrite Z.mul_0_l, Z.add_0_l in Hw. rewrite <- (set_i_size_self (inode_at cx d n)).
  assert (Hen : 32 * entry_num d n <= blen (F n).2 * bs) by (unfold entry_num, covers in *; lia).
  eapply (wp_finish_entry d F n (Z.of_nat j)); try done; [lia|lia|left; split; [done|lia]|].
  intros d2 Hch. rewrite (proj2 (Z.ltb_lt _ _)), Nat2Z.id in Hch by lia. apply HQ, Hch.
Qed.

(** ** Adding *)

Definition entry_dup (component : cstr) (e : mofs_dirent_t) : bool := in_use e && name_set e && has_name component e.
Definition entry_reusable (e : mofs_dirent_t) : bool := negb (in_use e) || negb (name_set e).

(** The slot that a new entry gets: the first reusable one, or the next after
    the last. *)
Definition new_slot (es : list mofs_dirent_t) : nat := default (length es) (find_idx entry_reusable es).

(** The list of entries with [e] in that slot. *)
Definition add_entry (e : mofs_dirent_t) (es : list mofs_dirent_t) : list mofs_dirent_t :=
  match find_idx entry_reusable es with Some j => <[j := e]> es | None => es ++ [e] end.

Lemma wp_add_scan_loop component n nodes ptrs k : forall i buf reusable Q a,
  let d := a_disk a in
  let es := entries_from cx d n ptrs i in
  disk_ok cx nblk d -> dir_file cx nblk d n nodes ptrs -> 0 <= i -> i + Z.of_nat k = ceil_div (i_size (inode_at cx d n)) bs -> bs <= blen buf ->
  (if existsb (entry_dup component) es then Q (Err MOFS_EEXIST) a else
   forall buf', bs <= blen buf' ->
     Q (Ok (match reusable with Some r => Some r | None => (fun j => i * epb + Z.of_nat j) <$> find_idx entry_reusable es end, buf')) a) ->
  wp cx nblk (add_scan_loop cx component n k i buf reusable) Q a.
Proof.
  induction k as [|k IH]; intros i buf reusable Q a d es Hd Hdf Hi Hk Hbuf HQ; cbn [add_scan_loop].
  { unfold es in HQ. rewrite (entries_from_end cx nblk Hvol) in HQ by (fold d; lia). cbn in HQ. apply wp_ret.
    specialize (HQ buf Hbuf). by destruct reusable. }
  pose proof Hdf as [Hn Hm _]. destruct (epb_eq cx nblk Hvol) as [Hbe H16].
  apply wp_bind, (wp_read_dir_block cx nblk Hvol n nodes ptrs); try done; [fold d; lia|].
  intros rd frac b Hok Hb He _. wp_simpl. fold d in He. fold d. rewrite Hok, He. cbn [negb].
  unfold es in HQ. rewrite (entries_from_step cx nblk Hvol), existsb_app in HQ by done. rewrite <- (entries_from_step cx nblk Hvol) in HQ by done.
  fold (entry_dup component). fold entry_reusable.
  destruct (existsb (entry_dup component) (block_entries cx d n ptrs i)) eqn:Hdup; [exact HQ|]. cbn [orb] in HQ.
  apply IH; try done; try (fold d; lia); [by eapply block_buf_len|]. fold d.
  destruct (existsb (entry_dup component) (entries_from cx d n ptrs (i + 1))); [exact HQ|].
  intros buf' Hbuf'. specialize (HQ buf' Hbuf'). destruct reusable as [r|]; [exact HQ|].
  rewrite find_idx_blocks in HQ by done. change (entries_per_blk cx) with epb.
  destruct (find_idx entry_reusable (block_entries cx d n ptrs i)); [exact HQ|].
  cbn [fmap option_fmap option_map] in HQ |- *.
  destruct (find_idx entry_reusable (entries_from cx d n ptrs (i + 1))) as [j|]; [|exact HQ]. cbn [fmap option_fmap option_map] in HQ |- *.
  replace ((i + 1) * epb + Z.of_nat j) with (i * epb + Z.of_nat (Z.to_nat epb + j)) by lia. exact HQ.
Qed.

Definition new_dirent (component : cstr) (child : Z) : mofs_dirent_t := mkDirent (name_field component) (u32 child).

(** The part of [add_dir_entry] after the slot is chosen, in a block that the
    directory has. *)
Lemma wp_add_at F n m component child buf (reusable : option Z) Q a : let d := a_disk a in
  let es := dir_entries cx d n (F n).2 in
  let c := ceil_div (i_size (inode_at cx d n)) bs in
  let size := match reusable with Some _ => i_size (inode_at cx d n) | None => u32 (i_size (inode_at cx d n) + 32) end in
  disk_ok cx nblk d -> vol_files d F -> dir_file cx nblk d n (F n).1 (F n).2 -> i_size (inode_at cx d n) mod 32 = 0 ->
  blen component < 28 -> 0 <= m -> 32 * m < c * bs -> bs <= blen buf ->
  match reusable with Some _ => m < entry_num d n | None => m = entry_num d n end ->
  (forall d', dir_changed d d' F n (if m <? entry_num d n then <[Z.to_nat m := new_dirent component child]> es else es ++ [new_dirent component child]) ->
     Q (Ok tt) (set_disk d' a)) ->
  wp cx nblk
    ('(allocated_newblk, dirent_buf) ← add_target_block cx n c (m / epb) buf;
     let dirent_buf := put_dirent (m mod epb) (new_dirent component child) dirent_buf in
     on_error
       ('(written, fraction) ← write_file_data_block cx n dirent_buf (m / epb) 1;
        if negb ((written =? 1) && (fraction =? 0)) then throw MOFS_EIO else
        let parent_inode := match reusable with Some _ => inode_at cx d n | None => set_i_size size (inode_at cx d n) end in
        parent_inode ← mofs_inode_stamp_now parent_inode (Z.lor MOFS_INODE_TIME_MTIME MOFS_INODE_TIME_CTIME);
        mofs_write_inode cx n parent_inode)
       (if (allocated_newblk : bool) then ignore (free_data_block cx n (m / epb) 1) else mret tt)) Q a.
Proof.
  intros d es c size Hd HF Hdf Hmod Hname Hm0 Hmc Hbuf Hcase HQ.
  destruct (df_size cx nblk Hvol _ _ _ _ Hd Hdf) as (Hsz & _ & Hcp & Hmax). pose proof Hdf as [Hn Hm Hcov].
  pose proof (bs_range cx nblk Hvol) as Hbs. destruct (epb_eq cx nblk Hvol) as [Hbe H16]. fold c in Hcp.
  assert (Hcb : c * bs <= blen (F n).2 * bs) by (apply Z.mul_le_mono_nonneg_r; lia).
  pose proof (Z.div_mod m epb ltac:(lia)) as Hdm. pose proof (Z.mod_pos_bound m epb ltac:(lia)) as Hmb.
  assert (Hi0 : 0 <= m / epb) by (apply Z.div_pos; lia).
  assert (Hic : m / epb < c) by (apply Z.div_lt_upper_bound; lia).
  set (i := m / epb) in *. set (j := m mod epb) in *.
  assert (He : dirent_fits (new_dirent component child)) by (split; [by apply length_name_field|apply u32_range]).
  unfold add_target_block. rewrite (proj2 (Z.leb_gt c i)) by lia. apply wp_bind, wp_bind.
  apply (wp_read_dir_block cx nblk Hvol n (F n).1 (F n).2); try done.
  intros rd frac b Hok Hb _ _. fold d. wp_simpl. rewrite Hok. cbn [negb]. apply wp_ret.
  apply wp_on_error, wp_bind, (wp_write_slot n (F n).1 (F n).2); try done; [lia|]. fold d.
  intros d1 Hw. wp_simpl. cbn [Z.eqb Pos.eqb andb negb].
  replace (32 * (i * epb + j)) with (32 * m) in Hw by lia.
  assert (Hsize : (match reusable with Some _ => inode_at cx d n | None => set_i_size size (inode_at cx d n) end) = set_i_size size (inode_at cx d n)).
  { unfold size. destruct reusable; [by rewrite set_i_size_self|done]. }
  rewrite Hsize. eapply (wp_finish_entry d F n m); try done.
  - lia.
  - unfold size, entry_num in *. destruct reusable; [left; done|right]. rewrite u32_small by lia. split_and!; [done|done|].
    assert (32 * (i_size (inode_at cx d n) / 32) = i_size (inode_at cx d n)) by lia.
    assert (Hcm : c * bs = 32 * (c * epb)) by lia. lia.
Qed.

(** The new entry fits in the blocks the directory has. *)
Definition entry_room (d : disk) (n : Z) (es : list mofs_dirent_t) : Prop :=
  32 * Z.of_nat (new_slot es) < ceil_div (i_size (inode_at cx d n)) bs * bs.

(** A directory with a slot that can be reused has room. *)
Lemma slot_room d n ptrs j e : disk_ok cx nblk d -> is_inode n -> dir_entries cx d n ptrs !! j = Some e -> entry_reusable e = true ->
  entry_room d n (dir_entries cx d n ptrs).
Proof.
  intros Hd Hn Hj He. pose proof (bs_range cx nblk Hvol) as Hbs. pose proof (fits_size _ (inode_at_fits cx nblk Hvol d n Hd Hn)) as [Hs _].
  pose proof (ceil_div_spec (i_size (inode_at cx d n)) bs ltac:(lia)) as Hc.
  unfold entry_room, new_slot. destruct (find_idx entry_reusable (dir_entries cx d n ptrs)) as [k|] eqn:Hk.
  - apply find_idx_lt in Hk. unfold dir_entries in Hk. rewrite length_dirent_slice in Hk. cbn [default from_option id]. lia.
  - by rewrite (proj1 (find_idx_None _ _) Hk j e Hj) in He.
Qed.

Lemma wp_add_dir_entry component child F n Q a : let d := a_disk a in
  let es := dir_entries cx d n (F n).2 in
  disk_ok cx nblk d -> vol_files d F -> dir_file cx nblk d n (F n).1 (F n).2 ->
  has_flag (i_mode (inode_at cx d n)) MOFS_FTYPE_DIR = true -> i_size (inode_at cx d n) mod 32 = 0 -> entry_num d n < 1024 * epb ->
  component <> [] -> blen component < 28 -> 0 < child < inode_num sb ->
  (if existsb (entry_dup component) es then Q (Err MOFS_EEXIST) a else
   entry_room d n es /\
   forall d', dir_changed d d' F n (add_entry (new_dirent component child) es) -> Q (Ok tt) (set_disk d' a)) ->
  wp cx nblk (add_dir_entry cx component n child) Q a.
Proof.
  intros d es Hd HF Hdf Hdir Hmod Hmaxe Hne Hname Hchild HQ.
  destruct (df_size cx nblk Hvol _ _ _ _ Hd Hdf) as (Hsz & Hblk & Hcp & Hmax). pose proof Hdf as [Hn Hm Hcov].
  pose proof (bs_range cx nblk Hvol) as Hbs. destruct (epb_eq cx nblk Hvol) as [Hbe H16].
  assert (Hc0 : 0 <= ceil_div (i_size (inode_at cx d n)) bs) by (apply Z.div_pos; lia).
  assert (Hlen : length es = Z.to_nat (entry_num d n)) by (unfold es, dir_entries; by rewrite length_dirent_slice).
  assert (He0 : 0 <= entry_num d n) by (apply Z.div_pos; lia).
  assert (Hl0 : 0 < blen component) by (destruct component; [done|simpl; lia]).
  unfold add_dir_entry. rewrite bool_decide_eq_false_2 by done.
  rewrite (proj2 (Z.ltb_ge n 0)), (proj2 (Z.leb_gt child 0)), (proj2 (Z.leb_gt (inode_num sb) child)) by lia. cbn [orb].
  unfold MOFS_FILENAME_LEN. rewrite (proj2 (Z.eqb_neq _ _)), (proj2 (Z.leb_gt 28 _)) by lia. cbn [orb].
  apply wp_bind, wp_malloc; [lia|]. intros buf Hbuf. wp_simpl.
  apply wp_bind, (wp_read_inode cx nblk Hvol); [done|done|]. wp_simpl. fold d. rewrite Hdir. cbn [negb].
  unfold sizeof_dirent. rewrite Hmod. cbn [Z.eqb negb]. rewrite Hblk. change (entries_per_blk cx) with epb. fold (entry_num d n).
  unfold MOFS_MAX_FILE_DATA_BLOCKS. rewrite (proj2 (Z.leb_gt _ (entry_num d n))) by lia.
  apply wp_bind, (wp_add_scan_loop component n (F n).1 (F n).2); try done; try (fold d; lia). fold d. rewrite (entries_from_0 cx). fold es.
  destruct (existsb (entry_dup component) es); [exact HQ|]. destruct HQ as [Hroom HQ]. intros buf' Hbuf'. wp_simpl.
  unfold entry_room, new_slot in Hroom. unfold add_entry in HQ.
  destruct (find_idx entry_reusable es) as [j|] eqn:Hf; cbn [fmap option_fmap option_map default] in *.
  - apply find_idx_lt in Hf. rewrite Hlen in Hf. rewrite Z.mul_0_l, Z.add_0_l. cbn [default].
    apply (wp_add_at F n (Z.of_nat j) component child buf' (Some 0)); try done; try (fold d; lia).
    fold d es. intros d' Hch. rewrite (proj2 (Z.ltb_lt _ _)), Nat2Z.id in Hch by lia. by apply HQ.
  - rewrite Hlen, Z2Nat.id in Hroom by lia.
    apply (wp_add_at F n (entry_num d n) component child buf' None); try done.
    fold d es. intros d' Hch. rewrite Z.ltb_irrefl in Hch. by apply HQ.
Qed.

(** ** Empty directories *)

Definition entry_counts (e : mofs_dirent_t) : bool := in_use e && name_set e && negb (is_dot_or_dotdot_name (c_str (d_name e))).

Lemma wp_is_empty_loop n nodes ptrs k : forall i buf Q a,
  let d := a_disk a in
  disk_ok cx nblk d -> dir_file cx nblk d n nodes ptrs -> 0 <= i -> i + Z.of_nat k = ceil_div (i_size (inode_at cx d n)) bs -> bs <= blen buf ->
  Q (Ok (negb (existsb entry_counts (entries_from cx d n ptrs i)))) a ->
  wp cx nblk (is_empty_loop cx n k i buf) Q a.
Proof.
  induction k as [|k IH]; intros i buf Q a d Hd Hdf Hi Hk Hbuf HQ; cbn [is_empty_loop].
  { rewrite (entries_from_end cx nblk Hvol) in HQ by (fold d; lia). exact HQ. }
  pose proof Hdf as [Hn Hm _]. apply wp_bind, (wp_read_dir_block cx nblk Hvol n nodes ptrs); try done; [fold d; lia|].
  intros rd frac b Hok Hb He _. wp_simpl. fold d in He. fold d. rewrite Hok, He. cbn [negb].
  rewrite (entries_from_step cx nblk Hvol), existsb_app in HQ by done. fold entry_counts.
  destruct (existsb entry_counts (block_entries cx d n ptrs i)); [exact HQ|].
  apply IH; try done; try (fold d; lia). by eapply block_buf_len.
Qed.

Lemma wp_is_directory_empty F n Q a : let d := a_disk a in
  disk_ok cx nblk d -> dir_file cx nblk d n (F n).1 (F n).2 -> has_flag (i_mode (inode_at cx d n)) MOFS_FTYPE_DIR = true ->
  Q (Ok (negb (existsb entry_counts (dir_entries cx d n (F n).2)))) a ->
  wp cx nblk (is_directory_empty cx n) Q a.
Proof.
  intros d Hd Hdf Hdir HQ. destruct (df_size cx nblk Hvol _ _ _ _ Hd Hdf) as (Hsz & Hblk & Hcp & Hmax). pose proof (df_inode _ _ _ _ _ _ Hdf) as Hn.
  pose proof (bs_range cx nblk Hvol) as Hbs. assert (Hc0 : 0 <= ceil_div (i_size (inode_at cx d n)) bs) by (apply Z.div_pos; lia).
  unfold is_directory_empty. rewrite (proj2 (Z.ltb_ge n 0)) by lia.
  apply wp_bind, (wp_read_inode cx nblk Hvol); [done|done|]. wp_simpl. fold d. rewrite Hdir. cbn [negb].
  apply wp_bind, wp_malloc; [lia|]. intros buf Hbuf. wp_simpl. rewrite Hblk.
  apply (wp_is_empty_loop n (F n).1 (F n).2); try done; try (fold d; lia). fold d. by rewrite (entries_from_0 cx).
Qed.

End entryspec.
