(* ===== verification/TreeSpec.v ===== *)
(** * The directory tree under changes

    What adding and removing an entry does to name lookup, and that the
    invariant [tree_ok] is kept. *)

From Stdlib Require Import ZArith Lia.
From stdpp Require Import base list list_numbers.
From S2P Require Import Prelude Types Platform Raw Buffer BufferSpec Ops Bitmap Inode Block FileData Perm Dirent Path Volume BlockSpec AllocSpec InodeSpec VolInv FileSpec FileInv PermSpec DirSpec PathSpec EntrySpec.

Section entries.
Context (cx : mofs_ctx_t).
Abbreviation dir_wf := (dir_wf cx).

Lemma has_name_eq c e : has_name c e = true <-> c_str (d_name e) = c.
Proof. unfold has_name, mofs_strcmp_eq. apply bool_decide_eq_true. Qed.

Lemma name_set_ne e : name_set e = true <-> c_str (d_name e) <> [].
Proof. unfold name_set. rewrite negb_true_iff, bool_decide_eq_false. done. Qed.

(** In a well-formed directory a search finds the one entry with the name. *)
Lemma wf_find es c e : dir_wf es -> c <> [] ->
  List.find (has_name c) es = Some e <-> exists i, es !! i = Some e /\ has_name c e = true.
Proof.
  intros Hwf Hc. pose proof (find_idx_find (has_name c) es) as Hf. destruct (find_idx (has_name c) es) as [j|] eqn:Hj.
  - destruct Hf as (x & Hx & ->). apply find_idx_Some in Hj as [(y & Hy & Hny) _]. assert (y = x) as -> by congruence. split.
    + intros [= <-]. by exists j.
    + intros (i & Hi & Hne). f_equal. assert (j = i) as <-; [|congruence].
      eapply (dw_unique _ _ Hwf); [exact Hx|exact Hi|by eapply has_name_set|].
      apply has_name_eq in Hne, Hny. congruence.
  - rewrite Hf. split; [done|]. intros (i & Hi & Hne). apply find_idx_None with (i := i) (x := e) in Hj; [congruence|done].
Qed.

Lemma wf_find_eq es es' c : dir_wf es -> dir_wf es' -> c <> [] ->
  (forall e, has_name c e = true -> (exists i, es !! i = Some e) <-> (exists i, es' !! i = Some e)) ->
  List.find (has_name c) es = List.find (has_name c) es'.
Proof.
  intros Hwf Hwf' Hc H. apply option_eq. intros e. rewrite !wf_find by done. split; intros (i & Hi & Hn).
  - destruct (proj1 (H e Hn)) as (j & Hj); eauto.
  - destruct (proj2 (H e Hn)) as (j & Hj); eauto.
Qed.

Lemma wf_find_none es c : List.find (has_name c) es = None <-> forall i e, es !! i = Some e -> has_name c e = false.
Proof.
  pose proof (find_idx_find (has_name c) es) as Hf. rewrite <- find_idx_None.
  destruct (find_idx (has_name c) es); [destruct Hf as (x & _ & ->)|rewrite Hf]; done.
Qed.

(** ** Adding *)

Lemma add_entry_lookup e es i : add_entry e es !! i = if decide (i = new_slot es) then Some e else es !! i.
Proof.
  unfold add_entry, new_slot. destruct (find_idx entry_reusable es) as [j|] eqn:Hf; simpl.
  - apply find_idx_lt in Hf. destruct (decide (i = j)) as [->|Hne]; [by rewrite list_lookup_insert_eq|by rewrite list_lookup_insert_ne].
  - destruct (decide (i = length es)) as [->|Hne]; [by rewrite list_lookup_middle|].
    destruct (decide (i < length es)%nat); [by rewrite lookup_app_l|]. rewrite lookup_app_r by lia.
    rewrite !lookup_ge_None_2; simpl; try lia; done.
Qed.

Lemma length_add_entry e es : (length es <= length (add_entry e es))%nat.
Proof. unfold add_entry. destruct (find_idx _ _); rewrite ?length_insert, ?length_app; lia. Qed.

(** The slot of a new entry held no name. *)
Lemma new_slot_free es x : dir_wf es -> es !! new_slot es = Some x -> name_set x = false.
Proof.
  intros Hwf. unfold new_slot. destruct (find_idx entry_reusable es) as [j|] eqn:Hf; simpl.
  - apply find_idx_Some in Hf as [(y & Hy & Hr) _]. intros Hx. assert (y = x) as -> by congruence.
    destruct (name_set x) eqn:Hn; [|done]. apply list_elem_of_lookup_2 in Hx. pose proof (dw_used _ _ Hwf x Hx Hn).
    unfold entry_reusable, in_use in Hr. rewrite Hn, (proj2 (Z.eqb_neq _ _)) in Hr by lia. done.
  - rewrite lookup_ge_None_2; done.
Qed.

Section add.
Context (es : list mofs_dirent_t) (c : cstr) (child : Z).
Context (Hwf : dir_wf es) (Hc : c <> []) (Hnul : no_nul c = true) (Hlen : blen c < 28).
Context (Hchild : 0 < child < inode_num (sp_blk cx)) (Hmax : inode_num (sp_blk cx) <= 2 ^ 32).
Context (Hdup : existsb (entry_dup c) es = false).

Lemma new_dirent_name : c_str (d_name (new_dirent c child)) = c.
Proof using Hnul Hlen. by apply c_str_name_field. Qed.

Lemma new_dirent_inode : d_inode_num (new_dirent c child) = child.
Proof using Hchild Hmax. simpl. apply u32_small. lia. Qed.

Lemma add_fresh i x : es !! i = Some x -> c_str (d_name x) <> c.
Proof using Hwf Hc Hdup.
  intros Hx Hn. assert (He : existsb (entry_dup c) es = true); [|congruence]. apply existsb_exists. exists x.
  apply list_elem_of_lookup_2 in Hx. split; [by apply list_elem_of_In|].
  apply has_name_eq in Hn as Hn'. pose proof (has_name_set c x Hc Hn') as Hs. pose proof (dw_used _ _ Hwf x Hx Hs).
  unfold entry_dup, in_use. rewrite Hs, Hn', (proj2 (Z.eqb_neq _ _)) by lia. done.
Qed.

Lemma add_wf : dir_wf (add_entry (new_dirent c child) es).
Proof using Hwf Hc Hnul Hlen Hchild Hmax Hdup.
  split.
  - intros e He Hn. apply list_elem_of_lookup_1 in He as (i & Hi). rewrite add_entry_lookup in Hi. case_decide; simplify_eq.
    + rewrite new_dirent_inode. lia.
    + apply (dw_used _ _ Hwf); [by eapply list_elem_of_lookup_2|done].
  - intros i j e f Hi Hj Hn He. rewrite add_entry_lookup in Hi, Hj. do 2 case_decide; simplify_eq; try done.
    + rewrite new_dirent_name in He. exfalso. by eapply add_fresh.
    + rewrite new_dirent_name in He. exfalso. by eapply add_fresh.
    + by eapply (dw_unique _ _ Hwf).
Qed.

Lemma add_find_same : List.find (has_name c) (add_entry (new_dirent c child) es) = Some (new_dirent c child).
Proof using Hwf Hc Hnul Hlen Hchild Hmax Hdup.
  apply wf_find; [apply add_wf|done|]. exists (new_slot es). rewrite add_entry_lookup, decide_True by done.
  split; [done|]. apply has_name_eq, new_dirent_name.
Qed.

Lemma add_find_other c' : c' <> [] -> c' <> c ->
  List.find (has_name c') (add_entry (new_dirent c child) es) = List.find (has_name c') es.
Proof using Hwf Hc Hnul Hlen Hchild Hmax Hdup.
  intros Hc' Hne. apply wf_find_eq; [apply add_wf|done|done|]. intros e He. apply has_name_eq in He as Hn. split; intros (i & Hi).
  - rewrite add_entry_lookup in Hi. case_decide; [|by exists i]. simplify_eq. by rewrite new_dirent_name in Hne.
  - exists i. rewrite add_entry_lookup. case_decide as Hd; [|done]. subst i. apply new_slot_free in Hi; [|done].
    by rewrite (has_name_set c' e) in Hi.
Qed.

End add.

(** ** Removing *)

Section remove.
Context (es : list mofs_dirent_t) (c : cstr) (j : nat).
Context (Hwf : dir_wf es) (Hc : c <> []) (Hj : find_idx (live_named c) es = Some j).

Lemma remove_at : exists x, es !! j = Some x /\ c_str (d_name x) = c.
Proof using Hj.
  apply find_idx_Some in Hj as [(x & Hx & Hl) _]. exists x. split; [done|]. unfold live_named in Hl.
  apply andb_true_iff in Hl as [_ Hl]. by apply has_name_eq.
Qed.

Lemma remove_lookup i : <[j := zero_dirent]> es !! i = if decide (i = j) then Some zero_dirent else es !! i.
Proof using Hj.
  apply find_idx_lt in Hj. destruct (decide (i = j)) as [->|Hne]; [by apply list_lookup_insert_eq|by apply list_lookup_insert_ne].
Qed.

Lemma remove_wf : dir_wf (<[j := zero_dirent]> es).
Proof using Hwf Hc Hj.
  split.
  - intros e He Hn. apply list_elem_of_lookup_1 in He as (i & Hi). rewrite remove_lookup in Hi. case_decide; simplify_eq.
    apply (dw_used _ _ Hwf); [by eapply list_elem_of_lookup_2|done].
  - intros i k e f Hi Hk Hn He. rewrite remove_lookup in Hi, Hk. do 2 case_decide; simplify_eq; try done.
    + apply name_set_ne in Hn. by rewrite He in Hn.
    + by eapply (dw_unique _ _ Hwf).
Qed.

Lemma remove_find_same : List.find (has_name c) (<[j := zero_dirent]> es) = None.
Proof using Hwf Hc Hj.
  apply wf_find_none. intros i e Hi. destruct (has_name c e) eqn:He; [|done]. exfalso. rewrite remove_lookup in Hi. case_decide as Hd; simplify_eq.
  - apply has_name_eq in He. by rewrite <- He in Hc.
  - destruct remove_at as (x & Hx & Hn). apply Hd. eapply (dw_unique _ _ Hwf); [exact Hi|exact Hx|by eapply has_name_set|].
    apply has_name_eq in He. congruence.
Qed.

Lemma remove_find_other c' : c' <> [] -> c' <> c ->
  List.find (has_name c') (<[j := zero_dirent]> es) = List.find (has_name c') es.
Proof using Hwf Hc Hj.
  intros Hc' Hne. apply wf_find_eq; [apply remove_wf|done|done|]. intros e He. apply has_name_eq in He as Hn. split; intros (i & Hi).
  - rewrite remove_lookup in Hi. case_decide; [|by exists i]. simplify_eq.
  - exists i. rewrite remove_lookup. case_decide as Hd; [|done]. subst i. destruct remove_at as (x & Hx & Hnx). congruence.
Qed.

End remove.
(** The tests of the code agree with lookup. *)
Lemma wf_live es e : dir_wf es -> e ∈ es -> name_set e = true -> in_use e = true.
Proof. intros Hwf He Hn. pose proof (dw_used _ _ Hwf e He Hn). unfold in_use. by rewrite (proj2 (Z.eqb_neq _ _)) by lia. Qed.

Lemma wf_dup es c : dir_wf es -> c <> [] ->
  existsb (entry_dup c) es = match List.find (has_name c) es with Some _ => true | None => false end.
Proof.
  intros Hwf Hc. destruct (List.find (has_name c) es) as [e|] eqn:Hf.
  - apply List.find_some in Hf as [Hin Hn]. apply existsb_exists. exists e. split; [done|]. apply list_elem_of_In in Hin.
    pose proof (has_name_set c e Hc Hn) as Hs. unfold entry_dup. by rewrite (wf_live es e), Hs, Hn.
  - rewrite wf_find_none in Hf. apply not_true_iff_false. rewrite existsb_exists. intros (e & Hin & He).
    apply list_elem_of_In, list_elem_of_lookup_1 in Hin as (i & Hi). unfold entry_dup in He. by rewrite (Hf i e Hi), andb_false_r in He.
Qed.

Lemma wf_live_named es c : dir_wf es -> c <> [] ->
  match find_idx (live_named c) es with
  | Some j => List.find (has_name c) es = es !! j /\ is_Some (es !! j)
  | None => List.find (has_name c) es = None
  end.
Proof.
  intros Hwf Hc. destruct (find_idx (live_named c) es) as [j|] eqn:Hf.
  - apply find_idx_Some in Hf as [(x & Hx & Hl) _]. unfold live_named in Hl. apply andb_true_iff in Hl as [_ Hl].
    rewrite Hx. split; [|by eexists]. apply wf_find; [done|done|by exists j].
  - rewrite find_idx_None in Hf. apply wf_find_none. intros i e Hi. specialize (Hf i e Hi). unfold live_named in Hf.
    destruct (has_name c e) eqn:Hn; [|done]. rewrite andb_true_r in Hf.
    rewrite (wf_live es e) in Hf; [done|done|by eapply list_elem_of_lookup_2|by eapply has_name_set].
Qed.

End entries.

(** ** The whole tree *)

Section tree.
Context (cx : mofs_ctx_t) (nblk : Z) (Hvol : vol_ok cx nblk).
Abbreviation is_inode n := (0 <= n < inode_num (sp_blk cx)).
Abbreviation vol_files := (vol_files cx nblk).
Abbreviation tree_ok := (tree_ok cx nblk).

(** A file that did not change is the directory it was. *)
Lemma same_entries d d' F n : vol_files d' F -> is_inode n -> same_file cx d d' F n ->
  is_dir cx d' n = is_dir cx d n /\ dir_entries cx d' n (F n).2 = dir_entries cx d n (F n).2 /\
  (dir_file cx nblk d n (F n).1 (F n).2 -> dir_file cx nblk d' n (F n).1 (F n).2).
Proof.
  intros HF' Hn [Hi Hb]. split_and!.
  - unfold is_dir. by rewrite Hi.
  - unfold dir_entries. rewrite Hi. f_equal. apply content_ext. intros b Hin. apply Hb. unfold file_blocks. apply elem_of_app. by right.
  - intros [_ _ Hc]. split; [done|by apply HF'|]. unfold covers in *. by rewrite Hi.
Qed.

Lemma changed_is_dir d d' F n es : dir_changed cx nblk d d' F n es -> is_dir cx d' n = is_dir cx d n.
Proof. intros Hch. destruct (dc_inode _ _ _ _ _ _ _ Hch) as (size & t & Hi). unfold is_dir. by rewrite Hi. Qed.

(** A change of one directory to well-formed entries keeps the tree. *)
Lemma tree_changed d d' F n es : tree_ok d F -> is_inode n -> is_dir cx d n = true ->
  dir_changed cx nblk d d' F n es -> dir_wf cx es -> tree_ok d' F.
Proof.
  intros [Hr Hd He Hrd] Hn Hdir Hch Hwf. pose proof (dc_files _ _ _ _ _ _ _ Hch) as HF'.
  assert (Hsame : forall m, is_inode m -> m <> n -> is_dir cx d' m = is_dir cx d m) by
    (intros m Hm Hne; by apply (same_entries d d' F m HF' Hm), (dc_others _ _ _ _ _ _ _ Hch)).
  split; [done| | |].
  - intros m Hm Hdm. destruct (decide (m = n)) as [->|Hne]; [by apply Hch|].
    destruct (same_entries d d' F m HF' Hm) as (_ & _ & H); [by apply (dc_others _ _ _ _ _ _ _ Hch)|].
    apply H, Hd; [done|]. by rewrite <- Hsame.
  - intros m Hm Hdm. destruct (decide (m = n)) as [->|Hne]; [by rewrite (dc_entries _ _ _ _ _ _ _ Hch)|].
    destruct (same_entries d d' F m HF' Hm) as (_ & -> & _); [by apply (dc_others _ _ _ _ _ _ _ Hch)|].
    apply He; [done|]. by rewrite <- Hsame.
  - destruct (decide (MOFS_ROOT_INODE_NUM = n)) as [<-|Hne]; [by rewrite (changed_is_dir d d' F _ es)|]. by rewrite Hsame.
Qed.

(** Lookups in the other directories are not affected. *)
Lemma lookup_changed_other d d' F n es m c : dir_changed cx nblk d d' F n es -> is_inode m -> m <> n ->
  dir_lookup cx d' F m c = dir_lookup cx d F m c.
Proof.
  intros Hch Hm Hne. unfold dir_lookup.
  by destruct (same_entries d d' F m (dc_files _ _ _ _ _ _ _ Hch) Hm (dc_others _ _ _ _ _ _ _ Hch m Hm Hne)) as (_ & -> & _).
Qed.

End tree.
