(* ===== verification/NameSpec.v ===== *)
(** * The graph of names

    What the names of a tree look like as a graph from directories to inodes:
    a name leads to an inode in use, every inode in use has exactly one proper
    name, ["."] leads back and [".."] leads to the parent, and every inode in
    use is reached from the root.  Removing the name of an inode without proper
    names below it, adding a name for a new inode, and moving a name to a place
    that is not below its inode, keep this. *)

From Stdlib Require Import ZArith Lia.
From stdpp Require Import base list list_numbers.
From S2P Require Import Prelude Types Dirent.

(** A name other than ["."] and [".."]. *)
Definition proper (c : cstr) : Prop := c <> [] /\ is_dot_or_dotdot_name c = false.

Lemma not_dots c : is_dot_or_dotdot_name c = false <-> c <> dot /\ c <> dotdot.
Proof. unfold is_dot_or_dotdot_name, mofs_strcmp_eq. rewrite orb_false_iff, !bool_decide_eq_false. done. Qed.

Lemma proper_or_dots c : c <> [] -> proper c \/ c = dot \/ c = dotdot.
Proof.
  intros Hc. destruct (is_dot_or_dotdot_name c) eqn:Hd; [right|by left].
  unfold is_dot_or_dotdot_name, mofs_strcmp_eq in Hd. by rewrite orb_true_iff, !bool_decide_eq_true in Hd.
Qed.

Lemma proper_dot : ~ proper dot.
Proof. by intros [_ H]. Qed.

Lemma proper_dotdot : ~ proper dotdot.
Proof. by intros [_ H]. Qed.

#[export] Hint Resolve proper_dot proper_dotdot : core.

(** [E n c m]: in the directory [n], the name [c] leads to [m]; [used] are the
    inodes in use, of the [N] inodes there are. *)
Section names.
Context (N : Z).
Abbreviation is_inode n := (0 <= n < N).
Abbreviation root := MOFS_ROOT_INODE_NUM.
Implicit Types (E : Z -> cstr -> Z -> Prop) (used : Z -> bool).

(** [m] hangs below the root, by proper names, and [l] are the directories on
    the way, the nearest first. *)
Inductive lineage E : Z -> list Z -> Prop :=
  | lineage_root : lineage E root []
  | lineage_step m n c l : lineage E n l -> proper c -> E n c m -> lineage E m (n :: l).

Definition reach E m : Prop := exists l, lineage E m l.

Lemma reach_root E : reach E root.
Proof. exists []. constructor. Qed.

Lemma reach_step E n c m : reach E n -> proper c -> E n c m -> reach E m.
Proof. intros [l Hl] Hp HE. exists (n :: l). by econstructor. Qed.

Lemma lineage_mono E E' m l : (forall n c x, x ∈ m :: l -> proper c -> E n c x -> E' n c x) -> lineage E m l -> lineage E' m l.
Proof.
  intros HE H. induction H as [|m n c l _ IH Hp He]; [constructor|]. econstructor; [apply IH|done|].
  - intros k c' x Hx. apply HE. by right.
  - apply HE; [left|done|done].
Qed.

(** The directories on the way have proper names in them. *)
Lemma lineage_has_child E m l k : lineage E m l -> k ∈ l -> ~ (forall c x, proper c -> ~ E k c x).
Proof.
  induction 1 as [|m n c l _ IH Hp He]; [by intros ?%elem_of_nil|]. intros [->|Hk]%elem_of_cons; [|by apply IH].
  intros Hno. by apply (Hno c m).
Qed.

Record names_ok E used : Prop := {
  nm_fun : forall n c m m', E n c m -> E n c m' -> m = m';
  nm_used : forall n c m, E n c m -> is_inode m /\ used m = true;
  nm_single : forall n c n' c' m, E n c m -> E n' c' m -> proper c -> proper c' -> n = n' /\ c = c';
  nm_reach : forall m, is_inode m -> used m = true -> reach E m;
  nm_root : forall n c, E n c root -> ~ proper c;
  nm_dot : forall n m, E n dot m -> m = n;
  nm_dotdot : forall n m, E n dotdot m -> n = root /\ m = root \/ exists c, proper c /\ E m c n
}.

Lemma nm_named E used m : names_ok E used -> is_inode m -> used m = true -> m <> root -> exists n c, proper c /\ E n c m.
Proof.
  intros Hok Hm Hu Hr. destruct (nm_reach _ _ Hok m Hm Hu) as [l Hl]. inversion Hl; subst; [done|]. eauto.
Qed.

Lemma names_ok_ext E used E' used' : (forall n c m, E' n c m <-> E n c m) -> (forall n, is_inode n -> used' n = used n) ->
  names_ok E used -> names_ok E' used'.
Proof.
  intros HE Hu [Hf Hus Hs Hn Hr Hd Hdd]. split.
  - intros n c m m'. rewrite !HE. apply Hf.
  - intros n c m. rewrite HE. intros H. destruct (Hus n c m H) as [Hi ?]. by rewrite Hu.
  - intros n c n' c' m. rewrite !HE. apply Hs.
  - intros m Hm. rewrite Hu by done. intros Hum. destruct (Hn m Hm Hum) as [l Hl]. exists l. eapply lineage_mono; [|exact Hl].
    intros n c x _ _. by rewrite HE.
  - intros n c. rewrite HE. apply Hr.
  - intros n m. rewrite HE. apply Hd.
  - intros n m. rewrite HE. intros H. destruct (Hdd n m H) as [|(c & ? & ?)]; [by left|]. right. exists c. by rewrite HE.
Qed.

(** A name of an inode that is no directory is proper. *)
Lemma names_proper E used n c m : names_ok E used -> E n c m -> c <> [] -> m <> root -> m <> n -> (forall c' x, proper c' -> ~ E m c' x) -> proper c.
Proof.
  intros Hok HE Hc Hr Hn Hno. destruct (proper_or_dots c Hc) as [|[->| ->]]; [done|..].
  - apply (nm_dot _ _ Hok) in HE. congruence.
  - destruct (nm_dotdot _ _ Hok _ _ HE) as [[_ ?]|(c' & Hp & HE')]; [congruence|]. by apply Hno in HE'.
Qed.

(** ** Removing *)

(** The names that are left without the name [c] of [n] and without [m]. *)
Definition unlinked E n c m : Z -> cstr -> Z -> Prop := fun k c' x => E k c' x /\ k <> m /\ ~ (k = n /\ c' = c).

Lemma unlinked_other E used n c m k c' x : names_ok E used -> E n c m -> proper c -> m <> root -> (forall c' x, proper c' -> ~ E m c' x) ->
  c' <> [] -> unlinked E n c m k c' x -> x <> m.
Proof.
  intros Hok HE Hp Hr Hno Hc' (HE' & Hk & Hne) ->.
  assert (Hp' : proper c') by (apply (names_proper E used k c' m); auto).
  apply Hne. by apply (nm_single _ _ Hok k c' n c m).
Qed.

Lemma names_unlink E used n c m : names_ok E used -> (forall k c' x, E k c' x -> c' <> []) -> E n c m -> proper c -> m <> root ->
  (forall c' x, proper c' -> ~ E m c' x) -> names_ok (unlinked E n c m) (fun k => if k =? m then false else used k).
Proof.
  intros Hok Hne HE Hp Hr Hno. pose proof Hok as [Hf Hu Hs Hn Hro Hd Hdd].
  assert (Hkeep : forall x c' k, proper c' -> E x c' k -> k <> m -> unlinked E n c m x c' k).
  { intros x c' k Hp' HE' Hk. split; [done|]. split; [by intros ->; apply Hno in HE'|]. intros [-> ->]. apply Hk. by apply (Hf n c). }
  split.
  - intros k c' x x' [H1 _] [H2 _]. by apply (Hf k c').
  - intros k c' x H. pose proof (unlinked_other E used n c m k c' x Hok HE Hp Hr Hno (Hne _ _ _ (proj1 H)) H) as Hx.
    rewrite (proj2 (Z.eqb_neq x m)) by done. apply (Hu k c'), H.
  - intros k c1 k' c2 x [H1 _] [H2 _]. by apply Hs with (m := x).
  - intros k Hk Huk. destruct (Z.eqb_spec k m) as [|Hkm]; [done|]. destruct (Hn k Hk Huk) as [l Hl]. exists l.
    eapply lineage_mono; [|exact Hl]. intros x c' y Hy Hp' HE'. apply Hkeep; [done|done|]. intros ->.
    apply elem_of_cons in Hy as [?|Hy]; [congruence|]. by apply (lineage_has_child E k l m Hl Hy) in Hno.
  - intros k c' [H _]. by apply (Hro k).
  - intros k x [H _]. by apply Hd.
  - intros k x (H & Hk & _). destruct (Hdd k x H) as [|(c' & Hp' & HE')]; [by left|]. right. exists c'. split; [done|]. by apply Hkeep.
Qed.

(** ** Adding *)

(** The names with [c] of [n] leading to the new inode [i], which has its own
    [.] and [..] when it is a directory. *)
Definition linked E n c i (dir : bool) : Z -> cstr -> Z -> Prop := fun k c' x =>
  E k c' x \/ k = n /\ c' = c /\ x = i \/ dir = true /\ k = i /\ (c' = dot /\ x = i \/ c' = dotdot /\ x = n).

Lemma names_link E used n c i dir : names_ok E used -> proper c -> (forall x, ~ E n c x) -> (forall c' x, ~ E i c' x) ->
  is_inode i -> used i = false -> i <> root -> n <> i -> is_inode n -> used n = true ->
  names_ok (linked E n c i dir) (fun k => if k =? i then true else used k).
Proof.
  intros Hok Hp Hfree Hnew Hi Hui Hir Hni Hn Hun. pose proof Hok as [Hf Hu Hs Hnm Hro Hd Hdd].
  assert (Hto : forall k c', ~ E k c' i) by (intros k c' H; apply Hu in H as [_ H]; congruence).
  pose proof proper_dot as Hpd. pose proof proper_dotdot as Hpdd.
  assert (Hcd : c <> dot /\ c <> dotdot) by (split; intros ->; done).
  split.
  - intros k c' x x' H1 H2. destruct H1 as [H1|[(-> & -> & ->)|(_ & -> & H1)]], H2 as [H2|[(? & ? & ?)|(_ & ? & H2)]]; subst; try done;
      try (by exfalso; eapply Hfree); try (by exfalso; eapply Hnew); [by apply (Hf k c')|].
    destruct H1 as [(-> & ->)|(-> & ->)], H2 as [(? & ->)|(? & ->)]; done.
  - intros k c' x H. destruct (Z.eqb_spec x i) as [->|Hx]; [done|].
    destruct H as [H|[(_ & _ & ?)|(_ & _ & [(_ & ?)|(_ & ->)])]]; try done. by apply (Hu k c').
  - intros k c1 k' c2 x H1 H2 Hp1 Hp2. destruct H1 as [H1|[(-> & -> & ->)|(_ & _ & [(-> & _)|(-> & _)])]]; try done;
      (destruct H2 as [H2|[(-> & -> & ?)|(_ & _ & [(-> & _)|(-> & _)])]]; try done; subst); [|by exfalso; eapply Hto..].
    by apply (Hs k c1 k' c2 x).
  - assert (Hold : forall m, reach E m -> reach (linked E n c i dir) m).
    { intros m [l Hl]. exists l. eapply lineage_mono; [|exact Hl]. intros k c' x _ _ HE. by left. }
    intros m Hm Hum. destruct (Z.eqb_spec m i) as [->|Hmi]; [|by apply Hold, Hnm].
    apply (reach_step _ n c); [by apply Hold, Hnm|done|right; by left].
  - intros k c' H Hp'. destruct H as [H|[(_ & _ & ?)|(_ & _ & [(-> & _)|(-> & _)])]]; try done. by apply (Hro k c').
  - intros k x H. destruct H as [H|[(_ & ? & _)|(_ & -> & [(_ & ->)|(? & _)])]]; try done; [by apply Hd|]. by destruct Hcd.
  - intros k x H. destruct H as [H|[(_ & ? & _)|(_ & -> & [(? & _)|(_ & ->)])]]; [|by destruct Hcd|done|].
    + destruct (Hdd k x H) as [|(c' & ? & ?)]; [by left|]. right. exists c'. split; [done|by left].
    + right. exists c. split; [done|]. right. by left.
Qed.

(** ** Moving *)

(** The name [c1] of [n1], which leads to [m], is now [c2] of [n2]; [..] of a
    directory follows. *)
Definition moved E n1 c1 n2 c2 m : Z -> cstr -> Z -> Prop := fun k c x =>
  E k c x /\ ~ (k = n1 /\ c = c1) /\ ~ (k = m /\ c = dotdot) \/ k = n2 /\ c = c2 /\ x = m \/
  k = m /\ c = dotdot /\ x = n2 /\ exists y, E m dotdot y.

(** [m] is not on the way from the root to [n]. *)
Definition not_above E m n : Prop := exists l, lineage E n l /\ m ∉ n :: l.

Lemma names_move E used n1 c1 n2 c2 m : names_ok E used -> E n1 c1 m -> proper c1 -> proper c2 -> (forall x, ~ E n2 c2 x) ->
  is_inode n2 -> used n2 = true -> not_above E m n2 -> names_ok (moved E n1 c1 n2 c2 m) used.
Proof.
  intros Hok HE Hp1 Hp2 Hfree Hn2 Hun2 (l2 & Hl2 & Hm2). pose proof Hok as [Hf Hu Hs Hn Hro Hd Hdd].
  pose proof proper_dot as Hpd. pose proof proper_dotdot as Hpdd.
  assert (Hmr : m <> root) by (intros ->; by apply (Hro n1 c1)).
  assert (Hkeep : forall k c x, proper c -> E k c x -> x <> m -> moved E n1 c1 n2 c2 m k c x).
  { intros k c x Hp H Hx. left. split; [done|]. split; [intros [-> ->]; by apply Hx, (Hf n1 c1)|by intros [_ ->]]. }
  assert (Hr2 : reach (moved E n1 c1 n2 c2 m) n2).
  { exists l2. eapply lineage_mono; [|exact Hl2]. intros k c x Hx Hp H. apply Hkeep; [done|done|by intros ->]. }
  split.
  - intros k c x x' [(H1 & H1a & H1b)|[(H1 & H1a & ->)|(H1 & H1a & -> & _)]] [(H2 & H2a & H2b)|[(H2 & H2a & ->)|(H2 & H2a & -> & _)]]; try done;
      try (by exfalso; eapply Hfree; subst; eassumption); try (by subst); [by apply (Hf k c)|by exfalso; apply H1b|by exfalso; apply H2b].
  - intros k c x [(H & _)|[(_ & _ & ->)|(_ & _ & -> & _)]]; [by apply (Hu k c)|by apply (Hu n1 c1)|done].
  - intros k c k' c' x [(H1 & H1a & H1b)|[(-> & -> & ->)|(_ & -> & _)]] [(H2 & H2a & H2b)|[(-> & -> & Hx)|(_ & -> & _)]] Hpc Hpc'; try done.
    + by apply (Hs k c k' c' x).
    + subst x. exfalso. apply H1a. by apply (Hs k c n1 c1 m).
    + exfalso. apply H2a. by apply (Hs k' c' n1 c1 m).
  - intros k Hk Huk. destruct (Hn k Hk Huk) as [l Hl]. clear Hk Huk.
    induction Hl as [|x k c l _ IH Hp He]; [apply reach_root|]. destruct (decide (x = m)) as [->|Hx].
    + apply (reach_step _ n2 c2); [done|done|]. right; by left.
    + apply (reach_step _ k c); [done|done|by apply Hkeep].
  - intros k c [(H & _)|[(_ & _ & Hx)|(_ & -> & _)]]; [by apply (Hro k)|congruence|done].
  - intros k x [(H & _)|[(_ & ? & _)|(_ & ? & _)]]; [by apply Hd|by subst|done].
  - intros k x [(H & _ & Hk)|[(_ & ? & _)|(-> & _ & -> & _)]]; [|by subst|].
    + destruct (Hdd k x H) as [|(c & Hp & Hx)]; [by left|]. right. exists c. split; [done|]. apply Hkeep; [done|done|].
      intros ->. by apply Hk.
    + right. exists c2. split; [done|]. right; by left.
Qed.

(** The climb along [..] from [n] passes exactly the inodes of its lineage. *)
Lemma lineage_unique E used m l l' : names_ok E used -> lineage E m l -> lineage E m l' -> l = l'.
Proof.
  intros Hok H. revert l'. induction H as [|m n c l Hl IH Hp He]; intros l' H'; inversion H' as [|? n' c' l2 Hl2 Hp' He']; subst; try done.
  - by apply (nm_root _ _ Hok) in He'.
  - by apply (nm_root _ _ Hok) in He.
  - destruct (nm_single _ _ Hok n c n' c' m) as [-> _]; [done..|]. f_equal. by apply IH.
Qed.

Lemma lineage_suffix E m l k : lineage E m l -> k ∈ l -> exists l', lineage E k l' /\ (length l' < length l)%nat.
Proof.
  induction 1 as [|m n c l Hl IH _ _]; [by intros ?%elem_of_nil|]. intros [->|Hk]%elem_of_cons.
  - exists l. split; [done|]. simpl. lia.
  - destruct (IH Hk) as (l' & ? & ?). exists l'. split; [done|]. simpl. lia.
Qed.

Lemma lineage_NoDup E used m l : names_ok E used -> lineage E m l -> NoDup (m :: l).
Proof.
  intros Hok H. induction H as [|m n c l Hl IH Hp He]; [apply NoDup_singleton|]. constructor; [|done]. intros Hin.
  assert (Hm : lineage E m (n :: l)) by (by econstructor).
  destruct (lineage_suffix E m (n :: l) m Hm Hin) as (l' & Hl' & Hlt). rewrite (lineage_unique E used m l' (n :: l)) in Hlt by done. lia.
Qed.

Lemma lineage_inodes E used m l : names_ok E used -> is_inode root -> lineage E m l -> Forall (fun k => is_inode k) (m :: l).
Proof.
  intros Hok Hr H. induction H as [|m n c l Hl IH Hp He]; [by constructor|]. constructor; [|done]. by apply (nm_used _ _ Hok n c).
Qed.

(** It is shorter than the inode table. *)
Lemma lineage_short E used m l : names_ok E used -> is_inode root -> lineage E m l -> (length (m :: l) <= Z.to_nat N)%nat.
Proof.
  intros Hok Hr H. pose proof (lineage_NoDup E used m l Hok H) as Hnd. pose proof (lineage_inodes E used m l Hok Hr H) as Hin.
  assert (Hsub : m :: l ⊆+ seqZ 0 N).
  { apply NoDup_submseteq; [done|]. intros k Hk. rewrite Forall_forall in Hin. apply Hin in Hk. apply elem_of_seqZ. lia. }
  apply submseteq_length in Hsub. by rewrite length_seqZ in Hsub.
Qed.

End names.
