(* ===== verification/StreamSpec.v ===== *)
(** * Directory streams

    [mofs_readdir_core] as a search of the list of entries from the stream's
    offset on, and a whole pass over a directory. *)

From Stdlib Require Import ZArith Lia.
From stdpp Require Import base list list_numbers.
From S2P Require Import Prelude Types Platform Raw Buffer BufferSpec Ops Bitmap Inode Block FileData Perm Dirent Path File Dir Volume BlockSpec AllocSpec InodeSpec VolInv FileSpec FileInv PermSpec DirSpec EntrySpec.

Definition entry_live (e : mofs_dirent_t) : bool := in_use e && name_set e.

Lemma drop_dirent_slice k s n buf : drop k (dirent_slice s n buf) = dirent_slice (s + Z.of_nat k) (n - k) buf.
Proof.
  apply list_eq. intros i. rewrite lookup_drop. destruct (decide (k + i < n)%nat).
  - rewrite !dirent_slice_lookup by lia. do 2 f_equal. lia.
  - rewrite !lookup_ge_None_2; rewrite ?length_dirent_slice; try lia; done.
Qed.

Lemma filter_no_hit {A} (f : A -> bool) l : (forall i x, l !! i = Some x -> f x = false) -> List.filter f l = [].
Proof.
  induction l as [|x l IH]; intros H; [done|]. simpl. rewrite (H 0%nat x eq_refl). apply IH. intros i y Hi. by apply (H (S i)).
Qed.

Section streamspec.
Context (cx : mofs_ctx_t) (nblk : Z) (Hvol : vol_ok cx nblk).
Abbreviation sb := (sp_blk cx).
Abbreviation bs := (blk_size (sp_blk cx)).
Abbreviation epb := (blk_size (sp_blk cx) / 32).
Abbreviation drs := (data_region_start (sp_blk cx)).
Abbreviation is_inode n := (0 <= n < inode_num (sp_blk cx)).

(** The next live entry from position [o] on, with its position. *)
Definition next_live (o : nat) (es : list mofs_dirent_t) : option (nat * mofs_dirent_t) :=
  j ← find_idx entry_live (drop o es); e ← es !! (o + j)%nat; Some ((o + j)%nat, e).

Lemma find_idx_drop_app {A} (f : A -> bool) s l m : (s <= length l)%nat \/ m = [] ->
  find_idx f (drop s (l ++ m)) =
  match find_idx f (drop s l) with Some j => Some j | None => Nat.add (length l - s) <$> find_idx f m end.
Proof.
  intros Hs. rewrite drop_app, find_idx_app, length_drop. destruct (find_idx f (drop s l)); [done|].
  destruct Hs as [Hs| ->]; [|by rewrite drop_nil]. by replace (s - length l)%nat with 0%nat by lia.
Qed.

Lemma wp_readdir_loop n nodes ptrs k : forall i s buf Q a,
  let d := a_disk a in
  let es := entries_from cx d n ptrs i in
  disk_ok cx nblk d -> dir_file cx nblk d n nodes ptrs -> 0 <= i -> Z.of_nat s < epb ->
  k = Z.to_nat (ceil_div (i_size (inode_at cx d n)) bs - i) -> bs <= blen buf ->
  match find_idx entry_live (drop s es) with
  | Some j => forall e b idx, es !! (s + j)%nat = Some e -> b * epb + Z.of_nat idx = i * epb + Z.of_nat (s + j) ->
                Q (Ok (Some (e, b, idx))) a
  | None => Q (Ok None) a
  end ->
  wp cx nblk (readdir_loop cx n k i s buf) Q a.
Proof.
  induction k as [|k IH]; intros i s buf Q a d es Hd Hdf Hi Hs Hk Hbuf HQ; cbn [readdir_loop].
  { unfold es in HQ. rewrite (entries_from_end cx nblk Hvol) in HQ by (fold d; lia). by rewrite drop_nil in HQ. }
  pose proof Hdf as [Hn Hm _]. destruct (epb_eq cx nblk Hvol) as [Hbe H16].
  apply wp_bind, (wp_read_dir_block cx nblk Hvol n nodes ptrs); try done; [fold d; lia|].
  intros rd frac b Hok Hb He _. wp_simpl. fold d in He. fold d. fold entry_live.
  unfold es in HQ. rewrite (entries_from_step cx nblk Hvol) in HQ by done.
  set (blk := block_entries cx d n ptrs i) in *. set (rest := entries_from cx d n ptrs (i + 1)) in *.
  assert (Hlen : length blk = Z.to_nat epb \/ rest = []).
  { unfold blk, rest, block_entries, entries_from. rewrite length_dirent_slice.
    set (t := i_size _ / 32). destruct (Z.le_gt_cases (t - i * epb) epb); [right|left; lia].
    by replace (Z.to_nat (t - (i + 1) * epb)) with 0%nat by lia. }
  rewrite find_idx_drop_app in HQ by (destruct Hlen; [left; lia|by right]).
  rewrite He. destruct (find_idx entry_live (drop s blk)) as [j|] eqn:Hf.
  - apply wp_ret. pose proof (find_idx_lt _ _ _ Hf) as Hj. rewrite length_drop in Hj.
    apply HQ; [|done]. rewrite lookup_app_l by lia.
    rewrite <- He. unfold dirents. rewrite list_lookup_fmap, lookup_seq_lt; [done|].
    rewrite <- He in Hj. unfold dirents in Hj. rewrite length_fmap, length_seq in Hj. lia.
  - apply IH; try done; try (fold d; lia); [by eapply block_buf_len|]. fold d rest. rewrite drop_0.
    destruct (find_idx entry_live rest) as [j|] eqn:Hr; [|done]. cbn [fmap option_fmap option_map] in HQ.
    intros e b' idx He' Hb'. destruct Hlen as [Hlen|Hlen]; [|by rewrite Hlen in Hr].
    apply HQ.
    + rewrite lookup_app_r by lia. rewrite <- He'. f_equal. lia.
    + rewrite Hb'. lia.
Qed.

Lemma wp_get_dirhandle h x Q a : a_dirs a !! h = Some x -> dh_used x = true -> Q (Ok (h, x)) a ->
  wp cx nblk (get_dirhandle (Some h)) Q a.
Proof. intros Hh Hu HQ. unfold get_dirhandle. apply wp_bind, wp_call. simpl. rewrite Hh, Hu. exact HQ. Qed.

(** The stream [h] after a call that found [r]. *)
Definition stream_at (x : mofs_dirhandle) (r : option (nat * mofs_dirent_t)) : mofs_dirhandle :=
  match r with
  | Some (p, e) => mkDir (dh_used x) (dh_inode_num x) (Z.of_nat p + 1) e
  | None => mkDir (dh_used x) (dh_inode_num x) (dirent_offset x) zero_dirent
  end.

(** An open stream on a directory that the caller may read. *)
Record stream_on (a : astate) (h : nat) (x : mofs_dirhandle) (nodes ptrs : list Z) : Prop := {
  so_pool : a_dirs a !! h = Some x;
  so_used : dh_used x = true;
  so_dir : dir_file cx nblk (a_disk a) (dh_inode_num x) nodes ptrs;
  so_type : has_flag (i_mode (inode_at cx (a_disk a) (dh_inode_num x))) MOFS_FTYPE_DIR = true;
  so_user : u_valid (a_caller a) = true;
  so_perm : open_permission MOFS_OFLAG_RDONLY (a_caller a) (inode_at cx (a_disk a) (dh_inode_num x)) = Ok tt;
  so_off : 0 <= dirent_offset x
}.

Lemma next_live_lt o es p e : next_live o es = Some (p, e) -> (o <= p < length es)%nat.
Proof.
  unfold next_live. destruct (find_idx entry_live (drop o es)) as [j|] eqn:Hf; simpl; [|done].
  apply find_idx_lt in Hf. rewrite length_drop in Hf. destruct (es !! (o + j)%nat); simpl; [|done]. intros [= <- <-]. lia.
Qed.

Lemma wp_readdir_core h x nodes ptrs Q a : let d := a_disk a in
  disk_ok cx nblk d -> stream_on a h x nodes ptrs ->
  Q (Ok tt) (set_adirs (<[h := stream_at x (next_live (Z.to_nat (dirent_offset x)) (dir_entries cx d (dh_inode_num x) ptrs))]> (a_dirs a)) a) ->
  wp cx nblk (mofs_readdir_core cx (Some h)) Q a.
Proof.
  intros d Hd [Hp Hu Hdf Hty Huser Hperm Hoff] HQ. fold d in Hdf, Hty, Hperm.
  destruct (df_size cx nblk Hvol _ _ _ _ Hd Hdf) as (Hsz & Hblk & Hcp & Hmax). pose proof (df_inode _ _ _ _ _ _ Hdf) as Hn.
  pose proof (bs_range cx nblk Hvol) as Hbs. destruct (epb_eq cx nblk Hvol) as [Hbe H16].
  set (n := dh_inode_num x) in *. set (o := dirent_offset x) in *.
  pose proof (Z.div_mod o epb ltac:(lia)) as Hdm. pose proof (Z.mod_pos_bound o epb ltac:(lia)) as Hmb.
  assert (Hi0 : 0 <= o / epb) by (apply Z.div_pos; lia).
  unfold mofs_readdir_core. apply wp_bind, (wp_get_dirhandle h x); [done|done|]. wp_simpl.
  apply wp_bind, wp_malloc; [lia|]. intros buf Hbuf. wp_simpl.
  apply wp_bind, wp_require_caller; [done|]. wp_simpl.
  apply wp_bind, (wp_read_inode cx nblk Hvol); [done|done|]. wp_simpl. fold n d. rewrite Hty. cbn [negb].
  apply wp_bind, wp_check_open_permission; [done|]. rewrite Hperm. wp_simpl. rewrite Hblk. change (entries_per_blk cx) with epb. fold o.
  apply wp_bind, (wp_readdir_loop n nodes ptrs); try done; try (fold d; lia). fold d.
  set (i := o / epb) in *. set (s := o mod epb) in *.
  assert (Hes : drop (Z.to_nat s) (entries_from cx d n ptrs i) = drop (Z.to_nat o) (dir_entries cx d n ptrs)).
  { unfold entries_from, dir_entries. rewrite !drop_dirent_slice. f_equal; lia. }
  assert (Hlook : forall j, entries_from cx d n ptrs i !! (Z.to_nat s + j)%nat = dir_entries cx d n ptrs !! (Z.to_nat o + j)%nat).
  { intros j. by rewrite <- !lookup_drop, Hes. }
  rewrite Hes. unfold next_live in HQ. destruct (find_idx entry_live (drop (Z.to_nat o) (dir_entries cx d n ptrs))) as [j|] eqn:Hf.
  - intros e b idx He Hb. wp_simpl. rewrite Hlook in He. cbn [mbind option_bind] in HQ. rewrite He in HQ. cbn [mbind option_bind stream_at] in HQ.
    replace (u32 (b * epb + Z.of_nat idx + 1)) with (Z.of_nat (Z.to_nat o + j) + 1); [exact HQ|].
    pose proof (lookup_lt_Some _ _ _ He) as Hlt. unfold dir_entries in Hlt. rewrite length_dirent_slice in Hlt. rewrite u32_small; lia.
  - wp_simpl. exact HQ.
Qed.

(** ** A whole pass *)

(** Read entries until the stream reports its end, at most [k] times: the loop
    of a program that lists a directory. *)
Fixpoint read_stream (k : nat) (h : nat) : prog (list mofs_dirent_t) :=
  match k with
  | O => mret []
  | S k' =>
      mofs_readdir_core cx (Some h);;
      '(_, x) ← get_dirhandle (Some h);
      if entry_live (dirent_buf x) then rest ← read_stream k' h; mret (dirent_buf x :: rest) else mret []
  end.

(** The entries still to come. *)
Definition live_from (o : nat) (es : list mofs_dirent_t) : list mofs_dirent_t := List.filter entry_live (drop o es).

Lemma live_from_next o es : live_from o es = match next_live o es with Some (p, e) => e :: live_from (S p) es | None => [] end.
Proof.
  unfold live_from, next_live. destruct (find_idx entry_live (drop o es)) as [j|] eqn:Hf; cbn [mbind option_bind].
  - apply find_idx_Some in Hf as [(e & He & Hl) Hlt]. rewrite lookup_drop in He. rewrite He. cbn [mbind option_bind].
    rewrite <- (take_drop j (drop o es)) at 1. rewrite List.filter_app.
    assert (Hnil : List.filter entry_live (take j (drop o es)) = []).
    { apply filter_no_hit. intros i x Hx. apply lookup_take_Some in Hx as [Hx Hi]. by apply (Hlt i). }
    rewrite Hnil. rewrite drop_drop. rewrite (drop_S es e) by done. cbn [app List.filter]. by rewrite Hl.
  - rewrite find_idx_None in Hf. by apply filter_no_hit.
Qed.

Lemma next_live_live o es p e : next_live o es = Some (p, e) -> entry_live e = true.
Proof.
  unfold next_live. destruct (find_idx entry_live (drop o es)) as [j|] eqn:Hf; cbn [mbind option_bind]; [|done].
  apply find_idx_Some in Hf as [(x & Hx & Hl) _]. rewrite lookup_drop in Hx. rewrite Hx. cbn [mbind option_bind]. congruence.
Qed.

Lemma wp_read_stream h nodes ptrs k : forall x a Q, let d := a_disk a in
  disk_ok cx nblk d -> stream_on a h x nodes ptrs ->
  let es := dir_entries cx d (dh_inode_num x) ptrs in
  (length (live_from (Z.to_nat (dirent_offset x)) es) < k)%nat ->
  (forall x', Q (Ok (live_from (Z.to_nat (dirent_offset x)) es)) (set_adirs (<[h := x']> (a_dirs a)) a)) ->
  wp cx nblk (read_stream k h) Q a.
Proof.
  induction k as [|k IH]; intros x a Q d Hd Hso es Hk HQ; [lia|]. cbn [read_stream].
  apply wp_bind, (wp_readdir_core h x nodes ptrs); [done|done|]. wp_simpl. fold d es.
  pose proof (lookup_lt_Some _ _ _ (so_pool _ _ _ _ _ Hso)) as Hlt. pose proof (so_used _ _ _ _ _ Hso) as Hu.
  rewrite live_from_next in Hk, HQ. destruct (next_live _ es) as [[p e]|] eqn:Hnl; cbn [stream_at].
  - apply wp_bind. eapply (wp_get_dirhandle h); [by apply list_lookup_insert_eq|done|]. wp_simpl. cbn [dirent_buf].
    rewrite (next_live_live _ _ _ _ Hnl). apply wp_bind.
    set (x1 := mkDir (dh_used x) (dh_inode_num x) (Z.of_nat p + 1) e).
    assert (Hp : Z.to_nat (dirent_offset x1) = S p) by (simpl; lia).
    apply (IH x1); [done| |rewrite Hp; cbn [length] in Hk; simpl; fold d es; lia|].
    + destruct Hso. split; try done; [by apply list_lookup_insert_eq|simpl; lia].
    + rewrite Hp. intros x'. wp_simpl. apply wp_ret. simpl. rewrite list_insert_insert_eq. apply HQ.
  - apply wp_bind. eapply (wp_get_dirhandle h); [by apply list_lookup_insert_eq|done|]. wp_simpl. cbn [dirent_buf].
    apply wp_ret, HQ.
Qed.

End streamspec.
