(* ===== verification/FsSpec.v ===== *)
(** * The whole file system

    The invariant [fs_ok] ties the allocation of blocks, the inode bitmap and
    the directory tree together; creating, removing, reading, writing
    and resizing files keep it. *)

From Stdlib Require Import ZArith Lia.
From stdpp Require Import base list list_numbers.
From S2P Require Import Prelude Types Platform Raw Buffer BufferSpec Ops Bitmap Inode Block FileData Perm Dirent Path File Volume BlockSpec AllocSpec FreeSpec InodeSpec VolInv FileSpec FileInv PermSpec RwSpec WriteSpec TruncSpec DirSpec PathSpec EntrySpec TreeSpec NameSpec.

Section fsspec.
Context (cx : mofs_ctx_t) (nblk : Z) (Hvol : vol_ok cx nblk).
Abbreviation sb := (sp_blk cx).
Abbreviation bs := (blk_size (sp_blk cx)).
Abbreviation is_inode n := (0 <= n < inode_num (sp_blk cx)).
Abbreviation vol_files := (vol_files cx nblk).
Abbreviation tree_ok := (tree_ok cx nblk).
Abbreviation root := MOFS_ROOT_INODE_NUM.

(** The directory [n] has the name [c], which leads to [m]. *)
Definition edge (d : disk) (F : files) (n : Z) (c : cstr) (m : Z) : Prop :=
  is_inode n /\ is_dir cx d n = true /\ c <> [] /\ dir_lookup cx d F n c = Some m.

(** The directory [n] has a whole block of entries, with [..] among them. *)
Definition dotdot_first (d : disk) (F : files) (n : Z) : Prop :=
  (Z.to_nat (bs / 32) <= length (dir_entries cx d n (F n).2))%nat /\
  exists j e, (j < Z.to_nat (bs / 32))%nat /\ dir_entries cx d n (F n).2 !! j = Some e /\ has_name dotdot e = true.

Record fs_ok (d : disk) (F : files) : Prop := {
  fs_files : vol_files d F;
  fs_tree : tree_ok d F;
  (** an inode that is not in use owns no blocks and is no directory *)
  fs_free : forall n, is_inode n -> inode_bit cx d n = false -> F n = ([], []) /\ is_dir cx d n = false;
  (** the names of the tree: they lead to inodes in use, each of which has one
      proper name *)
  fs_names : names_ok (inode_num sb) (edge d F) (inode_bit cx d);
  (** a file without data blocks has no list nodes *)
  fs_nodes : forall n, is_inode n -> (F n).2 = [] -> (F n).1 = [];
  (** inode numbers 0 and 1 are not handed out *)
  fs_reserved : forall n, is_inode n -> n < 2 -> inode_bit cx d n = false;
  (** every directory but the root has [..] where it is looked for *)
  fs_dots : forall n, is_inode n -> is_dir cx d n = true -> n <> root -> dotdot_first d F n
}.

Lemma edge_dir d F n c m : edge d F n c m -> is_inode n /\ is_dir cx d n = true.
Proof. by intros (? & ? & _). Qed.

Lemma edge_ne d F n c m : edge d F n c m -> c <> [].
Proof. by intros (_ & _ & ? & _). Qed.

Lemma dotdot_first_ext d d' F F' n : dir_entries cx d' n (F' n).2 = dir_entries cx d n (F n).2 -> dotdot_first d F n -> dotdot_first d' F' n.
Proof. intros He. unfold dotdot_first. by rewrite He. Qed.

(** Adding or removing another name leaves it there. *)
Lemma dotdot_first_add d d' F n e : dir_wf cx (dir_entries cx d n (F n).2) ->
  dir_entries cx d' n (F n).2 = add_entry e (dir_entries cx d n (F n).2) -> dotdot_first d F n -> dotdot_first d' F n.
Proof.
  intros Hwf He (Hlen & j & x & Hj & Hl & Hx). split; [rewrite He; pose proof (length_add_entry e (dir_entries cx d n (F n).2)); lia|].
  exists j, x. split; [done|]. split; [|done]. rewrite He, add_entry_lookup.
  case_decide as Hd; [|done]. subst j. apply (new_slot_free cx _ x Hwf) in Hl. by rewrite (has_name_set dotdot x) in Hl.
Qed.

Lemma dotdot_first_remove d d' F n c i : c <> dotdot -> find_idx (live_named c) (dir_entries cx d n (F n).2) = Some i ->
  dir_entries cx d' n (F n).2 = <[i := zero_dirent]> (dir_entries cx d n (F n).2) -> dotdot_first d F n -> dotdot_first d' F n.
Proof.
  intros Hc Hi He (Hlen & j & x & Hj & Hl & Hx). split; [by rewrite He, length_insert|]. exists j, x. split; [done|]. split; [|done].
  rewrite He, (remove_lookup _ c i Hi). case_decide as Hd; [|done]. subst j. apply find_idx_Some in Hi as [(y & Hy & Hl') _].
  assert (y = x) as -> by congruence. unfold live_named in Hl'. apply andb_true_iff in Hl' as [_ Hl']. apply has_name_eq in Hx, Hl'. congruence.
Qed.

(** ** Inode bits *)

Lemma inode_bit_low d d' m : (forall b, 0 <= b < data_bitmap_start sb -> d' b = d b) -> is_inode m -> inode_bit cx d' m = inode_bit cx d m.
Proof.
  intros Hlow Hm. unfold inode_bit, bitmap_bit. pose proof (inode_bitmap_blk cx nblk Hvol m Hm). pose proof Hvol as []. rewrite Hlow by lia. done.
Qed.

Lemma inode_bit_put_inode d n i m : is_inode n -> is_inode m -> inode_bit cx (put_inode cx d n i) m = inode_bit cx d m.
Proof.
  intros Hn Hm. apply inode_bit_low; [|done]. intros b Hb. pose proof (tbl_blk_range cx nblk Hvol n Hn). pose proof Hvol as [].
  apply upd_ne. lia.
Qed.

Lemma dir_used d F n : fs_ok d F -> is_inode n -> is_dir cx d n = true -> inode_bit cx d n = true.
Proof.
  intros Hfs Hn Hdir. destruct (inode_bit cx d n) eqn:Hb; [done|]. apply (fs_free _ _ Hfs n Hn) in Hb as [_ Hb]. congruence.
Qed.

(** An inode without blocks may be replaced by another without blocks. *)
Lemma put_empty_files d n F i : disk_ok cx nblk d -> vol_files d F -> is_inode n -> F n = ([], []) -> inode_fits i ->
  i_data_head i = 0 -> i_nr_blocks i = 0 -> vol_files (put_inode cx d n i) F.
Proof.
  intros Hd HF Hn He Hi Hh Hr. pose proof (vf_map _ _ _ _ HF n Hn) as [Hc Hnr _ _ _ _]. rewrite He in *.
  apply (put_inode_files cx nblk Hvol); try done; [|by rewrite Hr, Hnr]. destruct Hc as [Hc _]. by rewrite Hh, Hc.
Qed.

Lemma edge_used d F n c m : fs_ok d F -> edge d F n c m -> is_inode m /\ inode_bit cx d m = true.
Proof. intros Hfs. apply (nm_used _ _ _ (fs_names _ _ Hfs)). Qed.

(** A file has no names below it. *)
Lemma no_edges d F m c x : is_dir cx d m = false -> ~ edge d F m c x.
Proof. intros Hd (_ & Hd' & _). congruence. Qed.

(** A name leads to an inode of 3 or more, but for [..] to the root. *)
Lemma edge_ge_3 d F n c m : fs_ok d F -> edge d F n c m -> m <> root -> 3 <= m.
Proof.
  intros Hfs He Hr. destruct (edge_used d F n c m Hfs He) as [Hm Hb]. pose proof (fs_reserved _ _ Hfs m Hm) as Hres.
  destruct (Z.lt_ge_cases m 2) as [Hlt|]; [specialize (Hres Hlt); congruence|]. change root with 2 in Hr. lia.
Qed.

(** ** Changing one inode *)

(** The tree when everything but the file [n] is as it was. *)
Lemma tree_replace d d' F F' n : tree_ok d F -> vol_files d' F' ->
  (is_dir cx d' n = true -> dir_file cx nblk d' n (F' n).1 (F' n).2 /\ dir_wf cx (dir_entries cx d' n (F' n).2)) ->
  (n = root -> is_dir cx d' n = true) ->
  (forall m, m <> n -> F' m = F m) -> (forall m, is_inode m -> m <> n -> same_file cx d d' F m) ->
  tree_ok d' F' /\
  (forall m, is_inode m -> m <> n -> is_dir cx d' m = is_dir cx d m) /\
  (forall m c, is_inode m -> m <> n -> dir_lookup cx d' F' m c = dir_lookup cx d F m c).
Proof.
  intros [Hr Hd He Hrd] HF' Hnew Hroot HFF Hs.
  assert (Hse : forall m, is_inode m -> m <> n -> is_dir cx d' m = is_dir cx d m /\ dir_entries cx d' m (F' m).2 = dir_entries cx d m (F m).2 /\
    (dir_file cx nblk d m (F m).1 (F m).2 -> dir_file cx nblk d' m (F' m).1 (F' m).2)).
  { intros m Hm Hne. rewrite <- (HFF m Hne). apply (same_entries cx nblk d d' F' m HF' Hm).
    destruct (Hs m Hm Hne) as [Hi Hb]. split; [done|]. intros b. unfold file_blocks. rewrite (HFF m Hne). apply Hb. }
  split; [split|split]; try done.
  - intros m Hm Hdm. destruct (decide (m = n)) as [->|Hne]; [by apply Hnew|]. destruct (Hse m Hm Hne) as (Heq & _ & Hf).
    apply Hf, Hd; [done|]. by rewrite <- Heq.
  - intros m Hm Hdm. destruct (decide (m = n)) as [->|Hne]; [by apply Hnew|]. destruct (Hse m Hm Hne) as (Heq & -> & _).
    apply He; [done|]. by rewrite <- Heq.
  - destruct (decide (root = n)) as [<-|Hne]; [by apply Hroot|]. destruct (Hse root Hr Hne) as (-> & _). done.
  - intros m Hm Hne. by apply Hse.
  - intros m c Hm Hne. unfold dir_lookup. by destruct (Hse m Hm Hne) as (_ & -> & _).
Qed.

(** [d'] is [d] with the contents of the regular file [n] changed: its blocks,
    its size and its times. *)
Record file_changed (d d' : disk) (F F' : files) (n : Z) : Prop := {
  fc_files : vol_files d' F';
  fc_map : forall m, m <> n -> F' m = F m;
  fc_others : forall m, is_inode m -> m <> n -> same_file cx d d' F m;
  fc_low : forall b, 0 <= b < data_bitmap_start sb -> d' b = d b;
  fc_is_dir : is_dir cx d' n = is_dir cx d n;
  fc_nodes : ((F n).2 = [] -> (F n).1 = []) -> (F' n).2 = [] -> (F' n).1 = []
}.

(** It leaves the names, the inodes in use and every directory alone. *)
Lemma file_changed_ok d d' F F' n : fs_ok d F -> is_inode n -> inode_bit cx d n = true -> is_dir cx d n = false ->
  file_changed d d' F F' n -> fs_ok d' F'.
Proof.
  intros Hfs Hn Hb Hdn [Hf' HFF Hs Hlow Hdir Hnod]. rewrite Hdn in Hdir.
  assert (Hroot : n <> root) by (intros ->; pose proof (to_root_dir _ _ _ _ (fs_tree _ _ Hfs)); congruence).
  destruct (tree_replace d d' F F' n (fs_tree _ _ Hfs) Hf') as (Ht & Hisd & Hlk); try done; [congruence|].
  assert (Hbit : forall m, is_inode m -> inode_bit cx d' m = inode_bit cx d m) by (intros m Hm; by apply inode_bit_low).
  assert (Hne : forall m, is_dir cx d m = true -> m <> n) by congruence.
  split; try done.
  - intros m Hm Hbm. rewrite Hbit in Hbm by done. assert (m <> n) by congruence. rewrite HFF, Hisd by done. by apply (fs_free _ _ Hfs).
  - eapply names_ok_ext; [|exact Hbit|apply (fs_names _ _ Hfs)]. intros k c m. unfold edge.
    destruct (decide (k = n)) as [->|Hk]; [rewrite Hdir, Hdn; by split; intros (_ & ? & _)|].
    split; intros (Hi & Hd & Hc & Hl); [rewrite Hisd in Hd by done; rewrite Hlk in Hl by done|rewrite Hisd, Hlk by done]; done.
  - intros m Hm. destruct (decide (m = n)) as [->|Hmn]; [by apply Hnod, (fs_nodes _ _ Hfs)|]. rewrite HFF by done. by apply (fs_nodes _ _ Hfs).
  - intros m Hm Hlt. rewrite Hbit by done. by apply (fs_reserved _ _ Hfs).
  - intros m Hm Hdm Hr. destruct (decide (m = n)) as [->|Hmn]; [congruence|]. rewrite Hisd in Hdm by done.
    eapply dotdot_first_ext; [|by apply (fs_dots _ _ Hfs)]. rewrite <- HFF in * by done.
    apply (same_entries cx nblk d d' F' m Hf' Hm). destruct (Hs m Hm Hmn) as [Hi Hx]. split; [done|]. intros b. unfold file_blocks. rewrite HFF by done. apply Hx.
Qed.

Lemma lookup_ext d F F' n c : F' n = F n -> dir_lookup cx d F' n c = dir_lookup cx d F n c.
Proof. intros HF. unfold dir_lookup. by rewrite HF. Qed.

(** ** Changing the names *)

(** [d'] is [d] with the name [c] of the directory [n] now leading to [to];
    [i] is the inode that was added or removed. *)
Record renamed (d d' : disk) (F F' : files) (n : Z) (c : cstr) (i : Z) (to : option Z) : Prop := {
  rn_files : vol_files d' F';
  rn_tree : tree_ok d' F';
  rn_map : forall m, m <> i -> F' m = F m;
  rn_name : dir_lookup cx d' F' n c = to;
  rn_names : forall c', c' <> [] -> c' <> c -> dir_lookup cx d' F' n c' = dir_lookup cx d F n c';
  rn_dirs : forall m c', is_inode m -> is_dir cx d m = true -> m <> n -> m <> i -> dir_lookup cx d' F' m c' = dir_lookup cx d F m c';
  rn_is_dir : forall m, is_inode m -> m <> i -> is_dir cx d' m = is_dir cx d m;
  rn_nodes : (F' i).2 = [] -> (F' i).1 = [];
  rn_dots : forall m, is_inode m -> is_dir cx d m = true -> m <> i -> dotdot_first d F m -> dotdot_first d' F' m;
  rn_bits : forall m, is_inode m -> inode_bit cx d' m = if m =? i then bool_decide (is_Some to) else inode_bit cx d m
}.

Lemma renamed_nodes d d' F F' n c i to : fs_ok d F -> renamed d d' F F' n c i to ->
  forall m, is_inode m -> (F' m).2 = [] -> (F' m).1 = [].
Proof.
  intros Hfs Hrn m Hm. destruct (decide (m = i)) as [->|Hne]; [apply Hrn|]. rewrite (rn_map _ _ _ _ _ _ _ _ Hrn) by done.
  by apply (fs_nodes _ _ Hfs).
Qed.

(** Removing a name and the inode it leads to. *)
Lemma fs_unlinked d d' F F' n c m : fs_ok d F -> edge d F n c m -> proper c -> m <> root -> n <> m ->
  (forall c' x, proper c' -> ~ edge d F m c' x) -> F' m = ([], []) -> is_dir cx d' m = false ->
  renamed d d' F F' n c m None -> fs_ok d' F'.
Proof.
  intros Hfs He Hp Hr Hnm Hno HF' Hdm Hrn. pose proof Hrn as [Hf Ht HFF Hname Hnames Hdirs Hisd _ Hdot Hb].
  split; try done.
  - intros k Hk Hbk. rewrite Hb in Hbk by done. destruct (Z.eqb_spec k m) as [->|Hne]; [done|]. rewrite HFF, Hisd by done. by apply (fs_free _ _ Hfs).
  - eapply names_ok_ext; [| |apply (names_unlink _ _ _ n c m (fs_names _ _ Hfs) (edge_ne d F) He Hp Hr Hno)]; [|exact Hb].
    intros k c' x. unfold unlinked, edge. destruct (decide (k = m)) as [->|Hkm]; [rewrite Hdm; split; [by intros (_ & ? & _)|by intros (_ & ? & _)]|].
    destruct (decide (k = n)) as [->|Hkn]; [destruct (decide (c' = c)) as [->|Hcc]|].
    + rewrite Hname. split; [by intros (_ & _ & _ & ?)|]. intros (_ & _ & H). by destruct H.
    + split.
      * intros (Hk & Hd & Hc' & Hl). rewrite Hisd in Hd by done. rewrite Hnames in Hl by done. split; [done|]. split; [done|]. by intros [_ ?].
      * intros ((Hk & Hd & Hc' & Hl) & _). rewrite Hisd, Hnames by done. done.
    + split.
      * intros (Hk & Hd & Hc' & Hl). rewrite Hisd in Hd by done. rewrite Hdirs in Hl by done. split; [done|]. split; [done|]. by intros [? _].
      * intros ((Hk & Hd & Hc' & Hl) & _). rewrite Hisd, Hdirs by done. done.
  - by apply (renamed_nodes d d' F F' n c m None).
  - intros k Hk Hlt. rewrite Hb by done. destruct (k =? m); [done|]. by apply (fs_reserved _ _ Hfs).
  - intros k Hk Hdk Hkr. destruct (decide (k = m)) as [->|Hne]; [congruence|]. rewrite Hisd in Hdk by done.
    apply Hdot; [done|done|done|by apply (fs_dots _ _ Hfs)].
Qed.

(** Adding a name for an inode that was free. *)
Lemma fs_linked d d' F F' n c i : fs_ok d F -> is_inode n -> is_dir cx d n = true -> proper c -> dir_lookup cx d F n c = None ->
  is_inode i -> inode_bit cx d i = false -> 3 <= i ->
  (is_dir cx d' i = true -> forall c' x, c' <> [] -> dir_lookup cx d' F' i c' = Some x <-> (c' = dot /\ x = i \/ c' = dotdot /\ x = n)) ->
  (is_dir cx d' i = true -> dotdot_first d' F' i) ->
  renamed d d' F F' n c i (Some i) -> fs_ok d' F'.
Proof.
  intros Hfs Hn Hdn Hp Hnone Hi Hbi Hi3 Hdots Hnewdot Hrn. pose proof Hrn as [Hf Ht HFF Hname Hnames Hdirs Hisd _ Hdot Hb].
  pose proof (dir_used d F n Hfs Hn Hdn) as Hun. assert (Hni : n <> i) by congruence.
  destruct (fs_free _ _ Hfs i Hi Hbi) as [HFi Hdi].
  split; try done.
  - intros k Hk Hbk. rewrite Hb in Hbk by done. destruct (Z.eqb_spec k i) as [->|Hne]; [done|]. rewrite HFF, Hisd by done. by apply (fs_free _ _ Hfs).
  - eapply names_ok_ext; [| |apply (names_link _ _ _ n c i (is_dir cx d' i) (fs_names _ _ Hfs) Hp)]; try done.
    + intros k c' x. unfold linked, edge. destruct (decide (k = i)) as [->|Hki].
      * split.
        -- intros (_ & Hd & Hc' & Hl). right; right. split; [done|]. split; [done|]. by apply (Hdots Hd c' x Hc').
        -- intros [(_ & Hd & _)|[(? & _)|(Hd & _ & Hl)]]; [congruence|congruence|].
           assert (Hc' : c' <> []) by (by destruct Hl as [[-> _]|[-> _]]). split; [done|]. split; [done|]. split; [done|]. by apply (Hdots Hd c' x Hc').
      * destruct (decide (k = n)) as [->|Hkn]; [destruct (decide (c' = c)) as [->|Hcc]|].
        -- rewrite Hname, Hnone, Hisd by done. split; [intros (_ & _ & _ & [= <-]); right; by left|].
           intros [(_ & _ & _ & ?)|[(_ & _ & ->)|(_ & ? & _)]]; [done| |done]. split; [done|]. split; [done|]. split; [by destruct Hp|done].
        -- rewrite Hisd by done. split; [intros (Hk & Hd & Hc' & Hl); rewrite Hnames in Hl by done; by left|].
           intros [(Hk & Hd & Hc' & Hl)|[(_ & ? & _)|(_ & ? & _)]]; [|done..]. by rewrite Hnames by done.
        -- split; [intros (Hk & Hd & Hc' & Hl); rewrite Hisd in Hd by done; rewrite Hdirs in Hl by done; by left|].
           intros [(Hk & Hd & Hc' & Hl)|[(? & _)|(_ & ? & _)]]; [|done..]. by rewrite Hisd, Hdirs by done.
    + intros x (_ & _ & _ & H). congruence.
    + intros c' x. by apply no_edges.
    + change root with 2. lia.
  - by apply (renamed_nodes d d' F F' n c i (Some i)).
  - intros k Hk Hlt. rewrite Hb by done. destruct (Z.eqb_spec k i) as [->|_]; [lia|]. by apply (fs_reserved _ _ Hfs).
  - intros k Hk Hdk Hkr. destruct (decide (k = i)) as [->|Hne]; [by apply Hnewdot|]. rewrite Hisd in Hdk by done.
    apply Hdot; [done|done|done|by apply (fs_dots _ _ Hfs)].
Qed.

(** ** Creating a file *)

(** The mode of a new file. *)
Definition new_mode (mode : Z) : Z := u16 (Z.lor MOFS_FTYPE_REG (perm_bits mode)).

Lemma new_mode_reg mode : has_flag (new_mode mode) MOFS_FTYPE_DIR = false.
Proof.
  unfold has_flag, new_mode, u16, perm_bits. rewrite <- Z.land_ones by lia.
  assert (Hz : Z.land (Z.land (Z.lor MOFS_FTYPE_REG (Z.land mode 0x1FF)) (Z.ones 16)) MOFS_FTYPE_DIR = 0).
  { rewrite <- Z.land_assoc. change (Z.land (Z.ones 16) MOFS_FTYPE_DIR) with MOFS_FTYPE_DIR.
    rewrite Z.land_lor_distr_l, <- Z.land_assoc. change (Z.land 0x1FF MOFS_FTYPE_DIR) with 0. rewrite Z.land_0_r. done. }
  by rewrite Hz.
Qed.

Definition user_fits (u : mofs_user_ctx_t) : Prop := 0 <= uid u < 2 ^ 32 /\ 0 <= gid u < 2 ^ 32.

Definition new_inode (t mode : Z) (u : mofs_user_ctx_t) : mofs_inode_t :=
  stamp_times t MOFS_INODE_TIME_ALL (mkInode 0 1 (new_mode mode) (uid u) (gid u) 0 0 0 0 0 (zeros 16)).

Lemma new_inode_fits t mode u : 0 <= t < 2 ^ 64 -> user_fits u -> inode_fits (new_inode t mode u).
Proof.
  intros Ht [Hu Hg]. apply stamp_times_fits; [done|]. constructor; simpl; try done. apply Z.mod_pos_bound. lia.
Qed.

(** [d'] is [d] with the free inode [i] taken and filled in; no name leads to
    it yet. *)
Record taken (d d' : disk) (F F' : files) (i : Z) : Prop := {
  tk_ok : disk_ok cx nblk d';
  tk_files : vol_files d' F';
  tk_tree : tree_ok d' F';
  tk_map : forall m, m <> i -> F' m = F m;
  tk_nodes : (F' i).2 = [] -> (F' i).1 = [];
  tk_others : forall m, is_inode m -> m <> i -> same_file cx d d' F m;
  tk_is_dir : forall m, is_inode m -> m <> i -> is_dir cx d' m = is_dir cx d m;
  tk_lookup : forall m c, is_inode m -> m <> i -> dir_lookup cx d' F' m c = dir_lookup cx d F m c;
  tk_bits : forall m, is_inode m -> inode_bit cx d' m = if m =? i then true else inode_bit cx d m
}.

(** Marking the inode and writing its record, without blocks. *)
Lemma take_inode d F i inode : fs_ok d F -> disk_ok cx nblk d -> is_inode i -> inode_bit cx d i = false ->
  inode_fits inode -> i_data_head inode = 0 -> i_nr_blocks inode = 0 -> i_size inode = 0 ->
  let d' := put_inode cx (put_inode_bit cx d i true) i inode in
  taken d d' F F i /\ inode_at cx d' i = inode.
Proof.
  intros Hfs Hd Hi Hbit Hfit Hh Hr Hsz d2. destruct (fs_free _ _ Hfs i Hi Hbit) as [HFi Hdi].
  set (d1 := put_inode_bit cx d i true) in *.
  assert (Hd1 : disk_ok cx nblk d1) by (by apply (disk_ok_put_inode_bit cx nblk Hvol)).
  assert (HF1 : vol_files d1 F) by (apply (put_inode_bit_files cx nblk Hvol); [apply Hfs|done]).
  assert (HF2 : vol_files d2 F) by (by apply put_empty_files).
  assert (Hat : inode_at cx d2 i = inode).
  { unfold d2. rewrite (inode_at_put cx nblk Hvol) by done. by rewrite Z.eqb_refl. }
  assert (Hs : forall m, is_inode m -> m <> i -> same_file cx d d2 F m).
  { intros m Hm Hne. eapply same_file_trans; [by apply (put_inode_bit_same_file cx nblk Hvol d i true); [apply Hfs|..]|].
    by apply (put_inode_same cx nblk Hvol). }
  assert (Hir : i <> root) by (intros ->; pose proof (to_root_dir _ _ _ _ (fs_tree _ _ Hfs)); congruence).
  assert (Hes : dir_entries cx d2 i (F i).2 = []) by (unfold dir_entries; by rewrite Hat, Hsz).
  destruct (tree_replace d d2 F F i (fs_tree _ _ Hfs) HF2) as (Ht & Hdd & Hl); try done.
  { intros Hdir. rewrite Hes. split; [split; [done|by apply HF2|]|].
    - unfold covers. rewrite Hat, Hsz. pose proof (bs_range cx nblk Hvol). apply Z.mul_nonneg_nonneg; lia.
    - split; [intros e He; by apply elem_of_nil in He|]. intros k k' e f Hk. by rewrite lookup_nil in Hk. }
  split; [|done]. split; try done.
  - apply (disk_ok_put_inode cx nblk Hvol); [done|done|apply Hfit].
  - by rewrite HFi.
  - intros m Hm. unfold d2. rewrite inode_bit_put_inode by done. apply (inode_bit_put cx nblk Hvol); [done|done|lia].
Qed.

(** Naming the inode that was taken. *)
Lemma renamed_add d d2 d3 F F2 n c i : fs_ok d F -> taken d d2 F F2 i -> is_inode n -> is_dir cx d n = true -> is_inode i -> 0 < i -> n <> i ->
  c <> [] -> no_nul c = true -> blen c < 28 -> dir_lookup cx d F n c = None ->
  dir_changed cx nblk d2 d3 F2 n (add_entry (new_dirent c i) (dir_entries cx d2 n (F2 n).2)) ->
  renamed d d3 F F2 n c i (Some i) /\ (forall m, is_inode m -> m <> n -> m <> i -> same_file cx d d3 F m) /\
  inode_at cx d3 i = inode_at cx d2 i /\ dir_entries cx d3 i (F2 i).2 = dir_entries cx d2 i (F2 i).2.
Proof.
  intros Hfs [Hd2 HF2 Ht2 HFF Hnodes Hs Hdd Hl Hb] Hn Hdir Hi Hi0 Hni Hc Hnul Hlen Hnone Hch. pose proof (vo_inodes _ _ Hvol) as Hin.
  assert (Hdir2 : is_dir cx d2 n = true) by (by rewrite Hdd). pose proof (to_entries _ _ _ _ Ht2 n Hn Hdir2) as Hwf.
  assert (Hdup : existsb (entry_dup c) (dir_entries cx d2 n (F2 n).2) = false).
  { rewrite (wf_dup cx) by done. specialize (Hl n c Hn Hni). rewrite Hnone in Hl. unfold dir_lookup in Hl. by destruct (List.find _ _). }
  assert (Hwf' : dir_wf cx (add_entry (new_dirent c i) (dir_entries cx d2 n (F2 n).2))) by (apply add_wf; try done; lia).
  assert (Hse : forall m, is_inode m -> m <> n -> is_dir cx d3 m = is_dir cx d2 m) by
    (intros m Hm Hne; by apply (same_entries cx nblk d2 d3 F2 m (dc_files _ _ _ _ _ _ _ Hch) Hm (dc_others _ _ _ _ _ _ _ Hch m Hm Hne))).
  split; [split|split; [|split]]; try done.
  - apply Hch.
  - exact (tree_changed cx nblk d2 d3 F2 n _ Ht2 Hn Hdir2 Hch Hwf').
  - unfold dir_lookup. rewrite (dc_entries _ _ _ _ _ _ _ Hch), (add_find_same cx) by (try done; lia). cbn [fmap option_fmap option_map].
    f_equal. apply (new_dirent_inode cx); lia.
  - intros c' Hc' Hne. rewrite <- (Hl n c' Hn Hni). unfold dir_lookup. by rewrite (dc_entries _ _ _ _ _ _ _ Hch), (add_find_other cx) by (try done; lia).
  - intros m c' Hm Hdm Hne Hne'. rewrite (lookup_changed_other cx nblk d2 d3 F2 n _ m c' Hch Hm Hne). by apply Hl.
  - intros m Hm Hne. destruct (decide (m = n)) as [->|Hmn]; [by rewrite (changed_is_dir cx nblk d2 d3 F2 n _ Hch), Hdd|]. by rewrite Hse, Hdd.
  - intros m Hm Hdm Hne Hdot. assert (Hdot2 : dotdot_first d2 F2 m).
    { eapply dotdot_first_ext; [|exact Hdot]. rewrite <- (HFF m Hne). apply (same_entries cx nblk d d2 F2 m HF2 Hm).
      destruct (Hs m Hm Hne) as [? Hbb]. split; [done|]. intros b. unfold file_blocks. rewrite (HFF m Hne). apply Hbb. }
    destruct (decide (m = n)) as [->|Hmn]; [by eapply dotdot_first_add; [|apply (dc_entries _ _ _ _ _ _ _ Hch)|]|].
    eapply dotdot_first_ext; [|exact Hdot2].
    by destruct (same_entries cx nblk d2 d3 F2 m (dc_files _ _ _ _ _ _ _ Hch) Hm (dc_others _ _ _ _ _ _ _ Hch m Hm Hmn)) as (_ & -> & _).
  - intros m Hm. rewrite (inode_bit_low d2 d3 m (dc_low _ _ _ _ _ _ _ Hch) Hm). by apply Hb.
  - intros m Hm Hne1 Hne2. eapply same_file_trans; [by apply Hs|]. destruct (dc_others _ _ _ _ _ _ _ Hch m Hm Hne1) as [Hi' Hb'].
    split; [done|]. intros b. unfold file_blocks. rewrite <- (HFF m Hne2). apply Hb'.
  - by destruct (dc_others _ _ _ _ _ _ _ Hch i Hi (not_eq_sym Hni)) as [-> _].
  - apply (same_entries cx nblk d2 d3 F2 i (dc_files _ _ _ _ _ _ _ Hch) Hi), (dc_others _ _ _ _ _ _ _ Hch); congruence.
Qed.

(** [name] was added to the directory [n] as a new file, the inode [i]. *)
Record created (d d' : disk) (F : files) (n : Z) (name : cstr) (i : Z) (inode : mofs_inode_t) : Prop := {
  cr_fs : fs_ok d' F;
  cr_names : renamed d d' F F n name i (Some i);
  cr_others : forall m, is_inode m -> m <> n -> m <> i -> same_file cx d d' F m;
  cr_inode : inode_at cx d' i = inode
}.

(** The path leads to a place without an entry: the walk along all but the last
    name [c] ends in the directory [n], which has no [c]. *)
Definition missing_at (u : mofs_user_ctx_t) (d : disk) (F : files) (p : cstr) (n : Z) (c : cstr) : Prop :=
  exists front, strtok_slash p = front ++ [c] /\ walk cx true u d F root front = Ok n /\
    step cx true u d F n c = Err MOFS_ENOENT /\ blen c < MOFS_FILENAME_LEN.

(** The path leads to the inode [m], under the name [c] in the directory [n]. *)
Definition found_at (u : mofs_user_ctx_t) (d : disk) (F : files) (p : cstr) (n : Z) (c : cstr) (m : Z) : Prop :=
  exists front, strtok_slash p = front ++ [c] /\ walk cx true u d F root front = Ok n /\
    step cx true u d F n c = Ok m /\ blen c < MOFS_FILENAME_LEN.

Lemma walk_inode u d F names : tree_ok d F -> Forall (fun c => c <> []) names ->
  forall n m, is_inode n -> walk cx true u d F n names = Ok m -> is_inode m.
Proof.
  intros Ht. induction 1 as [|c names Hc _ IH]; intros n m Hn Hw; cbn [walk] in Hw; [by simplify_eq|].
  destruct (step cx true u d F n c) as [k|e|] eqn:Hs; [|done|done]. eapply IH; [|exact Hw].
  exact (step_inode cx nblk d F u n c k Ht Hn Hc Hs).
Qed.

Lemma tokens_split p front c : strtok_slash p = front ++ [c] -> Forall (fun c => c <> []) front /\ c <> [].
Proof.
  intros Hp. destruct (strtok_from_tokens [] p (not_elem_of_nil _)) as [Htok _]. fold (strtok_slash p) in Htok. rewrite Hp in Htok.
  apply Forall_app in Htok as [Hfr Hlf]. rewrite Forall_singleton in Hlf. split; [|apply Hlf].
  eapply Forall_impl; [exact Hfr|]. by intros x [Hx _].
Qed.

Lemma step_dir u d F n c : tree_ok d F -> (forall e, step cx true u d F n c = Err e -> e = MOFS_ENOENT) -> step cx true u d F n c <> Stuck ->
  is_dir cx d n = true /\ step cx true u d F n c = match dir_lookup cx d F n c with Some m => Ok m | None => Err MOFS_ENOENT end.
Proof.
  intros Ht He Hs. unfold step in *. pose proof (enter_dir cx nblk u d F n Ht) as Hd.
  destruct (enter cx true u d n) as [[]|e|] eqn:Hen; [split; [by apply Hd|done]| |done].
  exfalso. specialize (He e eq_refl). subst e. unfold enter in Hen. cbn [negb] in Hen.
  repeat case_match; unfold MOFS_ENOENT, MOFS_ENOTDIR, MOFS_EACCES in *; congruence.
Qed.

Lemma missing_facts u d F p n c : tree_ok d F -> missing_at u d F p n c ->
  is_inode n /\ is_dir cx d n = true /\ c <> [] /\ blen c < 28 /\ dir_lookup cx d F n c = None /\
  path_info cx resolve_new u d F p = Ok (mkPathInfo n (-1) false c).
Proof.
  intros Ht (front & Hp & Hw & Hs & Hl). destruct (tokens_split p front c Hp) as [Hfr Hc].
  destruct (step_dir u d F n c Ht) as [Hdir Hst]; [congruence|congruence|]. rewrite Hs in Hst.
  assert (Hn : is_inode n) by (eapply (walk_inode u d F front Ht Hfr root n); [apply Ht|done]).
  assert (Hl28 : blen c < 28) by exact Hl. do 4 (split; [done|]). split; [|].
  - by destruct (dir_lookup cx d F n c).
  - unfold path_info. rewrite Hp, rev_app_distr. cbn [rev app]. rewrite rev_involutive.
    change (has_flag resolve_new MOFS_PATH_CHECK_ACCESS) with true. rewrite Hw. unfold leaf_info.
    rewrite (proj2 (Z.leb_gt _ _)) by done. change (has_flag resolve_new MOFS_PATH_RESOLVE_PARENT) with true.
    change (has_flag resolve_new MOFS_PATH_RESOLVE_INODE) with true. change (has_flag resolve_new MOFS_PATH_CHECK_ACCESS) with true.
    cbn [negb]. by rewrite Hs.
Qed.

Lemma found_info flags u d F p n c m : has_flag flags MOFS_PATH_CHECK_ACCESS = true -> has_flag flags MOFS_PATH_RESOLVE_PARENT = true ->
  has_flag flags MOFS_PATH_RESOLVE_INODE = true -> found_at u d F p n c m -> path_info cx flags u d F p = Ok (mkPathInfo n m true c).
Proof.
  intros Hf1 Hf2 Hf3 (front & Hp & Hw & Hs & Hl). unfold path_info. rewrite Hp, rev_app_distr. cbn [rev app]. rewrite rev_involutive, Hf1, Hw.
  unfold leaf_info. rewrite (proj2 (Z.leb_gt _ _)), Hf2, Hf3, Hf1 by done. cbn [negb]. by rewrite Hs.
Qed.

Lemma found_facts u d F p n c m : tree_ok d F -> found_at u d F p n c m ->
  is_inode n /\ is_dir cx d n = true /\ c <> [] /\ blen c < 28 /\ dir_lookup cx d F n c = Some m /\ is_inode m /\
  path_info cx resolve_old u d F p = Ok (mkPathInfo n m true c).
Proof.
  intros Ht Hfound. pose proof (found_info resolve_old u d F p n c m eq_refl eq_refl eq_refl Hfound) as Hpi.
  destruct Hfound as (front & Hp & Hw & Hs & Hl). destruct (tokens_split p front c Hp) as [Hfr Hc].
  destruct (step_dir u d F n c Ht) as [Hdir Hst]; [congruence|congruence|]. rewrite Hs in Hst.
  assert (Hn : is_inode n) by (eapply (walk_inode u d F front Ht Hfr root n); [apply Ht|done]).
  assert (Hl28 : blen c < 28) by exact Hl. do 4 (split; [done|]). split; [|split; [|done]].
  - destruct (dir_lookup cx d F n c); congruence.
  - exact (step_inode cx nblk d F u n c m Ht Hn Hc Hs).
Qed.

(** The check that the caller may change the directory. *)
Lemma wp_check_dir_write inode Q a : u_valid (a_caller a) = true ->
  Q (if may_write (a_caller a) inode && may_exec (a_caller a) inode then Ok tt else Err MOFS_EACCES) a ->
  wp cx nblk (mofs_check_dir_write (a_caller a) inode) Q a.
Proof.
  intros Hu HQ. unfold mofs_check_dir_write. apply wp_bind, wp_check_open_permission; [done|]. unfold open_permission.
  change (open_perm_flags MOFS_OFLAG_WRONLY) with (Ok MOFS_OFLAG_WRONLY). cbn [res_bind].
  destruct (perm_denied_spec (a_caller a) inode) as (_ & -> & _).
  destruct (may_write (a_caller a) inode); [|exact HQ]. wp_simpl. cbn [negb]. by apply wp_check_dir_traverse.
Qed.

(** A directory to which a name can be added without growing it. *)
Record has_room (d : disk) (F : files) (n : Z) : Prop := {
  hr_whole : i_size (inode_at cx d n) mod 32 = 0;
  hr_limit : entry_num cx d n < 1024 * (bs / 32);
  hr_room : entry_room cx d n (dir_entries cx d n (F n).2)
}.

(** What a caller needs to change the directory [n] by the path [p]. *)
Record path_call (a : astate) (F : files) (p : cstr) (n : Z) : Prop := {
  pc_disk : disk_ok cx nblk (a_disk a);
  pc_fs : fs_ok (a_disk a) F;
  pc_user : u_valid (a_caller a) = true;
  pc_fits : user_fits (a_caller a);
  pc_len : blen p < 2 ^ 32;
  pc_abs : head p = Some slash;
  pc_root : p <> [slash];
  pc_write : may_write (a_caller a) (inode_at cx (a_disk a) n) && may_exec (a_caller a) (inode_at cx (a_disk a) n) = true
}.

(** [mofs_create_core] for a name that is not there. *)
Lemma wp_create F p n c mode Q a : let d := a_disk a in let u := a_caller a in
  path_call a F p n -> missing_at u d F p n c -> no_nul c = true -> is_dot_or_dotdot_name c = false -> has_room d F n ->
  (free_inodes cx d = [] -> Q (Err MOFS_ENOSPC) a) ->
  (forall i r t d', free_inodes cx d = i :: r -> 0 <= t < 2 ^ 64 -> disk_ok cx nblk d' -> created d d' F n c i (new_inode t mode u) -> Q (Ok i) (set_disk d' a)) ->
  wp cx nblk (mofs_create_core cx (Some p) mode) Q a.
Proof.
  intros d u [Hd Hfs Hu Huf Hl Habs Hroot Hw] Hmiss Hnul Hdots [Hmod Hlim Hroom] Hfull HQ.
  destruct (missing_facts u d F p n c (fs_tree _ _ Hfs) Hmiss) as (Hn & Hdir & Hc & Hlen & Hnone & Hpi).
  unfold mofs_create_core. apply wp_bind, (wp_resolve_path cx nblk Hvol resolve_new eq_refl F); try done; [apply Hfs|].
  fold d u. rewrite Hpi. wp_simpl. cbn [leaf_found leaf_name parent_inode_num].
  apply wp_bind, wp_require_caller; [done|]. wp_simpl.
  apply wp_bind, (wp_read_inode cx nblk Hvol); [done|done|]. wp_simpl.
  apply wp_bind, wp_check_dir_write; [done|]. rewrite Hw. wp_simpl.
  apply wp_bind, (wp_allocate_inode cx nblk Hvol); [done|exact Hfull|]. intros i r Hi. wp_simpl.
  assert (Hin : i ∈ free_inodes cx d) by (fold d in Hi; rewrite Hi; left). apply (elem_of_free_inodes cx nblk Hvol) in Hin as [Hir Hib].
  assert (Hii : is_inode i) by lia. fold d in Hi |- *.
  apply wp_bind, wp_on_error, wp_bind, wp_stamp_now; [done|]. intros t Ht. wp_simpl.
  match goal with |- context [stamp_times t ?m ?x] => change (stamp_times t m x) with (new_inode t mode u) end. set (inode := new_inode t mode u).
  assert (Hfit : inode_fits inode) by (by apply new_inode_fits).
  destruct (take_inode d F i inode Hfs Hd Hii Hib Hfit eq_refl eq_refl eq_refl) as [Htk Hat]. pose proof Htk as [Hd2 HF2 Ht2 _ _ Hs Hdd Hlk Hb].
  set (d2 := put_inode cx (put_inode_bit cx d i true) i inode) in *.
  apply wp_bind, (wp_write_inode cx nblk Hvol); [by apply (disk_ok_put_inode_bit cx nblk Hvol)|done|apply Hfit|]. wp_simpl. cbn [a_disk set_disk]. fold d2.
  assert (Hni : n <> i) by (intros ->; by rewrite (dir_used d F i) in Hib). assert (Hdn : is_dir cx d2 n = true) by (by rewrite Hdd).
  assert (Hino : inode_at cx d2 n = inode_at cx d n) by apply (Hs n Hn Hni).
  pose proof (to_entries _ _ _ _ Ht2 n Hn Hdn) as Hwf. pose proof (vo_inodes _ _ Hvol) as Hmaxi.
  apply (wp_add_dir_entry cx nblk Hvol c i F n); cbn [a_disk set_disk]; try fold d2; try done.
  - by apply (to_dir _ _ _ _ Ht2).
  - by rewrite Hino.
  - unfold entry_num in *. by rewrite Hino.
  - lia.
  - assert (Hdup : existsb (entry_dup c) (dir_entries cx d2 n (F n).2) = false).
    { rewrite (wf_dup cx) by done. specialize (Hlk n c Hn Hni). rewrite Hnone in Hlk. unfold dir_lookup in Hlk. by destruct (List.find _ _). }
    destruct (same_entries cx nblk d d2 F n HF2 Hn (Hs n Hn Hni)) as (_ & Hes & _).
    rewrite Hdup. split; [unfold entry_room in *; by rewrite Hino, Hes|]. intros d3 Hch. wp_simpl. apply wp_ret.
    destruct (renamed_add d d2 d3 F F n c i Hfs Htk Hn Hdir Hii ltac:(lia) Hni Hc Hnul Hlen Hnone Hch) as (Hrn & Hoth & Hi3 & _).
    apply (HQ i r t d3 Hi Ht); [apply Hch|]. split; [|done|done|by rewrite Hi3].
    assert (Hreg : is_dir cx d3 i = false) by (unfold is_dir; rewrite Hi3, Hat; exact (new_mode_reg mode)).
    by apply (fs_linked d d3 F F n c i Hfs Hn Hdir); try done; [lia|rewrite Hreg..].
Qed.

(** ** Removing a file *)

(** All blocks of the file [m] were released. *)
Record emptied (d d' : disk) (F : files) (m : Z) : Prop := {
  em_ok : disk_ok cx nblk d';
  em_files : vol_files d' (set_file F m ([], []));
  em_others : forall k, is_inode k -> k <> m -> same_file cx d d' F k;
  em_low : forall b, 0 <= b < data_bitmap_start sb -> d' b = d b;
  em_mode : is_dir cx d' m = is_dir cx d m
}.

Lemma wp_free_all F m Q a : let d := a_disk a in
  disk_ok cx nblk d -> vol_files d F -> is_inode m -> ((F m).2 = [] -> (F m).1 = []) ->
  (forall d', emptied d d' F m -> Q (Ok tt) (set_disk d' a)) ->
  wp cx nblk (if 0 <? i_nr_blocks (inode_at cx d m) then free_data_block cx m 0 (i_nr_blocks (inode_at cx d m)) else mret tt) Q a.
Proof.
  intros d Hd HF Hm Hnodes HQ. pose proof (vf_map _ _ _ _ HF m Hm) as Hfm. rewrite (fm_nr _ _ _ _ _ _ Hfm).
  destruct (Z.ltb_spec 0 (blen (F m).2)) as [Hlt|Hge].
  - assert (Hne : (F m).2 <> []) by (intros He; rewrite He in Hlt; simpl in Hlt; lia).
    assert (Hp : (F m).2 = [] ++ (F m).2 ++ []) by (by rewrite app_nil_r).
    pose proof (cap_pos cx nblk Hvol) as (Hcap & _). assert (Hz : ceil_div 0 (list_ptrs_cap cx) = 0) by (unfold ceil_div; apply Z.div_small; lia).
    change 0 with (blen (@nil Z)). apply (wp_free_shrink cx nblk Hvol m (F m).1 [] (F m).2 []); try done.
    + cbn [app]. by rewrite app_nil_r.
    + by left.
    + change (blen ([] ++ [])) with 0. rewrite Hz. lia.
    + intros d' nodes' Hs. cbn [app] in Hs. assert (nodes' = []) as ->.
      { pose proof (sh_nodes _ _ _ _ _ _ _ _ _ Hs) as Hn. change (blen (@nil Z)) with 0 in Hn. rewrite Hz in Hn. destruct nodes'; [done|simpl in Hn; lia]. }
      apply HQ. split.
      * apply (os_ok _ _ _ _ _ (sh_others _ _ _ _ _ _ _ _ _ Hs)).
      * by apply (shrunk_files cx nblk Hvol d d' F m [] [] (F m).2 []).
      * intros k Hk Hne'. by apply (shrunk_same cx nblk d d' F m [] [] (F m).2 k).
      * apply (os_low _ _ _ _ _ (sh_others _ _ _ _ _ _ _ _ _ Hs)).
      * unfold is_dir. by rewrite (sh_inode _ _ _ _ _ _ _ _ _ Hs).
  - assert (He : (F m).2 = []) by (destruct (F m).2; [done|simpl in Hge; lia]).
    apply wp_ret. rewrite <- (set_disk_id a). apply HQ. split; try done.
    apply (vol_files_ext cx nblk d F); [done|]. intros k. unfold set_file. destruct (Z.eqb_spec k m) as [->|]; [|done].
    rewrite (surjective_pairing (F m)), He, Hnodes by done. done.
Qed.

(** The inode [m] was released with its blocks. *)
Record released_inode (d d' : disk) (F : files) (m : Z) : Prop := {
  ri_ok : disk_ok cx nblk d';
  ri_files : vol_files d' (set_file F m ([], []));
  ri_tree : tree_ok d' (set_file F m ([], []));
  ri_inode : inode_at cx d' m = zero_inode;
  ri_others : forall k, is_inode k -> k <> m -> same_file cx d d' F k;
  ri_is_dir : forall k, is_inode k -> k <> m -> is_dir cx d' k = is_dir cx d k;
  ri_lookup : forall k c, is_inode k -> k <> m -> dir_lookup cx d' (set_file F m ([], [])) k c = dir_lookup cx d F k c;
  ri_bits : forall k, is_inode k -> inode_bit cx d' k = if k =? m then false else inode_bit cx d k
}.

Lemma emptied_freed d d2 F m : tree_ok d F -> is_inode m -> m <> root -> emptied d d2 F m ->
  released_inode d (put_inode cx (put_inode_bit cx d2 m false) m zero_inode) F m.
Proof.
  intros Ht Hm Hmr [Hd2 HF2 Ho Hlow Hmode]. set (F' := set_file F m ([], [])) in *. set (d3 := put_inode _ _ _ _).
  assert (HFF : forall k, k <> m -> F' k = F k) by (intros k Hk; by apply set_file_ne). set (e := put_inode_bit cx d2 m false) in *.
  assert (He : disk_ok cx nblk e) by (by apply (disk_ok_put_inode_bit cx nblk Hvol)).
  assert (HFe : vol_files e F') by (by apply (put_inode_bit_files cx nblk Hvol)).
  assert (HF3 : vol_files d3 F') by (apply (clear_inode_files cx nblk Hvol); try done; apply set_file_eq).
  assert (Hat : inode_at cx d3 m = zero_inode) by (unfold d3; rewrite (inode_at_put cx nblk Hvol) by (try done; apply zero_inode_fits); by rewrite Z.eqb_refl).
  assert (Hs : forall k, is_inode k -> k <> m -> same_file cx d d3 F k).
  { intros k Hk Hne. eapply same_file_trans; [by apply Ho|]. apply (same_file_set cx d2 d3 F m ([], []) k Hne).
    eapply same_file_trans; [by apply (put_inode_bit_same_file cx nblk Hvol d2 m false)|]. by apply (put_inode_same cx nblk Hvol). }
  assert (Hnd3 : is_dir cx d3 m = false) by (unfold is_dir; by rewrite Hat).
  destruct (tree_replace d d3 F F' m Ht HF3) as (Ht3 & Hdd & Hl); try done; [by rewrite Hnd3|].
  split; try done; [apply (disk_ok_put_inode cx nblk Hvol); [done|done|apply zero_inode_fits]|].
  intros k Hk. unfold d3. rewrite inode_bit_put_inode by done. unfold e. rewrite (inode_bit_put cx nblk Hvol) by (done || lia).
  destruct (k =? m); [done|]. by apply inode_bit_low.
Qed.

(** The entry of [m] was removed from [n], then [m] was released. *)
Lemma renamed_remove d d1 d3 F n c m j : tree_ok d F -> is_inode n -> is_dir cx d n = true -> n <> m -> c <> [] -> c <> dotdot ->
  find_idx (live_named c) (dir_entries cx d n (F n).2) = Some j ->
  dir_changed cx nblk d d1 F n (<[j := zero_dirent]> (dir_entries cx d n (F n).2)) -> released_inode d1 d3 F m ->
  renamed d d3 F (set_file F m ([], [])) n c m None /\ (forall k, is_inode k -> k <> n -> k <> m -> same_file cx d d3 F k).
Proof.
  intros Ht Hn Hdir Hnm Hc Hcd Hj Hch [_ HF3 Ht3 Hat Hs Hdd Hl3 Hb3]. set (F' := set_file F m ([], [])) in *.
  pose proof (to_entries _ _ _ _ Ht n Hn Hdir) as Hwf. pose proof (dc_files _ _ _ _ _ _ _ Hch) as HF1.
  split; [split|]; try done.
  - intros k Hk. by apply set_file_ne.
  - rewrite Hl3 by done. unfold dir_lookup. by rewrite (dc_entries _ _ _ _ _ _ _ Hch), (remove_find_same cx _ c j).
  - intros c' Hc' Hne. rewrite Hl3 by done. unfold dir_lookup. by rewrite (dc_entries _ _ _ _ _ _ _ Hch), (remove_find_other cx _ c j).
  - intros k c' Hk Hdk Hne Hkm. rewrite Hl3 by done. exact (lookup_changed_other cx nblk d d1 F n _ k c' Hch Hk Hne).
  - intros k Hk Hkm. rewrite Hdd by done. destruct (decide (k = n)) as [->|Hne]; [by apply (changed_is_dir cx nblk d d1 F n _ Hch)|].
    by destruct (same_entries cx nblk d d1 F k HF1 Hk (dc_others _ _ _ _ _ _ _ Hch k Hk Hne)) as (-> & _).
  - unfold F'. by rewrite set_file_eq.
  - intros k Hk Hdk Hne Hdot. assert (Hdot1 : dotdot_first d1 F k).
    { destruct (decide (k = n)) as [->|Hkn]; [by eapply dotdot_first_remove; [| |apply (dc_entries _ _ _ _ _ _ _ Hch)|]|].
      eapply dotdot_first_ext; [|exact Hdot].
      by destruct (same_entries cx nblk d d1 F k HF1 Hk (dc_others _ _ _ _ _ _ _ Hch k Hk Hkn)) as (_ & -> & _). }
    assert (HFk : F' k = F k) by (by apply set_file_ne). eapply dotdot_first_ext; [|exact Hdot1]. rewrite <- HFk.
    apply (same_entries cx nblk d1 d3 F' k HF3 Hk). destruct (Hs k Hk Hne) as [? Hbb]. split; [done|]. intros b. unfold file_blocks. rewrite HFk. apply Hbb.
  - intros k Hk. rewrite Hb3 by done. destruct (k =? m); [done|]. exact (inode_bit_low d d1 k (dc_low _ _ _ _ _ _ _ Hch) Hk).
  - intros k Hk Hne1 Hne2. eapply same_file_trans; [by apply (dc_others _ _ _ _ _ _ _ Hch)|]. by apply Hs.
Qed.

(** The name [c] of the inode [m] was removed from [n], and [m] with it. *)
Record removed (d d' : disk) (F : files) (n : Z) (c : cstr) (m : Z) : Prop := {
  re_fs : fs_ok d' (set_file F m ([], []));
  re_names : renamed d d' F (set_file F m ([], [])) n c m None;
  re_others : forall k, is_inode k -> k <> n -> k <> m -> same_file cx d d' F k;
  re_inode : inode_at cx d' m = zero_inode;
  (** the directory lost no slot *)
  re_slots : length (dir_entries cx d' n (F n).2) = length (dir_entries cx d n (F n).2);
  re_free : exists j e, dir_entries cx d' n (F n).2 !! j = Some e /\ entry_reusable e = true;
  re_whole : i_size (inode_at cx d n) mod 32 = 0 -> i_size (inode_at cx d' n) mod 32 = 0;
  re_access : same_access (inode_at cx d n) (inode_at cx d' n)
}.

Lemma removed_ok d d1 d3 F n c m j : fs_ok d F -> edge d F n c m -> proper c -> m <> root -> n <> m -> (forall c' x, proper c' -> ~ edge d F m c' x) ->
  find_idx (live_named c) (dir_entries cx d n (F n).2) = Some j ->
  dir_changed cx nblk d d1 F n (<[j := zero_dirent]> (dir_entries cx d n (F n).2)) -> released_inode d1 d3 F m ->
  removed d d3 F n c m.
Proof.
  intros Hfs He Hp Hr Hnm Hno Hj Hch Hri. pose proof He as (Hn & Hdir & Hc & _).
  destruct (renamed_remove d d1 d3 F n c m j (fs_tree _ _ Hfs) Hn Hdir Hnm Hc ltac:(intros ->; by apply proper_dotdot in Hp) Hj Hch Hri) as [Hrn Hoth].
  assert (Hnm' : same_file cx d1 d3 (set_file F m ([], [])) n).
  { destruct (ri_others _ _ _ _ Hri n Hn Hnm) as [? Hb]. split; [done|]. intros b. unfold file_blocks. rewrite set_file_ne by done. apply Hb. }
  destruct (same_entries cx nblk d1 d3 (set_file F m ([], [])) n (ri_files _ _ _ _ Hri) Hn Hnm') as (_ & Hes & _).
  rewrite set_file_ne, (dc_entries _ _ _ _ _ _ _ Hch) in Hes by done. destruct Hnm' as [Hino _].
  pose proof (find_idx_lt _ _ _ Hj) as Hlt. split; [|done|done|apply Hri|..].
  - apply (fs_unlinked d d3 F _ n c m Hfs He Hp Hr Hnm Hno); [apply set_file_eq| |done]. unfold is_dir. by rewrite (ri_inode _ _ _ _ Hri).
  - by rewrite Hes, length_insert.
  - exists j, zero_dirent. by rewrite Hes, list_lookup_insert_eq.
  - rewrite Hino. apply Hch.
  - rewrite Hino. by destruct (dc_inode _ _ _ _ _ _ _ Hch) as (sz & t & ->).
Qed.

(** [mofs_unlink_core] on the name of a file. *)
Lemma wp_unlink F p n c m Q a : let d := a_disk a in let u := a_caller a in
  path_call a F p n -> found_at u d F p n c m -> is_dir cx d m = false ->
  (forall d', disk_ok cx nblk d' -> removed d d' F n c m -> Q (Ok tt) (set_disk d' a)) ->
  wp cx nblk (mofs_unlink_core cx (Some p)) Q a.
Proof.
  intros d u [Hd Hfs Hu Huf Hl Habs Hroot Hw] Hfound Hnd HQ.
  destruct (found_facts u d F p n c m (fs_tree _ _ Hfs) Hfound) as (Hn & Hdir & Hc & Hlen & Hlk & Hm & Hpi).
  pose proof (to_dir _ _ _ _ (fs_tree _ _ Hfs) n Hn Hdir) as Hdf. pose proof (to_entries _ _ _ _ (fs_tree _ _ Hfs) n Hn Hdir) as Hwf.
  unfold mofs_unlink_core. apply wp_bind, (wp_resolve_path cx nblk Hvol resolve_old eq_refl F); try done; [apply Hfs|].
  fold d u. rewrite Hpi. wp_simpl. cbn [leaf_name parent_inode_num leaf_inode_num].
  apply wp_bind, wp_require_caller; [done|]. wp_simpl.
  apply wp_bind, (wp_read_inode cx nblk Hvol); [done|done|]. wp_simpl.
  apply wp_bind, wp_check_dir_write; [done|]. rewrite Hw. wp_simpl.
  apply wp_bind, (wp_read_inode cx nblk Hvol); [done|done|]. wp_simpl. fold d.
  unfold is_dir in Hnd. rewrite Hnd. fold (is_dir cx d m) in Hnd.
  apply wp_bind, (wp_remove_dir_entry cx nblk Hvol c F n); try done; [apply Hfs|]. fold d.
  pose proof (wf_live_named cx (dir_entries cx d n (F n).2) c Hwf Hc) as Hlive. unfold dir_lookup in Hlk.
  destruct (find_idx (live_named c) (dir_entries cx d n (F n).2)) as [j|] eqn:Hj; [|by rewrite Hlive in Hlk].
  fold (dir_lookup cx d F n c) in Hlk. intros d1 Hch. wp_simpl.
  pose proof (remove_wf cx (dir_entries cx d n (F n).2) c j Hwf Hc Hj) as Hwf1.
  assert (He : edge d F n c m) by done. assert (Hnm : n <> m) by congruence.
  assert (Hmr : m <> root) by (intros ->; pose proof (to_root_dir _ _ _ _ (fs_tree _ _ Hfs)); unfold d in *; congruence).
  assert (Hno : forall c' x, proper c' -> ~ edge d F m c' x) by (intros c' x _; by apply no_edges).
  assert (Hp : proper c) by (apply (names_proper (inode_num sb) (edge d F) (inode_bit cx d) n c m (fs_names _ _ Hfs)); auto).
  pose proof (edge_ge_3 d F n c m Hfs He Hmr) as Hm3.
  destruct (dc_others _ _ _ _ _ _ _ Hch m Hm (not_eq_sym Hnm)) as [Hino _].
  pose proof (tree_changed cx nblk d d1 F n _ (fs_tree _ _ Hfs) Hn Hdir Hch Hwf1) as Ht1. rewrite <- Hino.
  apply wp_bind. apply (wp_free_all F m _ (set_disk d1 a)); cbn [a_disk set_disk]; [apply Hch|apply Hch|done|by apply (fs_nodes _ _ Hfs)|].
  intros d2 Hem. wp_simpl. apply (wp_free_inode cx nblk Hvol); cbn [a_disk set_disk]; [apply Hem|lia|].
  pose proof (emptied_freed d1 d2 F m Ht1 Hm Hmr Hem) as Hri.
  apply HQ; [apply Hri|]. by apply (removed_ok d d1 _ F n c m j).
Qed.

(** ** Reading, writing and resizing files *)

(** The calls on the data of a regular file in use keep the file system. *)
Lemma file_written_fs d d' F n nodes new offset data : fs_ok d F -> is_inode n -> inode_bit cx d n = true -> is_dir cx d n = false ->
  file_written cx nblk d d' F n nodes new offset data -> 0 < blen ((F n).2 ++ new) -> fs_ok d' (set_file F n (nodes, (F n).2 ++ new)).
Proof.
  intros Hfs Hn Hb Hd [Hok Hf Hs _ (t & h & Hi) _ Hlow] Hpos. apply (file_changed_ok d d' F _ n Hfs Hn Hb Hd). split; try done.
  - intros m Hm. by apply set_file_ne.
  - unfold is_dir. rewrite Hi. unfold written_inode. by destruct (_ <? _).
  - rewrite set_file_eq. cbn [fst snd]. intros _ Hnil. rewrite Hnil in Hpos. simpl in Hpos. lia.
Qed.

Lemma file_resized_fs d d' F n nodes ptrs size : fs_ok d F -> is_inode n -> inode_bit cx d n = true -> is_dir cx d n = false ->
  file_resized cx nblk d d' F n nodes ptrs size -> fs_ok d' (set_file F n (nodes, ptrs)).
Proof.
  intros Hfs Hn Hb Hd [Hok Hf Hs _ _ (t & h & Hi) _ Hlow Hnod]. apply (file_changed_ok d d' F _ n Hfs Hn Hb Hd). split; try done.
  - intros m Hm. by apply set_file_ne.
  - unfold is_dir. by rewrite Hi.
  - by rewrite set_file_eq.
Qed.

Lemma read_disk_fs d F n t out : fs_ok d F -> disk_ok cx nblk d -> is_inode n -> inode_bit cx d n = true -> is_dir cx d n = false -> 0 <= t < 2 ^ 64 ->
  fs_ok (read_disk cx d n t out) F.
Proof.
  intros Hfs Hok Hn Hb Hd Ht. unfold read_disk. case_bool_decide; [done|].
  assert (Hfit : inode_fits (stamp_times t MOFS_INODE_TIME_ATIME (inode_at cx d n))) by (apply stamp_times_fits; [done|by apply (inode_at_fits cx nblk Hvol)]).
  apply (file_changed_ok d _ F F n Hfs Hn Hb Hd). split; try done.
  - apply (put_inode_files cx nblk Hvol); try done. apply Hfs.
  - intros m Hm Hne. apply (put_inode_same cx nblk Hvol); try done. apply Hfs.
  - intros b Hb'. pose proof Hvol as []. apply (put_inode_low cx nblk Hvol); [done|lia].
  - unfold is_dir. rewrite (inode_at_put cx nblk Hvol) by done. by rewrite Z.eqb_refl.
Qed.

Lemma unchanged_fs d d' F n : fs_ok d F -> is_inode n -> inode_bit cx d n = true -> is_dir cx d n = false -> unchanged cx nblk d d' -> fs_ok d' F.
Proof.
  intros Hfs Hn Hb Hd Hu. apply (file_changed_ok d d' F F n Hfs Hn Hb Hd). split; try done.
  - apply (unchanged_files cx nblk Hvol d); [apply Hfs|done].
  - intros m Hm _. apply (unchanged_same cx nblk Hvol); [apply Hfs|done|done].
  - intros b Hb'. apply (un_blocks _ _ _ _ Hu). lia.
  - unfold is_dir. destruct (unchanged_same cx nblk Hvol d d' F n) as [-> _]; [apply Hfs|done|done|done].
Qed.

End fsspec.
