(* ===== verification/HandleSpec.v ===== *)
(** * File handles

    Opening, closing and moving the entries of the pool of file handles, and
    looking at the record of a file. *)

From Stdlib Require Import ZArith Lia.
From stdpp Require Import base list list_numbers.
From S2P Require Import Prelude Types Platform Raw Buffer BufferSpec Ops Bitmap Inode Block FileData Perm Dirent Path File Core Posix Volume BlockSpec AllocSpec FreeSpec InodeSpec VolInv FileSpec FileInv PermSpec RwSpec DirSpec PathSpec EntrySpec TreeSpec NameSpec FsSpec.

(** May a file with the record [inode] be opened with [flags]? *)
Definition open_grant (flags : Z) (u : mofs_user_ctx_t) (inode : mofs_inode_t) : res unit :=
  if has_flag flags MOFS_OFLAG_DIRECTORY && negb (has_flag (i_mode inode) MOFS_FTYPE_DIR) then Err MOFS_ENOTDIR
  else open_permission flags u inode.

Definition new_handle (n flags : Z) : mofs_filehandle := mkFile true n 0 (u32 flags).

(** The outcome of opening the inode [n]: an error, or the first free handle. *)
Definition open_result (flags : Z) (u : mofs_user_ctx_t) (inode : mofs_inode_t) (pool : list mofs_filehandle) : res nat :=
  res_bind (open_grant flags u inode) (fun _ =>
    match get_free_filehandle_index pool with Some i => Ok i | None => Err MOFS_ENFILE end).

(** The pool afterwards. *)
Definition opened (r : res nat) (n flags : Z) (pool : list mofs_filehandle) : list mofs_filehandle :=
  match r with Ok i => <[i := new_handle n flags]> pool | _ => pool end.

Section handlespec.
Context (cx : mofs_ctx_t) (nblk : Z) (Hvol : vol_ok cx nblk).
Abbreviation is_inode n := (0 <= n < inode_num (sp_blk cx)).
Abbreviation root := MOFS_ROOT_INODE_NUM.

Lemma set_afiles_id a : set_afiles (a_files a) a = a.
Proof. by destruct a. Qed.

(** The part of [mofs_open_core] after the inode was found. *)
Lemma wp_open_rest flags n inode Q a : let u := a_caller a in
  u_valid u = true ->
  (let r := open_result flags u inode (a_files a) in Q r (set_afiles (opened r n flags (a_files a)) a)) ->
  wp cx nblk (if has_flag flags MOFS_OFLAG_DIRECTORY && negb (has_flag (i_mode inode) MOFS_FTYPE_DIR) then throw MOFS_ENOTDIR else
    mofs_check_open_permission flags u inode;;
    pool ← call OpGetFiles;
    match get_free_filehandle_index pool with
    | None => throw MOFS_ENFILE
    | Some i => put_handle i (mkFile true n 0 (u32 flags));; mret i
    end) Q a.
Proof.
  intros u Hu HQ. unfold open_result, open_grant in HQ.
  destruct (has_flag flags MOFS_OFLAG_DIRECTORY && negb (has_flag (i_mode inode) MOFS_FTYPE_DIR)).
  { cbn [res_bind opened] in HQ. rewrite set_afiles_id in HQ. exact HQ. }
  apply wp_bind, wp_check_open_permission; [done|]. fold u.
  destruct (open_permission flags u inode) as [[]|e|]; cbn [res_bind opened] in HQ; wp_simpl; [|rewrite set_afiles_id in HQ; exact HQ..].
  apply wp_bind, wp_call. cbn [op_wp]. wp_simpl. destruct (get_free_filehandle_index (a_files a)) as [i|].
  - exact HQ.
  - cbn [opened] in HQ. rewrite set_afiles_id in HQ. exact HQ.
Qed.

Lemma path_end_inode u d F p n : tree_ok cx nblk d F -> path_end cx u d F p = Ok n -> is_inode n.
Proof.
  intros Ht. unfold path_end. case_bool_decide as Hp; [intros [= <-]; apply Ht|]. unfold path_target.
  destruct (rev (strtok_slash p)) as [|leaf front] eqn:Hr; [done|]. apply (f_equal (@rev _)) in Hr. rewrite rev_involutive in Hr. cbn [rev] in Hr.
  destruct (tokens_split p (rev front) leaf Hr) as [Hf Hc]. destruct (walk cx true u d F root (rev front)) as [m|e|] eqn:Hw; [|done|done].
  destruct (_ <=? _); [done|]. intros Hs. eapply (step_inode cx nblk d F u m leaf n Ht); [|done|exact Hs].
  eapply (walk_inode cx nblk u d F (rev front) Ht Hf root m); [apply Ht|done].
Qed.

Lemma missing_path_end u d F p n c : p <> [slash] -> missing_at cx u d F p n c -> path_end cx u d F p = Err MOFS_ENOENT.
Proof.
  intros Hp (front & Htok & Hw & Hs & Hl). unfold path_end. rewrite bool_decide_eq_false_2 by done. unfold path_target.
  rewrite Htok, rev_app_distr. cbn [rev app]. rewrite rev_involutive, Hw, (proj2 (Z.leb_gt _ _)) by done. exact Hs.
Qed.

Lemma step_not_stuck u d F n c : step cx true u d F n c <> Stuck.
Proof. unfold step, enter. by repeat (destruct (negb _) || case_match). Qed.

Lemma path_end_not_stuck u d F p : path_end cx u d F p <> Stuck.
Proof.
  unfold path_end. case_bool_decide; [done|]. unfold path_target. destruct (rev _) as [|leaf front]; [done|].
  destruct (walk cx true u d F root (rev front)) as [m|e|] eqn:Hw.
  - destruct (_ <=? _); [done|]. apply step_not_stuck.
  - done.
  - exfalso. revert Hw. generalize root. induction (rev front) as [|c l IH]; intros k; cbn [walk]; [done|].
    destruct (step cx true u d F k c) as [m|e|] eqn:Hs; [apply IH|done|by apply step_not_stuck in Hs].
Qed.

(** Opening an inode that exists, or failing to find one. *)
Lemma wp_open_existing F p flags mode Q a : let d := a_disk a in let u := a_caller a in
  disk_ok cx nblk d -> tree_ok cx nblk d F -> u_valid u = true -> blen p < 2 ^ 32 -> head p = Some slash ->
  match path_end cx u d F p with
  | Ok n => let r := if has_flag flags MOFS_OFLAG_CREAT && has_flag flags MOFS_OFLAG_EXCL then Err MOFS_EEXIST
                     else open_result flags u (inode_at cx d n) (a_files a) in
            Q r (set_afiles (opened r n flags (a_files a)) a)
  | Err e => (e =? MOFS_ENOENT) && has_flag flags MOFS_OFLAG_CREAT = false /\ Q (Err e) a
  | Stuck => Q Stuck a
  end ->
  wp cx nblk (mofs_open_core cx (Some p) flags mode) Q a.
Proof.
  intros d u Hd Ht Hu Hl Hh HQ. unfold mofs_open_core. apply wp_bind, wp_require_caller; [done|]. wp_simpl.
  apply wp_bind. unfold open_inode. apply wp_bind, wp_status, (wp_path_end cx nblk Hvol F); try done. fold d u.
  destruct (path_end cx u d F p) as [n|e|] eqn:Hp; [|destruct HQ as [He HQ]; cbn [then_wp]; rewrite He; exact HQ|exact HQ].
  pose proof (path_end_inode u d F p n Ht Hp) as Hn. cbn [then_wp].
  destruct (has_flag flags MOFS_OFLAG_CREAT && has_flag flags MOFS_OFLAG_EXCL).
  { cbn [opened] in HQ. rewrite set_afiles_id in HQ. exact HQ. }
  apply wp_bind, (wp_read_inode cx nblk Hvol); [done|done|]. wp_simpl. fold d. by apply wp_open_rest.
Qed.

(** Opening a file that has to be created first. *)
Lemma wp_open_creates F p n c flags mode Q a : let d := a_disk a in let u := a_caller a in
  path_call cx nblk a F p n -> missing_at cx u d F p n c -> no_nul c = true -> is_dot_or_dotdot_name c = false -> has_room cx d F n ->
  has_flag flags MOFS_OFLAG_CREAT = true ->
  (free_inodes cx d = [] -> Q (Err MOFS_ENOSPC) a) ->
  (forall i l t d', free_inodes cx d = i :: l -> 0 <= t < 2 ^ 64 -> disk_ok cx nblk d' -> created cx nblk d d' F n c i (new_inode t mode u) ->
     let r := open_result flags u (new_inode t mode u) (a_files a) in
     Q r (set_afiles (opened r i flags (a_files a)) (set_disk d' a))) ->
  wp cx nblk (mofs_open_core cx (Some p) flags mode) Q a.
Proof.
  intros d u Hpc Hmiss Hnul Hdots Hroom Hcr Hfull HQ. pose proof Hpc as [Hd Hfs Hu Huf Hl Habs Hroot Hw].
  unfold mofs_open_core. apply wp_bind, wp_require_caller; [done|]. wp_simpl.
  apply wp_bind. unfold open_inode. apply wp_bind, wp_status, (wp_path_end cx nblk Hvol F); try done; [apply Hfs|]. fold d u.
  rewrite (missing_path_end u d F p n c Hroot Hmiss). cbn [then_wp]. rewrite Z.eqb_refl, Hcr. cbn [andb].
  apply wp_bind, (wp_create cx nblk Hvol F p n c mode); try done; fold d u.
  intros i l t d' Hi Ht Hd' Hc. wp_simpl.
  assert (Hin : i ∈ free_inodes cx d) by (rewrite Hi; left). apply (elem_of_free_inodes cx nblk Hvol) in Hin as [Hir _].
  apply wp_bind, (wp_read_inode cx nblk Hvol); [done|lia|]. wp_simpl. cbn [a_disk set_disk].
  rewrite (cr_inode _ _ _ _ _ _ _ _ _ Hc). apply (wp_open_rest flags i _ _ (set_disk d' a)); [done|]. by apply (HQ i l t d').
Qed.

(** A handle just opened sits in an entry that was free. *)
Lemma open_result_free flags u inode pool i : open_result flags u inode pool = Ok i ->
  exists f, pool !! i = Some f /\ fh_used f = false.
Proof.
  unfold open_result. destruct (open_grant _ _ _) as [[]|e|]; cbn [res_bind]; [|done|done].
  destruct (get_free_filehandle_index pool) as [j|] eqn:Hj; [|done]. intros [= ->].
  apply find_idx_Some in Hj as ((f & Hf & Hu) & _). exists f. split; [done|]. by destruct (fh_used f).
Qed.

(** ** Closing *)

Lemma wp_close h f Q a : a_files a !! h = Some f ->
  (if fh_used f then Q (Ok tt) (set_afiles (<[h := zero_filehandle]> (a_files a)) a) else Q (Err MOFS_EINVAL) a) ->
  wp cx nblk (mofs_close_core (Some h)) Q a.
Proof.
  intros Hf HQ. unfold mofs_close_core, get_handle. apply wp_bind, wp_bind, wp_call. simpl. rewrite Hf.
  destruct (fh_used f); exact HQ.
Qed.

(** ** Seeking *)

(** The position [mofs_lseek] counts from. *)
Definition seek_base (d : disk) (f : mofs_filehandle) (whence : Z) : option Z :=
  if whence =? MOFS_SEEK_SET then Some 0
  else if whence =? MOFS_SEEK_CUR then Some (file_offset f)
  else if whence =? MOFS_SEEK_END then Some (i_size (inode_at cx d (fh_inode_num f)))
  else None.

Lemma signed64_ok z : - 2 ^ 63 <= z < 2 ^ 63 -> signed64 z = Ok z.
Proof. intros Hz. unfold signed64. by rewrite (proj2 (Z.leb_le _ _)), (proj2 (Z.ltb_lt _ _)) by lia. Qed.

(** The checks refuse exactly the positions below zero or beyond 32 bits, and
    keep every sum and every negation inside 64 bits. *)
Lemma lseek_target_exact base offset : 0 <= base < 2 ^ 32 -> - 2 ^ 63 <= offset < 2 ^ 63 ->
  lseek_target base offset = if (0 <=? base + offset) && (base + offset <=? MOFS_UINT32_MAX) then Ok (base + offset) else Err MOFS_EINVAL.
Proof.
  intros Hb Ho. unfold lseek_target. change MOFS_UINT32_MAX with 4294967295. destruct (Z.leb_spec 0 offset).
  - destruct (Z.ltb_spec 4294967295 offset).
    + assert (Hgt : (base + offset <=? 4294967295) = false) by (apply Z.leb_gt; lia). by rewrite Hgt, andb_false_r.
    + assert (Hge : (0 <=? base + offset) = true) by (apply Z.leb_le; lia). rewrite Hge. cbn [andb].
      rewrite signed64_ok by lia. cbn [res_bind]. destruct (Z.ltb_spec (4294967295 - offset) base).
      * by rewrite (proj2 (Z.leb_gt _ _)) by lia.
      * rewrite (proj2 (Z.leb_le _ _)) by lia. apply signed64_ok. lia.
  - assert (Hle : (base + offset <=? 4294967295) = true) by (apply Z.leb_le; lia). rewrite Hle, andb_true_r. destruct (Z.eqb_spec offset (- 2 ^ 63)) as [->|].
    + by rewrite (proj2 (Z.leb_gt _ _)) by lia.
    + rewrite signed64_ok by lia. cbn [res_bind]. destruct (Z.ltb_spec base (- offset)).
      * by rewrite (proj2 (Z.leb_gt _ _)) by lia.
      * rewrite (proj2 (Z.leb_le _ _)) by lia. apply signed64_ok. lia.
Qed.

Lemma move_handle_insert h f off pool : 0 <= off < 2 ^ 32 -> pool !! h = Some f ->
  move_handle h off pool = <[h := mkFile (fh_used f) (fh_inode_num f) off (open_flags f)]> pool.
Proof.
  intros Ho Hf. unfold move_handle. apply list_eq. intros j. destruct (decide (j = h)) as [->|Hj].
  - rewrite list_lookup_alter_eq, Hf, list_lookup_insert_eq by (by apply lookup_lt_Some in Hf). cbn [fmap option_fmap option_map].
    by rewrite u32_small by done.
  - by rewrite list_lookup_alter_ne, list_lookup_insert_ne by done.
Qed.

Lemma wp_lseek h f offset whence Q a : let d := a_disk a in
  disk_ok cx nblk d -> a_files a !! h = Some f -> fh_used f = true -> is_inode (fh_inode_num f) -> 0 <= file_offset f < 2 ^ 32 -> - 2 ^ 63 <= offset < 2 ^ 63 ->
  match seek_base d f whence with
  | None => Q (Err MOFS_EINVAL) a
  | Some base =>
      if (0 <=? base + offset) && (base + offset <=? MOFS_UINT32_MAX)
      then Q (Ok (base + offset)) (set_afiles (move_handle h (base + offset) (a_files a)) a) else Q (Err MOFS_EINVAL) a
  end ->
  wp cx nblk (lseek_core cx h offset whence) Q a.
Proof.
  intros d Hd Hf Hu Hn Hoff Ho HQ. unfold lseek_core. apply wp_bind, wp_call. simpl. rewrite Hf. cbn [default from_option id]. rewrite Hu. cbn [negb].
  unfold lseek_locked. apply wp_bind, wp_call. simpl. rewrite Hf. cbn [default from_option id].
  assert (Hend : forall base, 0 <= base < 2 ^ 32 ->
    (if (0 <=? base + offset) && (base + offset <=? MOFS_UINT32_MAX)
     then Q (Ok (base + offset)) (set_afiles (move_handle h (base + offset) (a_files a)) a) else Q (Err MOFS_EINVAL) a) ->
    wp cx nblk (new_pos ← Done (lseek_target base offset); set_file_offset h new_pos;; mret new_pos) Q a).
  { intros base Hb HQ'. rewrite lseek_target_exact by done. destruct (_ && _); [|exact HQ']. apply wp_bind. cbn [wp]. wp_simpl.
    apply wp_bind, wp_set_file_offset. wp_simpl. exact HQ'. }
  unfold seek_base in HQ. destruct (whence =? MOFS_SEEK_SET); [apply wp_bind, wp_ret; apply Hend; [lia|exact HQ]|].
  destruct (whence =? MOFS_SEEK_CUR); [apply wp_bind, wp_ret; by apply Hend|].
  destruct (whence =? MOFS_SEEK_END); [|exact HQ].
  apply wp_bind, wp_bind, (wp_read_inode cx nblk Hvol); [done|done|]. wp_simpl. fold d. apply Hend; [|done].
  apply (fits_size _ (inode_at_fits cx nblk Hvol d _ Hd Hn)).
Qed.

(** ** Looking at a file *)

Definition stat_of (n : Z) (i : mofs_inode_t) : mofs_stat_t :=
  mkStat n (i_mode i) (i_links i) (i_uid i) (i_gid i) (i_size i) (s64 (i_atime i)) (s64 (i_mtime i)) (s64 (i_ctime i)) 0.

(** A directory must be searchable, a file readable. *)
Definition may_stat (u : mofs_user_ctx_t) (i : mofs_inode_t) : bool :=
  if has_flag (i_mode i) MOFS_FTYPE_DIR then may_exec u i else may_read u i.

Lemma wp_stat F p Q a : let d := a_disk a in let u := a_caller a in
  disk_ok cx nblk d -> tree_ok cx nblk d F -> u_valid u = true -> blen p < 2 ^ 32 -> head p = Some slash ->
  Q (res_bind (path_end cx u d F p) (fun n => let i := inode_at cx d n in if may_stat u i then Ok (stat_of n i) else Err MOFS_EACCES)) a ->
  wp cx nblk (mofs_stat_core cx (Some p)) Q a.
Proof.
  intros d u Hd Ht Hu Hl Hh HQ. unfold mofs_stat_core. apply wp_bind, wp_require_caller; [done|]. wp_simpl.
  apply wp_bind, (wp_path_end cx nblk Hvol F); try done. fold d u. destruct (path_end cx u d F p) as [n|e|] eqn:Hp; cbn [res_bind] in HQ; [|exact HQ..]. wp_simpl.
  pose proof (path_end_inode u d F p n Ht Hp) as Hn. apply wp_bind, (wp_read_inode cx nblk Hvol); [done|done|]. wp_simpl. fold d.
  unfold may_stat in HQ. apply wp_bind. destruct (has_flag (i_mode (inode_at cx d n)) MOFS_FTYPE_DIR).
  - apply wp_check_dir_traverse; [done|]. fold u. by destruct (may_exec u _).
  - apply wp_check_open_permission; [done|]. fold u. unfold open_permission. change (open_perm_flags MOFS_OFLAG_RDONLY) with (Ok MOFS_OFLAG_RDONLY).
    cbn [res_bind]. destruct (perm_denied_spec u (inode_at cx d n)) as (-> & _). by destruct (may_read u _).
Qed.

End handlespec.
