(* ===== verification/RmdirSpec.v ===== *)
(** * Removing directories *)

From Stdlib Require Import ZArith Lia.
From stdpp Require Import base list list_numbers.
From S2P Require Import Prelude Types Platform Raw Buffer BufferSpec Ops Bitmap Inode Block FileData Perm Dirent Path File Dir Volume BlockSpec AllocSpec FreeSpec InodeSpec VolInv FileSpec FileInv PermSpec DirSpec PathSpec EntrySpec TreeSpec NameSpec FsSpec.

Section rmdirspec.
Context (cx : mofs_ctx_t) (nblk : Z) (Hvol : vol_ok cx nblk).
Abbreviation sb := (sp_blk cx).
Abbreviation bs := (blk_size (sp_blk cx)).
Abbreviation is_inode n := (0 <= n < inode_num (sp_blk cx)).
Abbreviation root := MOFS_ROOT_INODE_NUM.
Abbreviation fs_ok := (fs_ok cx nblk).
Abbreviation edge := (edge cx).

(** ** The record of a directory *)

(** Changing links or times of an inode. *)
Record same_shape (i i' : mofs_inode_t) : Prop := {
  ss_size : i_size i' = i_size i;
  ss_mode : i_mode i' = i_mode i;
  ss_owner : i_uid i' = i_uid i /\ i_gid i' = i_gid i;
  ss_head : i_data_head i' = i_data_head i;
  ss_nr : i_nr_blocks i' = i_nr_blocks i
}.

(** The record of the directory [n] was changed, and nothing else. *)
Record touched (d d' : disk) (F : files) (n : Z) : Prop := {
  to_ok : disk_ok cx nblk d';
  to_files : vol_files cx nblk d' F;
  to_tree' : tree_ok cx nblk d' F;
  to_others : forall m, is_inode m -> m <> n -> same_file cx d d' F m;
  to_is_dir : forall m, is_inode m -> is_dir cx d' m = is_dir cx d m;
  to_lookup : forall m c, is_inode m -> dir_lookup cx d' F m c = dir_lookup cx d F m c;
  to_list : forall m, is_inode m -> dir_entries cx d' m (F m).2 = dir_entries cx d m (F m).2;
  to_shape : same_shape (inode_at cx d n) (inode_at cx d' n);
  to_blocks : forall b, data_region_start sb <= b -> d' b = d b;
  to_bits : forall m, is_inode m -> inode_bit cx d' m = inode_bit cx d m
}.

Lemma put_inode_touched d F n i : disk_ok cx nblk d -> vol_files cx nblk d F -> tree_ok cx nblk d F -> is_inode n -> inode_fits i ->
  same_shape (inode_at cx d n) i -> touched d (put_inode cx d n i) F n.
Proof.
  intros Hd HF Ht Hn Hi Hss. pose proof Hss as [Hsz Hmo _ Hh Hr]. set (d' := put_inode cx d n i).
  assert (HF' : vol_files cx nblk d' F) by (by apply (put_inode_files cx nblk Hvol)).
  assert (Hat : inode_at cx d' n = i) by (unfold d'; rewrite (inode_at_put cx nblk Hvol) by done; by rewrite Z.eqb_refl).
  assert (Hs : forall m, is_inode m -> m <> n -> same_file cx d d' F m) by (intros; by apply (put_inode_same cx nblk Hvol)).
  assert (Hdn : is_dir cx d' n = is_dir cx d n) by (unfold is_dir; by rewrite Hat, Hmo).
  assert (Hen : dir_entries cx d' n (F n).2 = dir_entries cx d n (F n).2).
  { unfold dir_entries. rewrite Hat, Hsz. f_equal. apply content_ext. intros b Hb. apply (put_inode_high cx nblk Hvol); [done|].
    apply (vf_range _ _ _ _ _ _ HF Hn). unfold file_blocks. apply elem_of_app. by right. }
  destruct (tree_replace cx nblk d d' F F n Ht HF') as (Ht' & Hdd & Hl); try done.
  { intros Hdir. rewrite Hdn in Hdir. destruct (to_dir _ _ _ _ Ht n Hn Hdir) as [_ _ Hc].
    split; [split; [done|by apply HF'|]|rewrite Hen; by apply (to_entries _ _ _ _ Ht)]. unfold covers in *. by rewrite Hat, Hsz. }
  { intros ->. rewrite Hdn. apply Ht. }
  split; try done.
  - apply (disk_ok_put_inode cx nblk Hvol); [done|done|apply Hi].
  - intros m Hm. destruct (decide (m = n)) as [->|Hne]; [done|by apply Hdd].
  - intros m c Hm. destruct (decide (m = n)) as [->|Hne]; [unfold dir_lookup; by rewrite Hen|by apply Hl].
  - intros m Hm. destruct (decide (m = n)) as [->|Hne]; [done|]. by apply (same_entries cx nblk d d' F m HF' Hm (Hs m Hm Hne)).
  - by rewrite Hat.
  - intros b Hb. by apply (put_inode_high cx nblk Hvol).
  - intros m Hm. by apply (inode_bit_put_inode cx nblk Hvol).
Qed.

Lemma renamed_touched d d1 d2 F F' n c i to : renamed cx nblk d d1 F F' n c i to -> is_inode n -> touched d1 d2 F' n ->
  renamed cx nblk d d2 F F' n c i to.
Proof.
  intros [Hf Ht HFF Hname Hnames Hdirs Hisd Hnodes Hdot Hb] Hn [_ Hf2 Ht2 _ Hd2 Hl2 He2 _ _ Hb2]. split; try done.
  - by rewrite Hl2.
  - intros c' Hc' Hne. by rewrite Hl2, Hnames.
  - intros m c' Hm Hdm H1 H2. by rewrite Hl2, Hdirs.
  - intros m Hm Hne. by rewrite Hd2, Hisd.
  - intros m Hm Hdm Hne Hdd. eapply dotdot_first_ext; [by apply He2|by apply Hdot].
  - intros m Hm. by rewrite Hb2, Hb.
Qed.

(** Writing back the record with another link count and new times. *)
Lemma wp_put_links F n l mask Q a : let d := a_disk a in
  disk_ok cx nblk d -> vol_files cx nblk d F -> tree_ok cx nblk d F -> is_inode n -> 0 <= l < 2 ^ 16 -> mask <> 0 ->
  (forall d', touched d d' F n -> i_links (inode_at cx d' n) = l -> Q (Ok tt) (set_disk d' a)) ->
  wp cx nblk (i ← mofs_inode_stamp_now (set_i_links l (inode_at cx d n)) mask; mofs_write_inode cx n i) Q a.
Proof.
  intros d Hd HF Ht Hn Hl Hmask HQ. apply wp_bind, wp_stamp_now; [done|]. intros t Htt. wp_simpl. set (i := stamp_times _ _ _).
  pose proof (inode_at_fits cx nblk Hvol d n Hd Hn) as Hf0.
  assert (Hfit : inode_fits i) by (apply stamp_times_fits; [done|]; destruct Hf0; by constructor).
  apply (wp_write_inode cx nblk Hvol); [done|done|apply Hfit|]. apply HQ.
  - by apply put_inode_touched.
  - rewrite (inode_at_put cx nblk Hvol) by done. by rewrite Z.eqb_refl.
Qed.

(** The end of [mofs_rmdir_core] and [mofs_mkdir_core]: the link count of the
    parent. *)
Lemma wp_set_links F n l Q a : let d := a_disk a in
  disk_ok cx nblk d -> vol_files cx nblk d F -> tree_ok cx nblk d F -> is_inode n -> 0 <= l < 2 ^ 16 ->
  (forall d', touched d d' F n -> i_links (inode_at cx d' n) = l -> Q (Ok tt) (set_disk d' a)) ->
  wp cx nblk (i ← mofs_inode_stamp_now (set_i_links l (inode_at cx d n)) MOFS_INODE_TIME_CTIME; mofs_write_inode cx n i) Q a.
Proof. intros d Hd HF Ht Hn Hl HQ. by apply (wp_put_links F). Qed.

(** ** Empty directories *)

Lemma no_entry_counts d F m : tree_ok cx nblk d F -> is_inode m -> is_dir cx d m = true ->
  existsb entry_counts (dir_entries cx d m (F m).2) = false -> forall c x, proper c -> ~ edge d F m c x.
Proof.
  intros Ht Hm Hd Hno c x [Hc Hdots] (_ & _ & _ & Hl). pose proof (to_entries _ _ _ _ Ht m Hm Hd) as Hwf.
  rewrite <- not_true_iff_false, existsb_exists in Hno. apply Hno. unfold dir_lookup in Hl.
  destruct (List.find _ _) as [e|] eqn:He; [|done]. apply List.find_some in He as [Hin Hname]. exists e. split; [done|]. apply list_elem_of_In in Hin.
  unfold entry_counts. pose proof (has_name_set c e Hc Hname) as Hs. apply has_name_eq in Hname. by rewrite (wf_live cx _ e Hwf Hin Hs), Hs, Hname, Hdots.
Qed.

Lemma entry_counts_edge d F m : tree_ok cx nblk d F -> is_inode m -> is_dir cx d m = true ->
  existsb entry_counts (dir_entries cx d m (F m).2) = true -> exists c x, proper c /\ edge d F m c x.
Proof.
  intros Ht Hm Hd H. pose proof (to_entries _ _ _ _ Ht m Hm Hd) as Hwf. apply existsb_exists in H as (e & Hin & He).
  unfold entry_counts in He. rewrite !andb_true_iff, negb_true_iff in He. destruct He as [[Hu Hs] Hnd].
  apply name_set_ne in Hs as Hne. apply list_elem_of_In, list_elem_of_lookup_1 in Hin as (i & Hi).
  exists (c_str (d_name e)), (d_inode_num e). split; [by split|]. split; [done|]. split; [done|]. split; [done|].
  unfold dir_lookup. rewrite (proj2 (wf_find cx _ _ e Hwf Hne)); [done|]. exists i. split; [done|]. by apply has_name_eq.
Qed.

(** ** [mofs_rmdir_core] *)

Lemma rmdir_path_ok (p : cstr) : head p = Some slash -> p <> [slash] -> (blen p =? 1) = false /\ is_dot_or_dotdot_name p = false.
Proof.
  destruct p as [|b p]; [done|]. intros [= ->] Hp. split.
  - apply Z.eqb_neq. destruct p; [done|]. cbn [length]. lia.
  - apply not_dots. split; discriminate.
Qed.

Lemma fs_touched d d' F n : fs_ok d F -> touched d d' F n -> fs_ok d' F.
Proof.
  intros Hfs [_ HF Ht _ Hd Hl He _ _ Hb]. split; try done.
  - intros k Hk Hbk. rewrite Hb in Hbk by done. rewrite Hd by done. by apply (fs_free _ _ _ _ Hfs).
  - eapply names_ok_ext; [|exact Hb|apply (fs_names _ _ _ _ Hfs)]. intros k c x. unfold edge.
    split; (intros (Hk & Hdk & Hc & Hlk); rewrite ?Hd, ?Hl in *; done).
  - apply (fs_nodes _ _ _ _ Hfs).
  - intros k Hk. rewrite Hb by done. by apply (fs_reserved _ _ _ _ Hfs).
  - intros k Hk Hdk Hkr. rewrite Hd in Hdk by done. eapply dotdot_first_ext; [by apply He|]. by apply (fs_dots _ _ _ _ Hfs).
Qed.

Lemma removed_touched d d1 d2 F n c m : removed cx nblk d d1 F n c m -> is_inode n -> is_inode m -> n <> m ->
  touched d1 d2 (set_file F m ([], [])) n -> removed cx nblk d d2 F n c m.
Proof.
  intros [Hfs Hrn Hoth Hino Hsl Hfr Hwh Hac] Hn Hm Hne Hto.
  assert (Hes : dir_entries cx d2 n (F n).2 = dir_entries cx d1 n (F n).2).
  { pose proof (to_list _ _ _ _ Hto n Hn) as He. by rewrite set_file_ne in He. }
  destruct (to_shape _ _ _ _ Hto) as [Hsz Hmo [Hu Hg] _ _]. split.
  - by eapply fs_touched.
  - by eapply renamed_touched.
  - intros k Hk H1 H2. eapply same_file_trans; [by apply Hoth|]. destruct (to_others _ _ _ _ Hto k Hk H1) as [Hi Hb].
    split; [done|]. intros b Hin. apply Hb. unfold file_blocks in *. by rewrite set_file_ne.
  - by destruct (to_others _ _ _ _ Hto m Hm (not_eq_sym Hne)) as [-> _].
  - by rewrite Hes.
  - by rewrite Hes.
  - by rewrite Hsz.
  - by eapply same_access_trans.
Qed.

Lemma wp_rmdir F p n c m Q a : let d := a_disk a in let u := a_caller a in
  path_call cx nblk a F p n -> found_at cx u d F p n c m -> is_dot_or_dotdot_name c = false ->
  0 < i_links (inode_at cx d n) < 2 ^ 16 ->
  (is_dir cx d m = false -> Q (Err MOFS_ENOTDIR) a) ->
  (is_dir cx d m = true -> (exists c' x, proper c' /\ edge d F m c' x) -> Q (Err MOFS_ENOTEMPTY) a) ->
  (forall d', is_dir cx d m = true -> (forall c' x, proper c' -> ~ edge d F m c' x) -> disk_ok cx nblk d' -> removed cx nblk d d' F n c m ->
     i_links (inode_at cx d' n) = i_links (inode_at cx d n) - 1 -> Q (Ok tt) (set_disk d' a)) ->
  wp cx nblk (mofs_rmdir_core cx (Some p)) Q a.
Proof.
  intros d u [Hd Hfs Hu Huf Hl Habs Hroot Hw] Hfound Hdots Hlinks Hnotdir Hnotempty HQ. pose proof (fs_tree _ _ _ _ Hfs) as Ht.
  destruct (found_facts cx nblk u d F p n c m Ht Hfound) as (Hn & Hdir & Hc & Hlen & Hlk & Hm & Hpi).
  pose proof (to_dir _ _ _ _ Ht n Hn Hdir) as Hdf. pose proof (to_entries _ _ _ _ Ht n Hn Hdir) as Hwf.
  assert (He : edge d F n c m) by done. assert (Hp : proper c) by done.
  assert (Hnz : (i_links (inode_at cx d n) =? 0) = false) by (apply Z.eqb_neq; lia).
  assert (Hlk16 : 0 <= i_links (inode_at cx d n) - 1 < 2 ^ 16) by lia.
  unfold mofs_rmdir_core. rewrite Habs, bool_decide_eq_true_2 by done. cbn [negb].
  destruct (rmdir_path_ok p Habs Hroot) as [-> ->]. cbn [orb].
  apply wp_bind, (wp_resolve_path cx nblk Hvol resolve_old eq_refl F); try done.
  fold d u. rewrite Hpi. wp_simpl. cbn [leaf_name parent_inode_num leaf_inode_num]. rewrite Hdots.
  apply wp_bind, wp_require_caller; [done|]. wp_simpl.
  apply wp_bind, (wp_read_inode cx nblk Hvol); [done|done|]. wp_simpl.
  apply wp_bind, wp_check_dir_write; [done|]. rewrite Hw. wp_simpl.
  apply wp_bind, (wp_read_inode cx nblk Hvol); [done|done|]. wp_simpl. fold d. fold (is_dir cx d m).
  destruct (is_dir cx d m) eqn:Hdm; cbn [negb]; [|by apply Hnotdir].
  apply wp_bind, (wp_is_directory_empty cx nblk Hvol F m); [done|by apply (to_dir _ _ _ _ Ht)|done|]. wp_simpl. fold d.
  destruct (existsb entry_counts (dir_entries cx d m (F m).2)) eqn:Hec; cbn [negb].
  { apply Hnotempty; [done|]. by apply entry_counts_edge. }
  pose proof (no_entry_counts d F m Ht Hm Hdm Hec) as Hno.
  assert (Hmr : m <> root) by (intros ->; by apply (nm_root _ _ _ (fs_names _ _ _ _ Hfs) n c)).
  assert (Hnm : n <> m) by (intros ->; by apply (Hno c m)). pose proof (edge_ge_3 cx nblk d F n c m Hfs He Hmr) as Hm3.
  apply wp_bind, (wp_remove_dir_entry cx nblk Hvol c F n); try done; [apply Hfs|]. fold d.
  pose proof (wf_live_named cx (dir_entries cx d n (F n).2) c Hwf Hc) as Hlive. unfold dir_lookup in Hlk.
  destruct (find_idx (live_named c) (dir_entries cx d n (F n).2)) as [j|] eqn:Hj; [|by rewrite Hlive in Hlk].
  intros d1 Hch. wp_simpl. pose proof (remove_wf cx (dir_entries cx d n (F n).2) c j Hwf Hc Hj) as Hwf1.
  destruct (dc_others _ _ _ _ _ _ _ Hch m Hm (not_eq_sym Hnm)) as [Hino _].
  pose proof (tree_changed cx nblk d d1 F n _ Ht Hn Hdir Hch Hwf1) as Ht1. rewrite <- Hino.
  apply wp_bind. apply (wp_free_all cx nblk Hvol F m _ (set_disk d1 a)); cbn [a_disk set_disk]; [apply Hch|apply Hch|done|by apply (fs_nodes _ _ _ _ Hfs)|].
  intros d2 Hem. wp_simpl. apply wp_bind, (wp_free_inode cx nblk Hvol); cbn [a_disk set_disk]; [apply Hem|lia|]. wp_simpl.
  pose proof (emptied_freed cx nblk Hvol d1 d2 F m Ht1 Hm Hmr Hem) as Hri. set (d3 := put_inode _ _ _ _) in *.
  apply wp_bind, (wp_read_inode cx nblk Hvol); [apply Hri|done|]. wp_simpl. cbn [a_disk set_disk].
  pose proof (removed_ok cx nblk Hvol d d1 d3 F n c m j Hfs He Hp Hmr Hnm Hno Hj Hch Hri) as Hre.
  assert (Hl3 : i_links (inode_at cx d3 n) = i_links (inode_at cx d n)).
  { destruct (ri_others _ _ _ _ _ _ Hri n Hn Hnm) as [-> _]. destruct (dc_inode _ _ _ _ _ _ _ Hch) as (sz & t & ->). done. }
  rewrite Hl3, Hnz.
  clearbody d3. apply (wp_set_links (set_file F m ([], [])) n (i_links (inode_at cx d n) - 1) _ (set_disk d3 (set_disk d2 (set_disk d1 a)))); cbn [a_disk set_disk]; [apply Hri|apply Hri|apply Hri|done|exact Hlk16|].
  intros d4 Hto Hl4. apply HQ; [done|exact Hno|apply Hto| |done]. apply (removed_touched d d3 d4 F n c m); done.
Qed.

End rmdirspec.
