(* ===== verification/MoveSpec.v ===== *)
(** * Renaming

    Changes of the names of a tree that keep its inodes ([rewired]), and their
    composition in [mofs_rename_core]. *)

From Stdlib Require Import ZArith Lia.
From stdpp Require Import base list list_numbers.
From S2P Require Import Prelude Types Platform Raw Buffer BufferSpec Ops Bitmap Inode Block FileData Perm Dirent Path File Dir Volume BlockSpec AllocSpec FreeSpec InodeSpec VolInv FileSpec FileInv PermSpec DirSpec PathSpec EntrySpec TreeSpec NameSpec FsSpec RmdirSpec.

Section movespec.
Context (cx : mofs_ctx_t) (nblk : Z) (Hvol : vol_ok cx nblk).
Abbreviation sb := (sp_blk cx).
Abbreviation bs := (blk_size (sp_blk cx)).
Abbreviation epb := (blk_size (sp_blk cx) / 32).
Abbreviation drs := (data_region_start (sp_blk cx)).
Abbreviation is_inode n := (0 <= n < inode_num (sp_blk cx)).
Abbreviation root := MOFS_ROOT_INODE_NUM.
Abbreviation fs_ok := (fs_ok cx nblk).
Abbreviation edge := (edge cx).
Abbreviation names := (Z -> cstr -> Z -> Prop).

(** ** Changing names only *)

(** [d'] has the names [E] instead of those of [d]; only records of the inodes
    [I] and blocks of the inodes [B] were changed. *)
Record rewired (d d' : disk) (F : files) (E : names) (I B : list Z) : Prop := {
  rw_ok : disk_ok cx nblk d';
  rw_files : vol_files cx nblk d' F;
  rw_tree : tree_ok cx nblk d' F;
  rw_names : forall k c x, edge d' F k c x <-> E k c x;
  rw_is_dir : forall k, is_inode k -> is_dir cx d' k = is_dir cx d k;
  rw_bits : forall k, is_inode k -> inode_bit cx d' k = inode_bit cx d k;
  rw_dots : forall k, is_inode k -> dotdot_first cx d F k -> dotdot_first cx d' F k;
  rw_inode : forall k, is_inode k -> k ∉ I -> inode_at cx d' k = inode_at cx d k;
  rw_blocks : forall k b, is_inode k -> k ∉ B -> b ∈ file_blocks F k -> d' b = d b
}.

Lemma fs_rewired d d' F E I B : fs_ok d F -> rewired d d' F E I B -> names_ok (inode_num sb) E (inode_bit cx d) -> fs_ok d' F.
Proof.
  intros Hfs [_ HF Ht HE Hd Hb Hdot _ _] Hn. split; try done.
  - intros k Hk Hbk. rewrite Hb in Hbk by done. rewrite Hd by done. by apply (fs_free _ _ _ _ Hfs).
  - by eapply names_ok_ext.
  - apply (fs_nodes _ _ _ _ Hfs).
  - intros k Hk. rewrite Hb by done. by apply (fs_reserved _ _ _ _ Hfs).
  - intros k Hk Hdk Hr. apply Hdot; [done|]. apply (fs_dots _ _ _ _ Hfs); [done| |done]. by rewrite <- Hd.
Qed.

Lemma rewired_trans d d1 d2 F E1 E2 I1 I2 B1 B2 : rewired d d1 F E1 I1 B1 -> rewired d1 d2 F E2 I2 B2 -> rewired d d2 F E2 (I1 ++ I2) (B1 ++ B2).
Proof.
  intros [_ _ _ _ Hd1 Hb1 Hdot1 Hi1 Hk1] [Hok HF Ht HE Hd2 Hb2 Hdot2 Hi2 Hk2]. split; try done.
  - intros k Hk. by rewrite Hd2, Hd1.
  - intros k Hk. by rewrite Hb2, Hb1.
  - intros k Hk H. by apply Hdot2, Hdot1.
  - intros k Hk [H1 H2]%not_elem_of_app. by rewrite Hi2, Hi1.
  - intros k b Hk [H1 H2]%not_elem_of_app Hb. by rewrite (Hk2 k b), (Hk1 k b).
Qed.

Lemma rewired_same d d' F E I B k : rewired d d' F E I B -> is_inode k -> k ∉ I -> k ∉ B -> same_file cx d d' F k.
Proof. intros Hrw Hk HI HB. split; [by apply (rw_inode _ _ _ _ _ _ Hrw)|]. intros b. by apply (rw_blocks _ _ _ _ _ _ Hrw). Qed.

Lemma rewired_names d d' F E E' I B : (forall k c x, E k c x <-> E' k c x) -> rewired d d' F E I B -> rewired d d' F E' I B.
Proof. intros HE []. split; try done. intros k c x. by rewrite rw_names0. Qed.

(** ** The steps *)

(** A change of one directory. *)
Lemma rewired_dir d d1 F n (E : names) I : tree_ok cx nblk d F -> is_inode n -> is_dir cx d1 n = true -> is_dir cx d n = true ->
  disk_ok cx nblk d1 -> vol_files cx nblk d1 F -> (forall k, is_inode k -> k <> n -> same_file cx d d1 F k) ->
  (forall b, 0 <= b < data_bitmap_start sb -> d1 b = d b) ->
  dir_file cx nblk d1 n (F n).1 (F n).2 -> dir_wf cx (dir_entries cx d1 n (F n).2) ->
  (dotdot_first cx d F n -> dotdot_first cx d1 F n) -> (n ∉ I -> inode_at cx d1 n = inode_at cx d n) ->
  (forall k c x, k <> n -> E k c x <-> edge d F k c x) -> (forall c x, E n c x <-> c <> [] /\ dir_lookup cx d1 F n c = Some x) ->
  rewired d d1 F E I [n].
Proof.
  intros Ht Hn Hdir Hdir0 Hd1 HF1 Hs Hlow Hdf Hwf Hdot Hino HEo HEn.
  destruct (tree_replace cx nblk d d1 F F n Ht HF1) as (Ht1 & Hdd & Hl); try done.
  split; try done.
  - intros k c x. unfold edge. destruct (decide (k = n)) as [->|Hk]; [rewrite HEn; split; [by intros (_ & _ & ? & ?)|by intros [? ?]]|].
    rewrite HEo by done. unfold edge. split; (intros (Hki & Hkd & Hc & Hlk); rewrite ?Hdd, ?Hl in * by done; done).
  - intros k Hk. destruct (decide (k = n)) as [->|Hne]; [by rewrite Hdir|by apply Hdd].
  - intros k Hk. exact (inode_bit_low cx nblk Hvol d d1 k Hlow Hk).
  - intros k Hk H. destruct (decide (k = n)) as [->|Hne]; [by apply Hdot|].
    eapply dotdot_first_ext; [|exact H]. by apply (same_entries cx nblk d d1 F k HF1 Hk (Hs k Hk Hne)).
  - intros k Hk HI. destruct (decide (k = n)) as [->|Hne]; [by apply Hino|]. by apply Hs.
  - intros k b Hk HB Hb. apply (Hs k Hk); [|done]. intros ->. apply HB. left.
Qed.

Lemma rewired_remove d d1 F n c j : tree_ok cx nblk d F -> is_inode n -> is_dir cx d n = true -> c <> [] -> c <> dotdot ->
  find_idx (live_named c) (dir_entries cx d n (F n).2) = Some j ->
  dir_changed cx nblk d d1 F n (<[j := zero_dirent]> (dir_entries cx d n (F n).2)) ->
  rewired d d1 F (fun k c' x => edge d F k c' x /\ ~ (k = n /\ c' = c)) [n] [n].
Proof.
  intros Ht Hn Hdir Hc Hcd Hj Hch. pose proof (to_entries _ _ _ _ Ht n Hn Hdir) as Hwf.
  apply rewired_dir; try done; try apply Hch.
  - by rewrite (changed_is_dir cx nblk d d1 F n _ Hch).
  - rewrite (dc_entries _ _ _ _ _ _ _ Hch). by eapply remove_wf.
  - eapply dotdot_first_remove; [done|exact Hj|apply Hch].
  - intros H. by destruct H; left.
  - intros k c' x Hk. split; [by intros [? _]|]. intros H. split; [done|]. by intros [? _].
  - intros c' x. unfold dir_lookup. rewrite (dc_entries _ _ _ _ _ _ _ Hch). destruct (decide (c' = c)) as [->|Hne].
    + rewrite (remove_find_same cx _ c j) by done. split; [by intros [_ H]; destruct H|by intros [_ ?]].
    + unfold edge, dir_lookup. split; [intros [(_ & _ & Hc' & Hl) _]|intros [Hc' Hl]]; rewrite ?(remove_find_other cx _ c j) in * by done; [done|].
      split; [done|]. by intros [_ ?].
Qed.

Lemma rewired_add d d1 F n c m : tree_ok cx nblk d F -> is_inode n -> is_dir cx d n = true -> 0 < m < inode_num sb ->
  c <> [] -> no_nul c = true -> blen c < 28 -> dir_lookup cx d F n c = None ->
  dir_changed cx nblk d d1 F n (add_entry (new_dirent c m) (dir_entries cx d n (F n).2)) ->
  rewired d d1 F (fun k c' x => edge d F k c' x \/ k = n /\ c' = c /\ x = m) [n] [n].
Proof.
  intros Ht Hn Hdir Hm Hc Hnul Hlen Hnone Hch. pose proof (to_entries _ _ _ _ Ht n Hn Hdir) as Hwf. pose proof (vo_inodes _ _ Hvol) as Hmax.
  assert (Hdup : existsb (entry_dup c) (dir_entries cx d n (F n).2) = false).
  { rewrite (wf_dup cx) by done. unfold dir_lookup in Hnone. by destruct (List.find _ _). }
  apply rewired_dir; try done; try apply Hch.
  - by rewrite (changed_is_dir cx nblk d d1 F n _ Hch).
  - rewrite (dc_entries _ _ _ _ _ _ _ Hch). apply add_wf; try done; lia.
  - eapply dotdot_first_add; [done|apply Hch].
  - intros H. by destruct H; left.
  - intros k c' x Hk. split; [by intros [?|(? & _)]|by left].
  - intros c' x. unfold dir_lookup. rewrite (dc_entries _ _ _ _ _ _ _ Hch). destruct (decide (c' = c)) as [->|Hne].
    + rewrite (add_find_same cx) by (try done; lia). cbn [fmap option_fmap option_map]. rewrite (new_dirent_inode cx) by lia. split.
      * intros [(_ & _ & _ & Hl)|(_ & _ & ->)]; [congruence|done].
      * intros [_ [= ->]]. by right.
    + unfold edge, dir_lookup. rewrite ?(add_find_other cx) by (try done; lia). split.
      * intros [(_ & _ & Hc' & Hl)|(_ & ? & _)]; [|done]. split; [done|]. by rewrite (add_find_other cx) by (try done; lia).
      * intros [Hc' Hl]. rewrite (add_find_other cx) in Hl by (try done; lia). by left.
Qed.

Lemma rewired_touched d d1 F n : touched cx nblk d d1 F n -> rewired d d1 F (edge d F) [n] [].
Proof.
  intros [Hok HF Ht Hs Hd Hl He Hsh Hblk Hb]. split; try done.
  - intros k c x. unfold edge. split; (intros (Hk & Hdk & Hc & Hlk); rewrite ?Hd, ?Hl in * by done; done).
  - intros k Hk H. eapply dotdot_first_ext; [by apply He|done].
  - intros k Hk HI. apply Hs; [done|]. intros ->. apply HI. left.
  - intros k b Hk _ Hin. apply Hblk. apply (vf_range _ _ _ _ _ _ HF Hk Hin).
Qed.

(** ** [..] *)

(** The entry [..] of a directory other than the root. *)
Lemma dotdot_entry_at d F m : tree_ok cx nblk d F -> is_inode m -> is_dir cx d m = true -> dotdot_first cx d F m ->
  exists j e, (j < Z.to_nat epb)%nat /\ dir_entries cx d m (F m).2 !! j = Some e /\ has_name dotdot e = true /\
    find_idx (fun e => in_use e && has_name dotdot e) (dir_entries cx d m (F m).2) = Some j /\ edge d F m dotdot (d_inode_num e).
Proof.
  intros Ht Hm Hdm (_ & j & e & Hj & He & Hn). pose proof (to_entries _ _ _ _ Ht m Hm Hdm) as Hwf.
  assert (Hne : dotdot <> []) by done. pose proof (has_name_set dotdot e Hne Hn) as Hs.
  exists j, e. split; [done|]. split; [done|]. split; [done|]. split.
  - apply find_idx_Some. split.
    + exists e. split; [done|]. rewrite Hn, (wf_live cx _ e Hwf (list_elem_of_lookup_2 _ _ _ He) Hs). done.
    + intros i x Hi Hx. apply andb_false_iff. right. destruct (has_name dotdot x) eqn:Hnx; [|done]. exfalso.
      assert (i = j); [|lia]. eapply (dw_unique _ _ Hwf); [exact Hx|exact He|by apply (has_name_set dotdot)|].
      apply has_name_eq in Hn, Hnx. congruence.
  - split; [done|]. split; [done|]. split; [done|]. unfold dir_lookup. rewrite (proj2 (wf_find cx _ _ e Hwf Hne)); [done|]. by exists j.
Qed.

Lemma wp_read_dot_block F m Q a : let d := a_disk a in
  disk_ok cx nblk d -> tree_ok cx nblk d F -> is_inode m -> is_dir cx d m = true -> dotdot_first cx d F m ->
  (forall j e b buf, (j < Z.to_nat epb)%nat -> dir_entries cx d m (F m).2 !! j = Some e -> has_name dotdot e = true -> edge d F m dotdot (d_inode_num e) ->
     (F m).2 !! 0%nat = Some b -> bs <= blen buf -> dirent_at (Z.of_nat j) (bsplice 0 (d b) buf) = e -> Q (Ok (bsplice 0 (d b) buf, j)) a) ->
  wp cx nblk (read_dot_block cx m) Q a.
Proof.
  intros d Hd Ht Hm Hdm Hdot HQ. pose proof (to_dir _ _ _ _ Ht m Hm Hdm) as Hdf. pose proof (bs_range cx nblk Hvol) as Hbs.
  destruct (epb_eq cx nblk Hvol) as [Hbe H16]. destruct (dotdot_entry_at d F m Ht Hm Hdm Hdot) as (j & e & Hj & He & Hn & Hf & Hed).
  destruct Hdot as [Hlen _]. unfold dir_entries in Hlen. rewrite length_dirent_slice in Hlen.
  pose proof (df_size cx nblk Hvol _ _ _ _ Hd Hdf) as (Hsz & _ & Hcp & _). pose proof (ceil_div_spec (i_size (inode_at cx d m)) bs ltac:(lia)) as Hcd.
  assert (Hfull : (0 + 1) * bs <= i_size (inode_at cx d m)) by lia.
  assert (Hc0 : 0 < ceil_div (i_size (inode_at cx d m)) bs).
  { apply Z.nle_gt. intros Hle. assert (bs * ceil_div (i_size (inode_at cx d m)) bs <= bs * 0) by (apply Z.mul_le_mono_nonneg_l; lia). lia. }
  unfold read_dot_block. apply wp_bind, wp_malloc; [lia|]. intros buf Hbuf. wp_simpl.
  apply wp_bind, (wp_read_dir_block cx nblk Hvol m (F m).1 (F m).2); [done|done|fold d; lia|lia|].
  intros rd frac b _ Hb Hes H10. destruct (H10 Hfull) as [-> ->]. wp_simpl. cbn [Z.eqb Pos.eqb negb orb].
  fold d in Hes, Hb |- *. change (dirent_num cx 0) with (Z.to_nat epb) in Hes.
  assert (Hbe0 : block_entries cx d m (F m).2 0 = take (Z.to_nat epb) (dir_entries cx d m (F m).2)).
  { rewrite <- (entries_from_0 cx), (entries_from_step cx nblk Hvol) by done.
    assert (Hl : length (block_entries cx d m (F m).2 0) = Z.to_nat epb) by (unfold block_entries; rewrite length_dirent_slice; lia).
    by rewrite <- Hl, take_app_length. }
  rewrite Hbe0 in Hes. unfold dotdot_slot. change (entries_per_blk cx) with epb. rewrite Hes.
  assert (Hft : find_idx (fun e => in_use e && has_name dotdot e) (take (Z.to_nat epb) (dir_entries cx d m (F m).2)) = Some j).
  { apply find_idx_Some in Hf as [(x & Hx & Hfx) Hlt]. apply find_idx_Some. split; [exists x; split; [by rewrite lookup_take_lt|done]|].
    intros i y Hi Hy. apply (Hlt i y Hi). by apply lookup_take_Some in Hy as [? _]. }
  rewrite Hft. apply (HQ j e b buf); try done; [lia|]. symmetry.
  apply (dirents_lookup (Z.to_nat epb) (bsplice 0 (d b) buf) j e). by rewrite Hes, lookup_take_lt.
Qed.

Lemma wp_read_dotdot F m Q a : let d := a_disk a in
  disk_ok cx nblk d -> tree_ok cx nblk d F -> is_inode m -> is_dir cx d m = true -> dotdot_first cx d F m ->
  (forall p, edge d F m dotdot p -> Q (Ok p) a) ->
  wp cx nblk (read_dotdot_parent cx m) Q a.
Proof.
  intros d Hd Ht Hm Hdm Hdot HQ. unfold read_dotdot_parent. apply wp_bind, (wp_read_dot_block F m); try done. fold d.
  intros j e b buf _ _ _ Hed _ _ He. wp_simpl. rewrite He. pose proof (vo_inodes _ _ Hvol).
  assert (Hp : is_inode (d_inode_num e)) by (destruct Hed as (_ & _ & Hc & Hl); by apply (dir_lookup_inode cx nblk d F m dotdot)).
  rewrite s32_small by lia. by apply HQ.
Qed.

(** The climb along [..] meets exactly the inodes between [start] and the root. *)
Lemma wp_ancestor_loop F m start l fuel Q a : let d := a_disk a in
  disk_ok cx nblk d -> fs_ok d F -> is_inode start -> is_dir cx d start = true -> lineage (edge d F) start l -> (length (start :: l) <= fuel)%nat ->
  Q (Ok (bool_decide (m ∈ start :: l))) a ->
  wp cx nblk (ancestor_loop cx m fuel start) Q a.
Proof.
  intros d Hd Hfs Hi Hdir Hl. pose proof (fs_names _ _ _ _ Hfs) as Hok. revert fuel Hi Hdir.
  induction Hl as [|start n c l Hl IH Hp He]; intros fuel Hi Hdir Hfuel HQ; (destruct fuel as [|fuel]; [simpl in Hfuel; lia|]); cbn [ancestor_loop].
  { destruct (Z.eqb_spec root m) as [<-|Hne]; [by rewrite bool_decide_eq_true_2 in HQ by left|].
    rewrite Z.eqb_refl. rewrite bool_decide_eq_false_2 in HQ; [done|]. by intros [?|?%elem_of_nil]%elem_of_cons. }
  destruct (Z.eqb_spec start m) as [<-|Hne]; [by rewrite bool_decide_eq_true_2 in HQ by left|].
  assert (Hr : start <> root) by (intros ->; by apply (nm_root _ _ _ Hok n c)). rewrite (proj2 (Z.eqb_neq _ _) Hr).
  apply wp_bind, (wp_read_dotdot F start); [done|apply Hfs|done|done|by apply (fs_dots _ _ _ _ Hfs)|]. fold d. intros p Hdd. wp_simpl.
  destruct (nm_dotdot _ _ _ Hok _ _ Hdd) as [[? _]|(c' & Hp' & He')]; [done|].
  destruct (nm_single _ _ _ Hok n c p c' start) as [<- _]; [done..|].
  assert (Hnd : NoDup (start :: n :: l)) by (apply (lineage_NoDup (inode_num sb) (edge d F) (inode_bit cx d)); [done|by econstructor]).
  apply NoDup_cons in Hnd as [Hnin _]. rewrite (proj2 (Z.eqb_neq n start)) by (intros ->; apply Hnin; left).
  destruct (edge_dir cx d F n c start He) as [Hni Hdn]. apply IH; try done; [simpl in *; lia|].
  erewrite bool_decide_ext; [exact HQ|]. rewrite (elem_of_cons (n :: l)). split; [by right|]. by intros [->|?].
Qed.

Lemma wp_directory_is_ancestor F m start l Q a : let d := a_disk a in
  disk_ok cx nblk d -> fs_ok d F -> is_inode start -> is_dir cx d start = true -> lineage (edge d F) start l ->
  Q (Ok (bool_decide (m ∈ start :: l))) a ->
  wp cx nblk (directory_is_ancestor cx m start) Q a.
Proof.
  intros d Hd Hfs Hi Hdir Hl HQ. apply (wp_ancestor_loop F m start l); try done.
  eapply (lineage_short (inode_num sb) (edge d F) (inode_bit cx d)); [apply Hfs|apply (fs_tree _ _ _ _ Hfs)|done].
Qed.

(** An entry is overwritten in place. *)
Lemma wrote_entry d d1 n nodes ptrs j e : disk_ok cx nblk d -> is_inode n -> file_map cx nblk d n nodes ptrs ->
  wrote cx nblk d d1 ptrs (32 * Z.of_nat j) (encode_dirent e) -> dirent_fits e -> 32 * Z.of_nat j + 32 <= blen ptrs * bs ->
  (j < length (dir_entries cx d n ptrs))%nat -> dir_entries cx d1 n ptrs = <[j := e]> (dir_entries cx d n ptrs).
Proof.
  intros Hd Hn Hm Hw He Hmax Hlen. pose proof (fm_range _ _ _ _ _ _ Hm) as Hr. pose proof (inode_at_fits cx nblk Hvol d n Hd Hn) as Hfit.
  unfold dir_entries in Hlen. rewrite length_dirent_slice in Hlen. fold (entry_num cx d n) in Hlen.
  destruct (entries_stored cx nblk Hvol d d1 n nodes ptrs (Z.of_nat j) e (inode_at cx d n) Hd Hn Hm Hw He ltac:(lia) Hmax Hfit) as [H _].
  rewrite Nat2Z.id in H. rewrite <- H by (done || lia). unfold dir_entries.
  rewrite (inode_at_put cx nblk Hvol) by (try done; apply Hw). rewrite Z.eqb_refl, (wrote_inode cx nblk Hvol d d1 ptrs _ _ n Hr Hw Hn). f_equal.
  symmetry. apply content_ext. intros b Hb. apply (put_inode_high cx nblk Hvol); [done|]. rewrite Forall_forall in Hr. apply Hr in Hb. lia.
Qed.

Section redirect.
Context (es : list mofs_dirent_t) (j : nat) (e e' : mofs_dirent_t).
Context (Hwf : dir_wf cx es) (Hj : es !! j = Some e) (Hname : d_name e' = d_name e) (Hnum : 0 < d_inode_num e' < inode_num sb).

Lemma redirect_lookup i : <[j := e']> es !! i = if decide (i = j) then Some e' else es !! i.
Proof using Hj. destruct (decide (i = j)) as [->|Hne]; [apply list_lookup_insert_eq; by apply lookup_lt_Some in Hj|by apply list_lookup_insert_ne]. Qed.

Lemma redirect_wf : dir_wf cx (<[j := e']> es).
Proof using Hwf Hj Hname Hnum.
  split.
  - intros x Hx Hs. apply list_elem_of_lookup_1 in Hx as (i & Hi). rewrite redirect_lookup in Hi. case_decide; simplify_eq; [done|].
    apply (dw_used _ _ Hwf); [by eapply list_elem_of_lookup_2|done].
  - assert (Hof : forall i x, <[j := e']> es !! i = Some x -> exists y, es !! i = Some y /\ d_name x = d_name y).
    { intros i x Hi. rewrite redirect_lookup in Hi. destruct (decide (i = j)) as [->|_]; [|by exists x]. injection Hi as <-. by exists e. }
    intros i k x y Hi Hk Hs Hc. destruct (Hof i x Hi) as (x' & Hx & Hnx), (Hof k y Hk) as (y' & Hy & Hny).
    unfold name_set in Hs. rewrite Hnx in Hs, Hc. rewrite Hny in Hc. by apply (dw_unique _ _ Hwf i k x' y').
Qed.

Lemma redirect_find c : c <> [] ->
  d_inode_num <$> List.find (has_name c) (<[j := e']> es) =
  if has_name c e then Some (d_inode_num e') else d_inode_num <$> List.find (has_name c) es.
Proof using Hwf Hj Hname Hnum.
  intros Hc. pose proof redirect_wf as Hwf'. assert (Hnn : has_name c e' = has_name c e) by (unfold has_name; by rewrite Hname).
  destruct (has_name c e) eqn:Hn.
  - rewrite (proj2 (wf_find cx _ c e' Hwf' Hc)); [done|]. exists j. by rewrite redirect_lookup, decide_True.
  - f_equal. apply (wf_find_eq cx); [done|done|done|]. intros x Hx. split; intros (i & Hi).
    + rewrite redirect_lookup in Hi. case_decide; [|by exists i]. simplify_eq. congruence.
    + exists i. rewrite redirect_lookup. case_decide; [|done]. simplify_eq. congruence.
Qed.

End redirect.

(** The names with [..] of [m] leading to [p]. *)
Definition reparented (E : names) (m p : Z) : names := fun k c x => E k c x /\ ~ (k = m /\ c = dotdot) \/ k = m /\ c = dotdot /\ x = p.

Lemma wp_rewrite_dotdot F m p Q a : let d := a_disk a in
  disk_ok cx nblk d -> vol_files cx nblk d F -> tree_ok cx nblk d F -> is_inode m -> is_dir cx d m = true -> dotdot_first cx d F m -> 0 < p < inode_num sb ->
  (forall d', rewired d d' F (reparented (edge d F) m p) [] [m] -> Q (Ok tt) (set_disk d' a)) ->
  wp cx nblk (rewrite_dotdot cx m p) Q a.
Proof.
  intros d Hd HF Ht Hm Hdm Hdot Hp HQ. pose proof (to_dir _ _ _ _ Ht m Hm Hdm) as Hdf. pose proof (df_map _ _ _ _ _ _ Hdf) as Hmap.
  pose proof (to_entries _ _ _ _ Ht m Hm Hdm) as Hwf. pose proof (fm_range _ _ _ _ _ _ Hmap) as Hr.
  pose proof (bs_range cx nblk Hvol) as Hbs. destruct (epb_eq cx nblk Hvol) as [Hbe H16]. pose proof (vo_inodes _ _ Hvol) as Hmax.
  unfold rewrite_dotdot. apply wp_bind, (wp_read_dot_block F m); try done. fold d. intros j e b buf Hj He Hn _ Hb Hbuf Hat. wp_simpl. rewrite Hat.
  set (e' := mkDirent (d_name e) (u32 p)).
  assert (Hnum : d_inode_num e' = p) by (apply u32_small; lia).
  assert (Hlb : bs <= blen (bsplice 0 (d b) buf)) by (by apply (block_buf_len cx nblk Hvol d m (F m).1 (F m).2 0 b)).
  assert (Hfit : dirent_fits e').
  { split; [|rewrite Hnum; lia]. cbn [e' d_name]. rewrite <- Hat. unfold dirent_at, decode_dirent. cbn [d_name].
    assert (blen (bslice 0 28 (bslice (Z.of_nat j * 32) 32 (bsplice 0 (d b) buf))) = 28); [|lia]. rewrite !length_bslice; rewrite ?length_bslice; lia. }
  assert (Hlp : 0 < blen (F m).2) by (apply lookup_lt_Some in Hb; lia).
  assert (Hmul : bs <= blen (F m).2 * bs) by (transitivity (1 * bs); [lia|]; apply Z.mul_le_mono_nonneg_r; lia).
  apply wp_bind, (wp_write_slot cx nblk Hvol m (F m).1 (F m).2 0 (Z.of_nat j) b e'); try done; try lia. fold d.
  intros d1 Hw. wp_simpl. cbn [Z.eqb Pos.eqb negb orb]. replace (32 * (0 * epb + Z.of_nat j)) with (32 * Z.of_nat j) in Hw by lia.
  pose proof (wrote_entry d d1 m _ _ j e' Hd Hm Hmap Hw Hfit ltac:(lia) ltac:(by apply lookup_lt_Some in He)) as Hes.
  pose proof (wrote_inode cx nblk Hvol d d1 _ _ _ m Hr Hw Hm) as Hino. pose proof (wrote_files cx nblk Hvol d d1 F m _ _ HF Hm Hw) as HF1.
  apply HQ. apply rewired_dir; try done.
  - unfold is_dir. by rewrite Hino.
  - apply Hw.
  - intros k Hk Hne. by apply (wrote_same cx nblk Hvol d d1 F m k _ _ HF Hm Hk Hne Hw).
  - intros x Hx. pose proof Hvol as []. apply (wrote_low cx nblk d d1 _ _ _ x Hr Hw). lia.
  - split; [done|by apply HF1|]. unfold covers. rewrite Hino. by destruct Hdf.
  - rewrite Hes. apply (redirect_wf _ j e e'); try done. by rewrite Hnum.
  - intros (Hlen & _). unfold dotdot_first. rewrite Hes, length_insert. split; [done|]. exists j, e'. split; [done|].
    split; [|done]. apply list_lookup_insert_eq. by apply lookup_lt_Some in He.
  - intros k c x Hk. unfold reparented. split; [by intros [[? _]|(? & _)]|]. intros H. left. split; [done|]. by intros [? _].
  - intros c x. unfold reparented, edge, dir_lookup. rewrite Hes.
    destruct (decide (c = [])) as [->|Hc]; [split; [by intros [[(_ & _ & ? & _) _]|(_ & ? & _)]|by intros [? _]]|].
    rewrite (redirect_find _ j e e') by (try done; by rewrite Hnum). rewrite Hnum.
    destruct (has_name c e) eqn:Hce.
    + apply has_name_eq in Hn, Hce. assert (c = dotdot) as -> by congruence. split.
      * intros [[_ H]|(_ & _ & ->)]; [by destruct H|done].
      * intros [_ [= ->]]. by right.
    + split.
      * intros [[(_ & _ & _ & Hl) _]|(_ & -> & _)]; [done|]. congruence.
      * intros [_ Hl]. left. split; [done|]. intros [_ ->]. congruence.
Qed.

End movespec.
