(* ===== verification/RenameSpec.v ===== *)
(** * [mofs_rename_core] *)

From Stdlib Require Import ZArith Lia.
From stdpp Require Import base list list_numbers.
From S2P Require Import Prelude Types Platform Raw Buffer BufferSpec Ops Bitmap Inode Block FileData Perm Dirent Path File Dir Volume BlockSpec AllocSpec FreeSpec InodeSpec VolInv FileSpec FileInv PermSpec DirSpec PathSpec EntrySpec TreeSpec NameSpec FsSpec RmdirSpec MoveSpec.

Section renamespec.
Context (cx : mofs_ctx_t) (nblk : Z) (Hvol : vol_ok cx nblk).
Abbreviation sb := (sp_blk cx).
Abbreviation bs := (blk_size (sp_blk cx)).
Abbreviation is_inode n := (0 <= n < inode_num (sp_blk cx)).
Abbreviation root := MOFS_ROOT_INODE_NUM.
Abbreviation fs_ok := (fs_ok cx nblk).
Abbreviation edge := (edge cx).
Abbreviation rewired := (rewired cx nblk).

(** May the caller change the directory [n]? *)
Definition may_change (a : astate) (n : Z) : bool :=
  may_write (a_caller a) (inode_at cx (a_disk a) n) && may_exec (a_caller a) (inode_at cx (a_disk a) n).

Lemma wp_require_parent_write n Q a : disk_ok cx nblk (a_disk a) -> u_valid (a_caller a) = true -> is_inode n -> is_dir cx (a_disk a) n = true ->
  may_change a n = true -> Q (Ok tt) a -> wp cx nblk (require_parent_write cx n) Q a.
Proof.
  intros Hd Hu Hn Hdir Hw HQ. unfold require_parent_write. apply wp_bind, wp_require_caller; [done|]. wp_simpl.
  apply wp_bind, (wp_read_inode cx nblk Hvol); [done|done|]. wp_simpl. fold (is_dir cx (a_disk a) n). rewrite Hdir. cbn [negb].
  apply wp_check_dir_write; [done|]. unfold may_change in Hw. by rewrite Hw.
Qed.

Lemma wp_adjust_dir_nlink F n delta Q a : let d := a_disk a in let l := u16 (i_links (inode_at cx d n) + delta) in
  disk_ok cx nblk d -> vol_files cx nblk d F -> tree_ok cx nblk d F -> is_inode n -> (delta < 0 -> i_links (inode_at cx d n) <> 0) ->
  (forall d', touched cx nblk d d' F n -> i_links (inode_at cx d' n) = l -> Q (Ok tt) (set_disk d' a)) ->
  wp cx nblk (adjust_dir_nlink cx n delta) Q a.
Proof.
  intros d l Hd HF Ht Hn Hl HQ. unfold adjust_dir_nlink. apply wp_bind, (wp_read_inode cx nblk Hvol); [done|done|]. wp_simpl. fold d.
  assert (Hz : (delta <? 0) && (i_links (inode_at cx d n) =? 0) = false).
  { apply andb_false_iff. destruct (Z.ltb_spec delta 0); [right; apply Z.eqb_neq; auto|by left]. }
  rewrite Hz. apply (wp_put_links cx nblk Hvol F); try done. apply Z.mod_pos_bound. lia.
Qed.

(** ** Links *)

Lemma changed_links d d1 F n es k : dir_changed cx nblk d d1 F n es -> is_inode k -> i_links (inode_at cx d1 k) = i_links (inode_at cx d k).
Proof.
  intros Hch Hk. destruct (decide (k = n)) as [->|Hne].
  - by destruct (dc_inode _ _ _ _ _ _ _ Hch) as (sz & t & ->).
  - by destruct (dc_others _ _ _ _ _ _ _ Hch k Hk Hne) as [-> _].
Qed.

Lemma touched_links d d1 F n k l : touched cx nblk d d1 F n -> i_links (inode_at cx d1 n) = l -> is_inode k ->
  i_links (inode_at cx d1 k) = if k =? n then l else i_links (inode_at cx d k).
Proof.
  intros Hto Hl Hk. destruct (Z.eqb_spec k n) as [->|Hne]; [done|]. by destruct (to_others _ _ _ _ _ _ Hto k Hk Hne) as [-> _].
Qed.

(** ** Moving *)

(** The links of [k] after a directory moved from [n1] to [n2]. *)
Definition moved_links (d : disk) (n1 n2 : Z) (dir : bool) (k : Z) : Z :=
  let l := i_links (inode_at cx d k) in
  if dir && negb (n1 =? n2) then if k =? n2 then u16 (l + 1) else if k =? n1 then l - 1 else l else l.

(** The inode [m] was moved from the name [c1] of [n1] to the name [c2] of [n2]. *)
Record relocated (d d' : disk) (F : files) (n1 : Z) (c1 : cstr) (n2 : Z) (c2 : cstr) (m : Z) : Prop := {
  rl_ok : disk_ok cx nblk d';
  rl_fs : fs_ok d' F;
  rl_names : forall k c x, edge d' F k c x <-> moved (edge d F) n1 c1 n2 c2 m k c x;
  rl_others : forall k, is_inode k -> k <> n1 -> k <> n2 -> k <> m -> same_file cx d d' F k;
  rl_node : exists t, inode_at cx d' m = stamp_times t MOFS_INODE_TIME_CTIME (inode_at cx d m);
  rl_data : is_dir cx d m = false -> forall b, b ∈ file_blocks F m -> d' b = d b;
  rl_links : forall k, is_inode k -> i_links (inode_at cx d' k) = moved_links d n1 n2 (is_dir cx d m) k;
  rl_bits : forall k, is_inode k -> inode_bit cx d' k = inode_bit cx d k
}.

(** What has to hold for the entry to go to the name [c2] of [n2]. *)
Record move_pre (d : disk) (F : files) (n1 : Z) (c1 : cstr) (n2 : Z) (c2 : cstr) (m : Z) : Prop := {
  mp_disk : disk_ok cx nblk d;
  mp_fs : fs_ok d F;
  mp_edge : edge d F n1 c1 m;
  mp_proper : proper c1 /\ proper c2;
  mp_dir : is_inode n2 /\ is_dir cx d n2 = true;
  mp_name : no_nul c2 = true /\ blen c2 < 28;
  mp_none : dir_lookup cx d F n2 c2 = None;
  mp_whole : i_size (inode_at cx d n2) mod 32 = 0;
  mp_limit : entry_num cx d n2 < 1024 * (bs / 32);
  (** the entry that is removed makes room in its directory *)
  mp_room : n1 <> n2 -> entry_room cx d n2 (dir_entries cx d n2 (F n2).2);
  mp_links : is_dir cx d m = true -> n1 <> n2 -> 0 < i_links (inode_at cx d n1)
}.

(** The two updates of entries. *)
Definition entry_moved (E : Z -> cstr -> Z -> Prop) n1 c1 n2 c2 (m : Z) : Z -> cstr -> Z -> Prop :=
  fun k c x => (E k c x /\ ~ (k = n1 /\ c = c1)) \/ k = n2 /\ c = c2 /\ x = m.

Lemma move_facts d F n1 c1 n2 c2 m : move_pre d F n1 c1 n2 c2 m ->
  is_inode n1 /\ is_dir cx d n1 = true /\ is_inode m /\ inode_bit cx d m = true /\ m <> root /\ 3 <= m.
Proof.
  intros [_ Hfs He [Hp1 _] _ _ _ _ _ _ _]. destruct (edge_dir cx d F n1 c1 m He) as [Hn1 Hd1]. destruct (edge_used cx nblk d F n1 c1 m Hfs He) as [Hm Hb].
  assert (Hr : m <> root) by (intros ->; by apply (nm_root _ _ _ (fs_names _ _ _ _ Hfs) n1 c1)).
  do 5 (split; [done|]). by apply (edge_ge_3 cx nblk d F n1 c1).
Qed.

Lemma wp_move_entry {A} F n1 c1 n2 c2 m (rb : prog unit) (kt : prog A) Q a : let d := a_disk a in
  move_pre d F n1 c1 n2 c2 m ->
  (forall d', disk_ok cx nblk d' -> rewired d d' F (entry_moved (edge d F) n1 c1 n2 c2 m) [n1; n2] [n1; n2] ->
     (forall k, is_inode k -> i_links (inode_at cx d' k) = i_links (inode_at cx d k)) -> wp cx nblk kt Q (set_disk d' a)) ->
  wp cx nblk (remove_dir_entry cx c1 n1;; on_error (add_dir_entry cx c2 n2 m) rb;; kt) Q a.
Proof.
  intros d Hpre HQ. destruct (move_facts d F n1 c1 n2 c2 m Hpre) as (Hn1 & Hd1 & Hm & _ & Hr & Hm3).
  destruct Hpre as [Hd Hfs He [[Hc1 Hp1] [Hc2 Hp2]] [Hn2 Hd2] [Hnul Hlen] Hnone Hwh Hlim Hroom _]. pose proof (fs_tree _ _ _ _ Hfs) as Ht.
  pose proof (to_entries _ _ _ _ Ht n1 Hn1 Hd1) as Hwf1. destruct He as (_ & _ & _ & Hl1).
  apply wp_bind, (wp_remove_dir_entry cx nblk Hvol c1 F n1); try done; [apply Hfs|by apply (to_dir _ _ _ _ Ht)|]. fold d.
  pose proof (wf_live_named cx (dir_entries cx d n1 (F n1).2) c1 Hwf1 Hc1) as Hlive. unfold dir_lookup in Hl1.
  destruct (find_idx (live_named c1) (dir_entries cx d n1 (F n1).2)) as [j|] eqn:Hj; [|by rewrite Hlive in Hl1].
  intros da Hcha. wp_simpl. apply not_dots in Hp1 as [_ Hcd].
  pose proof (rewired_remove cx nblk Hvol d da F n1 c1 j Ht Hn1 Hd1 Hc1 Hcd Hj Hcha) as Hrwa.
  pose proof (rw_tree _ _ _ _ _ _ _ _ Hrwa) as Hta. assert (Hda2 : is_dir cx da n2 = true) by (by rewrite (rw_is_dir _ _ _ _ _ _ _ _ Hrwa)).
  assert (Hsz2 : i_size (inode_at cx da n2) mod 32 = 0 /\ length (dir_entries cx da n2 (F n2).2) = length (dir_entries cx d n2 (F n2).2) /\
    entry_room cx da n2 (dir_entries cx da n2 (F n2).2)).
  { destruct (decide (n1 = n2)) as [<-|Hne].
    - rewrite (dc_entries _ _ _ _ _ _ _ Hcha) at 1. rewrite length_insert. split; [by apply Hcha|]. split; [done|].
      eapply (slot_room cx nblk Hvol _ _ _ j zero_dirent); [apply Hcha|done| |done]. rewrite (dc_entries _ _ _ _ _ _ _ Hcha).
      apply list_lookup_insert_eq. by eapply find_idx_lt.
    - destruct (dc_others _ _ _ _ _ _ _ Hcha n2 Hn2 (not_eq_sym Hne)) as [Hi Hb].
      destruct (same_entries cx nblk d da F n2 (dc_files _ _ _ _ _ _ _ Hcha) Hn2 (conj Hi Hb)) as (_ & Hes & _).
      rewrite Hes. unfold entry_room. rewrite Hi. split; [done|]. split; [done|]. by apply Hroom. }
  destruct Hsz2 as (Hwha & Hlena & Hrooma). unfold dir_entries in Hlena. rewrite !length_dirent_slice in Hlena.
  pose proof (fits_size _ (inode_at_fits cx nblk Hvol da n2 ltac:(apply Hcha) Hn2)) as [Hs0a _]. pose proof (fits_size _ (inode_at_fits cx nblk Hvol d n2 Hd Hn2)) as [Hs0 _].
  assert (Hnonea : dir_lookup cx da F n2 c2 = None).
  { destruct (dir_lookup cx da F n2 c2) as [x|] eqn:Hx; [|done].
    assert (Hex : edge da F n2 c2 x) by done. apply (rw_names _ _ _ _ _ _ _ _ Hrwa) in Hex as [(_ & _ & _ & Hex) _]. congruence. }
  assert (Hdup : existsb (entry_dup c2) (dir_entries cx da n2 (F n2).2) = false).
  { rewrite (wf_dup cx); [|by apply (to_entries _ _ _ _ Hta)|done]. clear Hrooma. unfold dir_lookup in Hnonea.
    destruct (List.find (has_name c2) (dir_entries cx da n2 (F n2).2)); [discriminate Hnonea|done]. }
  apply wp_bind, wp_on_error, (wp_add_dir_entry cx nblk Hvol c2 m F n2); cbn [a_disk set_disk]; try done; try lia; [apply Hcha|apply Hcha|by apply (to_dir _ _ _ _ Hta)|unfold entry_num in *; lia|].
  rewrite Hdup. split; [done|]. intros db Hchb. wp_simpl. apply (HQ db); [apply Hchb| |].
  - apply (rewired_names cx nblk d db F (fun k c x => edge da F k c x \/ k = n2 /\ c = c2 /\ x = m)).
    { intros k c x. unfold entry_moved. by rewrite (rw_names _ _ _ _ _ _ _ _ Hrwa). }
    apply (rewired_trans cx nblk d da db F _ _ [n1] [n2] [n1] [n2] Hrwa). apply rewired_add; try done. lia.
  - intros k Hk. rewrite (changed_links da db F n2 _ k Hchb Hk). by apply (changed_links d da F n1 _ k Hcha).
Qed.

Lemma entry_moved_same (E : Z -> cstr -> Z -> Prop) n1 c1 n2 c2 m k c x : proper c1 -> (forall y, E m dotdot y -> y = n2) ->
  entry_moved E n1 c1 n2 c2 m k c x <-> moved E n1 c1 n2 c2 m k c x.
Proof.
  intros Hp Hdd. unfold entry_moved, moved. split.
  - intros [[H H1]|H]; [|right; by left]. destruct (decide (k = m)) as [->|Hk]; [|left; tauto].
    destruct (decide (c = dotdot)) as [->|Hc]; [|left; tauto]. right. right. split; [done|]. split; [done|]. split; [by apply Hdd|by exists x].
  - intros [(H & H1 & _)|[H|(-> & -> & -> & y & Hy)]]; [by left|by right|]. left. rewrite <- (Hdd y Hy) at 1. split; [done|].
    intros [_ <-]. by apply proper_dotdot in Hp.
Qed.

Lemma entry_moved_reparented (E : Z -> cstr -> Z -> Prop) n1 c1 n2 c2 m k c x : m <> n2 -> (exists y, E m dotdot y) ->
  reparented (entry_moved E n1 c1 n2 c2 m) m n2 k c x <-> moved E n1 c1 n2 c2 m k c x.
Proof.
  intros Hne Hy. unfold reparented, entry_moved, moved. split.
  - intros [[[[H H1]|(-> & -> & ->)] H2]|(-> & -> & ->)]; tauto.
  - intros [(H & H1 & H2)|[(-> & -> & ->)|(-> & -> & -> & _)]]; [left; tauto| |by right]. left. split; [by right|]. by intros [? _].
Qed.

Lemma wp_rename_reparent F old_info new_info Q a : let d := a_disk a in
  let n1 := parent_inode_num old_info in let n2 := parent_inode_num new_info in let m := leaf_inode_num old_info in
  disk_ok cx nblk d -> vol_files cx nblk d F -> tree_ok cx nblk d F -> is_inode n1 -> 0 < n2 < inode_num sb -> is_inode m -> n1 <> n2 ->
  is_dir cx d m = true -> dotdot_first cx d F m -> 0 < i_links (inode_at cx d n1) < 2 ^ 16 ->
  (forall d', disk_ok cx nblk d' -> rewired d d' F (reparented (edge d F) m n2) [n1; n2] [m] ->
     (forall k, is_inode k -> i_links (inode_at cx d' k) = moved_links d n1 n2 true k) -> Q (Ok tt) (set_disk d' a)) ->
  wp cx nblk (rename_reparent cx old_info new_info) Q a.
Proof.
  intros d n1 n2 m Hd HF Ht Hn1 Hn2 Hm Hne Hdm Hdot Hlk HQ. unfold rename_reparent. fold n1 n2 m.
  apply wp_on_error, wp_bind, (wp_rewrite_dotdot cx nblk Hvol F m n2); try done. fold d. intros d1 Hr1. wp_simpl.
  assert (Hl1 : forall k, is_inode k -> i_links (inode_at cx d1 k) = i_links (inode_at cx d k)).
  { intros k Hk. by rewrite (rw_inode _ _ _ _ _ _ _ _ Hr1 k Hk (not_elem_of_nil k)). }
  apply wp_bind, (wp_adjust_dir_nlink F n1 (-1)); cbn [a_disk set_disk]; [apply Hr1|apply Hr1|apply Hr1|done|rewrite Hl1 by done; lia|].
  intros d2 Ht2 Hl2. wp_simpl. pose proof (rewired_touched cx nblk d1 d2 F n1 Ht2) as Hr2.
  apply wp_on_error, (wp_adjust_dir_nlink F n2 1); cbn [a_disk set_disk]; [apply Ht2|apply Ht2|apply Ht2|lia|lia|].
  intros d3 Ht3 Hl3. pose proof (rewired_touched cx nblk d2 d3 F n2 Ht3) as Hr3. apply (HQ d3); [apply Ht3| |].
  - pose proof (rewired_trans cx nblk _ _ _ _ _ _ _ _ _ _ (rewired_trans cx nblk _ _ _ _ _ _ _ _ _ _ Hr1 Hr2) Hr3) as Hr.
    eapply rewired_names; [|exact Hr]. intros k c x.
    by rewrite (rw_names _ _ _ _ _ _ _ _ Hr2), (rw_names _ _ _ _ _ _ _ _ Hr1).
  - intros k Hk. rewrite (touched_links d2 d3 F n2 k _ Ht3 Hl3 Hk), (touched_links d1 d2 F n1 k _ Ht2 Hl2 Hk), (touched_links d1 d2 F n1 n2 _ Ht2 Hl2), Hl1, !Hl1 by (done || lia).
    unfold moved_links. rewrite (proj2 (Z.eqb_neq n1 n2) Hne), (proj2 (Z.eqb_neq n2 n1) (not_eq_sym Hne)). cbn [andb negb].
    destruct (Z.eqb_spec k n2) as [->|]; [done|]. destruct (Z.eqb_spec k n1) as [->|]; [|done].
    unfold u16. rewrite Z.mod_small; lia.
Qed.

(** The end of a move: the times of the moved inode. *)
Lemma relocated_stamped d d1 F n1 c1 n2 c2 m E I B t : fs_ok d F -> is_inode m -> is_inode n2 -> is_dir cx d n2 = true -> edge d F n1 c1 m -> proper c1 -> proper c2 ->
  dir_lookup cx d F n2 c2 = None -> not_above (edge d F) m n2 -> disk_ok cx nblk d1 -> rewired d d1 F E I B ->
  (forall k c x, E k c x <-> moved (edge d F) n1 c1 n2 c2 m k c x) ->
  (forall k, k ∈ I -> k = n1 \/ k = n2) -> (forall k, k ∈ B -> k = n1 \/ k = n2 \/ k = m) -> m <> n1 -> m <> n2 -> (is_dir cx d m = false -> m ∉ B) ->
  (forall k, is_inode k -> i_links (inode_at cx d1 k) = moved_links d n1 n2 (is_dir cx d m) k) -> 0 <= t < 2 ^ 64 ->
  relocated d (put_inode cx d1 m (stamp_times t MOFS_INODE_TIME_CTIME (inode_at cx d1 m))) F n1 c1 n2 c2 m.
Proof.
  intros Hfs Hm Hn2 Hd2 He Hp1 Hp2 Hnone Habove Hd1 Hrw HE HI HB Hm1 Hm2 HBm Hlk Ht. set (i := stamp_times _ _ _).
  pose proof (inode_at_fits cx nblk Hvol d1 m Hd1 Hm) as Hf1. assert (Hfit : inode_fits i) by (by apply stamp_times_fits).
  assert (Hto : touched cx nblk d1 (put_inode cx d1 m i) F m) by (apply put_inode_touched; try done; apply Hrw).
  pose proof (rewired_touched cx nblk _ _ _ _ Hto) as Hr2. set (d' := put_inode cx d1 m i) in *.
  assert (Hr : rewired d d' F (moved (edge d F) n1 c1 n2 c2 m) (I ++ [m]) (B ++ [])).
  { eapply rewired_names; [|exact (rewired_trans cx nblk _ _ _ _ _ _ _ _ _ _ Hrw Hr2)]. intros k c x.
    by rewrite (rw_names _ _ _ _ _ _ _ _ Hrw), HE. }
  assert (HmI : m ∉ I) by (intros [?|?]%HI; done).
  assert (Hat : inode_at cx d' m = i) by (unfold d'; rewrite (inode_at_put cx nblk Hvol) by done; by rewrite Z.eqb_refl).
  split.
  - apply Hto.
  - eapply fs_rewired; [exact Hfs|exact Hr|]. apply names_move; try done; [apply Hfs|intros x (_ & _ & _ & H); congruence|].
    by apply (dir_used cx nblk d F n2).
  - apply Hr.
  - intros k Hk H1 H2 H3. eapply rewired_same; [exact Hr|done|..].
    + rewrite elem_of_app, elem_of_cons, elem_of_nil. intros [[?|?]%HI|[?|?]]; done.
    + rewrite elem_of_app, elem_of_nil. intros [[?|[?|?]]%HB|?]; done.
  - exists t. rewrite Hat. unfold i. by rewrite (rw_inode _ _ _ _ _ _ _ _ Hrw m Hm HmI).
  - intros Hreg b Hb. apply (rw_blocks _ _ _ _ _ _ _ _ Hr m b Hm); [|done]. rewrite app_nil_r. by apply HBm.
  - intros k Hk. destruct (decide (k = m)) as [->|Hne]; [rewrite Hat; by rewrite <- Hlk|].
    destruct (to_others _ _ _ _ _ _ Hto k Hk Hne) as [-> _]. by apply Hlk.
  - apply Hr.
Qed.

(** No directory holds a proper name of itself. *)
Lemma edge_not_self d F n c m : fs_ok d F -> edge d F n c m -> proper c -> m <> n.
Proof.
  intros Hfs He Hp ->. pose proof (fs_names _ _ _ _ Hfs) as Hok. destruct (edge_used cx nblk d F n c n Hfs He) as [Hn Hb].
  destruct (nm_reach _ _ _ Hok n Hn Hb) as [l Hl]. pose proof (lineage_step _ n n c l Hl Hp He) as Hl2.
  pose proof (lineage_unique _ _ _ n _ _ Hok Hl Hl2) as Heq. apply (f_equal length) in Heq. simpl in Heq. lia.
Qed.

(** The part of [mofs_rename_core] after the entry was moved. *)
Lemma wp_move_rest F d da n1 c1 n2 c2 m new_info sd Q a : let old_info := mkPathInfo n1 m true c1 in
  is_dir cx d m = sd -> parent_inode_num new_info = n2 -> move_pre d F n1 c1 n2 c2 m -> not_above (edge d F) m n2 -> m <> n2 ->
  disk_ok cx nblk da -> rewired d da F (entry_moved (edge d F) n1 c1 n2 c2 m) [n1; n2] [n1; n2] ->
  (forall k, is_inode k -> i_links (inode_at cx da k) = i_links (inode_at cx d k)) ->
  (forall d', relocated d d' F n1 c1 n2 c2 m -> Q (Ok tt) (set_disk d' a)) ->
  wp cx nblk
    ((if sd && negb (n1 =? n2) then rename_reparent cx old_info new_info else mret tt);;
     ignore (mofs_inode_stamp_persist cx m MOFS_INODE_TIME_CTIME)) Q (set_disk da a).
Proof.
  intros old_info Hsd0 Hpn Hpre Habove Hmn2 Hda Hrwa Hla HQ. destruct (move_facts d F n1 c1 n2 c2 m Hpre) as (Hn1 & Hd1 & Hm & Hbm & Hr & Hm3).
  pose proof Hpre as [Hd Hfs He [Hp1 Hp2] [Hn2 Hd2] _ Hnone _ _ _ Hlk]. pose proof (fs_tree _ _ _ _ Hfs) as Ht. pose proof (fs_names _ _ _ _ Hfs) as Hok.
  pose proof (edge_not_self d F n1 c1 m Hfs He Hp1) as Hmn1.
  assert (Hdma : is_dir cx da m = is_dir cx d m) by (by rewrite (rw_is_dir _ _ _ _ _ _ _ _ Hrwa)).
  assert (Hn2pos : 0 < n2).
  { pose proof (dir_used cx nblk d F n2 Hfs Hn2 Hd2) as Hub. destruct (Z.lt_ge_cases n2 2); [|lia].
    rewrite (fs_reserved _ _ _ _ Hfs n2) in Hub by (done || lia). done. }
  assert (Hstamp : forall db E I B, disk_ok cx nblk db -> rewired d db F E I B -> (forall k c x, E k c x <-> moved (edge d F) n1 c1 n2 c2 m k c x) ->
    (forall k, k ∈ I -> k = n1 \/ k = n2) -> (forall k, k ∈ B -> k = n1 \/ k = n2 \/ k = m) -> (is_dir cx d m = false -> m ∉ B) ->
    (forall k, is_inode k -> i_links (inode_at cx db k) = moved_links d n1 n2 (is_dir cx d m) k) ->
    wp cx nblk (ignore (mofs_inode_stamp_persist cx m MOFS_INODE_TIME_CTIME)) Q (set_disk db a)).
  { intros db E I B Hdb Hrw HE HI HB HBm Hlb. apply wp_ignore, (wp_stamp_persist cx nblk Hvol); [done|done|done|]. intros t Htt. cbn [a_disk set_disk].
    apply (HQ (put_inode cx db m (stamp_times t MOFS_INODE_TIME_CTIME (inode_at cx db m)))).
    by apply (relocated_stamped d db F n1 c1 n2 c2 m E I B t). }
  destruct (sd && negb (n1 =? n2)) eqn:Hsp.
  - apply andb_true_iff in Hsp as [Hsdt Hne]. assert (Hsd : is_dir cx d m = true) by congruence. apply negb_true_iff, Z.eqb_neq in Hne.
    pose proof (fs_dots _ _ _ _ Hfs m Hm Hsd Hr) as Hdot.
    assert (Hl1 : 0 < i_links (inode_at cx da n1) < 2 ^ 16).
    { rewrite Hla by done. specialize (Hlk Hsd Hne). pose proof (fits_links _ (inode_at_fits cx nblk Hvol d n1 Hd Hn1)). lia. }
    apply wp_bind, (wp_rename_reparent F old_info new_info); cbn [a_disk set_disk old_info parent_inode_num leaf_inode_num]; rewrite ?Hpn; try done;
      [apply Hrwa|apply Hrwa|lia|by rewrite Hdma|by apply (rw_dots _ _ _ _ _ _ _ _ Hrwa)|].
    intros db Hdb Hrwb Hlb. wp_simpl. pose proof (rewired_trans cx nblk _ _ _ _ _ _ _ _ _ _ Hrwa Hrwb) as Hrw.
    apply (Hstamp db _ _ _ Hdb Hrw).
    + intros k c x. rewrite <- (entry_moved_reparented (edge d F) n1 c1 n2 c2 m k c x) by
        (try done; destruct (dotdot_entry_at cx nblk d F m Ht Hm Hsd Hdot) as (j & e & _ & _ & _ & _ & Hed); by eexists).
      unfold reparented. by rewrite (rw_names _ _ _ _ _ _ _ _ Hrwa).
    + intros k. rewrite !elem_of_app, !elem_of_cons, !elem_of_nil. tauto.
    + intros k. rewrite !elem_of_app, !elem_of_cons, !elem_of_nil. tauto.
    + intros Hreg. congruence.
    + intros k Hk. rewrite Hlb by done. unfold moved_links. rewrite Hla by done. by rewrite Hsd.
  - wp_simpl. apply (Hstamp da _ _ _ Hda Hrwa).
    + intros k c x. apply entry_moved_same; [done|]. intros y Hy. destruct (is_dir cx d m) eqn:Hdm; [|by apply no_edges in Hy].
      rewrite <- Hsd0 in Hsp. cbn [andb] in Hsp. apply negb_false_iff, Z.eqb_eq in Hsp. subst n2.
      destruct (nm_dotdot _ _ _ Hok _ _ Hy) as [[? _]|(cc & Hp & Hyc)]; [done|].
      by destruct (nm_single _ _ _ Hok y cc n1 c1 m Hyc He Hp Hp1) as [-> _].
    + intros k. rewrite !elem_of_cons, !elem_of_nil. tauto.
    + intros k. rewrite !elem_of_cons, !elem_of_nil. tauto.
    + intros _. rewrite !elem_of_cons, !elem_of_nil. tauto.
    + intros k Hk. rewrite Hla by done. unfold moved_links. by rewrite Hsd0, Hsp.
Qed.

(** The part of [mofs_rename_core] after the destination was made free. *)
Lemma wp_move_tail F n1 c1 n2 c2 m new_info sd Q a : let d := a_disk a in let old_info := mkPathInfo n1 m true c1 in
  is_dir cx d m = sd -> parent_inode_num new_info = n2 -> leaf_name new_info = c2 ->
  move_pre d F n1 c1 n2 c2 m -> u_valid (a_caller a) = true -> may_change a n1 = true -> may_change a n2 = true ->
  (sd = true -> ~ not_above (edge d F) m n2 -> Q (Err MOFS_EINVAL) a) ->
  (not_above (edge d F) m n2 -> forall d', relocated d d' F n1 c1 n2 c2 m -> Q (Ok tt) (set_disk d' a)) ->
  wp cx nblk
    ((if sd then
        ancestor ← directory_is_ancestor cx (leaf_inode_num old_info) (parent_inode_num new_info);
        if (ancestor : bool) then throw MOFS_EINVAL else mret tt
      else mret tt);;
     require_parent_write cx (parent_inode_num old_info);;
     (if parent_inode_num old_info =? parent_inode_num new_info then mret tt
      else require_parent_write cx (parent_inode_num new_info));;
     remove_dir_entry cx (leaf_name old_info) (parent_inode_num old_info);;
     on_error (add_dir_entry cx (leaf_name new_info) (parent_inode_num new_info) (leaf_inode_num old_info))
       (ignore (add_dir_entry cx (leaf_name old_info) (parent_inode_num old_info) (leaf_inode_num old_info)));;
     (if sd && negb (parent_inode_num old_info =? parent_inode_num new_info)
      then rename_reparent cx old_info new_info else mret tt);;
     ignore (mofs_inode_stamp_persist cx (leaf_inode_num old_info) MOFS_INODE_TIME_CTIME)) Q a.
Proof.
  intros d old_info Hsd0 Hpn Hln Hpre Hu Hw1 Hw2 Hanc HQ. destruct (move_facts d F n1 c1 n2 c2 m Hpre) as (Hn1 & Hd1 & Hm & Hbm & Hr & Hm3).
  pose proof Hpre as [Hd Hfs He [Hp1 Hp2] [Hn2 Hd2] [Hnul Hlen] Hnone Hwh Hlim Hroom Hlk]. pose proof (fs_tree _ _ _ _ Hfs) as Ht. pose proof (fs_names _ _ _ _ Hfs) as Hok.
  cbn [old_info leaf_inode_num parent_inode_num leaf_name]. rewrite Hpn, Hln.
  destruct (nm_reach _ _ _ Hok n2 Hn2 (dir_used cx nblk d F n2 Hfs Hn2 Hd2)) as [l Hl].
  apply wp_bind.
  assert (Hcont : not_above (edge d F) m n2 -> wp cx nblk
    (require_parent_write cx n1;; (if n1 =? n2 then mret tt else require_parent_write cx n2);;
     remove_dir_entry cx c1 n1;; on_error (add_dir_entry cx c2 n2 m) (ignore (add_dir_entry cx c1 n1 m));;
     (if sd && negb (n1 =? n2) then rename_reparent cx old_info new_info else mret tt);;
     ignore (mofs_inode_stamp_persist cx m MOFS_INODE_TIME_CTIME)) Q a).
  2: { destruct sd; wp_simpl.
    - apply wp_bind, (wp_directory_is_ancestor cx nblk Hvol F m n2 l); try done. fold d. wp_simpl. case_bool_decide as Hin.
      + apply Hanc; [done|]. intros (l' & Hl' & Hni). rewrite (lineage_unique _ _ _ n2 l' l Hok Hl' Hl) in Hni. done.
      + wp_simpl. apply Hcont. by exists l.
    - apply Hcont. exists l. split; [done|]. intros [->|Hin]%elem_of_cons; [congruence|].
      eapply (lineage_has_child (edge d F) n2 l m Hl Hin). intros c x _. by apply no_edges. }
  intros Habove. specialize (HQ Habove).
  assert (Hmn2 : m <> n2) by (destruct Habove as (l' & _ & Hni); intros ->; apply Hni; left).
  apply wp_bind, wp_require_parent_write; try done. wp_simpl.
  apply wp_bind. assert (Hreq : forall Q', Q' (Ok tt) a -> wp cx nblk (if n1 =? n2 then mret tt else require_parent_write cx n2) Q' a).
  { intros Q' HQ'. destruct (n1 =? n2); [done|]. by apply wp_require_parent_write. }
  apply Hreq. wp_simpl. clear Hreq.
  apply (wp_move_entry F n1 c1 n2 c2 m); [done|]. fold d. intros da Hda Hrwa Hla.
  by apply (wp_move_rest F d da n1 c1 n2 c2 m new_info sd).
Qed.

(** ** The destination *)

(** The new name after the inode [x] it led to was removed. *)
Lemma move_pre_removed d d1 F n1 c1 n2 c2 m x : disk_ok cx nblk d -> fs_ok d F -> edge d F n1 c1 m -> proper c1 -> proper c2 -> edge d F n2 c2 x -> x <> m ->
  (forall c y, proper c -> ~ edge d F x c y) -> no_nul c2 = true -> blen c2 < 28 ->
  i_size (inode_at cx d n2) mod 32 = 0 -> entry_num cx d n2 < 1024 * (bs / 32) ->
  (is_dir cx d m = true -> n1 <> n2 -> 0 < i_links (inode_at cx d n1)) -> disk_ok cx nblk d1 -> removed cx nblk d d1 F n2 c2 x ->
  move_pre d1 (set_file F x ([], [])) n1 c1 n2 c2 m /\ is_dir cx d1 m = is_dir cx d m /\ same_access (inode_at cx d n1) (inode_at cx d1 n1).
Proof.
  intros Hd Hfs He Hp1 Hp2 He2 Hxm Hno Hnul Hlen Hwh Hlim Hlk Hd1 [Hfs1 Hrn Hoth Hino Hsl (j & e & Hj & Hje) Hwh1 Hac].
  pose proof Hrn as [HF1 Ht1 HFF Hname Hnames Hdirs Hisd _ _ _]. destruct Hp1 as [Hc1 Hp1]. destruct He as (Hn1 & Hdn1 & _ & Hl1). destruct He2 as (Hn2 & Hdn2 & Hc2 & Hl2).
  assert (Hn1x : n1 <> x) by (intros ->; by apply (Hno c1 m)). assert (Hn2x : n2 <> x) by (intros ->; by apply (Hno c2 x)).
  destruct (edge_used cx nblk d F n1 c1 m Hfs) as [Hm _]; [done|].
  assert (Hisn : forall k, is_inode k -> k <> x -> is_dir cx d1 k = is_dir cx d k) by done.
  assert (Hn1s : n1 <> n2 -> same_file cx d d1 F n1) by (intros; by apply Hoth).
  split; [split|split]; try done.
  - split; [done|]. split; [by rewrite Hisn|]. split; [done|]. destruct (decide (n1 = n2)) as [<-|Hne].
    + rewrite Hnames; [done|done|]. intros ->. congruence.
    + by rewrite Hdirs.
  - split; [done|]. by rewrite Hisn.
  - by apply Hwh1.
  - unfold entry_num in *. unfold dir_entries in Hsl. rewrite !length_dirent_slice in Hsl.
    pose proof (fits_size _ (inode_at_fits cx nblk Hvol d1 n2 Hd1 Hn2)) as [H0 _].
    pose proof (fits_size _ (inode_at_fits cx nblk Hvol d n2 Hd Hn2)) as [H1 _]. lia.
  - intros Hne. rewrite set_file_ne by done. by apply (slot_room cx nblk Hvol d1 n2 _ j e).
  - intros Hdm Hne. rewrite Hisn in Hdm by done. destruct (Hn1s Hne) as [-> _]. by apply Hlk.
  - by apply Hisn.
  - destruct (decide (n1 = n2)) as [->|Hne]; [done|]. destruct (Hn1s Hne) as [-> _]. done.
Qed.

(** The caller, the two paths and what they lead to. *)
Record rename_call (a : astate) (F : files) (po : cstr) (n1 : Z) (c1 : cstr) (m : Z) (pn : cstr) (n2 : Z) (c2 : cstr) : Prop := {
  rc_old : path_call cx nblk a F po n1;
  rc_new : path_call cx nblk a F pn n2;
  rc_found : found_at cx (a_caller a) (a_disk a) F po n1 c1 m;
  rc_proper : is_dot_or_dotdot_name c1 = false /\ is_dot_or_dotdot_name c2 = false;
  rc_nul : no_nul c2 = true;
  rc_whole : i_size (inode_at cx (a_disk a) n2) mod 32 = 0;
  rc_limit : entry_num cx (a_disk a) n2 < 1024 * (bs / 32);
  rc_links : is_dir cx (a_disk a) m = true -> n1 <> n2 -> 0 < i_links (inode_at cx (a_disk a) n1)
}.

(** Up to the treatment of the destination. *)
Lemma wp_rename_start F po n1 c1 m pn n2 c2 new_info Q a : let d := a_disk a in
  rename_call a F po n1 c1 m pn n2 c2 -> path_info cx resolve_new (a_caller a) d F pn = Ok new_info -> leaf_name new_info = c2 ->
  let old_info := mkPathInfo n1 m true c1 in
  wp cx nblk (rename_replace cx (Some pn) old_info new_info (is_dir cx d m))
    (then_wp cx nblk (fun same => if (same : bool) then mret tt else
       ((if is_dir cx d m then
           ancestor ← directory_is_ancestor cx m (parent_inode_num new_info);
           if (ancestor : bool) then throw MOFS_EINVAL else mret tt
         else mret tt);;
        require_parent_write cx n1;;
        (if n1 =? parent_inode_num new_info then mret tt
         else require_parent_write cx (parent_inode_num new_info));;
        remove_dir_entry cx c1 n1;;
        on_error (add_dir_entry cx (leaf_name new_info) (parent_inode_num new_info) m)
          (ignore (add_dir_entry cx c1 n1 m));;
        (if is_dir cx d m && negb (n1 =? parent_inode_num new_info)
         then rename_reparent cx old_info new_info else mret tt);;
        ignore (mofs_inode_stamp_persist cx m MOFS_INODE_TIME_CTIME))) Q) a ->
  wp cx nblk (mofs_rename_core cx (Some po) (Some pn)) Q a.
Proof.
  intros d [[Hd Hfs Hu _ Hlo Habso Hrooto _] [_ _ _ _ Hln Habsn Hrootn _] Hfound [Hd1 Hd2] _ _ _ _] Hnew Hleaf old_info HQ.
  pose proof (fs_tree _ _ _ _ Hfs) as Ht. destruct (found_facts cx nblk (a_caller a) d F po n1 c1 m Ht Hfound) as (Hn1 & _ & _ & _ & _ & Hm & Hpi).
  unfold mofs_rename_core. rewrite Habso, Habsn, bool_decide_eq_true_2 by done. cbn [negb orb].
  apply wp_bind, (wp_resolve_path cx nblk Hvol resolve_old eq_refl F); try done. fold d. rewrite Hpi. wp_simpl. cbn [leaf_found leaf_name negb orb]. rewrite Hd1.
  apply wp_bind, (wp_resolve_path cx nblk Hvol resolve_new eq_refl F); try done. fold d. rewrite Hnew. wp_simpl. rewrite Hleaf, Hd2.
  apply wp_bind, (wp_read_inode cx nblk Hvol); [done|done|]. wp_simpl. cbn [leaf_inode_num parent_inode_num]. fold d. fold (is_dir cx d m).
  apply wp_bind. rewrite Hleaf in HQ. exact HQ.
Qed.

(** The destination is not there. *)
Lemma wp_rename_moves F po n1 c1 m pn n2 c2 Q a : let d := a_disk a in
  rename_call a F po n1 c1 m pn n2 c2 -> missing_at cx (a_caller a) d F pn n2 c2 ->
  (n1 <> n2 -> entry_room cx d n2 (dir_entries cx d n2 (F n2).2)) ->
  (is_dir cx d m = true -> ~ not_above (edge d F) m n2 -> Q (Err MOFS_EINVAL) a) ->
  (not_above (edge d F) m n2 -> forall d', relocated d d' F n1 c1 n2 c2 m -> Q (Ok tt) (set_disk d' a)) ->
  wp cx nblk (mofs_rename_core cx (Some po) (Some pn)) Q a.
Proof.
  intros d Hrc Hmiss Hroom Hanc HQ. pose proof Hrc as [[Hd Hfs Hu _ _ _ _ Hw1] [_ _ _ _ _ _ _ Hw2] Hfound [Hd1 Hd2] Hnul Hwh Hlim Hlk].
  pose proof (fs_tree _ _ _ _ Hfs) as Ht. destruct (found_facts cx nblk (a_caller a) d F po n1 c1 m Ht Hfound) as (Hn1 & Hdir1 & Hc1 & _ & Hl1 & Hm & _).
  destruct (missing_facts cx nblk (a_caller a) d F pn n2 c2 Ht Hmiss) as (Hn2 & Hdir2 & Hc2 & Hlen & Hnone & Hpi).
  apply (wp_rename_start F po n1 c1 m pn n2 c2 _ Q a Hrc Hpi eq_refl). unfold rename_replace. cbn [leaf_found negb parent_inode_num leaf_name]. wp_simpl.
  apply (wp_move_tail F n1 c1 n2 c2 m (mkPathInfo n2 (-1) false c2) (is_dir cx d m)); try done.
Qed.

(** The destination is there: a file may replace a file, a directory an empty
    directory. *)
Lemma wp_rename_replaces F po n1 c1 m pn n2 c2 x Q a : let d := a_disk a in
  rename_call a F po n1 c1 m pn n2 c2 -> found_at cx (a_caller a) d F pn n2 c2 x -> 0 < i_links (inode_at cx d n2) ->
  (x = m -> Q (Ok tt) a) ->
  (x <> m -> is_dir cx d x <> is_dir cx d m -> Q (Err (if is_dir cx d m then MOFS_ENOTDIR else MOFS_EISDIR)) a) ->
  (x <> m -> is_dir cx d x = true -> is_dir cx d m = true -> (exists c y, proper c /\ edge d F x c y) -> Q (Err MOFS_ENOTEMPTY) a) ->
  (x <> m -> is_dir cx d x = is_dir cx d m -> forall d1, removed cx nblk d d1 F n2 c2 x -> let F1 := set_file F x ([], []) in
     (is_dir cx d m = true -> ~ not_above (edge d1 F1) m n2 -> Q (Err MOFS_EINVAL) (set_disk d1 a)) /\
     (not_above (edge d1 F1) m n2 -> forall d', relocated d1 d' F1 n1 c1 n2 c2 m -> Q (Ok tt) (set_disk d' a))) ->
  wp cx nblk (mofs_rename_core cx (Some po) (Some pn)) Q a.
Proof.
  intros d Hrc Hfound2 Hlinks2 Hsame Htype Hempty HQ. pose proof Hrc as [[Hd Hfs Hu Huf _ _ _ Hw1] Hpc2 Hfound [Hd1 Hd2] Hnul Hwh Hlim Hlk].
  pose proof Hpc2 as [_ _ _ _ _ _ _ Hw2].
  pose proof (fs_tree _ _ _ _ Hfs) as Ht. destruct (found_facts cx nblk (a_caller a) d F po n1 c1 m Ht Hfound) as (Hn1 & Hdir1 & Hc1 & _ & Hl1 & Hm & _).
  destruct (found_facts cx nblk (a_caller a) d F pn n2 c2 x Ht Hfound2) as (Hn2 & Hdir2 & Hc2 & Hlen & Hl2 & Hx & _).
  pose proof (found_info cx resolve_new (a_caller a) d F pn n2 c2 x eq_refl eq_refl eq_refl Hfound2) as Hpi.
  assert (He : edge d F n1 c1 m) by done. assert (He2 : edge d F n2 c2 x) by done. assert (Hp1 : proper c1) by done. assert (Hp2 : proper c2) by done.
  apply (wp_rename_start F po n1 c1 m pn n2 c2 _ Q a Hrc Hpi eq_refl). unfold rename_replace. cbn [leaf_found negb parent_inode_num leaf_inode_num leaf_name].
  destruct (Z.eqb_spec x m) as [->|Hxm]; [wp_simpl; by apply Hsame|]. specialize (Htype Hxm). specialize (Hempty Hxm). specialize (HQ Hxm).
  apply wp_bind, (wp_read_inode cx nblk Hvol); [done|done|]. wp_simpl. fold d. fold (is_dir cx d x).
  assert (Htail : forall d1, (forall c y, proper c -> ~ edge d F x c y) -> is_dir cx d x = is_dir cx d m -> disk_ok cx nblk d1 -> removed cx nblk d d1 F n2 c2 x ->
    move_pre d1 (set_file F x ([], [])) n1 c1 n2 c2 m /\ is_dir cx d1 m = is_dir cx d m /\
    may_change (set_disk d1 a) n1 = true /\ may_change (set_disk d1 a) n2 = true).
  { intros d1 Hno Hxd Hok1 Hre. destruct (move_pre_removed d d1 F n1 c1 n2 c2 m x) as (Hmp & Hdm & Hacc); try done.
    split; [done|]. split; [done|]. unfold may_change. cbn [a_caller a_disk set_disk].
    rewrite (may_change_same _ _ _ Hacc), (may_change_same _ _ _ (re_access _ _ _ _ _ _ _ _ Hre)). done. }
  destruct (is_dir cx d m) eqn:Hdm, (is_dir cx d x) eqn:Hdx; wp_simpl; [|by apply Htype|by apply Htype|].
  - apply wp_bind, (wp_rmdir cx nblk Hvol F pn n2 c2 x); try done; fold d.
    + pose proof (fits_links _ (inode_at_fits cx nblk Hvol d n2 Hd Hn2)). fold d. lia.
    + congruence.
    + intros _ Hex. wp_simpl. by apply Hempty.
    + intros d1 _ Hno Hok1 Hre _. wp_simpl. destruct (Htail d1 Hno eq_refl Hok1 Hre) as (Hmp & Hdm1 & Hm1 & Hm2). destruct (HQ eq_refl d1 Hre) as [HQ1 HQ2].
      apply wp_ret. by apply (wp_move_tail (set_file F x ([], [])) n1 c1 n2 c2 m (mkPathInfo n2 x true c2) true Q (set_disk d1 a)).
  - assert (Hno : forall c y, proper c -> ~ edge d F x c y) by (intros c y _; by apply no_edges).
    apply wp_bind, (wp_unlink cx nblk Hvol F pn n2 c2 x); try done. fold d.
    intros d1 Hok1 Hre. wp_simpl. destruct (Htail d1 Hno eq_refl Hok1 Hre) as (Hmp & Hdm1 & Hm1 & Hm2). destruct (HQ eq_refl d1 Hre) as [HQ1 HQ2].
    apply wp_ret. by apply (wp_move_tail (set_file F x ([], [])) n1 c1 n2 c2 m (mkPathInfo n2 x true c2) false Q (set_disk d1 a)).
Qed.

End renamespec.
