(* ===== verification/MkdirSpec.v ===== *)
(** * Making directories *)

From Stdlib Require Import ZArith Lia.
From stdpp Require Import base list list_numbers.
From S2P Require Import Prelude Types Platform Raw Buffer BufferSpec Ops Bitmap Inode Block FileData Perm Dirent Path File Dir Volume BlockSpec AllocSpec FreeSpec InodeSpec VolInv FileSpec FileInv PermSpec DirSpec PathSpec EntrySpec TreeSpec NameSpec FsSpec RmdirSpec.

(** ** The block of a new directory *)

Definition dot_entry (n : Z) : mofs_dirent_t := mkDirent (name_field dot) (u32 n).
Definition dotdot_entry (n : Z) : mofs_dirent_t := mkDirent (name_field dotdot) (u32 n).

Definition dots_block (bs child parent : Z) : list byte :=
  put_dirent 1 (dotdot_entry parent) (put_dirent 0 (dot_entry child) (zeros bs)).

Lemma entry_fits c n : blen c <= 28 -> dirent_fits (mkDirent (name_field c) (u32 n)).
Proof.
  intros Hc. split; [|apply u32_range]. cbn [d_name]. unfold name_field. rewrite length_app. pose proof (length_zeros (28 - blen c)). lia.
Qed.

Section dots.
Context (bs child parent : Z) (Hbs : 512 <= bs) (Hmod : bs = 32 * (bs / 32)).

Lemma length_dots_block : blen (dots_block bs child parent) = bs.
Proof using Hbs Hmod.
  unfold dots_block, put_dirent. pose proof (length_encode_dirent_Z _ (entry_fits dot child ltac:(simpl; lia))) as H0.
  pose proof (length_encode_dirent_Z _ (entry_fits dotdot parent ltac:(simpl; lia))) as H1.
  fold (dot_entry child) in H0. fold (dotdot_entry parent) in H1.
  rewrite !length_bsplice; rewrite ?length_bsplice, ?length_zeros; rewrite ?length_zeros; lia.
Qed.

Lemma dots_at k : 0 <= k -> 32 * k + 32 <= bs -> dirent_at k (dots_block bs child parent) =
  if k =? 1 then dotdot_entry parent else if k =? 0 then dot_entry child else zero_dirent.
Proof using Hbs Hmod.
  intros Hk Hkb. unfold dots_block, put_dirent. change (1 * 32) with (32 * 1). change (0 * 32) with (32 * 0).
  assert (Hz : blen (zeros bs) = bs) by (rewrite length_zeros; lia).
  assert (Hf0 : dirent_fits (dot_entry child)) by (apply entry_fits; simpl; lia).
  assert (Hf1 : dirent_fits (dotdot_entry parent)) by (apply entry_fits; simpl; lia).
  pose proof (length_encode_dirent_Z _ Hf0) as Hl0.
  rewrite dirent_at_stored; [|done|lia|lia|rewrite length_bsplice; rewrite ?Hz; lia]. destruct (k =? 1); [done|].
  rewrite dirent_at_stored by (try done; lia). destruct (k =? 0); [done|]. unfold dirent_at. rewrite bslice_zeros by lia. reflexivity.
Qed.

Definition dots_entries : list mofs_dirent_t := dirent_slice 0 (Z.to_nat (bs / 32)) (dots_block bs child parent).

Lemma dots_lookup i e : dots_entries !! i = Some e -> name_set e = true ->
  (i = 0%nat /\ e = dot_entry child) \/ (i = 1%nat /\ e = dotdot_entry parent).
Proof using Hbs Hmod.
  intros Hi Hs. unfold dots_entries in Hi. pose proof (lookup_lt_Some _ _ _ Hi) as Hlt. rewrite length_dirent_slice in Hlt.
  rewrite dirent_slice_lookup in Hi by done. rewrite dots_at in Hi by lia. simplify_eq.
  destruct (Z.eqb_spec (0 + Z.of_nat i) 1); [right; split; [lia|done]|]. destruct (Z.eqb_spec (0 + Z.of_nat i) 0); [left; split; [lia|done]|done].
Qed.

Lemma dots_0 : dots_entries !! 0%nat = Some (dot_entry child) /\ dots_entries !! 1%nat = Some (dotdot_entry parent).
Proof using Hbs Hmod. unfold dots_entries. rewrite !dirent_slice_lookup by lia. rewrite !dots_at by lia. done. Qed.

Context (cx : mofs_ctx_t) (Hchild : 0 < child < inode_num (sp_blk cx)) (Hparent : 0 < parent < inode_num (sp_blk cx)).
Context (Hmax : inode_num (sp_blk cx) <= 2 ^ 32).

Lemma dot_name n : c_str (d_name (dot_entry n)) = dot.
Proof. reflexivity. Qed.

Lemma dotdot_name n : c_str (d_name (dotdot_entry n)) = dotdot.
Proof. reflexivity. Qed.

Lemma dots_wf : dir_wf cx dots_entries.
Proof using Hbs Hmod Hchild Hparent Hmax.
  split.
  - intros e He Hs. apply list_elem_of_lookup_1 in He as (i & Hi). destruct (dots_lookup i e Hi Hs) as [[_ ->]|[_ ->]]; cbn [d_inode_num dot_entry dotdot_entry]; by rewrite u32_small by lia.
  - intros i j e f Hi Hj Hs Hn. assert (Hs' : name_set f = true) by (apply name_set_ne; rewrite <- Hn; by apply name_set_ne).
    destruct (dots_lookup i e Hi Hs) as [[-> ->]|[-> ->]], (dots_lookup j f Hj Hs') as [[-> ->]|[-> ->]]; done.
Qed.

Lemma dots_find c x : c <> [] -> d_inode_num <$> List.find (has_name c) dots_entries = Some x <-> (c = dot /\ x = child) \/ (c = dotdot /\ x = parent).
Proof using Hbs Hmod Hchild Hparent Hmax.
  intros Hc. pose proof (wf_find cx dots_entries c) as Hf. destruct dots_0 as [H0 H1]. split.
  - destruct (List.find _ _) as [e|] eqn:He; [|done]. intros [= <-]. clear Hf. apply (wf_find cx) in He as (i & Hi & Hn); [|apply dots_wf|done].
    pose proof (has_name_set c e Hc Hn) as Hs. apply has_name_eq in Hn as <-.
    destruct (dots_lookup i e Hi Hs) as [[_ ->]|[_ ->]]; [left|right]; (split; [reflexivity|apply u32_small; lia]).
  - intros [[-> ->]|[-> ->]].
    + rewrite (proj2 (Hf (dot_entry child) dots_wf Hc)); [|by exists 0%nat]. cbn [fmap option_fmap option_map d_inode_num dot_entry]. f_equal. apply u32_small. lia.
    + rewrite (proj2 (Hf (dotdot_entry parent) dots_wf Hc)); [|by exists 1%nat]. cbn [fmap option_fmap option_map d_inode_num dotdot_entry]. f_equal. apply u32_small. lia.
Qed.

End dots.

Section mkdirspec.
Context (cx : mofs_ctx_t) (nblk : Z) (Hvol : vol_ok cx nblk).
Abbreviation sb := (sp_blk cx).
Abbreviation bs := (blk_size (sp_blk cx)).
Abbreviation is_inode n := (0 <= n < inode_num (sp_blk cx)).
Abbreviation root := MOFS_ROOT_INODE_NUM.
Abbreviation fs_ok := (fs_ok cx nblk).
Abbreviation taken := (taken cx nblk).

(** ** Filling the inode that was taken *)

Lemma taken_step d d2 d3 F F2 F3 i : tree_ok cx nblk d F -> taken d d2 F F2 i -> is_inode i -> i <> root ->
  disk_ok cx nblk d3 -> vol_files cx nblk d3 F3 -> (forall m, m <> i -> F3 m = F2 m) -> ((F3 i).2 = [] -> (F3 i).1 = []) ->
  (forall m, is_inode m -> m <> i -> same_file cx d2 d3 F2 m) -> (forall b, 0 <= b < data_bitmap_start sb -> d3 b = d2 b) ->
  (is_dir cx d3 i = true -> covers cx d3 i (F3 i).2 /\ dir_wf cx (dir_entries cx d3 i (F3 i).2)) ->
  taken d d3 F F3 i.
Proof.
  intros Ht [Hd2 HF2 Ht2 HFF _ Hs Hdd Hl Hb] Hi Hir Hd3 HF3 HFF3 Hnodes Hs3 Hlow Hdir.
  assert (Hmap : forall m, m <> i -> F3 m = F m) by (intros m Hne; by rewrite HFF3, HFF).
  assert (Hsame : forall m, is_inode m -> m <> i -> same_file cx d d3 F m).
  { intros m Hm Hne. eapply same_file_trans; [by apply Hs|]. destruct (Hs3 m Hm Hne) as [Hi' Hb']. split; [done|].
    intros b. unfold file_blocks. rewrite <- (HFF m Hne). apply Hb'. }
  destruct (tree_replace cx nblk d d3 F F3 i Ht HF3) as (Ht3 & Hdd3 & Hl3); try done.
  { intros Hd. destruct (Hdir Hd) as [Hc Hw]. split; [|done]. split; [done|by apply HF3|done]. }
  split; try done. intros m Hm. rewrite (inode_bit_low cx nblk Hvol d2 d3 m Hlow Hm). by apply Hb.
Qed.

(** The record of a new directory, before its first block. *)
Definition dir_inode0 (mode : Z) (user : mofs_user_ctx_t) : mofs_inode_t :=
  mkInode 0 2 (u16 (Z.lor MOFS_FTYPE_DIR (perm_bits mode))) (uid user) (gid user) 0 0 0 0 0 (zeros 16).

Lemma dir_mode mode : has_flag (u16 (Z.lor MOFS_FTYPE_DIR (perm_bits mode))) MOFS_FTYPE_DIR = true.
Proof.
  unfold has_flag, u16, perm_bits. rewrite <- Z.land_ones by lia. apply negb_true_iff, Z.eqb_neq.
  assert (Hb : Z.testbit (Z.land (Z.land (Z.lor MOFS_FTYPE_DIR (Z.land mode 0x1FF)) (Z.ones 16)) MOFS_FTYPE_DIR) 14 = true).
  { rewrite !Z.land_spec, Z.lor_spec. reflexivity. }
  intros H. by rewrite H in Hb.
Qed.

Lemma dir_inode0_fits t mode u : 0 <= t < 2 ^ 64 -> user_fits u -> inode_fits (stamp_times t MOFS_INODE_TIME_ALL (dir_inode0 mode u)).
Proof.
  intros Ht [Hu Hg]. apply stamp_times_fits; [done|]. constructor; simpl; try done. apply Z.mod_pos_bound. lia.
Qed.

(** The directory [i] of the user with the mode and its first block [new]. *)
Record new_dir (d : disk) (F : files) (i mode : Z) (u : mofs_user_ctx_t) : Prop := {
  nd_mode : i_mode (inode_at cx d i) = u16 (Z.lor MOFS_FTYPE_DIR (perm_bits mode));
  nd_owner : i_uid (inode_at cx d i) = uid u /\ i_gid (inode_at cx d i) = gid u;
  nd_links : i_links (inode_at cx d i) = 2;
  nd_blocks : blen (F i).2 = 1
}.

(** [mkdir_child] on a free inode. *)
Lemma wp_mkdir_child F d i mode Q a : let u := a_caller a in
  a_disk a = put_inode_bit cx d i true -> fs_ok d F -> disk_ok cx nblk d -> is_inode i -> 3 <= i -> inode_bit cx d i = false -> user_fits u ->
  (blen (free_data cx d) < 2 -> forall d', disk_ok cx nblk d' -> vol_files cx nblk d' F ->
     (forall m, is_inode m -> m <> i -> same_file cx d d' F m) -> (forall m, is_inode m -> m <> i -> inode_bit cx d' m = inode_bit cx d m) ->
     Q (Err MOFS_ENOSPC) (set_disk d' a)) ->
  (forall d3 nodes new, taken d d3 F (set_file F i (nodes, new)) i -> new_dir d3 (set_file F i (nodes, new)) i mode u ->
     i_size (inode_at cx d3 i) = 0 -> Q (Ok tt) (set_disk d3 a)) ->
  wp cx nblk (mkdir_child cx i mode u) Q a.
Proof.
  intros u Ha Hfs Hd Hi Hi3 Hbit Huf Hfull HQ. destruct (fs_free _ _ _ _ Hfs i Hi Hbit) as [HFi _].
  assert (Hir : i <> root) by (change root with 2; lia).
  unfold mkdir_child. apply wp_bind, wp_stamp_now; [done|]. intros t Ht. wp_simpl. fold u. fold (dir_inode0 mode u).
  set (inode := stamp_times t MOFS_INODE_TIME_ALL (dir_inode0 mode u)). assert (Hfit : inode_fits inode) by (by apply dir_inode0_fits).
  assert (Hd1 : disk_ok cx nblk (a_disk a)) by (rewrite Ha; by apply (disk_ok_put_inode_bit cx nblk Hvol)).
  apply wp_bind, (wp_write_inode cx nblk Hvol); [done|done|apply Hfit|]. wp_simpl. rewrite Ha.
  destruct (take_inode cx nblk Hvol d F i inode Hfs Hd Hi Hbit Hfit eq_refl eq_refl eq_refl) as [Htk Hat].
  assert (Hfree : free_data cx (put_inode cx (put_inode_bit cx d i true) i inode) = free_data cx d).
  { apply free_data_ext. intros j Hj. unfold put_inode. rewrite (data_bit_upd cx nblk Hvol), (put_inode_bit_data cx nblk Hvol); [done|done|done|done|].
    pose proof (tbl_blk_range cx nblk Hvol i Hi). lia. }
  set (d2 := put_inode cx (put_inode_bit cx d i true) i inode) in *. clearbody d2.
  pose proof (vf_map _ _ _ _ (tk_files _ _ _ _ _ _ _ Htk) i Hi) as Hfm. rewrite HFi in Hfm. cbn [fst snd] in Hfm.
  pose proof (cap_pos cx nblk Hvol) as (Hcap & _).
  assert (Hc1 : ceil_div (blen (@nil Z) + 1) (list_ptrs_cap cx) = 1) by (apply ceil_div_unique; simpl; lia).
  destruct (Z.lt_ge_cases (blen (free_data cx d)) 2) as [Hlt|Hge].
  - apply (wp_allocate_full cx nblk Hvol i [] []); cbn [a_disk set_disk]; rewrite ?Hfree, ?Hc1; try done; [apply Htk|].
    intros d3 Hun. apply Hfull; [done|apply Hun|eapply (unchanged_files cx nblk Hvol); [apply Htk|done]|..].
    + intros m Hm Hne. eapply same_file_trans; [by apply (tk_others _ _ _ _ _ _ _ Htk)|]. eapply (unchanged_same cx nblk Hvol); [apply Htk|done|done].
    + intros m Hm Hne. rewrite (inode_bit_low cx nblk Hvol d2 d3 m) by (try done; intros b Hb; apply (un_blocks _ _ _ _ Hun); lia).
      rewrite (tk_bits _ _ _ _ _ _ _ Htk) by done. by rewrite (proj2 (Z.eqb_neq m i)).
  - apply (wp_allocate_grow cx nblk Hvol d2 i [] [] 1); cbn [a_disk set_disk]; try done; [apply Htk|rewrite Hfree, Hc1; lia|].
    intros d3 nodes new Hnew Hg. pose proof (gr_inode _ _ _ _ _ _ _ _ _ Hg) as Hin. rewrite Hat in Hin. cbn [app] in Hin.
    remember (i_data_head (inode_at cx d3 i)) as head eqn:Hhead. clear Hhead.
    assert (HF3 : vol_files cx nblk d3 (set_file F i (nodes, new))).
    { pose proof (grown_files cx nblk Hvol d2 d3 F i nodes new (tk_files _ _ _ _ _ _ _ Htk) Hi) as H. rewrite HFi in H. by apply H. }
    assert (Hs : forall m, is_inode m -> m <> i -> same_file cx d2 d3 F m).
    { intros m Hm Hne. pose proof (grown_same cx nblk d2 d3 F i nodes new m (tk_files _ _ _ _ _ _ _ Htk) Hi) as H. rewrite HFi in H. by apply H. }
    assert (Hsz : i_size (inode_at cx d3 i) = 0) by (by rewrite Hin).
    apply (HQ d3 nodes new); [| |done].
    + eapply (taken_step d d2 d3 F F); try done; [apply Hfs|apply (gr_others _ _ _ _ _ _ _ _ _ Hg)|intros m Hne; by apply set_file_ne| | |].
      * rewrite set_file_eq. cbn [fst snd]. intros ->. done.
      * apply (gr_others _ _ _ _ _ _ _ _ _ Hg).
      * intros _. unfold covers, dir_entries. rewrite Hsz. split; [pose proof (bs_range cx nblk Hvol); apply Z.mul_nonneg_nonneg; lia|].
        change (dirent_slice _ _ _) with (@nil mofs_dirent_t). split; [intros e He; by apply elem_of_nil in He|]. intros k k' e f Hk. by rewrite lookup_nil in Hk.
    + split; rewrite ?Hin; try done. by rewrite set_file_eq.
Qed.

(** The new directory [i] below [n] with its [.] and [..]. *)
Record dots_written (d d5 : disk) (F F3 : files) (i n mode : Z) (u : mofs_user_ctx_t) : Prop := {
  dw_taken : taken d d5 F F3 i;
  dw_new : new_dir d5 F3 i mode u;
  dw_size : i_size (inode_at cx d5 i) = bs;
  dw_dots : forall c x, c <> [] -> dir_lookup cx d5 F3 i c = Some x <-> (c = dot /\ x = i) \/ (c = dotdot /\ x = n);
  dw_first : dotdot_first cx d5 F3 i
}.

Lemma new_dir_is_dir d F i mode u : new_dir d F i mode u -> is_dir cx d i = true.
Proof. intros Hnd. unfold is_dir. rewrite (nd_mode _ _ _ _ _ Hnd). apply dir_mode. Qed.

(** The first half of [mkdir_contents]. *)
Lemma wp_mkdir_dots {A} F d i n mode nodes new (k : prog A) Q a : let d3 := a_disk a in let u := a_caller a in let F3 := set_file F i (nodes, new) in
  fs_ok d F -> is_inode i -> 3 <= i -> 0 < n < inode_num sb ->
  taken d d3 F F3 i -> new_dir d3 F3 i mode u -> i_size (inode_at cx d3 i) = 0 ->
  (forall d5, dots_written d d5 F F3 i n mode u -> wp cx nblk k Q (set_disk d5 a)) ->
  wp cx nblk (write_dot_entries cx i n;; inode ← mofs_read_inode cx i;
    inode ← mofs_inode_stamp_now (set_i_size bs inode) (Z.lor MOFS_INODE_TIME_MTIME MOFS_INODE_TIME_CTIME); mofs_write_inode cx i inode;; k) Q a.
Proof.
  intros d3 u F3 Hfs Hi Hi3 Hn Htk Hnd Hsz HQ. pose proof (bs_range cx nblk Hvol) as Hbs. destruct (epb_eq cx nblk Hvol) as [Hbe H16].
  assert (HF3 : F3 i = (nodes, new)) by apply set_file_eq. pose proof (nd_blocks _ _ _ _ _ Hnd) as Hlen. rewrite HF3 in Hlen. cbn [snd] in Hlen.
  pose proof Htk as [Hd3 Hf3 _ _ _ _ _ _ _]. pose proof (vf_map _ _ _ _ Hf3 i Hi) as Hfm. rewrite HF3 in Hfm. cbn [fst snd] in Hfm.
  assert (Hmod : bs = 32 * (bs / 32)) by lia. pose proof (length_dots_block bs i n ltac:(lia) Hmod) as Hld.
  apply wp_bind. unfold write_dot_entries. apply wp_bind, wp_malloc; [lia|]. intros b0 _. wp_simpl. fold (dot_entry i) (dotdot_entry n). fold (dots_block bs i n).
  apply wp_bind, (wp_write_file_data_block cx nblk Hvol i nodes new); try done; try lia. fold d3. intros d4 Hw. wp_simpl.
  rewrite Z.mul_0_l, Z.mul_1_l, bslice_all in Hw by lia.
  pose proof (fm_range _ _ _ _ _ _ Hfm) as Hpr. pose proof (wrote_inode cx nblk Hvol d3 d4 new _ _ i Hpr Hw Hi) as Hi4.
  apply wp_bind, (wp_read_inode cx nblk Hvol); [apply Hw|done|]. wp_simpl. cbn [a_disk set_disk]. rewrite Hi4.
  apply wp_bind, wp_stamp_now; [done|]. intros t Htt. wp_simpl. set (inode := stamp_times _ _ _).
  assert (Hfit : inode_fits inode).
  { apply stamp_times_fits; [done|]. pose proof (inode_at_fits cx nblk Hvol d3 i Hd3 Hi) as Hf0. destruct Hf0. constructor; simpl; try done. lia. }
  apply wp_bind, (wp_write_inode cx nblk Hvol); [apply Hw|done|apply Hfit|]. wp_simpl. cbn [a_disk set_disk].
  set (d5 := put_inode cx d4 i inode).
  assert (Hf4 : vol_files cx nblk d4 F3) by (apply (wrote_files cx nblk Hvol d3 d4 F3 i 0 (dots_block bs i n)); try done; by rewrite HF3).
  assert (Hat : inode_at cx d5 i = inode) by (unfold d5; rewrite (inode_at_put cx nblk Hvol) by (try done; apply Hw); by rewrite Z.eqb_refl).
  assert (Hf5 : vol_files cx nblk d5 F3) by (apply (put_inode_files cx nblk Hvol); try done; [apply Hw|by rewrite Hi4|by rewrite Hi4]).
  assert (Hes : dir_entries cx d5 i new = dots_entries bs i n).
  { unfold dir_entries, dots_entries. rewrite Hat. change (i_size inode) with bs. f_equal. transitivity (content d4 new).
    - apply content_ext. intros b Hb. apply (put_inode_high cx nblk Hvol); [done|]. rewrite Forall_forall in Hpr. apply Hpr in Hb. lia.
    - rewrite (wr_content _ _ _ _ _ _ _ Hw). apply bsplice_0_all. pose proof (content_len cx nblk Hvol d3 new Hd3 Hpr). lia. }
  pose proof (vo_inodes _ _ Hvol) as Hin. assert (Hdw : dir_wf cx (dots_entries bs i n)) by (apply dots_wf; lia).
  apply (HQ d5). split; try done.
  - eapply (taken_step d d3 d5 F F3 F3); try done; [apply Hfs|change root with 2; lia|..].
    + apply (disk_ok_put_inode cx nblk Hvol); [apply Hw|done|apply Hfit].
    + apply Htk.
    + intros m Hm Hne. eapply same_file_trans; [apply (wrote_same cx nblk Hvol d3 d4 F3 i m 0 (dots_block bs i n)); try done; by rewrite HF3|].
      apply (put_inode_same cx nblk Hvol); try done. apply Hw.
    + intros b Hb. pose proof (tbl_blk_range cx nblk Hvol i Hi). pose proof Hvol as []. unfold d5, put_inode. rewrite upd_ne by lia.
      apply (wrote_low cx nblk d3 d4 new 0 (dots_block bs i n)); try done. lia.
    + intros _. rewrite HF3. cbn [snd]. rewrite Hes. split; [|done]. unfold covers. rewrite Hat. change (i_size inode) with bs. lia.
  - destruct Hnd as [Hm Ho Hl _]. split; rewrite ?Hat; try done. by rewrite HF3.
  - by rewrite Hat.
  - intros c x Hc. unfold dir_lookup. rewrite HF3. cbn [snd]. rewrite Hes. apply (dots_find bs i n ltac:(lia) Hmod cx); try done; lia.
  - unfold dotdot_first. rewrite HF3. cbn [snd]. rewrite Hes. split; [unfold dots_entries; by rewrite length_dirent_slice|].
    exists 1%nat, (dotdot_entry n). split; [lia|]. split; [|done].
    apply (dots_0 bs i n ltac:(lia) Hmod).
Qed.

(** ** [mofs_mkdir_core] *)

(** The directory [i] was made under the name [c] of [n]. *)
Record made (d d' : disk) (F F' : files) (n : Z) (c : cstr) (i mode : Z) (u : mofs_user_ctx_t) : Prop := {
  md_fs : fs_ok d' F';
  md_names : renamed cx nblk d d' F F' n c i (Some i);
  md_new : new_dir d' F' i mode u;
  md_dots : forall c' x, c' <> [] -> dir_lookup cx d' F' i c' = Some x <-> (c' = dot /\ x = i) \/ (c' = dotdot /\ x = n);
  md_others : forall m, is_inode m -> m <> n -> m <> i -> same_file cx d d' F m;
  md_links : i_links (inode_at cx d' n) = u16 (i_links (inode_at cx d n) + 1)
}.

(** Everything in use is as it was. *)
Record kept (d d' : disk) (F : files) : Prop := {
  kp_fs : fs_ok d' F;
  kp_files : forall m, is_inode m -> inode_bit cx d m = true -> same_file cx d d' F m;
  kp_names : forall n c m, edge cx d' F n c m <-> edge cx d F n c m;
  kp_bits : forall m, is_inode m -> inode_bit cx d' m = inode_bit cx d m
}.

(** The rollback of a directory that got no block. *)
Lemma mkdir_undone d d3 F i : fs_ok d F -> disk_ok cx nblk d3 -> vol_files cx nblk d3 F -> is_inode i -> 3 <= i -> inode_bit cx d i = false ->
  (forall m, is_inode m -> m <> i -> same_file cx d d3 F m) -> (forall m, is_inode m -> m <> i -> inode_bit cx d3 m = inode_bit cx d m) ->
  kept d (put_inode cx (put_inode_bit cx d3 i false) i zero_inode) F.
Proof.
  intros Hfs Hd3 HF3 Hi Hi3 Hbit Hs Hb. set (e := put_inode_bit cx d3 i false). set (d4 := put_inode cx e i zero_inode).
  destruct (fs_free _ _ _ _ Hfs i Hi Hbit) as [HFi Hdi].
  assert (He : disk_ok cx nblk e) by (by apply (disk_ok_put_inode_bit cx nblk Hvol)).
  assert (HFe : vol_files cx nblk e F) by (by apply (put_inode_bit_files cx nblk Hvol)).
  assert (HF4 : vol_files cx nblk d4 F) by (by apply (clear_inode_files cx nblk Hvol)).
  assert (Hat : inode_at cx d4 i = zero_inode) by (unfold d4; rewrite (inode_at_put cx nblk Hvol) by (try done; apply zero_inode_fits); by rewrite Z.eqb_refl).
  assert (Hs4 : forall m, is_inode m -> m <> i -> same_file cx d d4 F m).
  { intros m Hm Hne. eapply same_file_trans; [by apply Hs|]. eapply same_file_trans; [by apply (put_inode_bit_same_file cx nblk Hvol d3 i false)|].
    by apply (put_inode_same cx nblk Hvol). }
  assert (Hd4 : is_dir cx d4 i = false) by (unfold is_dir; by rewrite Hat).
  assert (Hb4 : forall m, is_inode m -> inode_bit cx d4 m = inode_bit cx d m).
  { intros m Hm. unfold d4. rewrite (inode_bit_put_inode cx nblk Hvol) by done. unfold e. rewrite (inode_bit_put cx nblk Hvol) by (done || lia).
    destruct (Z.eqb_spec m i) as [->|Hne]; [by rewrite Hbit|by apply Hb]. }
  destruct (tree_replace cx nblk d d4 F F i (fs_tree _ _ _ _ Hfs) HF4) as (Ht4 & Hdd & Hl); try done; [by rewrite Hd4|change root with 2; lia|].
  assert (Hed : forall n c m, edge cx d4 F n c m <-> edge cx d F n c m).
  { intros n c m. unfold edge. destruct (decide (n = i)) as [->|Hne]; [rewrite Hd4, Hdi; split; by intros (_ & ? & _)|].
    split; (intros (Hn & Hdn & Hc & Hlk); rewrite ?Hdd, ?Hl in * by done; done). }
  split; try done; [split; try done|].
  - intros m Hm Hbm. rewrite Hb4 in Hbm by done. destruct (fs_free _ _ _ _ Hfs m Hm Hbm) as [? ?].
    split; [done|]. destruct (decide (m = i)) as [->|Hne]; [done|by rewrite Hdd].
  - eapply names_ok_ext; [exact Hed|exact Hb4|apply Hfs].
  - apply (fs_nodes _ _ _ _ Hfs).
  - intros m Hm. rewrite Hb4 by done. by apply (fs_reserved _ _ _ _ Hfs).
  - intros m Hm Hdm Hmr. destruct (decide (m = i)) as [->|Hne]; [congruence|]. eapply dotdot_first_ext; [apply (same_entries cx nblk d d4 F m HF4 Hm (Hs4 m Hm Hne))|].
    apply (fs_dots _ _ _ _ Hfs); [done| |done]. by rewrite <- Hdd.
  - intros m Hm Hbm. apply Hs4; [done|]. intros ->. by rewrite Hbit in Hbm.
Qed.

Lemma wp_mkdir F p n c mode Q a : let d := a_disk a in let u := a_caller a in
  path_call cx nblk a F p n -> missing_at cx u d F p n c -> no_nul c = true -> is_dot_or_dotdot_name c = false -> has_room cx d F n ->
  (free_inodes cx d = [] -> Q (Err MOFS_ENOSPC) a) ->
  (free_inodes cx d <> [] -> blen (free_data cx d) < 2 -> forall d', disk_ok cx nblk d' -> kept d d' F -> Q (Err MOFS_ENOSPC) (set_disk d' a)) ->
  (forall i r d' nodes ptrs, free_inodes cx d = i :: r -> made d d' F (set_file F i (nodes, ptrs)) n c i mode u -> Q (Ok tt) (set_disk d' a)) ->
  wp cx nblk (mofs_mkdir_core cx (Some p) mode) Q a.
Proof.
  intros d u [Hd Hfs Hu Huf Hl Habs Hroot Hw] Hmiss Hnul Hdots [Hmod Hlim Hroom] Hfull Hfull2 HQ.
  destruct (missing_facts cx nblk u d F p n c (fs_tree _ _ _ _ Hfs) Hmiss) as (Hn & Hdir & Hc & Hlen & Hnone & Hpi).
  unfold mofs_mkdir_core. apply wp_bind, (wp_resolve_path cx nblk Hvol resolve_new eq_refl F); try done; [apply Hfs|].
  fold d u. rewrite Hpi. wp_simpl. cbn [leaf_found leaf_name parent_inode_num].
  apply wp_bind, wp_require_caller; [done|]. wp_simpl.
  apply wp_bind, (wp_read_inode cx nblk Hvol); [done|done|]. wp_simpl. fold d. fold (is_dir cx d n). rewrite Hdir. cbn [negb].
  apply wp_bind, wp_check_dir_write; [done|]. fold d in Hw. rewrite Hw. wp_simpl.
  apply wp_bind, (wp_allocate_inode cx nblk Hvol); [done|exact Hfull|]. intros i r Hi. wp_simpl. fold d in Hi |- *.
  assert (Hin : i ∈ free_inodes cx d) by (rewrite Hi; left). apply (elem_of_free_inodes cx nblk Hvol) in Hin as [Hir Hib].
  assert (Hii : is_inode i) by lia. pose proof (dir_used cx nblk d F n Hfs Hn Hdir) as Hun.
  assert (Hni : n <> i) by (intros ->; by rewrite Hun in Hib).
  assert (Hn0 : 0 < n) by (destruct (Z.lt_ge_cases n 2); [pose proof (fs_reserved _ _ _ _ Hfs n Hn ltac:(lia)) as Hr0; fold d in Hr0; by rewrite Hr0 in Hun|lia]).
  apply wp_bind, wp_on_error, (wp_mkdir_child F d i mode _ (set_disk (put_inode_bit cx d i true) a)); try done; [lia|..].
  - intros Hlt d3 Hd3 HF3 Hs Hb. unfold mkdir_rollback. wp_simpl.
    apply wp_ignore, (wp_free_inode cx nblk Hvol); [done|lia|]. cbn [a_disk set_disk]. wp_simpl.
    apply (Hfull2 ltac:(by rewrite Hi) Hlt (put_inode cx (put_inode_bit cx d3 i false) i zero_inode)).
    + apply (disk_ok_put_inode cx nblk Hvol); [by apply (disk_ok_put_inode_bit cx nblk Hvol)|done|apply zero_inode_fits].
    + apply mkdir_undone; try done. lia.
  - intros d3 nodes new Htk Hnd Hsz. wp_simpl. set (F3 := set_file F i (nodes, new)) in *.
    apply wp_bind, wp_on_error. unfold mkdir_contents. cbn [leaf_name parent_inode_num].
    apply (wp_mkdir_dots F d i n mode nodes new); cbn [a_disk set_disk]; try done; try lia.
    intros d5 [Htk5 Hnd5 Hsz5 Hdots5 Hfirst5]. clear Htk Hnd Hsz.
    pose proof Htk5 as [Hd5 HF5 Ht5 HFF5 _ Hs5 Hdd5 Hl5 Hb5]. pose proof (vo_inodes _ _ Hvol) as Hmaxi.
    assert (HFn : F3 n = F n) by (by apply HFF5). destruct (Hs5 n Hn Hni) as [Hino _].
    assert (Hdn5 : is_dir cx d5 n = true) by (by rewrite Hdd5).
    assert (Hes : dir_entries cx d5 n (F3 n).2 = dir_entries cx d n (F n).2).
    { destruct (same_entries cx nblk d d5 F3 n HF5 Hn) as (_ & -> & _); [|by rewrite HFn].
      destruct (Hs5 n Hn Hni) as [? Hbb]. split; [done|]. intros b. unfold file_blocks. rewrite HFn. apply Hbb. }
    pose proof (to_entries _ _ _ _ Ht5 n Hn Hdn5) as Hwf.
    assert (Hdup : existsb (entry_dup c) (dir_entries cx d5 n (F3 n).2) = false).
    { rewrite (wf_dup cx) by done. specialize (Hl5 n c Hn Hni). rewrite Hnone in Hl5. unfold dir_lookup in Hl5. by destruct (List.find _ _). }
    apply (wp_add_dir_entry cx nblk Hvol c i F3 n); cbn [a_disk set_disk]; try done.
    + by apply (to_dir _ _ _ _ Ht5).
    + by rewrite Hino.
    + unfold entry_num in *. by rewrite Hino.
    + lia.
    + rewrite Hdup. split; [unfold entry_room in *; by rewrite Hino, Hes|]. intros d6 Hch. wp_simpl.
      destruct (renamed_add cx nblk Hvol d d5 d6 F F3 n c i Hfs Htk5 Hn Hdir Hii ltac:(lia) Hni Hc Hnul Hlen Hnone Hch) as (Hrn & Hoth & Hi6 & Hl6).
      assert (Hl16 : 0 <= u16 (i_links (inode_at cx d n) + 1) < 2 ^ 16) by (apply Z.mod_pos_bound; lia).
      assert (Hlk6 : i_links (inode_at cx d6 n) = i_links (inode_at cx d n)).
      { destruct (dc_inode _ _ _ _ _ _ _ Hch) as (sz & t & ->). cbn [i_links stamp_times set_i_size]. by rewrite Hino. }
      apply wp_on_error. unfold mkdir_parent_link. apply wp_bind, (wp_read_inode cx nblk Hvol); [apply Hch|done|]. wp_simpl. cbn [a_disk set_disk]. rewrite Hlk6.
      apply (wp_set_links cx nblk Hvol F3 n _ _ (set_disk d6 a)); cbn [a_disk set_disk]; [apply Hch|apply Hch|apply Hrn|done|exact Hl16|].
      intros d7 Hto Hl7. apply (HQ i r d7 nodes new Hi).
      assert (Hdots6 : forall c' x, c' <> [] -> dir_lookup cx d6 F3 i c' = Some x <-> (c' = dot /\ x = i) \/ (c' = dotdot /\ x = n)) by (intros c' x Hc'; unfold dir_lookup; rewrite Hl6; by apply Hdots5).
      destruct (to_others _ _ _ _ _ _ Hto i Hii (not_eq_sym Hni)) as [Hi7 _].
      split.
      * apply (fs_touched cx nblk d6 d7 F3 n); [|done]. apply (fs_linked cx nblk d d6 F F3 n c i Hfs Hn Hdir); try done; [lia|].
        intros _. by eapply dotdot_first_ext.
      * by eapply renamed_touched.
      * destruct Hnd5 as [Hm Ho Hls Hbl]. split; rewrite ?Hi7, ?Hi6; done.
      * intros c' x Hc'. rewrite (to_lookup _ _ _ _ _ _ Hto) by done. by apply Hdots6.
      * intros m Hm H1 H2. eapply same_file_trans; [by apply Hoth|]. destruct (to_others _ _ _ _ _ _ Hto m Hm H1) as [? Hbb].
        split; [done|]. intros b. unfold file_blocks. rewrite <- (HFF5 m H2). apply Hbb.
      * exact Hl7.
Qed.

End mkdirspec.
