(* ===== verification/FormatSpec.v ===== *)
(** * The volume that formatting leaves

    What [mofs_format] writes, block by block, and the proof that it is a
    consistent volume with an empty root directory. *)

From Stdlib Require Import ZArith Lia.
From stdpp Require Import base list list_numbers.
From S2P Require Import Prelude Types Platform Raw Buffer BufferSpec Ops Bitmap Inode Block FileData Dirent Path Format Core Volume BlockSpec AllocSpec FreeSpec InodeSpec VolInv FileSpec FileInv PermSpec DirSpec PathSpec EntrySpec TreeSpec NameSpec FsSpec.

(** ** The layout *)

Lemma valid_blk_size_cases bb : mofs_validate_logical_blk_size bb = 0 ->
  bb ∈ [512; 1024; 2048; 4096; 8192; 16384; 32768; 65536].
Proof.
  intros Hb. destruct (valid_blk_size bb Hb) as (k & Hk & ->). apply list_elem_of_In. simpl.
  assert (Hc : k = 9 \/ k = 10 \/ k = 11 \/ k = 12 \/ k = 13 \/ k = 14 \/ k = 15 \/ k = 16) by lia.
  repeat (destruct Hc as [->|Hc]; [vm_compute; tauto|]). subst k. vm_compute. tauto.
Qed.

(** The fields of the layout without the wrap-around of 64-bit sums. *)
Lemma compute_layout_eq dev_size bb :
  512 <= bb <= 65536 -> 0 <= dev_size <= (2 ^ 27 - 4) * bb ->
  compute_layout dev_size bb =
    let inodes := ceil_div dev_size (bb * 4) in
    mkLayout (dev_size / bb) inodes (ceil_div inodes (bb * 8)) (ceil_div (dev_size / bb) (bb * 8)) (ceil_div (inodes * 64) bb).
Proof.
  intros Hb Hd. unfold compute_layout. rewrite (u32_small (bb * 4)) by lia.
  assert (Hd64 : dev_size <= (2 ^ 27 - 4) * 65536) by nia.
  pose proof (Z.div_pos dev_size bb ltac:(lia) ltac:(lia)) as Hq0.
  pose proof (Z.div_le_upper_bound dev_size bb (2 ^ 27 - 4) ltac:(lia) ltac:(lia)) as Hq.
  assert (Hi0 : 0 <= (dev_size + (bb * 4 - 1)) / (bb * 4)) by (apply Z.div_pos; lia).
  assert (Hi : (dev_size + (bb * 4 - 1)) / (bb * 4) <= 2 ^ 44) by (apply Z.div_le_upper_bound; nia).
  rewrite (u64_small (dev_size + (bb * 4 - 1))) by lia. rewrite !u64_small by lia. unfold ceil_div.
  by rewrite Z.add_sub_assoc.
Qed.

(** The layout is well formed. *)
Lemma layout_sound bb dev_size :
  let l := compute_layout dev_size bb in
  let sb := layout_superblock l bb in
  mofs_validate_logical_blk_size bb = 0 -> 0 <= dev_size <= (2 ^ 27 - 4) * bb ->
  meta_reserved l < l_hole_blk_num l ->
  (forall i p fd, vol_ok (mkCtx i p fd sb) (dev_size / bb)) /\ superblock_fits sb /\
  0 < data_blk_num sb /\ dev_size <= 4 * bb * inode_num sb /\
  data_region_start sb = meta_reserved l /\ l_hole_blk_num l = dev_size / bb.
Proof.
  intros l sb Hb Hd Hm. pose proof (valid_blk_size_cases bb Hb) as Hc.
  assert (Hbb : 512 <= bb <= 65536) by (apply list_elem_of_In in Hc; simpl in Hc; lia).
  unfold sb, l in *. clear sb l. rewrite (compute_layout_eq dev_size bb Hbb Hd) in *.
  pose proof (Z.div_mod dev_size bb ltac:(lia)) as Hh. pose proof (Z.mod_pos_bound dev_size bb ltac:(lia)) as Hr.
  pose proof (ceil_div_spec dev_size (bb * 4) ltac:(lia)) as Hn.
  pose proof (ceil_div_spec (ceil_div dev_size (bb * 4)) (bb * 8) ltac:(lia)) as Hib.
  pose proof (ceil_div_spec (dev_size / bb) (bb * 8) ltac:(lia)) as Hdb.
  pose proof (ceil_div_spec (ceil_div dev_size (bb * 4) * 64) bb ltac:(lia)) as Hit.
  unfold layout_superblock, meta_reserved in *.
  cbn [l_hole_blk_num l_inode_num l_inode_bitmap_blks l_data_bitmap_blks l_inode_table_blks] in *.
  set (n := ceil_div dev_size (bb * 4)) in *. set (ib := ceil_div n (bb * 8)) in *. set (h := dev_size / bb) in *.
  set (db := ceil_div h (bb * 8)) in *. set (it := ceil_div (n * 64) bb) in *. clearbody n ib db it.
  assert (Hbnd : 0 <= h < 2 ^ 27 /\ 0 <= n < 2 ^ 25 /\ 0 <= ib /\ 0 <= db /\ 0 <= it).
  { clear Hm. clearbody h. apply list_elem_of_In in Hc. cbn [In] in Hc.
    repeat (destruct Hc as [<-|Hc]; [lia|]). done. }
  rewrite (u32_small (1 + ib)), (u32_small h), (u32_small n) by lia. rewrite (u32_small (1 + ib + db)) by lia.
  rewrite (u32_small (1 + ib + db + it)), (u32_small (h - (1 + ib + db + it))) by lia.
  split; [|split; [|cbn [data_blk_num inode_num data_region_start]; split; [lia|]; split; [lia|]; done]].
  - intros i p fd. apply list_elem_of_In in Hc. cbn [In] in Hc. clearbody h.
    split; cbn [sp_blk blk_size inode_bitmap_start data_bitmap_start inode_table_start data_region_start data_blk_num hole_blk_num inode_num];
      try done; try lia; repeat (destruct Hc as [<-|Hc]; [lia|]); done.
  - unfold superblock_fits. cbn. clearbody h. rewrite !Forall_cons. split_and!; try done; lia.
Qed.

(** ** Devices and logical disks *)

(** The first [nblk] blocks of the device hold [d]. *)
Record dev_holds (bb nblk : Z) (dev : list byte) (d : disk) : Prop := {
  ho_len : nblk * bb <= blen dev;
  ho_block : forall b, 0 <= b < nblk -> bslice (b * bb) bb dev = d b
}.

Lemma holds_ext bb nblk dev d d' : dev_holds bb nblk dev d -> (forall b, 0 <= b < nblk -> d' b = d b) -> dev_holds bb nblk dev d'.
Proof. intros [Hl Hd] He. split; [done|]. intros b Hb. rewrite He by done. by apply Hd. Qed.

(** Writing inside one block. *)
Lemma holds_splice bb nblk dev d b o buf : 0 < bb -> dev_holds bb nblk dev d -> 0 <= b < nblk -> 0 <= o -> o + blen buf <= bb ->
  dev_holds bb nblk (bsplice (b * bb + o) buf dev) (upd d b (bsplice o buf (d b))).
Proof.
  intros Hbb [Hl Hd] Hb Ho Hbuf. assert (Hend : (b + 1) * bb <= nblk * bb) by (apply Z.mul_le_mono_nonneg_r; lia).
  assert (Hb0 : 0 <= b * bb) by (apply Z.mul_nonneg_nonneg; lia).
  rewrite <- (bsplice_nested (b * bb) bb o buf dev), (Hd b Hb) by lia.
  assert (Hlen : blen (d b) = bb) by (rewrite <- (Hd b Hb), length_bslice; lia).
  set (x := bsplice o buf (d b)). assert (Hx : blen x = bb) by (unfold x; rewrite length_bsplice; lia).
  split; [rewrite length_bsplice; lia|]. intros c Hc. destruct (Z.eq_dec c b) as [->|Hne].
  - rewrite upd_eq. apply bslice_bsplice_same; lia.
  - rewrite upd_ne by done. rewrite <- (Hd c Hc). apply bslice_bsplice_other; try lia.
    destruct (Z.lt_ge_cases c b) as [Hlt|Hge].
    + left. assert ((c + 1) * bb <= b * bb) by (apply Z.mul_le_mono_nonneg_r; lia). lia.
    + right. assert ((b + 1) * bb <= c * bb) by (apply Z.mul_le_mono_nonneg_r; lia). lia.
Qed.

(** ** Running device programs *)

Section run.
Context {P C : Type} `{!Platform P} `{!PlatformSpec P} (bb nblk : Z).
Abbreviation W := (world P C).

(** [m], started on a device that holds [d], succeeds with a result and a disk
    that satisfy [Q], and changes the platform only. *)
Definition dwp {A} (m : M W A) (d : disk) (Q : A -> disk -> Prop) : Prop :=
  forall w : W, p_ok (w_plat w) -> dev_holds bb nblk (p_dev (w_plat w)) d -> exists p x d',
  m w = (set_plat p w, Ok x) /\ p_ok p /\ blen (p_dev p) = blen (p_dev (w_plat w)) /\ dev_holds bb nblk (p_dev p) d' /\ Q x d'.

Lemma dwp_ret {A} (x : A) d (Q : A -> disk -> Prop) : Q x d -> dwp (mret x) d Q.
Proof. intros HQ w Hok Hh. exists (w_plat w), x, d. split_and!; try done. by destruct w. Qed.

Lemma dwp_bind {A B} (m : M W A) (k : A -> M W B) d Q : dwp m d (fun x d' => dwp (k x) d' Q) -> dwp (m ≫= k) d Q.
Proof.
  intros Hm w Hok Hh. destruct (Hm w Hok Hh) as (p & x & d' & E & Hok' & Hl & Hh' & Hk).
  destruct (Hk (set_plat p w) Hok' Hh') as (p' & y & d'' & E' & Hok'' & Hl' & Hh'' & HQ).
  exists p', y, d''. split; [by rewrite (M_bind_ok _ _ _ _ _ E)|]. split_and!; try done. by etrans.
Qed.

Lemma dwp_mono {A} (m : M W A) d (Q Q' : A -> disk -> Prop) : dwp m d Q -> (forall x d', Q x d' -> Q' x d') -> dwp m d Q'.
Proof.
  intros Hm HQ w Hok Hh. destruct (Hm w Hok Hh) as (p & x & d' & ? & ? & ? & ? & ?). exists p, x, d'. split_and!; try done. by apply HQ.
Qed.

Lemma dwp_malloc n d Q : 0 <= n -> (forall b, Q b d) -> dwp (mofs_malloc n) d Q.
Proof.
  intros Hn HQ w Hok Hh. destruct (p_malloc (w_plat w) n Hok Hn) as (p & b & E & _ & Hok' & Hd & _).
  exists p, b, d. split; [by apply plat_eq|split_and!; [done|by rewrite Hd|by rewrite Hd|done]].
Qed.

Lemma dwp_now d Q : (forall t, 0 <= t < 2 ^ 64 -> Q t d) -> dwp mofs_now d Q.
Proof.
  intros HQ w Hok Hh. destruct (p_time (w_plat w) Hok) as (p & t & E & Ht & Hok' & Hd & _).
  exists p, t, d. split; [by apply plat_eq|]. repeat (split; [done || by rewrite Hd|]). by apply HQ.
Qed.

(** Positioning and writing inside block [b]. *)
Lemma seek_write fd b o buf (w : W) d : 0 < bb -> fd = p_fd -> 0 <= b < nblk -> 0 <= o -> o + blen buf <= bb -> bb < 2 ^ 32 ->
  p_ok (w_plat w) -> dev_holds bb nblk (p_dev (w_plat w)) d -> exists p p',
  seek_device fd (b * bb + o) w = (set_plat p w, Ok tt) /\ write_exact fd buf (set_plat p w) = (set_plat p' w, Ok tt) /\
  p_ok p' /\ blen (p_dev p') = blen (p_dev (w_plat w)) /\ dev_holds bb nblk (p_dev p') (upd d b (bsplice o buf (d b))).
Proof.
  intros Hbb Hfd Hb Ho Hbuf Hmax Hok Hh. pose proof Hh as [Hl _].
  assert (Hend : (b + 1) * bb <= nblk * bb) by (apply Z.mul_le_mono_nonneg_r; lia).
  assert (Hb0 : 0 <= b * bb) by (apply Z.mul_nonneg_nonneg; lia).
  destruct (p_lseek_set (w_plat w) fd (b * bb + o) Hok Hfd ltac:(lia)) as (p & E & Hok1 & Hd1 & Hp1).
  destruct (p_write p fd buf Hok1 Hfd) as (p' & E' & Hok2 & Hd2 & _); [lia|lia|rewrite Hp1, Hd1; lia|].
  rewrite Hp1, Hd1 in Hd2. exists p, p'. split; [|split; [|split; [done|]]].
  - unfold seek_device, dev_lseek. by rewrite (M_bind_ok _ _ _ _ _ (plat_eq _ w _ _ E)).
  - unfold write_exact, dev_write. rewrite (M_bind_ok _ _ _ _ _ (plat_eq _ (set_plat p w) _ _ E')). cbn. by rewrite Z.eqb_refl.
  - rewrite Hd2. split; [rewrite length_bsplice; lia|]. by apply holds_splice.
Qed.

Lemma dwp_put {A} fd b o buf (k : M W A) d Q : 0 < bb -> bb < 2 ^ 32 -> fd = p_fd -> 0 <= b < nblk -> 0 <= o -> o + blen buf <= bb ->
  dwp k (upd d b (bsplice o buf (d b))) Q -> dwp (seek_device fd (b * bb + o);; write_exact fd buf;; k) d Q.
Proof.
  intros Hbb Hmax Hfd Hb Ho Hbuf Hk w Hok Hh.
  destruct (seek_write fd b o buf w d) as (p & p' & E1 & E2 & Hok' & Hl & Hh'); try done.
  destruct (Hk (set_plat p' w) Hok' Hh') as (p'' & x & d' & E3 & Hok'' & Hl' & Hh'' & HQ).
  exists p'', x, d'. split; [by rewrite (M_bind_ok _ _ _ _ _ E1), (M_bind_ok _ _ _ _ _ E2)|]. split_and!; try done. by etrans.
Qed.

Lemma dwp_put_last fd b o buf d (Q : unit -> disk -> Prop) : 0 < bb -> bb < 2 ^ 32 -> fd = p_fd -> 0 <= b < nblk -> 0 <= o -> o + blen buf <= bb ->
  Q tt (upd d b (bsplice o buf (d b))) -> dwp (seek_device fd (b * bb + o);; write_exact fd buf) d Q.
Proof.
  intros Hbb Hmax Hfd Hb Ho Hbuf HQ w Hok Hh.
  destruct (seek_write fd b o buf w d) as (p & p' & E1 & E2 & Hok' & Hl & Hh'); try done.
  exists p', tt, (upd d b (bsplice o buf (d b))). split; [by rewrite (M_bind_ok _ _ _ _ _ E1)|]. done.
Qed.

Lemma dwp_clear_blocks fd b d (Q : unit -> disk -> Prop) : 0 < bb -> bb < 2 ^ 32 -> fd = p_fd -> 0 <= b < nblk -> nblk * bb < 2 ^ 64 ->
  blen (d b) = bb -> Q tt (upd d b (zeros bb)) -> dwp (clear_blocks fd b bb) d Q.
Proof.
  intros Hbb Hmax Hfd Hb H64 Hlen HQ. unfold clear_blocks. apply dwp_bind, dwp_malloc; [lia|]. intros _.
  assert (Hend : (b + 1) * bb <= nblk * bb) by (apply Z.mul_le_mono_nonneg_r; lia).
  assert (Hb0 : 0 <= b * bb) by (apply Z.mul_nonneg_nonneg; lia).
  rewrite u64_small by lia. replace (b * bb) with (b * bb + 0) by lia.
  apply dwp_put_last; try done; [rewrite length_zeros; lia|]. by rewrite bsplice_0_all by (rewrite length_zeros; lia).
Qed.

(** The loop over the metadata blocks. *)
Lemma dwp_clear_meta fd n : forall i d (Q : unit -> disk -> Prop), 0 < bb -> bb < 2 ^ 32 -> fd = p_fd -> nblk * bb < 2 ^ 64 ->
  0 <= i -> i + Z.of_nat n <= nblk -> (forall b, 0 <= b < nblk -> blen (d b) = bb) ->
  (forall d', (forall b, d' b = if (i <=? b) && (b <? i + Z.of_nat n) then zeros bb else d b) -> Q tt d') ->
  dwp (clear_meta fd bb n i) d Q.
Proof.
  induction n as [|n IH]; intros i d Q Hbb Hmax Hfd H64 Hi Hin Hlen HQ; cbn [clear_meta].
  { apply dwp_ret, HQ. intros b. by replace ((i <=? b) && (b <? i + Z.of_nat 0)) with false by (symmetry; apply andb_false_iff; rewrite Z.leb_gt, Z.ltb_ge; lia). }
  apply dwp_bind, dwp_clear_blocks; try done; [lia|apply Hlen; lia|].
  apply IH; try done; try lia.
  - intros b Hb. destruct (Z.eq_dec b i) as [->|Hne]; [rewrite upd_eq, length_zeros; lia|]. rewrite upd_ne by done. by apply Hlen.
  - intros d' Hd'. apply HQ. intros b. rewrite Hd'. unfold upd. destruct (Z.eqb_spec b i) as [->|Hne].
    + replace ((i <=? i) && (i <? i + Z.of_nat (S n))) with true by (symmetry; apply andb_true_iff; rewrite Z.leb_le, Z.ltb_lt; lia). by destruct (_ && _).
    + replace ((i <=? b) && (b <? i + Z.of_nat (S n))) with ((i + 1 <=? b) && (b <? i + 1 + Z.of_nat n)); [done|].
      apply eq_true_iff_eq. rewrite !andb_true_iff, !Z.leb_le, !Z.ltb_lt. lia.
Qed.

End run.

(** ** The image *)

(** What [mofs_format] leaves at time [now] on a device that held [d]. *)
Definition formatted (sb : mofs_superblock_t) (now : Z) (d : disk) : disk := fun b =>
  let bb := blk_size sb in
  if b =? 0 then bsplice 0 (encode_superblock sb) (zeros bb)
  else if b =? inode_bitmap_start sb then bsplice 0 [byte.of_Z 4] (zeros bb)
  else if b =? data_bitmap_start sb then bsplice 0 [byte.of_Z 3] (zeros bb)
  else if b =? inode_table_start sb then bsplice 128 (encode_inode (root_inode bb (data_region_start sb) now)) (zeros bb)
  else if b =? data_region_start sb + 1 then root_list_node bb (data_region_start sb)
  else if b <=? data_region_start sb then zeros bb
  else d b.

(** The layout of a volume that has room for the root directory. *)
Record layout_ok (sb : mofs_superblock_t) (nblk : Z) : Prop := {
  lo_vol : forall i p fd, vol_ok (mkCtx i p fd sb) nblk;
  lo_fits : superblock_fits sb;
  lo_inodes : 3 <= inode_num sb;
  lo_data : 2 <= data_blk_num sb
}.

Lemma layout_order sb nblk : layout_ok sb nblk ->
  512 <= blk_size sb <= 65536 /\ 0 < inode_bitmap_start sb < data_bitmap_start sb /\
  data_bitmap_start sb < inode_table_start sb < data_region_start sb /\ data_region_start sb + 1 < nblk.
Proof.
  intros [Hv _ Hi Hd]. specialize (Hv true None 0). pose proof (bs_range _ _ Hv) as Hb. destruct Hv as []. cbn [sp_blk] in *.
  split; [done|]. split; [|split; [|lia]]; split; try lia.
  - destruct (Z.lt_ge_cases (inode_bitmap_start sb) (data_bitmap_start sb)); [done|]. nia.
  - destruct (Z.lt_ge_cases (data_bitmap_start sb) (inode_table_start sb)); [done|]. nia.
  - destruct (Z.lt_ge_cases (inode_table_start sb) (data_region_start sb)); [done|]. nia.
Qed.

Section format.
Context {P C : Type} `{!Platform P} `{!PlatformSpec P}.

Lemma dwp_format_device fd nblk bb d (Q : unit -> disk -> Prop) :
  let sb := layout_superblock (compute_layout (nblk * bb) bb) bb in
  mofs_validate_logical_blk_size bb = 0 -> 0 < nblk <= 2 ^ 27 - 4 -> fd = p_fd -> layout_ok sb nblk ->
  meta_reserved (compute_layout (nblk * bb) bb) < nblk ->
  (forall b, 0 <= b < nblk -> blen (d b) = bb) ->
  (forall t d', 0 <= t < 2 ^ 64 -> (forall b, 0 <= b < nblk -> d' b = formatted sb t d b) -> Q tt d') ->
  dwp (P:=P) (C:=C) bb nblk (format_device fd nblk bb) d Q.
Proof.
  intros sb Hbb Hnblk Hfd Hlo Hmeta Hd HQ. destruct (layout_order _ _ Hlo) as (Hr & Hi & Ht & Hend).
  change (blk_size sb) with bb in Hr.
  assert (Hdiv : nblk * bb / bb = nblk) by (apply Z.div_mul; lia).
  destruct (layout_sound bb (nblk * bb) Hbb) as (_ & _ & _ & _ & Hdrs & Hhole); [split; [lia|apply Z.mul_le_mono_nonneg_r; lia]| |].
  { change (l_hole_blk_num (compute_layout (nblk * bb) bb)) with (nblk * bb / bb). by rewrite Hdiv. }
  fold sb in Hdrs. rewrite Hdiv in Hhole. assert (H64 : nblk * bb < 2 ^ 64) by nia.
  unfold format_device. rewrite (proj2 (Z.leb_le 0 bb)), u32_small by lia. cbv zeta. rewrite Hbb, (proj2 (Z.ltb_lt 0 nblk)) by lia. cbn [Z.eqb].
  apply dwp_bind, dwp_ret, dwp_bind, dwp_ret. fold sb. rewrite Hhole, (proj2 (Z.leb_gt _ _)) by done.
  apply dwp_bind, dwp_clear_meta; try done; try lia. intros d1 Hd1. rewrite (proj2 (Z.ltb_ge _ _)) by (unfold MOFS_UINT32_MAX; lia).
  rewrite <- Hdrs in Hd1. set (drs := data_region_start sb) in *.
  assert (Hz : forall b, 0 <= b < drs -> d1 b = zeros bb).
  { intros b Hb. rewrite Hd1. by replace ((0 <=? b) && (b <? 0 + Z.of_nat (Z.to_nat drs))) with true by (symmetry; apply andb_true_iff; rewrite Z.leb_le, Z.ltb_lt; lia). }
  assert (Ho : forall b, drs <= b -> d1 b = d b).
  { intros b Hb. rewrite Hd1. by replace ((0 <=? b) && (b <? 0 + Z.of_nat (Z.to_nat drs))) with false by (symmetry; apply andb_false_iff; rewrite Z.leb_gt, Z.ltb_ge; lia). }
  assert (Hp : forall b, 0 <= b < nblk -> 0 <= b * bb < 2 ^ 64).
  { intros b Hb. assert (b * bb <= nblk * bb) by (apply Z.mul_le_mono_nonneg_r; lia).
    split; [apply Z.mul_nonneg_nonneg; lia|lia]. }
  clear Hd1. change (seek_device fd 0) with (seek_device (P:=P) (C:=C) fd (0 * bb + 0)).
  apply dwp_put; try lia; [rewrite length_encode_superblock; lia|].
  unfold format_root. rewrite (u64_small (inode_bitmap_start sb * bb)), (u64_small (data_bitmap_start sb * bb)) by (apply Hp; lia).
  rewrite <- (Z.add_0_r (inode_bitmap_start sb * bb)), <- (Z.add_0_r (data_bitmap_start sb * bb)).
  apply dwp_put; try lia; [simpl; lia|]. apply dwp_put; try lia; [simpl; lia|]. fold drs.
  match goal with |- dwp _ _ _ ?x _ => set (d2 := x) end.
  assert (Hd2 : forall b, drs <= b < nblk -> d2 b = d b) by (intros b Hb; unfold d2; rewrite !upd_ne by lia; apply Ho; lia).
  apply dwp_bind, dwp_clear_blocks; try done; try lia; [rewrite Hd2 by lia; apply Hd; lia|].
  apply dwp_bind, dwp_clear_blocks; try done; try lia; [rewrite upd_ne, Hd2 by lia; apply Hd; lia|].
  apply dwp_bind, dwp_malloc; [lia|]. intros _. rewrite (u64_small ((drs + 1) * bb)), <- (Z.add_0_r ((drs + 1) * bb)) by (apply Hp; lia).
  assert (Hroot : blen (root_list_node bb drs) = bb) by (apply length_list_node_buf; simpl; lia).
  apply dwp_put; try lia. apply dwp_bind, dwp_now. intros t Ht0.
  apply dwp_put_last; try lia; [rewrite length_encode_inode_Z by reflexivity; lia|].
  apply (HQ t); [done|]. intros b Hb. unfold formatted, d2. cbv zeta. change (blk_size sb) with bb. fold drs. unfold upd.
  rewrite (bsplice_0_all (root_list_node bb drs)) by (rewrite Z.eqb_refl, length_zeros; lia).
  repeat match goal with |- context [?x =? ?y] => destruct (Z.eqb_spec x y); try lia end; rewrite ?Hz by lia; try done.
  - by rewrite (proj2 (Z.leb_le _ _)) by lia.
  - destruct (Z.leb_spec b drs); [by rewrite Hz by lia|by rewrite Ho by lia].
Qed.

End format.

(** ** The volume *)

Lemma get_u8_zeros k n : get_u8 k (zeros n) = 0.
Proof. unfold get_u8. rewrite lookup_zeros. by case_decide. Qed.

Lemma get_u8_first k v n : 0 <= k -> 0 < n -> 0 <= v < 256 -> get_u8 k (bsplice 0 [byte.of_Z v] (zeros n)) = if k =? 0 then v else 0.
Proof.
  intros Hk Hn Hv. assert (He : bsplice 0 [byte.of_Z v] (zeros n) = put_u8 0 v (zeros n)).
  { unfold put_u8, bsplice, zeros. cbn [Z.to_nat take app length Nat.add]. replace (Z.to_nat n) with (S (Z.to_nat n - 1)) by lia.
    generalize (Z.to_nat n - 1)%nat. intros m. change (Z.to_nat 0) with 0%nat. simpl. by rewrite drop_0. }
  rewrite He, get_u8_put_u8, get_u8_zeros by (rewrite ?length_zeros; lia). done.
Qed.

(** A bitmap whose first byte is [v] and that is clear otherwise. *)
Lemma bitmap_first cx start d v i : 512 <= blk_size (sp_blk cx) -> 0 <= i -> 0 <= v < 256 ->
  d start = bsplice 0 [byte.of_Z v] (zeros (blk_size (sp_blk cx))) ->
  (0 < i / (blk_size (sp_blk cx) * 8) -> d (start + i / (blk_size (sp_blk cx) * 8)) = zeros (blk_size (sp_blk cx))) ->
  bitmap_bit cx start d i = Z.testbit v i.
Proof.
  intros Hb Hi Hv H0 Hr. unfold bitmap_bit, get_bit. set (bs := blk_size (sp_blk cx)) in *.
  pose proof (Z.div_mod i (bs * 8) ltac:(lia)) as Hdm. pose proof (Z.mod_pos_bound i (bs * 8) ltac:(lia)) as Hm.
  assert (Hbig : 8 <= i -> Z.testbit v i = false) by (intros Hge; by apply testbit_byte_high).
  destruct (Z.eq_dec (i / (bs * 8)) 0) as [Hz|Hz].
  - rewrite Hz, Z.add_0_r, H0. replace (i mod (bs * 8)) with i by lia. rewrite get_u8_first by lia.
    destruct (Z.eqb_spec (i / 8) 0); [replace (i mod 8) with i by lia; done|]. rewrite Z.bits_0, Hbig by lia. done.
  - assert (0 <= i / (bs * 8)) by (apply Z.div_pos; lia). rewrite Hr by lia. rewrite get_u8_zeros, Z.bits_0, Hbig by lia. done.
Qed.

(** The files of a formatted volume: the root directory with one block. *)
Definition root_files (sb : mofs_superblock_t) : files := fun n =>
  if n =? MOFS_ROOT_INODE_NUM then ([data_region_start sb + 1], [data_region_start sb]) else ([], []).

Lemma layout_vol cx nblk : layout_ok (sp_blk cx) nblk -> vol_ok cx nblk.
Proof. intros Hlo. destruct cx. apply Hlo. Qed.

Section fresh.
Context (cx : mofs_ctx_t) (nblk : Z) (d d0 : disk) (t : Z).
Context (Hlo : layout_ok (sp_blk cx) nblk) (Ht : 0 <= t < 2 ^ 64).
Context (Hd : forall b, 0 <= b < nblk -> d b = formatted (sp_blk cx) t d0 b).
Context (Hlen : forall b, 0 <= b < nblk -> blen (d0 b) = blk_size (sp_blk cx)).
Abbreviation sb := (sp_blk cx).
Abbreviation bs := (blk_size (sp_blk cx)).
Abbreviation drs := (data_region_start (sp_blk cx)).
Abbreviation is_inode n := (0 <= n < inode_num (sp_blk cx)).
Abbreviation root := MOFS_ROOT_INODE_NUM.

Local Lemma fresh_vol : vol_ok cx nblk.
Proof. by apply layout_vol. Qed.

Local Lemma fresh_order : 512 <= bs <= 65536 /\ 0 < inode_bitmap_start sb < data_bitmap_start sb /\
  data_bitmap_start sb < inode_table_start sb < drs /\ drs + 1 < nblk.
Proof. by apply layout_order. Qed.

(** *** The blocks *)

Ltac fmt_block := rewrite Hd by lia; unfold formatted; cbv zeta;
  repeat match goal with |- context [?x =? ?y] => destruct (Z.eqb_spec x y); try lia end.

Local Lemma blk_ibm : d (inode_bitmap_start sb) = bsplice 0 [byte.of_Z 4] (zeros bs).
Proof. destruct fresh_order as (? & ? & ? & ?). by fmt_block. Qed.

Local Lemma blk_dbm : d (data_bitmap_start sb) = bsplice 0 [byte.of_Z 3] (zeros bs).
Proof. destruct fresh_order as (? & ? & ? & ?). by fmt_block. Qed.

Local Lemma blk_its : d (inode_table_start sb) = bsplice 128 (encode_inode (root_inode bs drs t)) (zeros bs).
Proof. destruct fresh_order as (? & ? & ? & ?). by fmt_block. Qed.

Local Lemma blk_node : d (drs + 1) = root_list_node bs drs.
Proof. destruct fresh_order as (? & ? & ? & ?). by fmt_block. Qed.

Local Lemma blk_zero b : 0 < b <= drs -> b <> inode_bitmap_start sb -> b <> data_bitmap_start sb -> b <> inode_table_start sb -> d b = zeros bs.
Proof. intros Hb H1 H2 H3. destruct fresh_order as (? & ? & ? & ?). fmt_block. by rewrite (proj2 (Z.leb_le _ _)) by lia. Qed.

Lemma fresh_disk_ok : disk_ok cx nblk d.
Proof.
  intros b Hb. destruct fresh_order as (? & ? & ? & ?). fmt_block; rewrite ?length_bsplice, ?length_zeros; try lia.
  - rewrite length_encode_superblock, length_zeros. lia.
  - rewrite length_zeros. simpl. lia.
  - rewrite length_zeros. simpl. lia.
  - rewrite length_encode_inode_Z, length_zeros by reflexivity. lia.
  - apply length_list_node_buf; simpl; lia.
  - case_match; [rewrite length_zeros; lia|by apply Hlen].
Qed.

(** *** Bitmaps and inodes *)

Lemma fresh_inode_bit n : is_inode n -> inode_bit cx d n = (n =? root).
Proof.
  intros Hn. destruct fresh_order as (? & ? & ? & ?). pose proof (inode_bitmap_blk cx nblk fresh_vol n Hn).
  unfold inode_bit. rewrite (bitmap_first cx _ d 4) by first [lia|apply blk_ibm|intros ?; apply blk_zero; lia].
  change 4 with (2 ^ 2). rewrite Z.pow2_bits_eqb by lia. apply Z.eqb_sym.
Qed.

Lemma fresh_data_bit j : 0 <= j < data_blk_num sb -> data_bit cx d j = (j <? 2).
Proof.
  intros Hj. destruct fresh_order as (? & ? & ? & ?). pose proof (data_bitmap_blk cx nblk fresh_vol j Hj).
  unfold data_bit. rewrite (bitmap_first cx _ d 3) by first [lia|apply blk_dbm|intros ?; apply blk_zero; lia].
  change 3 with (Z.ones 2). destruct (Z.ltb_spec j 2); [apply Z.ones_spec_low; lia|apply Z.ones_spec_high; lia].
Qed.

Lemma root_inode_fits : inode_fits (root_inode bs drs t).
Proof.
  destruct fresh_order as (? & ? & ? & ?). pose proof (vo_max _ _ fresh_vol). assert (0 < drs + 1 < 2 ^ 32) by lia.
  constructor; simpl; try done; try lia. rewrite u32_small; lia.
Qed.

Lemma fresh_inode_at n : is_inode n -> inode_at cx d n = if n =? root then root_inode bs drs t else zero_inode.
Proof.
  intros Hn. destruct fresh_order as (? & ? & ? & ?). pose proof (tbl_blk_range cx nblk fresh_vol n Hn) as Hb.
  destruct (tbl_off_range cx nblk fresh_vol n ltac:(lia)) as [Ho1 Ho2]. unfold inode_at.
  assert (Hoff : tbl_off cx n = n * 64 - bs * (n * 64 / bs)) by (unfold tbl_off; pose proof (Z.div_mod (n * 64) bs ltac:(lia)); lia).
  assert (He : blen (encode_inode (root_inode bs drs t)) = 64) by (by apply length_encode_inode_Z).
  destruct (Z.eq_dec (n * 64 / bs) 0) as [Hz|Hz].
  - rewrite Hz, Z.mul_0_r, Z.sub_0_r in Hoff. unfold tbl_blk. rewrite Hz, Z.add_0_r, blk_its, Hoff.
    unfold root, MOFS_ROOT_INODE_NUM. destruct (Z.eqb_spec n 2) as [->|Hne].
    + change (2 * 64) with 128. rewrite bslice_bsplice_same by (rewrite ?He, ?length_zeros; lia). apply decode_encode_inode, root_inode_fits.
    + rewrite bslice_bsplice_other by (rewrite ?He, ?length_zeros; lia). rewrite bslice_zeros by lia. reflexivity.
  - assert (0 <= n * 64 / bs) by (apply Z.div_pos; lia). unfold tbl_blk in *. rewrite blk_zero by lia. rewrite bslice_zeros by lia.
    destruct (Z.eqb_spec n root) as [->|]; [|reflexivity]. exfalso. apply Hz. apply Z.div_small. unfold MOFS_ROOT_INODE_NUM. lia.
Qed.

(** *** Files and names *)

Lemma root_is_inode : is_inode root.
Proof. pose proof (lo_inodes _ _ Hlo). unfold MOFS_ROOT_INODE_NUM. lia. Qed.

Lemma root_map : file_map cx nblk d root [drs + 1] [drs].
Proof.
  destruct fresh_order as (? & ? & ? & ?). pose proof root_is_inode as Hr. pose proof (lo_data _ _ Hlo). pose proof (vo_max _ _ fresh_vol).
  pose proof (cap_pos cx nblk fresh_vol) as (Hcap & _).
  assert (Hi : inode_at cx d root = root_inode bs drs t) by (by rewrite fresh_inode_at).
  assert (Hnr : hdr_nr_ptrs (d (drs + 1)) = 1) by (rewrite blk_node; by apply node_nr_buf).
  split; rewrite ?Hi; cbn [i_data_head i_nr_blocks root_inode].
  - cbn [chain]. rewrite u32_small by lia. split; [done|]. split; [lia|]. split; [rewrite Hnr; lia|]. exists []. rewrite app_nil_r. split; [|split; [|done]].
    + unfold node_ptrs. rewrite Hnr, blk_node. symmetry. apply (list_ptrs_buf bs 0 [drs]). repeat constructor; lia.
    + rewrite blk_node. apply node_next_buf. lia.
  - done.
  - apply NoDup_cons. split; [rewrite list_elem_of_singleton; lia|apply NoDup_singleton].
  - apply Forall_singleton. lia.
  - intros b Hb. cbn [app] in Hb. apply elem_of_cons in Hb as [->|Hb]; [|apply list_elem_of_singleton in Hb as ->].
    + rewrite fresh_data_bit by lia. apply Z.ltb_lt. lia.
    + rewrite fresh_data_bit by lia. apply Z.ltb_lt. lia.
  - simpl. unfold MOFS_MAX_FILE_DATA_BLOCKS. lia.
Qed.

Lemma fresh_files : vol_files cx nblk d (root_files sb).
Proof.
  destruct fresh_order as (? & ? & ? & ?). unfold root_files. split.
  - intros n Hn. destruct (Z.eqb_spec n root) as [->|Hne]; [apply root_map|].
    pose proof (fresh_inode_at n Hn) as Hi. rewrite (proj2 (Z.eqb_neq _ _) Hne) in Hi.
    split; rewrite ?Hi; cbn; try done; first [apply NoDup_nil_2|by constructor|intros b Hb; by apply elem_of_nil in Hb].
  - intros n m b Hn Hm Hne Hb. unfold file_blocks in *. destruct (Z.eqb_spec n root) as [->|]; [|by apply elem_of_nil in Hb].
    destruct (Z.eqb_spec m root) as [->|]; [done|]. apply not_elem_of_nil.
  - intros j Hj Hb. rewrite fresh_data_bit in Hb by done. apply Z.ltb_lt in Hb. exists root. split; [apply root_is_inode|].
    unfold file_blocks. rewrite Z.eqb_refl. cbn [fst snd app]. destruct (Z.eq_dec j 0) as [->|]; [right; rewrite Z.add_0_r; left|].
    replace j with 1 by lia. left.
Qed.

Lemma fresh_is_dir n : is_inode n -> is_dir cx d n = (n =? root).
Proof.
  intros Hn. unfold is_dir. rewrite fresh_inode_at by done. by destruct (n =? root).
Qed.

(** The root directory dev_holds free slots only. *)
Lemma fresh_entries e : e ∈ dir_entries cx d root [drs] -> e = zero_dirent.
Proof.
  destruct fresh_order as (? & ? & ? & ?). intros He. unfold dir_entries, dirent_slice in He.
  apply list_elem_of_fmap in He as (j & -> & Hj). apply elem_of_seq in Hj.
  rewrite fresh_inode_at in Hj by apply root_is_inode. rewrite Z.eqb_refl in Hj. cbn [i_size root_inode] in Hj.
  unfold content. cbn [fmap list_fmap concat]. rewrite app_nil_r, blk_zero by lia. unfold dirent_at.
  rewrite bslice_zeros by lia. reflexivity.
Qed.

Lemma fresh_tree : tree_ok cx nblk d (root_files sb).
Proof.
  destruct fresh_order as (? & ? & ? & ?). split.
  - apply root_is_inode.
  - intros n Hn Hdir. rewrite fresh_is_dir in Hdir by done. apply Z.eqb_eq in Hdir as ->. unfold root_files. rewrite Z.eqb_refl. cbn [fst snd].
    split; [done|apply root_map|]. unfold covers. rewrite fresh_inode_at by done. rewrite Z.eqb_refl. cbn [i_size root_inode length]. lia.
  - intros n Hn Hdir. rewrite fresh_is_dir in Hdir by done. apply Z.eqb_eq in Hdir as ->. unfold root_files. rewrite Z.eqb_refl. cbn [fst snd]. split.
    + intros e He Hs. by rewrite (fresh_entries e He) in Hs.
    + intros i j e f Hi _ Hs _. apply list_elem_of_lookup_2 in Hi. by rewrite (fresh_entries e Hi) in Hs.
  - rewrite fresh_is_dir by apply root_is_inode. apply Z.eqb_refl.
Qed.

Lemma fresh_lookup n c : is_inode n -> is_dir cx d n = true -> c <> [] -> dir_lookup cx d (root_files sb) n c = None.
Proof.
  intros Hn Hdir Hc. rewrite fresh_is_dir in Hdir by done. apply Z.eqb_eq in Hdir as ->. unfold dir_lookup, root_files. rewrite Z.eqb_refl. cbn [snd].
  destruct (List.find _ _) as [e|] eqn:He; [|done]. apply List.find_some in He as [Hin Hname].
  apply list_elem_of_In in Hin. rewrite (fresh_entries e Hin) in Hname. by apply (has_name_set c _ Hc) in Hname.
Qed.

Lemma fresh_fs_ok : fs_ok cx nblk d (root_files sb).
Proof.
  split; [apply fresh_files|apply fresh_tree|..].
  - intros n Hn Hb. rewrite fresh_inode_bit in Hb by done. rewrite fresh_is_dir by done. unfold root_files. by rewrite Hb.
  - assert (Hno : forall n c m, ~ edge cx d (root_files sb) n c m) by (intros n c m (Hn & Hdir & Hc & Hl); by rewrite fresh_lookup in Hl).
    split; try by (intros; exfalso; eapply Hno).
    intros m Hm Hb. rewrite fresh_inode_bit in Hb by done. apply Z.eqb_eq in Hb as ->. apply reach_root.
  - intros n Hn. unfold root_files. by destruct (n =? root).
  - intros n Hn Hlt. rewrite fresh_inode_bit by done. apply Z.eqb_neq. unfold MOFS_ROOT_INODE_NUM. lia.
  - intros n Hn Hdir. rewrite fresh_is_dir in Hdir by done. by apply Z.eqb_eq in Hdir.
Qed.

End fresh.
