(* ===== verification/MountSpec.v ===== *)
(** * Mounting and unmounting

    What a block driver promises about its life cycle, and what
    [mofs_init_core] and [mofs_fini_core] do on a device that holds a volume. *)

From Stdlib Require Import ZArith Lia.
From stdpp Require Import base list list_numbers.
From S2P Require Import Prelude Types Platform Raw Buffer BufferSpec Ops Split SplitSpec Bitmap Inode Block FileData Dirent Path Format Core Volume BlockSpec AllocSpec FreeSpec InodeSpec VolInv FileSpec FileInv PermSpec DirSpec PathSpec EntrySpec TreeSpec FsSpec FormatSpec.

(** ** The life of a block driver *)

Class DriverLife (P C : Type) `{!Platform P} `{!PlatformSpec P} `{!BlockDriver P C} `{!DriverSpec P C} := {
  (** not initialised *)
  drv_fresh : C -> Prop;
  (** the flags are ones that [dev_open] accepts *)
  drv_open_ok : Z.land drv_open_flags 3 = MOFS_IO_OPEN_FLAG_RDWR /\ Z.land drv_open_flags (Z.lnot known_open_flags) = 0;
  drv_init_ok : forall cx nblk (w : world P C),
    w_ctx w = cx -> dev_fd cx = p_fd -> 0 < blk_size (sp_blk cx) <= 65536 -> 0 <= nblk <= 2 ^ 32 ->
    p_ok (w_plat w) -> nblk * blk_size (sp_blk cx) <= blen (p_dev (w_plat w)) -> drv_fresh (w_cache w) -> exists w',
    drv_init w = (w', Ok tt) /\ drv_rep cx nblk (dev_block w) w' /\ same_frame w w' /\
    drv_left w' = MOFS_UINT64_MAX;
  drv_rep_ctx : forall cx cx' nblk v (w : world P C), drv_rep cx nblk v w ->
    dev_fd cx' = dev_fd cx -> sp_blk cx' = sp_blk cx ->
    drv_rep cx' nblk v (set_ctx cx' w) /\ drv_left (set_ctx cx' w) = drv_left w;
  (** a flush brings the device up to date *)
  drv_sync_ok : forall cx nblk v (w : world P C), drv_rep cx nblk v w -> exists w',
    drv_flush w = (w', Ok tt) /\ drv_rep cx nblk v w' /\ same_frame w w' /\
    (forall b, 0 <= b < nblk -> dev_block w' b = v b) /\ blen (p_dev (w_plat w')) = blen (p_dev (w_plat w));
  drv_fini_ok : forall cx nblk v (w : world P C), drv_rep cx nblk v w -> exists w',
    drv_fini w = (w', Ok tt) /\ same_frame w w' /\ w_plat w' = w_plat w /\ drv_fresh (w_cache w');
  drv_rep_ctx_eq : forall cx nblk v (w : world P C), drv_rep cx nblk v w -> w_ctx w = cx /\ dev_fd cx = p_fd
}.

Lemma cache_rep_ctx {P} `{!Platform P} `{!PlatformSpec P} cx cx' nblk v (w : world P bcache) : cache_rep cx nblk v w ->
  dev_fd cx' = dev_fd cx -> sp_blk cx' = sp_blk cx -> cache_rep cx' nblk v (set_ctx cx' w).
Proof.
  intros [] Hfd Hsp. split; try done; rewrite ?Hfd, ?Hsp; try done.
  by replace (dev_block (set_ctx cx' w)) with (dev_block w) by (unfold dev_block, mofs_io_blk_sz; cbn; rewrite Hsp; by subst cx).
Qed.

#[global] Instance cached_life {P} `{!Platform P} `{!PlatformSpec P} : DriverLife P bcache.
Proof.
  refine {| drv_fresh := fun c => bcache_ready c = false /\ bcache_pool c <> [] |}.
  - split; reflexivity.
  - intros cx nblk w Hcx Hfd Hbs Hn Hok Hl [Hr Hp].
    destruct (bcache_init_ok cx nblk w) as (w' & E & R & F & T & _); try done. exists w'. split_and!; try done. cbn. rewrite T. done.
  - intros cx cx' nblk v w Hr Hfd Hsp. split; [|done]. by apply (cache_rep_ctx cx).
  - intros cx nblk v w Hr. destruct (bcache_flush_ok cx nblk v w Hr) as (w' & E & R & F & T & D & L). by exists w'.
  - intros cx nblk v w Hr. pose proof (cr_mutex _ _ _ _ Hr) as Hm. pose proof (cr_slots _ _ _ _ Hr) as Hs. eexists. split.
    { unfold drv_fini, cached_driver, mofs_bcache_fini. erewrite M_bind_ok by reflexivity. rewrite Hm. reflexivity. }
    split; [done|]. split; [done|].
    split; [done|]. cbn. unfold pool_of in Hs. by destruct (bcache_pool (w_cache w)).
  - intros cx nblk v w []. done.
Defined.

#[global] Instance uncached_life {P} `{!Platform P} `{!PlatformSpec P} : DriverLife P unit.
Proof.
  refine {| drv_fresh := fun _ => True |}.
  - split; reflexivity.
  - intros cx nblk w Hcx Hfd Hbs Hn Hok Hl _. exists w. split_and!; try done.
  - intros cx cx' nblk v w [] Hfd Hsp. split; [|done]. split; try done; rewrite ?Hfd, ?Hsp; try done.
    intros b Hb. rewrite <- rr_blocks by done. unfold dev_block, mofs_io_blk_sz. cbn. rewrite Hsp. by subst cx.
  - intros cx nblk v w Hr. exists w. split_and!; try done. by apply Hr.
  - intros cx nblk v w Hr. by exists w.
  - intros cx nblk v w []. done.
Defined.

#[global] Instance split_life {P} `{!Platform P} `{!PlatformSpec P} : DriverLife P scache.
Proof.
  refine {| drv_fresh := fun c => split_ready c = false /\ forall m, sel_pool m c <> [] |}.
  - split; reflexivity.
  - intros cx nblk w Hcx Hfd Hbs Hn Hok Hl [Hr Hp].
    destruct (split_init_ok cx nblk w) as (w' & E & R & F & T & _); try done. by exists w'.
  - intros cx cx' nblk v w [Hs Hrt] Hfd Hsp. split; [|done].
    assert (Hm : forall b, is_metadata_block cx' b = is_metadata_block cx b) by (intros b; unfold is_metadata_block; by rewrite Hsp).
    pose proof (cr_ctx _ _ _ _ (Hs true)) as Hcx. cbn in Hcx.
    assert (Hd : forall b, dev_block (set_ctx cx' w) b = dev_block w b) by (intros b; unfold dev_block, mofs_io_blk_sz; cbn; rewrite Hsp; by subst cx).
    split.
    + intros m. pose proof (cache_rep_ctx cx cx' nblk (side cx m v (dev_block w)) (view m w) (Hs m) Hfd Hsp) as Hr.
      eapply cache_rep_ext; [exact Hr|]. intros b Hb. unfold side. rewrite Hm, Hd. done.
    + intros m i e He Hv. rewrite Hm. by apply (Hrt m i e).
  - intros cx nblk v w Hr. destruct (split_flush_ok cx nblk v w Hr) as (w' & E & R & F & T & D & L). by exists w'.
  - intros cx nblk v w Hr. pose proof (cr_mutex _ _ _ _ (sr_side _ _ _ _ Hr true)) as Hm. cbn in Hm. eexists. split.
    { unfold drv_fini, split_driver, split_bcache_fini. erewrite M_bind_ok by reflexivity. rewrite Hm. reflexivity. }
    split; [done|]. split; [done|].
    split; [done|]. intros m. pose proof (cr_slots _ _ _ _ (sr_side _ _ _ _ Hr m)) as Hs. unfold pool_of in Hs. cbn in Hs.
      destruct w as [? ? ? [] ? ? ?], m; cbn in *; intros Hf; apply Hs; by apply fmap_nil_inv in Hf.
  - intros cx nblk v w Hr. pose proof (cr_fd _ _ _ _ (sr_side _ _ _ _ Hr true)). split; [by apply (split_ctx _ _ _ _ Hr)|done].
Defined.

(** ** Mounting *)

Section mount.
Context {P C : Type} `{!Platform P} `{!PlatformSpec P} `{!BlockDriver P C} `{!DriverSpec P C} `{!DriverLife P C}.
Abbreviation W := (world P C).

(** A device with [nblk] blocks that holds the volume [sb] with the blocks [d]. *)
Record volume_on (sb : mofs_superblock_t) (nblk : Z) (dev : list byte) (d : disk) : Prop := {
  vn_holds : dev_holds (blk_size sb) nblk dev d;
  vn_size : blen dev / blk_size sb = nblk;
  vn_small : blen dev < 2 ^ 64;
  vn_super : bslice 0 sizeof_superblock (d 0) = encode_superblock sb;
  vn_magic : magic sb = MOFS_MAGIC_NUM;
  vn_layout : layout_ok sb nblk
}.

Lemma dev_get_size_ok fd (w : W) : p_ok (w_plat w) -> fd = p_fd -> blen (p_dev (w_plat w)) < 2 ^ 64 -> exists p,
  dev_get_size fd w = (set_plat p w, Ok (blen (p_dev (w_plat w)))) /\ p_ok p /\ p_dev p = p_dev (w_plat w).
Proof.
  intros Hok Hfd Hs. destruct (p_size (w_plat w) fd Hok Hfd Hs) as (p' & E & H). exists p'. split; [by apply plat_eq|done].
Qed.

Lemma load_superblock_ok sb nblk d fd (w : W) : p_ok (w_plat w) -> fd = p_fd -> volume_on sb nblk (p_dev (w_plat w)) d -> exists p,
  load_superblock fd w = (set_plat p w, Ok sb) /\ p_ok p /\ p_dev p = p_dev (w_plat w).
Proof.
  intros Hok Hfd [Hh Hs H64 Hsb Hm Hlo]. destruct (layout_order _ _ Hlo) as (Hr & Hib & Hdb & Hend).
  destruct (dev_lseek_ok w fd 0 Hok Hfd ltac:(lia)) as (p1 & E1 & Hok1 & Hd1 & Hp1).
  destruct (p_read p1 fd sizeof_superblock Hok1 Hfd ltac:(done) ltac:(by rewrite Hp1)) as (p2 & E2 & Hok2 & Hd2 & _).
  assert (Hb : bslice (p_pos p1) sizeof_superblock (p_dev p1) = encode_superblock sb).
  { rewrite Hp1, Hd1, <- Hsb. rewrite <- (ho_block _ _ _ _ Hh 0), Z.mul_0_l, bslice_bslice by (unfold sizeof_superblock; lia). done. }
  rewrite Hb in E2. destruct (dev_get_size_ok fd (set_plat p2 w) Hok2 Hfd) as (p3 & E3 & Hok3 & Hd3); [cbn; by rewrite Hd2, Hd1|].
  exists p3. split; [|split; [done|rewrite Hd3; cbn; by rewrite Hd2]].
  unfold load_superblock. rewrite (M_bind_ok _ _ _ _ _ E1).
  assert (E2' : dev_read fd sizeof_superblock (set_plat p1 w) = (set_plat p2 w, Ok (encode_superblock sb))).
  { exact (plat_eq _ (set_plat p1 w) _ _ E2). }
  rewrite (M_bind_ok _ _ _ _ _ E2'), length_encode_superblock. change (negb (Z.of_nat 36 =? sizeof_superblock)) with false. cbv beta iota zeta.
  rewrite decode_encode_superblock by apply Hlo. rewrite Hm. change (negb (MOFS_MAGIC_NUM =? MOFS_MAGIC_NUM)) with false. cbv beta iota zeta.
  pose proof (vo_bs _ _ (lo_vol _ _ Hlo true None 0)) as Hbs. cbn [sp_blk] in Hbs. rewrite Hbs. cbn [Z.eqb].
  erewrite M_bind_ok by reflexivity. rewrite (M_bind_ok _ _ _ _ _ E3). cbn [w_plat set_plat]. rewrite Hd2, Hd1.
  pose proof (vo_hole _ _ (lo_vol _ _ Hlo true None 0)) as Hhole. cbn [sp_blk] in Hhole.
  unfold check_superblock. rewrite Hs, Hhole, Z.eqb_refl. reflexivity.
Qed.

Definition no_files : list mofs_filehandle := replicate MOFS_FILEHANDLE_POOL_SIZE zero_filehandle.
Definition no_dirs : list mofs_dirhandle := replicate MOFS_DIRHANDLE_POOL_SIZE zero_dirhandle.

(** [mofs_init_core] on a device that holds a volume. *)
Lemma init_core_ok sb nblk d path (w : W) :
  p_closed (w_plat w) -> path = p_path -> blen path + 1 < 2 ^ 32 -> volume_on sb nblk (p_dev (w_plat w)) d -> drv_fresh (w_cache w) ->
  exists w' fd, mofs_init_core path false 0 0 w = (w', Ok tt) /\
  let cx := mkCtx true (Some path) fd sb in
  fd = p_fd /\ rep cx nblk w' (mkAstate d (w_caller w) no_files no_dirs drv_is_cached) /\ drv_left w' = MOFS_UINT64_MAX.
Proof.
  intros Hcl -> Hlen Hv Hfr. pose proof Hv as [Hh Hs H64 Hsb Hm Hlo]. destruct (layout_order _ _ Hlo) as (Hr & Hib & Hdb & Hend).
  pose proof (vo_max _ _ (layout_vol (mkCtx true None 0 sb) nblk Hlo)) as Hmax.
  destruct (p_malloc_closed (w_plat w) (u32 (blen p_path + 1)) Hcl ltac:(apply Z.mod_pos_bound; lia)) as (p1 & b & E1 & Hcl1 & Hd1). destruct drv_open_ok as [Hrw Hflag].
  destruct (p_open p1 _ Hcl1 Hrw Hflag) as (p2 & E2 & Hok2 & Hd2). set (fd := p_fd) in *. assert (Hfd : fd = p_fd) by done.
  set (w2 := set_ctx (mkCtx (ctx_init (w_ctx w)) (Some p_path) fd (sp_blk (w_ctx w))) (set_plat p2 w)).
  destruct (load_superblock_ok sb nblk d fd w2) as (p3 & E3 & Hok3 & Hd3); [done|done|cbn; by rewrite Hd2, Hd1|].
  cbn in Hd3. rewrite Hd2, Hd1 in Hd3. set (cx0 := mkCtx (ctx_init (w_ctx w)) (Some p_path) fd sb).
  set (w3 := mkWorld p3 (w_caller w) cx0 (w_cache w) no_files no_dirs (w_errno w) : W).
  destruct (drv_init_ok cx0 nblk w3) as (w4 & E4 & R4 & F4 & L4); try done; [cbn; lia|cbn; lia|cbn; rewrite Hd3; apply Hh|].
  destruct (p_mutex_init (w_plat w4) (drv_rep_plat _ _ _ _ R4)) as (p5 & E5 & Hok5 & Hd5 & _).
  destruct F4 as (C4 & X4 & FF4 & DD4 & _).
  destruct (drv_rep_frame cx0 nblk _ w4 p5 (w_caller w4) (w_files w4) (w_dirs w4) (w_errno w4) R4 Hok5 Hd5) as [R5 L5].
  set (w5 := mkWorld p5 (w_caller w4) (w_ctx w4) (w_cache w4) (w_files w4) (w_dirs w4) (w_errno w4) : W) in *.
  destruct (drv_rep_ctx cx0 (mkCtx true (Some p_path) fd sb) nblk _ w5 R5 eq_refl eq_refl) as [R6 L6].
  exists (set_ctx (mkCtx true (Some p_path) fd sb) w5), fd. split; [|split; [done|split]].
  - unfold mofs_init_core.
    assert (E1' : attempt (mofs_malloc (u32 (blen p_path + 1))) w = (set_plat p1 w, Ok (Ok b))).
    { by apply attempt_ok, plat_eq. }
    rewrite (M_bind_ok _ _ _ _ _ E1'). erewrite M_bind_ok by reflexivity.
    set (w1 := set_ctx (mkCtx (ctx_init (w_ctx w)) (Some p_path) (dev_fd (w_ctx w)) (sp_blk (w_ctx w))) (set_plat p1 w)).
    change (upd_ctx _ (set_plat p1 w)).1 with w1.
    assert (E2' : attempt (dev_open (Some p_path) drv_open_flags) w1 = (set_plat p2 w1, Ok (Ok fd))).
    { exact (attempt_ok _ _ _ _ (plat_eq _ w1 _ _ E2)). }
    change (set_ctx _ (set_plat p1 w)) with w1.
    rewrite (M_bind_ok _ _ _ _ _ E2'). erewrite M_bind_ok by reflexivity. change (set_ctx _ (set_plat p2 w1)) with w2.
    assert (E : mount_device fd false 0 0 w2 = (set_ctx (mkCtx true (Some p_path) fd sb) w5, Ok tt)).
    { unfold mount_device. rewrite (M_bind_ok _ _ _ _ _ E3). do 3 (erewrite M_bind_ok by reflexivity).
      change (set_files _ (set_dirs _ _)) with w3. rewrite (M_bind_ok _ _ _ _ _ E4).
      assert (E5' : mofs_mutex_init w4 = (w5, Ok tt)) by by apply plat_eq.
      rewrite (M_bind_ok _ _ _ _ _ E5'). erewrite M_bind_ok by reflexivity.
      destruct (drv_rep_ctx_eq cx0 nblk _ w4 R4) as [Hx _]. unfold w5. cbn [w_ctx]. rewrite Hx. reflexivity. }
    assert (E6 : attempt (mount_device fd false 0 0) w2 = (set_ctx (mkCtx true (Some p_path) fd sb) w5, Ok (Ok tt))) by (unfold attempt; by rewrite E).
    rewrite (M_bind_ok _ _ _ _ _ E6). done.
  - split; [|split_and!|done]; cbn; try congruence; [|by rewrite C4|by rewrite FF4|by rewrite DD4].
    eapply drv_rep_ext; [exact R6|]. intros c Hc. cbn [a_disk]. rewrite <- (ho_block _ _ _ _ Hh c Hc).
    unfold dev_block, mofs_io_blk_sz. cbn. by rewrite Hd3.
  - by rewrite L6, L5.
Qed.

(** ** Unmounting *)

Lemma fini_core_ok cx nblk (w : W) a : rep cx nblk w a -> 0 < blk_size (sp_blk cx) ->
  blen (p_dev (w_plat w)) / blk_size (sp_blk cx) = nblk -> exists w',
  mofs_fini_core w = (w', Ok tt) /\ p_closed (w_plat w') /\ drv_fresh (w_cache w') /\ w_caller w' = a_caller a /\ ctx_init (w_ctx w') = false /\
  dev_holds (blk_size (sp_blk cx)) nblk (p_dev (w_plat w')) (a_disk a) /\ blen (p_dev (w_plat w')) = blen (p_dev (w_plat w)).
Proof.
  intros [Hr (Hu & _ & _) _] Hbs Hn. destruct (drv_sync_ok cx nblk _ w Hr) as (w1 & E1 & R1 & (U1 & _) & D1 & L1).
  destruct (drv_rep_ctx_eq cx nblk _ w1 R1) as [X1 Hfd].
  destruct (drv_fini_ok cx nblk _ w1 R1) as (w2 & E2 & (U2 & X2 & _) & P2 & Hfr).
  destruct (p_close (w_plat w2) (dev_fd cx)) as (p3 & E3 & Hcl & Hd3); [rewrite P2; exact (drv_rep_plat _ _ _ _ R1)|done|].
  exists (set_ctx (mkCtx false None 0 (sp_blk (w_ctx w2))) (set_plat p3 w2)). split; [|split; [done|split; [done|split; [cbn; congruence|split; [done|]]]]].
  - unfold mofs_fini_core. assert (E1' : attempt drv_flush w = (w1, Ok (Ok tt))) by (unfold attempt; by rewrite E1).
    rewrite (M_bind_ok _ _ _ _ _ E1'), (M_bind_ok _ _ _ _ _ E2).
    assert (Hf : dev_fd (w_ctx w2) = dev_fd cx) by congruence. erewrite M_bind_ok by reflexivity. rewrite Hf.
    assert (E3' : attempt (dev_close (dev_fd cx)) w2 = (set_plat p3 w2, Ok (Ok tt))).
    { exact (attempt_ok _ _ _ _ (plat_eq _ w2 _ _ E3)). }
    rewrite (M_bind_ok _ _ _ _ _ E3'). reflexivity.
  - cbn [w_plat set_ctx set_plat]. rewrite Hd3, P2. split; [|done]. split.
    + rewrite L1, <- Hn, Z.mul_comm. by apply Z.mul_div_le.
    + intros b Hb. rewrite <- (D1 b Hb). unfold dev_block, mofs_io_blk_sz. by rewrite X1.
Qed.

End mount.
