(* ===== verification/FuseSpec.v ===== *)
(** * Listing a directory through FUSE

    The POSIX calls on directory streams as steps of a mounted world, and
    [mofs_readdir_fuse] on top of them: the names it offers, with their
    cookies, and the buffer that libfuse's [filler] makes of them. *)

From Stdlib Require Import ZArith Lia.
From stdpp Require Import base list list_numbers.
From S2P Require Import Prelude Types Platform Linux Raw Buffer BufferSpec Ops Bitmap Inode Block FileData Perm Dirent Path File Dir Format Core Posix Fuse Volume BlockSpec AllocSpec InodeSpec VolInv FileSpec FileInv PermSpec DirSpec PathSpec EntrySpec TreeSpec StreamSpec FsSpec FormatSpec MountSpec.

(** ** What a listing offers *)

(** Names with their cookies, numbered from [c] on. *)
Fixpoint numbered (c : Z) (names : list cstr) : list (cstr * Z) :=
  match names with
  | [] => []
  | n :: names =>
      if bool_decide (n = dot) || bool_decide (n = dotdot) then numbered (c + 1) names
      else (n, c + 1) :: numbered (c + 1) names
  end.

(** The whole listing of a directory with the live entries [es]. *)
Definition listing (es : list mofs_dirent_t) : list (cstr * Z) :=
  (dot, 1) :: (dotdot, 2) :: numbered 2 ((fun e => c_str (d_name e)) <$> es).

(** The part of a listing behind the cookie [offset]. *)
Definition behind (offset : Z) (l : list (cstr * Z)) : list (cstr * Z) := List.filter (fun '(_, c) => offset <? c) l.

(** Hand entries to the filler until it is full. *)
Fixpoint emit {B} (filler : B -> cstr -> Z -> B * bool) (buf : B) (l : list (cstr * Z)) : B :=
  match l with
  | [] => buf
  | (n, c) :: l => let '(buf, full) := filler buf n c in if (full : bool) then buf else emit filler buf l
  end.

Lemma numbered_above c names : Forall (fun x => c < x.2) (numbered c names).
Proof.
  revert c. induction names as [|n names IH]; intros c; cbn [numbered]; [constructor|].
  assert (Hw : Forall (fun x => c < x.2) (numbered (c + 1) names)) by (eapply Forall_impl; [apply IH|]; cbn; lia).
  destruct (_ || _); [done|]. constructor; [cbn; lia|done].
Qed.

(** Cookies grow along a listing. *)
Lemma numbered_sorted c names : StronglySorted (fun x y => x.2 < y.2) (numbered c names).
Proof.
  revert c. induction names as [|n names IH]; intros c; cbn [numbered]; [constructor|]. destruct (_ || _); [apply IH|].
  constructor; [apply IH|]. eapply Forall_impl; [apply numbered_above|]. by intros [].
Qed.

Lemma listing_sorted es : StronglySorted (fun x y => x.2 < y.2) (listing es).
Proof.
  set (names := (fun e => c_str (d_name e)) <$> es).
  assert (H : Forall (fun x : cstr * Z => 2 < x.2) (numbered 2 names)) by apply numbered_above.
  repeat constructor; try (cbn; lia); [apply numbered_sorted|exact H|]. eapply Forall_impl; [exact H|]. cbn. lia.
Qed.

(** Resuming at the cookie of an entry gives the entries after it. *)
Lemma behind_resume es l1 n c l2 : listing es = l1 ++ (n, c) :: l2 -> behind c (listing es) = l2.
Proof.
  intros E. pose proof (listing_sorted es) as Hs. rewrite E in *. clear E. unfold behind.
  assert (Hl2 : forall l, StronglySorted (fun x y : cstr * Z => x.2 < y.2) ((n, c) :: l) -> List.filter (fun '(_, c') => c <? c') l = l).
  { intros l Hl. inversion Hl as [|? ? _ Hall]; subst. cbn in Hall. clear Hl.
    induction Hall as [|[m k] l Hk _ IH]; [done|]. cbn in *. rewrite (proj2 (Z.ltb_lt c k)) by lia. by rewrite IH. }
  induction l1 as [|[m k] l1 IH]; cbn [app List.filter] in *.
  - rewrite Z.ltb_irrefl. by apply Hl2.
  - inversion Hs as [|? ? Hs' Hall]; subst. apply Forall_app in Hall as [_ Hall]. apply Forall_cons in Hall as [Hk _]. cbn in Hk.
    rewrite (proj2 (Z.ltb_ge c k)) by lia. by apply IH.
Qed.

Section fusespec.
Context {P C : Type} `{!LinuxOS P} `{!LinuxSpec P} `{!BlockDriver P C} `{!DriverSpec P C} `{!DriverLife P C}.
Context (cx : mofs_ctx_t) (nblk : Z) (Hvol : vol_ok cx nblk).
Abbreviation W := (world P C).
Abbreviation rep := (rep cx nblk).

(** ** POSIX calls on a mounted world *)

Definition set_acaller (u : mofs_user_ctx_t) (a : astate) : astate := mkAstate (a_disk a) u (a_files a) (a_dirs a) (a_cached a).

Lemma rep_ctx (w : W) a : rep w a -> w_ctx w = cx.
Proof. intros Hr. exact (proj1 (drv_rep_ctx_eq _ _ _ _ (rep_disk _ _ _ _ Hr))). Qed.

Lemma rep_errno (w : W) a e : rep w a -> rep (set_errno e w) a /\ drv_left (set_errno e w) = drv_left w.
Proof.
  intros [Hd Hs Hc]. pose proof (drv_rep_plat _ _ _ _ Hd) as Hok.
  destruct (drv_rep_frame cx nblk (a_disk a) w (w_plat w) (w_caller w) (w_files w) (w_dirs w) e Hd Hok eq_refl) as [H1 H2]. done.
Qed.

(** One call of the core under the POSIX layer. *)
Lemma core_call_ok {A} (f : mofs_ctx_t -> prog A) x a' (w : W) a :
  rep w a -> run_cost (f cx) w < drv_left w -> wp cx nblk (f cx) (fun r a'' => r = Ok x /\ a'' = a') a -> exists w',
  core_call f w = (w', Ok (Ok x)) /\ rep w' a' /\ drv_left w - run_cost (f cx) w <= drv_left w' /\ w_errno w' = w_errno w /\
  (interp (f cx) w).1 = w'.
Proof.
  intros Hr Hl Hwp. destruct (interp_ok cx nblk (f cx) _ w a Hwp Hr Hl) as (w' & r & a'' & E & (-> & ->) & R & L & X).
  exists w'. split; [|by rewrite E]. unfold core_call, core_run. erewrite M_bind_ok by reflexivity. rewrite (rep_ctx w a Hr). apply attempt_ok. by rewrite interp_locked.
Qed.

Lemma bind_caller_ok (c : fuse_context) (w : W) a : rep w a -> exists w' u,
  mofs_fuse_bind_request_caller (Some c) w = (w', Ok tt) /\ rep w' (set_acaller u a) /\
  u_valid u = true /\ uid u = f_uid c /\ gid u = f_gid c /\ drv_left w' = drv_left w.
Proof.
  intros [Hd (H1 & H2 & H3) Hc]. pose proof (drv_rep_plat _ _ _ _ Hd) as Hok.
  destruct (p_peer (f_uid c) (f_gid c) (f_pid c) (w_caller w) (w_plat w) Hok) as (p & u & E & Hu & Hui & Hgi & Hok' & Hdev & _).
  destruct (drv_rep_frame cx nblk (a_disk a) w p u (w_files w) (w_dirs w) (w_errno w) Hd Hok' Hdev) as [R L].
  exists (set_caller u (set_plat p w)), u. split; [|split; [by split|done]].
  unfold mofs_fuse_bind_request_caller.
  assert (E' : mofs_set_caller_for_peer_process (f_uid c) (f_gid c) (f_pid c) w = (set_caller u (set_plat p w), Ok tt)).
  { unfold mofs_set_caller_for_peer_process. erewrite M_bind_ok by reflexivity. by rewrite (M_bind_ok _ _ _ _ _ (plat_eq _ _ _ _ E)). }
  by rewrite (M_bind_ok _ _ _ _ _ (attempt_ok _ _ _ _ E')).
Qed.

(** ** Directory streams *)

(** What [opendir] asks of a directory. *)
Definition readable (u : mofs_user_ctx_t) (d : disk) (n : Z) : Prop :=
  has_flag (i_mode (inode_at cx d n)) MOFS_FTYPE_DIR = true /\ open_permission MOFS_OFLAG_RDONLY u (inode_at cx d n) = Ok tt.

Definition new_stream (n : Z) : mofs_dirhandle := mkDir true n 0 zero_dirent.

Lemma wp_opendir F (p : cstr) n h Q a : let d := a_disk a in
  disk_ok cx nblk d -> tree_ok cx nblk d F -> u_valid (a_caller a) = true -> blen p < 2 ^ 32 -> head p = Some slash ->
  path_end cx (a_caller a) d F p = Ok n -> 0 <= n < inode_num (sp_blk cx) -> readable (a_caller a) d n ->
  get_free_dirhandle_index (a_dirs a) = Some h ->
  Q (Ok h) (set_adirs (<[h := new_stream n]> (a_dirs a)) a) ->
  wp cx nblk (mofs_opendir_core cx (Some p)) Q a.
Proof.
  intros d Hd Ht Hu Hl Hh Hp Hn [Hty Hperm] Hfree HQ. unfold mofs_opendir_core.
  apply wp_bind, wp_require_caller; [done|]. wp_simpl.
  apply wp_bind, (wp_path_end cx nblk Hvol F); try done. fold d. rewrite Hp. wp_simpl.
  apply wp_bind, (wp_read_inode cx nblk Hvol); [done|done|]. wp_simpl. fold d. rewrite Hty.
  apply wp_bind, wp_check_open_permission; [done|]. rewrite Hperm. wp_simpl.
  apply wp_bind, wp_call. cbn [op_wp]. wp_simpl. rewrite Hfree. exact HQ.
Qed.

Definition readdir_call (h : nat) : prog unit := mofs_readdir_core cx (Some h).

(** A stream at its position: the entry found is the call's result. *)
Lemma posix_readdir_ok (w : W) a h x nodes ptrs : rep w a -> stream_on cx nblk a h x nodes ptrs ->
  let nxt := next_live (Z.to_nat (dirent_offset x)) (dir_entries cx (a_disk a) (dh_inode_num x) ptrs) in
  run_cost (readdir_call h) w < drv_left w -> exists w',
  mofs_readdir (Some h) w = (w', Ok (snd <$> nxt)) /\ rep w' (set_adirs (<[h := stream_at x nxt]> (a_dirs a)) a) /\
  drv_left w - run_cost (readdir_call h) w <= drv_left w' /\ w_errno w' = w_errno w /\ (interp (readdir_call h) w).1 = w'.
Proof.
  intros Hr Hso nxt Hl. pose proof (rep_disk_ok cx nblk w a Hr) as Hd.
  destruct (core_call_ok (fun cx => mofs_readdir_core cx (Some h)) tt
    (set_adirs (<[h := stream_at x nxt]> (a_dirs a)) a) w a Hr Hl) as (w' & E & R & L & X & I).
  { by apply (wp_readdir_core cx nblk Hvol h x nodes ptrs). }
  exists w'. split; [|done]. unfold mofs_readdir. rewrite (M_bind_ok _ _ _ _ _ E). erewrite M_bind_ok by reflexivity.
  pose proof (rep_state _ _ _ _ R) as (_ & _ & Hds). unfold handle_dirent. rewrite Hds. cbn [set_adirs a_dirs].
  rewrite list_lookup_insert_eq by exact (lookup_lt_Some _ _ _ (so_pool _ _ _ _ _ _ _ Hso)). cbn [finish]. unfold readdir_result.
  destruct nxt as [[q e]|] eqn:En; cbn [default from_option id stream_at dirent_buf fmap option_fmap option_map snd]; [|done].
  pose proof (next_live_live _ _ _ _ En) as Hlive. unfold entry_live in Hlive. by rewrite Hlive.
Qed.

(** Block accesses of [k] calls of [readdir] in a row. *)
Fixpoint fill_cost (k : nat) (h : nat) (w : W) : Z :=
  match k with
  | O => 0
  | S k' => let w0 := set_errno 0 w in run_cost (readdir_call h) w0 + fill_cost k' h (interp (readdir_call h) w0).1
  end.

Lemma fill_cost_nonneg k h w : 0 <= fill_cost k h w.
Proof.
  revert w. induction k as [|k IH]; intros w; cbn [fill_cost]; [lia|].
  pose proof (run_cost_nonneg (readdir_call h) (set_errno 0 w)). specialize (IH (interp (readdir_call h) (set_errno 0 w)).1). lia.
Qed.

Abbreviation names l := ((fun e => c_str (d_name e)) <$> l).

Lemma fill_loop_ok {B} (filler : B -> cstr -> Z -> B * bool) fuel h nodes ptrs offset : forall (w : W) a x c buf,
  let todo := live_from (Z.to_nat (dirent_offset x)) (dir_entries cx (a_disk a) (dh_inode_num x) ptrs) in
  rep w a -> stream_on cx nblk a h x nodes ptrs -> (length todo < fuel)%nat -> fill_cost (S (length todo)) h w < drv_left w ->
  exists w' x', fill_loop filler fuel h offset c buf w = (w', Ok (0, emit filler buf (behind offset (numbered c (names todo))))) /\
  rep w' (set_adirs (<[h := x']> (a_dirs a)) a) /\ dh_used x' = true /\ 0 < drv_left w'.
Proof.
  induction fuel as [|fuel IH]; intros w a x c buf todo Hr Hso Hfuel Hl; [lia|]. cbn [fill_loop]. erewrite M_bind_ok by reflexivity.
  destruct (rep_errno w a 0 Hr) as [Hr0 Hl0]. cbn [fill_cost] in Hl. set (w0 := set_errno 0 w) in *.
  pose proof (fill_cost_nonneg (length todo) h (interp (readdir_call h) w0).1) as Hrest.
  destruct (posix_readdir_ok w0 a h x nodes ptrs Hr0 Hso ltac:(lia)) as (w1 & E & R & L & X & I).
  set (nxt := next_live _ _) in *. rewrite I in *.
  assert (Hu : dh_used (stream_at x nxt) = true) by (destruct nxt as [[q e]|]; exact (so_used _ _ _ _ _ _ _ Hso)).
  rewrite (M_bind_ok _ _ _ _ _ E). unfold todo in *. rewrite live_from_next in *. fold nxt in Hfuel, Hl, Hrest |- *.
  destruct nxt as [[q e]|] eqn:En; cbn [fmap option_fmap option_map snd list_fmap numbered behind List.filter emit].
  2: { erewrite M_bind_ok by reflexivity. rewrite X. cbn [w0 w_errno set_errno Z.eqb negb].
       exists w1, (stream_at x None). split; [done|]. split; [exact R|]. split; [exact Hu|]. lia. }
  set (x1 := stream_at x (Some (q, e))) in *. set (a1 := set_adirs (<[h := x1]> (a_dirs a)) a) in *.
  pose proof (lookup_lt_Some _ _ _ (so_pool _ _ _ _ _ _ _ Hso)) as Hlt.
  assert (Hso1 : stream_on cx nblk a1 h x1 nodes ptrs).
  { destruct Hso. split; try done; [by apply list_lookup_insert_eq|cbn; lia]. }
  assert (Hp : Z.to_nat (dirent_offset x1) = S q) by (cbn; lia).
  assert (Hgo : forall c' buf', exists w' x', fill_loop filler fuel h offset c' buf' w1 =
      (w', Ok (0, emit filler buf' (behind offset (numbered c' (names (live_from (S q) (dir_entries cx (a_disk a) (dh_inode_num x) ptrs))))))) /\
      rep w' (set_adirs (<[h := x']> (a_dirs a)) a) /\ dh_used x' = true /\ 0 < drv_left w').
  { intros c' buf'. destruct (IH w1 a1 x1 c' buf') as (w' & x' & E' & R' & Hu' & L'); try done.
    - rewrite Hp. cbn [length] in Hfuel. cbn [x1 stream_at dh_inode_num a1 set_adirs a_disk]. lia.
    - rewrite Hp. cbn [length] in Hl. cbn [x1 stream_at dh_inode_num a1 set_adirs a_disk]. lia.
    - rewrite Hp in E'. cbn [x1 stream_at dh_inode_num a1 set_adirs a_disk] in E'. exists w', x'. split; [exact E'|].
      split; [|done]. cbn [a1 set_adirs a_dirs] in R'. rewrite list_insert_insert_eq in R'. exact R'. }
  destruct (Z.ltb_spec c offset) as [Hc|Hc].
  { destruct (Hgo (c + 1) buf) as (w' & x' & E' & H'). exists w', x'. split; [|exact H']. rewrite E'.
    destruct (_ || _); [done|]. cbn [behind List.filter]. by rewrite (proj2 (Z.ltb_ge offset (c + 1))) by lia. }
  destruct (bool_decide _ || bool_decide _).
  { destruct (Hgo (c + 1) buf) as (w' & x' & E' & H'). by exists w', x'. }
  cbn [behind List.filter]. rewrite (proj2 (Z.ltb_lt offset (c + 1))) by lia. cbn [emit].
  destruct (filler buf (c_str (d_name e)) (c + 1)) as [buf1 full]. destruct full; [|apply Hgo].
  exists w1, x1. split; [done|]. split; [exact R|]. split; [exact Hu|]. pose proof (fill_cost_nonneg (length todo) h w1). lia.
Qed.

Lemma posix_closedir_ok (w : W) a h x : rep w a -> a_dirs a !! h = Some x -> dh_used x = true -> 0 < drv_left w -> exists w',
  mofs_closedir (Some h) w = (w', Ok 0) /\ rep w' (set_adirs (<[h := zero_dirhandle]> (a_dirs a)) a).
Proof.
  intros Hr Hx Hu Hl.
  assert (Hc : run_cost (mofs_closedir_core (Some h)) w = 0).
  { cbn. destruct (w_dirs w !! h) as [y|]; [|done]. by destruct (dh_used y). }
  destruct (core_call_ok (fun _ => mofs_closedir_core (Some h)) tt (set_adirs (<[h := zero_dirhandle]> (a_dirs a)) a) w a Hr) as (w' & E & R & _); [cbv beta; lia| |].
  { apply wp_bind, (wp_get_dirhandle cx nblk h x); [done|done|]. done. }
  exists w'. split; [|exact R]. unfold mofs_closedir, int_call. by rewrite (M_bind_ok _ _ _ _ _ E).
Qed.

Lemma entries_fit F d n : disk_ok cx nblk d -> tree_ok cx nblk d F -> 0 <= n < inode_num (sp_blk cx) -> is_dir cx d n = true -> forall o,
  (S (length (live_from o (dir_entries cx d n (F n).2))) < readdir_fuel)%nat.
Proof.
  intros Hd Ht Hn Hdir o. pose proof (to_dir _ _ _ _ Ht n Hn Hdir) as Hdf.
  destruct (df_size cx nblk Hvol _ _ _ _ Hd Hdf) as (Hsz & Hblk & Hcp & Hmax). pose proof (bs_range cx nblk Hvol) as Hbs.
  assert (Hlen : (length (live_from o (dir_entries cx d n (F n).2)) <= length (dir_entries cx d n (F n).2))%nat).
  { unfold live_from. etrans; [apply List.filter_length_le|]. rewrite length_drop. lia. }
  unfold dir_entries in *. rewrite length_dirent_slice in Hlen. unfold readdir_fuel.
  change (MOFS_MAX_FILE_DATA_BLOCKS * MOFS_BLK_SIZE_MAX / sizeof_dirent + 2) with 2097154.
  assert (i_size (inode_at cx d n) / 32 <= 2 ^ 26 / 32) by (apply Z.div_le_mono; lia).
  apply Nat2Z.inj_lt. rewrite Z2Nat.id by lia. lia.
Qed.

#[local] Opaque readdir_fuel.

(** Block accesses of a whole listing. *)
Definition listing_cost (p : cstr) (h k : nat) (w : W) : Z :=
  run_cost (mofs_opendir_core cx (Some p)) w + fill_cost k h (interp (mofs_opendir_core cx (Some p)) w).1.

Lemma posix_opendir_ok (w : W) a F (p : cstr) n h : rep w a -> run_cost (mofs_opendir_core cx (Some p)) w < drv_left w ->
  tree_ok cx nblk (a_disk a) F -> u_valid (a_caller a) = true -> blen p < 2 ^ 32 -> head p = Some slash ->
  path_end cx (a_caller a) (a_disk a) F p = Ok n -> 0 <= n < inode_num (sp_blk cx) -> readable (a_caller a) (a_disk a) n ->
  get_free_dirhandle_index (a_dirs a) = Some h -> exists w',
  mofs_opendir (Some p) w = (w', Ok (Some h)) /\ rep w' (set_adirs (<[h := new_stream n]> (a_dirs a)) a) /\
  drv_left w - run_cost (mofs_opendir_core cx (Some p)) w <= drv_left w' /\ (interp (mofs_opendir_core cx (Some p)) w).1 = w'.
Proof.
  intros Hr Hl Ht Hu Hlen Hh Hp Hn Hrd Hfree. pose proof (rep_disk_ok cx nblk w a Hr) as Hd.
  destruct (core_call_ok (fun cx => mofs_opendir_core cx (Some p)) h (set_adirs (<[h := new_stream n]> (a_dirs a)) a) w a Hr Hl)
    as (w' & E & R & L & X & I); [by apply (wp_opendir F p n h)|].
  exists w'. split; [|done]. unfold mofs_opendir. by rewrite (M_bind_ok _ _ _ _ _ E).
Qed.

(** Handing over ["."] and [".."] first is part of the listing. *)
Lemma offer_emit {B} (filler : B -> cstr -> Z -> B * bool) offset nm c buf l :
  emit filler buf (behind offset ((nm, c + 1) :: l)) =
  let '(buf', full) := offer filler offset nm c buf in if (full : bool) then buf' else emit filler buf' (behind offset l).
Proof.
  unfold offer. cbn [behind List.filter]. destruct (Z.leb_spec offset c).
  - rewrite (proj2 (Z.ltb_lt offset (c + 1))) by lia. done.
  - by rewrite (proj2 (Z.ltb_ge offset (c + 1))) by lia.
Qed.

(** The whole callback. *)
Lemma readdir_fuse_ok {B} (filler : B -> cstr -> Z -> B * bool) (c : fuse_context) (w : W) a F (p : cstr) n h offset buf : rep w a ->
  let w1 := (mofs_fuse_bind_request_caller (Some c) w).1 in
  let u := w_caller w1 in
  let es := live_from 0 (dir_entries cx (a_disk a) n (F n).2) in
  tree_ok cx nblk (a_disk a) F -> blen p < 2 ^ 32 -> head p = Some slash -> 0 <= offset ->
  path_end cx u (a_disk a) F p = Ok n -> 0 <= n < inode_num (sp_blk cx) -> readable u (a_disk a) n ->
  get_free_dirhandle_index (a_dirs a) = Some h -> listing_cost p h (S (length es)) w1 < drv_left w -> exists w',
  mofs_readdir_fuse (Some c) filler (Some p) buf offset w = (w', Ok (0, emit filler buf (behind offset (listing es)))) /\
  rep w' (set_adirs (<[h := zero_dirhandle]> (a_dirs a)) (set_acaller u a)).
Proof.
  intros Hr w1 u es Ht Hlen Hh Hoff Hp Hn Hrd Hfree Hl. pose proof (rep_disk_ok cx nblk w a Hr) as Hd.
  destruct (bind_caller_ok c w a Hr) as (w1' & u' & E1 & R1 & Hu & _ & _ & L1). unfold w1 in *. rewrite E1 in *. cbn [fst] in *. clear w1.
  assert (Huu : u = u') by (unfold u; rewrite E1; exact (proj1 (rep_state _ _ _ _ R1))). clearbody u. subst u'. unfold listing_cost in Hl.
  pose proof (fill_cost_nonneg (S (length es)) h (interp (mofs_opendir_core cx (Some p)) w1').1) as Hnn.
  destruct (posix_opendir_ok w1' (set_acaller u a) F p n h R1 ltac:(lia) Ht Hu Hlen Hh Hp Hn Hrd Hfree) as (w2 & E2 & R2 & L2 & I2). rewrite I2 in *.
  assert (Hh0 : (h < length (a_dirs a))%nat) by (apply find_idx_Some in Hfree as [(x & Hx & _) _]; by eapply lookup_lt_Some).
  set (a2 := set_adirs (<[h := new_stream n]> (a_dirs a)) (set_acaller u a)) in *.
  assert (Hso : stream_on cx nblk a2 h (new_stream n) (F n).1 (F n).2).
  { destruct Hrd as [Hty Hperm]. split; try done; [by apply list_lookup_insert_eq|]. by apply (to_dir _ _ _ _ Ht n). }
  assert (Hclose : forall w3 x', rep w3 (set_adirs (<[h := x']> (a_dirs a2)) a2) -> dh_used x' = true -> 0 < drv_left w3 -> exists w4,
    mofs_closedir (Some h) w3 = (w4, Ok 0) /\ rep w4 (set_adirs (<[h := zero_dirhandle]> (a_dirs a)) (set_acaller u a))).
  { intros w3 x' R3 Hx H3. cbn [a2 a_dirs set_adirs] in R3. rewrite list_insert_insert_eq in R3.
    destruct (posix_closedir_ok w3 _ h x' R3) as (w4 & E4 & R4); [by apply list_lookup_insert_eq|done|done|].
    exists w4. split; [exact E4|]. cbn [set_adirs a_dirs] in R4. by rewrite list_insert_insert_eq in R4. }
  assert (Hbody : exists w3 x', fill_dir filler h offset buf w2 = (w3, Ok (0, emit filler buf (behind offset (listing es)))) /\
    rep w3 (set_adirs (<[h := x']> (a_dirs a2)) a2) /\ dh_used x' = true /\ 0 < drv_left w3).
  { assert (H0 : rep w2 (set_adirs (<[h := new_stream n]> (a_dirs a2)) a2)) by (cbn [a2 a_dirs set_adirs]; by rewrite list_insert_insert_eq).
    unfold listing. rewrite (offer_emit filler offset dot 0). unfold fill_dir. destruct (offer filler offset dot 0 buf) as [buf1 full1].
    destruct full1; [exists w2, (new_stream n); split; [done|]; split; [exact H0|]; split; [done|lia]|].
    rewrite (offer_emit filler offset dotdot 1). destruct (offer filler offset dotdot 1 buf1) as [buf2 full2].
    destruct full2; [exists w2, (new_stream n); split; [done|]; split; [exact H0|]; split; [done|lia]|].
    pose proof (entries_fit F (a_disk a) n Hd Ht Hn (proj1 Hrd) 0) as Hfit. fold es in Hfit.
    assert (Hfuel : (length es < readdir_fuel)%nat) by (apply (Nat.lt_trans _ (S (length es))); [apply Nat.lt_succ_diag_r|exact Hfit]).
    assert (Hcost : fill_cost (S (length es)) h w2 < drv_left w2) by (clear Hfit Hfuel; lia).
    exact (fill_loop_ok filler readdir_fuel h (F n).1 (F n).2 offset w2 a2 (new_stream n) 2 buf2 R2 Hso Hfuel Hcost). }
  destruct Hbody as (w3 & x' & E3 & R3 & Hx & L3). destruct (Hclose w3 x' R3 Hx L3) as (w4 & E4 & R4).
  exists w4. split; [|exact R4]. unfold mofs_readdir_fuse. rewrite (M_bind_ok _ _ _ _ _ E1), (proj2 (Z.ltb_ge offset 0)) by lia.
  rewrite (M_bind_ok core_lock _ w1' w1' tt) by done. rewrite (M_bind_ok _ _ _ _ _ E2). cbv beta iota.
  erewrite M_bind_ok; [|rewrite (M_bind_ok _ _ _ _ _ E3); cbv beta iota; by rewrite (M_bind_ok _ _ _ _ _ E4)]. done.
Qed.

End fusespec.
