(* ===== verification/Fsck.v ===== *)
(** * An executable check of the allocation invariant

    Boolean versions of [file_map], [vol_files] and [tree_ok], sound for them: a concrete
    volume is shown to satisfy the invariant by evaluating the check. *)

From Stdlib Require Import ZArith Lia.
From stdpp Require Import base list list_numbers.
From S2P Require Import Prelude Types Platform Raw Buffer BufferSpec Ops Bitmap Inode Block FileData Perm Dirent Path Volume BlockSpec AllocSpec FreeSpec InodeSpec VolInv FileSpec FileInv PermSpec DirSpec PathSpec EntrySpec TreeSpec NameSpec FsSpec.

Section fsck.
Context (cx : mofs_ctx_t) (nblk : Z).
Abbreviation sb := (sp_blk cx).
Abbreviation drs := (data_region_start (sp_blk cx)).

Fixpoint chain_check (d : disk) (h : Z) (nodes ptrs : list Z) : bool :=
  match nodes with
  | [] => (h =? 0) && bool_decide (ptrs = [])
  | n :: ns =>
      let ps := node_ptrs d n in
      (h =? n) && (drs <=? n) && (n <? nblk) && (hdr_nr_ptrs (d n) <=? list_ptrs_cap cx) &&
      bool_decide (take (length ps) ptrs = ps) && chain_check d (hdr_next_abs (d n)) ns (drop (length ps) ptrs)
  end.

Lemma chain_check_ok d nodes : forall h ptrs, chain_check d h nodes ptrs = true -> chain cx nblk d h nodes ptrs.
Proof.
  induction nodes as [|n ns IH]; intros h ptrs H; cbn [chain_check chain] in *; bool_hyps.
  - split; [done|by eapply bool_decide_eq_true_1].
  - match goal with H : bool_decide _ = true |- _ => apply bool_decide_eq_true in H as Hp end.
    split; [done|]. split; [lia|]. split; [done|]. exists (drop (length (node_ptrs d n)) ptrs).
    split; [|by apply IH]. rewrite <- Hp at 1. by rewrite take_drop.
Qed.

Definition file_map_check (d : disk) (n : Z) (nodes ptrs : list Z) : bool :=
  chain_check d (i_data_head (inode_at cx d n)) nodes ptrs && (i_nr_blocks (inode_at cx d n) =? blen ptrs) &&
  bool_decide (NoDup (nodes ++ ptrs)) && forallb (fun b => (drs <=? b) && (b <? nblk)) ptrs &&
  forallb (fun b => data_bit cx d (b - drs)) (nodes ++ ptrs) && (blen ptrs <=? MOFS_MAX_FILE_DATA_BLOCKS).

Lemma file_map_check_ok d n nodes ptrs : file_map_check d n nodes ptrs = true -> file_map cx nblk d n nodes ptrs.
Proof.
  unfold file_map_check. intros H. rewrite !andb_true_iff in H. destruct H as (((((H1 & H2) & H3) & H4) & H5) & H6).
  rewrite forallb_forall in H4, H5. split.
  - by apply chain_check_ok.
  - by apply Z.eqb_eq.
  - by apply bool_decide_eq_true in H3.
  - apply Forall_forall. intros b Hb. apply list_elem_of_In, H4 in Hb. bool_hyps. lia.
  - intros b Hb. by apply H5, list_elem_of_In.
  - by apply Z.leb_le.
Qed.

(** All inodes, and every bit of the data bitmap. *)
Definition vol_files_check (d : disk) (F : files) : bool :=
  let all := seqZ 0 (inode_num sb) in
  forallb (fun n => file_map_check d n (F n).1 (F n).2) all &&
  bool_decide (NoDup (concat (file_blocks F <$> all))) &&
  forallb (fun j => negb (data_bit cx d j) || bool_decide (drs + j ∈ concat (file_blocks F <$> all))) (seqZ 0 (data_blk_num sb)).

Lemma NoDup_concat_disj {A} (f : Z -> list A) l n m b :
  NoDup (concat (f <$> l)) -> n ∈ l -> m ∈ l -> n <> m -> b ∈ f n -> b ∉ f m.
Proof.
  induction l as [|x l IH]; intros Hnd Hn Hm Hne Hb Hb'; [by apply elem_of_nil in Hn|].
  simpl in Hnd. apply NoDup_app in Hnd as (_ & Hd & Hnd).
  assert (Hin : forall k, k ∈ l -> b ∈ f k -> b ∈ concat (f <$> l)).
  { intros k Hk Hbk. apply list_elem_of_In, in_concat. exists (f k). split; [|by apply list_elem_of_In].
    apply list_elem_of_In, list_elem_of_fmap. by exists k. }
  apply elem_of_cons in Hn as [->|Hn]; apply elem_of_cons in Hm as [->|Hm]; try done.
  - by apply (Hd b Hb), (Hin m).
  - by apply (Hd b Hb'), (Hin n).
  - by apply IH.
Qed.

Lemma vol_files_check_ok d F : vol_files_check d F = true -> vol_files cx nblk d F.
Proof.
  unfold vol_files_check. intros H. rewrite !andb_true_iff in H. destruct H as ((H1 & H2) & H3).
  rewrite forallb_forall in H1, H3. apply bool_decide_eq_true in H2.
  assert (Hall : forall n, 0 <= n < inode_num sb <-> n ∈ seqZ 0 (inode_num sb)) by (intros n; rewrite elem_of_seqZ; lia).
  split.
  - intros n Hn. apply file_map_check_ok, H1, list_elem_of_In, Hall, Hn.
  - intros n m b Hn Hm Hne Hb. by apply (NoDup_concat_disj (file_blocks F) (seqZ 0 (inode_num sb)) n m b); try apply Hall.
  - intros j Hj Hd. assert (Hin : In j (seqZ 0 (data_blk_num sb))) by (apply list_elem_of_In, elem_of_seqZ; lia).
    apply H3 in Hin. rewrite Hd in Hin. apply bool_decide_eq_true, list_elem_of_In, in_concat in Hin as (l & Hl & Hb).
    apply list_elem_of_In, list_elem_of_fmap in Hl as (n & -> & Hn). exists n. split; [by apply Hall|by apply list_elem_of_In].
Qed.

(** ** The directory tree *)

(** The entries with a name are used, and no two have the same. *)
Definition dir_wf_check (es : list mofs_dirent_t) : bool :=
  let all := seq 0 (length es) in
  forallb (fun e => negb (name_set e) || ((0 <? d_inode_num e) && (d_inode_num e <? inode_num sb))) es &&
  forallb (fun i => forallb (fun j =>
    match es !! i, es !! j with
    | Some e, Some f => negb (name_set e) || bool_decide (c_str (d_name e) <> c_str (d_name f)) || (i =? j)%nat
    | _, _ => true
    end) all) all.

Lemma dir_wf_check_ok es : dir_wf_check es = true -> dir_wf cx es.
Proof.
  unfold dir_wf_check. intros H. apply andb_true_iff in H as [H1 H2]. rewrite forallb_forall in H1, H2. split.
  - intros e He Hn. apply list_elem_of_In, H1 in He. rewrite Hn in He. bool_hyps. lia.
  - intros i j e f Hi Hj Hn Hef. assert (Hin : forall k x, es !! k = Some x -> In k (seq 0 (length es))).
    { intros k x Hk. apply in_seq. apply lookup_lt_Some in Hk. lia. }
    specialize (H2 i (Hin i e Hi)). rewrite forallb_forall in H2. specialize (H2 j (Hin j f Hj)).
    rewrite Hi, Hj, Hn, bool_decide_eq_false_2 in H2 by tauto. by apply Nat.eqb_eq.
Qed.

Definition tree_check (d : disk) (F : files) : bool :=
  (MOFS_ROOT_INODE_NUM <? inode_num sb) && is_dir cx d MOFS_ROOT_INODE_NUM &&
  forallb (fun n => negb (is_dir cx d n) ||
    ((i_size (inode_at cx d n) <=? blen (F n).2 * blk_size sb) && dir_wf_check (dir_entries cx d n (F n).2))) (seqZ 0 (inode_num sb)).

Lemma tree_check_ok d F : vol_files cx nblk d F -> tree_check d F = true -> tree_ok cx nblk d F.
Proof.
  unfold tree_check. intros HF H. rewrite !andb_true_iff in H. destruct H as ((H1 & H2) & H3). rewrite forallb_forall in H3.
  assert (Hd : forall n, 0 <= n < inode_num sb -> is_dir cx d n = true ->
    i_size (inode_at cx d n) <= blen (F n).2 * blk_size sb /\ dir_wf cx (dir_entries cx d n (F n).2)).
  { intros n Hn Hdir. specialize (H3 n). rewrite Hdir in H3. cbn [negb orb] in H3.
    assert (Hin : In n (seqZ 0 (inode_num sb))) by (apply list_elem_of_In, elem_of_seqZ; lia).
    apply H3, andb_true_iff in Hin as [Hc Hw]. split; [by apply Z.leb_le|by apply dir_wf_check_ok]. }
  split; [unfold MOFS_ROOT_INODE_NUM in *; lia| | |done].
  - intros n Hn Hdir. split; [done|by apply HF|by apply Hd].
  - intros n Hn Hdir. by apply Hd.
Qed.

(** ** The whole file system *)

(** The names of the tree: directory, name, inode. *)
Definition links (d : disk) (F : files) : list (Z * cstr * Z) :=
  concat ((fun n => if is_dir cx d n
    then (fun e => (n, c_str (d_name e), d_inode_num e)) <$> filter (fun e => name_set e = true) (dir_entries cx d n (F n).2)
    else []) <$> seqZ 0 (inode_num sb)).

Lemma elem_of_links d F n c m : (n, c, m) ∈ links d F <->
  0 <= n < inode_num sb /\ is_dir cx d n = true /\ exists e, e ∈ dir_entries cx d n (F n).2 /\ name_set e = true /\ c_str (d_name e) = c /\ d_inode_num e = m.
Proof.
  unfold links. rewrite list_elem_of_In, in_concat. split.
  - intros (l & Hl & Hin). apply list_elem_of_In, list_elem_of_fmap in Hl as (k & -> & Hk). apply elem_of_seqZ in Hk.
    apply list_elem_of_In in Hin. destruct (is_dir cx d k) eqn:Hd; [|by apply elem_of_nil in Hin].
    apply list_elem_of_fmap in Hin as (e & [= -> -> ->] & He). apply list_elem_of_filter in He as [Hs He].
    split; [lia|]. split; [done|]. by exists e.
  - intros (Hn & Hd & e & He & Hs & <- & <-). eexists. split; [apply list_elem_of_In, list_elem_of_fmap; exists n; split; [reflexivity|apply elem_of_seqZ; lia]|].
    apply list_elem_of_In. rewrite Hd. apply list_elem_of_fmap. exists e. split; [done|]. by apply list_elem_of_filter.
Qed.

(** They are exactly the edges of the tree. *)
Lemma links_edge d F n c m : tree_ok cx nblk d F -> (n, c, m) ∈ links d F <-> edge cx d F n c m.
Proof.
  intros Ht. rewrite elem_of_links. split.
  - intros (Hn & Hd & e & He & Hs & <- & <-). apply name_set_ne in Hs as Hne. split; [done|]. split; [done|]. split; [done|].
    unfold dir_lookup. apply list_elem_of_lookup_1 in He as (i & Hi).
    rewrite (proj2 (wf_find cx _ _ e (to_entries _ _ _ _ Ht n Hn Hd) Hne)); [done|]. exists i. split; [done|]. by apply has_name_eq.
  - intros (Hn & Hd & Hc & Hl). split; [done|]. split; [done|]. unfold dir_lookup in Hl. destruct (List.find _ _) as [e|] eqn:He; [|done]. simplify_eq/=.
    apply List.find_some in He as [Hin Hname]. apply list_elem_of_In in Hin. exists e. split; [done|].
    split; [by eapply has_name_set|]. split; [by apply has_name_eq|done].
Qed.

Definition is_proper (c : cstr) : bool := negb (bool_decide (c = [])) && negb (is_dot_or_dotdot_name c).

Lemma is_proper_spec c : is_proper c = true <-> proper c.
Proof. unfold is_proper, proper. by rewrite andb_true_iff, !negb_true_iff, bool_decide_eq_false. Qed.

(** The way from [m] up to the root, in at most [fuel] steps. *)
Fixpoint climbs (ls : list (Z * cstr * Z)) (fuel : nat) (m : Z) : bool :=
  (m =? MOFS_ROOT_INODE_NUM) ||
  match fuel with
  | O => false
  | S fuel' => existsb (fun '(n, c, x) => is_proper c && (x =? m) && climbs ls fuel' n) ls
  end.

Lemma climbs_reach E ls fuel m : (forall n c x, (n, c, x) ∈ ls -> E n c x) -> climbs ls fuel m = true -> reach E m.
Proof.
  intros Hls. revert m. induction fuel as [|fuel IH]; intros m; cbn [climbs]; rewrite orb_true_iff.
  - intros [->%Z.eqb_eq|?]; [apply reach_root|done].
  - intros [->%Z.eqb_eq|H]; [apply reach_root|]. apply existsb_exists in H as (((n & c) & x) & Hin & H).
    rewrite !andb_true_iff, is_proper_spec in H. destruct H as ((Hp & ->%Z.eqb_eq) & Hc).
    apply (reach_step E n c); [by apply IH|done|by apply Hls, list_elem_of_In].
Qed.

(** The clauses of [names_ok]. *)
Definition names_check (d : disk) (F : files) : bool :=
  let root := MOFS_ROOT_INODE_NUM in
  let ls := links d F in
  let named k m := existsb (fun '(n, c, x) => k n && is_proper c && (x =? m)) ls in
  forallb (fun '(n, c, m) => (0 <=? m) && (m <? inode_num sb) && inode_bit cx d m && negb ((m =? root) && is_proper c) &&
    (negb (bool_decide (c = dot)) || (m =? n)) &&
    (negb (bool_decide (c = dotdot)) || ((n =? root) && (m =? root)) || named (Z.eqb m) n)) ls &&
  forallb (fun '(n, c, m) => forallb (fun '(n', c', m') =>
    negb (m =? m') || negb (is_proper c && is_proper c') || bool_decide (n = n' /\ c = c')) ls) ls &&
  forallb (fun m => negb (inode_bit cx d m) || climbs ls (Z.to_nat (inode_num sb)) m) (seqZ 0 (inode_num sb)).

Lemma names_check_ok d F : tree_ok cx nblk d F -> names_check d F = true -> names_ok (inode_num sb) (edge cx d F) (inode_bit cx d).
Proof.
  intros Ht. unfold names_check. rewrite !andb_true_iff. intros ((H1 & H2) & H3). rewrite forallb_forall in H1, H2, H3.
  assert (Hnamed : forall k m, existsb (fun '(n, c, x) => k n && is_proper c && (x =? m)) (links d F) = true ->
    exists n c, k n = true /\ proper c /\ edge cx d F n c m).
  { intros k m Hx. apply existsb_exists in Hx as (((n & c) & x) & Hin & Hx). apply list_elem_of_In, links_edge in Hin; [|done].
    apply andb_true_iff in Hx as [Hx Hxm]. apply Z.eqb_eq in Hxm as ->. apply andb_true_iff in Hx as [Hk Hp]. exists n, c. by rewrite <- is_proper_spec. }
  assert (Hed : forall n c m, edge cx d F n c m -> (0 <= m < inode_num sb /\ inode_bit cx d m = true) /\ (m = MOFS_ROOT_INODE_NUM -> ~ proper c) /\
    (c = dot -> m = n) /\ (c = dotdot -> n = MOFS_ROOT_INODE_NUM /\ m = MOFS_ROOT_INODE_NUM \/ exists c', proper c' /\ edge cx d F m c' n)).
  { intros n c m He. apply links_edge in He; [|done]. apply list_elem_of_In, H1 in He. rewrite !andb_true_iff in He.
    destruct He as (((((Hm1 & Hm2) & Hb) & Hr) & Hd) & Hdd). split; [split; [lia|done]|]. split; [|split].
    - intros -> Hp%is_proper_spec. rewrite Hp in Hr. done.
    - intros ->. rewrite bool_decide_eq_true_2 in Hd by done. by apply Z.eqb_eq.
    - intros ->. rewrite bool_decide_eq_true_2 in Hdd by done. apply orb_true_iff in Hdd as [Hdd|Hdd].
      + left. cbn [negb orb] in Hdd. apply andb_true_iff in Hdd as [Ha Hb']. by apply Z.eqb_eq in Ha, Hb'.
      + right. apply Hnamed in Hdd as (n' & c' & Hn' & Hp & He'). apply Z.eqb_eq in Hn' as <-. by exists c'. }
  split.
  - intros n c m m' (_ & _ & _ & Hl) (_ & _ & _ & Hl'). congruence.
  - intros n c m He. by apply (Hed n c m).
  - intros n c n' c' m He He' Hp Hp'. apply links_edge, list_elem_of_In, H2 in He; [|done]. rewrite forallb_forall in He.
    apply links_edge, list_elem_of_In, He in He'; [|done]. apply is_proper_spec in Hp, Hp'. rewrite Z.eqb_refl, Hp, Hp' in He'. by apply bool_decide_eq_true in He'.
  - intros m Hm Hb. specialize (H3 m). rewrite Hb in H3.
    apply (climbs_reach _ (links d F) (Z.to_nat (inode_num sb))); [intros n c x; by apply links_edge|].
    apply H3, list_elem_of_In, elem_of_seqZ. lia.
  - intros n c He. by apply (Hed n c _ He).
  - intros n m He. by apply (Hed n dot m He).
  - intros n m He. by apply (Hed n dotdot m He).
Qed.

(** Every directory but the root has [..] in its first block. *)
Definition dots_check (d : disk) (F : files) : bool :=
  forallb (fun n => negb (is_dir cx d n) || (n =? MOFS_ROOT_INODE_NUM) ||
    let epb := Z.to_nat (blk_size (sp_blk cx) / 32) in
    (epb <=? length (dir_entries cx d n (F n).2))%nat && existsb (has_name dotdot) (take epb (dir_entries cx d n (F n).2))) (seqZ 0 (inode_num sb)).

Lemma dots_check_ok d F n : dots_check d F = true -> 0 <= n < inode_num sb -> is_dir cx d n = true -> n <> MOFS_ROOT_INODE_NUM -> dotdot_first cx d F n.
Proof.
  unfold dots_check. rewrite forallb_forall. intros H Hn Hd Hr. specialize (H n). rewrite Hd, (proj2 (Z.eqb_neq _ _) Hr) in H.
  specialize (H ltac:(apply list_elem_of_In, elem_of_seqZ; lia)). apply andb_true_iff in H as [Hlen H].
  split; [by apply Nat.leb_le|]. apply existsb_exists in H as (e & Hin & He).
  apply list_elem_of_In, list_elem_of_lookup_1 in Hin as (j & Hj). apply lookup_take_Some in Hj as [Hj Hlt]. by exists j, e.
Qed.

Definition fs_check (d : disk) (F : files) : bool :=
  let all := seqZ 0 (inode_num sb) in
  forallb (fun n => inode_bit cx d n || (bool_decide (F n = ([], [])) && negb (is_dir cx d n))) all &&
  names_check d F &&
  forallb (fun n => bool_decide ((F n).2 = [] -> (F n).1 = [])) all &&
  forallb (fun n => negb (n <? 2) || negb (inode_bit cx d n)) all &&
  dots_check d F.

Lemma fs_check_ok d F : vol_files cx nblk d F -> tree_ok cx nblk d F -> fs_check d F = true -> fs_ok cx nblk d F.
Proof.
  unfold fs_check. intros HF Ht H. rewrite !andb_true_iff in H. destruct H as ((((H1 & H2) & H4) & H5) & H6).
  rewrite forallb_forall in H1, H4, H5.
  assert (Hall : forall n, 0 <= n < inode_num sb -> In n (seqZ 0 (inode_num sb))) by (intros n Hn; apply list_elem_of_In, elem_of_seqZ; lia).
  split; [done|done|..].
  - intros n Hn Hb. specialize (H1 n (Hall n Hn)). rewrite Hb in H1. apply andb_true_iff in H1 as [He Hd].
    apply bool_decide_eq_true in He. by apply negb_true_iff in Hd.
  - by apply names_check_ok.
  - intros n Hn. specialize (H4 n (Hall n Hn)). by apply bool_decide_eq_true in H4.
  - intros n Hn Hlt. specialize (H5 n (Hall n Hn)). rewrite (proj2 (Z.ltb_lt _ _) Hlt) in H5. by apply negb_true_iff.
  - intros n. by apply dots_check_ok.
Qed.

End fsck.
