(* ===== verification/Ramdisk.v ===== *)
(** * A concrete platform

    A device held in memory, with a clock that does not move and memory that
    never runs out: an instance of [LinuxOS] on which every definition of the
    development can be run, and of [LinuxSpec], which shows that its laws
    can be met. *)

From Stdlib Require Import ZArith Lia.
From stdpp Require Import base list.
From S2P Require Import Prelude Types Platform Linux Raw Buffer BufferSpec Ops.

Record ramdisk := mkRam { rd_dev : list byte; rd_pos : Z; rd_now : Z }.

Definition rd_seek (pos : Z) (p : ramdisk) : ramdisk := mkRam (rd_dev p) pos (rd_now p).

#[global] Instance ram_os : LinuxOS ramdisk := {
  sys_open := fun _ _ p => (rd_seek 0 p, inr 3);
  sys_close := fun _ p => (p, None);
  sys_lseek := fun _ off whence p =>
    let pos := if whence =? 0 then off else if whence =? 1 then rd_pos p + off else blen (rd_dev p) + off in
    if pos <? 0 then (p, inl 22%positive) else (rd_seek pos p, inr pos);
  sys_read := fun _ n p =>
    let bs := bslice (rd_pos p) n (rd_dev p) in (rd_seek (rd_pos p + blen bs) p, inr bs);
  sys_write := fun _ b p =>
    if rd_pos p + blen b <=? blen (rd_dev p)
    then (mkRam (bsplice (rd_pos p) b (rd_dev p)) (rd_pos p + blen b) (rd_now p), inr (blen b))
    else (p, inl 28%positive);
  sys_fsync := fun _ p => (p, None);
  sys_fstat := fun _ p => (p, inr (KReg, blen (rd_dev p)));
  sys_blkgetsize64 := fun _ p => (p, inr (blen (rd_dev p)));
  sys_malloc := fun n p => (p, inr (zeros n));
  sys_mutex_init := fun p => (p, None);
  sys_time := fun p => (p, inr (rd_now p));
  sys_geteuid := fun _ => 0;
  sys_getegid := fun _ => 0;
  sys_getpid := fun _ => 1;
  sys_getgroups := fun _ p => (p, inr (0, []));
  sys_read_lines := fun _ p => (p, inl 2%positive)
}.

(** The device's name. *)
Definition ram_path : cstr := byte.of_Z <$> [47; 100; 101; 118].

#[global] Instance ram_spec : LinuxSpec ramdisk.
Proof.
  refine {| l_ok := fun _ => True; l_closed := fun _ => True; l_path := ram_path; l_fd := 3; l_dev := rd_dev; l_pos := rd_pos |}.
  - done.
  - intros p flags _ _. by exists (rd_seek 0 p), 3.
  - intros p n _ _. by exists p, (zeros n).
  - intros p fd _ Hfd. by exists p.
  - intros p fd _ Hfd. exists p, p, 0. split; [by left|done].
  - intros p fd off _ Hfd [Hoff _]. exists (rd_seek off p). simpl.
    rewrite (proj2 (Z.ltb_ge off 0)) by lia. done.
  - intros p fd n _ Hfd Hn Hpos. eexists. split; [reflexivity|done].
  - intros p fd b _ Hfd Hpos Hlen. eexists. split; [simpl; rewrite (proj2 (Z.leb_le _ _) Hlen); reflexivity|done].
  - intros p fd _ Hfd. by exists p.
  - intros p n _ Hn. exists p, (zeros n). simpl. rewrite length_zeros. split_and!; try done. lia.
  - intros p _. by exists p, (rd_now p).
  - intros p _. by exists p.
  - intros p path _. by exists p, (inl 2%positive).
Defined.

(** A machine with a device of [n] bytes that has not been mounted. *)
Definition ram_world {C} (dev : list byte) (cache : C) : world ramdisk C :=
  mkWorld (mkRam dev 0 1000) (mkUser 0 0 1 [0] true) (mkCtx false None 0 (mkSuper 0 0 0 0 0 0 0 0 0)) cache [] [] 0.
