(* ===== verification/Example.v ===== *)
(** * A concrete volume

    A freshly formatted volume of 24 blocks of 512 bytes on the in-memory
    device, mounted with an empty cache of two slots (and without a cache):
    the states on which the theorems of the development are instantiated. *)

From Stdlib Require Import ZArith Lia.
From stdpp Require Import base list list_numbers.
From S2P Require Import Prelude Types Platform Raw Buffer BufferSpec Ops Bitmap Inode Block Volume BlockSpec AllocSpec InodeSpec VolInv Fsck Format Ramdisk.

(** ** Empty caches *)

(** ** The volume *)

Definition pad (n : Z) (l : list byte) : list byte := l ++ zeros (n - blen l).

Definition ex_sb : mofs_superblock_t := layout_superblock (compute_layout (24 * 512) 512) 512.

(** The image that [mofs_format] writes at time 1000. *)
Definition ex_image : list byte :=
  pad 512 (encode_superblock ex_sb) ++
  pad 512 [byte.of_Z 4] ++
  pad 512 [byte.of_Z 3] ++
  pad 512 (zeros 128 ++ encode_inode (root_inode 512 4 1000)) ++
  zeros 512 ++
  root_list_node 512 4 ++
  zeros (18 * 512).

Definition ex_cx : mofs_ctx_t := mkCtx true (Some [byte.of_Z 47]) 3 ex_sb.
Definition ex_user : mofs_user_ctx_t := mkUser 0 0 1 [0] true.

Definition ex_slot : bcache_entry := mkEntry false false 0 0 (zeros 512).
Definition ex_cache : bcache := mkCache [ex_slot; ex_slot] true 0 true.

Definition ex_mounted {C} (c : C) : world ramdisk C :=
  mkWorld (mkRam ex_image 0 1000) ex_user ex_cx c (replicate 64 zero_filehandle) (replicate 64 zero_dirhandle) 0.

(** The mounted volume, with the cache and without. *)
Definition ex_w : world ramdisk bcache := ex_mounted ex_cache.
Definition ex_raw : world ramdisk unit := ex_mounted tt.

Definition ex_disk (b : Z) : list byte := bslice (b * 512) 512 ex_image.
Definition ex_a : astate := mkAstate ex_disk ex_user (replicate 64 zero_filehandle) (replicate 64 zero_dirhandle) true.

(** [mofs_format] produces this image, whatever was on the device. *)
Lemma ex_image_formatted :
  rd_dev (w_plat (fst (mofs_format (Some [byte.of_Z 47]) 0 512 (ram_world (C := unit) (replicate (24 * 512) (byte.of_Z 170)) tt)))) =
  take (6 * 512) ex_image ++ replicate (18 * 512) (byte.of_Z 170).
Proof. vm_compute. reflexivity. Qed.

Lemma ex_vol : vol_ok ex_cx 24.
Proof. split; vm_compute; try done; split; done. Qed.

Lemma ex_image_len : blen ex_image = 24 * 512.
Proof. vm_compute. reflexivity. Qed.

Lemma ex_cache_rep : cache_rep ex_cx 24 ex_disk ex_w.
Proof.
  eapply cache_rep_ext; [apply (cache_rep_empty ex_cx 24 ex_w)|intros b _; reflexivity]; try done.
  - repeat constructor; done.
Qed.

Lemma ex_rep : rep ex_cx 24 ex_w ex_a.
Proof. split; [apply ex_cache_rep|done|done]. Qed.

Lemma ex_disk_ok : disk_ok ex_cx 24 ex_disk.
Proof. intros b Hb. exact (cache_rep_len _ _ _ _ b ex_cache_rep Hb). Qed.

(** The root directory: one block, listed by one node. *)
Lemma ex_root_map : file_map ex_cx 24 ex_disk 2 [5] [4].
Proof. apply file_map_check_ok. vm_compute. reflexivity. Qed.

Lemma ex_raw_rep : rep ex_cx 24 ex_raw (mkAstate ex_disk ex_user (replicate 64 zero_filehandle) (replicate 64 zero_dirhandle) false).
Proof.
  split; [|done|done]. split; done.
Qed.

(** The files of the volume: only the root directory has blocks. *)
Definition ex_files : files := fun n => if n =? 2 then ([5], [4]) else ([], []).

Lemma ex_vol_files : vol_files ex_cx 24 ex_disk ex_files.
Proof. apply vol_files_check_ok. vm_compute. reflexivity. Qed.
