(* ===== verification/ExampleFile.v ===== *)
(** * A concrete volume with a file

    The volume of [Example] with one regular file, inode 3, that holds the
    five bytes of [hello], opened for reading and writing as handle 0. *)

From Stdlib Require Import ZArith Lia.
From stdpp Require Import base list list_numbers.
From S2P Require Import Prelude Types Platform Raw Buffer BufferSpec Ops Bitmap Inode Block FileData Perm Dirent Path File Volume BlockSpec AllocSpec InodeSpec VolInv FileInv PermSpec DirSpec PathSpec EntrySpec TreeSpec FsSpec Fsck FileSpec PermSpec RwSpec WriteSpec Format Ramdisk Example.

Definition hello : list byte := byte.of_Z <$> [104; 101; 108; 108; 111].

Definition fx_inode : mofs_inode_t := mkInode 5 1 0x81A4 0 0 7 1 1000 1000 1000 (zeros 16).

Definition fx_image : list byte :=
  pad 512 (encode_superblock ex_sb) ++
  pad 512 [byte.of_Z 12] ++
  pad 512 [byte.of_Z 15] ++
  pad 512 (zeros 128 ++ encode_inode (root_inode 512 4 1000) ++ encode_inode fx_inode) ++
  pad 512 (encode_dirent (mkDirent (name_field (take 2 hello)) 3)) ++
  root_list_node 512 4 ++
  pad 512 hello ++
  list_node_buf 512 0 [6] ++
  zeros (16 * 512).

Definition fx_handle : mofs_filehandle := mkFile true 3 0 MOFS_OFLAG_RDWR.
Definition fx_pool : list mofs_filehandle := <[0%nat := fx_handle]> (replicate 64 zero_filehandle).

Definition fx_w : world ramdisk bcache :=
  mkWorld (mkRam fx_image 0 1000) ex_user ex_cx ex_cache fx_pool (replicate 64 zero_dirhandle) 0.

Definition fx_disk (b : Z) : list byte := bslice (b * 512) 512 fx_image.
Definition fx_a : astate := mkAstate fx_disk ex_user fx_pool (replicate 64 zero_dirhandle) true.

Definition fx_files : files := fun n => if n =? 2 then ([5], [4]) else if n =? 3 then ([7], [6]) else ([], []).

Lemma fx_cache_rep : cache_rep ex_cx 24 fx_disk fx_w.
Proof.
  eapply cache_rep_ext; [apply (cache_rep_empty ex_cx 24 fx_w)|intros b _; reflexivity]; try done.
  repeat constructor; done.
Qed.

Lemma fx_rep : rep ex_cx 24 fx_w fx_a.
Proof. split; [apply fx_cache_rep|done|done]. Qed.

Lemma fx_disk_ok : disk_ok ex_cx 24 fx_disk.
Proof. intros b Hb. exact (cache_rep_len _ _ _ _ b fx_cache_rep Hb). Qed.

Lemma fx_vol_files : vol_files ex_cx 24 fx_disk fx_files.
Proof. apply vol_files_check_ok. vm_compute. reflexivity. Qed.

Lemma fx_open flags : open_permission flags ex_user fx_inode = Ok tt ->
  open_on ex_cx 24 fx_a 0 fx_handle flags [7] [6].
Proof.
  intros Hp. split; try done. by apply (vf_map _ _ _ _ fx_vol_files 3).
Qed.

(** Writing at the end of the file. *)
Lemma fx_write_pre data : 0 < blen data -> write_pre ex_cx 24 fx_a 0 fx_handle fx_files 5 data.
Proof.
  intros Hd. split; try done.
  - apply fx_disk_ok.
  - apply fx_vol_files.
  - apply fx_open. reflexivity.
Qed.

Lemma fx_tree_ok : tree_ok ex_cx 24 fx_disk fx_files.
Proof. apply tree_check_ok; [apply fx_vol_files|]. vm_compute. reflexivity. Qed.

Lemma fx_fs_ok : fs_ok ex_cx 24 fx_disk fx_files.
Proof. apply fs_check_ok; [apply fx_vol_files|apply fx_tree_ok|]. vm_compute. reflexivity. Qed.
