(* ===== verification/ExampleTree.v ===== *)
(** * Concrete volumes with a directory tree

    The volume of [Example] with the file ["/he"] (inode 3) of [ExampleFile]
    and a directory ["/d"] (inode 4) that holds the file ["/d/f"] (inode 5,
    empty); ["/d"] is open as directory stream 0.  The second volume has the
    file and an empty ["/d"] (inode 4); inode 5 is free. *)

From Stdlib Require Import ZArith Lia.
From stdpp Require Import base list list_numbers.
From S2P Require Import Prelude Types Platform Raw Buffer BufferSpec Ops Bitmap Inode Block FileData Perm Dirent Path File Dir Format Volume BlockSpec AllocSpec InodeSpec VolInv FileSpec FileInv PermSpec DirSpec PathSpec EntrySpec TreeSpec NameSpec StreamSpec FsSpec Fsck Ramdisk Example ExampleFile.

Definition name_he : cstr := take 2 hello.
Definition name_d : cstr := [byte.of_Z 100].
Definition name_f : cstr := [byte.of_Z 102].
Definition name_g : cstr := [byte.of_Z 103].

Definition entry (name : cstr) (n : Z) : list byte := encode_dirent (mkDirent (name_field name) n).

Definition tx_dir_inode : mofs_inode_t := mkInode 512 2 0x41ED 0 0 9 1 1000 1000 1000 (zeros 16).
Definition tx_empty_inode : mofs_inode_t := mkInode 0 1 0x81A4 0 0 0 0 1000 1000 1000 (zeros 16).

Definition tx_image : list byte :=
  pad 512 (encode_superblock ex_sb) ++
  pad 512 [byte.of_Z 60] ++
  pad 512 [byte.of_Z 63] ++
  pad 512 (zeros 128 ++ encode_inode (root_inode 512 4 1000) ++ encode_inode fx_inode ++ encode_inode tx_dir_inode ++ encode_inode tx_empty_inode) ++
  pad 512 (entry name_he 3 ++ entry name_d 4) ++
  root_list_node 512 4 ++
  pad 512 hello ++
  list_node_buf 512 0 [6] ++
  pad 512 (entry dot 4 ++ entry dotdot 2 ++ zeros 32 ++ entry name_f 5) ++
  list_node_buf 512 0 [8] ++
  zeros (14 * 512).

Definition tx_stream : mofs_dirhandle := mkDir true 4 0 zero_dirent.
Definition tx_dirs : list mofs_dirhandle := <[0%nat := tx_stream]> (replicate 64 zero_dirhandle).

Definition tx_w : world ramdisk bcache :=
  mkWorld (mkRam tx_image 0 1000) ex_user ex_cx ex_cache fx_pool tx_dirs 0.

Definition tx_disk (b : Z) : list byte := bslice (b * 512) 512 tx_image.
Definition tx_a : astate := mkAstate tx_disk ex_user fx_pool tx_dirs true.

Definition tx_files : files := fun n =>
  if n =? 2 then ([5], [4]) else if n =? 3 then ([7], [6]) else if n =? 4 then ([9], [8]) else ([], []).

Lemma tx_cache_rep : cache_rep ex_cx 24 tx_disk tx_w.
Proof.
  eapply cache_rep_ext; [apply (cache_rep_empty ex_cx 24 tx_w)|intros b _; reflexivity]; try done.
  repeat constructor; done.
Qed.

Lemma tx_rep : rep ex_cx 24 tx_w tx_a.
Proof. split; [apply tx_cache_rep|done|done]. Qed.

Lemma tx_disk_ok : disk_ok ex_cx 24 tx_disk.
Proof. intros b Hb. exact (cache_rep_len _ _ _ _ b tx_cache_rep Hb). Qed.

Lemma tx_vol_files : vol_files ex_cx 24 tx_disk tx_files.
Proof. apply vol_files_check_ok. vm_compute. reflexivity. Qed.

Lemma tx_tree_ok : tree_ok ex_cx 24 tx_disk tx_files.
Proof. apply tree_check_ok; [apply tx_vol_files|]. vm_compute. reflexivity. Qed.

Lemma tx_fs_ok : fs_ok ex_cx 24 tx_disk tx_files.
Proof. apply fs_check_ok; [apply tx_vol_files|apply tx_tree_ok|]. vm_compute. reflexivity. Qed.

Lemma tx_path_call_at p n : head p = Some slash -> p <> [slash] -> blen p < 2 ^ 32 ->
  may_write ex_user (inode_at ex_cx tx_disk n) && may_exec ex_user (inode_at ex_cx tx_disk n) = true -> path_call ex_cx 24 tx_a tx_files p n.
Proof. intros Hh Hp Hl Hw. split; [exact tx_disk_ok|exact tx_fs_ok|reflexivity|by split|exact Hl|exact Hh|exact Hp|exact Hw]. Qed.

(** ["/d/f"] *)
Definition path_df : cstr := join_path [name_d; name_f].

(** ** The volume with an empty directory *)

Definition ey_image : list byte :=
  pad 512 (encode_superblock ex_sb) ++
  pad 512 [byte.of_Z 28] ++
  pad 512 [byte.of_Z 63] ++
  pad 512 (zeros 128 ++ encode_inode (root_inode 512 4 1000) ++ encode_inode fx_inode ++ encode_inode tx_dir_inode) ++
  pad 512 (entry name_he 3 ++ entry name_d 4) ++
  root_list_node 512 4 ++
  pad 512 hello ++
  list_node_buf 512 0 [6] ++
  pad 512 (entry dot 4 ++ entry dotdot 2) ++
  list_node_buf 512 0 [8] ++
  zeros (14 * 512).

Definition ey_w : world ramdisk bcache :=
  mkWorld (mkRam ey_image 0 1000) ex_user ex_cx ex_cache fx_pool tx_dirs 0.

Definition ey_disk (b : Z) : list byte := bslice (b * 512) 512 ey_image.
Definition ey_a : astate := mkAstate ey_disk ex_user fx_pool tx_dirs true.

Lemma ey_cache_rep : cache_rep ex_cx 24 ey_disk ey_w.
Proof.
  eapply cache_rep_ext; [apply (cache_rep_empty ex_cx 24 ey_w)|intros b _; reflexivity]; try done.
  repeat constructor; done.
Qed.

Lemma ey_rep : rep ex_cx 24 ey_w ey_a.
Proof. split; [apply ey_cache_rep|done|done]. Qed.

Lemma ey_disk_ok : disk_ok ex_cx 24 ey_disk.
Proof. intros b Hb. exact (cache_rep_len _ _ _ _ b ey_cache_rep Hb). Qed.

Lemma ey_vol_files : vol_files ex_cx 24 ey_disk tx_files.
Proof. apply vol_files_check_ok. vm_compute. reflexivity. Qed.

Lemma ey_tree_ok : tree_ok ex_cx 24 ey_disk tx_files.
Proof. apply tree_check_ok; [apply ey_vol_files|]. vm_compute. reflexivity. Qed.

Lemma ey_fs_ok : fs_ok ex_cx 24 ey_disk tx_files.
Proof. apply fs_check_ok; [apply ey_vol_files|apply ey_tree_ok|]. vm_compute. reflexivity. Qed.

(** ["/he"], ["/d"], ["/g"] *)
Definition path_he : cstr := join_path [name_he].
Definition path_d : cstr := join_path [name_d].
Definition path_g : cstr := join_path [name_g].

Lemma ey_path_call_at p n : head p = Some slash -> p <> [slash] -> blen p < 2 ^ 32 ->
  may_write ex_user (inode_at ex_cx ey_disk n) && may_exec ex_user (inode_at ex_cx ey_disk n) = true -> path_call ex_cx 24 ey_a tx_files p n.
Proof. intros Hh Hp Hl Hw. split; [exact ey_disk_ok|exact ey_fs_ok|reflexivity|by split|exact Hl|exact Hh|exact Hp|exact Hw]. Qed.

Lemma ey_path_call p : head p = Some slash -> p <> [slash] -> blen p < 2 ^ 32 -> path_call ex_cx 24 ey_a tx_files p 2.
Proof. intros Hh Hp Hl. by apply ey_path_call_at. Qed.

(** ["/d/g"] *)
Definition path_dg : cstr := join_path [name_d; name_g].
