(* ===== verification/ZephyrProps.v ===== *)
(** * Properties of the Zephyr port

    Exactness of byte transfers over sectors, their termination and the safety
    of the device table for any disk, and a disk in memory on which they are
    run. *)

From Stdlib Require Import ZArith Lia.
From stdpp Require Import base list.
From S2P Require Import Prelude Types Platform Zephyr ZephyrSpec.
Import Zephyr.

(** ** A disk in memory

    Four sectors of four bytes. *)

Record ramdrive := mkDrive { rv_image : list byte; rv_on : bool }.

Definition rv_name : cstr := byte.of_Z <$> [82; 65; 77].

#[global] Instance ramdrive_kernel : ZephyrKernel ramdrive := {
  disk_access_status := fun _ h => (h, mkStatus false false);
  disk_access_ioctl := fun _ c h =>
    match c with
    | CTRL_INIT => (mkDrive (rv_image h) true, inr 0)
    | CTRL_DEINIT => (mkDrive (rv_image h) false, inr 0)
    | CTRL_SYNC => (h, inr 0)
    | GET_SECTOR_SIZE => (h, inr 4)
    | GET_SECTOR_COUNT => (h, inr 4)
    end;
  disk_access_read := fun _ s n h => (h, inr (bslice (s * 4) (n * 4) (rv_image h)));
  disk_access_write := fun _ b s n h => (mkDrive (bsplice (s * 4) b (rv_image h)) (rv_on h), None);
  k_malloc := fun n h => (h, Some (zeros n));
  k_uptime_get := fun h => (h, 5000);
  k_mutex_init := fun h => (h, true);
  k_errno := fun _ => None
}.

#[global] Instance ramdrive_spec : DiskSpec ramdrive.
Proof.
  refine {| d_off := fun h => rv_on h = false /\ length (rv_image h) = 16%nat; d_ok := fun h => rv_on h = true /\ length (rv_image h) = 16%nat;
            d_name := rv_name; d_ss := 4; d_count := 4; d_image := rv_image |}; try done.
  - intros h [[_ H]|[_ H]]; by rewrite H.
  - intros h H. by exists h.
  - intros h [H1 H2]. by exists (mkDrive (rv_image h) true), 0.
  - intros h H. by exists h.
  - intros h H. by exists h.
  - intros h H. by exists h.
  - intros h H. by exists h, 0.
  - intros h [H1 H2]. by exists (mkDrive (rv_image h) false), 0.
  - intros h s n H. by exists h.
  - intros h b s n [H1 H2] Hs Hn He Hb. eexists. split; [reflexivity|]. split; [|done]. split; [done|]. cbn.
    rewrite length_bsplice; lia.
  - intros h n H Hn. by exists h, (zeros n).
  - intros h n H Hn. exists h, (zeros n). rewrite length_zeros. split; [done|]. split; [lia|done].
  - intros h H. by exists h, 5000.
  - intros h H. by exists h.
Defined.

Definition drive : zstate ramdrive :=
  mkZ (mkDrive (byte.of_Z <$> seqZ 10 16) false) (replicate MOFS_DEV_SLOT_MAX zero_slot).

(** The disk opened, and positioned inside its second sector. *)
Definition drive_at_6 : zstate ramdrive := (dev_lseek 0 6 MOFS_SEEK_SET (dev_open (Some rv_name) MOFS_IO_OPEN_FLAG_RDWR drive).1).1.

Definition slot_at_6 : dev_slot := mkSlot true rv_name 6 4 4 3.

Lemma drive_open : z_open drive_at_6 slot_at_6.
Proof. split; try done; by vm_compute. Qed.

(** ** Theorems *)

Section props.
Context {H : Type} `{!ZephyrKernel H}.

(** C15: byte transfers are exact. On a disk that works, a read of [n] bytes at
    any position, aligned to the sectors or not, returns exactly those bytes of
    the disk, fewer only at its end, and changes nothing; a write replaces
    exactly the bytes it names, up to the end of the disk, and leaves every
    other byte as it was, though the disk only moves whole sectors.  Both
    advance the position by what they moved. *)
Theorem zephyr_io_exact `{!DiskSpec H} (z : zstate H) s n b :
  z_open z s -> 0 <= n < 2 ^ 32 -> blen b < 2 ^ 32 ->
  let img := d_image (z_hw z) in
  let k := Z.min (blen b) (d_count * d_ss - offset s) in
  (exists z' s', dev_read 0 n z = (z', Ok (bslice (offset s) n img)) /\ z_open z' s' /\
     d_image (z_hw z') = img /\ offset s' = offset s + blen (bslice (offset s) n img)) /\
  (exists z' s', dev_write 0 b z = (z', Ok k) /\ z_open z' s' /\
     d_image (z_hw z') = bsplice (offset s) (bslice 0 k b) img /\ offset s' = offset s + k).
Proof. intros Ho Hn Hb. split; [by apply z_read_ok|by apply z_write_short]. Qed.

(** C34: transfers end. Whatever the disk does, a read or a write of an open
    device smaller than [2^63] bytes returns: it moves at most the bytes asked
    for, or reports a positive error number. *)
Theorem zephyr_io_ends (z : zstate H) fd n b :
  Forall (fun s => used s = true -> slot_ok s) (dev_slots z) -> 0 <= n < 2 ^ 32 -> blen b < 2 ^ 32 ->
  match (dev_read fd n z).2 with Ok bs => blen bs <= n | Err e => 0 < e | Stuck => False end /\
  match (dev_write fd b z).2 with Ok k => 0 <= k <= blen b | Err e => 0 < e | Stuck => False end.
Proof.
  intros Hall Hn Hb. assert (Hs : forall s, dev_slots z !! Z.to_nat fd = Some s -> used s = true -> slot_ok s).
  { intros s Hs. rewrite Forall_lookup in Hall. by apply Hall with (Z.to_nat fd). }
  unfold dev_read, dev_write. destruct (slot_get_cases fd z) as [(s & _ & Hi & Hu & E)|[E _]];
    [|by rewrite !(M_bind_err _ _ _ _ _ E)].
  rewrite !(M_bind_ok _ _ _ _ _ E). cbv beta iota zeta. split.
  - destruct (_ =? 0); [done|]. destruct (transfer_ends _ s false [] n z Hi (Hs s Hi Hu) Hn) as (h & off & [(k & d & Et & Hk & _)|(e & l & Et & He & _)]).
    + rewrite (M_bind_ok _ _ _ _ _ Et). cbn. rewrite length_take. lia.
    + by rewrite (M_bind_err _ _ _ _ _ Et).
  - destruct (_ =? 0); [done|]. destruct (transfer_ends _ s true b (blen b) z Hi (Hs s Hi Hu) ltac:(lia)) as (h & off & [(k & d & Et & Hk & _)|(e & l & Et & He & _)]).
    + rewrite (M_bind_ok _ _ _ _ _ Et). cbn. lia.
    + by rewrite (M_bind_err _ _ _ _ _ Et).
Qed.

(** C35: no handle leaks. Whatever the disk does, a failed [dev_open] leaves
    the table of devices as it was and a successful one takes a slot that was
    free; [dev_close] of an open handle frees its slot even when the disk
    reports an error; neither touches the other slots, and free slots stay
    zeroed. *)
Theorem zephyr_table_safe (z : zstate H) path flags fd :
  table_ok (dev_slots z) ->
  (let '(z', r) := dev_open path flags z in table_ok (dev_slots z') /\
   match r with
   | Ok n => exists i s, n = Z.of_nat i /\ dev_slots z !! i = Some zero_slot /\ used s = true /\ dev_slots z' = <[i := s]> (dev_slots z)
   | Err e => dev_slots z' = dev_slots z
   | Stuck => False
   end) /\
  (let '(z', r) := dev_close fd z in table_ok (dev_slots z') /\ r <> Stuck /\
   forall s, dev_slots z !! Z.to_nat fd = Some s -> used s = true -> 0 <= fd < Z.of_nat MOFS_DEV_SLOT_MAX ->
   dev_slots z' = <[Z.to_nat fd := zero_slot]> (dev_slots z)).
Proof.
  intros Ht. pose proof Ht as [Hl Hfree].
  assert (Hput : forall i s, (used s = false -> s = zero_slot) -> table_ok (<[i := s]> (dev_slots z))).
  { intros i s Hs. split; [by rewrite length_insert|]. intros j s' Hj Hu. destruct (decide (i = j)) as [->|Hne].
    - apply list_lookup_insert_Some in Hj as [(_ & -> & _)|[? _]]; [by apply Hs|done].
    - rewrite list_lookup_insert_ne in Hj by done. by apply (Hfree j). }
  split.
  - destruct (dev_open_table path flags z Ht) as (h & slots & r & E & Hr). rewrite E. cbn [dev_slots].
    destruct r as [n|e|]; [|by subst|done]. destruct Hr as (i & s & -> & Hi & Hz & Hu & ->).
    split; [apply Hput; congruence|]. by exists i, s.
  - destruct (dev_close_table fd z) as (h & slots & r & E & Hr & Hc). rewrite E. cbn [dev_slots].
    destruct Hc as [(s & Hs & Hu & Hfd & ->)|(-> & -> & Hno)].
    + split; [by apply Hput|]. split; [done|]. done.
    + split; [done|]. split; [done|]. intros s Hs Hu Hfd. by destruct (Hno s Hs Hu).
Qed.

End props.

(** ** Witnesses *)

Definition five : list byte := byte.of_Z <$> [1; 2; 3; 4; 5].

Lemma zephyr_io_exact_witness :
  let img := d_image (z_hw drive_at_6) in
  let k := Z.min (blen five) (d_count * d_ss - offset slot_at_6) in
  (exists z' s', dev_read 0 7 drive_at_6 = (z', Ok (bslice (offset slot_at_6) 7 img)) /\ z_open z' s' /\
     d_image (z_hw z') = img /\ offset s' = offset slot_at_6 + blen (bslice (offset slot_at_6) 7 img)) /\
  (exists z' s', dev_write 0 five drive_at_6 = (z', Ok k) /\ z_open z' s' /\
     d_image (z_hw z') = bsplice (offset slot_at_6) (bslice 0 k five) img /\ offset s' = offset slot_at_6 + k).
Proof. exact (zephyr_io_exact drive_at_6 slot_at_6 7 five drive_open ltac:(lia) ltac:(cbn; lia)). Defined.

Lemma drive_slots : Forall (fun s => used s = true -> slot_ok s) (dev_slots drive_at_6).
Proof.
  assert (E : dev_slots drive_at_6 = slot_at_6 :: replicate 15 zero_slot) by by vm_compute.
  rewrite E. constructor; [intros _; by split|]. by apply Forall_replicate.
Qed.

Lemma zephyr_io_ends_witness :
  match (dev_read 0 7 drive_at_6).2 with Ok bs => blen bs <= 7 | Err e => 0 < e | Stuck => False end /\
  match (dev_write 0 five drive_at_6).2 with Ok k => 0 <= k <= blen five | Err e => 0 < e | Stuck => False end.
Proof. exact (zephyr_io_ends drive_at_6 0 7 five drive_slots ltac:(lia) ltac:(cbn; lia)). Defined.

Lemma drive_table : table_ok (dev_slots drive).
Proof. split; [done|]. intros i s Hs _. apply lookup_replicate in Hs as [-> _]. done. Qed.

Lemma zephyr_table_safe_witness :
  (let '(z', r) := dev_open (Some rv_name) 3 drive in table_ok (dev_slots z') /\
   match r with
   | Ok n => exists i s, n = Z.of_nat i /\ dev_slots drive !! i = Some zero_slot /\ used s = true /\ dev_slots z' = <[i := s]> (dev_slots drive)
   | Err e => dev_slots z' = dev_slots drive
   | Stuck => False
   end) /\
  (let '(z', r) := dev_close 0 drive in table_ok (dev_slots z') /\ r <> Stuck /\
   forall s, dev_slots drive !! Z.to_nat 0 = Some s -> used s = true -> 0 <= 0 < Z.of_nat MOFS_DEV_SLOT_MAX ->
   dev_slots z' = <[Z.to_nat 0 := zero_slot]> (dev_slots drive)).
Proof. exact (zephyr_table_safe drive (Some rv_name) 3 0 drive_table). Defined.

(** The bytes a run moves, evaluated. *)
Example drive_read_7 : (dev_read 0 7 drive_at_6).2 = Ok (byte.of_Z <$> seqZ 16 7).
Proof. by vm_compute. Qed.

Example drive_write_5 : rv_image (z_hw (dev_write 0 five drive_at_6).1) = (byte.of_Z <$> seqZ 10 6) ++ five ++ (byte.of_Z <$> seqZ 21 5).
Proof. by vm_compute. Qed.
