(* ===== verification/FuseProps.v ===== *)
(** * Properties of the FUSE file system

    Directory listings through [mofs_readdir_fuse], on a mounted volume with
    any block driver, and an instance on the example tree. *)

From Stdlib Require Import ZArith Lia.
From stdpp Require Import base list list_numbers.
From S2P Require Import Prelude Types Platform Linux Raw Buffer BufferSpec Ops Bitmap Inode Block FileData Perm Dirent Path File Dir Format Core Posix Fuse Volume BlockSpec AllocSpec InodeSpec VolInv FileSpec FileInv PermSpec DirSpec PathSpec EntrySpec TreeSpec StreamSpec FsSpec FormatSpec MountSpec FuseSpec Fsck Ramdisk Example ExampleFile ExampleTree.

Section fuseprops.
Context {P C : Type} `{!LinuxOS P} `{!LinuxSpec P} `{!BlockDriver P C} `{!DriverSpec P C} `{!DriverLife P C}.
Context (cx : mofs_ctx_t) (nblk : Z).

(** C16: listing a directory through FUSE. For a request of any user, in a
    well-formed tree, [mofs_readdir_fuse] on a directory that the user may
    reach and read hands the filler ["."], [".."] and then the name of every
    live entry (a stored ["."] or [".."] is left out, but takes a cookie), in
    order and once each, with growing cookies, from behind the cookie [offset]
    on and until the filler is full, and returns 0; resuming
    at the cookie of any entry gives exactly the entries after it.  The disk
    and the open files are untouched, and the directory handle it used is free
    again. *)
Theorem fuse_readdir_lists {B} (filler : B -> cstr -> Z -> B * bool) (c : fuse_context) (w : world P C) a F (p : cstr) n h offset buf :
  let w1 := (mofs_fuse_bind_request_caller (Some c) w).1 in
  let u := w_caller w1 in
  let es := live_from 0 (dir_entries cx (a_disk a) n (F n).2) in
  vol_ok cx nblk -> rep cx nblk w a -> tree_ok cx nblk (a_disk a) F -> blen p < 2 ^ 32 -> head p = Some slash -> 0 <= offset ->
  path_end cx u (a_disk a) F p = Ok n -> 0 <= n < inode_num (sp_blk cx) -> readable cx u (a_disk a) n ->
  get_free_dirhandle_index (a_dirs a) = Some h -> listing_cost cx p h (S (length es)) w1 < drv_left w ->
  (exists w', mofs_readdir_fuse (Some c) filler (Some p) buf offset w = (w', Ok (0, emit filler buf (behind offset (listing es)))) /\
     rep cx nblk w' (set_adirs (<[h := zero_dirhandle]> (a_dirs a)) (set_acaller u a))) /\
  (forall l1 name cookie l2, listing es = l1 ++ (name, cookie) :: l2 -> behind cookie (listing es) = l2) /\
  uid u = f_uid c /\ gid u = f_gid c.
Proof.
  intros w1 u es Hvol Hr Ht Hlen Hh Hoff Hp Hn Hrd Hfree Hl. split; [by apply (readdir_fuse_ok cx nblk Hvol filler c w a F p n h)|].
  split; [intros l1 name cookie l2; apply behind_resume|].
  destruct (bind_caller_ok cx nblk c w a Hr) as (w1' & u' & E1 & R1 & _ & Hui & Hgi & _).
  unfold u, w1. rewrite E1. cbn [fst]. rewrite (proj1 (rep_state _ _ _ _ R1)). done.
Qed.

End fuseprops.

(** ** An instance on the example tree

    The directory [/d], listed by root through a buffer with room for two
    entries. *)

Definition fuse_root : fuse_context := mkFuse 0 0 77 18.
Definition path_d : cstr := join_path [name_d].
Definition two_slots (b : list (cstr * Z)) (n : cstr) (c : Z) : list (cstr * Z) * bool :=
  if (length b <? 2)%nat then (b ++ [(n, c)], false) else (b, true).

Definition fx_entries : list mofs_dirent_t := live_from 0 (dir_entries ex_cx tx_disk 4 (tx_files 4).2).

Lemma fuse_readdir_lists_witness :
  let u := w_caller (mofs_fuse_bind_request_caller (Some fuse_root) tx_w).1 in
  (exists w', mofs_readdir_fuse (Some fuse_root) two_slots (Some path_d) [] 0 tx_w =
      (w', Ok (0, emit two_slots [] (behind 0 (listing fx_entries)))) /\
     rep ex_cx 24 w' (set_adirs (<[1%nat := zero_dirhandle]> (a_dirs tx_a)) (set_acaller u tx_a))) /\
  (forall l1 name cookie l2, listing fx_entries = l1 ++ (name, cookie) :: l2 -> behind cookie (listing fx_entries) = l2) /\
  uid u = f_uid fuse_root /\ gid u = f_gid fuse_root.
Proof.
  assert (Hu : w_caller (mofs_fuse_bind_request_caller (Some fuse_root) tx_w).1 = mkUser 0 0 77 [0] true) by reflexivity.
  apply (fuse_readdir_lists ex_cx 24 two_slots fuse_root tx_w tx_a tx_files path_d 4 1 0 []).
  - exact ex_vol.
  - exact tx_rep.
  - exact tx_tree_ok.
  - reflexivity.
  - reflexivity.
  - done.
  - rewrite Hu. vm_compute. reflexivity.
  - vm_compute. split; [discriminate|reflexivity].
  - rewrite Hu. split; vm_compute; reflexivity.
  - vm_compute. reflexivity.
  - vm_compute. reflexivity.
Defined.

(** What the two requests that list it deliver. *)
Example fx_listing : listing fx_entries = [(dot, 1); (dotdot, 2); (name_f, 5)].
Proof. vm_compute. reflexivity. Qed.
