(* ===== verification/CacheProps.v ===== *)
(** * Properties of the block cache

    The write-back cache of [mofs_buffer.c] against the reference it stands
    for, a plain array of blocks: single operations, whole sequences of
    operations, replacement, durability, and the bypass that is used while the
    cache is not ready. *)

From Stdlib Require Import ZArith Lia.
From stdpp Require Import base list.
From S2P Require Import Prelude Types Platform Raw Buffer BufferSpec Ops Ramdisk Example.

(** ** A reference: the disk as an array of blocks *)

Inductive cache_op :=
| CRead (n start : Z)
| CWrite (buf : list byte) (n start : Z)
| CModify (blk off : Z) (patch : list byte)
| CFlush.

(** The array after an operation, and what a read returns. *)
Definition ref_step (nb : Z) (o : cache_op) (v : Z -> list byte) : (Z -> list byte) * list byte :=
  match o with
  | CRead n s => (v, blocks_at v s (Z.to_nat n))
  | CWrite buf n s => (upd_blocks nb buf s 0 (Z.to_nat n) v, [])
  | CModify b off patch => (upd v b (bsplice off patch (v b)), [])
  | CFlush => (v, [])
  end.

Fixpoint ref_run (nb : Z) (os : list cache_op) (v : Z -> list byte) : (Z -> list byte) * list (list byte) :=
  match os with
  | [] => (v, [])
  | o :: os => let '(v1, x) := ref_step nb o v in let '(v2, xs) := ref_run nb os v1 in (v2, x :: xs)
  end.

(** The operation stays inside the volume and its buffer. *)
Definition op_in_range (nb nblk : Z) (o : cache_op) : Prop :=
  match o with
  | CRead n s => 0 <= s /\ 0 <= n /\ s + n <= nblk
  | CWrite buf n s => 0 <= s /\ 0 <= n /\ s + n <= nblk /\ n * nb <= blen buf
  | CModify b off patch => 0 <= b < nblk /\ 0 <= off /\ 0 < blen patch /\ off + blen patch <= nb
  | CFlush => True
  end.

(** Block accesses the operation makes, i.e. ticks of the LRU clock. *)
Definition op_ticks (o : cache_op) : Z :=
  match o with CRead n _ | CWrite _ n _ => n | CModify _ _ _ => 1 | CFlush => 0 end.
Definition run_ticks (os : list cache_op) : Z := foldr (fun o t => op_ticks o + t) 0 os.

(** ** The same operations on a block driver *)

Section run.
Context {P C : Type} `{!Platform P} `{!PlatformSpec P} `{!BlockDriver P C} `{!DriverSpec P C}.
Abbreviation W := (world P C).

Definition cache_step (cx : mofs_ctx_t) (o : cache_op) : M W (list byte) :=
  match o with
  | CRead n s => '(_, _, buf) ← drv_read (dev_fd cx) (zeros (n * blk_size (sp_blk cx))) n s; mret buf
  | CWrite buf n s => drv_write (dev_fd cx) buf n s;; mret []
  | CModify b off patch => drv_modify b off patch;; mret []
  | CFlush => drv_flush;; mret []
  end.

Fixpoint cache_run (cx : mofs_ctx_t) (os : list cache_op) : M W (list (list byte)) :=
  match os with
  | [] => mret []
  | o :: os => x ← cache_step cx o; xs ← cache_run cx os; mret (x :: xs)
  end.

Lemma blocks_at_len cx nblk v (w : W) n : forall s,
  drv_rep cx nblk v w -> 0 <= s -> s + Z.of_nat n <= nblk ->
  blen (blocks_at v s n) = Z.of_nat n * blk_size (sp_blk cx).
Proof.
  induction n as [|n IH]; intros s Hr Hs Hn; [done|].
  rewrite blocks_at_S, length_app. specialize (IH (s + 1) Hr). pose proof (drv_rep_len _ _ _ _ s Hr). lia.
Qed.

Lemma cache_step_ok cx nblk v (w : W) o : drv_is_cached = true -> 0 < blk_size (sp_blk cx) ->
  drv_rep cx nblk v w -> op_in_range (blk_size (sp_blk cx)) nblk o -> op_ticks o < drv_left w -> exists w',
  cache_step cx o w = (w', Ok (snd (ref_step (blk_size (sp_blk cx)) o v))) /\
  drv_rep cx nblk (fst (ref_step (blk_size (sp_blk cx)) o v)) w' /\ same_frame w w' /\
  drv_left w - op_ticks o <= drv_left w'.
Proof.
  intros Hc Hnb Hr Ho Ht.
  destruct o as [n s|buf n s|b off patch|]; simpl in *; destruct_and?.
  - destruct (drv_read_ok cx nblk v w (zeros (n * blk_size (sp_blk cx))) n s Hr) as (w' & E & H');
      rewrite ?length_zeros; try nia; try done.
    exists w'. split; [|done]. rewrite (M_bind_ok _ _ _ _ _ E). rewrite bsplice_0_all; [done|].
    pose proof (blocks_at_len cx nblk v w (Z.to_nat n) s Hr). rewrite length_zeros. lia.
  - destruct (drv_write_ok cx nblk v w buf n s Hr) as (w' & E & H'); try done.
    exists w'. split; [|done]. by rewrite (M_bind_ok _ _ _ _ _ E).
  - destruct (drv_modify_ok cx nblk v w b off patch Hc Hr) as (w' & E & H'); try done.
    exists w'. split; [|done]. by rewrite (M_bind_ok _ _ _ _ _ E).
  - destruct (drv_flush_ok cx nblk v w Hr) as (w' & E & R & F & T).
    exists w'. rewrite (M_bind_ok _ _ _ _ _ E). split_and!; try done. lia.
Qed.

Lemma op_ticks_nonneg nb nblk os : Forall (op_in_range nb nblk) os -> 0 <= run_ticks os.
Proof. induction 1 as [|o os Ho _ IH]; [done|]. destruct o; simpl in *; lia. Qed.

Lemma cache_run_ok cx nblk os : drv_is_cached = true -> 0 < blk_size (sp_blk cx) -> forall v (w : W),
  drv_rep cx nblk v w -> Forall (op_in_range (blk_size (sp_blk cx)) nblk) os ->
  run_ticks os < drv_left w -> exists w',
  cache_run cx os w = (w', Ok (snd (ref_run (blk_size (sp_blk cx)) os v))) /\
  drv_rep cx nblk (fst (ref_run (blk_size (sp_blk cx)) os v)) w' /\ same_frame w w'.
Proof.
  intros Hc Hnb. induction os as [|o os IH]; intros v w Hr Hos Ht; [by exists w|].
  apply Forall_cons in Hos as [Ho Hos]. cbn [cache_run ref_run]. simpl in Ht.
  pose proof (op_ticks_nonneg _ _ _ Hos).
  destruct (cache_step_ok cx nblk v w o Hc Hnb Hr Ho) as (w1 & E1 & R1 & F1 & T1); [lia|].
  destruct (ref_step (blk_size (sp_blk cx)) o v) as [v1 x]; simpl in *.
  destruct (IH v1 w1 R1 Hos) as (w2 & E2 & R2 & F2); [lia|].
  destruct (ref_run (blk_size (sp_blk cx)) os v1) as [v2 xs]; simpl in *.
  exists w2. rewrite (M_bind_ok _ _ _ _ _ E1), (M_bind_ok _ _ _ _ _ E2).
  split_and!; try done. by eapply same_frame_trans.
Qed.

End run.

Section cacheprops.
Context {P : Type} `{!Platform P} `{!PlatformSpec P}.
Abbreviation W := (world P bcache).

(** ** Invalidation and bypass *)

Lemma invalidate_uncached cx nblk v (w w' : W) b :
  cache_rep cx nblk v w -> mofs_bcache_invalidate b w = (w', Ok tt) -> uncached (pool_of w') b.
Proof.
  intros Hr. unfold mofs_bcache_invalidate. erewrite M_bind_ok by reflexivity. rewrite (cr_ready _ _ _ _ Hr). cbn [negb].
  erewrite M_bind_ok by reflexivity. fold (pool_of w). destruct (bcache_find (pool_of w) b) as [i|] eqn:Hf.
  - destruct (hit_entry _ _ _ _ _ _ Hr Hf) as (e & He & _ & Hv & Hbe & _).
    rewrite upd_entry_eq. intros [= <-]. rewrite pool_of_with_pool. intros j f Hj Hvf Hbf.
    destruct (decide (j = i)) as [->|Hne].
    + rewrite list_lookup_alter_eq, He in Hj. injection Hj as <-. done.
    + rewrite list_lookup_alter_ne in Hj by done. apply Hne.
      eapply (po_uniq _ _ _ _ _ _ (cr_pool _ _ _ _ Hr)); [exact Hj|exact He|done|done|congruence].
  - intros [= <-]. by apply bcache_find_None.
Qed.

Lemma read_not_ready (w : W) fd buf n s : bcache_ready (w_cache w) = false ->
  mofs_bcache_read_blocks fd buf n s w = read_continuous_blocks_raw fd buf n s w.
Proof.
  intros H. unfold mofs_bcache_read_blocks, read_continuous_blocks_raw, gets. repeat erewrite M_bind_ok by reflexivity.
  destruct (fd <? 0); [done|]. destruct (mofs_io_blk_sz w =? 0) eqn:Hz; [done|].
  erewrite M_bind_ok by reflexivity. rewrite H. cbn [negb].
  erewrite M_bind_ok by reflexivity. by rewrite Hz.
Qed.

Lemma write_not_ready (w : W) fd buf n s : bcache_ready (w_cache w) = false ->
  mofs_bcache_write_blocks fd buf n s w = write_continuous_blocks_raw fd buf n s w.
Proof.
  intros H. unfold mofs_bcache_write_blocks, write_continuous_blocks_raw, gets. repeat erewrite M_bind_ok by reflexivity.
  destruct (fd <? 0); [done|]. destruct (mofs_io_blk_sz w =? 0) eqn:Hz; [done|].
  erewrite M_bind_ok by reflexivity. rewrite H. cbn [negb].
  erewrite M_bind_ok by reflexivity. by rewrite Hz.
Qed.

(** ** The properties *)

(** C3: cache coherence. Run any sequence of in-range reads, writes, partial
    updates and flushes through the cache, whatever the number of slots and
    whatever they hold: every read returns what a plain array of blocks would
    return, no operation fails, and after a final flush the device holds
    exactly the array. (The bound says that the 64-bit LRU clock does not run
    out.) *)
Theorem cache_trace_refines cx nblk v (w : W) os :
  cache_rep cx nblk v w -> Forall (op_in_range (blk_size (sp_blk cx)) nblk) os ->
  tick_of w + run_ticks os < MOFS_UINT64_MAX ->
  let '(v', outs) := ref_run (blk_size (sp_blk cx)) os v in
  exists w1 w2,
    cache_run cx os w = (w1, Ok outs) /\ cache_rep cx nblk v' w1 /\ same_frame w w1 /\
    mofs_bcache_flush w1 = (w2, Ok tt) /\ cache_rep cx nblk v' w2 /\
    forall b, 0 <= b < nblk -> dev_block w2 b = v' b.
Proof.
  intros Hr Hos Ht. pose proof (cr_nb _ _ _ _ Hr) as Hnb.
  assert (Hc : drv_is_cached (P := P) (C := bcache) = true) by done.
  destruct (cache_run_ok cx nblk os Hc ltac:(lia) v w Hr Hos) as (w1 & E1 & R1 & F1); [simpl; lia|].
  destruct (ref_run _ os v) as [v' outs]. destruct (bcache_flush_ok cx nblk v' w1 R1) as (w2 & E2 & R2 & F2 & T2 & D2 & _).
  by exists w1, w2.
Qed.

(** An invalidation forgets the cached copy of one block, pending changes
    included: afterwards the block reads as it is on the device and is in no
    slot, and every other block reads as before. *)
Theorem invalidate_drops_block cx nblk v (w : W) b :
  cache_rep cx nblk v w -> 0 <= b < nblk -> exists w',
  mofs_bcache_invalidate b w = (w', Ok tt) /\
  cache_rep cx nblk (upd v b (dev_block w b)) w' /\ same_frame w w' /\ uncached (pool_of w') b.
Proof.
  intros Hr Hb. destruct (bcache_invalidate_ok cx nblk v w b Hr Hb) as (w' & E & R & F & T).
  exists w'. split_and!; try done. exact (invalidate_uncached _ _ _ _ _ _ Hr E).
Qed.

(** Replacement. [bcache_get_victim] frees the first invalid slot, or,
    when all slots are valid, one with the smallest LRU tick; a dirty victim
    reaches the device first, so the logical contents of the disk do not
    change. *)
Theorem victim_is_lru cx nblk v (w : W) :
  cache_rep cx nblk v w -> exists w' i e,
  bcache_get_victim w = (w', Ok i) /\ is_victim (pool_of w) i /\
  pool_of w' !! i = Some e /\ valid e = false /\ cache_rep cx nblk v w' /\ same_frame w w'.
Proof.
  intros Hr. destruct (victim_ok cx nblk v w Hr) as (w' & i & e & E & R & F & Hi & Hv & Hvic & _).
  by exists w', i, e.
Qed.

(** While the cache is not ready the block calls are the raw device
    accesses, and an initialisation that succeeds makes a coherent, empty
    cache over the contents of the device. *)
Theorem cache_init_coherent cx nblk (w : W) :
  w_ctx w = cx -> dev_fd cx = p_fd -> 0 < blk_size (sp_blk cx) <= 65536 -> 0 <= nblk <= 2 ^ 32 ->
  p_ok (w_plat w) -> nblk * blk_size (sp_blk cx) <= blen (p_dev (w_plat w)) ->
  bcache_ready (w_cache w) = false -> pool_of w <> [] ->
  (forall fd buf n s, mofs_bcache_read_blocks fd buf n s w = read_continuous_blocks_raw fd buf n s w) /\
  (forall fd buf n s, mofs_bcache_write_blocks fd buf n s w = write_continuous_blocks_raw fd buf n s w) /\
  exists w', mofs_bcache_init w = (w', Ok tt) /\ cache_rep cx nblk (dev_block w) w' /\ same_frame w w'.
Proof.
  intros Hcx Hfd Hnb Hnblk Hok Hdev Hready Hslots.
  split; [|split].
  - intros fd buf n s. by apply read_not_ready.
  - intros fd buf n s. by apply write_not_ready.
  - destruct (bcache_init_ok cx nblk w) as (w' & E & R & F & _); try done. by exists w'.
Qed.

End cacheprops.

(** ** Instances on the example volume *)

Definition ex_ops : list cache_op :=
  [CWrite (replicate 512 (byte.of_Z 7)) 1 9; CModify 9 4 [byte.of_Z 1; byte.of_Z 2]; CRead 2 9; CWrite (zeros 1536) 3 10; CRead 1 9].

Lemma cache_trace_refines_witness :
  let '(v', outs) := ref_run 512 ex_ops ex_disk in
  exists w1 w2,
    cache_run ex_cx ex_ops ex_w = (w1, Ok outs) /\ cache_rep ex_cx 24 v' w1 /\ same_frame ex_w w1 /\
    mofs_bcache_flush w1 = (w2, Ok tt) /\ cache_rep ex_cx 24 v' w2 /\
    forall b, 0 <= b < 24 -> dev_block w2 b = v' b.
Proof.
  apply (cache_trace_refines ex_cx 24 ex_disk ex_w ex_ops ex_cache_rep).
  - repeat constructor; vm_compute; done.
  - vm_compute. done.
Defined.

Lemma invalidate_drops_block_witness : exists w',
  mofs_bcache_invalidate 9 ex_w = (w', Ok tt) /\
  cache_rep ex_cx 24 (upd ex_disk 9 (dev_block ex_w 9)) w' /\ same_frame ex_w w' /\ uncached (pool_of w') 9.
Proof. apply (invalidate_drops_block ex_cx 24 ex_disk ex_w 9 ex_cache_rep). lia. Defined.

Lemma victim_is_lru_witness : exists w' i e,
  bcache_get_victim ex_w = (w', Ok i) /\ is_victim (pool_of ex_w) i /\
  pool_of w' !! i = Some e /\ valid e = false /\ cache_rep ex_cx 24 ex_disk w' /\ same_frame ex_w w'.
Proof. apply (victim_is_lru ex_cx 24 ex_disk ex_w ex_cache_rep). Defined.

Lemma cache_init_coherent_witness :
  let w := ex_mounted (bcache_start 2) in
  (forall fd buf n s, mofs_bcache_read_blocks fd buf n s w = read_continuous_blocks_raw fd buf n s w) /\
  (forall fd buf n s, mofs_bcache_write_blocks fd buf n s w = write_continuous_blocks_raw fd buf n s w) /\
  exists w', mofs_bcache_init w = (w', Ok tt) /\ cache_rep ex_cx 24 (dev_block w) w' /\ same_frame w w'.
Proof. apply (cache_init_coherent ex_cx 24 (ex_mounted (bcache_start 2))); try done; vm_compute; done. Defined.
