(* ===== verification/SplitProps.v ===== *)
(** * Properties of the split block cache

    The two pools of [mofs_buffer_split.c] against the same reference as the
    unified cache, an array of blocks, and against the unified cache itself. *)

From Stdlib Require Import ZArith Lia.
From stdpp Require Import base list.
From S2P Require Import Prelude Types Platform Raw Buffer BufferSpec Ops Split SplitSpec Ramdisk Example CacheProps.

Section splitprops.
Context {P : Type} `{!Platform P} `{!PlatformSpec P}.
Abbreviation W := (world P scache).

(** ** The properties *)

(** C23: the split cache is coherent. Run any sequence of in-range reads,
    writes, partial updates and flushes through the two pools: every read
    returns what a plain array of blocks would return, no operation fails, and
    after a final flush the device holds exactly the array. (The bound says
    that neither of the two 64-bit LRU clocks runs out.) *)
Theorem split_trace_refines cx nblk v (w : W) os :
  split_rep cx nblk v w -> Forall (op_in_range (blk_size (sp_blk cx)) nblk) os ->
  Z.max (meta_tick (w_cache w)) (data_tick (w_cache w)) + run_ticks os < MOFS_UINT64_MAX ->
  let '(v', outs) := ref_run (blk_size (sp_blk cx)) os v in
  exists w1 w2,
    cache_run cx os w = (w1, Ok outs) /\ split_rep cx nblk v' w1 /\ same_frame w w1 /\
    split_bcache_flush w1 = (w2, Ok tt) /\ split_rep cx nblk v' w2 /\
    forall b, 0 <= b < nblk -> dev_block w2 b = v' b.
Proof.
  intros Hr Hos Ht. pose proof (cr_nb _ _ _ _ (sr_side _ _ _ _ Hr true)) as Hnb.
  assert (Hc : drv_is_cached (P := P) (C := scache) = true) by done.
  destruct (cache_run_ok cx nblk os Hc ltac:(lia) v w Hr Hos) as (w1 & E1 & R1 & F1); [cbn; unfold split_left; lia|].
  destruct (ref_run _ os v) as [v' outs]. destruct (split_flush_ok cx nblk v' w1 R1) as (w2 & E2 & R2 & F2 & T2 & D2 & _).
  by exists w1, w2.
Qed.

(** C27: the two caches are interchangeable. Over the same contents of the
    volume the unified and the split cache, with any numbers of slots, answer
    every sequence of in-range operations alike, and once flushed they leave
    the same blocks on their devices. *)
Theorem caches_agree cx nblk v (wu : world P bcache) (ws : W) os :
  cache_rep cx nblk v wu -> split_rep cx nblk v ws -> Forall (op_in_range (blk_size (sp_blk cx)) nblk) os ->
  tick_of wu + run_ticks os < MOFS_UINT64_MAX ->
  Z.max (meta_tick (w_cache ws)) (data_tick (w_cache ws)) + run_ticks os < MOFS_UINT64_MAX ->
  exists outs wu1 ws1 wu2 ws2,
    cache_run cx os wu = (wu1, Ok outs) /\ cache_run cx os ws = (ws1, Ok outs) /\
    mofs_bcache_flush wu1 = (wu2, Ok tt) /\ split_bcache_flush ws1 = (ws2, Ok tt) /\
    forall b, 0 <= b < nblk -> dev_block wu2 b = dev_block ws2 b.
Proof.
  intros Hu Hs Hos Htu Hts. pose proof (cr_nb _ _ _ _ Hu) as Hnb.
  assert (Hcu : drv_is_cached (P := P) (C := bcache) = true) by done.
  assert (Hcs : drv_is_cached (P := P) (C := scache) = true) by done.
  destruct (cache_run_ok cx nblk os Hcu ltac:(lia) v wu Hu Hos) as (wu1 & Eu & Ru & _); [cbn; lia|].
  destruct (cache_run_ok cx nblk os Hcs ltac:(lia) v ws Hs Hos) as (ws1 & Es & Rs & _); [cbn; unfold split_left; lia|].
  destruct (bcache_flush_ok _ _ _ wu1 Ru) as (wu2 & Efu & _ & _ & _ & Du & _).
  destruct (split_flush_ok _ _ _ ws1 Rs) as (ws2 & Efs & _ & _ & _ & Ds & _).
  eexists _, wu1, ws1, wu2, ws2. split_and!; try done. intros b Hb. by rewrite Du, Ds.
Qed.

(** An initialisation of the split cache that finds it not ready makes two
    coherent, empty pools over the contents of the device. *)
Theorem split_init_coherent cx nblk (w : W) :
  w_ctx w = cx -> dev_fd cx = p_fd -> 0 < blk_size (sp_blk cx) <= 65536 -> 0 <= nblk <= 2 ^ 32 ->
  p_ok (w_plat w) -> nblk * blk_size (sp_blk cx) <= blen (p_dev (w_plat w)) ->
  split_ready (w_cache w) = false -> (forall m, sel_pool m (w_cache w) <> []) -> exists w',
  split_bcache_init w = (w', Ok tt) /\ split_rep cx nblk (dev_block w) w' /\ same_frame w w'.
Proof.
  intros Hcx Hfd Hnb Hnblk Hok Hdev Hready Hslots.
  destruct (split_init_ok cx nblk w) as (w' & E & R & F & _); try done. by exists w'.
Qed.

End splitprops.

(** ** Instances on the example volume *)

Definition ex_split : world ramdisk scache := ex_mounted (mkSplit [ex_slot] 0 [ex_slot] 0 true true).

Lemma ex_split_rep : split_rep ex_cx 24 ex_disk ex_split.
Proof.
  eapply split_rep_ext; [apply (split_rep_empty ex_cx 24 ex_split)|intros b _; reflexivity]; try done.
  intros []; (split_and!; [done|done|repeat constructor; done]).
Qed.

Lemma split_trace_refines_witness :
  let '(v', outs) := ref_run 512 ex_ops ex_disk in
  exists w1 w2,
    cache_run ex_cx ex_ops ex_split = (w1, Ok outs) /\ split_rep ex_cx 24 v' w1 /\ same_frame ex_split w1 /\
    split_bcache_flush w1 = (w2, Ok tt) /\ split_rep ex_cx 24 v' w2 /\
    forall b, 0 <= b < 24 -> dev_block w2 b = v' b.
Proof.
  apply (split_trace_refines ex_cx 24 ex_disk ex_split ex_ops ex_split_rep).
  - repeat constructor; vm_compute; done.
  - vm_compute. done.
Defined.

Lemma caches_agree_witness : exists outs wu1 ws1 wu2 ws2,
    cache_run ex_cx ex_ops ex_w = (wu1, Ok outs) /\ cache_run ex_cx ex_ops ex_split = (ws1, Ok outs) /\
    mofs_bcache_flush wu1 = (wu2, Ok tt) /\ split_bcache_flush ws1 = (ws2, Ok tt) /\
    forall b, 0 <= b < 24 -> dev_block wu2 b = dev_block ws2 b.
Proof.
  apply (caches_agree ex_cx 24 ex_disk ex_w ex_split ex_ops ex_cache_rep ex_split_rep).
  - repeat constructor; vm_compute; done.
  - vm_compute. done.
  - vm_compute. done.
Defined.

Lemma split_init_coherent_witness : exists w',
  split_bcache_init (ex_mounted (split_start 1 2)) = (w', Ok tt) /\
  split_rep ex_cx 24 (dev_block (ex_mounted (split_start 1 2))) w' /\ same_frame (ex_mounted (split_start 1 2)) w'.
Proof.
  apply (split_init_coherent ex_cx 24 (ex_mounted (split_start 1 2))); try done; try (vm_compute; done).
  by intros [].
Defined.
