(* ===== verification/VolumeProps.v ===== *)
(** * Properties of the volume layer

    What the bitmap, inode and block-list operations of [mofs_inode.c] and
    [mofs_block.c] do when they are run by [interp] on a mounted volume, with
    either block driver.  In every statement [rep cx nblk w a] says that the
    world [w] implements the logical disk [a_disk a], and
    [run_cost p w < drv_left w] that the LRU clock (64 bits) does not run out
    during the call. *)

From Stdlib Require Import ZArith Lia.
From stdpp Require Import base list list_numbers.
From S2P Require Import Prelude Types Platform Raw Buffer BufferSpec Ops Bitmap Inode Block Volume BlockSpec AllocSpec FreeSpec InodeSpec VolInv Format Ramdisk Example.

Section volumeprops.
Context {P C : Type} `{!Platform P} `{!PlatformSpec P} `{!BlockDriver P C} `{!DriverSpec P C}.
Context (cx : mofs_ctx_t) (nblk : Z).
Abbreviation W := (world P C).
Abbreviation sb := (sp_blk cx).
Abbreviation drs := (data_region_start (sp_blk cx)).
Abbreviation in_data i := (0 <= i < data_blk_num (sp_blk cx)).
Abbreviation is_inode n := (0 <= n < inode_num (sp_blk cx)).
Abbreviation cap := (list_ptrs_cap cx).
Abbreviation bs := (blk_size (sp_blk cx)).
Abbreviation rep := (rep cx nblk).

(** The numbers of an inode with their offsets and widths in the 64 bytes of
    [mofs_inode_t] on disk; the 16 bytes from 48 on are its reserved words. *)
Definition inode_fields (i : mofs_inode_t) : list (Z * Z * Z) :=
  [(0, 4, i_size i); (4, 2, i_links i); (6, 2, i_mode i); (8, 4, i_uid i); (12, 4, i_gid i); (16, 4, i_data_head i);
   (20, 4, i_nr_blocks i); (24, 8, i_atime i); (32, 8, i_mtime i); (40, 8, i_ctime i)].

(** Block [b] holds the record [i] from byte [at_] on, little-endian. *)
Definition holds_record (b : list byte) (at_ : Z) (i : mofs_inode_t) : Prop :=
  Forall (fun '(off, len, v) => get_le len (at_ + off) b = v) (inode_fields i) /\ bslice (at_ + 48) 16 b = i_reserved i.

Lemma decoded_record b at_ : 0 <= at_ -> holds_record b at_ (decode_inode (bslice at_ 64 b)).
Proof.
  intros H. unfold holds_record, inode_fields, decode_inode, get_le.
  cbn [i_size i_links i_mode i_uid i_gid i_data_head i_nr_blocks i_atime i_mtime i_ctime i_reserved].
  split; [|rewrite bslice_bslice by lia; done].
  repeat constructor; rewrite bslice_bslice by lia; done.
Qed.

(** C28: an inode on disk. [mofs_write_inode] puts every field of the record
    little-endian at its offset in the 64 bytes of inode [n] of the table,
    that is at byte [64 * n mod bs] of block [64 * n / bs] of the table; every
    other inode keeps its value and no block outside the table changes, and
    [mofs_read_inode] then returns what was written. *)
Theorem write_inode_stores_record (w : W) a n i :
  let p := mofs_write_inode cx n i in
  vol_ok cx nblk -> rep w a -> run_cost p w < drv_left w -> is_inode n -> inode_fits i ->
  exists w' d', interp p w = (w', Ok tt) /\ rep w' (set_disk d' a) /\
    holds_record (d' (inode_table_start sb + n * 64 / bs)) ((n * 64) mod bs) i /\
    (forall m, is_inode m -> m <> n -> inode_at cx d' m = inode_at cx (a_disk a) m) /\
    (forall b, ~ (inode_table_start sb <= b < drs) -> d' b = a_disk a b) /\
    (forall m, is_inode m -> run_cost (mofs_read_inode cx m) w' < drv_left w' ->
       exists w'', interp (mofs_read_inode cx m) w' = (w'', Ok (if m =? n then i else inode_at cx (a_disk a) m))).
Proof.
  intros p Hvol Hr Hl Hn Hi. pose proof (rep_disk_ok cx nblk _ _ Hr) as Hd.
  destruct (run_wp_disk cx nblk p (Ok tt) (fun d' => d' = put_inode cx (a_disk a) n i) w a Hr Hl) as (w' & d' & E & R & ->).
  { apply (wp_write_inode cx nblk Hvol); [done|done|apply Hi|]. split; [done|]. by eexists. }
  assert (Hat : forall m, is_inode m -> inode_at cx (put_inode cx (a_disk a) n i) m = if m =? n then i else inode_at cx (a_disk a) m)
    by (intros m Hm; by apply (inode_at_put cx nblk Hvol)).
  exists w', (put_inode cx (a_disk a) n i). split_and!; try done.
  - pose proof (Hat n Hn) as Hn'. rewrite Z.eqb_refl in Hn'. rewrite <- Hn' at 2.
    apply decoded_record, Z.mod_pos_bound. pose proof (bs_range cx nblk Hvol). lia.
  - intros m Hm Hne. rewrite Hat by done. by destruct (Z.eqb_spec m n).
  - intros b Hb. apply upd_ne. pose proof (tbl_blk_range cx nblk Hvol n Hn). lia.
  - intros m Hm Hl'. destruct (run_wp cx nblk (mofs_read_inode cx m) (fun r _ => r = Ok (inode_at cx (put_inode cx (a_disk a) n i) m)) w' _ R Hl')
      as (w'' & ? & a'' & E' & -> & _); [|exists w''; by rewrite E', Hat].
    apply (wp_read_inode cx nblk Hvol); [by apply (rep_disk_ok cx nblk w' _ R)|done|done].
Qed.

(** The scan of the data bitmap is exact: it returns the [need] lowest free
    blocks, in increasing order and without duplicates, and fails with
    [MOFS_ENOSPC] only when fewer than [need] blocks are free. *)
Theorem find_free_data_exact (w : W) a need :
  let p := find_free_data_block_indices cx need in
  vol_ok cx nblk -> rep w a -> run_cost p w < drv_left w -> 0 <= need ->
  (forall i, i ∈ free_data cx (a_disk a) <-> in_data i /\ data_bit cx (a_disk a) i = false) /\
  StronglySorted Z.lt (free_data cx (a_disk a)) /\
  exists w', rep w' a /\
    interp p w = (w', if blen (free_data cx (a_disk a)) <? need then Err MOFS_ENOSPC
                      else Ok (take (Z.to_nat need) (free_data cx (a_disk a)))).
Proof.
  intros p Hvol Hr Hl Hn. pose proof (rep_disk_ok cx nblk _ _ Hr) as Hd.
  split; [intros i; apply elem_of_free_data|]. split; [apply allocatable_sorted|].
  destruct (run_wp cx nblk p (fun r a' => a' = a /\ r = if blen (free_data cx (a_disk a)) <? need then Err MOFS_ENOSPC
    else Ok (take (Z.to_nat need) (free_data cx (a_disk a)))) w a Hr Hl) as (w' & r & a' & E & [-> ->] & R); [|by exists w'].
  apply (wp_find_free_data cx nblk Hvol); [done|done|..].
  - intros Hlt. by rewrite (proj2 (Z.ltb_lt _ _) Hlt).
  - intros Hge. by rewrite (proj2 (Z.ltb_ge _ _) Hge).
Qed.

(** The two readers of a block list agree: [export_data_block_list] returns
    the data blocks of the file in order, and [resolve_file_data_block] with
    index [i] returns the [i]-th of them, or [MOFS_EINVAL] beyond the end. *)
Theorem resolve_agrees_with_export (w : W) a n nodes ptrs i :
  let d := a_disk a in
  let p := export_data_block_list cx (inode_at cx d n) (blen ptrs) in
  let q := resolve_file_data_block cx n i in
  vol_ok cx nblk -> rep w a -> run_cost p w < drv_left w -> run_cost q w < drv_left w ->
  is_inode n -> file_map cx nblk d n nodes ptrs -> 0 <= i ->
  (exists w', interp p w = (w', Ok ptrs) /\ rep w' a) /\
  (exists w', interp q w = (w', match ptrs !! Z.to_nat i with Some b => Ok b | None => Err MOFS_EINVAL end) /\ rep w' a).
Proof.
  intros d p q Hvol Hr Hp Hq Hn Hfm Hi. pose proof (rep_disk_ok cx nblk _ _ Hr) as Hd. split.
  - destruct (run_wp cx nblk p (fun r a' => r = Ok ptrs /\ a' = a) w a Hr Hp) as (w' & ? & ? & E & [-> ->] & R); [|by exists w'].
    by apply (wp_export_file cx nblk Hvol n nodes).
  - destruct (run_wp cx nblk q (fun r a' => r = (match ptrs !! Z.to_nat i with Some b => Ok b | None => Err MOFS_EINVAL end) /\ a' = a) w a Hr Hq)
      as (w' & ? & ? & E & [-> ->] & R); [|by exists w'].
    destruct (ptrs !! Z.to_nat i) as [b|] eqn:Hb.
    + apply (wp_resolve cx nblk Hvol n nodes ptrs i b); try done; [by apply Hfm|by eapply fm_nodes_nodup|by apply Hfm].
    + apply (wp_resolve_beyond cx nblk Hvol n ptrs); try done. by apply Hfm.
Qed.

(** C12: growing a file. When enough blocks are free, [allocate_data_block]
    succeeds; the file keeps its blocks with their contents and gets exactly
    [req] new ones that were free before, only the block list of its inode
    changes, every other file keeps its inode and contents, and the volume has
    neither a doubly used nor a leaked block afterwards. *)
Theorem allocate_grows_file (w : W) a F n req :
  let d := a_disk a in
  let p := allocate_data_block cx n req in
  vol_ok cx nblk -> rep w a -> run_cost p w < drv_left w -> vol_files cx nblk d F -> is_inode n ->
  0 < req -> blen (F n).2 + req <= MOFS_MAX_FILE_DATA_BLOCKS ->
  req + ceil_div (blen (F n).2 + req) cap <= blen (free_data cx d) ->
  exists w' d' nodes new,
    interp p w = (w', Ok tt) /\ rep w' (set_disk d' a) /\ blen new = req /\
    vol_files cx nblk d' (set_file F n (nodes, (F n).2 ++ new)) /\
    (forall b, b ∈ new -> in_data (b - drs) /\ data_bit cx d (b - drs) = false) /\
    (forall b, b ∈ (F n).2 -> d' b = d b) /\
    inode_at cx d' n = set_i_map (i_data_head (inode_at cx d' n)) (blen (F n).2 + req) (inode_at cx d n) /\
    (forall m, is_inode m -> m <> n -> same_file cx d d' F m).
Proof.
  intros d p Hvol Hr Hl HF Hn Hreq Hmax Hspace. pose proof (rep_disk_ok cx nblk _ _ Hr) as Hd.
  destruct (run_wp_disk cx nblk p (Ok tt) (fun d' => exists nodes new, blen new = req /\ grown cx nblk d d' n (F n).1 (F n).2 nodes new) w a Hr Hl)
    as (w' & d' & E & R & nodes & new & Hnew & Hg).
  { apply (wp_allocate_grow cx nblk Hvol d n (F n).1 (F n).2 req); try done; [by apply HF|].
    intros d' nodes new Hnew Hg. split; [done|]. exists d'. split; [done|]. by exists nodes, new. }
  exists w', d', nodes, new. split_and!; try done.
  - by apply (grown_files cx nblk Hvol d).
  - intros b Hb. destruct (gr_fresh _ _ _ _ _ _ _ _ _ Hg b) as [Hbr Hf]; [elems|]. split; [destruct Hvol; lia|done].
  - intros b Hb. by eapply (grown_keeps cx nblk d d' F).
  - etransitivity; [apply (gr_inode _ _ _ _ _ _ _ _ _ Hg)|]. f_equal. rewrite length_app. lia.
  - intros m Hm Hne. by apply (grown_same cx nblk d d' F n nodes new m).
Qed.

(** C40: no space to grow. Growing a file on a volume that is too full fails with [MOFS_ENOSPC]
    and takes nothing: every file keeps its inode and contents and the bitmap
    still marks exactly the blocks of the files. *)
Theorem allocate_full_keeps_volume (w : W) a F n req :
  let d := a_disk a in
  let p := allocate_data_block cx n req in
  vol_ok cx nblk -> rep w a -> run_cost p w < drv_left w -> vol_files cx nblk d F -> is_inode n ->
  0 < req -> blen (F n).2 + req <= MOFS_MAX_FILE_DATA_BLOCKS ->
  blen (free_data cx d) < req + ceil_div (blen (F n).2 + req) cap ->
  exists w' d', interp p w = (w', Err MOFS_ENOSPC) /\ rep w' (set_disk d' a) /\
    vol_files cx nblk d' F /\ (forall m, is_inode m -> same_file cx d d' F m).
Proof.
  intros d p Hvol Hr Hl HF Hn Hreq Hmax Hspace. pose proof (rep_disk_ok cx nblk _ _ Hr) as Hd.
  destruct (run_wp_disk cx nblk p (Err MOFS_ENOSPC) (unchanged cx nblk d) w a Hr Hl) as (w' & d' & E & R & Hu).
  { apply (wp_allocate_full cx nblk Hvol n (F n).1 (F n).2 req); try done; [by apply HF|].
    intros d' Hu. split; [done|]. by exists d'. }
  exists w', d'. split_and!; try done.
  - by apply (unchanged_files cx nblk Hvol d).
  - intros m Hm. by apply (unchanged_same cx nblk Hvol).
Qed.

(** The size limit. A request that would give a file more than 1024 blocks
    is refused with [MOFS_ENOSPC] before anything is touched. *)
Theorem allocate_limit_refused (w : W) a n req :
  let p := allocate_data_block cx n req in
  vol_ok cx nblk -> rep w a -> run_cost p w < drv_left w -> is_inode n -> 0 < req ->
  MOFS_MAX_FILE_DATA_BLOCKS < i_nr_blocks (inode_at cx (a_disk a) n) + req < 2 ^ 32 ->
  exists w', interp p w = (w', Err MOFS_ENOSPC) /\ rep w' a.
Proof.
  intros p Hvol Hr Hl Hn Hreq Hmax. pose proof (rep_disk_ok cx nblk _ _ Hr) as Hd.
  destruct (run_wp cx nblk p (fun r a' => r = Err MOFS_ENOSPC /\ a' = a) w a Hr Hl) as (w' & ? & ? & E & [-> ->] & R); [|by exists w'].
  by apply (wp_allocate_limit cx nblk Hvol).
Qed.


End volumeprops.

(** ** Instances on the example volume *)

Ltac run := vm_compute; repeat split; try discriminate; try reflexivity.

Lemma write_inode_stores_record_witness :
  exists w' d', interp (mofs_write_inode ex_cx 3 (root_inode 512 9 77)) ex_w = (w', Ok tt) /\
    get_le 2 (192 + 4) (d' (inode_table_start ex_sb)) = 2 /\ get_le 8 (192 + 40) (d' (inode_table_start ex_sb)) = 77 /\
    inode_at ex_cx d' 2 = inode_at ex_cx ex_disk 2.
Proof.
  destruct (write_inode_stores_record ex_cx 24 ex_w ex_a 3 (root_inode 512 9 77) ex_vol ex_rep) as (w' & d' & E & _ & [H _] & Ho & _);
    [run|run|split; run|].
  exists w', d'. split; [exact E|]. change (inode_table_start ex_sb) with (inode_table_start (sp_blk ex_cx) + 3 * 64 / io_blk_sz ex_cx).
  unfold inode_fields in H. rewrite !Forall_cons in H. destruct_and! H.
  split_and!; [assumption|assumption|apply (Ho 2); run].
Defined.

Lemma find_free_data_exact_witness :
  exists w', interp (find_free_data_block_indices ex_cx 3) ex_w = (w', Ok [2; 3; 4]).
Proof.
  destruct (find_free_data_exact ex_cx 24 ex_w ex_a 3 ex_vol ex_rep) as (_ & _ & w' & _ & E); [run|lia|].
  exists w'. exact E.
Defined.

Lemma resolve_agrees_with_export_witness :
  (exists w', interp (export_data_block_list ex_cx (inode_at ex_cx ex_disk 2) 1) ex_w = (w', Ok [4])) /\
  (exists w', interp (resolve_file_data_block ex_cx 2 0) ex_w = (w', Ok 4)).
Proof.
  destruct (resolve_agrees_with_export ex_cx 24 ex_w ex_a 2 [5] [4] 0 ex_vol ex_rep) as [(w' & E & _) (w'' & E' & _)];
    [run|run|run|apply ex_root_map|lia|].
  split; [exists w'; exact E|exists w''; exact E'].
Defined.

Lemma allocate_grows_file_witness :
  exists w' d' nodes new, interp (allocate_data_block ex_cx 3 2) ex_w = (w', Ok tt) /\ blen new = 2 /\
    vol_files ex_cx 24 d' (set_file ex_files 3 (nodes, new)).
Proof.
  destruct (allocate_grows_file ex_cx 24 ex_w ex_a ex_files 3 2 ex_vol ex_rep) as (w' & d' & nodes & new & E & _ & Hl & HF & _);
    [run|apply ex_vol_files|run|lia|run|run|].
  exists w', d', nodes, new. exact (conj E (conj Hl HF)).
Defined.

Lemma allocate_full_keeps_volume_witness :
  exists w' d', interp (allocate_data_block ex_cx 3 18) ex_w = (w', Err MOFS_ENOSPC) /\ vol_files ex_cx 24 d' ex_files.
Proof.
  destruct (allocate_full_keeps_volume ex_cx 24 ex_w ex_a ex_files 3 18 ex_vol ex_rep) as (w' & d' & E & _ & HF & _);
    [run|apply ex_vol_files|run|lia|run|run|].
  exists w', d'. exact (conj E HF).
Defined.

Lemma allocate_limit_refused_witness :
  exists w', interp (allocate_data_block ex_cx 2 1024) ex_w = (w', Err MOFS_ENOSPC) /\ rep ex_cx 24 w' ex_a.
Proof. apply (allocate_limit_refused ex_cx 24 ex_w ex_a 2 1024 ex_vol ex_rep); run. Defined.

