(* ===== verification/FileProps.v ===== *)
(** * Properties of file reading and writing

    [mofs_read_core] and [mofs_write_core] run on a mounted volume, with
    either block driver. *)

From Stdlib Require Import ZArith Lia.
From stdpp Require Import base list list_numbers.
From S2P Require Import Prelude Types Platform Raw Buffer BufferSpec Ops Bitmap Inode Block FileData Perm Dirent Path File Volume BlockSpec AllocSpec FreeSpec InodeSpec VolInv FileSpec FileInv PermSpec RwSpec WriteSpec DirSpec PathSpec EntrySpec TreeSpec NameSpec FsSpec Format Ramdisk Example ExampleFile VolumeProps.

Section fileprops.
Context {P C : Type} `{!Platform P} `{!PlatformSpec P} `{!BlockDriver P C} `{!DriverSpec P C}.
Context (cx : mofs_ctx_t) (nblk : Z).
Abbreviation W := (world P C).
Abbreviation bs := (blk_size (sp_blk cx)).
Abbreviation is_inode n := (0 <= n < inode_num (sp_blk cx)).
Abbreviation rep := (rep cx nblk).

(** C24: reading. On a handle opened for reading, [mofs_read_core] returns
    exactly the bytes of the file from [offset] on, [size] of them or as many
    as there are before the end of the file (none at or beyond it); nothing
    but the access time of the file changes, and the handle moves to the end
    of what was read. On a file in use, the whole file system stays in order. *)
Theorem read_returns_file_bytes (w : W) a h f nodes ptrs size offset u :
  let d := a_disk a in
  let n := fh_inode_num f in
  let out := bslice offset size (file_bytes d ptrs (i_size (inode_at cx d n))) in
  let p := mofs_read_core cx (Some h) size offset u in
  vol_ok cx nblk -> rep w a -> run_cost p w < drv_left w ->
  open_on cx nblk a h f (open_flags f) nodes ptrs -> has_flag (open_flags f) MOFS_OFLAG_RDONLY = true ->
  0 <= offset < 2 ^ 32 -> 0 < size -> size + 2 * bs <= 2 ^ 32 ->
  exists w' t, interp p w = (w', Ok out) /\
    rep w' (set_disk (read_disk cx d n t out) (move_if u h (offset + blen out) a)) /\
    (forall F, fs_ok cx nblk d F -> inode_bit cx d n = true -> fs_ok cx nblk (read_disk cx d n t out) F).
Proof.
  intros d n out p Hvol Hr Hl Hoo Hfl Hoff Hsz Hbig. pose proof (rep_disk_ok cx nblk _ _ Hr) as Hd.
  destruct (run_wp cx nblk p (fun r a' => r = Ok out /\ exists t, 0 <= t < 2 ^ 64 /\ a' = set_disk (read_disk cx d n t out) (move_if u h (offset + blen out) a)) w a Hr Hl)
    as (w' & ? & ? & E & (-> & t & Ht & ->) & R).
  - apply (wp_read_core cx nblk Hvol h f nodes ptrs); try done. intros t Ht. split; [done|]. by exists t.
  - exists w', t. split; [exact E|]. split; [exact R|]. intros F Hfs Hb. destruct Hoo. by apply read_disk_fs.
Qed.

Lemma write_len_range a h f F offset data :
  write_pre cx nblk a h f F offset data -> 0 < write_len cx offset data <= blen data /\ offset + write_len cx offset data <= 1024 * bs.
Proof. intros []. unfold write_len. unfold mofs_max_file_bytes, MOFS_MAX_FILE_DATA_BLOCKS in *. lia. Qed.

(** A write puts at least one byte into the file, so that it has a block. *)
Lemma write_pre_fs a h f F offset data d' nodes new dat :
  let d := a_disk a in
  let n := fh_inode_num f in
  vol_ok cx nblk -> write_pre cx nblk a h f F offset data -> file_written cx nblk d d' F n nodes new offset dat -> 0 < blen dat ->
  fs_ok cx nblk d F -> inode_bit cx d n = true -> fs_ok cx nblk d' (set_file F n (nodes, (F n).2 ++ new)).
Proof.
  intros d n Hvol Hpre Hfw Hdat Hfs Hb. pose proof (wp_open _ _ _ _ _ _ _ _ Hpre) as []. pose proof (wp_off _ _ _ _ _ _ _ _ Hpre) as Hoff.
  pose proof (bs_range cx nblk Hvol) as Hbs. eapply (file_written_fs cx nblk Hvol d d'); try done.
  rewrite (fw_compact _ _ _ _ _ _ _ _ _ _ Hfw). destruct (fw_inode _ _ _ _ _ _ _ _ _ _ Hfw) as (t & hd & ->). rewrite written_inode_size.
  pose proof (ceil_div_spec (Z.max (i_size (set_i_map hd (blen ((F n).2 ++ new)) (inode_at cx d n))) (offset + blen dat)) bs ltac:(lia)). nia.
Qed.

(** C1: writing. On a handle opened for writing, with the offset not beyond the
    block in which the file ends, [mofs_write_core] stores the data at the
    offset (all of it, or as much as the maximal file size allows) and returns
    how much: afterwards the bytes of the file are the old ones overlaid with
    the data, a gap before the offset reads as zeros, the size is the larger of
    the old size and the end of the write, every other file keeps its inode and
    contents, and no block is leaked or shared. On a file in use, the whole
    file system stays in order: the names still form the same tree. *)
Theorem write_stores_bytes (w : W) a h f F offset data u :
  let d := a_disk a in
  let n := fh_inode_num f in
  let c := blen (F n).2 in
  let len := write_len cx offset data in
  let e := extra_blks cx offset len c in
  let p := mofs_write_core cx (Some h) data offset u in
  vol_ok cx nblk -> rep w a -> run_cost p w < drv_left w -> write_pre cx nblk a h f F offset data ->
  e = 0 \/ e + ceil_div (c + e) (list_ptrs_cap cx) <= blen (free_data cx d) ->
  exists w' d' nodes new, interp p w = (w', Ok len) /\ blen new = e /\
    rep w' (move_if u h (offset + len) (set_disk d' a)) /\
    file_written cx nblk d d' F n nodes new offset (take (Z.to_nat len) data) /\
    (fs_ok cx nblk d F -> inode_bit cx d n = true -> fs_ok cx nblk d' (set_file F n (nodes, (F n).2 ++ new))).
Proof.
  intros d n c len e p Hvol Hr Hl Hpre Hroom.
  destruct (run_wp cx nblk p (fun r a' => r = Ok len /\ exists d' nodes new, blen new = e /\ a' = move_if u h (offset + len) (set_disk d' a) /\
    file_written cx nblk d d' F n nodes new offset (take (Z.to_nat len) data)) w a Hr Hl)
    as (w' & ? & ? & E & (-> & d' & nodes & new & Hnew & -> & Hfw) & R).
  - apply (wp_write_core cx nblk Hvol h f F); try done.
    intros d' nodes new Hnew Hfw. split; [done|]. by exists d', nodes, new.
  - exists w', d', nodes, new. split_and!; try done. intros Hfs Hb. eapply write_pre_fs; try done.
    pose proof (write_len_range a h f F offset data Hpre). rewrite length_take. subst len. lia.
Qed.

(** C25: a write that needs more blocks than are free fails with [MOFS_ENOSPC];
    the handle does not move and every file, the target included, keeps its
    inode and contents; on a file in use, the file system stays in order. *)
Theorem write_full_keeps_volume (w : W) a h f F offset data u :
  let d := a_disk a in
  let c := blen (F (fh_inode_num f)).2 in
  let e := extra_blks cx offset (write_len cx offset data) c in
  let p := mofs_write_core cx (Some h) data offset u in
  vol_ok cx nblk -> rep w a -> run_cost p w < drv_left w -> write_pre cx nblk a h f F offset data ->
  0 < e -> blen (free_data cx d) < e + ceil_div (c + e) (list_ptrs_cap cx) ->
  exists w' d', interp p w = (w', Err MOFS_ENOSPC) /\ rep w' (set_disk d' a) /\
    vol_files cx nblk d' F /\ (forall m, is_inode m -> same_file cx d d' F m) /\
    (fs_ok cx nblk d F -> inode_bit cx d (fh_inode_num f) = true -> fs_ok cx nblk d' F).
Proof.
  intros d c e p Hvol Hr Hl Hpre He Hfull.
  destruct (run_wp_disk cx nblk p (Err MOFS_ENOSPC) (unchanged cx nblk d) w a Hr Hl) as (w' & d' & E & R & Hu).
  { apply (wp_write_core_full cx nblk Hvol h f F); try done. intros d' Hu. split; [done|]. by exists d'. }
  pose proof (wp_vol _ _ _ _ _ _ _ _ Hpre) as HF. exists w', d'. split_and!; try done.
  - by apply (unchanged_files cx nblk Hvol d).
  - intros m Hm. by apply (unchanged_same cx nblk Hvol).
  - intros Hfs Hb. pose proof (wp_open _ _ _ _ _ _ _ _ Hpre) as []. by eapply unchanged_fs.
Qed.

(** *** Reading back *)

(** After a write the handle is open on the written file. *)
Lemma open_on_written a h f F d' nodes new offset dat off :
  let n := fh_inode_num f in
  vol_ok cx nblk -> open_on cx nblk a h f (open_flags f) (F n).1 (F n).2 -> file_written cx nblk (a_disk a) d' F n nodes new offset dat ->
  exists f', fh_inode_num f' = n /\ open_flags f' = open_flags f /\
    open_on cx nblk (move_if true h off (set_disk d' a)) h f' (open_flags f') nodes ((F n).2 ++ new).
Proof.
  intros n Hvol [Hp Hu Hin Hfm Hcov Huser Hperm Hreg] Hfw. pose proof (fw_inode _ _ _ _ _ _ _ _ _ _ Hfw) as (t & hd & Hi).
  exists (mkFile (fh_used f) (fh_inode_num f) (u32 off) (open_flags f)). split; [done|]. split; [done|].
  pose proof (vf_map _ _ _ _ (fw_files _ _ _ _ _ _ _ _ _ _ Hfw) n Hin) as Hm. rewrite set_file_eq in Hm.
  split; cbn [move_if a_files a_disk a_caller set_afiles set_disk fh_used fh_inode_num open_flags]; try done.
  - unfold move_handle. rewrite list_lookup_alter_eq, Hp. done.
  - unfold covers. rewrite (fw_compact _ _ _ _ _ _ _ _ _ _ Hfw). fold n. pose proof (bs_range cx nblk Hvol).
    pose proof (ceil_div_spec (i_size (inode_at cx d' n)) bs ltac:(lia)). lia.
  - fold n. rewrite Hi. unfold open_permission in *. fold n in Hperm. unfold written_inode. by destruct (_ <? _).
  - fold n. rewrite Hi. fold n in Hreg. unfold written_inode. by destruct (_ <? _).
Qed.

(** C2: what is written is read back. A write followed by a read of the same
    length at the same offset, through the same handle, returns the data. *)
Theorem read_after_write (w : W) a h f F offset data :
  let d := a_disk a in
  let n := fh_inode_num f in
  let c := blen (F n).2 in
  let len := write_len cx offset data in
  let e := extra_blks cx offset len c in
  let p := mofs_write_core cx (Some h) data offset true;; mofs_read_core cx (Some h) len offset true in
  vol_ok cx nblk -> rep w a -> run_cost p w < drv_left w -> write_pre cx nblk a h f F offset data ->
  has_flag (open_flags f) MOFS_OFLAG_RDONLY = true -> open_permission (open_flags f) (a_caller a) (inode_at cx d n) = Ok tt ->
  e = 0 \/ e + ceil_div (c + e) (list_ptrs_cap cx) <= blen (free_data cx d) ->
  exists w', interp p w = (w', Ok (take (Z.to_nat len) data)).
Proof.
  intros d n c len e p Hvol Hr Hl Hpre Hrd Hperm Hroom. pose proof (bs_range cx nblk Hvol) as Hbs.
  destruct (run_wp cx nblk p (fun r _ => r = Ok (take (Z.to_nat len) data)) w a Hr Hl) as (w' & ? & a' & E & -> & R); [|by exists w'].
  apply wp_bind, (wp_write_core cx nblk Hvol h f F); try done. intros d' nodes new Hnew Hfw. wp_simpl.
  pose proof (write_len_range a h f F offset data Hpre) as [Hlen Hend]. fold len in Hlen, Hend.
  assert (Hoo : open_on cx nblk a h f (open_flags f) (F n).1 (F n).2) by (destruct Hpre as [_ _ [] _ _ _ _ _]; by split).
  destruct (open_on_written a h f F d' nodes new offset _ (offset + len) Hvol Hoo Hfw) as (f' & Hn' & Hfl' & Hoo').
  pose proof (wp_off _ _ _ _ _ _ _ _ Hpre) as Hoff. unfold mofs_max_file_bytes, MOFS_MAX_FILE_DATA_BLOCKS in Hoff.
  pose proof (fw_ok _ _ _ _ _ _ _ _ _ _ Hfw) as Hd'. pose proof (fw_bytes _ _ _ _ _ _ _ _ _ _ Hfw) as Hb. fold n d in Hb. cbv zeta in Hb.
  apply (wp_read_core cx nblk Hvol h f' nodes ((F n).2 ++ new)); try done; try lia; [by rewrite Hfl'|].
  intros t Ht. cbn [move_if a_disk set_afiles set_disk]. rewrite Hn'. fold n. rewrite Hb.
  rewrite bslice_bsplice_ext; [done| |rewrite length_take; lia].
  destruct Hoo as [_ _ Hin Hfm Hcov _ _ _]. fold n d in Hin, Hfm, Hcov. unfold covers in Hcov.
  pose proof (content_len cx nblk Hvol d (F n).2 (wp_disk _ _ _ _ _ _ _ _ Hpre) (fm_range _ _ _ _ _ _ Hfm)) as Hcl.
  unfold file_bytes. rewrite length_app, length_take, length_zeros. lia.
Qed.

End fileprops.

(** ** Instances: the file of five bytes *)

Lemma read_returns_file_bytes_witness :
  exists w', interp (mofs_read_core ex_cx (Some 0%nat) 100 1 true) fx_w = (w', Ok (drop 1 hello)).
Proof.
  destruct (read_returns_file_bytes ex_cx 24 fx_w fx_a 0 fx_handle [7] [6] 100 1 true ex_vol fx_rep) as (w' & t & E & _ & _);
    [run|apply fx_open; reflexivity|reflexivity|lia|lia|run|].
  exists w'. exact E.
Defined.

Lemma write_stores_bytes_witness :
  exists w' d' nodes new, interp (mofs_write_core ex_cx (Some 0%nat) (zeros 600) 5 true) fx_w = (w', Ok 600) /\ blen new = 1 /\
    file_written ex_cx 24 fx_disk d' fx_files 3 nodes new 5 (zeros 600) /\ fs_ok ex_cx 24 d' (set_file fx_files 3 (nodes, [6] ++ new)).
Proof.
  destruct (write_stores_bytes ex_cx 24 fx_w fx_a 0 fx_handle fx_files 5 (zeros 600) true ex_vol fx_rep)
    as (w' & d' & nodes & new & E & Hn & _ & Hw & Hfs); [run|apply fx_write_pre; run|right; run|].
  exists w', d', nodes, new. exact (conj E (conj Hn (conj Hw (Hfs fx_fs_ok eq_refl)))).
Defined.

Lemma write_full_keeps_volume_witness :
  exists w' d', interp (mofs_write_core ex_cx (Some 0%nat) (zeros 8192) 5 true) fx_w = (w', Err MOFS_ENOSPC) /\
    vol_files ex_cx 24 d' fx_files /\ fs_ok ex_cx 24 d' fx_files.
Proof.
  destruct (write_full_keeps_volume ex_cx 24 fx_w fx_a 0 fx_handle fx_files 5 (zeros 8192) true ex_vol fx_rep)
    as (w' & d' & E & _ & HF & _ & Hfs); [run|apply fx_write_pre; run|run|run|].
  exists w', d'. exact (conj E (conj HF (Hfs fx_fs_ok eq_refl))).
Defined.

Lemma read_after_write_witness :
  exists w', interp (mofs_write_core ex_cx (Some 0%nat) hello 5 true;; mofs_read_core ex_cx (Some 0%nat) 5 5 true) fx_w = (w', Ok hello).
Proof.
  destruct (read_after_write ex_cx 24 fx_w fx_a 0 fx_handle fx_files 5 hello ex_vol fx_rep) as (w' & E);
    [run|apply fx_write_pre; run|reflexivity|reflexivity|left; run|].
  exists w'. exact E.
Defined.

(** ** Writing far beyond the end

    [write_pre] asks that the offset is not beyond the block in which the file
    ends.  Behind it the gap is not cleared: a file that held bytes of 255, was
    cut to 5 bytes and written at 1600 reads 255 at 600. *)
Example far_write_exposes_old_bytes :
  (interp (mofs_write_core ex_cx (Some 0%nat) (replicate 1600 (byte.of_Z 255)) 0 false;;
           mofs_truncate_core ex_cx 3 5;;
           mofs_write_core ex_cx (Some 0%nat) [byte.of_Z 1] 1600 false;;
           mofs_read_core ex_cx (Some 0%nat) 4 600 false) fx_w).2 = Ok (replicate 4 (byte.of_Z 255)).
Proof. vm_compute. reflexivity. Qed.
