(* ===== verification/DataProps.v ===== *)
(** * Properties of the data model and of the pure decisions

    Error numbers, path components, the permission decision, and the layout
    that formatting computes. *)

From Stdlib Require Import ZArith Lia.
From stdpp Require Import base list.
From S2P Require Import Prelude Types Platform Linux Raw Buffer BufferSpec Ops Bitmap Inode Block Volume BlockSpec AllocSpec VolInv Perm PermSpec Dirent Path FileData InodeSpec FileSpec FileInv DirSpec PathSpec EntrySpec TreeSpec FsSpec FormatSpec Format Core Posix VolumeProps Ramdisk Example.

(** ** Error numbers *)

(** Errors stay errors. Whatever the platform reports, [get_errno] gives a
    positive MOFS error number (never the 0 that means success), and passing a
    MOFS number through the platform's numbering returns it unchanged. *)
Theorem errno_translation_total :
  (forall e : errno_t, 0 < Linux.get_errno e /\ Linux.get_errno e ∈ mofs_errnos) /\
  Forall (fun e => Linux.os_to_mofs_errno (Linux.mofs_to_os_errno e) = e) mofs_errnos.
Proof.
  split; [|exact errno_translation_id]. intros e. split; [apply get_errno_pos|].
  apply list_elem_of_In. unfold Linux.get_errno, Linux.os_to_mofs_errno, mofs_errnos.
  repeat match goal with |- context [match ?x with _ => _ end] => destruct x; try (vm_compute; tauto) end.
Qed.

(** ** Path components *)

(** Path splitting. The components of ["/c1/c2/..."] are c1, c2, ...; and
    whatever the path, leading, doubled and trailing slashes included, every
    component is a non-empty run without a slash and the components together
    are the path without its slashes. *)
Theorem path_components_exact (cs : list cstr) (s : cstr) :
  Forall (fun c => c <> [] /\ slash ∉ c) cs ->
  strtok_slash (join_path cs) = cs /\
  Forall (fun c => c <> [] /\ slash ∉ c) (strtok_slash s) /\
  concat (strtok_slash s) = filter (fun b : byte => b <> slash) s.
Proof. intros Hcs. split; [by apply strtok_from_join|]. apply strtok_from_tokens, not_elem_of_nil. Qed.

Lemma path_components_exact_witness :
  let a := [byte.of_Z 97] in let b := [byte.of_Z 98; byte.of_Z 99] in
  strtok_slash (join_path [a; b]) = [a; b] /\ strtok_slash ([slash; slash] ++ a ++ [slash; slash] ++ b ++ [slash]) = [a; b].
Proof.
  intros a b. split; [|reflexivity]. apply (path_components_exact [a; b] []).
  repeat constructor; try done; apply (bool_decide_unpack _); vm_compute; done.
Defined.

(** ** Permissions *)

(** What the access-mode bits of [open] ask for: read, write, execute.  The
    combinations that are not one of the five modes are refused. *)
Definition access_request (flags : Z) : option (bool * bool * bool) :=
  match Z.land flags MOFS_OFLAG_ACCMODE with
  | 1 => Some (true, false, false)
  | 2 => Some (false, true, false)
  | 3 => Some (true, true, false)
  | 4 | 8 => Some (false, false, true)
  | _ => None
  end.

(** The decision a reader of the mode bits expects. *)
Definition access_granted (flags : Z) (u : mofs_user_ctx_t) (inode : mofs_inode_t) : res unit :=
  match access_request flags with
  | None => Err MOFS_EINVAL
  | Some (r, w, x) =>
      if implb r (may_read u inode) && implb w (may_write u inode) && implb x (may_exec u inode)
      then Ok tt else Err MOFS_EACCES
  end.

Lemma open_permission_access flags u inode : open_permission flags u inode = access_granted flags u inode.
Proof.
  unfold open_permission, access_granted, access_request. rewrite open_perm_flags_accmode.
  pose proof (perm_denied_spec u inode) as H. cbv zeta beta in H. destruct H as (H1 & H2 & H3 & H4 & H5).
  change MOFS_OFLAG_RDONLY with 1 in H1. change MOFS_OFLAG_WRONLY with 2 in H2. change MOFS_OFLAG_RDWR with 3 in H3.
  change MOFS_OFLAG_EXEC with 4 in H4. change MOFS_OFLAG_SEARCH with 8 in H5.
  change MOFS_OFLAG_ACCMODE with 15. destruct (access_mode_cases flags) as (k & Hk & ->).
  do 16 (destruct k as [|k]; [cbn [Z.of_nat Pos.of_succ_nat Pos.succ];
    match goal with |- res_bind (open_perm_flags ?f) _ = _ =>
      let v := eval vm_compute in (open_perm_flags f) in change (open_perm_flags f) with v end; cbn [res_bind implb];
    first [reflexivity
      |rewrite H1; by destruct (may_read u inode)|rewrite H2; by destruct (may_write u inode)
      |rewrite H3; by destruct (may_read u inode), (may_write u inode)
      |rewrite H4; by destruct (may_exec u inode)|rewrite H5; by destruct (may_exec u inode)] |]).
  lia.
Qed.

(** The permission check is exactly the mode bits. For the calling user,
    whatever the flags, the check grants access when the bits of the class that
    applies (owner, else group or supplementary group, else others) include
    everything the access mode asks for, answers [MOFS_EACCES] when they do
    not, and [MOFS_EINVAL] when the mode bits are none of the five access
    modes; writing to a directory needs both the write and the search bit. *)
Theorem permission_check_exact {P C} `{!Platform P} `{!PlatformSpec P} `{!BlockDriver P C} `{!DriverSpec P C}
    cx nblk (w : world P C) a flags inode :
  let u := a_caller a in
  rep cx nblk w a -> u_valid u = true ->
  run_cost (mofs_check_open_permission flags u inode) w < drv_left w ->
  run_cost (mofs_check_dir_write u inode) w < drv_left w ->
  (exists w', interp (mofs_check_open_permission flags u inode) w = (w', access_granted flags u inode) /\ rep cx nblk w' a) /\
  (exists w', interp (mofs_check_dir_write u inode) w =
     (w', if may_write u inode && may_exec u inode then Ok tt else Err MOFS_EACCES) /\ rep cx nblk w' a).
Proof.
  intros u Hr Hu Hl Hl2. split.
  - destruct (run_wp cx nblk _ (fun r a' => r = access_granted flags u inode /\ a' = a) w a Hr Hl) as (w' & ? & ? & E & [-> ->] & R);
      [|by exists w'].
    apply wp_check_open_permission; [done|]. split; [|done]. apply open_permission_access.
  - destruct (run_wp cx nblk _ (fun r a' => r = (if may_write u inode && may_exec u inode then Ok tt else Err MOFS_EACCES) /\ a' = a) w a Hr Hl2)
      as (w' & ? & ? & E & [-> ->] & R); [|by exists w'].
    unfold mofs_check_dir_write. apply wp_bind, wp_check_open_permission; [done|].
    rewrite open_permission_access. unfold access_granted. fold u.
    change (access_request MOFS_OFLAG_WRONLY) with (Some (false, true, false)). cbn [implb andb].
    destruct (may_write u inode) eqn:Ew; cbn [andb implb]; wp_simpl; [|done].
    apply wp_check_open_permission; [done|]. rewrite open_permission_access. unfold access_granted. fold u.
    change (access_request MOFS_OFLAG_SEARCH) with (Some (false, false, true)). cbn [implb andb]. by destruct (may_exec u inode).
Qed.

Lemma permission_check_exact_witness :
  exists w', interp (mofs_check_open_permission MOFS_OFLAG_RDWR ex_user (root_inode 512 4 1000)) ex_w = (w', Ok tt).
Proof.
  destruct (permission_check_exact ex_cx 24 ex_w ex_a MOFS_OFLAG_RDWR (root_inode 512 4 1000) ex_rep) as [(w' & E & _) _];
    [reflexivity|run|run|]. exists w'. exact E.
Defined.

(** ** The layout of a volume *)

(** C29: a formatted volume is well laid out. For every block size the format
    accepts and every device of up to 2^27 - 4 blocks that has room for the
    metadata, the superblock that [mofs_format] computes describes regions that
    follow one another without overlap inside the device, bitmaps with a bit
    for every inode and block, an inode table with room for every inode, and
    numbers that fit their fields; and mounting a device of that size accepts
    it. *)
Theorem format_layout_sound bb dev_size :
  let l := compute_layout dev_size bb in
  let sb := layout_superblock l bb in
  mofs_validate_logical_blk_size bb = 0 -> 0 <= dev_size <= (2 ^ 27 - 4) * bb ->
  meta_reserved l < l_hole_blk_num l ->
  (forall i p fd, vol_ok (mkCtx i p fd sb) (dev_size / bb)) /\ superblock_fits sb /\
  0 < data_blk_num sb /\ dev_size <= 4 * bb * inode_num sb /\ check_superblock sb dev_size = Ok tt.
Proof.
  intros l sb Hb Hd Hm. destruct (layout_sound bb dev_size Hb Hd Hm) as (Hv & Hf & Hn & Hi & _). split_and!; try done.
  unfold check_superblock. change (blk_size sb) with bb. pose proof (vo_hole _ _ (Hv true None 0)) as Hh. cbn [sp_blk] in Hh.
  fold l sb in Hh. by rewrite Hh, Z.eqb_refl.
Qed.

Lemma format_layout_sound_witness :
  vol_ok (mkCtx true None 3 (layout_superblock (compute_layout (8192 * 4096) 4096) 4096)) 8192.
Proof. apply (format_layout_sound 4096 (8192 * 4096)); [reflexivity|vm_compute; split; discriminate|reflexivity]. Defined.
