(* ===== verification/InodeProps.v ===== *)
(** * Properties of inode allocation

    Which inode [allocate_inode] hands out, what [free_inode] gives back, and
    that neither disturbs the files of the volume. *)

From Stdlib Require Import ZArith Lia.
From stdpp Require Import base list list_numbers.
From S2P Require Import Prelude Types Platform Raw Buffer BufferSpec Ops Bitmap Inode Block FileData Volume BlockSpec AllocSpec FreeSpec InodeSpec VolInv FileSpec FileInv Format Ramdisk Example VolumeProps.

Section inodeprops.
Context {P C : Type} `{!Platform P} `{!PlatformSpec P} `{!BlockDriver P C} `{!DriverSpec P C}.
Context (cx : mofs_ctx_t) (nblk : Z).
Abbreviation W := (world P C).
Abbreviation is_inode n := (0 <= n < inode_num (sp_blk cx)).
Abbreviation rep := (rep cx nblk).

(** [n] is the lowest inode above the reserved ones whose bit is clear. *)
Definition lowest_free (d : disk) (n : Z) : Prop :=
  3 <= n < inode_num (sp_blk cx) /\ inode_bit cx d n = false /\
  forall m, 3 <= m < n -> inode_bit cx d m = true.

Lemma free_inodes_head d n r : vol_ok cx nblk -> free_inodes cx d = n :: r -> lowest_free d n.
Proof.
  intros Hvol Hf. assert (Hn : n ∈ free_inodes cx d) by (rewrite Hf; left).
  apply (elem_of_free_inodes cx nblk Hvol) in Hn as [Hn Hb]. split_and!; try done; try lia.
  intros m Hm. destruct (inode_bit cx d m) eqn:Hbm; [done|]. exfalso.
  assert (Hin : m ∈ free_inodes cx d) by (apply (elem_of_free_inodes cx nblk Hvol); split; [lia|done]).
  pose proof (allocatable_sorted cx (inode_num (sp_blk cx)) 3 (inode_bitmap_start (sp_blk cx)) d (inode_num (sp_blk cx))) as Hs.
  fold (free_inodes cx d) in Hs. rewrite Hf in *. pose proof (StronglySorted_head n r m Hs Hin). lia.
Qed.

Lemma free_inodes_none d : vol_ok cx nblk -> free_inodes cx d = [] -> forall n, 3 <= n < inode_num (sp_blk cx) -> inode_bit cx d n = true.
Proof.
  intros Hvol Hf n Hn. destruct (inode_bit cx d n) eqn:Hb; [done|].
  assert (Hin : n ∈ free_inodes cx d) by (by apply (elem_of_free_inodes cx nblk Hvol)). rewrite Hf in Hin. by apply elem_of_nil in Hin.
Qed.

(** Inode allocation. [allocate_inode] returns the lowest free inode number
    (never one of the reserved 0, 1 and 2, never one in use), marks it and
    changes nothing else of the bitmap, of any inode or of any file; when
    every inode is in use it fails with [MOFS_ENOSPC] and changes nothing. *)
Theorem allocate_inode_lowest (w : W) a F :
  let d := a_disk a in
  vol_ok cx nblk -> rep w a -> run_cost (allocate_inode cx) w < drv_left w -> vol_files cx nblk d F ->
  (exists w' d' n, interp (allocate_inode cx) w = (w', Ok n) /\ rep w' (set_disk d' a) /\ lowest_free d n /\
     (forall m, is_inode m -> inode_bit cx d' m = if m =? n then true else inode_bit cx d m) /\
     vol_files cx nblk d' F /\ forall m, is_inode m -> same_file cx d d' F m) \/
  ((forall n, 3 <= n < inode_num (sp_blk cx) -> inode_bit cx d n = true) /\
   exists w', interp (allocate_inode cx) w = (w', Err MOFS_ENOSPC) /\ rep w' a).
Proof.
  intros d Hvol Hr Hl HF. pose proof (rep_disk_ok _ _ _ _ Hr) as Hd.
  destruct (free_inodes cx d) as [|n r] eqn:Hf.
  - right. split; [by apply free_inodes_none|].
    destruct (run_wp cx nblk (allocate_inode cx) (fun r a' => r = Err MOFS_ENOSPC /\ a' = a) w a Hr Hl) as (w' & ? & ? & E & [-> ->] & R); [|by exists w'].
    apply (wp_allocate_inode cx nblk Hvol); [done|done|]. intros i r. unfold d in Hf. congruence.
  - left. pose proof (free_inodes_head d n r Hvol Hf) as Hn. assert (Hi : is_inode n) by (destruct Hn; lia).
    destruct (run_wp_disk cx nblk (allocate_inode cx) (Ok n) (fun d' => d' = put_inode_bit cx d n true) w a Hr Hl) as (w' & d' & E & R & ->).
    { apply (wp_allocate_inode cx nblk Hvol); [done|unfold d in Hf; congruence|]. intros i r' Hf'. unfold d in Hf.
      assert (i = n) as -> by congruence. split; [done|]. by eexists. }
    exists w', (put_inode_bit cx d n true), n. split_and!; try done.
    + intros m Hm. apply (inode_bit_put cx nblk Hvol); [done|done|lia].
    + by apply (put_inode_bit_files cx nblk Hvol).
    + intros m Hm. by apply (put_inode_bit_same_file cx nblk Hvol).
Qed.

(** Inode release. Freeing an inode that owns no blocks clears its bit and
    its record, keeps every other bit, inode and file and the allocation
    invariant; allocated and freed again, an inode leaves the set of free
    inodes as it was. *)
Theorem free_inode_releases (w : W) a F n :
  let d := a_disk a in
  vol_ok cx nblk -> rep w a -> run_cost (free_inode cx n) w < drv_left w -> vol_files cx nblk d F ->
  3 <= n < inode_num (sp_blk cx) -> F n = ([], []) ->
  exists w' d', interp (free_inode cx n) w = (w', Ok tt) /\ rep w' (set_disk d' a) /\
    inode_at cx d' n = zero_inode /\
    (forall m, is_inode m -> inode_bit cx d' m = if m =? n then false else inode_bit cx d m) /\
    vol_files cx nblk d' F /\ (forall m, is_inode m -> m <> n -> same_file cx d d' F m) /\
    (forall d0, inode_bit cx d0 n = false ->
       (forall m, is_inode m -> inode_bit cx d m = if m =? n then true else inode_bit cx d0 m) ->
       forall m, m ∈ free_inodes cx d' <-> m ∈ free_inodes cx d0).
Proof.
  intros d Hvol Hr Hl HF Hn He. pose proof (rep_disk_ok _ _ _ _ Hr) as Hd. assert (Hi : is_inode n) by lia.
  assert (Hd1 : disk_ok cx nblk (put_inode_bit cx d n false)) by (by apply (disk_ok_put_inode_bit cx nblk Hvol)).
  assert (HF1 : vol_files cx nblk (put_inode_bit cx d n false) F) by (by apply (put_inode_bit_files cx nblk Hvol)).
  assert (Hbits : forall m, is_inode m -> inode_bit cx (put_inode cx (put_inode_bit cx d n false) n zero_inode) m =
                    if m =? n then false else inode_bit cx d m).
  { intros m Hm. unfold put_inode. rewrite (inode_bit_upd cx nblk Hvol) by (try done; pose proof (tbl_blk_range cx nblk Hvol n Hi); destruct Hvol; lia).
    apply (inode_bit_put cx nblk Hvol); [done|done|lia]. }
  destruct (run_wp_disk cx nblk (free_inode cx n) (Ok tt) (fun d' => d' = put_inode cx (put_inode_bit cx d n false) n zero_inode) w a Hr Hl)
    as (w' & d' & E & R & ->).
  { apply (wp_free_inode cx nblk Hvol); [done|done|]. split; [done|]. by eexists. }
  eexists w', _. split_and!; try done.
  - rewrite (inode_at_put cx nblk Hvol) by (try done; apply zero_inode_fits). by rewrite Z.eqb_refl.
  - by apply (clear_inode_files cx nblk Hvol).
  - intros m Hm Hne. eapply same_file_trans; [by apply (put_inode_bit_same_file cx nblk Hvol d n false)|].
    by apply (put_inode_same cx nblk Hvol).
  - intros d0 H0 Hd0 m. rewrite !(elem_of_free_inodes cx nblk Hvol). split; intros [Hm Hb]; (split; [done|]).
    + rewrite Hbits in Hb by lia. destruct (Z.eqb_spec m n) as [->|Hne]; [done|].
      rewrite Hd0, (proj2 (Z.eqb_neq m n)) in Hb by (try done; lia). done.
    + rewrite Hbits by lia. destruct (Z.eqb_spec m n) as [->|Hne]; [done|].
      rewrite Hd0, (proj2 (Z.eqb_neq m n)) by (try done; lia). done.
Qed.

End inodeprops.

(** ** Instances on the example volume *)

Lemma allocate_inode_lowest_witness :
  exists w' d', interp (allocate_inode ex_cx) ex_w = (w', Ok 3) /\ vol_files ex_cx 24 d' ex_files.
Proof.
  destruct (allocate_inode_lowest ex_cx 24 ex_w ex_a ex_files ex_vol ex_rep) as [(w' & d' & n & E & _ & Hn & _ & HF & _)|[Hall _]];
    [run|apply ex_vol_files|..].
  - exists w', d'. split; [|exact HF]. rewrite E. f_equal. destruct Hn as (Hn & _ & Hlow).
    destruct (Z.eq_dec n 3) as [->|Hne]; [reflexivity|]. exfalso.
    assert (Hf : inode_bit ex_cx ex_disk 3 = true) by (apply Hlow; lia). vm_compute in Hf. discriminate.
  - exfalso. assert (Hf : inode_bit ex_cx ex_disk 3 = true) by (apply Hall; vm_compute; split; [discriminate|reflexivity]). vm_compute in Hf. discriminate.
Defined.

Lemma free_inode_releases_witness :
  exists w' d', interp (free_inode ex_cx 3) ex_w = (w', Ok tt) /\ vol_files ex_cx 24 d' ex_files.
Proof.
  destruct (free_inode_releases ex_cx 24 ex_w ex_a ex_files 3 ex_vol ex_rep) as (w' & d' & E & _ & _ & _ & HF & _);
    [run|apply ex_vol_files|run|reflexivity|]. exists w', d'. exact (conj E HF).
Defined.
