(* ===== verification/TruncProps.v ===== *)
(** * Properties of truncation

    [mofs_truncate_core], run by [interp] on a mounted volume with either block
    driver. *)

From Stdlib Require Import ZArith Lia.
From stdpp Require Import base list list_numbers.
From S2P Require Import Prelude Types Platform Raw Buffer BufferSpec Ops Bitmap Inode Block FileData Perm Dirent Path File Volume BlockSpec AllocSpec FreeSpec InodeSpec VolInv FileSpec FileInv PermSpec RwSpec WriteSpec TruncSpec DirSpec PathSpec EntrySpec TreeSpec NameSpec FsSpec Format Ramdisk Example ExampleFile VolumeProps.

Section truncprops.
Context {P C : Type} `{!Platform P} `{!PlatformSpec P} `{!BlockDriver P C} `{!DriverSpec P C}.
Context (cx : mofs_ctx_t) (nblk : Z).
Abbreviation W := (world P C).
Abbreviation bs := (blk_size (sp_blk cx)).
Abbreviation is_inode n := (0 <= n < inode_num (sp_blk cx)).
Abbreviation rep := (rep cx nblk).

(** C22: truncation. A regular file that the caller may write is cut or extended
    to [len] bytes: afterwards its bytes are its first [len] old bytes followed
    by zeros, it owns exactly the blocks its new size needs (the first old ones,
    then [new]), every other file keeps its inode and contents, and no block is
    leaked or shared. On a file in use, the whole file system stays in order. *)
Theorem truncate_resizes_file (w : W) a F n len :
  let p := mofs_truncate_core cx n len in
  vol_ok cx nblk -> rep w a -> run_cost p w < drv_left w -> trunc_pre cx nblk a F n len ->
  len <> i_size (inode_at cx (a_disk a) n) -> trunc_room cx (a_disk a) F n len ->
  exists w' d' nodes new, interp p w = (w', Ok tt) /\ rep w' (set_disk d' a) /\
    blen new = Z.max 0 (ceil_div len bs - blen (F n).2) /\
    file_resized cx nblk (a_disk a) d' F n nodes (trunc_ptrs cx (F n).2 new len) len /\
    (fs_ok cx nblk (a_disk a) F -> inode_bit cx (a_disk a) n = true -> fs_ok cx nblk d' (set_file F n (nodes, trunc_ptrs cx (F n).2 new len))).
Proof.
  intros p Hvol Hr Hl Hpre Hne Hroom.
  destruct (run_wp_disk cx nblk p (Ok tt) (fun d' => exists nodes new, blen new = Z.max 0 (ceil_div len bs - blen (F n).2) /\
    file_resized cx nblk (a_disk a) d' F n nodes (trunc_ptrs cx (F n).2 new len) len) w a Hr Hl) as (w' & d' & E & R & nodes & new & Hn & Hf).
  { apply (wp_truncate cx nblk Hvol n len F); try done. intros d' nodes new Hn Hf. split; [done|]. exists d'. split; [done|]. by exists nodes, new. }
  exists w', d', nodes, new. split_and!; try done. intros Hfs Hb. destruct Hpre. by eapply file_resized_fs.
Qed.

(** C38: no space to extend. Extending a file on a volume that is too full fails with
    [MOFS_ENOSPC]; every file, the target included, keeps its size and
    contents, and no block stays allocated. *)
Theorem truncate_full_keeps_volume (w : W) a F n len :
  let p := mofs_truncate_core cx n len in
  let k := ceil_div len bs in
  vol_ok cx nblk -> rep w a -> run_cost p w < drv_left w -> trunc_pre cx nblk a F n len ->
  i_size (inode_at cx (a_disk a) n) < len -> blen (F n).2 < k ->
  blen (free_data cx (a_disk a)) < (k - blen (F n).2) + ceil_div k (list_ptrs_cap cx) ->
  exists w' d', interp p w = (w', Err MOFS_ENOSPC) /\ rep w' (set_disk d' a) /\
    vol_files cx nblk d' F /\ (forall m, is_inode m -> same_file cx (a_disk a) d' F m) /\
    (fs_ok cx nblk (a_disk a) F -> inode_bit cx (a_disk a) n = true -> fs_ok cx nblk d' F).
Proof.
  intros p k Hvol Hr Hl Hpre Hlt Hc Hfull.
  destruct (run_wp_disk cx nblk p (Err MOFS_ENOSPC) (unchanged cx nblk (a_disk a)) w a Hr Hl) as (w' & d' & E & R & Hu).
  { apply (wp_truncate_full cx nblk Hvol n len F); try done. intros d' Hu. split; [done|]. by exists d'. }
  pose proof (tp_vol _ _ _ _ _ _ Hpre) as HF. exists w', d'. split_and!; try done.
  - by apply (unchanged_files cx nblk Hvol (a_disk a)).
  - intros m Hm. by apply (unchanged_same cx nblk Hvol).
  - intros Hfs Hb. destruct Hpre. by eapply unchanged_fs.
Qed.

(** The error with which [mofs_truncate_core] refuses a call, if it does. *)
Definition truncate_refusal (a : astate) (n len : Z) : option Z :=
  let inode := inode_at cx (a_disk a) n in
  if (n <? 0) || (len <? 0) then Some MOFS_EINVAL
  else if 1024 * bs <? len then Some MOFS_EFBIG
  else if inode_num (sp_blk cx) <=? n then Some MOFS_EINVAL
  else if has_flag (i_mode inode) MOFS_FTYPE_DIR then Some MOFS_EISDIR
  else if negb (may_write (a_caller a) inode) then Some MOFS_EACCES
  else None.

Lemma wonly_permission u inode : open_permission MOFS_OFLAG_WRONLY u inode = if may_write u inode then Ok tt else Err MOFS_EACCES.
Proof.
  unfold open_permission. change (open_perm_flags MOFS_OFLAG_WRONLY) with (Ok MOFS_OFLAG_WRONLY). cbn [res_bind].
  pose proof (perm_denied_spec u inode) as H. cbv zeta beta in H. destruct H as (_ & -> & _). by destruct (may_write u inode).
Qed.

(** C26: calls that truncation refuses. Negative arguments and inode numbers
    outside the table give [MOFS_EINVAL], a length above 1024 blocks
    [MOFS_EFBIG], a directory [MOFS_EISDIR] and a file the caller may not write
    [MOFS_EACCES]; the volume is untouched. *)
Theorem truncate_refused (w : W) a n len e :
  let p := mofs_truncate_core cx n len in
  vol_ok cx nblk -> rep w a -> run_cost p w < drv_left w -> u_valid (a_caller a) = true ->
  truncate_refusal a n len = Some e ->
  exists w', interp p w = (w', Err e) /\ rep w' a.
Proof.
  intros p Hvol Hr Hl Hu He. pose proof (rep_disk_ok _ _ _ _ Hr) as Hd. pose proof (bs_range cx nblk Hvol) as Hbs.
  destruct (run_wp cx nblk p (fun r a' => r = Err e /\ a' = a) w a Hr Hl) as (w' & ? & ? & E & [-> ->] & R); [|by exists w'].
  unfold p, mofs_truncate_core, mofs_max_file_bytes, MOFS_MAX_FILE_DATA_BLOCKS, truncate_refusal in *.
  destruct (Z.ltb_spec n 0) as [|Hn]; [by simplify_eq/=|]. destruct (Z.ltb_spec len 0) as [|Hlen]; [by simplify_eq/=|]. cbn [orb] in He.
  destruct (1024 * bs <? len); [by simplify_eq/=|]. unfold truncate_inode. apply wp_bind.
  destruct (Z.leb_spec (inode_num (sp_blk cx)) n) as [Hge|Hlt].
  { unfold mofs_read_inode. rewrite (proj2 (Z.ltb_ge n 0)), (proj2 (Z.leb_le _ n)) by lia. by simplify_eq/=. }
  apply (wp_read_inode cx nblk Hvol); [done|done|]. wp_simpl.
  destruct (has_flag _ MOFS_FTYPE_DIR); [by simplify_eq/=|].
  apply wp_bind, wp_require_caller; [done|]. wp_simpl. apply wp_bind, wp_check_open_permission; [done|].
  rewrite wonly_permission. destruct (may_write _ _); [done|]. by simplify_eq/=.
Qed.

End truncprops.

(** ** Instances: the file of five bytes *)

Lemma fx_trunc_pre len : 0 <= len <= 1024 * 512 -> trunc_pre ex_cx 24 fx_a fx_files 3 len.
Proof. intros Hl. split; try done; [apply fx_disk_ok|apply fx_vol_files]. Qed.

Lemma truncate_resizes_file_witness :
  exists w' d' nodes new, interp (mofs_truncate_core ex_cx 3 600) fx_w = (w', Ok tt) /\ blen new = 1 /\
    file_resized ex_cx 24 fx_disk d' fx_files 3 nodes (trunc_ptrs ex_cx [6] new 600) 600 /\
    fs_ok ex_cx 24 d' (set_file fx_files 3 (nodes, trunc_ptrs ex_cx [6] new 600)).
Proof.
  destruct (truncate_resizes_file ex_cx 24 fx_w fx_a fx_files 3 600 ex_vol fx_rep) as (w' & d' & nodes & new & E & _ & Hn & Hf & Hfs);
    [run|apply fx_trunc_pre; lia|run|run|].
  exists w', d', nodes, new. exact (conj E (conj Hn (conj Hf (Hfs fx_fs_ok eq_refl)))).
Defined.

Lemma truncate_full_keeps_volume_witness :
  exists w' d', interp (mofs_truncate_core ex_cx 3 9000) fx_w = (w', Err MOFS_ENOSPC) /\ vol_files ex_cx 24 d' fx_files.
Proof.
  destruct (truncate_full_keeps_volume ex_cx 24 fx_w fx_a fx_files 3 9000 ex_vol fx_rep) as (w' & d' & E & _ & HF & _ & _);
    [run|apply fx_trunc_pre; lia|run|run|run|].
  exists w', d'. exact (conj E HF).
Defined.

Lemma truncate_refused_witness :
  exists w', interp (mofs_truncate_core ex_cx 2 10) fx_w = (w', Err MOFS_EISDIR) /\ rep ex_cx 24 w' fx_a.
Proof. apply (truncate_refused ex_cx 24 fx_w fx_a 2 10 MOFS_EISDIR ex_vol fx_rep); run. Defined.
