(* ===== verification/DirProps.v ===== *)
(** * Properties of directories and paths

    Path lookup, entries, emptiness and directory streams, run by [interp] on
    a mounted volume with any block driver. *)

From Stdlib Require Import ZArith Lia.
From stdpp Require Import base list list_numbers.
From S2P Require Import Prelude Types Platform Raw Buffer BufferSpec Ops Bitmap Inode Block FileData Perm Dirent Path File Dir Volume BlockSpec AllocSpec InodeSpec VolInv FileSpec FileInv PermSpec DirSpec PathSpec EntrySpec TreeSpec StreamSpec Fsck Format Ramdisk Example ExampleFile ExampleTree VolumeProps.

Section dirprops.
Context {P C : Type} `{!Platform P} `{!PlatformSpec P} `{!BlockDriver P C} `{!DriverSpec P C}.
Context (cx : mofs_ctx_t) (nblk : Z).
Abbreviation W := (world P C).
Abbreviation is_inode n := (0 <= n < inode_num (sp_blk cx)).
Abbreviation rep := (rep cx nblk).
Abbreviation root := MOFS_ROOT_INODE_NUM.

(** ** Paths *)

(** C14: path resolution. On a volume whose directory tree is well formed,
    [mofs_path_to_inode_num] walks the tree: the result is the inode at the
    end of the walk along the components of the path, [MOFS_ENOENT] when a
    name is missing, [MOFS_ENOTDIR] or [MOFS_EACCES] when a directory on the
    way is none or may not be searched. Nothing changes. The root itself needs
    no walk. *)
Theorem path_lookup_exact (w : W) a F p :
  let prg := mofs_path_to_inode_num cx (Some p) in
  vol_ok cx nblk -> rep w a -> run_cost prg w < drv_left w ->
  tree_ok cx nblk (a_disk a) F -> u_valid (a_caller a) = true -> blen p < 2 ^ 32 -> head p = Some slash ->
  exists w', rep w' a /\
  (p = [slash] -> interp prg w = (w', Ok root)) /\
  (p <> [slash] -> interp prg w = (w', path_target cx (a_caller a) (a_disk a) F (strtok_slash p))) /\
  (forall names, names <> [] -> Forall (fun c => c <> [] /\ (slash ∉ c) /\ blen c < MOFS_FILENAME_LEN) names -> p = join_path names ->
     interp prg w = (w', walk cx true (a_caller a) (a_disk a) F root names)).
Proof.
  intros prg Hvol Hr Hl Ht Hu Hlen Hh. pose proof (rep_disk_ok cx nblk w a Hr) as Hd.
  destruct (decide (p = [slash])) as [->|Hne].
  - destruct (run_wp cx nblk prg (fun r a' => r = Ok root /\ a' = a) w a Hr Hl) as (w' & ? & ? & E & [-> ->] & R).
    { by apply wp_path_root. }
    exists w'. split_and!; try done. intros names Hne Hn Hp. exfalso. destruct names as [|c names]; [done|].
    apply Forall_cons in Hn as [(Hc & _) _]. cbn in Hp. destruct c; [done|discriminate].
  - destruct (run_wp cx nblk prg (fun r a' => r = path_target cx (a_caller a) (a_disk a) F (strtok_slash p) /\ a' = a) w a Hr Hl)
      as (w' & ? & ? & E & [-> ->] & R); [by apply (wp_path_to_inode_num cx nblk Hvol F)|].
    exists w'. split_and!; try done. intros names Hnn Hn ->. rewrite E. f_equal.
    unfold strtok_slash. rewrite strtok_from_join by (eapply Forall_impl; [exact Hn|by intros c (? & ? & ?)]). cbn [app].
    apply path_target_walk; [done|]. eapply Forall_impl; [exact Hn|by intros c (? & ? & ?)].
Qed.

(** ** Entries *)

(** What a change of the directory [n] means for the tree: [name] now leads to
    [target] (or nowhere); every other name, every other directory and every
    other file is as before. *)
Record tree_step (d d' : disk) (F : files) (n : Z) (name : cstr) (target : option Z) : Prop := {
  ts_files : vol_files cx nblk d' F;
  ts_tree : tree_ok cx nblk d' F;
  ts_name : dir_lookup cx d' F n name = target;
  ts_names : forall c, c <> [] -> c <> name -> dir_lookup cx d' F n c = dir_lookup cx d F n c;
  ts_dirs : forall m c, is_inode m -> m <> n -> dir_lookup cx d' F m c = dir_lookup cx d F m c;
  ts_others : forall m, is_inode m -> m <> n -> same_file cx d d' F m
}.

(** A directory that [add_dir_entry] and [remove_dir_entry] accept. *)
Record dir_open (d : disk) (F : files) (n : Z) : Prop := {
  do_files : vol_files cx nblk d F;
  do_tree : tree_ok cx nblk d F;
  do_inode : is_inode n;
  do_dir : is_dir cx d n = true
}.

(** C30: adding a name. In a directory that does not have [name], and whose
    blocks have room for it (it need not grow), [add_dir_entry] makes the name lead to [child]; all other
    names and files stay, and the tree stays well formed. A name that is there
    already is refused with [MOFS_EEXIST] without a change. *)
Theorem add_entry_names (w : W) a F n name child :
  let d := a_disk a in
  let prg := add_dir_entry cx name n child in
  vol_ok cx nblk -> rep w a -> run_cost prg w < drv_left w -> dir_open d F n ->
  i_size (inode_at cx d n) mod 32 = 0 -> entry_num cx d n < 1024 * (blk_size (sp_blk cx) / 32) ->
  name <> [] -> no_nul name = true -> blen name < MOFS_FILENAME_LEN -> 0 < child < inode_num (sp_blk cx) ->
  match dir_lookup cx d F n name with
  | Some _ => exists w', interp prg w = (w', Err MOFS_EEXIST) /\ rep w' a
  | None => entry_room cx d n (dir_entries cx d n (F n).2) ->
      exists w' d', interp prg w = (w', Ok tt) /\ rep w' (set_disk d' a) /\ tree_step d d' F n name (Some child)
  end.
Proof.
  intros d prg Hvol Hr Hl [HF Ht Hn Hdir] Hmod Hmaxe Hne Hnul Hlen Hch. pose proof (rep_disk_ok cx nblk w a Hr) as Hd.
  pose proof (to_dir _ _ _ _ Ht n Hn Hdir) as Hdf. pose proof (to_entries _ _ _ _ Ht n Hn Hdir) as Hwf.
  pose proof (vo_inodes _ _ Hvol) as Hin. change MOFS_FILENAME_LEN with 28 in Hlen.
  unfold dir_lookup at 1. pose proof (wf_dup cx _ name Hwf Hne) as Hdup.
  destruct (List.find (has_name name) (dir_entries cx d n (F n).2)) as [e|] eqn:Hf; simpl.
  - destruct (run_wp cx nblk prg (fun r a' => r = Err MOFS_EEXIST /\ a' = a) w a Hr Hl) as (w' & ? & ? & E & [-> ->] & R); [|by exists w'].
    apply (wp_add_dir_entry cx nblk Hvol name child F n); try done. fold d. by rewrite Hdup.
  - intros Hroom. destruct (run_wp_disk cx nblk prg (Ok tt) (fun d' => tree_step d d' F n name (Some child)) w a Hr Hl) as (w' & d' & E & R & Hs); [|by exists w', d'].
    apply (wp_add_dir_entry cx nblk Hvol name child F n); try done. fold d. rewrite Hdup. split; [done|].
    intros d' Hc. split; [done|]. exists d'. split; [done|].
    assert (Hwf' : dir_wf cx (add_entry (new_dirent name child) (dir_entries cx d n (F n).2))) by (apply add_wf; try done; lia).
    split.
    + apply Hc.
    + by eapply tree_changed.
    + unfold dir_lookup. rewrite (dc_entries _ _ _ _ _ _ _ Hc), (add_find_same cx) by (try done; lia). cbn [fmap option_fmap option_map].
      f_equal. apply (new_dirent_inode cx); lia.
    + intros c Hc0 Hcn. unfold dir_lookup. by rewrite (dc_entries _ _ _ _ _ _ _ Hc), (add_find_other cx) by (try done; lia).
    + intros m c Hm Hmn. by eapply lookup_changed_other.
    + apply Hc.
Qed.

(** C31: removing a name. [remove_dir_entry] makes [name] lead nowhere and keeps
    all other names and files; a name that is not there gives [MOFS_ENOENT]
    without a change. *)
Theorem remove_entry_unnames (w : W) a F n name :
  let d := a_disk a in
  let prg := remove_dir_entry cx name n in
  vol_ok cx nblk -> rep w a -> run_cost prg w < drv_left w -> dir_open d F n -> name <> [] ->
  match dir_lookup cx d F n name with
  | None => exists w', interp prg w = (w', Err MOFS_ENOENT) /\ rep w' a
  | Some _ => exists w' d', interp prg w = (w', Ok tt) /\ rep w' (set_disk d' a) /\ tree_step d d' F n name None
  end.
Proof.
  intros d prg Hvol Hr Hl [HF Ht Hn Hdir] Hne. pose proof (rep_disk_ok cx nblk w a Hr) as Hd.
  pose proof (to_dir _ _ _ _ Ht n Hn Hdir) as Hdf. pose proof (to_entries _ _ _ _ Ht n Hn Hdir) as Hwf.
  unfold dir_lookup at 1. pose proof (wf_live_named cx _ name Hwf Hne) as Hlive.
  destruct (find_idx (live_named name) (dir_entries cx d n (F n).2)) as [j|] eqn:Hj.
  - destruct Hlive as [-> [x ->]]. cbn [fmap option_fmap option_map].
    destruct (run_wp_disk cx nblk prg (Ok tt) (fun d' => tree_step d d' F n name None) w a Hr Hl) as (w' & d' & E & R & Hs); [|by exists w', d'].
    apply (wp_remove_dir_entry cx nblk Hvol name F n); try done. fold d. rewrite Hj.
    intros d' Hc. split; [done|]. exists d'. split; [done|].
    pose proof (remove_wf cx _ name j Hwf Hne Hj) as Hwf'. split.
    + apply Hc.
    + by eapply tree_changed.
    + unfold dir_lookup. by rewrite (dc_entries _ _ _ _ _ _ _ Hc), (remove_find_same cx _ name j).
    + intros c Hc0 Hcn. unfold dir_lookup. by rewrite (dc_entries _ _ _ _ _ _ _ Hc), (remove_find_other cx _ name j).
    + intros m c Hm Hmn. by eapply lookup_changed_other.
    + apply Hc.
  - rewrite Hlive. cbn [fmap option_fmap option_map].
    destruct (run_wp cx nblk prg (fun r a' => r = Err MOFS_ENOENT /\ a' = a) w a Hr Hl) as (w' & ? & ? & E & [-> ->] & R); [|by exists w'].
    apply (wp_remove_dir_entry cx nblk Hvol name F n); try done. fold d. by rewrite Hj.
Qed.

(** ** Listing *)

(** A directory counts as empty when no name but [.] and [..] leads
    anywhere. *)
Theorem directory_empty_exact (w : W) a F n :
  let d := a_disk a in
  let prg := is_directory_empty cx n in
  vol_ok cx nblk -> rep w a -> run_cost prg w < drv_left w -> dir_open d F n ->
  exists w' b, interp prg w = (w', Ok b) /\ rep w' a /\
    (b = true <-> forall name, name <> [] -> is_Some (dir_lookup cx d F n name) -> name = dot \/ name = dotdot).
Proof.
  intros d prg Hvol Hr Hl [HF Ht Hn Hdir]. pose proof (rep_disk_ok cx nblk w a Hr) as Hd.
  pose proof (to_dir _ _ _ _ Ht n Hn Hdir) as Hdf. pose proof (to_entries _ _ _ _ Ht n Hn Hdir) as Hwf.
  set (es := dir_entries cx d n (F n).2) in *.
  destruct (run_wp cx nblk prg (fun r a' => r = Ok (negb (existsb entry_counts es)) /\ a' = a) w a Hr Hl) as (w' & ? & ? & E & [-> ->] & R).
  { by apply (wp_is_directory_empty cx nblk Hvol F n). }
  exists w', (negb (existsb entry_counts es)). split_and!; [done|done|]. rewrite negb_true_iff, <- not_true_iff_false, existsb_exists.
  split.
  - intros Hno name Hne [m Hm]. unfold dir_lookup in Hm. fold es in Hm. destruct (List.find (has_name name) es) as [e|] eqn:Hf; [|done].
    apply List.find_some in Hf as [Hin Hname]. destruct (is_dot_or_dotdot_name name) eqn:Hdot.
    { unfold is_dot_or_dotdot_name, mofs_strcmp_eq in Hdot. apply orb_true_iff in Hdot as [Hdot|Hdot]; apply bool_decide_eq_true in Hdot; tauto. }
    exfalso. apply Hno. exists e. split; [done|]. pose proof (has_name_set name e Hne Hname) as Hs. apply list_elem_of_In in Hin.
    unfold entry_counts. rewrite (wf_live cx es e Hwf Hin Hs), Hs. apply has_name_eq in Hname. by rewrite Hname, Hdot.
  - intros Hall (e & Hin & He). unfold entry_counts in He. rewrite !andb_true_iff in He. destruct He as [[Hu Hs] Hnd].
    apply name_set_ne in Hs as Hne. assert (Hsome : is_Some (dir_lookup cx d F n (c_str (d_name e)))).
    { unfold dir_lookup. fold es. destruct (List.find _ es) as [x|] eqn:Hf; [by eexists|]. rewrite wf_find_none in Hf.
      apply list_elem_of_In, list_elem_of_lookup_1 in Hin as (i & Hi). specialize (Hf i e Hi).
      by rewrite (proj2 (has_name_eq _ e) eq_refl) in Hf. }
    by destruct (Hall _ Hne Hsome) as [Hd1|Hd1]; rewrite Hd1 in Hnd.
Qed.

(** C32: directory streams end. From any offset, repeated [readdir] calls return
    exactly the entries in use from there on, in order and once each, and then
    report the end; the volume and the other streams are untouched. *)
Theorem stream_lists_directory (w : W) a h x nodes ptrs k :
  let d := a_disk a in
  let es := dir_entries cx d (dh_inode_num x) ptrs in
  let todo := live_from (Z.to_nat (dirent_offset x)) es in
  vol_ok cx nblk -> rep w a -> run_cost (read_stream cx k h) w < drv_left w ->
  stream_on cx nblk a h x nodes ptrs -> (length todo < k)%nat ->
  exists w' x', interp (read_stream cx k h) w = (w', Ok todo) /\ rep w' (set_adirs (<[h := x']> (a_dirs a)) a).
Proof.
  intros d es todo Hvol Hr Hl Hso Hk. pose proof (rep_disk_ok cx nblk w a Hr) as Hd.
  destruct (run_wp cx nblk _ (fun r a' => r = Ok todo /\ exists x', a' = set_adirs (<[h := x']> (a_dirs a)) a) w a Hr Hl)
    as (w' & ? & ? & E & (-> & x' & ->) & R); [|by exists w', x'].
  apply (wp_read_stream cx nblk Hvol h nodes ptrs k x); try done. intros x'. split; [done|]. by exists x'.
Qed.

End dirprops.

(** ** Instances on the example tree *)

Lemma path_lookup_exact_witness : exists w',
  interp (mofs_path_to_inode_num ex_cx (Some path_df)) tx_w = (w', Ok 5) /\ rep ex_cx 24 w' tx_a.
Proof.
  destruct (path_lookup_exact ex_cx 24 tx_w tx_a tx_files path_df ex_vol tx_rep) as (w' & R & _ & _ & H);
    [vm_compute; reflexivity|exact tx_tree_ok|reflexivity|vm_compute; reflexivity|reflexivity|].
  exists w'. split; [|exact R]. rewrite (H [name_d; name_f]); [|discriminate| |reflexivity].
  - apply (f_equal (pair w')). vm_compute. reflexivity.
  - repeat constructor; try discriminate; apply (bool_decide_unpack _); vm_compute; done.
Defined.

Lemma tx_dir_open : dir_open ex_cx 24 (a_disk tx_a) tx_files 4.
Proof. split; [exact tx_vol_files|exact tx_tree_ok|done|vm_compute; reflexivity]. Qed.



Lemma add_entry_names_witness :
  (exists w' d', interp (add_dir_entry ex_cx name_g 4 5) tx_w = (w', Ok tt) /\ rep ex_cx 24 w' (set_disk d' tx_a) /\
     tree_step ex_cx 24 tx_disk d' tx_files 4 name_g (Some 5)) /\
  (exists w', interp (add_dir_entry ex_cx name_f 4 5) tx_w = (w', Err MOFS_EEXIST) /\ rep ex_cx 24 w' tx_a).
Proof.
  assert (Hg : dir_lookup ex_cx tx_disk tx_files 4 name_g = None) by (vm_compute; reflexivity).
  assert (Hf : dir_lookup ex_cx tx_disk tx_files 4 name_f = Some 5) by (vm_compute; reflexivity).
  pose proof (add_entry_names ex_cx 24 tx_w tx_a tx_files 4 name_g 5 ex_vol tx_rep) as H1.
  pose proof (add_entry_names ex_cx 24 tx_w tx_a tx_files 4 name_f 5 ex_vol tx_rep) as H2.
  change (a_disk tx_a) with tx_disk in H1, H2. rewrite Hg in H1. rewrite Hf in H2. split.
  - apply H1; [vm_compute; reflexivity|exact tx_dir_open|reflexivity|vm_compute; reflexivity|discriminate|reflexivity|reflexivity|split; reflexivity|vm_compute; reflexivity].
  - apply H2; [vm_compute; reflexivity|exact tx_dir_open|reflexivity|vm_compute; reflexivity|discriminate|reflexivity|reflexivity|split; reflexivity].
Defined.

Lemma remove_entry_unnames_witness :
  (exists w' d', interp (remove_dir_entry ex_cx name_f 4) tx_w = (w', Ok tt) /\ rep ex_cx 24 w' (set_disk d' tx_a) /\
     tree_step ex_cx 24 tx_disk d' tx_files 4 name_f None) /\
  (exists w', interp (remove_dir_entry ex_cx name_g 4) tx_w = (w', Err MOFS_ENOENT) /\ rep ex_cx 24 w' tx_a).
Proof.
  assert (Hg : dir_lookup ex_cx tx_disk tx_files 4 name_g = None) by (vm_compute; reflexivity).
  assert (Hf : dir_lookup ex_cx tx_disk tx_files 4 name_f = Some 5) by (vm_compute; reflexivity).
  pose proof (remove_entry_unnames ex_cx 24 tx_w tx_a tx_files 4 name_g ex_vol tx_rep) as H1.
  pose proof (remove_entry_unnames ex_cx 24 tx_w tx_a tx_files 4 name_f ex_vol tx_rep) as H2.
  change (a_disk tx_a) with tx_disk in H1, H2. rewrite Hg in H1. rewrite Hf in H2.
  split; [apply H2|apply H1]; [vm_compute; reflexivity|exact tx_dir_open|discriminate|vm_compute; reflexivity|exact tx_dir_open|discriminate].
Defined.

Lemma directory_empty_exact_witness : exists w' b, interp (is_directory_empty ex_cx 4) tx_w = (w', Ok b) /\ rep ex_cx 24 w' tx_a /\
  (b = true <-> forall name, name <> [] -> is_Some (dir_lookup ex_cx tx_disk tx_files 4 name) -> name = dot \/ name = dotdot).
Proof. apply (directory_empty_exact ex_cx 24 tx_w tx_a tx_files 4 ex_vol tx_rep); [vm_compute; reflexivity|exact tx_dir_open]. Defined.

Lemma stream_lists_directory_witness : exists w' x',
  interp (read_stream ex_cx 17 0) tx_w = (w', Ok (live_from 0 (dir_entries ex_cx tx_disk 4 [8]))) /\
  rep ex_cx 24 w' (set_adirs (<[0%nat := x']> tx_dirs) tx_a).
Proof.
  apply (stream_lists_directory ex_cx 24 tx_w tx_a 0 tx_stream [9] [8] 17 ex_vol tx_rep).
  - vm_compute. reflexivity.
  - split; try done. exact (to_dir _ _ _ _ tx_tree_ok 4 ltac:(done) ltac:(vm_compute; reflexivity)).
  - apply (bool_decide_unpack _). vm_compute. done.
Defined.
