(* ===== verification/FsProps.v ===== *)
(** * Properties of the whole file system

    Creating and removing files and directories through paths, run by
    [interp] on a mounted volume with any block driver. *)

From Stdlib Require Import ZArith Lia.
From stdpp Require Import base list list_numbers.
From S2P Require Import Prelude Types Platform Raw Buffer BufferSpec Ops Bitmap Inode Block FileData Perm Dirent Path File Dir Volume BlockSpec AllocSpec InodeSpec VolInv FileSpec FileInv PermSpec DirSpec PathSpec EntrySpec TreeSpec NameSpec FsSpec RmdirSpec MkdirSpec Fsck Format Ramdisk Example ExampleFile ExampleTree VolumeProps.

Section fsprops.
Context {P C : Type} `{!Platform P} `{!PlatformSpec P} `{!BlockDriver P C} `{!DriverSpec P C}.
Context (cx : mofs_ctx_t) (nblk : Z).
Abbreviation W := (world P C).
Abbreviation is_inode n := (0 <= n < inode_num (sp_blk cx)).
Abbreviation rep := (rep cx nblk).


(** C5: removing a file. For a path that leads to the file [m], under the name
    [c] in a directory the caller may write, [mofs_unlink_core] removes the
    name, gives all blocks and list nodes of the file back, clears its inode
    and frees its number; every other name, file and inode keeps its value and
    the volume stays consistent ([fs_ok], now with [m] owning nothing). *)
Theorem unlink_removes_file (w : W) a F p n c m :
  let d := a_disk a in
  let prg := mofs_unlink_core cx (Some p) in
  vol_ok cx nblk -> rep w a -> run_cost prg w < drv_left w ->
  path_call cx nblk a F p n -> found_at cx (a_caller a) d F p n c m -> is_dir cx d m = false ->
  exists w' d', interp prg w = (w', Ok tt) /\ rep w' (set_disk d' a) /\ removed cx nblk d d' F n c m.
Proof.
  intros d prg Hvol Hr Hl Hpc Hfound Hreg. apply (run_wp_disk cx nblk prg (Ok tt)); [done|done|].
  apply (wp_unlink cx nblk Hvol F p n c m); try done. intros d' _ Hre. split; [done|]. by exists d'.
Qed.

(** C7: making a directory. For a path whose last name [c], other than [.] and
    [..], is missing in the directory [n], which the caller may write and which
    has room, [mofs_mkdir_core] takes the lowest free inode [i], makes [c] lead
    to it, and makes it an empty directory of the caller with one block, whose
    [.] leads to itself and whose [..] leads to [n], which gets one more link;
    every other name, file and inode bit keeps its value and the volume stays
    consistent. Without a free inode or without two free blocks it fails with
    [MOFS_ENOSPC] and everything in use is as it was. *)
Theorem mkdir_adds_directory (w : W) a F p n c mode :
  let d := a_disk a in
  let u := a_caller a in
  let prg := mofs_mkdir_core cx (Some p) mode in
  vol_ok cx nblk -> rep w a -> run_cost prg w < drv_left w ->
  path_call cx nblk a F p n -> missing_at cx u d F p n c -> no_nul c = true -> is_dot_or_dotdot_name c = false -> has_room cx d F n ->
  match free_inodes cx d with
  | [] => exists w', interp prg w = (w', Err MOFS_ENOSPC) /\ rep w' a
  | i :: _ => (exists w' d', blen (free_data cx d) < 2 /\ interp prg w = (w', Err MOFS_ENOSPC) /\ rep w' (set_disk d' a) /\ kept cx nblk d d' F) \/
      exists w' d' nodes ptrs, interp prg w = (w', Ok tt) /\ rep w' (set_disk d' a) /\
        made cx nblk d d' F (set_file F i (nodes, ptrs)) n c i mode u
  end.
Proof.
  intros d u prg Hvol Hr Hl Hpc Hmiss Hnul Hdots Hroom.
  destruct (run_wp cx nblk prg (fun r a' => match free_inodes cx d with
    | [] => r = Err MOFS_ENOSPC /\ a' = a
    | i :: _ => exists d', a' = set_disk d' a /\ (r = Err MOFS_ENOSPC /\ blen (free_data cx d) < 2 /\ kept cx nblk d d' F \/
        r = Ok tt /\ exists nodes ptrs, made cx nblk d d' F (set_file F i (nodes, ptrs)) n c i mode u)
    end) w a Hr Hl) as (w' & r & a' & E & HQ & R).
  - apply (wp_mkdir cx nblk Hvol F p n c mode); try done; fold d u.
    + intros ->. done.
    + intros Hne Hlt d' _ Hk. destruct (free_inodes cx d) as [|i l]; [done|]. exists d'. split; [done|by left].
    + intros i l d' nodes ptrs -> Hm. exists d'. split; [done|]. right. split; [done|]. by exists nodes, ptrs.
  - destruct (free_inodes cx d) as [|i l]; [destruct HQ as [-> ->]; by exists w'|].
    destruct HQ as (d' & -> & [(-> & Hlt & Hk)|(-> & nodes & ptrs & Hm)]); [left; by exists w', d'|right; by exists w', d', nodes, ptrs].
Qed.

(** C8: removing a directory. For a path that leads to [m], under the name [c],
    other than [.] and [..], in a directory [n] the caller may write,
    [mofs_rmdir_core] removes an empty directory: the name leads nowhere, its
    blocks and its inode are given back, [n] loses a link, every other name,
    file and inode keeps its value and the volume stays consistent. A
    directory with names other than [.] and [..] gives [MOFS_ENOTEMPTY], a
    file [MOFS_ENOTDIR], both without a change. *)
Theorem rmdir_removes_directory (w : W) a F p n c m :
  let d := a_disk a in
  let prg := mofs_rmdir_core cx (Some p) in
  vol_ok cx nblk -> rep w a -> run_cost prg w < drv_left w ->
  path_call cx nblk a F p n -> found_at cx (a_caller a) d F p n c m -> is_dot_or_dotdot_name c = false ->
  0 < i_links (inode_at cx d n) < 2 ^ 16 ->
  exists w', (is_dir cx d m = false /\ interp prg w = (w', Err MOFS_ENOTDIR) /\ rep w' a) \/
    (is_dir cx d m = true /\ (exists c' x, proper c' /\ edge cx d F m c' x) /\ interp prg w = (w', Err MOFS_ENOTEMPTY) /\ rep w' a) \/
    (is_dir cx d m = true /\ (forall c' x, proper c' -> ~ edge cx d F m c' x) /\ exists d', interp prg w = (w', Ok tt) /\ rep w' (set_disk d' a) /\
       removed cx nblk d d' F n c m /\ i_links (inode_at cx d' n) = i_links (inode_at cx d n) - 1).
Proof.
  intros d prg Hvol Hr Hl Hpc Hfound Hdots Hlinks.
  destruct (run_wp cx nblk prg (fun r a' =>
    (is_dir cx d m = false /\ r = Err MOFS_ENOTDIR /\ a' = a) \/
    (is_dir cx d m = true /\ (exists c' x, proper c' /\ edge cx d F m c' x) /\ r = Err MOFS_ENOTEMPTY /\ a' = a) \/
    (is_dir cx d m = true /\ (forall c' x, proper c' -> ~ edge cx d F m c' x) /\ exists d', r = Ok tt /\ a' = set_disk d' a /\
       removed cx nblk d d' F n c m /\ i_links (inode_at cx d' n) = i_links (inode_at cx d n) - 1)) w a Hr Hl) as (w' & r & a' & E & HQ & R).
  - apply (wp_rmdir cx nblk Hvol F p n c m); try done; fold d.
    + intros Hdm. by left.
    + intros Hdm He. right; by left.
    + intros d' Hdm Hno _ Hre Hl'. right; right. split; [done|]. split; [done|]. by exists d'.
  - exists w'. destruct HQ as [(Hdm & -> & ->)|[(Hdm & He & -> & ->)|(Hdm & Hno & d' & -> & -> & Hre & Hl')]]; [by left|right; by left|].
    right; right. split; [done|]. split; [done|]. by exists d'.
Qed.

End fsprops.

(** ** Instances on the example tree *)

Lemma tx_path_call p : head p = Some slash -> p <> [slash] -> blen p < 2 ^ 32 -> path_call ex_cx 24 tx_a tx_files p 4.
Proof. intros Hh Hp Hl. by apply tx_path_call_at. Qed.



Lemma unlink_removes_file_witness : exists w' d',
  interp (mofs_unlink_core ex_cx (Some path_df)) tx_w = (w', Ok tt) /\ rep ex_cx 24 w' (set_disk d' tx_a) /\
  removed ex_cx 24 tx_disk d' tx_files 4 name_f 5.
Proof.
  apply (unlink_removes_file ex_cx 24 tx_w tx_a tx_files path_df 4 name_f 5 ex_vol tx_rep).
  - vm_compute. reflexivity.
  - apply tx_path_call; [reflexivity|discriminate|reflexivity].
  - exists [name_d]. split; [vm_compute; reflexivity|]. split; [vm_compute; reflexivity|]. split; [vm_compute; reflexivity|reflexivity].
  - vm_compute. reflexivity.
Defined.

Lemma mkdir_adds_directory_witness : exists w' d' nodes ptrs,
  interp (mofs_mkdir_core ex_cx (Some path_g) 0x1ED) ey_w = (w', Ok tt) /\ rep ex_cx 24 w' (set_disk d' ey_a) /\
  made ex_cx 24 ey_disk d' tx_files (set_file tx_files 5 (nodes, ptrs)) 2 name_g 5 0x1ED ex_user.
Proof.
  assert (Hf : free_inodes ex_cx ey_disk = [5]) by (vm_compute; reflexivity).
  assert (Hok : (interp (mofs_mkdir_core ex_cx (Some path_g) 0x1ED) ey_w).2 = Ok tt) by (vm_compute; reflexivity).
  pose proof (mkdir_adds_directory ex_cx 24 ey_w ey_a tx_files path_g 2 name_g 0x1ED ex_vol ey_rep) as H.
  change (a_disk ey_a) with ey_disk in H. rewrite Hf in H. destruct H as [(w' & d' & _ & E & _)|H].
  - vm_compute. reflexivity.
  - apply ey_path_call; [reflexivity|discriminate|reflexivity].
  - exists []. split; [vm_compute; reflexivity|]. split; [reflexivity|]. split; [vm_compute; reflexivity|reflexivity].
  - reflexivity.
  - reflexivity.
  - split; vm_compute; reflexivity.
  - rewrite E in Hok. discriminate Hok.
  - exact H.
Defined.

Lemma rmdir_removes_directory_witness : exists w' d',
  interp (mofs_rmdir_core ex_cx (Some path_d)) ey_w = (w', Ok tt) /\ rep ex_cx 24 w' (set_disk d' ey_a) /\
  removed ex_cx 24 ey_disk d' tx_files 2 name_d 4 /\ i_links (inode_at ex_cx d' 2) = i_links (inode_at ex_cx ey_disk 2) - 1.
Proof.
  assert (Hok : (interp (mofs_rmdir_core ex_cx (Some path_d)) ey_w).2 = Ok tt) by (vm_compute; reflexivity).
  destruct (rmdir_removes_directory ex_cx 24 ey_w ey_a tx_files path_d 2 name_d 4 ex_vol ey_rep)
    as (w' & [(_ & E & _)|[(_ & _ & E & _)|(_ & _ & d' & E & R & Hre & Hl)]]).
  - vm_compute. reflexivity.
  - apply ey_path_call; [reflexivity|discriminate|reflexivity].
  - exists []. split; [vm_compute; reflexivity|]. split; [vm_compute; reflexivity|]. split; [vm_compute; reflexivity|reflexivity].
  - reflexivity.
  - vm_compute. split; reflexivity.
  - rewrite E in Hok. discriminate Hok.
  - rewrite E in Hok. discriminate Hok.
  - exists w', d'. split; [exact E|]. split; [exact R|]. split; [exact Hre|exact Hl].
Defined.

(** The root directory that [mofs_format] writes has no [.] entry, and neither
    [mofs_create_core] nor [mofs_mkdir_core] refuses that name: a file ["/."]
    can be made in the root. A directory made so cannot be removed again,
    because [mofs_rmdir_core] does refuse it. *)
Example root_dot_is_created : (interp (mofs_create_core ex_cx (Some (join_path [dot])) 0x1A4) ey_w).2 = Ok 5.
Proof. vm_compute. reflexivity. Qed.

Example root_dot_stays :
  (interp (mofs_mkdir_core ex_cx (Some (join_path [dot])) 0x1ED;; mofs_rmdir_core ex_cx (Some (join_path [dot]))) ey_w).2 = Err MOFS_EINVAL.
Proof. vm_compute. reflexivity. Qed.
