(* ===== verification/RenameProps.v ===== *)
(** * Properties of renaming

    [mofs_rename_core] on a mounted volume with any block driver. *)

From Stdlib Require Import ZArith Lia.
From stdpp Require Import base list list_numbers.
From S2P Require Import Prelude Types Platform Raw Buffer BufferSpec Ops Bitmap Inode Block FileData Perm Dirent Path File Dir Volume BlockSpec AllocSpec InodeSpec VolInv FileSpec FileInv PermSpec DirSpec PathSpec EntrySpec TreeSpec NameSpec FsSpec RmdirSpec MoveSpec RenameSpec Fsck Format Ramdisk Example ExampleFile ExampleTree VolumeProps.

Section renameprops.
Context {P C : Type} `{!Platform P} `{!PlatformSpec P} `{!BlockDriver P C} `{!DriverSpec P C}.
Context (cx : mofs_ctx_t) (nblk : Z).
Abbreviation W := (world P C).
Abbreviation rep := (rep cx nblk).
Abbreviation edge := (edge cx).

(** C9: renaming to a name that is not there. For a path that leads to [m],
    under the name [c1] of [n1], and one whose last name [c2] is missing in
    [n2], which the caller may both change and which, unless it is [n1], has
    room for the name in the blocks it has, [mofs_rename_core] makes [c2] of
    [n2] the only proper name of [m], lets [..] of a directory follow with the
    link counts of its parents, and keeps every other name, file and inode bit
    and the consistency of the volume. A directory that would end up below
    itself is refused with [MOFS_EINVAL] before anything changes. *)
Theorem rename_moves (w : W) a F po n1 c1 m pn n2 c2 :
  let d := a_disk a in
  let prg := mofs_rename_core cx (Some po) (Some pn) in
  vol_ok cx nblk -> rep w a -> run_cost prg w < drv_left w ->
  rename_call cx nblk a F po n1 c1 m pn n2 c2 -> missing_at cx (a_caller a) d F pn n2 c2 ->
  (n1 <> n2 -> entry_room cx d n2 (dir_entries cx d n2 (F n2).2)) ->
  exists w', (is_dir cx d m = true /\ ~ not_above (edge d F) m n2 /\ interp prg w = (w', Err MOFS_EINVAL) /\ rep w' a) \/
    (not_above (edge d F) m n2 /\ exists d', interp prg w = (w', Ok tt) /\ rep w' (set_disk d' a) /\ relocated cx nblk d d' F n1 c1 n2 c2 m).
Proof.
  intros d prg Hvol Hr Hl Hrc Hmiss Hroom.
  destruct (run_wp cx nblk prg (fun r a' =>
    (is_dir cx d m = true /\ ~ not_above (edge d F) m n2 /\ r = Err MOFS_EINVAL /\ a' = a) \/
    (not_above (edge d F) m n2 /\ exists d', r = Ok tt /\ a' = set_disk d' a /\ relocated cx nblk d d' F n1 c1 n2 c2 m)) w a Hr Hl) as (w' & r & a' & E & HQ & R).
  - apply (wp_rename_moves cx nblk Hvol F po n1 c1 m pn n2 c2); try done; fold d.
    + intros Hdm Hab. by left.
    + intros Hab d' Hrl. right. split; [done|]. by exists d'.
  - exists w'. destruct HQ as [(Hdm & Hab & -> & ->)|(Hab & d' & -> & -> & Hrl)]; [by left|right]. split; [done|]. by exists d'.
Qed.

(** C10: renaming to a name that is there and leads to [x]. Nothing happens
    when that is the same inode. A file does not replace a directory
    ([MOFS_EISDIR]), a directory does not replace a file ([MOFS_ENOTDIR]) or a
    directory with entries ([MOFS_ENOTEMPTY]), all without a change.
    Otherwise [x] is removed as by [mofs_unlink_core] or [mofs_rmdir_core], and
    then [m] is moved as in [rename_moves]. The check that a directory does
    not go below itself comes only after the removal, so that it then fails
    with [MOFS_EINVAL] and [x] is gone. *)
Theorem rename_replaces (w : W) a F po n1 c1 m pn n2 c2 x :
  let d := a_disk a in
  let prg := mofs_rename_core cx (Some po) (Some pn) in
  let F1 := set_file F x ([], []) in
  vol_ok cx nblk -> rep w a -> run_cost prg w < drv_left w ->
  rename_call cx nblk a F po n1 c1 m pn n2 c2 -> found_at cx (a_caller a) d F pn n2 c2 x -> 0 < i_links (inode_at cx d n2) ->
  exists w' r a', interp prg w = (w', r) /\ rep w' a' /\
    if x =? m then r = Ok tt /\ a' = a
    else if negb (Bool.eqb (is_dir cx d x) (is_dir cx d m)) then r = Err (if is_dir cx d m then MOFS_ENOTDIR else MOFS_EISDIR) /\ a' = a
    else (is_dir cx d x = true /\ (exists c y, proper c /\ edge d F x c y) /\ r = Err MOFS_ENOTEMPTY /\ a' = a) \/
      exists d1, removed cx nblk d d1 F n2 c2 x /\
        ((is_dir cx d m = true /\ ~ not_above (edge d1 F1) m n2 /\ r = Err MOFS_EINVAL /\ a' = set_disk d1 a) \/
         (not_above (edge d1 F1) m n2 /\ exists d', relocated cx nblk d1 d' F1 n1 c1 n2 c2 m /\ r = Ok tt /\ a' = set_disk d' a)).
Proof.
  intros d prg F1 Hvol Hr Hl Hrc Hfound Hlinks.
  match goal with |- exists w' r a', _ /\ _ /\ @?Q w' r a' =>
    destruct (run_wp cx nblk prg (fun r a' => Q w r a') w a Hr Hl) as (w' & r & a' & E & HQ & R); [|by exists w', r, a'] end.
  apply (wp_rename_replaces cx nblk Hvol F po n1 c1 m pn n2 c2 x); try done; fold d.
  - intros ->. by rewrite Z.eqb_refl.
  - intros Hx Ht. rewrite (proj2 (Z.eqb_neq _ _) Hx). destruct (is_dir cx d x), (is_dir cx d m); done.
  - intros Hx Hdx Hdm He. rewrite (proj2 (Z.eqb_neq _ _) Hx), Hdx, Hdm. left. done.
  - intros Hx Ht d1 Hre. rewrite (proj2 (Z.eqb_neq _ _) Hx), Ht, Bool.eqb_reflx. cbn [negb]. split.
    + intros Hdm Hab. right. exists d1. split; [done|]. by left.
    + intros Hab d' Hrl. right. exists d1. split; [done|]. right. split; [done|]. by exists d'.
Qed.

End renameprops.

(** ** Instances on the example volumes *)

Lemma rename_moves_witness : exists w' d',
  interp (mofs_rename_core ex_cx (Some path_he) (Some path_dg)) ey_w = (w', Ok tt) /\ rep ex_cx 24 w' (set_disk d' ey_a) /\
  relocated ex_cx 24 ey_disk d' tx_files 2 name_he 4 name_g 3.
Proof.
  assert (Hok : (interp (mofs_rename_core ex_cx (Some path_he) (Some path_dg)) ey_w).2 = Ok tt) by (vm_compute; reflexivity).
  destruct (rename_moves ex_cx 24 ey_w ey_a tx_files path_he 2 name_he 3 path_dg 4 name_g ex_vol ey_rep)
    as (w' & [(_ & _ & E & _)|(_ & d' & E & R & Hrl)]).
  - vm_compute. reflexivity.
  - split.
    + apply ey_path_call; [reflexivity|discriminate|reflexivity].
    + apply ey_path_call_at; [reflexivity|discriminate|reflexivity|vm_compute; reflexivity].
    + exists []. split; [vm_compute; reflexivity|]. split; [reflexivity|]. split; [vm_compute; reflexivity|reflexivity].
    + split; reflexivity.
    + reflexivity.
    + vm_compute. reflexivity.
    + vm_compute. reflexivity.
    + vm_compute. discriminate.
  - exists [name_d]. split; [vm_compute; reflexivity|]. split; [vm_compute; reflexivity|]. split; [vm_compute; reflexivity|reflexivity].
  - intros _. vm_compute. reflexivity.
  - rewrite E in Hok. discriminate Hok.
  - exists w', d'. split; [exact E|]. split; [exact R|exact Hrl].
Defined.

Lemma rename_replaces_witness : exists w' d1 d',
  interp (mofs_rename_core ex_cx (Some path_he) (Some path_df)) tx_w = (w', Ok tt) /\ rep ex_cx 24 w' (set_disk d' tx_a) /\
  removed ex_cx 24 tx_disk d1 tx_files 4 name_f 5 /\
  relocated ex_cx 24 d1 d' (set_file tx_files 5 ([], [])) 2 name_he 4 name_f 3.
Proof.
  assert (Hok : (interp (mofs_rename_core ex_cx (Some path_he) (Some path_df)) tx_w).2 = Ok tt) by (vm_compute; reflexivity).
  assert (Hd5 : is_dir ex_cx (a_disk tx_a) 5 = false) by (vm_compute; reflexivity).
  assert (Hd3 : is_dir ex_cx (a_disk tx_a) 3 = false) by (vm_compute; reflexivity).
  pose proof (rename_replaces ex_cx 24 tx_w tx_a tx_files path_he 2 name_he 3 path_df 4 name_f 5 ex_vol tx_rep) as H.
  rewrite Hd5, Hd3 in H. destruct H as (w' & r & a' & E & R & H).
  - vm_compute. reflexivity.
  - split.
    + apply tx_path_call_at; [reflexivity|discriminate|reflexivity|vm_compute; reflexivity].
    + apply tx_path_call_at; [reflexivity|discriminate|reflexivity|vm_compute; reflexivity].
    + exists []. split; [vm_compute; reflexivity|]. split; [reflexivity|]. split; [vm_compute; reflexivity|reflexivity].
    + split; reflexivity.
    + reflexivity.
    + vm_compute. reflexivity.
    + vm_compute. reflexivity.
    + vm_compute. discriminate.
  - exists [name_d]. split; [vm_compute; reflexivity|]. split; [vm_compute; reflexivity|]. split; [vm_compute; reflexivity|reflexivity].
  - vm_compute. reflexivity.
  - destruct H as [(Hx & _)|(d1 & Hre & [(Hx & _)|(_ & d' & Hrl & -> & ->)])]; [discriminate Hx|discriminate Hx|].
    exists w', d1, d'. split; [exact E|]. split; [exact R|]. split; [exact Hre|exact Hrl].
Defined.

(** A directory that is renamed to an empty directory below itself is refused,
    but the empty directory has been removed by then. *)
Example refused_rename_removes_destination :
  let prepare := mofs_mkdir_core ex_cx (Some path_dg) 0x1ED in
  let rename := mofs_rename_core ex_cx (Some path_d) (Some path_dg) in
  let look := mofs_path_to_inode_num ex_cx (Some path_dg) in
  (interp (prepare;; look) ey_w).2 = Ok 5 /\
  (interp (prepare;; rename) ey_w).2 = Err MOFS_EINVAL /\
  (interp (prepare;; ignore rename;; look) ey_w).2 = Err MOFS_ENOENT.
Proof. vm_compute. split; [reflexivity|split; reflexivity]. Qed.
