(* ===== verification/HandleProps.v ===== *)
(** * Properties of handles and of [stat]

    Opening, closing and seeking on a mounted volume with any block driver. *)

From Stdlib Require Import ZArith Lia.
From stdpp Require Import base list list_numbers.
From S2P Require Import Prelude Types Platform Raw Buffer BufferSpec Ops Bitmap Inode Block FileData Perm Dirent Path File Core Posix Volume BlockSpec AllocSpec FreeSpec InodeSpec VolInv FileSpec FileInv PermSpec RwSpec DirSpec PathSpec EntrySpec TreeSpec NameSpec FsSpec HandleSpec Fsck Format Ramdisk Example ExampleFile ExampleTree VolumeProps.

Section handleprops.
Context {P C : Type} `{!Platform P} `{!PlatformSpec P} `{!BlockDriver P C} `{!DriverSpec P C}.
Context (cx : mofs_ctx_t) (nblk : Z).
Abbreviation W := (world P C).
Abbreviation is_inode n := (0 <= n < inode_num (sp_blk cx)).
Abbreviation rep := (rep cx nblk).

(** A caller with an absolute path, on a well-formed tree. *)
Record caller_path (a : astate) (F : files) (p : cstr) : Prop := {
  cp_disk : disk_ok cx nblk (a_disk a);
  cp_tree : tree_ok cx nblk (a_disk a) F;
  cp_user : u_valid (a_caller a) = true;
  cp_len : blen p < 2 ^ 32;
  cp_abs : head p = Some slash
}.


(** C21: opening a file that is not there. With [MOFS_OFLAG_CREAT], on a path
    whose last name is missing in a directory the caller may write and which
    has room for the name in the blocks it has, [mofs_open_core] creates the file as [mofs_create_core] does and takes the
    first free handle on it. If the new mode does not permit the access or no
    handle is free it fails, and the file stays. *)
Theorem open_creates_file (w : W) a F p n c flags mode :
  let d := a_disk a in
  let u := a_caller a in
  let prg := mofs_open_core cx (Some p) flags mode in
  vol_ok cx nblk -> rep w a -> run_cost prg w < drv_left w ->
  path_call cx nblk a F p n -> missing_at cx u d F p n c -> no_nul c = true -> is_dot_or_dotdot_name c = false -> has_room cx d F n ->
  has_flag flags MOFS_OFLAG_CREAT = true ->
  match free_inodes cx d with
  | [] => exists w', interp prg w = (w', Err MOFS_ENOSPC) /\ rep w' a
  | i :: _ => exists w' d' t r, interp prg w = (w', r) /\ rep w' (set_afiles (opened r i flags (a_files a)) (set_disk d' a)) /\
      r = open_result flags u (new_inode t mode u) (a_files a) /\ 0 <= t < 2 ^ 64 /\
      created cx nblk d d' F n c i (new_inode t mode u)
  end.
Proof.
  intros d u prg Hvol Hr Hl Hpc Hmiss Hnul Hdots Hroom Hcr.
  destruct (free_inodes cx d) as [|i l] eqn:Hfree.
  - apply (run_wp_eq cx nblk _ _ _ w a Hr Hl). apply (wp_open_creates cx nblk Hvol F p n c); try done. intros i l t d' Hi. fold d in Hi. congruence.
  - destruct (run_wp cx nblk prg (fun r a' => exists d' t, a' = set_afiles (opened r i flags (a_files a)) (set_disk d' a) /\
      r = open_result flags u (new_inode t mode u) (a_files a) /\ 0 <= t < 2 ^ 64 /\ created cx nblk d d' F n c i (new_inode t mode u)) w a Hr Hl)
      as (w' & r & a' & E & (d' & t & -> & Hres & Ht & Hc) & R).
    + apply (wp_open_creates cx nblk Hvol F p n c); try done; [intros He; fold d in He; congruence|].
      intros i' l' t d' Hi Ht _ Hc. fold d in Hi. rewrite Hfree in Hi. injection Hi as -> ->. by exists d', t.
    + by exists w', d', t, r.
Qed.

(** C36: opening and closing. A handle that was opened can be closed, and the
    pool of handles, whose free entries are zeroed, and the volume are then as
    they were. *)
Theorem open_close_restores (w : W) a F p flags mode n i :
  let prg := h ← mofs_open_core cx (Some p) flags mode; mofs_close_core (Some h) in
  vol_ok cx nblk -> rep w a -> run_cost prg w < drv_left w -> caller_path a F p ->
  path_end cx (a_caller a) (a_disk a) F p = Ok n ->
  has_flag flags MOFS_OFLAG_CREAT && has_flag flags MOFS_OFLAG_EXCL = false ->
  open_result flags (a_caller a) (inode_at cx (a_disk a) n) (a_files a) = Ok i ->
  (forall j f, a_files a !! j = Some f -> fh_used f = false -> f = zero_filehandle) ->
  exists w', interp prg w = (w', Ok tt) /\ rep w' a.
Proof.
  intros prg Hvol Hr Hl [Hd Ht Hu Hlen Habs] Hp Hex Hres Hzero.
  apply (run_wp_eq cx nblk _ _ _ w a Hr Hl). apply wp_bind, (wp_open_existing cx nblk Hvol F); try done. rewrite Hp, Hex, Hres. wp_simpl.
  destruct (open_result_free _ _ _ _ _ Hres) as (f & Hf & Hfree). cbn [opened].
  pose proof (lookup_lt_Some _ _ _ Hf) as Hlt.
  apply (wp_close cx nblk _ (new_handle n flags)); cbn [a_files set_afiles]; [by apply list_lookup_insert_eq|].
  cbn [new_handle fh_used]. split; [done|]. rewrite list_insert_insert_eq, <- (Hzero i f Hf Hfree), (list_insert_id _ _ _ Hf).
  by destruct a.
Qed.

(** C37: seeking. [mofs_lseek] moves an open handle to the sum of the base
    ([whence]: the start, the position or the end of the file) and the offset
    exactly when that is neither negative nor beyond 32 bits, and returns it;
    otherwise, and for any other [whence], it fails with [MOFS_EINVAL] and the
    handle stays where it was. A 64-bit overflow would be [Stuck], so neither
    the negation of the offset nor a sum overflows, for any 64-bit offset. *)
Theorem lseek_exact (w : W) a h f offset whence :
  let d := a_disk a in
  let prg := lseek_core cx h offset whence in
  vol_ok cx nblk -> rep w a -> run_cost prg w < drv_left w ->
  a_files a !! h = Some f -> fh_used f = true -> is_inode (fh_inode_num f) -> 0 <= file_offset f < 2 ^ 32 -> - 2 ^ 63 <= offset < 2 ^ 63 ->
  exists w', match seek_base cx d f whence with
  | Some base =>
      0 <= base + offset < 2 ^ 32 /\ interp prg w = (w', Ok (base + offset)) /\ rep w' (set_afiles (<[h := mkFile true (fh_inode_num f) (base + offset) (open_flags f)]> (a_files a)) a) \/
      ~ (0 <= base + offset < 2 ^ 32) /\ interp prg w = (w', Err MOFS_EINVAL) /\ rep w' a
  | None => interp prg w = (w', Err MOFS_EINVAL) /\ rep w' a
  end.
Proof.
  intros d prg Hvol Hr Hl Hf Hu Hn Hoff Ho. pose proof (rep_disk_ok cx nblk _ _ Hr) as Hd.
  destruct (run_wp cx nblk prg (fun r a' => match seek_base cx d f whence with
    | Some base => 0 <= base + offset < 2 ^ 32 /\ r = Ok (base + offset) /\ a' = set_afiles (move_handle h (base + offset) (a_files a)) a \/
        ~ (0 <= base + offset < 2 ^ 32) /\ r = Err MOFS_EINVAL /\ a' = a
    | None => r = Err MOFS_EINVAL /\ a' = a end) w a Hr Hl) as (w' & r & a' & E & HQ & R).
  - apply (wp_lseek cx nblk Hvol h f offset whence); try done. fold d. destruct (seek_base cx d f whence) as [base|]; [|done].
    change MOFS_UINT32_MAX with 4294967295. destruct (Z.leb_spec 0 (base + offset)); cbn [andb]; [|right; split; [lia|done]].
    destruct (Z.leb_spec (base + offset) 4294967295); [left|right]; split; try done; lia.
  - exists w'. destruct (seek_base cx d f whence) as [base|]; [|by destruct HQ as [-> ->]].
    destruct HQ as [(Hb & -> & ->)|(Hb & -> & ->)]; [left|by right]. split; [done|]. split; [done|].
    rewrite <- Hu, <- (move_handle_insert h f _ _ Hb Hf). exact R.
Qed.

(** C39: the status of a file. [mofs_stat_core] returns the number and the record of the
    inode at the end of the path when it is a directory the caller may search
    or a file the caller may read, [MOFS_EACCES] when not, and the error of the
    lookup when the path leads nowhere; nothing changes. *)
Theorem stat_exact (w : W) a F p :
  let d := a_disk a in
  let u := a_caller a in
  let prg := mofs_stat_core cx (Some p) in
  vol_ok cx nblk -> rep w a -> run_cost prg w < drv_left w -> caller_path a F p ->
  exists w', rep w' a /\ interp prg w = (w', match path_end cx u d F p with
    | Ok n => if may_stat u (inode_at cx d n) then Ok (stat_of n (inode_at cx d n)) else Err MOFS_EACCES
    | Err e => Err e
    | Stuck => Stuck
    end).
Proof.
  intros d u prg Hvol Hr Hl [Hd Ht Hu Hlen Habs]. subst d u prg.
  set (r := match _ with Ok _ => _ | Err _ => _ | Stuck => _ end).
  destruct (run_wp_eq cx nblk (mofs_stat_core cx (Some p)) r a w a Hr Hl) as (w' & E & R); [|by exists w'].
  by apply (wp_stat cx nblk Hvol F).
Qed.

End handleprops.

(** ** Instances on the example volumes *)

Lemma ey_caller_path p : head p = Some slash -> blen p < 2 ^ 32 -> caller_path ex_cx 24 ey_a tx_files p.
Proof. intros Hh Hl. split; try done; [exact ey_disk_ok|exact ey_tree_ok]. Qed.

(** The first handle of [ey_a] is in use. *)
Definition rdwr_create : Z := Z.lor MOFS_OFLAG_RDWR MOFS_OFLAG_CREAT.


Lemma open_creates_file_witness : exists w' d' t,
  interp (mofs_open_core ex_cx (Some path_g) rdwr_create 0x1A4) ey_w = (w', Ok 1%nat) /\
  rep ex_cx 24 w' (set_afiles (<[1%nat := new_handle 5 rdwr_create]> fx_pool) (set_disk d' ey_a)) /\
  created ex_cx 24 ey_disk d' tx_files 2 name_g 5 (new_inode t 0x1A4 ex_user).
Proof.
  assert (Hf : free_inodes ex_cx ey_disk = [5]) by (vm_compute; reflexivity).
  pose proof (open_creates_file ex_cx 24 ey_w ey_a tx_files path_g 2 name_g rdwr_create 0x1A4 ex_vol ey_rep) as H.
  change (a_disk ey_a) with ey_disk in H. rewrite Hf in H. destruct H as (w' & d' & t & r & E & R & Hres & Ht & Hc).
  - vm_compute. reflexivity.
  - apply ey_path_call; [reflexivity|discriminate|reflexivity].
  - exists []. split; [vm_compute; reflexivity|]. split; [reflexivity|]. split; [vm_compute; reflexivity|reflexivity].
  - reflexivity.
  - reflexivity.
  - split; vm_compute; reflexivity.
  - reflexivity.
  - exists w', d', t. change (a_files ey_a) with fx_pool in *. change (a_caller ey_a) with ex_user in *.
    assert (Hr : r = Ok 1%nat) by (rewrite Hres; vm_compute; reflexivity). rewrite Hr in E, R.
    split; [exact E|]. split; [exact R|exact Hc].
Defined.

Lemma open_close_restores_witness : exists w',
  interp (h ← mofs_open_core ex_cx (Some path_he) MOFS_OFLAG_RDWR 0; mofs_close_core (Some h)) ey_w = (w', Ok tt) /\ rep ex_cx 24 w' ey_a.
Proof.
  apply (open_close_restores ex_cx 24 ey_w ey_a tx_files path_he MOFS_OFLAG_RDWR 0 3 1 ex_vol ey_rep).
  - vm_compute. reflexivity.
  - apply ey_caller_path; reflexivity.
  - vm_compute. reflexivity.
  - reflexivity.
  - vm_compute. reflexivity.
  - intros [|j] f Hj Hu; [injection Hj as <-; discriminate Hu|].
    change (replicate 63 zero_filehandle !! j = Some f) in Hj. by apply lookup_replicate_1 in Hj as [-> _].
Defined.

Lemma lseek_exact_witness : exists w',
  interp (lseek_core ex_cx 0 7 MOFS_SEEK_END) ey_w = (w', Ok 12) /\
  rep ex_cx 24 w' (set_afiles (<[0%nat := mkFile true 3 12 MOFS_OFLAG_RDWR]> fx_pool) ey_a).
Proof.
  pose proof (lseek_exact ex_cx 24 ey_w ey_a 0 fx_handle 7 MOFS_SEEK_END ex_vol ey_rep) as H.
  assert (Hb : seek_base ex_cx (a_disk ey_a) fx_handle MOFS_SEEK_END = Some 5) by (vm_compute; reflexivity).
  rewrite Hb in H. destruct H as (w' & [(_ & E & R)|(Hb' & _)]);
    [vm_compute; reflexivity|reflexivity|reflexivity|vm_compute; split; congruence..|exists w'; split; [exact E|exact R]|].
  exfalso. apply Hb'. lia.
Defined.

Lemma stat_exact_witness : exists w', rep ex_cx 24 w' ey_a /\
  interp (mofs_stat_core ex_cx (Some path_he)) ey_w = (w', Ok (stat_of 3 fx_inode)).
Proof.
  pose proof (stat_exact ex_cx 24 ey_w ey_a tx_files path_he ex_vol ey_rep) as H.
  destruct H as (w' & R & E).
  - vm_compute. reflexivity.
  - apply ey_caller_path; reflexivity.
  - exists w'. split; [exact R|]. rewrite E.
    assert (Hp : path_end ex_cx (a_caller ey_a) (a_disk ey_a) tx_files path_he = Ok 3) by (vm_compute; reflexivity).
    rewrite Hp. vm_compute. reflexivity.
Defined.

(** [mofs_unlink_core] does not look at the open handles: the inode of a file
    that is still open is given away again, and the old handle then reads the
    new file. *)
Example stale_handle_reads_new_file :
  (interp (mofs_unlink_core ex_cx (Some path_he);;
           h ← mofs_open_core ex_cx (Some path_g) rdwr_create 0x180;
           mofs_write_core ex_cx (Some h) (rev hello) 0 true;;
           mofs_read_core ex_cx (Some 0%nat) 5 0 false) ey_w).2 = Ok (rev hello).
Proof. vm_compute. reflexivity. Qed.
