(* ===== verification/MountProps.v ===== *)
(** * Properties of formatting and mounting

    From an arbitrary device to a mounted volume with the invariant of the
    file system, and through an unmount and back. *)

From Stdlib Require Import ZArith Lia.
From stdpp Require Import base list list_numbers.
From S2P Require Import Prelude Types Platform Raw Buffer BufferSpec Ops Bitmap Inode Block FileData Perm Dirent Path File Dir Format Core Posix Volume BlockSpec AllocSpec FreeSpec InodeSpec VolInv FileSpec FileInv PermSpec DirSpec PathSpec EntrySpec TreeSpec FsSpec FormatSpec MountSpec Fsck Ramdisk Example ExampleFile ExampleTree.

Section mountprops.
Context {P C : Type} `{!Platform P} `{!PlatformSpec P} `{!BlockDriver P C} `{!DriverSpec P C} `{!DriverLife P C}.
Abbreviation W := (world P C).

(** A device of [nblk] blocks of [bb] bytes with room for the metadata, the
    root directory and its list node. *)
Definition formattable (nblk bb : Z) : Prop :=
  let l := compute_layout (nblk * bb) bb in
  mofs_validate_logical_blk_size bb = 0 /\ 0 < nblk <= 2 ^ 27 - 4 /\ meta_reserved l + 1 < nblk /\ 3 <= l_inode_num l.

Lemma formattable_layout nblk bb : formattable nblk bb -> layout_ok (layout_superblock (compute_layout (nblk * bb) bb) bb) nblk.
Proof.
  intros (Hbb & Hn & Hm & Hi). pose proof (valid_blk_size_cases bb Hbb) as Hc.
  assert (Hr : 512 <= bb <= 65536) by (apply list_elem_of_In in Hc; simpl in Hc; lia).
  assert (Hdiv : nblk * bb / bb = nblk) by (apply Z.div_mul; lia).
  destruct (layout_sound bb (nblk * bb) Hbb) as (Hv & Hf & Hd & _ & Hdrs & Hhole); [split; [lia|apply Z.mul_le_mono_nonneg_r; lia]| |].
  { change (l_hole_blk_num (compute_layout (nblk * bb) bb)) with (nblk * bb / bb). rewrite Hdiv. lia. }
  rewrite Hdiv in Hv, Hhole. pose proof (Hv true None 0) as Hv0. split; try done.
  - pose proof (vo_inodes _ _ Hv0) as Hin. cbn [sp_blk] in Hin. cbn [inode_num layout_superblock] in *.
    assert (Hl : l_inode_num (compute_layout (nblk * bb) bb) < 2 ^ 32); [|rewrite u32_small; lia].
    cbn [l_inode_num compute_layout]. rewrite (u32_small (bb * 4)) by lia.
    assert (0 <= nblk * bb <= 2 ^ 27 * bb) by (split; [apply Z.mul_nonneg_nonneg; lia|apply Z.mul_le_mono_nonneg_r; lia]).
    rewrite u64_small by lia. apply Z.div_lt_upper_bound; lia.
  - pose proof (vo_end _ _ Hv0) as He. cbn [sp_blk] in He. lia.
Qed.

(** [mofs_format] with an explicit number of blocks. *)
Lemma format_ok (w : W) nblk bb : let sb := layout_superblock (compute_layout (nblk * bb) bb) bb in
  formattable nblk bb -> p_closed (w_plat w) -> blen (p_dev (w_plat w)) / bb = nblk -> exists p d d0 t,
  mofs_format (Some p_path) nblk bb w = (set_plat p w, Ok tt) /\ p_closed p /\ blen (p_dev p) = blen (p_dev (w_plat w)) /\
  dev_holds bb nblk (p_dev p) d /\ 0 <= t < 2 ^ 64 /\ (forall b, 0 <= b < nblk -> d b = formatted sb t d0 b) /\
  (forall b, 0 <= b < nblk -> blen (d0 b) = bb).
Proof.
  intros sb Hf Hcl Hsz. pose proof (formattable_layout nblk bb Hf) as Hlo. destruct Hf as (Hbb & Hn & Hm & _).
  destruct (layout_order _ _ Hlo) as (Hr & _). change (blk_size sb) with bb in Hr.
  assert (Hlen : nblk * bb <= blen (p_dev (w_plat w))) by (rewrite <- Hsz, Z.mul_comm; apply Z.mul_div_le; lia).
  destruct (p_open (w_plat w) MOFS_IO_OPEN_FLAG_RDWR Hcl eq_refl eq_refl) as (p1 & E1 & Hok1 & Hd1). set (fd := p_fd) in *. assert (Hfd : fd = p_fd) by done.
  set (d0 := fun b => bslice (b * bb) bb (p_dev (w_plat w))).
  assert (Hd0 : forall b, 0 <= b < nblk -> blen (d0 b) = bb).
  { intros b Hb. unfold d0. assert ((b + 1) * bb <= nblk * bb) by (apply Z.mul_le_mono_nonneg_r; lia).
    assert (0 <= b * bb) by (apply Z.mul_nonneg_nonneg; lia). rewrite length_bslice; lia. }
  assert (Hfmt : dwp (P:=P) (C:=C) bb nblk (format_device fd nblk bb) d0
    (fun _ d' => exists t, 0 <= t < 2 ^ 64 /\ forall b, 0 <= b < nblk -> d' b = formatted sb t d0 b)).
  { apply dwp_format_device; try done; [lia|]. intros t d' Ht Hd'. exists t. by split. }
  destruct (Hfmt (set_plat p1 w)) as (p2 & [] & d & E2 & Hok2 & Hl2 & Hh2 & t & Ht & Hd).
  { done. }
  { cbn. rewrite Hd1. by split. }
  destruct (p_close p2 fd Hok2 Hfd) as (p3 & E3 & Hcl3 & Hd3).
  exists p3, d, d0, t. split; [|cbn in Hl2; rewrite Hd1 in Hl2; rewrite Hd3; repeat (split; [done|]); done].
  unfold mofs_format. assert (E1' : dev_open (Some p_path) MOFS_IO_OPEN_FLAG_RDWR w = (set_plat p1 w, Ok fd)) by by apply plat_eq.
  rewrite (M_bind_ok _ _ _ _ _ E1').
  rewrite (M_bind_ok _ _ _ _ _ (attempt_ok _ _ _ _ E2)). unfold close_with, dev_close.
  by rewrite (M_bind_ok _ _ _ _ _ (attempt_ok _ _ _ _ (plat_eq _ (set_plat p2 w) _ _ E3))).
Qed.

(** C11: formatting makes a file system. On any device of a size that
    [mofs_format] has room for, formatting succeeds, and mounting the result
    succeeds with every block driver; the mounted volume satisfies the
    invariant [fs_ok] of the whole file system, and its only directory, the
    root, has no names. *)
Theorem format_then_mount (w : W) nblk bb :
  let sb := layout_superblock (compute_layout (nblk * bb) bb) bb in
  formattable nblk bb -> p_closed (w_plat w) -> blen (p_dev (w_plat w)) / bb = nblk -> drv_fresh (w_cache w) -> blen p_path + 1 < 2 ^ 32 ->
  exists w1 w2 fd d,
    mofs_format (Some p_path) nblk bb w = (w1, Ok tt) /\ mofs_init_core p_path false 0 0 w1 = (w2, Ok tt) /\
    let cx := mkCtx true (Some p_path) fd sb in
    vol_ok cx nblk /\ rep cx nblk w2 (mkAstate d (w_caller w) no_files no_dirs drv_is_cached) /\ drv_left w2 = MOFS_UINT64_MAX /\
    fs_ok cx nblk d (root_files sb) /\
    (forall n c, 0 <= n < inode_num sb -> is_dir cx d n = true -> c <> [] -> n = MOFS_ROOT_INODE_NUM /\ dir_lookup cx d (root_files sb) n c = None).
Proof.
  intros sb Hf Hcl Hsz Hfr Hpath. pose proof (formattable_layout nblk bb Hf) as Hlo. fold sb in Hlo.
  destruct (layout_order _ _ Hlo) as (Hr & Hib & Hdb & Hend). change (blk_size sb) with bb in Hr.
  destruct (format_ok w nblk bb Hf Hcl Hsz) as (p & d & d0 & t & E & Hcl' & Hl & Hh & Ht & Hd & Hd0). fold sb in Hd.
  assert (Hsmall : blen (p_dev p) < 2 ^ 64).
  { rewrite Hl. pose proof (Z.div_mod (blen (p_dev (w_plat w))) bb ltac:(lia)) as Hdm. pose proof (Z.mod_pos_bound (blen (p_dev (w_plat w))) bb ltac:(lia)).
    destruct Hf as (_ & Hn & _). rewrite Hsz in Hdm. assert (bb * nblk <= 65536 * 2 ^ 27) by nia. lia. }
  destruct (init_core_ok sb nblk d p_path (set_plat p w)) as (w2 & fd & E2 & Hfd & Hrep & Hleft); try done.
  { split; try done; [cbn; by rewrite Hl|].
    rewrite (Hd 0) by lia. unfold formatted. rewrite Z.eqb_refl. apply bslice_bsplice_same; [lia|by rewrite length_encode_superblock|].
    rewrite length_encode_superblock, length_zeros. change (blk_size sb) with bb. lia. }
  exists (set_plat p w), w2, fd, d. split; [done|]. split; [done|]. cbv zeta.
  split; [by apply layout_vol|]. split; [exact Hrep|]. split; [exact Hleft|]. split.
  - by apply (fresh_fs_ok (mkCtx true (Some p_path) fd sb) nblk d d0 t).
  - intros n c Hn Hdir Hc. rewrite (fresh_is_dir (mkCtx true (Some p_path) fd sb) nblk d d0 t) in Hdir by done. apply Z.eqb_eq in Hdir as ->.
    split; [done|]. apply (fresh_lookup (mkCtx true (Some p_path) fd sb) nblk d d0 t); try done.
    rewrite (fresh_is_dir (mkCtx true (Some p_path) fd sb) nblk d d0 t) by done. apply Z.eqb_refl.
Qed.

(** C33: unmounting loses nothing. A clean unmount of a mounted volume, with
    whatever is still in the cache, followed by a mount gives a volume with
    the same contents, block for block; handles and streams are gone. *)
Theorem unmount_mount_keeps (w : W) cx nblk a :
  rep cx nblk w a -> layout_ok (sp_blk cx) nblk -> magic (sp_blk cx) = MOFS_MAGIC_NUM ->
  bslice 0 sizeof_superblock (a_disk a 0) = encode_superblock (sp_blk cx) ->
  blen (p_dev (w_plat w)) / blk_size (sp_blk cx) = nblk -> blen (p_dev (w_plat w)) < 2 ^ 64 -> blen p_path + 1 < 2 ^ 32 ->
  exists w1 w2 fd,
    mofs_fini_core w = (w1, Ok tt) /\ ctx_init (w_ctx w1) = false /\ mofs_init_core p_path false 0 0 w1 = (w2, Ok tt) /\
    rep (mkCtx true (Some p_path) fd (sp_blk cx)) nblk w2 (mkAstate (a_disk a) (a_caller a) no_files no_dirs drv_is_cached).
Proof.
  intros Hr Hlo Hm Hsb Hsz H64 Hpath. destruct (layout_order _ _ Hlo) as (Hb & _).
  destruct (fini_core_ok cx nblk w a Hr ltac:(lia) Hsz) as (w1 & E1 & Hcl & Hfr & Hu & Hi & Hh & Hl).
  destruct (init_core_ok (sp_blk cx) nblk (a_disk a) p_path w1) as (w2 & fd & E2 & _ & Hrep & _); try done.
  { split; try done; by rewrite Hl. }
  exists w1, w2, fd. split_and!; try done. by rewrite <- Hu.
Qed.

End mountprops.

(** ** Instances on the memory device *)

Lemma ex_formattable : formattable 24 512.
Proof. split; [reflexivity|]. split; [split; reflexivity || discriminate|]. split; [reflexivity|discriminate]. Qed.

(** A machine with a blank device of 24 blocks. *)
Definition blank : world ramdisk bcache := ram_world (zeros (24 * 512)) (bcache_start 2).

Lemma blank_size : blen (p_dev (w_plat blank)) / 512 = 24.
Proof. vm_compute. reflexivity. Qed.

Lemma blank_fresh : drv_fresh (w_cache blank).
Proof. split; [reflexivity|discriminate]. Qed.

Lemma format_then_mount_witness :
  let sb := layout_superblock (compute_layout (24 * 512) 512) 512 in
  exists w1 w2 fd d,
    mofs_format (Some p_path) 24 512 blank = (w1, Ok tt) /\ mofs_init_core p_path false 0 0 w1 = (w2, Ok tt) /\
    let cx := mkCtx true (Some p_path) fd sb in
    vol_ok cx 24 /\ rep cx 24 w2 (mkAstate d (w_caller blank) no_files no_dirs drv_is_cached) /\ drv_left w2 = MOFS_UINT64_MAX /\
    fs_ok cx 24 d (root_files sb) /\
    (forall n c, 0 <= n < inode_num sb -> is_dir cx d n = true -> c <> [] -> n = MOFS_ROOT_INODE_NUM /\ dir_lookup cx d (root_files sb) n c = None).
Proof. exact (format_then_mount blank 24 512 ex_formattable I blank_size blank_fresh eq_refl). Defined.

Lemma unmount_mount_keeps_witness : exists w1 w2 fd,
  mofs_fini_core tx_w = (w1, Ok tt) /\ ctx_init (w_ctx w1) = false /\ mofs_init_core ram_path false 0 0 w1 = (w2, Ok tt) /\
  rep (mkCtx true (Some ram_path) fd ex_sb) 24 w2 (mkAstate tx_disk ex_user no_files no_dirs true).
Proof.
  apply (unmount_mount_keeps tx_w ex_cx 24 tx_a tx_rep).
  - exact (formattable_layout 24 512 ex_formattable).
  - reflexivity.
  - vm_compute. reflexivity.
  - vm_compute. reflexivity.
  - vm_compute. reflexivity.
  - reflexivity.
Defined.

(** ** A directory whose blocks are full

    The theorems on new names ([create_adds_file], [mkdir_adds_directory],
    [open_creates_file], [rename_moves], [add_entry_names]) ask that the
    directory has room ([has_room], [entry_room]).  Without it the calls report
    success and the name is lost, because [add_dir_entry] writes back the inode
    of the directory that it read before [allocate_data_block] changed it. *)

(** ["/x"] for the letter [x] with the number [k] after ["a"]. *)
Definition letter (k : nat) : cstr := [slash; byte.of_Z (97 + Z.of_nat k)].

(** A volume of 128 blocks of 512 bytes, formatted and mounted. *)
Definition mounted_128 : world ramdisk bcache :=
  (mofs_init_core p_path false 0 0 (mofs_format (Some p_path) 128 512 (ram_world (zeros (128 * 512)) (bcache_start 2))).1).1.

Definition o_creat : Z := Z.lor MOFS_OFLAG_RDWR MOFS_OFLAG_CREAT.

(** Make the file [p] and close it. *)
Definition touch (p : cstr) (w : world ramdisk bcache) : world ramdisk bcache :=
  let '(w, r) := mofs_open (Some p) o_creat 0x1A4 w in
  match r with Ok h => (mofs_close h w).1 | _ => w end.

(** A root directory with 15 files and the directory ["/a"], which holds
    ["/a/b"]: the 16 entries of its one block are in use. *)
Definition full_root : world ramdisk bcache :=
  let w := (mofs_mkdir (Some (letter 0)) 0x1ED mounted_128).1 in
  touch (letter 0 ++ letter 1) (fold_left (fun w k => touch (letter k) w) (seq 1 15) w).

(** What [mofs_stat] says of [p]. *)
Definition stat_error (p : cstr) (w : world ramdisk bcache) : option Z :=
  match mofs_stat (Some p) w with (w', Ok (z, _)) => if z =? 0 then None else Some (w_errno w') | _ => None end.

Example full_root_names : map (fun k => stat_error (letter k) full_root) (seq 0 16) = replicate 16 None /\ stat_error (letter 0 ++ letter 1) full_root = None.
Proof. split; vm_compute; reflexivity. Qed.

Example full_directory_loses_names :
  (let '(w, r) := mofs_open (Some (letter 16)) o_creat 0x1A4 full_root in r = Ok (Some 0%nat) /\ stat_error (letter 16) w = Some MOFS_ENOENT) /\
  (let '(w, r) := mofs_mkdir (Some (letter 16)) 0x1ED full_root in r = Ok 0 /\ stat_error (letter 16) w = Some MOFS_ENOENT) /\
  (let '(w, r) := mofs_rename (Some (letter 0 ++ letter 1)) (Some (letter 16)) full_root in
   r = Ok 0 /\ stat_error (letter 16) w = Some MOFS_ENOENT /\ stat_error (letter 0 ++ letter 1) w = Some MOFS_ENOENT).
Proof. vm_compute. repeat split; reflexivity. Qed.
