(* ===== verification/SyncProps.v ===== *)
(** * Properties of threads and the core lock

    Calls of posix.c made by several threads at once, with any block driver and
    any recursive mutex. *)

From Stdlib Require Import ZArith Lia.
From stdpp Require Import base list gmap.
From S2P Require Import Prelude Types Platform Linux Raw Buffer BufferSpec Ops LocalSpec Inode Dirent Posix Sync SyncSpec SerialSpec LockSpec Ramdisk Example ExampleFile ExampleTree.

(** ** The core lock on Zephyr *)

(** Locking and unlocking are what they are on Linux, so the theorems on
    threads hold for both; the lock of a system that was unmounted stays in
    use, and mounting again keeps the mutex. *)
Lemma zephyr_lock_same {K} `{!RecMutex K} (t : nat) (s : core_sync K) :
  zephyr_core_sync_lock t s = mofs_core_sync_lock t s /\ zephyr_core_sync_unlock t s = mofs_core_sync_unlock t s.
Proof. unfold zephyr_core_sync_lock, mofs_core_sync_lock, zephyr_core_sync_unlock, mofs_core_sync_unlock. by destruct (core_sync_ready s). Qed.

Lemma zephyr_remount_keeps_mutex {K} (fresh fresh' : K) r r' e e' s :
  (zephyr_core_sync_init fresh r e s).2 = 0 -> core_sync_ready (zephyr_core_sync_init fresh r e s).1 = true ->
  let s1 := zephyr_core_sync_fini (zephyr_core_sync_init fresh r e s).1 in zephyr_core_sync_init fresh' r' e' s1 = (s1, 0).
Proof. intros _ Hr s1. unfold s1, zephyr_core_sync_fini. unfold zephyr_core_sync_init at 1. by rewrite Hr. Qed.

(** ** The slots of [errno] *)

(** Every thread has a slot of its own, which is allocated. *)
Record slots_ok (s : errno_slots) : Prop := {
  so_live : forall t p, specific s !! t = Some p -> is_Some (ints s !! p);
  so_own : forall t u p, specific s !! t = Some p -> specific s !! u = Some p -> t = u
}.

(** The value of [errno] in thread [t]; it begins as 0. *)
Definition errno_of (s : errno_slots) (t : nat) : Z := default 0 (specific s !! t ≫= fun p => ints s !! p).

(** What a thread does with [errno]: assignments and reads of its own, and the
    end of the thread.  The [positive] is what the allocator returns. *)
Inductive errno_op :=
| ESet (t : nat) (p : positive) (err : Z)
| EGet (t : nat) (p : positive)
| EEnd (t : nat).

(** On the slots, with memory for them: the new slots and what a read returns. *)
Definition errno_step (o : errno_op) (s : errno_slots) : errno_slots * option Z :=
  match o with
  | ESet t p err => (posix_set_errno_slot t (Some p) true err s, None)
  | EGet t p => mofs_errno t (Some p) true s
  | EEnd t => (mofs_errno_key_destructor t s, None)
  end.

(** The same on a variable per thread. *)
Definition errno_spec (o : errno_op) (e : nat -> Z) : (nat -> Z) * option Z :=
  match o with
  | ESet t _ err => (fun u => if decide (u = t) then err else e u, None)
  | EGet t _ => (e, Some (e t))
  | EEnd t => (fun u => if decide (u = t) then 0 else e u, None)
  end.

(** The allocator returns an address that is not in use. *)
Definition fresh_slot (o : errno_op) (s : errno_slots) : Prop :=
  match o with ESet _ p _ | EGet _ p => ints s !! p = None | EEnd _ => True end.

Lemma location_ok t p s : slots_ok s -> ints s !! p = None ->
  let '(s1, location) := mofs_errno_location t (Some p) true s in
  slots_ok s1 /\ (forall u, errno_of s1 u = errno_of s u) /\
  exists q, location = Some q /\ specific s1 !! t = Some q /\ ints s1 !! q = Some (errno_of s t).
Proof.
  intros [Hl Ho] Hp. unfold mofs_errno_location, errno_of. destruct (specific s !! t) as [q|] eqn:Ht.
  { split; [done|]. split; [done|]. exists q. destruct (Hl t q Ht) as [x Hx]. simpl. by rewrite Hx. }
  assert (Hne : forall u q, specific s !! u = Some q -> q <> p) by (intros u q Hu ->; destruct (Hl u p Hu); congruence).
  split; [split|split].
  - intros u q. simpl. intros [[<- <-]|[Hne' Hu]]%lookup_insert_Some; [rewrite lookup_insert_eq; by eexists|].
    rewrite lookup_insert_ne by (intros ->; by eapply Hne). by eapply Hl.
  - intros u v q. simpl. intros [[<- <-]|[H1 Hu]]%lookup_insert_Some [[<- E]|[H2 Hv]]%lookup_insert_Some; [done|by exfalso; eapply Hne|by exfalso; eapply Hne; [exact Hu|]|by eapply Ho].
  - intros u. simpl. destruct (decide (u = t)) as [->|Hu]; [rewrite lookup_insert_eq; simpl; by rewrite lookup_insert_eq, Ht|].
    rewrite lookup_insert_ne by done. destruct (specific s !! u) as [q|] eqn:E; [|done]. simpl. rewrite lookup_insert_ne; [done|]. intros ->. by eapply Hne.
  - exists p. simpl. rewrite !lookup_insert_eq. done.
Qed.

(** As long as there is memory for them, the slots are a variable per thread
    (the field [t_errno] of [thread]): assignments are seen by the own thread
    only, and a thread that has assigned nothing reads 0. *)
Theorem errno_slots_refine (o : errno_op) (s : errno_slots) : slots_ok s -> fresh_slot o s ->
  slots_ok (errno_step o s).1 /\
  (forall t, errno_of (errno_step o s).1 t = (errno_spec o (errno_of s)).1 t) /\
  (errno_step o s).2 = (errno_spec o (errno_of s)).2.
Proof.
  intros Hs Hf. destruct o as [t p err|t p|t]; simpl in *.
  - unfold posix_set_errno_slot. pose proof (location_ok t p s Hs Hf) as H. destruct (mofs_errno_location _ _ _ _) as [s1 l].
    destruct H as ([Hl Ho] & He & q & -> & Hq & Hi). split; [split|split; [|done]]; simpl.
    + intros u r Hu. destruct (decide (r = q)) as [->|Hr]; [rewrite lookup_insert_eq; by eexists|]. rewrite lookup_insert_ne by done. by eapply Hl.
    + exact Ho.
    + intros u. rewrite <- He. unfold errno_of. simpl. destruct (decide (u = t)) as [->|Hu]; [rewrite Hq; simpl; by rewrite lookup_insert_eq|].
      destruct (specific s1 !! u) as [r|] eqn:E; [|done]. simpl. rewrite lookup_insert_ne; [done|]. intros ->. by eapply Hu, Ho.
  - unfold mofs_errno. pose proof (location_ok t p s Hs Hf) as H. destruct (mofs_errno_location _ _ _ _) as [s1 l].
    destruct H as (Hok & He & q & -> & Hq & Hi). done.
  - unfold mofs_errno_key_destructor. destruct Hs as [Hl Ho]. destruct (specific s !! t) as [q|] eqn:Ht.
    + assert (Hne : forall u r, u <> t -> specific s !! u = Some r -> r <> q) by (intros u r Hu E ->; by eapply Hu, Ho).
      split; [split|split; [|done]]; simpl.
      * intros u r [Hu E]%lookup_delete_Some. rewrite lookup_delete_ne by (apply not_eq_sym; eauto). by eapply Hl.
      * intros u v r [_ Hu]%lookup_delete_Some [_ Hv]%lookup_delete_Some. by eapply Ho.
      * intros u. unfold errno_of. simpl. destruct (decide (u = t)) as [->|Hu]; [by rewrite lookup_delete_eq|].
        rewrite lookup_delete_ne by done. destruct (specific s !! u) as [r|] eqn:E; [|done]. simpl. rewrite lookup_delete_ne; [done|]. apply not_eq_sym. by eauto.
    + split; [by split|]. split; [|done]. intros u. case_decide as Hu; [|done]. subst. unfold errno_of. by rewrite Ht.
Qed.

(** Without memory for the slot an error is lost, and reading [mofs_errno]
    follows a null pointer. *)
Example errno_without_memory :
  let s := mkSlots ∅ ∅ in posix_set_errno_slot 0 None true MOFS_ENOENT s = s /\ (mofs_errno 0 None true s).2 = None.
Proof. split; reflexivity. Qed.

(** The calls that read nothing of a handle outside the lock. *)
Definition self_contained (c : api) : bool :=
  match c with PRead _ _ | PWrite _ _ | PLseek _ _ _ | PFtruncate _ _ | PReaddir _ => false | _ => true end.

Section syncprops.
Context {P C K : Type} `{!Platform P} `{!BlockDriver P C} `{!LocalDriver P C} `{!RecMutex K} `{!RecMutexSpec K}.
Abbreviation W := (world P C).

(** C17: Mutual exclusion. Whatever the threads call and however they are
    scheduled, at most one of them is in its locked part, and exactly that one
    holds the core mutex: once for the call and once more for every nested lock
    of the inode functions that it has still to give back. *)
Theorem lock_excludes (w : W) (s : core_sync K) threads sched :
  core_sync_ready s = true -> (forall t, mutex_count (core_sync_mutex s) t = 0%nat) ->
  let m := exec sched (start w s threads) in
  (forall t u, inside_at m t = true -> inside_at m u = true -> t = u) /\
  (forall t, (0 < mutex_count (core_sync_mutex (m_sync m)) t)%nat <-> inside_at m t = true) /\
  forall t th v p, m_threads m !! t = Some th -> t_phase th = Inside v p -> exists n, nests n p /\ mutex_count (core_sync_mutex (m_sync m)) t = S n.
Proof.
  intros Hr Hf m.
  assert (Hok : lock_ok m) by (apply exec_invariant; [exact lock_ok_step|by apply lock_ok_start]).
  split; [apply (lo_excl m Hok)|]. split; [intros t; by apply count_inside|].
  intros t th v p Ht Hp. pose proof (lo_holds m Hok t th Ht) as H. unfold holds in H. by rewrite Hp in H.
Qed.

(** C18: Interleaved calls are atomic. After any schedule, the calls of the log
    (in the order in which they released the lock), each made without
    interruption from the outcome of its checks, give every thread the results
    and the [errno] it has. When nobody is in a locked part they give the shared
    state too; when a thread is, finishing its call from the shared state gives
    what the whole locked part gives from the state of the log. [mofs_readdir],
    which looks at its handle after the lock was released, is left out. *)
Theorem interleavings_serial (w : W) (s : core_sync K) threads sched :
  core_sync_ready s = true -> (forall t, mutex_count (core_sync_mutex s) t = 0%nat) ->
  (forall u cs, (u, cs) ∈ threads -> Forall (fun c => is_readdir c = false) cs) ->
  let m0 := start w s threads in
  let m := exec sched m0 in
  exists ws, replay api_from (m_log m) (m_world m0, m_threads m0) = Some (ws, view <$> m_threads m) /\
  ((forall t, inside_at m t = false) -> m_world m = ws) /\
  (forall t th c v p, m_threads m !! t = Some th -> head (t_todo th) = Some c -> t_phase th = Inside v p ->
     run_as th p (m_world m) = run_as th (api_body c v (w_ctx ws)) ws).
Proof.
  intros Hr Hf Hc m0 m.
  pose proof (follows_start api_from (fun c => is_readdir c = false) w s threads Hr Hf Hc) as Hstart.
  destruct (follows_exec api_from (fun c => is_readdir c = false) ltac:(done) ltac:(done) _ sched _ _ Hstart) as [ws H].
  exists ws. split; [exact (fo_replay _ _ _ _ _ H)|]. split; [exact (fo_free _ _ _ _ _ H)|exact (fo_inside _ _ _ _ _ H)].
Qed.

(** C6: Linearizability. When threads make calls that use their handles only
    under the lock and all have returned, the same functions of posix.c made one
    after another, in the order of the log, give the same shared state, the same
    results and the same [errno] of every thread. *)
Theorem calls_linearizable (w : W) (s : core_sync K) threads sched :
  core_sync_ready s = true -> (forall t, mutex_count (core_sync_mutex s) t = 0%nat) ->
  (forall u cs, (u, cs) ∈ threads -> Forall (fun c => self_contained c = true) cs) ->
  let m0 := start w s threads in
  let m := exec sched m0 in
  finished m -> replay (fun c _ => posix_call c) (m_log m) (m_world m0, m_threads m0) = Some (m_world m, m_threads m).
Proof.
  intros Hr Hf Hc m0 m Hfin. set (good := fun c => self_contained c = true). set (f := fun c (_ : res Z) => posix_call c).
  assert (Hx : forall c, good c -> is_readdir c = false) by (by intros []).
  assert (Hs : forall c chk (w w0 : W), good c -> api_check c w0 = chk -> f c chk w = api_from c chk w).
  { intros c chk w1 w0 Hg <-. unfold f. rewrite <- api_call_eq. unfold api_call. erewrite M_bind_ok by reflexivity. by destruct c. }
  destruct (follows_exec f good Hx Hs _ sched _ _ (follows_start f good w s threads Hr Hf Hc)) as [ws H].
  destruct (finished_view m (fo_lock _ _ _ _ _ H) Hfin) as [Hv Hno].
  assert (E : replay f (m_log m) (m_world m0, m_threads m0) = Some (ws, view <$> m_threads m)) by exact (fo_replay _ _ _ _ _ H).
  rewrite Hv in E. assert (Ew : m_world m = ws) by exact (fo_free _ _ _ _ _ H Hno). rewrite Ew. exact E.
Qed.

(** C19: No deadlock, no endless schedule. From every reachable state only
    finitely many steps can follow, in any order, and when no thread can make a
    step all calls have returned, unless the holder of the lock hangs in a walk
    along a block list that does not end. The nested locks of the inode functions
    never make their own thread wait, because the mutex is recursive (see
    [plain_mutex_deadlocks]). *)
Theorem calls_complete (w : W) (s : core_sync K) threads sched :
  core_sync_ready s = true -> (forall t, mutex_count (core_sync_mutex s) t = 0%nat) ->
  let m := exec sched (start w s threads) in
  Acc steps_to m /\ ((forall t, step t m = None) -> finished m \/ hung m).
Proof.
  intros Hr Hf m.
  assert (Hok : lock_ok m) by (apply exec_invariant; [exact lock_ok_step|by apply lock_ok_start]).
  split; [by apply steps_end|by apply stopped].
Qed.

End syncprops.

(** ** Instances *)

(** Nobody holds the lock of a process that has just mounted the volume. *)
Definition fresh_lock : core_sync rmutex := mkSync true None.

Lemma fresh_free t : mutex_count (core_sync_mutex fresh_lock) t = 0%nat.
Proof. done. Qed.

(** One thread creates the directory ["/g"] and asks for its attributes, the
    other removes the file ["/he"] and reads from a handle that is open on it. *)
Definition two_threads : list (mofs_user_ctx_t * list api) :=
  [(ex_user, [PMkdir (Some path_g) 0x1ED; PStat (Some path_g)]);
   (ex_user, [PUnlink (Some path_he); PPread (Some 0%nat) 2 0])].

(** The threads take turns. *)
Definition turns (n : nat) : list nat := Nat.iter n (fun l => 0%nat :: 1%nat :: l) [].

Definition ex_sched : list nat := turns 300.

Lemma two_threads_calls u cs : (u, cs) ∈ two_threads -> Forall (fun c => self_contained c = true) cs.
Proof. intros H. repeat (apply elem_of_cons in H as [[= -> ->]|H]; [repeat constructor|]). by apply elem_of_nil in H. Qed.

Lemma two_threads_no_readdir u cs : (u, cs) ∈ two_threads -> Forall (fun c => is_readdir c = false) cs.
Proof. intros H. repeat (apply elem_of_cons in H as [[= -> ->]|H]; [repeat constructor|]). by apply elem_of_nil in H. Qed.

(** Thread 0 is inside [mofs_read_inode], with the lock taken a second time. *)
Definition nested_sched : list nat := [0; 1; 0; 1; 0; 0; 0; 0; 0]%nat.

Lemma lock_excludes_witness :
  let m := exec nested_sched (start ey_w fresh_lock two_threads) in
  inside_at m 0 = true /\ inside_at m 1 = false /\ mutex_count (core_sync_mutex (m_sync m)) 0 = 2%nat /\ mutex_count (core_sync_mutex (m_sync m)) 1 = 0%nat.
Proof.
  destruct (lock_excludes ey_w fresh_lock two_threads nested_sched eq_refl fresh_free) as (Hex & Hcount & _). intros m. fold m in Hex, Hcount.
  assert (H0 : inside_at m 0 = true) by (vm_compute; reflexivity).
  assert (H1 : inside_at m 1 = false) by (destruct (inside_at m 1) eqn:H1; [discriminate (Hex 0%nat 1%nat H0 H1)|reflexivity]).
  split; [exact H0|]. split; [exact H1|]. split; [vm_compute; reflexivity|].
  destruct (mutex_count _ 1) eqn:Hc; [reflexivity|]. assert (H : inside_at m 1 = true) by (apply Hcount; lia). congruence.
Defined.

(** The first call of thread 0 has returned, the first call of thread 1 is
    inside: the replayed state has the one and not the other. *)
Definition mid_sched : list nat := turns 170.

Lemma interleavings_serial_witness : exists ws,
  let m := exec mid_sched (start ey_w fresh_lock two_threads) in
  inside_at m 1 = true /\
  replay api_from [(0%nat, Ok 0)] (shared ey_w, m_threads (start ey_w fresh_lock two_threads)) = Some (ws, view <$> m_threads m) /\
  forall th c v p, m_threads m !! 1%nat = Some th -> head (t_todo th) = Some c -> t_phase th = Inside v p ->
    run_as th p (m_world m) = run_as th (api_body c v (w_ctx ws)) ws.
Proof.
  destruct (interleavings_serial ey_w fresh_lock two_threads mid_sched eq_refl fresh_free two_threads_no_readdir) as (ws & E & _ & H).
  exists ws. intros m. fold m in E, H. split; [vm_compute; reflexivity|]. split; [|intros th c v p; apply H].
  assert (El : m_log m = [(0%nat, Ok 0)]) by (vm_compute; reflexivity). rewrite El in E. exact E.
Defined.

Lemma ex_finished : finished (exec ex_sched (start ey_w fresh_lock two_threads)).
Proof. vm_compute. repeat constructor. Qed.

Lemma calls_linearizable_witness :
  replay (fun c _ => posix_call c) [(0%nat, Ok 0); (1%nat, Ok 0); (0%nat, Ok 0); (1%nat, Ok 0)] (shared ey_w, m_threads (start ey_w fresh_lock two_threads)) =
  Some (m_world (exec ex_sched (start ey_w fresh_lock two_threads)), m_threads (exec ex_sched (start ey_w fresh_lock two_threads))).
Proof.
  pose proof (calls_linearizable ey_w fresh_lock two_threads ex_sched eq_refl fresh_free two_threads_calls ex_finished) as H.
  assert (E : m_log (exec ex_sched (start ey_w fresh_lock two_threads)) = [(0%nat, Ok 0); (1%nat, Ok 0); (0%nat, Ok 0); (1%nat, Ok 0)]) by (vm_compute; reflexivity).
  rewrite E in H. exact H.
Defined.

Lemma calls_complete_witness : Acc steps_to (start ey_w fresh_lock two_threads).
Proof. exact (proj1 (calls_complete ey_w fresh_lock two_threads [] eq_refl fresh_free)). Defined.

(** [mofs_read] takes the position before it takes the lock: two threads that
    read two bytes each from one handle can both get the first two, and the
    handle moves by two; one after another they get four. *)
Definition two_readers : list (mofs_user_ctx_t * list api) :=
  [(ex_user, [PRead (Some 0%nat) 2]); (ex_user, [PRead (Some 0%nat) 2])].

Definition results (ths : list thread) : list (list (api * api_ret)) := map t_done ths.

Example concurrent_reads_repeat_bytes :
  let m0 := start fx_w fresh_lock two_readers in
  let m := exec ex_sched m0 in
  results (m_threads m) =
    [[(PRead (Some 0%nat) 2, RBytes 2 (take 2 hello))]; [(PRead (Some 0%nat) 2, RBytes 2 (take 2 hello))]] /\
  handle_offset 0 (m_world m) = 2 /\
  option_map (fun s => results s.2) (replay (fun c _ => posix_call c) (m_log m) (m_world m0, m_threads m0)) =
    Some [[(PRead (Some 0%nat) 2, RBytes 2 (take 2 hello))]; [(PRead (Some 0%nat) 2, RBytes 2 (take 2 (drop 2 hello)))]].
Proof. intros m0 m. split; [vm_compute; reflexivity|]. split; vm_compute; reflexivity. Qed.

(** The functions of the threads library return their error and leave [errno]
    alone: when the mutex cannot be made and [errno] is 0, [mofs_core_sync_init]
    reports success without a lock. *)
Example failed_mutex_reported_as_success :
  mofs_core_sync_init (None : rmutex) 0 0 12 0 (mkSync false None) = (mkSync false None, 0).
Proof. reflexivity. Qed.

(** A mutex that its holder cannot take again. *)
Definition plain_mutex : Type := option nat.

#[local] Instance plain_mutex_ops : RecMutex plain_mutex := {
  mutex_lock := fun t k => match k with None => Some (Some t) | Some _ => None end;
  mutex_unlock := fun _ _ => None
}.

(** With it the first [mofs_read_inode] under the lock of a call waits for ever. *)
Example plain_mutex_deadlocks :
  let m := exec ex_sched (start ey_w (mkSync true (None : plain_mutex)) [(ex_user, [PStat (Some path_he)])]) in
  step 0 m = None /\ map t_todo (m_threads m) = [[PStat (Some path_he)]].
Proof. split; vm_compute; reflexivity. Qed.
