(* ===== verification/ToolsProps.v ===== *)
(** * Properties of the programs

    The arguments of the FUSE program, and the programs run on devices in
    memory: mkfs, and the Zephyr application with all its exercises, through
    the VFS adapter, the POSIX calls, the core, the cache and the Zephyr
    device layer. *)

From Stdlib Require Import ZArith Lia.
From stdpp Require Import base list.
From S2P Require Import Prelude Types Platform Linux Zephyr Raw Buffer BufferSpec Ops Path Format Core Posix Vfs Tools Ramdisk.

(** ** Arguments *)

Lemma fuse_args_full args d m dev mnt :
  fuse_args args (Some d) (Some m) = inr (Some dev, Some mnt) <-> args = [] /\ dev = d /\ mnt = m.
Proof.
  split; [|by intros (-> & -> & ->)]. destruct args as [|a r]; cbn; [by intros [= -> ->]|].
  destruct (_ || _); [done|]. by destruct (is_option a).
Qed.

(** [-h] and [--help] are options. *)
Lemma fuse_args_step a r d m : fuse_args (a :: r) d m = 
  if bool_decide (a = opt_h) || bool_decide (a = opt_help) then inl 0 else
  if is_option a then inl 1 else
  match d, m with None, _ => fuse_args r (Some a) m | Some _, None => fuse_args r d (Some a) | Some _, Some _ => inl 1 end.
Proof. done. Qed.

Lemma not_option_not_help a : is_option a = false -> bool_decide (a = opt_h) || bool_decide (a = opt_help) = false.
Proof. intros H. apply orb_false_iff. split; apply bool_decide_eq_false; intros ->; done. Qed.

(** The FUSE program starts [fuse_main] exactly when it is given two
    arguments that are no options: the device, which goes to the context, and
    the mount point, which follows the program name. *)
Theorem fuse_start_exact argv fuse_argv devfile :
  fuse_start argv = inr (fuse_argv, devfile) <->
  exists prog mount_point, argv = [prog; devfile; mount_point] /\ is_option devfile = false /\ is_option mount_point = false /\
    fuse_argv = [prog; mount_point].
Proof.
  unfold fuse_start. split.
  - destruct argv as [|prog [|d [|m r]]]; cbn [tail head default]; [done|done| |].
    + rewrite fuse_args_step. destruct (_ || _); [done|]. by destruct (is_option d).
    + rewrite fuse_args_step. destruct (_ || _); [done|]. destruct (is_option d) eqn:Hd; [done|].
      rewrite fuse_args_step. destruct (_ || _); [done|]. destruct (is_option m) eqn:Hm; [done|].
      destruct (fuse_args r (Some d) (Some m)) as [e|[[dev|] [mnt|]]] eqn:E; try done. apply fuse_args_full in E as (-> & -> & ->).
      intros [= <- <-]. by exists prog, m.
  - intros (prog & m & -> & Hd & Hm & ->). cbn [tail head default from_option id].
    rewrite !fuse_args_step, !not_option_not_help by done. by rewrite Hd, Hm.
Qed.

(** ** mkfs on a device in memory *)

Abbreviation rworld := (world ramdisk bcache).

(** A blank device of 24 blocks of 512 bytes. *)
Definition blank_ram : rworld := ram_world (zeros (24 * 512)) (bcache_start 2).

(** [mkfs -b 512 /dev], then a mount. *)
Example mkfs_then_mount :
  let r := mkfs_main [byte.of_Z <$> [109]; byte.of_Z <$> [45; 98]; byte.of_Z <$> [53; 49; 50]; ram_path] [OptBlock (byte.of_Z <$> [53; 49; 50])] 3 blank_ram in
  r.2 = Ok 0 /\ (mofs_init_core ram_path false 0 0 r.1).2 = Ok tt.
Proof. intros r. split; vm_compute; reflexivity. Qed.

(** [mkfs] without a device, and with a block size that is not allowed. *)
Example mkfs_failures :
  (mkfs_main [byte.of_Z <$> [109]] [] 1 blank_ram).2 = Ok 1 /\
  (mkfs_main [byte.of_Z <$> [109]; byte.of_Z <$> [45; 98]; byte.of_Z <$> [54; 48; 48]; ram_path] [OptBlock (byte.of_Z <$> [54; 48; 48])] 3 blank_ram).2 = Ok 1.
Proof. split; vm_compute; reflexivity. Qed.


Example atoi_512 : atoi (byte.of_Z <$> [32; 53; 49; 50; 120]) = 512.
Proof. vm_compute. reflexivity. Qed.

(** [atoi] wraps beyond 32 bits: [-s 4294967297] asks for one block. *)
Example atoi_wraps : atoi (byte.of_Z <$> [52; 50; 57; 52; 57; 54; 55; 50; 57; 55]) = 1.
Proof. vm_compute. reflexivity. Qed.

(** ** The Zephyr application on a disk in memory *)

Record bigdrive := mkBig { bd_sectors : list (list byte); bd_on : bool }.

(** Cut into sectors. *)
Fixpoint sectors (n : nat) (b : list byte) : list (list byte) :=
  match n with O => [] | S n' => take 512 b :: sectors n' (drop 512 b) end.

(** 256 sectors of 512 bytes. *)
#[global] Instance bigdrive_kernel : ZephyrKernel bigdrive := {
  disk_access_status := fun _ h => (h, mkStatus false false);
  disk_access_ioctl := fun _ c h =>
    match c with
    | CTRL_INIT => (mkBig (bd_sectors h) true, inr 0)
    | CTRL_DEINIT => (mkBig (bd_sectors h) false, inr 0)
    | CTRL_SYNC => (h, inr 0)
    | GET_SECTOR_SIZE => (h, inr 512)
    | GET_SECTOR_COUNT => (h, inr 256)
    end;
  disk_access_read := fun _ s n h => (h, inr (concat (bslice s n (bd_sectors h))));
  disk_access_write := fun _ b s n h => (mkBig (bsplice s (sectors (Z.to_nat n) b) (bd_sectors h)) (bd_on h), None);
  k_malloc := fun n h => (h, Some (zeros n));
  k_uptime_get := fun h => (h, 5000);
  k_mutex_init := fun h => (h, true);
  k_errno := fun _ => None
}.

Abbreviation bworld := (world (Zephyr.zstate bigdrive) bcache).

(** Zephyr's virtual file system with one mount. *)
#[global] Instance one_mount : VfsApi bworld fs_file fs_dir := {
  fs_file_init := mkFile None None (mkMode false false false false);
  fs_dir_init := mkDirp None None;
  fs_open := fun f path flags =>
    '(r, o) ← mofs_vfs_open (Some (mkFile (Some mofs_mnt) (filep f) (fs_flags f))) (Some path) flags;
    mret (r, match o with Some (mkFile mp h _) => mkFile mp h flags | None => f end);
  fs_close := fun f => '(r, o) ← mofs_vfs_close (Some f); mret (r, default f o);
  fs_read := fun f n => mofs_vfs_read (Some f) n;
  fs_write := fun f b => mofs_vfs_write (Some f) b;
  fs_seek := fun f off wh => mofs_vfs_lseek (Some f) off wh;
  fs_sync := fun f => mofs_vfs_sync (Some f);
  fs_mkdir := fun p => mofs_vfs_mkdir (Some mofs_mnt) (Some p);
  fs_unlink := fun p => mofs_vfs_unlink (Some mofs_mnt) (Some p);
  fs_rename := fun p q => mofs_vfs_rename (Some mofs_mnt) (Some p) (Some q);
  fs_stat := fun p e => mofs_vfs_stat 256 (Some mofs_mnt) (Some p) e;
  fs_opendir := fun d p => '(r, o) ← mofs_vfs_opendir (Some (mkDirp (Some mofs_mnt) (dirp d))) (Some p); mret (r, default d o);
  fs_readdir := fun d e => mofs_vfs_readdir 256 (Some d) e;
  fs_closedir := fun d => '(r, o) ← mofs_vfs_closedir (Some d); mret (r, default d o);
  fs_mount_vol := fun mp => mofs_mount (Some mp);
  fs_unmount_vol := fun _ => mofs_unmount
}.

Definition bd_world : bworld :=
  mkWorld (Zephyr.mkZ (mkBig (replicate 256 (zeros 512)) false) (replicate Zephyr.MOFS_DEV_SLOT_MAX Zephyr.zero_slot)) (mkUser 0 0 0 [] true)
    (mkCtx false None 0 (mkSuper 0 0 0 0 0 0 0 0 0)) (bcache_start 4) [] [] 0.

(** The application with both switches on: it formats the disk, mounts it,
    writes and reads back a file, makes, lists, renames and removes entries,
    unmounts, and reports success. *)
Example zephyr_self_test_passes :
  (vfs_main true true 100 (mkEntry [] FS_DIR_ENTRY_FILE 0) bd_world).2 = Ok 0.
Proof. vm_compute. reflexivity. Qed.

(** As it is configured. *)
Example zephyr_app_passes : (vfs_main false false 100 (mkEntry [] FS_DIR_ENTRY_FILE 0) bd_world).2 = Ok 0.
Proof. vm_compute. reflexivity. Qed.
